(* ===== verification/_CoqProject ===== *)
-Q . S2P
Prelude.v
GoStrings.v
Semver.v
KubeSync.v
ClusterTypes.v
Versioning.v
Startup.v
ClusterStatus.v
ClusterModel.v
ClusterDefaults.v
VersionUpgrade.v
StatefulSet.v
Syncers.v
IniFile.v
ConfigMap.v
GoTime.v
PodNames.v
OrcTopology.v
OrcReconcile.v
OrcConverge.v
OrcClient.v
NodeSQL.v
NodeController.v
OrcHelper.v
PVCs.v
MysqlQuery.v
MysqlObjects.v
Finalizers.v
OrcController.v
OrcTicker.v
Upgrades.v
UserController.v
DatabaseController.v
Registration.v
ClusterController.v
ClusterOrder.v
UpgradeProtocol.v
Backups.v
BackupController.v
BackupCron.v
SidecarConfig.v
PreStop.v
InitSQL.v
SidecarInit.v
SidecarClone.v
SidecarServer.v
SidecarMain.v
