(* ===== verification/Prelude.v ===== *)
(** * A verification development for the MySQL operator

    The operator (Go, under [src/]) runs MySQL clusters on Kubernetes: it turns a
    [MysqlCluster] resource into a stateful set, services and configuration,
    configures replication on each pod, keeps Orchestrator (which detects
    failures and promotes masters) and the status of the resource in step, rolls
    server versions forward, takes backups, and manages volumes, users and
    databases.  In each pod a sidecar prepares the data directory and the
    configuration of mysqld and serves backups.

    This library is a shallow embedding of its decision logic: Go functions are
    Rocq functions on records of the API types; fallible functions return
    [result]; handlers that talk to the API server, mysqld, Orchestrator or the
    file system are programs ([prog], below) over a type of calls, and what they
    are proved to do holds for every behaviour of the other side, failures
    included.

    ** Files, and the code they model

    Foundations:
    - [Prelude.v] (this file): errors, results, programs with effects, and the ways
      to reason on them: [triple] (Hoare triples on the history of calls), [emits]
      (which calls a program can make), [keeps]/[guarded] (which call may follow
      which), [serves] (runs against a server with a state), [lift] (a part whose
      calls are calls of the whole) and [handle] (a part whose calls are functions
      of a client).
    - [GoStrings.v], [GoTime.v]: the functions of Go's [strings], [strconv],
      [fmt] and [time] that the code uses, on bytes, with their integer widths.
    - [KubeSync.v]: the interfaces of the library that creates or updates objects
      ([ObjectSyncer], [CreateOrUpdate], [StateSyncer], [RetryOnConflict]), their
      laws, and a reference implementation of each.

    The cluster and its versions:
    - [Semver.v]: [pkg/util/semver], [pkg/util/mysqlversion].
    - [ClusterTypes.v]: [pkg/apis/mysql/v1alpha1] (the cluster), [pkg/apis/domain],
      [pkg/util/constants], and the Kubernetes types.
    - [Versioning.v]: [pkg/mysqlversioning] and the version part of [pkg/options]:
      release lines (profiles), images, server options, replication dialects,
      upgrade paths.
    - [Startup.v]: the options of the process, their flags, defaults and
      validation ([pkg/options]), as [cmd/mysql-operator] sets them up.
    - [ClusterStatus.v]: [pkg/internal/mysqlcluster/status.go]; [Module Conditions]
      is the update of a list of conditions, over the class [IsCondition].
    - [ClusterModel.v]: the rest of [pkg/internal/mysqlcluster]: names, hosts,
      labels, versions of a cluster, volumes, validation.
    - [ClusterDefaults.v]: [defaults.go] and [mysqlcluster_defaults.go].
    - [VersionUpgrade.v]: [pkg/controller/mysqlcluster/internal/versionupgrade].

    The cluster controller ([pkg/controller/mysqlcluster]):
    - [StatefulSet.v]: the callback for the stateful set.
    - [IniFile.v]: option files: what the library [go-ini] makes of keys, and how the
      text that it writes is read by MySQL.
    - [Syncers.v], [ConfigMap.v]: the callbacks for services, secrets, pods, the
      disruption budget, and for the configuration of mysqld.
    - [PVCs.v], [Upgrades.v]: the cleaner and the resizer of volume claims, and the
      upgrade of clusters of an old operator.
    - [ClusterController.v]: the whole run; [ClusterOrder.v]: the order of its calls.
    - [UpgradeProtocol.v]: upgrades as a protocol between the user, the controller, the
      stateful set and the pods.
    - [PreStop.v]: what the script of [config_map.go] does before a pod stops.

    Nodes and Orchestrator:
    - [PodNames.v]: the regular expressions on the names of pods.
    - [OrcTopology.v], [OrcReconcile.v]: [pkg/controller/orchestrator], the
      reconciler that works from what Orchestrator reports; [OrcConverge.v]: where
      its rounds lead when Orchestrator does what it is told.
    - [OrcClient.v]: [pkg/orchestrator], the HTTP client behind the calls of the
      reconciler.
    - [Finalizers.v], [OrcController.v], [OrcTicker.v]: the finalizer, the run of the
      controller, and the queue that feeds it, as a step relation.
    - [OrcHelper.v]: [pkg/orc-helper] and [cmd/orc-helper], the hooks that
      Orchestrator runs.
    - [NodeSQL.v], [NodeController.v]: [pkg/controller/node], which configures
      the mysqld of a pod.

    Users, databases and backups:
    - [MysqlQuery.v], [MysqlObjects.v], [UserController.v], [DatabaseController.v]:
      [pkg/internal/mysql], [pkg/internal/mysqluser], [pkg/internal/mysqldatabase]
      and the two controllers.
    - [Registration.v]: what each controller registers with the manager, and the start of
      the operator ([pkg/controller/controller.go], [cmd/mysql-operator]).
    - [Backups.v], [BackupController.v], [BackupCron.v]: the resource, the jobs that
      take and delete a backup, and the controllers of backups and of schedules.

    The sidecar ([pkg/sidecar]):
    - [SidecarConfig.v]: the configuration from the environment ([configs.go]).
    - [InitSQL.v]: a reader of the statements of the init file, and the status table
      that they change on a server.
    - [SidecarInit.v]: the init file and option files of mysqld ([appconf.go]).
    - [SidecarClone.v]: cloning data and taking a backup ([appclone.go],
      [apptakebackup.go]).
    - [SidecarServer.v]: the server that streams backups, its routes, and its limit on
      clients ([server.go]).
    - [SidecarMain.v]: the commands of the binary and the script of its image
      ([cmd/mysql-operator-sidecar]).

    ** How the parts interact

    The components share the cluster resource.  The cluster controller rolls the
    version that [VersionUpgrade.RolloutMySQLVersion] gives into the stateful
    set, through the callbacks of [KubeSync]; a restarted pod is configured by
    [NodeController.Reconcile], which needs the master that
    [ClusterModel.GetMasterHost] reads from the conditions of the nodes; those
    conditions are written by [OrcReconcile.Sync], which also fences the nodes in
    Orchestrator and holds back while the condition [FailoverInProgress] is set, as
    does the node controller.  Orchestrator sets that condition through [OrcHelper.failoverInProgress], with an alias that it reads
    from the host names that [SidecarInit] writes.  [OrcClient.Sync_requests] states
    the fencing on the requests that leave the operator.  The script of [PreStop] asks the same
    Orchestrator for a takeover, by the alias that [ClusterModel.GetClusterAlias] gives.

    The environment that [StatefulSet.getEnvFor] gives to a pod is read by
    [SidecarConfig.NewConfig]; the init file of [SidecarInit] leaves a marker in the
    database for which the node controller waits, and the GTIDs that it purges.  The
    job of [Backups] runs [SidecarClone.RunTakeBackupCommand], which reads from
    [SidecarServer.backupHandler] by a protocol of trailers, as does
    [SidecarClone.RunCloneCommand] for a new pod; the deletion job removes what the
    backup job wrote.  [BackupCron] creates the backups of a schedule.  The
    condition [Ready] that [Sync] writes gates the creation of users.

    ** What the theorems show

    - Versions never skip a release line and never go back: upgrade paths,
      the version of the stateful set, the observation of the data plane and the
      recording of the applied version ([Versioning], [VersionUpgrade]); and in a
      whole run of the cluster controller nothing but configuration is touched
      before the change of version was accepted ([ClusterOrder]).  However the user,
      the controller, Kubernetes and the pods interleave, the data of a pod goes through
      legal upgrades in order if versions are asked for only while no upgrade is under
      way and images have the versions they are used for (what a pod runs is its image;
      without this data skips versions, [image_skips]), and an accepted upgrade can be completed; the writes of the controller are
      steps of that protocol ([UpgradeProtocol]).
    - Fencing: in a whole round of [Sync] at most one host is made writable, it is
      a desired pod and the master that does not contradict the topology, and this
      holds of the HTTP requests that are sent; [DetermineMaster] is sound and
      complete for the inductive relation [leads]; rounds converge to a topology in
      which only the master is writable; every cluster, told apart by namespace and name, gets
      its round.
    - The hooks: the alias read on any pod leads to the resource of its cluster,
      and the mark of a failover holds the reconciler and the node controller back; a
      pod that stops hands its role over exactly when its own mysqld and Orchestrator
      both take it for a master with replicas ([PreStop]).
    - Registration: which event wakes which controller, and that nothing runs before the
      manager is started.
    - The status: an update of a condition refines the insertion into a finite
      map; the conditions of nodes and cluster are the functions of the topology
      that they should be; nodes of removed pods are dropped.
    - Order of calls: a node is marked as ready only after purged GTIDs and
      replication are settled, never during a failover; a user or database is
      reported as ready only once created, and its finalizer is released only once
      it is gone from the hosts of its status, or should stay; the same for backups and their remote data.
    - What is rolled out: the stateful set is well formed and stable under a second
      run, services select pods by role and health with one master at most,
      the text of [my.cnf] gives precedence to the user, passwords are drawn once.
    - Backups: taken to the place from which they are deleted; accepted only when
      the server ended without an error; moved to their place only when complete;
      a schedule is a finite map from clusters to entries ([BackupCron]); cloning
      never touches existing data.
    - The sidecar: a pod reads from its environment the host by which the
      controllers know it; the marker of the init file is there exactly when all
      statements were run; the containers of the stateful set and of the jobs run
      commands of the sidecar, with the exit codes that Kubernetes sees.  The server of
      [InitSQL] fails where MySQL does: on tables that exist or do not, and on values
      that do not fit.
    - Volumes: only claims of pods beyond the size of the cluster are deleted, and
      claims only grow.
    - SQL: escaped strings are read back unchanged, and queries have one argument
      for each placeholder.
    - Defaults and start: the options of the user are kept, no nil map is written,
      the buffer pool and the sizes that are printed stay within bounds; images and
      credentials come from flags, catalogue and environment in the documented
      order.

    ** Bounds and fuel

    Recursion that is not structural takes fuel: [nodeStatusIndex] (one nested
    call is enough, [GetNodeStatusIndex_total]), [getMasterForNode] (as many steps
    as there are instances, [getMasterForNode_terminates]).  The polling loops of
    [NodeSQL.v] are bounded by the timeout of the context: 120 turns of at least
    one second in 2 minutes; a new pod polls the service it clones from 5 times
    ([SidecarClone.pollTurns]).  Integers that the code converts are wrapped to
    their width ([wrap32], [wrap64]); the queue of the Orchestrator controller has the capacity
    of the channel, 1024.

    ** What is left out

    Logging, metrics, the timeouts and the shutdown of the sidecar's server, the
    connection behind a call to mysqld; generated code (deep copies), fakes and tests.

    Libraries are parameters, each with the laws that the code relies on and a
    reference instance with which the examples compute: [Blang] (versions),
    [Resource] (quantities), [JSON] (decoding into structures), the syncers of
    [KubeSync], [FinalizerMeta], [PodDefaults], [IniLib], [IntStr], [ControllerRef],
    [MergePodSpec], [JobOwner], [Cron], [ScheduleParser], [Sorter], [Cobra] (command lines)
    and the event handlers of [Registration]. *)

From stdpp Require Export prelude strings gmap pretty sorting.
From Stdlib Require Export Ascii.

(** ** Errors

    Go's [error] interface.  The constructors are the dynamic types that the
    code inspects ([IsHoldRollout], [IsUpgradeBlocked], [apierrors.IsNotFound],
    [apierrors.IsForbidden], [orc.IsNotFound], [IsPodNotFound],
    [syncer.ErrIgnore]); every other error is a [fmt.Errorf]/[errors.New]
    message. *)
Inductive error :=
  | ErrMsg (msg : string)
  | ErrAPI (notFound : bool) (kind : string) (msg : string)
  | ErrForbidden (msg : string)
  | ErrOrc (msg : string)
  | ErrHoldRollout (reason : string)
  | ErrUpgradeBlocked (reason : string)
  | ErrPodNotFound
  | ErrIgnore.

#[export] Instance error_eq_dec : EqDecision error.
Proof. solve_decision. Defined.

(** [err.Error()]. *)
Definition error_text (e : error) : string :=
  match e with
  | ErrMsg m | ErrForbidden m | ErrOrc m | ErrHoldRollout m | ErrUpgradeBlocked m => m
  | ErrAPI _ _ m => m
  | ErrPodNotFound => "pod not found"
  | ErrIgnore => "ignored"
  end.

(** [apierrors.IsNotFound]. *)
Definition is_not_found (e : error) : bool :=
  match e with ErrAPI nf _ _ => nf | _ => false end.

(** [apierrors.IsForbidden]. *)
Definition is_forbidden (e : error) : bool :=
  match e with ErrForbidden _ => true | _ => false end.

(** The result of a Go function that returns [(A, error)]. *)
Inductive result (A : Type) :=
  | Ok (a : A)
  | Err (e : error).
Arguments Ok {A} a.
Arguments Err {A} e.

#[export] Instance result_eq_dec `{EqDecision A} : EqDecision (result A).
Proof. solve_decision. Defined.

#[export] Instance result_ret : MRet result := λ A, Ok.
#[export] Instance result_bind : MBind result := λ A B f m,
  match m with Ok a => f a | Err e => Err e end.

Definition is_ok {A} (r : result A) : bool :=
  match r with Ok _ => true | Err _ => false end.

(** Go's [if p(a) { a = f(a) }]. *)
Definition when {A} (p : A → bool) (f : A → A) (a : A) : A := if p a then f a else a.

Lemma when_keeps {A B} (g : A → B) p f a : (∀ a, g (f a) = g a) → g (when p f a) = g a.
Proof. intros H. unfold when. destruct (p a); auto. Qed.

(** ** Programs with effects

    A handler talks to the outside world (the Kubernetes API server, MySQL,
    Orchestrator, the event recorder) by calls of a type [Op]; a call [o] is
    answered with a value of [Resp o].  Nothing is known of the world: it is an
    arbitrary function of the calls made so far and of the answers they got, so
    a theorem about a handler holds for every behaviour of the other side,
    including failures that come and go. *)
Class Effect (Op : Type) := Resp : Op → Type.

(** A call together with its answer. *)
Record event (Op : Type) `{Effect Op} := Ev { ev_op : Op; ev_resp : Resp ev_op }.
Arguments Ev {Op _} ev_op ev_resp.
Arguments ev_op {Op _} e.
Arguments ev_resp {Op _} e.

Definition world (Op : Type) `{Effect Op} := list (event Op) → ∀ o : Op, Resp o.

Definition prog (Op : Type) `{Effect Op} (A : Type) :=
  world Op → list (event Op) → A * list (event Op).

#[export] Instance prog_ret `{Effect Op} : MRet (prog Op) := λ A a w h, (a, h).
#[export] Instance prog_bind `{Effect Op} : MBind (prog Op) := λ A B f m w h,
  f (m w h).1 w (m w h).2.

(** One call: the answer of the world, and the call added to the history. *)
Definition call `{Effect Op} (o : Op) : prog Op (Resp o) := λ w h,
  (w h o, h ++ [Ev o (w h o)]).

(** Go's [if err := ...; err != nil { return err }]: run the rest unless the
    first part failed. *)
Definition try `{Effect Op} {A B} (m : prog Op (result A))
    (k : A → prog Op (result B)) : prog Op (result B) :=
  mbind (λ r, match r with Ok a => k a | Err e => mret (Err e) end) m.

(** [for _, x := range xs { body }], without an early return. *)
Fixpoint for_each `{Effect Op} {A} (xs : list A) (body : A → prog Op unit) :
    prog Op unit :=
  match xs with
  | [] => mret tt
  | x :: xs => mbind (λ _, for_each xs body) (body x)
  end.

(** [for _, x := range xs { if err := body(x); err != nil { return err } }]. *)
Fixpoint for_each_err `{Effect Op} {A} (xs : list A)
    (body : A → prog Op (result unit)) : prog Op (result unit) :=
  match xs with
  | [] => mret (Ok tt)
  | x :: xs => try (body x) (λ _, for_each_err xs body)
  end.

(** The result of a program, and the calls it makes with their answers. *)
Definition run `{Effect Op} {A} (m : prog Op A) (w : world Op) : A := (m w []).1.
Definition trace `{Effect Op} {A} (m : prog Op A) (w : world Op) :
  list (event Op) := (m w []).2.
Definition trace_ops `{Effect Op} {A} (m : prog Op A) (w : world Op) : list Op :=
  ev_op <$> trace m w.

Notation "x <-? m ; k" := (try m (λ x, k))
  (at level 20, m at level 100, k at level 200) : stdpp_scope.
Notation "' x <-? m ; k" := (try m (λ x, k))
  (at level 20, x pattern, m at level 100, k at level 200) : stdpp_scope.

(** *** Reasoning

    [triple P m Q]: from a history that satisfies [P], whatever the world
    answers, [m] returns a value and leaves a history that satisfy [Q]. *)
Definition triple `{Effect Op} {A} (P : list (event Op) → Prop) (m : prog Op A)
    (Q : A → list (event Op) → Prop) : Prop :=
  ∀ w h, P h → Q (m w h).1 (m w h).2.

(** [emits E Q m]: [m] only adds calls that satisfy [E], and returns a value
    that satisfies [Q]. *)
Definition emits `{Effect Op} {A} (E : event Op → Prop) (Q : A → Prop)
    (m : prog Op A) : Prop :=
  ∀ w h, ∃ t, (m w h).2 = h ++ t ∧ Forall E t ∧ Q (m w h).1.

Create HintDb emits.

Section Triples.
Context {Op : Type} `{!Effect Op}.
Implicit Types (h : list (event Op)) (E : event Op → Prop).

Lemma triple_ret {A} (P : list (event Op) → Prop) (a : A) (Q : A → _ → Prop) :
  (∀ h, P h → Q a h) → triple P (mret a) Q.
Proof. intros H w h HP. by apply H. Qed.

Lemma triple_bind {A B} P (R : A → list (event Op) → Prop) Q m (f : A → prog Op B) :
  triple P m R → (∀ a, triple (R a) (f a) Q) → triple P (m ≫= f) Q.
Proof. intros Hm Hf w h HP. apply Hf, Hm, HP. Qed.

Lemma triple_call P (o : Op) Q :
  (∀ h r, P h → Q r (h ++ [Ev o r])) → triple P (call o) Q.
Proof. intros H w h HP. by apply H. Qed.

Lemma triple_try {A B} P (R : A → list (event Op) → Prop) Q
    (m : prog Op (result A)) (f : A → prog Op (result B)) :
  triple P m (λ r h, match r with Ok a => R a h | Err e => Q (Err e) h end) →
  (∀ a, triple (R a) (f a) Q) → triple P (try m f) Q.
Proof.
  intros Hm Hf. eapply triple_bind; [exact Hm|]. intros [a|e].
  - apply Hf.
  - by apply triple_ret.
Qed.

Lemma triple_conseq {A} (P P' : list (event Op) → Prop) Q (Q' : A → _ → Prop) m :
  triple P' m Q' → (∀ h, P h → P' h) → (∀ a h, Q' a h → Q a h) → triple P m Q.
Proof. intros Hm HP HQ w h Hh. by apply HQ, Hm, HP. Qed.

Lemma triple_for_each {A} (I : list (event Op) → Prop) (xs : list A) body :
  (∀ x, x ∈ xs → triple I (body x) (λ _, I)) →
  triple I (for_each xs body) (λ _, I).
Proof.
  induction xs as [|x xs IH]; intros Hb; [by apply triple_ret|].
  eapply triple_bind; [apply Hb; by left|]. intros ?.
  apply IH. intros y ?. apply Hb. by right.
Qed.

Lemma triple_trace {A} (m : prog Op A) (Q : A → list (event Op) → Prop) w :
  triple (λ h, h = []) m Q → Q (run m w) (trace m w).
Proof. intros H. by apply H. Qed.

Lemma emits_ret {A} E (Q : A → Prop) (a : A) : Q a → emits E Q (mret a).
Proof. intros HQ w h. exists []. by rewrite app_nil_r. Qed.

Lemma emits_bind {A B} E (R : A → Prop) Q m (f : A → prog Op B) :
  emits E R m → (∀ a, R a → emits E Q (f a)) → emits E Q (m ≫= f).
Proof.
  intros Hm Hf w h. destruct (Hm w h) as (t1 & Ht1 & HE1 & HR).
  destruct (Hf _ HR w (m w h).2) as (t2 & Ht2 & HE2 & HQ).
  exists (t1 ++ t2). unfold mbind, prog_bind. split_and!; [|by apply Forall_app|exact HQ].
  by rewrite Ht2, Ht1, <-(assoc_L (++)).
Qed.

Lemma emits_call E (o : Op) (Q : Resp o → Prop) :
  (∀ r, E (Ev o r) ∧ Q r) → emits E Q (call o).
Proof.
  intros H w h. exists [Ev o (w h o)]. split_and!; [done| |apply H].
  constructor; [apply H|constructor].
Qed.

Lemma emits_try {A B} E (R : A → Prop) Q (m : prog Op (result A))
    (f : A → prog Op (result B)) :
  emits E (λ r, match r with Ok a => R a | Err e => Q (Err e) end) m →
  (∀ a, R a → emits E Q (f a)) → emits E Q (try m f).
Proof.
  intros Hm Hf. eapply emits_bind; [exact Hm|]. intros [a|e] Ha.
  - by apply Hf.
  - by apply emits_ret.
Qed.

Lemma emits_weaken {A} (E E' : event Op → Prop) (Q Q' : A → Prop) m :
  emits E' Q' m → (∀ e, E' e → E e) → (∀ a, Q' a → Q a) → emits E Q m.
Proof.
  intros Hm HE HQ w h. destruct (Hm w h) as (t & ? & Ht & ?).
  exists t. split_and!; [done| |by apply HQ]. eapply Forall_impl; eauto.
Qed.

Lemma emits_for_each {A} E (xs : list A) body :
  (∀ x, x ∈ xs → emits E (λ _, True) (body x)) →
  emits E (λ _, True) (for_each xs body).
Proof.
  induction xs as [|x xs IH]; intros Hb; [by apply emits_ret|].
  eapply emits_bind; [apply Hb; by left|]. intros ? _.
  apply IH. intros y ?. apply Hb. by right.
Qed.

Lemma emits_for_each_err {A} E (xs : list A) body :
  (∀ x, x ∈ xs → emits E (λ _, True) (body x)) →
  emits E (λ _, True) (for_each_err xs body).
Proof.
  induction xs as [|x xs IH]; intros Hb; [by apply emits_ret|].
  eapply (emits_try _ (λ _, True)).
  - eapply emits_weaken; [apply Hb; by left|done|]. by intros [].
  - intros ? _. apply IH. intros y ?. apply Hb. by right.
Qed.

Lemma emits_trace {A} E Q (m : prog Op A) w :
  emits E Q m → Forall E (trace m w) ∧ Q (run m w).
Proof.
  intros H. destruct (H w []) as (t & Ht & HE & HQ).
  unfold trace, run. by rewrite Ht.
Qed.

(** *** The order of the calls

    [guarded R h]: every call of [h] is allowed by the calls before it. *)
Definition guarded (R : event Op → list (event Op) → Prop) (h : list (event Op)) : Prop :=
  ∀ h1 e h2, h = h1 ++ e :: h2 → R e h1.

(** A fact about the past stays true. *)
Definition stable (F : list (event Op) → Prop) : Prop := ∀ h e, F h → F (h ++ [e]).

Lemma guarded_nil R : guarded R [].
Proof. intros [|x h1] e h2 Heq; discriminate Heq. Qed.

Lemma guarded_snoc R h e : guarded R h → R e h → guarded R (h ++ [e]).
Proof.
  intros Hg He h1 e' h2 Heq.
  destruct h2 as [|x h2 _] using rev_ind.
  - apply app_inj_tail in Heq as [-> ->]. exact He.
  - rewrite app_comm_cons, (assoc_L (++)) in Heq. apply app_inj_tail in Heq as [-> _]. by eapply Hg.
Qed.

Lemma stable_elem e : stable (λ h, e ∈ h).
Proof. intros h e' Hin. apply elem_of_app. by left. Qed.

Lemma stable_and F G : stable F → stable G → stable (λ h, F h ∧ G h).
Proof. intros HF HG h e [? ?]. split; [by apply HF|by apply HG]. Qed.

Lemma stable_or F G : stable F → stable G → stable (λ h, F h ∨ G h).
Proof. intros HF HG h e [?|?]; [left; by apply HF|right; by apply HG]. Qed.

Lemma stable_exists {A} (F : A → list (event Op) → Prop) :
  (∀ a, stable (F a)) → stable (λ h, ∃ a, F a h).
Proof. intros HF h e [a ?]. exists a. by apply HF. Qed.

Lemma stable_const (P : Prop) : stable (λ _, P).
Proof. by intros h e HP. Qed.

Lemma stable_imp (P : Prop) F : stable F → stable (λ h, P → F h).
Proof. intros HF h e H HP. by apply HF, H. Qed.

(** [keeps R P m Y]: run after calls that satisfy [P] (and any further stable
    fact, which stays true), [m] makes only calls that [R] allows, and returns
    a value that satisfies [Y] together with the calls made so far. *)
Definition keeps {A} R (P : list (event Op) → Prop) (m : prog Op A)
    (Y : A → list (event Op) → Prop) : Prop :=
  ∀ F, stable F → (∀ h, F h → P h) →
  triple (λ h, guarded R h ∧ F h) m (λ a h, guarded R h ∧ F h ∧ Y a h).

Lemma keeps_ret {A} R P (a : A) (Y : A → list (event Op) → Prop) :
  (∀ h, P h → Y a h) → keeps R P (mret a) Y.
Proof. intros H F _ HFP. apply triple_ret. intros h [? ?]. split_and!; auto. Qed.

Lemma keeps_call R P (o : Op) (Y : Resp o → list (event Op) → Prop) :
  (∀ r h, P h → R (Ev o r) h) → (∀ r h, P h → Y r (h ++ [Ev o r])) →
  keeps R P (call o) Y.
Proof.
  intros HR HY F HF HFP. apply triple_call. intros h r [Hg HFh].
  split_and!; [apply guarded_snoc; auto|by apply HF|auto].
Qed.

Lemma keeps_weaken {A} R P P' (m : prog Op A) (Y Y' : A → list (event Op) → Prop) :
  keeps R P' m Y' → (∀ h, P h → P' h) → (∀ a h, Y' a h → Y a h) → keeps R P m Y.
Proof.
  intros Hm HP HY F HF HFP. eapply triple_conseq; [apply (Hm F HF)|done|].
  - auto.
  - intros a h (? & ? & ?). auto.
Qed.

Lemma keeps_bind {A B} R P X (m : prog Op A) (f : A → prog Op B) Y :
  keeps R P m X → (∀ a, stable (X a)) →
  (∀ a, keeps R (λ h, P h ∧ X a h) (f a) Y) → keeps R P (m ≫= f) Y.
Proof.
  intros Hm HX Hf F HF HFP. eapply triple_bind; [by apply Hm|]. intros a.
  eapply triple_conseq; [apply (Hf a (λ h, F h ∧ X a h))| |].
  - by apply stable_and.
  - intros h [? ?]. auto.
  - auto.
  - intros b h (? & [? ?] & ?). auto.
Qed.

Lemma keeps_try {A B} R P X (m : prog Op (result A)) (f : A → prog Op (result B)) Y :
  keeps R P m X → (∀ a, stable (X a)) →
  (∀ a, keeps R (λ h, P h ∧ X (Ok a) h) (f a) Y) →
  (∀ e h, P h → X (Err e) h → Y (Err e) h) → keeps R P (try m f) Y.
Proof.
  intros Hm HX Hf He. eapply keeps_bind; [exact Hm|done|]. intros [a|e]; [apply Hf|].
  apply keeps_ret. intros h [? ?]. auto.
Qed.

(** What held before still holds after. *)
Lemma keeps_post {A} R P (m : prog Op A) Y :
  keeps R P m Y → keeps R P m (λ a h, P h ∧ Y a h).
Proof.
  intros Hm F HF HFP. eapply triple_conseq; [by apply (Hm F)|done|].
  intros a h (? & ? & ?). auto.
Qed.

(** A fact that does not speak of the past can be assumed. *)
Lemma keeps_static {A} R P (φ : Prop) (m : prog Op A) Y :
  (φ → keeps R P m Y) → keeps R (λ h, P h ∧ φ) m Y.
Proof.
  intros Hm F HF HFP w h [Hg HFh]. destruct (HFP h HFh) as [_ Hφ].
  apply (Hm Hφ F HF); [|done]. intros h' Hh'. by apply HFP.
Qed.

Lemma keeps_for_each_err {A} R P (xs : list A) (body : A → prog Op (result unit)) :
  (∀ x, x ∈ xs → keeps R P (body x) (λ _ _, True)) →
  keeps R P (for_each_err xs body) (λ _ _, True).
Proof.
  induction xs as [|x xs IH]; intros Hb; [by apply keeps_ret|].
  apply (keeps_try _ _ (λ _ _, True)); [apply Hb; left|intros ?; exact (stable_const True)| |done].
  intros ?. eapply keeps_weaken; [apply IH|by intros h [? _]|done].
  intros y Hy. apply Hb. by right.
Qed.

Lemma keeps_run {A} R (m : prog Op A) Y w :
  keeps R (λ _, True) m Y → guarded R (trace m w) ∧ Y (run m w) (trace m w).
Proof.
  intros Hm.
  destruct (Hm (λ _, True) (stable_const True) (λ _ _, I) w []) as (Hg & _ & HY).
  - split; [apply guarded_nil|done].
  - split; [exact Hg|exact HY].
Qed.

End Triples.

(** *** A world with a state

    [serves m s a s']: against a server that answers by [answer] and whose state
    changes by [step], [m] run in the state [s] returns [a] and leaves [s']. *)
Section Servers.
Context {Op : Type} `{!Effect Op} {S : Type}.
Context (answer : S → ∀ o : Op, Resp o) (step : S → event Op → S).

Definition serverState (s : S) (h : list (event Op)) : S := foldl step s h.
Definition serverWorld (s : S) : world Op := λ h o, answer (serverState s h) o.

(** From the history [h] on, [w] is the server in the state [s]. *)
Definition agrees (w : world Op) (h : list (event Op)) (s : S) : Prop :=
  ∀ t o, w (h ++ t) o = answer (serverState s t) o.

Definition serves {A} (m : prog Op A) (s : S) (a : A) (s' : S) : Prop :=
  ∀ w h, agrees w h s →
    (m w h).1 = a ∧ ∃ t, (m w h).2 = h ++ t ∧ serverState s t = s'.

Lemma agrees_app w h s t : agrees w h s → agrees w (h ++ t) (serverState s t).
Proof.
  intros Hw t' o. rewrite <-(assoc_L (++)), Hw. unfold serverState. by rewrite foldl_app.
Qed.

Lemma serves_ret {A} (a : A) s : serves (mret a) s a s.
Proof. intros w h Hw. split; [done|]. exists []. by rewrite app_nil_r. Qed.

Lemma serves_call (o : Op) s a s' :
  answer s o = a → step s (Ev o a) = s' → serves (call o) s a s'.
Proof.
  intros <- Hs w h Hw. pose proof (Hw [] o) as E. rewrite app_nil_r in E. simpl in E.
  unfold call. simpl. rewrite E. split; [done|]. by exists [Ev o (answer s o)].
Qed.

Lemma serves_bind {A B} (m : prog Op A) (f : A → prog Op B) s a s1 b s2 :
  serves m s a s1 → serves (f a) s1 b s2 → serves (m ≫= f) s b s2.
Proof.
  intros Hm Hf w h Hw. destruct (Hm w h Hw) as (Ha & t & Ht & <-).
  unfold mbind, prog_bind. rewrite Ha, Ht.
  destruct (Hf w (h ++ t) (agrees_app _ _ _ _ Hw)) as (Hb & t' & -> & <-).
  split; [done|]. exists (t ++ t'). unfold serverState. by rewrite (assoc_L (++)), foldl_app.
Qed.

Lemma serves_try {A B} (m : prog Op (result A)) (f : A → prog Op (result B)) s a s1 b s2 :
  serves m s (Ok a) s1 → serves (f a) s1 b s2 → serves (try m f) s b s2.
Proof. intros Hm Hf. by eapply serves_bind. Qed.

Lemma serves_try_err {A B} (m : prog Op (result A)) (f : A → prog Op (result B)) s e s1 :
  serves m s (Err e) s1 → serves (try m f) s (Err e) s1.
Proof. intros Hm. eapply serves_bind; [exact Hm|]. apply serves_ret. Qed.

(** A loop, its state being followed by [f]. *)
Lemma serves_for_each {A} (f : S → A → S) (xs : list A) body s :
  (∀ x s, x ∈ xs → serves (body x) s tt (f s x)) →
  serves (for_each xs body) s tt (foldl f s xs).
Proof.
  revert s. induction xs as [|x xs IH]; intros s Hb; [apply serves_ret|].
  eapply serves_bind; [apply Hb; by left|]. apply IH. intros y s' ?. apply Hb. by right.
Qed.

Lemma serves_run {A} (m : prog Op A) s a s' :
  serves m s a s' → run m (serverWorld s) = a ∧ serverState s (trace m (serverWorld s)) = s'.
Proof.
  intros H. destruct (H (serverWorld s) []) as (Ha & t & Ht & Hs); [by intros t o|].
  split; [done|]. unfold trace. by rewrite Ht.
Qed.

End Servers.

(** *** Effects of a part

    A handler that uses another one as a part: the calls of the part ([Op1]) are
    calls of the whole ([Op2]), with the same answers. *)
Class Embeds (Op1 Op2 : Type) `{!Effect Op1, !Effect Op2} := {
  embed : Op1 → Op2;
  answer_of o : Resp (embed o) → Resp o;
  answer_to o : Resp o → Resp (embed o) }.

Section Lift.
Context {Op1 Op2 : Type} `{!Effect Op1, !Effect Op2, !Embeds Op1 Op2}.

Definition embed_event (e : event Op1) : event Op2 :=
  Ev (embed (ev_op e)) (answer_to (ev_op e) (ev_resp e)).

(** What the part sees of the world after [h2]. *)
Definition world_of (w : world Op2) (h2 : list (event Op2)) : world Op1 := λ h o,
  answer_of o (w (h2 ++ List.map embed_event h) (embed o)).

Definition lift {A} (m : prog Op1 A) : prog Op2 A := λ w h2,
  let r := m (world_of w h2) [] in (r.1, h2 ++ List.map embed_event r.2).

(** What is proved of the calls of a part holds in the whole. *)
Lemma lift_emits {A} E (Q : A → Prop) (m : prog Op1 A) :
  emits E Q m → emits (λ e, ∃ e1, e = embed_event e1 ∧ E e1) Q (lift m).
Proof.
  intros Hm w h. destruct (Hm (world_of w h) []) as (t & Ht & HE & HQ).
  exists (List.map embed_event t). unfold lift. rewrite Ht. split_and!; [done| |exact HQ].
  apply Forall_map. eapply Forall_impl; [exact HE|]. intros e He. by exists e.
Qed.

(** A part whose calls are always allowed. *)
Lemma lift_keeps {A} R P E (Q : A → Prop) (m : prog Op1 A) :
  emits E Q m → (∀ e h, P h → E e → R (embed_event e) h) →
  keeps R P (lift m) (λ a _, Q a).
Proof.
  intros Hm HR F HF HFP w h [Hg HFh]. destruct (lift_emits _ _ _ Hm w h) as (t & Ht & HE & HQ).
  rewrite Ht. clear Ht. assert (guarded R (h ++ t) ∧ F (h ++ t)) as [? ?]; [|done].
  induction t as [|e t IH] using rev_ind; [by rewrite app_nil_r|].
  apply Forall_app in HE as [HEt (e1 & -> & He)%Forall_singleton].
  destruct (IH HEt) as [Hg' HF']. rewrite (assoc_L (++)). split; [|by apply HF].
  apply guarded_snoc; [done|]. apply HR; [by apply HFP|done].
Qed.

(** What a part returns and the calls it made are remembered. *)
Definition partly {A} (Y : A → list (event Op1) → Prop) (a : A) (h : list (event Op2)) : Prop :=
  ∃ t, (∀ e, e ∈ t → embed_event e ∈ h) ∧ Y a t.

Lemma partly_stable {A} (Y : A → list (event Op1) → Prop) a : stable (partly Y a).
Proof. intros h e (t & Ht & HY). exists t. split; [|done]. intros e' He. apply elem_of_app. left. by apply Ht. Qed.

Lemma lift_history {A} R R1 P (Y : A → list (event Op1) → Prop) (m : prog Op1 A) :
  keeps R1 (λ _, True) m Y → (∀ e h, P h → R (embed_event e) h) → keeps R P (lift m) (partly Y).
Proof.
  intros Hm HR F HF HFP w h [Hg HFh]. unfold lift. destruct (keeps_run R1 m Y (world_of w h) Hm) as [_ HY].
  unfold run, trace in HY. destruct (m (world_of w h) []) as [a t]. cbn [fst snd] in *.
  assert (∀ l, guarded R (h ++ List.map embed_event l) ∧ F (h ++ List.map embed_event l)) as Hall.
  { intros l. induction l as [|e l [Hg' HF']] using rev_ind; [by rewrite app_nil_r|].
    rewrite List.map_app, (assoc_L (++)). split; [|by apply HF].
    apply guarded_snoc; [done|]. by apply HR, HFP. }
  destruct (Hall t) as [Hg' HF']. split_and!; [done|done|]. exists t. split; [|done].
  intros e He. apply elem_of_app. right. by apply list_elem_of_fmap_2.
Qed.

(** One call of a part. *)
Lemma lift_call_keeps R P (o : Op1) :
  (∀ r h, P h → R (embed_event (Ev o r)) h) →
  keeps R P (lift (call o)) (λ r h, embed_event (Ev o r) ∈ h).
Proof.
  intros HR F HF HFP w h [Hg HFh]. unfold lift, call. simpl. split_and!.
  - apply guarded_snoc; [done|]. by apply HR, HFP.
  - by apply HF.
  - apply elem_of_app. right. unfold world_of. simpl. rewrite app_nil_r. by left.
Qed.

(** A part that is served by the part [π] of the state of the server of the whole. *)
Lemma lift_serves {S1 S2 A} (answer1 : S1 → ∀ o : Op1, Resp o) step1
    (answer2 : S2 → ∀ o : Op2, Resp o) step2 (π : S1 → S2) (m : prog Op1 A) s a s' :
  (∀ s o, answer_of o (answer2 (π s) (embed o)) = answer1 s o) →
  (∀ s e, step2 (π s) (embed_event e) = π (step1 s e)) →
  serves answer1 step1 m s a s' → serves answer2 step2 (lift m) (π s) a (π s').
Proof.
  intros Hanswer Hstep Hm w h Hw.
  assert (∀ t s, serverState step2 (π s) (List.map embed_event t) = π (serverState step1 s t)) as Hst.
  { induction t as [|e t IH]; intros s1; [done|]. simpl. by rewrite Hstep, IH. }
  destruct (Hm (world_of w h) []) as (Ha & t & Ht & Hs).
  - intros t o. unfold world_of. rewrite Hw, Hst. apply Hanswer.
  - unfold lift. rewrite Ht. split; [done|]. exists (List.map embed_event t). split; [done|].
    by rewrite Hst, Hs.
Qed.

End Lift.

(** *** Effects implemented by others

    A part whose calls ([Op1]) are functions of a client library, which makes
    calls of its own ([Op2]): [impl] is the client, [handle] the part with the
    client in place of its calls. *)
Section Handle.
Context {Op1 Op2 : Type} `{!Effect Op1, !Effect Op2} (impl : ∀ o : Op1, prog Op2 (Resp o)).

(** The calls that the client makes for the calls [h] of the part. *)
Definition replay (w : world Op2) (h2 : list (event Op2)) (h : list (event Op1)) :
    list (event Op2) :=
  foldl (λ h2 e, (impl (ev_op e) w h2).2) h2 h.

(** What the part sees of the world, through the client. *)
Definition through (w : world Op2) (h2 : list (event Op2)) : world Op1 := λ h o,
  (impl o w (replay w h2 h)).1.

Definition handle {A} (m : prog Op1 A) : prog Op2 A := λ w h2,
  let r := m (through w h2) [] in (r.1, replay w h2 r.2).

Lemma handle_ret {A} (a : A) w h : handle (mret a : prog Op1 A) w h = (a, h).
Proof. done. Qed.

(** A call of the part is a run of the client. *)
Lemma handle_call o w h : handle (call o) w h = impl o w h.
Proof. unfold handle, through, replay. simpl. by destruct (impl o w h). Qed.

(** What the part and the client are proved to call holds of both together. *)
Lemma handle_emits {A} E (F : Op1 → event Op2 → Prop) (Q : A → Prop) (m : prog Op1 A) :
  emits E Q m → (∀ o, emits (F o) (λ _, True) (impl o)) →
  emits (λ e2, ∃ e1, E e1 ∧ F (ev_op e1) e2) Q (handle m).
Proof.
  intros Hm HF w h2. destruct (Hm (through w h2) []) as (t & Ht & HE & HQ).
  unfold handle. rewrite Ht. cbn [fst snd app].
  assert (∃ t2, replay w h2 t = h2 ++ t2 ∧ Forall (λ e2, ∃ e1, E e1 ∧ F (ev_op e1) e2) t2)
    as (t2 & Ht2 & HF2); [|by exists t2].
  clear Ht HQ. induction t as [|e t IH] using rev_ind; [exists []; by rewrite app_nil_r|].
  apply Forall_app in HE as [HEt [He _]%Forall_cons]. destruct (IH HEt) as (t2 & Ht2 & HF2).
  unfold replay in *. rewrite foldl_app. simpl. rewrite Ht2.
  destruct (HF (ev_op e) w (h2 ++ t2)) as (t3 & -> & HF3 & _).
  exists (t2 ++ t3). rewrite (assoc_L (++)). split; [done|]. apply Forall_app. split; [done|].
  eapply Forall_impl; [exact HF3|]. eauto.
Qed.

End Handle.

Create HintDb stable.
#[export] Hint Resolve stable_elem stable_and stable_or stable_exists stable_const stable_imp : stable.

#[export] Hint Resolve emits_ret emits_for_each emits_for_each_err : emits.
