(* ===== verification/GoStrings.v ===== *)
(** * Go strings and numbers

    The functions of Go's packages [strings] and [strconv] that the operator
    uses, on Rocq's [string]: like a Go string, a sequence of bytes.  [TrimSpace]
    and [ToLower] treat the ASCII bytes as Go does and leave the bytes above 127
    alone (Go's versions also know the Unicode spaces and letters, which do not
    occur in the operator's names, versions and options).  Integers are [Z]
    with the width written out where the code converts. *)

From S2P Require Import Prelude.
Open Scope stdpp_scope.

#[global] Arguments String.append : simpl nomatch.

(** ** Machine integers *)

(** The value an [int32] (an [int64]) holds after a conversion. *)
Definition wrap32 (z : Z) : Z := (z + 2 ^ 31) `mod` 2 ^ 32 - 2 ^ 31.
Definition wrap64 (z : Z) : Z := (z + 2 ^ 63) `mod` 2 ^ 64 - 2 ^ 63.

Definition in_int32 (z : Z) : bool := (- 2 ^ 31 <=? z)%Z && (z <? 2 ^ 31)%Z.
Definition in_int64 (z : Z) : bool := (- 2 ^ 63 <=? z)%Z && (z <? 2 ^ 63)%Z.

(** ** Package strings *)

Fixpoint str_take (n : nat) (s : string) : string :=
  match n, s with
  | S n, String c s => String c (str_take n s)
  | _, _ => ""
  end.

Fixpoint str_drop (n : nat) (s : string) : string :=
  match n, s with
  | S n, String _ s => str_drop n s
  | _, _ => s
  end.

Fixpoint HasPrefix (s p : string) {struct p} : bool :=
  match p, s with
  | "", _ => true
  | String c p, String d s => Ascii.eqb c d && HasPrefix s p
  | String _ _, "" => false
  end.

Definition HasSuffix (s q : string) : bool :=
  (String.length q <=? String.length s)%nat &&
  String.eqb (str_drop (String.length s - String.length q) s) q.

(** [strings.Index], [None] for -1. *)
Fixpoint Index (s sub : string) : option nat :=
  if HasPrefix s sub then Some 0%nat
  else match s with
       | "" => None
       | String _ s => S <$> Index s sub
       end.

(** [strings.LastIndex]. *)
Fixpoint LastIndex (s sub : string) : option nat :=
  match s with
  | "" => if HasPrefix s sub then Some 0%nat else None
  | String _ s' =>
      match LastIndex s' sub with
      | Some i => Some (S i)
      | None => if HasPrefix s sub then Some 0%nat else None
      end
  end.

Definition Contains (s sub : string) : bool :=
  match Index s sub with Some _ => true | None => false end.

(** [strings.Replace(s, old, new, 1)]. *)
Definition ReplaceFirst (s old new : string) : string :=
  match Index s old with
  | Some i => str_take i s +:+ new +:+ str_drop (i + String.length old) s
  | None => s
  end.

(** [strings.ReplaceAll], for a non-empty [old]: [skip] counts the bytes of the
    current occurrence that are still to be passed over. *)
Fixpoint replace_from (skip : nat) (s old new : string) : string :=
  match s with
  | "" => ""
  | String c s' =>
      match skip with
      | S k => replace_from k s' old new
      | O =>
          if HasPrefix s old
          then new +:+ replace_from (String.length old - 1) s' old new
          else String c (replace_from 0 s' old new)
      end
  end.
Definition ReplaceAll (s old new : string) : string := replace_from 0 s old new.

Definition is_space (c : ascii) : bool :=
  let n := N_of_ascii c in (n =? 32)%N || ((9 <=? n)%N && (n <=? 13)%N).

Fixpoint TrimLeftSpace (s : string) : string :=
  match s with
  | String c s' => if is_space c then TrimLeftSpace s' else s
  | "" => ""
  end.

Fixpoint TrimRightSpace (s : string) : string :=
  match s with
  | "" => ""
  | String c s =>
      match TrimRightSpace s with
      | "" => if is_space c then "" else String c ""
      | t => String c t
      end
  end.

Definition TrimSpace (s : string) : string := TrimRightSpace (TrimLeftSpace s).

Fixpoint Join (xs : list string) (sep : string) : string :=
  match xs with
  | [] => ""
  | [x] => x
  | x :: xs => x +:+ sep +:+ Join xs sep
  end.

(** [strings.Split] for a separator of one byte. *)
Fixpoint Split (s : string) (sep : ascii) : list string :=
  match s with
  | "" => [""]
  | String c s =>
      if Ascii.eqb c sep then "" :: Split s sep
      else match Split s sep with
           | x :: xs => String c x :: xs
           | [] => [String c ""]
           end
  end.

(** [strings.SplitN(s, sep, 2)] for a separator of one byte. *)
Fixpoint Split2 (s : string) (sep : ascii) : string * option string :=
  match s with
  | "" => ("", None)
  | String c s =>
      if Ascii.eqb c sep then ("", Some s)
      else let (a, b) := Split2 s sep in (String c a, b)
  end.

Definition ascii_lower (c : ascii) : ascii :=
  let n := N_of_ascii c in
  if (65 <=? n)%N && (n <=? 90)%N then ascii_of_N (n + 32) else c.

Fixpoint ToLower (s : string) : string :=
  match s with "" => "" | String c s => String (ascii_lower c) (ToLower s) end.

(** The double quote, the single quote, the backslash and the backquote. *)
Definition dquote : string := String (ascii_of_N 34) "".
Definition squote : string := String (ascii_of_N 39) "".
Definition backslash : string := String (ascii_of_N 92) "".
Definition backquote : string := String (ascii_of_N 96) "".
Definition newline : string := String (ascii_of_N 10) "".

(** ** Package strconv *)

Definition hex_digit (n : N) : ascii :=
  if (n <? 10)%N then ascii_of_N (48 + n) else ascii_of_N (87 + n).

(** One byte of [strconv.Quote] ([fmt]'s %q); the bytes above 127 are kept. *)
Definition quote_byte (c : ascii) : string :=
  let n := N_of_ascii c in
  let esc (d : ascii) := backslash +:+ String d "" in
  if (n =? 34)%N || (n =? 92)%N then esc c
  else if (n =? 7)%N then esc "a"%char else if (n =? 8)%N then esc "b"%char
  else if (n =? 9)%N then esc "t"%char else if (n =? 10)%N then esc "n"%char
  else if (n =? 11)%N then esc "v"%char else if (n =? 12)%N then esc "f"%char
  else if (n =? 13)%N then esc "r"%char
  else if (n <? 32)%N || (n =? 127)%N then
    backslash +:+ String "x" (String (hex_digit (n `div` 16)) (String (hex_digit (n `mod` 16)) ""))
  else String c "".

Fixpoint quote_bytes (s : string) : string :=
  match s with "" => "" | String c s => quote_byte c +:+ quote_bytes s end.
Definition Quote (s : string) : string := dquote +:+ quote_bytes s +:+ dquote.

(** [strconv.Itoa], [fmt]'s %d. *)
Definition itoa (z : Z) : string := pretty z.

Definition digit_val (c : ascii) : option Z :=
  let n := N_of_ascii c in
  if (48 <=? n)%N && (n <=? 57)%N then Some (Z.of_N n - 48)%Z else None.

Fixpoint parse_digits (acc : Z) (s : string) : option Z :=
  match s with
  | "" => Some acc
  | String c s =>
      match digit_val c with
      | Some d => parse_digits (acc * 10 + d) s
      | None => None
      end
  end.

(** A non-empty sequence of decimal digits. *)
Definition parse_nat (s : string) : option Z :=
  match s with "" => None | _ => parse_digits 0 s end.

Definition parse_sign (s : string) : option Z :=
  match s with
  | String c t =>
      if Ascii.eqb c "-" then Z.opp <$> parse_nat t
      else if Ascii.eqb c "+" then parse_nat t
      else parse_nat s
  | "" => None
  end.

(** [strconv.Atoi] where [int] has 64 bits, [None] for an error. *)
Definition Atoi (s : string) : option Z :=
  z ← parse_sign s; if in_int64 z then Some z else None.

(** [strconv.ParseInt(s, 10, 32)]. *)
Definition ParseInt32 (s : string) : option Z :=
  z ← parse_sign s; if in_int32 z then Some z else None.

(** ** Lemmas *)

Lemma str_take_drop n s : str_take n s +:+ str_drop n s = s.
Proof. revert s; induction n as [|n IH]; intros [|c s]; simpl; auto. by rewrite IH. Qed.

Lemma str_app_assoc (a b c : string) : (a +:+ b) +:+ c = a +:+ (b +:+ c).
Proof. induction a as [|x a IH]; simpl; f_equal; auto. Qed.

Lemma str_app_nil_r (a : string) : a +:+ "" = a.
Proof. induction a as [|x a IH]; simpl; f_equal; auto. Qed.

Lemma str_length_app (a b : string) :
  String.length (a +:+ b) = (String.length a + String.length b)%nat.
Proof. induction a as [|x a IH]; simpl; lia. Qed.

Lemma str_drop_app a b : str_drop (String.length a) (a +:+ b) = b.
Proof. induction a as [|x a IH]; simpl; auto. Qed.

Lemma str_take_app a b : str_take (String.length a) (a +:+ b) = a.
Proof. induction a as [|x a IH]; simpl; f_equal; auto. Qed.

Lemma str_take_length n s : String.length (str_take n s) = Nat.min n (String.length s).
Proof. revert s; induction n as [|n IH]; intros [|c s]; simpl; auto. Qed.

Lemma str_app_inv_l (a b c : string) : a +:+ b = a +:+ c → b = c.
Proof. induction a as [|x a IH]; simpl; [done|]. intros [=]; auto. Qed.

(** Strings that end in parts of the same length. *)
Lemma str_app_inj_tail (a b s t : string) :
  String.length s = String.length t → a +:+ s = b +:+ t → a = b ∧ s = t.
Proof.
  intros Hl. revert b. induction a as [|x a IH]; intros [|y b] E.
  - done.
  - exfalso. simpl in E. apply (f_equal String.length) in E. simpl in E. rewrite str_length_app in E. lia.
  - exfalso. simpl in E. apply (f_equal String.length) in E. simpl in E. rewrite str_length_app in E. lia.
  - injection E as -> E. destruct (IH b E) as [-> ->]. done.
Qed.

Lemma HasPrefix_app p s : HasPrefix (p +:+ s) p = true.
Proof. induction p as [|c p IH]; simpl; [done|]. by rewrite Ascii.eqb_refl. Qed.

Lemma HasPrefix_spec s p : HasPrefix s p = true ↔ ∃ t, s = p +:+ t.
Proof.
  split; [|intros [t ->]; apply HasPrefix_app].
  revert s; induction p as [|c p IH]; intros s; [by exists s|].
  destruct s as [|d s]; [done|]. cbn.
  intros [->%Ascii.eqb_eq [t ->]%IH]%andb_prop. by exists t.
Qed.

Lemma HasSuffix_spec s q : HasSuffix s q = true ↔ ∃ t, s = t +:+ q.
Proof.
  unfold HasSuffix. split.
  - intros [Hl%Nat.leb_le Hq%String.eqb_eq]%andb_prop.
    exists (str_take (String.length s - String.length q) s). rewrite <-Hq at 2.
    by rewrite str_take_drop.
  - intros [t ->]. rewrite str_length_app.
    replace (_ + _ - _)%nat with (String.length t) by lia.
    rewrite str_drop_app, String.eqb_refl, andb_true_r. apply Nat.leb_le. lia.
Qed.

Lemma Index_Some s sub i :
  Index s sub = Some i → ∃ a b, s = a +:+ sub +:+ b ∧ String.length a = i.
Proof.
  revert i; induction s as [|c s IH]; intros i; simpl.
  - destruct (HasPrefix "" sub) eqn:E; [|done]. intros [= <-].
    apply HasPrefix_spec in E as [t Ht]. by exists "", t.
  - destruct (HasPrefix (String c s) sub) eqn:E.
    + intros [= <-]. apply HasPrefix_spec in E as [t Ht]. by exists "", t.
    + destruct (Index s sub) as [j|]; [|done]. intros [= <-].
      destruct (IH j eq_refl) as (a & b & -> & <-). by exists (String c a), b.
Qed.

(** The first occurrence of a byte that the prefix does not contain. *)
Lemma Index_char_app (a b : string) (c : ascii) :
  Index a (String c "") = None →
  Index (a +:+ String c b) (String c "") = Some (String.length a).
Proof.
  induction a as [|x a IH]; [intros _; simpl; by rewrite Ascii.eqb_refl|].
  simpl. destruct (Ascii.eqb c x); [done|].
  destruct (Index a (String c "")) eqn:E; [done|]. intros _.
  simpl. by rewrite IH.
Qed.

Lemma TrimSpace_id s :
  (∀ c, c ∈ String.list_ascii_of_string s → is_space c = false) → TrimSpace s = s.
Proof.
  intros H. unfold TrimSpace.
  replace (TrimLeftSpace s) with s.
  - induction s as [|c s IH]; [done|]. simpl. rewrite IH.
    + destruct s; [|done]. rewrite H; [done|]. simpl. by left.
    + intros d Hd. apply H. simpl. by right.
  - destruct s as [|c s]; [done|]. simpl. rewrite H; [done|]. simpl; by left.
Qed.

Lemma wrap32_id z : in_int32 z = true → wrap32 z = z.
Proof. unfold in_int32, wrap32. intros [??]%andb_prop. rewrite Z.mod_small; lia. Qed.

Lemma wrap32_range z : in_int32 (wrap32 z) = true.
Proof.
  unfold in_int32, wrap32. pose proof (Z.mod_pos_bound (z + 2 ^ 31) (2 ^ 32) ltac:(lia)).
  apply andb_true_intro. lia.
Qed.

Lemma wrap64_id z : in_int64 z = true → wrap64 z = z.
Proof. unfold in_int64, wrap64. intros [??]%andb_prop. rewrite Z.mod_small; lia. Qed.

(** *** Printing and reading numbers *)

Lemma digit_val_pretty (d : N) : (d < 10)%N → digit_val (pretty_N_char d) = Some (Z.of_N d).
Proof.
  intros Hd.
  assert (∃ k, d = N.of_nat k ∧ (k < 10)%nat) as (k & -> & Hk).
  { exists (N.to_nat d). lia. }
  do 10 (destruct k as [|k]; [done|]). lia.
Qed.

Lemma parse_digits_go (x : N) (s : string) :
  ∃ k : nat, ∀ acc,
    parse_digits acc (pretty_N_go x s) = parse_digits (acc * 10 ^ Z.of_nat k + Z.of_N x) s.
Proof.
  revert s. induction (N.lt_wf_0 x) as [x _ IH]. intros s.
  destruct (decide (x = 0%N)) as [->|Hx].
  { exists 0%nat. intros acc. rewrite pretty_N_go_0. f_equal. lia. }
  destruct (IH (x `div` 10)%N ltac:(apply N.div_lt; lia)
              (String (pretty_N_char (x `mod` 10)) s)) as [k Hk].
  exists (S k). intros acc. rewrite pretty_N_go_step, Hk by lia. simpl parse_digits.
  rewrite digit_val_pretty by (apply N.mod_lt; lia). f_equal.
  pose proof (N.div_mod x 10 ltac:(lia)) as E.
  rewrite Nat2Z.inj_succ, Z.pow_succ_r by lia.
  set (q := (x `div` 10)%N) in *. set (r := (x `mod` 10)%N) in *. lia.
Qed.

Lemma pretty_N_nonempty (x : N) : pretty x ≠ "".
Proof.
  unfold pretty, pretty_N. destruct (decide (x = 0%N)) as [->|Hx]; [done|].
  assert (H : ∀ n s, (0 < n)%N ∨ s ≠ "" → pretty_N_go n s ≠ "").
  { intros n. induction (N.lt_wf_0 n) as [n _ IH]. intros s Hs.
    destruct (decide (n = 0%N)) as [->|Hn].
    - rewrite pretty_N_go_0. destruct Hs; [lia|done].
    - rewrite pretty_N_go_step by lia. apply IH; [apply N.div_lt; lia|by right]. }
  apply H. left. lia.
Qed.

Lemma parse_nat_pretty (x : N) : parse_nat (pretty x) = Some (Z.of_N x).
Proof.
  unfold parse_nat. destruct (pretty x) as [|c s] eqn:E; [by destruct (pretty_N_nonempty x)|].
  rewrite <-E. unfold pretty, pretty_N. destruct (decide (x = 0%N)) as [->|Hx]; [done|].
  destruct (parse_digits_go x "") as [k ->]. simpl. f_equal; lia.
Qed.

Lemma parse_sign_nat s z : parse_nat s = Some z → parse_sign s = Some z.
Proof.
  destruct s as [|c t]; [done|]. unfold parse_sign, parse_nat. simpl.
  destruct (Ascii.eqb_spec c "-") as [->|]; [done|].
  by destruct (Ascii.eqb_spec c "+") as [->|].
Qed.

Lemma parse_sign_itoa z : parse_sign (itoa z) = Some z.
Proof.
  unfold itoa, pretty, pretty_Z. destruct z as [|p|p]; [done| |].
  - apply (parse_sign_nat _ (Z.pos p)), (parse_nat_pretty (N.pos p)).
  - change (Z.opp <$> parse_nat (pretty (N.pos p)) = Some (Z.neg p)).
    by rewrite parse_nat_pretty.
Qed.

Lemma Atoi_itoa z : in_int64 z = true → Atoi (itoa z) = Some z.
Proof. intros H. unfold Atoi. rewrite parse_sign_itoa. simpl. by rewrite H. Qed.

Lemma ParseInt32_itoa z : in_int32 z = true → ParseInt32 (itoa z) = Some z.
Proof. intros H. unfold ParseInt32. rewrite parse_sign_itoa. simpl. by rewrite H. Qed.

Lemma Atoi_range s z : Atoi s = Some z → in_int64 z = true.
Proof.
  unfold Atoi. destruct (parse_sign s) as [y|]; [|done]. simpl.
  destruct (in_int64 y) eqn:E; [|done]. by intros [= <-].
Qed.

Lemma itoa_inj z1 z2 : itoa z1 = itoa z2 → z1 = z2.
Proof. intros H. pose proof (parse_sign_itoa z1) as E. rewrite H, parse_sign_itoa in E. congruence. Qed.

(** *** The digits of a number *)

Definition all_digits (s : string) : bool :=
  forallb (λ c, match digit_val c with Some _ => true | None => false end)
    (String.list_ascii_of_string s).

Lemma parse_digits_all acc s z : parse_digits acc s = Some z → all_digits s = true.
Proof.
  revert acc. induction s as [|c s IH]; intros acc; [done|]. simpl.
  unfold all_digits. simpl. destruct (digit_val c); [|done]. apply IH.
Qed.

Lemma pretty_N_go_length (n : nat) : ∀ (x : N) (s : string),
  (x < 10 ^ N.of_nat n)%N → (String.length (pretty_N_go x s) ≤ n + String.length s)%nat.
Proof.
  induction n as [|n IH]; intros x s Hx.
  - assert (x = 0%N) as -> by (simpl in Hx; lia). by rewrite pretty_N_go_0.
  - destruct (decide (x = 0%N)) as [->|Hn]; [rewrite pretty_N_go_0; lia|].
    rewrite pretty_N_go_step by lia. etrans; [apply IH|simpl; lia].
    rewrite Nat2N.inj_succ, N.pow_succ_r' in Hx. apply N.Div0.div_lt_upper_bound. lia.
Qed.

(** A number below [10 ^ n] has [n] digits at most. *)
Lemma itoa_length (n : nat) (z : Z) :
  (0 < n)%nat → (0 ≤ z < 10 ^ Z.of_nat n)%Z → (String.length (itoa z) ≤ n)%nat.
Proof.
  intros Hn [H0 Hz]. unfold itoa, pretty, pretty_Z.
  destruct z as [|p|p]; [simpl; lia| |lia].
  unfold pretty, pretty_positive, pretty, pretty_N. rewrite decide_False by lia.
  etrans; [apply (pretty_N_go_length n)|simpl; lia].
  apply N2Z.inj_lt. rewrite N2Z.inj_pow. simpl. rewrite nat_N_Z. lia.
Qed.

Lemma all_digits_itoa z : (0 ≤ z)%Z → all_digits (itoa z) = true.
Proof.
  intros Hz. assert (E : itoa z = pretty (Z.to_N z)) by (by destruct z; try lia).
  rewrite E. pose proof (parse_nat_pretty (Z.to_N z)) as Hp.
  unfold parse_nat in Hp. destruct (pretty (Z.to_N z)); [done|]. by eapply parse_digits_all.
Qed.

Lemma Split_digits s t (sep : ascii) :
  digit_val sep = None → all_digits s = true →
  Split (s +:+ String sep t) sep = s :: Split t sep.
Proof.
  intros Hsep. induction s as [|c s IH]; intros Hs.
  - simpl. by rewrite Ascii.eqb_refl.
  - unfold all_digits in *. simpl in *. destruct (digit_val c) eqn:Ec; [|done].
    destruct (Ascii.eqb_spec c sep) as [->|]; [congruence|]. by rewrite IH.
Qed.

Lemma Split_digits_last s (sep : ascii) :
  digit_val sep = None → all_digits s = true → Split s sep = [s].
Proof.
  intros Hsep. induction s as [|c s IH]; intros Hs; [done|].
  unfold all_digits in *. simpl in *. destruct (digit_val c) eqn:Ec; [|done].
  destruct (Ascii.eqb_spec c sep) as [->|]; [congruence|]. by rewrite IH.
Qed.

Lemma parse_nat_itoa z : (0 ≤ z)%Z → parse_nat (itoa z) = Some z.
Proof.
  intros Hz. assert (E : itoa z = pretty (Z.to_N z)) by (by destruct z; try lia).
  rewrite E, parse_nat_pretty. f_equal; lia.
Qed.

Lemma all_digits_Index s c :
  digit_val c = None → all_digits s = true → Index s (String c "") = None.
Proof.
  intros Hc. induction s as [|d s IH]; intros Hs; [done|].
  unfold all_digits in *. simpl in *. destruct (digit_val d) eqn:Ed; [|done].
  destruct (Ascii.eqb_spec c d) as [->|]; [congruence|]. simpl. by rewrite IH.
Qed.

(** *** Bytes of a string *)

Definition str_forall (P : ascii → bool) (s : string) : bool :=
  forallb P (String.list_ascii_of_string s).

Lemma str_forall_app P a b : str_forall P (a +:+ b) = str_forall P a && str_forall P b.
Proof.
  unfold str_forall. induction a as [|c a IH]; [done|]. simpl. rewrite IH.
  by destruct (P c).
Qed.

Lemma str_forall_impl (P Q : ascii → bool) s :
  (∀ c, P c = true → Q c = true) → str_forall P s = true → str_forall Q s = true.
Proof.
  intros H. unfold str_forall. induction s as [|c s IH]; [done|]. simpl.
  intros [HP ?]%andb_prop. by rewrite (H _ HP), IH.
Qed.

(** A byte of a number written in decimal. *)
Definition is_digit (c : ascii) : bool :=
  match digit_val c with Some _ => true | None => false end.

Lemma str_forall_digits s : str_forall is_digit s = all_digits s.
Proof. done. Qed.

Lemma is_digit_not_space c : is_digit c = true → is_space c = false.
Proof.
  unfold is_digit, digit_val, is_space. set (n := N_of_ascii c).
  destruct (N.leb_spec 48 n), (N.leb_spec n 57); simpl; try done.
  intros _. destruct (N.eqb_spec n 32), (N.leb_spec 9 n), (N.leb_spec n 13); simpl; done || lia.
Qed.

Lemma TrimSpace_no_space s :
  str_forall (λ c, negb (is_space c)) s = true → TrimSpace s = s.
Proof.
  intros H. apply TrimSpace_id. intros c Hc. unfold str_forall in H.
  rewrite forallb_forall in H. apply negb_true_iff, H. by apply list_elem_of_In.
Qed.

Lemma Index_char_None s c :
  str_forall (λ d, negb (Ascii.eqb c d)) s = true → Index s (String c "") = None.
Proof.
  unfold str_forall. induction s as [|d s IH]; [done|]. simpl.
  intros [->%negb_true_iff ?]%andb_prop. simpl. by rewrite IH.
Qed.

(** *** Occurrences *)

Lemma LastIndex_None s sub : LastIndex s sub = None ↔ Index s sub = None.
Proof.
  induction s as [|c s IH]; simpl; [by destruct (HasPrefix "" sub)|].
  destruct (LastIndex s sub) as [i|], (Index s sub) as [j|];
    destruct (HasPrefix (String c s) sub); simpl; naive_solver.
Qed.

(** The last occurrence of a byte that the rest does not contain. *)
Lemma LastIndex_app a t c :
  Index t (String c "") = None →
  LastIndex (a +:+ String c t) (String c "") = Some (String.length a).
Proof.
  intros Ht%LastIndex_None.
  induction a as [|d a IH]; cbn [String.append LastIndex String.length].
  - rewrite Ht. simpl. by rewrite Ascii.eqb_refl.
  - by rewrite IH.
Qed.

(** Around the last occurrence of a byte. *)
Lemma LastIndex_split s c i :
  LastIndex s (String c "") = Some i →
  ∃ a t, s = a +:+ String c t ∧ String.length a = i ∧ Index t (String c "") = None.
Proof.
  revert i. induction s as [|d s IH]; intros i; [done|]. cbn [LastIndex].
  destruct (LastIndex s (String c "")) as [j|] eqn:E.
  - intros [= <-]. destruct (IH j eq_refl) as (a & t & -> & <- & Ht). by exists (String d a), t.
  - destruct (HasPrefix (String d s) (String c "")) eqn:Hp; [|done]. intros [= <-].
    apply HasPrefix_spec in Hp as [t Ht]. injection Ht as -> ->. exists "", t. split_and!; [done|done|].
    by apply LastIndex_None.
Qed.

Lemma Index_app_None a b c :
  Index a (String c "") = None → Index b (String c "") = None →
  Index (a +:+ b) (String c "") = None.
Proof.
  intros Ha Hb. induction a as [|d a IH]; [done|]. simpl in *.
  destruct (Ascii.eqb c d); [done|]. destruct (Index a (String c "")); [done|].
  simpl. by rewrite IH.
Qed.

Lemma Split_app s t (sep : ascii) :
  Index s (String sep "") = None → Split (s +:+ String sep t) sep = s :: Split t sep.
Proof.
  induction s as [|c s IH]; [intros _; simpl; by rewrite Ascii.eqb_refl|].
  simpl. rewrite andb_true_r, (Ascii.eqb_sym sep c).
  destruct (Ascii.eqb c sep); [done|]. destruct (Index s _) eqn:E; [done|]. intros _.
  by rewrite IH.
Qed.

Lemma Split_none s (sep : ascii) : Index s (String sep "") = None → Split s sep = [s].
Proof.
  induction s as [|c s IH]; [done|]. simpl. rewrite andb_true_r, (Ascii.eqb_sym sep c).
  destruct (Ascii.eqb c sep); [done|]. destruct (Index s _) eqn:E; [done|]. intros _.
  by rewrite IH.
Qed.

Lemma Split2_app s t (sep : ascii) :
  Index s (String sep "") = None → Split2 (s +:+ String sep t) sep = (s, Some t).
Proof.
  induction s as [|c s IH]; [intros _; simpl; by rewrite Ascii.eqb_refl|].
  simpl. rewrite andb_true_r, (Ascii.eqb_sym sep c).
  destruct (Ascii.eqb c sep); [done|]. destruct (Index s _) eqn:E; [done|]. intros _. by rewrite IH.
Qed.

(** A byte outside of a class does not occur in a string of the class. *)
Lemma str_forall_Index (P : ascii → bool) s c :
  P c = false → str_forall P s = true → Index s (String c "") = None.
Proof.
  intros Hc Hs. apply Index_char_None. eapply str_forall_impl; [|exact Hs].
  intros d Hd. apply negb_true_iff, Ascii.eqb_neq. congruence.
Qed.
