(* ===== verification/Semver.v ===== *)
(** * Versions

    [pkg/util/semver/semver.go] and [pkg/util/mysqlversion/mysqlversion.go].

    The package wraps [github.com/blang/semver], which is not part of the
    repository: its functions are the fields of the class [Blang], and the
    documented behaviour the operator relies on is the class [BlangLaws].
    [Module Ref] is an instance that satisfies the laws (it accepts exactly the
    strings [major.minor.patch]); the witnesses use it. *)

From S2P Require Import Prelude GoStrings.
Open Scope stdpp_scope.

(** ** The library github.com/blang/semver *)

Record BVersion := BV {
  bMajor : N; bMinor : N; bPatch : N; bPre : list string; bBuild : list string }.

Class Blang := {
  blang_Parse : string → result BVersion;
  blang_ParseTolerant : string → result BVersion;
  blang_EQ : BVersion → BVersion → bool;
  blang_LT : BVersion → BVersion → bool;
  blang_GT : BVersion → BVersion → bool;
  blang_String : BVersion → string;
  (** [None] when [MustParseRange] panics *)
  blang_MustParseRange : string → option (BVersion → bool) }.

(** A release [a.b.c], without a pre-release or build part. *)
Definition release (a b c : N) : BVersion := BV a b c [] [].

(** The precedence of releases: major, then minor, then patch. *)
Definition lex_lt (a b c a' b' c' : N) : Prop :=
  (a < a' ∨ a = a' ∧ (b < b' ∨ b = b' ∧ c < c'))%N.

#[export] Instance lex_lt_dec a b c a' b' c' : Decision (lex_lt a b c a' b' c').
Proof. unfold lex_lt. apply _. Defined.

Definition fits_uint64 (n : N) : Prop := (n < 2 ^ 64)%N.

Class BlangLaws `{!Blang} : Prop := {
  blang_EQ_release a b c a' b' c' :
    blang_EQ (release a b c) (release a' b' c') = true ↔ a = a' ∧ b = b' ∧ c = c';
  blang_LT_release a b c a' b' c' :
    blang_LT (release a b c) (release a' b' c') = true ↔ lex_lt a b c a' b' c';
  blang_GT_release a b c a' b' c' :
    blang_GT (release a b c) (release a' b' c') = true ↔ lex_lt a' b' c' a b c;
  blang_String_release a b c :
    blang_String (release a b c) =
      itoa (Z.of_N a) +:+ "." +:+ itoa (Z.of_N b) +:+ "." +:+ itoa (Z.of_N c);
  blang_Parse_String a b c :
    fits_uint64 a → fits_uint64 b → fits_uint64 c →
    blang_Parse (blang_String (release a b c)) = Ok (release a b c);
  (** [ParseTolerant] accepts what [Parse] accepts *)
  blang_Tolerant_String a b c :
    fits_uint64 a → fits_uint64 b → fits_uint64 c →
    blang_ParseTolerant (blang_String (release a b c)) = Ok (release a b c);
  (** the one range expression of the program: a space is "and", [||] is "or" *)
  blang_range :
    ∃ r, blang_MustParseRange ">=5.7.26 <8.0.0 || >=8.0.15" = Some r ∧
      ∀ a b c, r (release a b c) = true ↔
        (¬ lex_lt a b c 5 7 26 ∧ lex_lt a b c 8 0 0) ∨ ¬ lex_lt a b c 8 0 15 }.

(** ** Package semver *)

(* src/pkg/util/semver/semver.go:20-26 Version *)
Record Version := mkVersion { Major : N; Minor : N; Patch : N }.

#[export] Instance Version_eq_dec : EqDecision Version.
Proof. solve_decision. Defined.

(* src/pkg/util/semver/semver.go:28-29 Zero *)
Definition Zero : Version := mkVersion 0 0 0.

(* src/pkg/util/semver/semver.go:31-33 fromBlang *)
Definition fromBlang (v : BVersion) : Version := mkVersion (bMajor v) (bMinor v) (bPatch v).

(* src/pkg/util/semver/semver.go:35-37 Version.toBlang *)
Definition toBlang (v : Version) : BVersion := BV (Major v) (Minor v) (Patch v) [] [].

Section Semver.
Context `{!Blang}.

(* src/pkg/util/semver/semver.go:39-46 Parse *)
Definition Parse (s : string) : result Version :=
  match blang_Parse s with
  | Err e => Err e
  | Ok v => Ok (fromBlang v)
  end.

(* src/pkg/util/semver/semver.go:48-55 MustParse *)
Definition MustParse (s : string) : option Version :=
  match Parse s with
  | Err _ => None
  | Ok v => Some v
  end.

(* src/pkg/util/semver/semver.go:57-64 Make *)
Definition Make (s : string) : result Version :=
  match blang_ParseTolerant s with
  | Err e => Err e
  | Ok v => Ok (fromBlang v)
  end.

(* src/pkg/util/semver/semver.go:71-74 Version.EQ *)
Definition EQ (v other : Version) : bool := blang_EQ (toBlang v) (toBlang other).

(* src/pkg/util/semver/semver.go:66-69 Version.IsZero *)
Definition IsZero (v : Version) : bool := EQ v Zero.

(* src/pkg/util/semver/semver.go:76-79 Version.LT *)
Definition LT (v other : Version) : bool := blang_LT (toBlang v) (toBlang other).

(* src/pkg/util/semver/semver.go:81-84 Version.GT *)
Definition GT (v other : Version) : bool := blang_GT (toBlang v) (toBlang other).

(* src/pkg/util/semver/semver.go:86-89 Version.String *)
Definition VString (v : Version) : string := blang_String (toBlang v).

(* src/pkg/util/semver/semver.go:91-100 MustParseRange *)
Definition MustParseRange (expr : string) : option (Version → bool) :=
  match blang_MustParseRange expr with
  | Some r => Some (λ v, r (toBlang v))
  | None => None
  end.

End Semver.

(** ** Package mysqlversion *)

(* src/pkg/util/mysqlversion/mysqlversion.go:20-23 AtLeastMySQL8 *)
Definition AtLeastMySQL8 (v : Version) : bool := (8 <=? Major v)%N.

(* src/pkg/util/mysqlversion/mysqlversion.go:25-38 AtLeastMySQL8030 *)
Definition AtLeastMySQL8030 (v : Version) : bool :=
  if (8 <? Major v)%N then true
  else if (Major v =? 8)%N && (0 <? Minor v)%N then true
  else if (Major v =? 8)%N && (Minor v =? 0)%N && (30 <=? Patch v)%N then true
  else false.

(* src/pkg/util/mysqlversion/mysqlversion.go:40-49 AtLeastMySQL84 *)
Definition AtLeastMySQL84 (v : Version) : bool :=
  if (8 <? Major v)%N then true
  else if (Major v =? 8)%N && (4 <=? Minor v)%N then true
  else false.

(** ** Order *)

(** The order of versions as a relation. *)
Definition version_lt (v w : Version) : Prop :=
  lex_lt (Major v) (Minor v) (Patch v) (Major w) (Minor w) (Patch w).

Definition version_fits (v : Version) : Prop :=
  fits_uint64 (Major v) ∧ fits_uint64 (Minor v) ∧ fits_uint64 (Patch v).

#[export] Instance version_lt_dec v w : Decision (version_lt v w).
Proof. unfold version_lt. apply _. Defined.

Section Laws.
Context `{!Blang, !BlangLaws}.

Lemma EQ_spec v w : EQ v w = true ↔ v = w.
Proof.
  unfold EQ. destruct v as [a b c], w as [a' b' c'].
  change (blang_EQ (release a b c) (release a' b' c') = true ↔ mkVersion a b c = mkVersion a' b' c').
  rewrite blang_EQ_release. split; [by intros (-> & -> & ->)|by intros [= -> -> ->]].
Qed.

Lemma EQ_bool v w : EQ v w = bool_decide (v = w).
Proof. apply eq_bool_prop_intro. rewrite Is_true_true, EQ_spec, bool_decide_spec. done. Qed.

Lemma LT_spec v w : LT v w = true ↔ version_lt v w.
Proof. apply blang_LT_release. Qed.

Lemma LT_bool v w : LT v w = bool_decide (version_lt v w).
Proof. apply eq_bool_prop_intro. rewrite Is_true_true, LT_spec, bool_decide_spec. done. Qed.

Lemma GT_spec v w : GT v w = true ↔ version_lt w v.
Proof. apply blang_GT_release. Qed.

Lemma IsZero_spec v : IsZero v = true ↔ v = Zero.
Proof. apply EQ_spec. Qed.

Lemma Parse_VString v : version_fits v → Parse (VString v) = Ok v.
Proof.
  intros (?&?&?). unfold Parse, VString. destruct v as [a b c].
  change (toBlang _) with (release a b c). by rewrite blang_Parse_String.
Qed.

Lemma Make_VString v : version_fits v → Make (VString v) = Ok v.
Proof.
  intros (?&?&?). unfold Make, VString. destruct v as [a b c].
  change (toBlang _) with (release a b c). by rewrite blang_Tolerant_String.
Qed.

Lemma VString_eq v :
  VString v = itoa (Z.of_N (Major v)) +:+ "." +:+
              itoa (Z.of_N (Minor v)) +:+ "." +:+ itoa (Z.of_N (Patch v)).
Proof. apply blang_String_release. Qed.

End Laws.

Lemma version_lt_trichotomy v w : version_lt v w ∨ v = w ∨ version_lt w v.
Proof.
  destruct v as [a b c], w as [a' b' c']. unfold version_lt, lex_lt. simpl.
  destruct (decide (a = a')) as [->|], (decide (b = b')) as [->|],
    (decide (c = c')) as [->|]; auto; lia.
Qed.

Lemma version_lt_irrefl v : ¬ version_lt v v.
Proof. unfold version_lt, lex_lt. lia. Qed.

Lemma version_lt_trans u v w : version_lt u v → version_lt v w → version_lt u w.
Proof. unfold version_lt, lex_lt. lia. Qed.

(** The three gates are thresholds of the version order. *)
Lemma AtLeastMySQL8_spec v : AtLeastMySQL8 v = true ↔ ¬ version_lt v (mkVersion 8 0 0).
Proof. unfold AtLeastMySQL8, version_lt, lex_lt. simpl. rewrite N.leb_le. lia. Qed.

Lemma AtLeastMySQL8030_spec v :
  AtLeastMySQL8030 v = true ↔ ¬ version_lt v (mkVersion 8 0 30).
Proof.
  unfold AtLeastMySQL8030, version_lt, lex_lt. simpl.
  repeat case_match; rewrite ?andb_true_iff, ?andb_false_iff, ?N.ltb_lt, ?N.ltb_ge,
    ?N.eqb_eq, ?N.eqb_neq, ?N.leb_le, ?N.leb_gt in *; split; intros; try done; lia.
Qed.

Lemma AtLeastMySQL84_spec v :
  AtLeastMySQL84 v = true ↔ ¬ version_lt v (mkVersion 8 4 0).
Proof.
  unfold AtLeastMySQL84, version_lt, lex_lt. simpl.
  repeat case_match; rewrite ?andb_true_iff, ?andb_false_iff, ?N.ltb_lt, ?N.ltb_ge,
    ?N.eqb_eq, ?N.eqb_neq, ?N.leb_le, ?N.leb_gt in *; split; intros; try done; lia.
Qed.

(** ** An instance of the library for the witnesses *)

Module Ref.

Definition parse_part (s : string) : option N :=
  z ← parse_nat s;
  if (z <? 2 ^ 64)%Z && String.eqb (itoa z) s then Some (Z.to_N z) else None.

Definition parse (s : string) : result BVersion :=
  match Split s "." with
  | [a; b; c] =>
      match parse_part a, parse_part b, parse_part c with
      | Some a, Some b, Some c => Ok (release a b c)
      | _, _, _ => Err (ErrMsg "invalid version")
      end
  | _ => Err (ErrMsg "No Major.Minor.Patch elements found")
  end.

Definition lt (v w : BVersion) : bool :=
  bool_decide (lex_lt (bMajor v) (bMinor v) (bPatch v) (bMajor w) (bMinor w) (bPatch w)).

Definition eq (v w : BVersion) : bool :=
  bool_decide (bMajor v = bMajor w ∧ bMinor v = bMinor w ∧ bPatch v = bPatch w).

Definition to_string (v : BVersion) : string :=
  itoa (Z.of_N (bMajor v)) +:+ "." +:+ itoa (Z.of_N (bMinor v)) +:+ "." +:+
  itoa (Z.of_N (bPatch v)).

(** The one range expression of the program. *)
Definition range (expr : string) : option (BVersion → bool) :=
  if String.eqb expr ">=5.7.26 <8.0.0 || >=8.0.15" then
    Some (λ v, negb (lt v (release 5 7 26)) && lt v (release 8 0 0)
               || negb (lt v (release 8 0 15)))
  else None.

#[export] Instance blang : Blang := {
  blang_Parse := parse; blang_ParseTolerant := parse;
  blang_EQ := eq; blang_LT := lt; blang_GT := λ v w, lt w v;
  blang_String := to_string; blang_MustParseRange := range }.

Lemma parse_part_itoa a : fits_uint64 a → parse_part (itoa (Z.of_N a)) = Some a.
Proof.
  intros Ha. unfold parse_part, fits_uint64 in *. rewrite parse_nat_itoa by lia. simpl.
  rewrite String.eqb_refl, andb_true_r. destruct (Z.ltb_spec (Z.of_N a) (2 ^ 64)); [|lia].
  by rewrite N2Z.id.
Qed.

Lemma parse_to_string a b c :
  fits_uint64 a → fits_uint64 b → fits_uint64 c →
  parse (to_string (release a b c)) = Ok (release a b c).
Proof.
  intros Ha Hb Hc. unfold parse, to_string, release. cbn [bMajor bMinor bPatch].
  change (itoa (Z.of_N a) +:+ _) with (itoa (Z.of_N a) +:+
    String "." (itoa (Z.of_N b) +:+ String "." (itoa (Z.of_N c)))).
  rewrite !Split_digits, Split_digits_last by (done || apply all_digits_itoa; lia).
  by rewrite !parse_part_itoa.
Qed.

#[export] Instance blang_laws : BlangLaws.
Proof.
  split; try (intros; apply bool_decide_eq_true); try done;
    try (intros; by apply parse_to_string).
  eexists. split; [reflexivity|]. intros a b c. cbv beta.
  rewrite orb_true_iff, andb_true_iff, !negb_true_iff. unfold lt.
  by rewrite !bool_decide_eq_false, bool_decide_eq_true.
Qed.

End Ref.
