(* ===== verification/KubeSync.v ===== *)
(** * The object syncer

    [syncer.Sync] with [syncer.NewObjectSyncer] of [presslabs/controller-util]: a
    library that reads an object from the API server, lets a callback of the
    operator change it, and writes it if it changed.  It is the class
    [ObjectSyncer], and what the operator relies on is [ObjectSyncerLaws]; a
    callback may make calls itself.

    [controllerutil.CreateOrUpdate] and [retry.RetryOnConflict], of which the
    operator builds a syncer itself, are the classes [CreateOrUpdate] and
    [RetryOnConflict]: their callbacks change a state of the caller too.
    [StateSyncer] is an object syncer with such a callback: that of the backup
    jobs, which changes the resource of the backup.

    [Module RefSyncer] is an implementation, for examples. *)

From S2P Require Import Prelude.
Open Scope stdpp_scope.

(** The calls of the library for an object of type [A]: reading it (the object is
    given with its name), and creating or updating it. *)
Inductive sync_op (A : Type) := SyncFetch (obj : A) | SyncPersist (obj : A).
Arguments SyncFetch {A} obj.
Arguments SyncPersist {A} obj.

#[export] Instance sync_effect {A} : Effect (sync_op A) := λ _, result A.

(** The result has the object as it is after the run. *)
Class ObjectSyncer (Op A : Type) `{!Effect Op, !Embeds (sync_op A) Op} :=
  sync_object : A → (A → prog Op (A * result unit)) → prog Op (A * result unit).

(** [syncer.ErrIgnore] and [syncer.ErrOwnerDeleted] end a callback without an error
    of the whole, and nothing is written. *)
Definition ignored (r : result unit) : bool :=
  match r with Ok _ => true | Err e => bool_decide (e = ErrIgnore) end.

(** What is promised, as a rule [R] on the calls: the library writes only an
    object that the callback returned without an error, makes no other calls than
    reading and writing, and succeeds only if the callback did. *)
Class ObjectSyncerLaws (Op A : Type) `{!Effect Op, !Embeds (sync_op A) Op, !ObjectSyncer Op A} : Prop :=
  sync_keeps R P (obj : A) (mutate : A → prog Op (A * result unit)) Y :
    (∀ o r h, R (Ev (embed (SyncFetch o)) r) h) →
    (∀ o, keeps R P (mutate o) Y) → (∀ r, stable (Y r)) →
    (∀ o r h, P h → Y (o, Ok tt) h → R (Ev (embed (SyncPersist o)) r) h) →
    keeps R P (sync_object obj mutate) (λ r h,
      r.2 = Ok tt → ∃ o e, ignored e = true ∧ Y (o, e) h).

(** [controllerutil.CreateOrUpdate]: the object is read, changed by the callback, and
    written.  [S] is the state that the callback changes besides the object. *)
Class CreateOrUpdate (Op A S : Type) `{!Effect Op, !Embeds (sync_op A) Op} :=
  create_or_update : S → A → (S → A → prog Op (S * A * result unit)) → prog Op (S * A * result unit).

(** The object as the API server has it, or, if it has none, the one that was given. *)
Definition orNew {A} (obj : A) (r : result A) : result A :=
  match r with
  | Ok o => Ok o
  | Err e => if is_not_found e then Ok obj else Err e
  end.

Definition fetched {Op A} `{!Effect Op, !Embeds (sync_op A) Op} (obj o : A) (h : list (event Op)) : Prop :=
  ∃ r, Ev (embed (SyncFetch obj)) r ∈ h ∧ orNew obj (answer_of (SyncFetch obj) r) = Ok o.

Lemma fetched_stable {Op A} `{!Effect Op, !Embeds (sync_op A) Op} (obj o : A) : stable (fetched (Op := Op) obj o).
Proof. unfold fetched. auto with stable. Qed.

Class CreateOrUpdateLaws (Op A S : Type)
    `{!Effect Op, !Embeds (sync_op A) Op, !CreateOrUpdate Op A S} : Prop :=
  create_or_update_keeps R P (s : S) (obj : A) mutate Y :
    (∀ o r h, R (Ev (embed (SyncFetch o)) r) h) →
    (∀ o, keeps R (λ h, P h ∧ fetched obj o h) (mutate s o) Y) → (∀ r, stable (Y r)) →
    (∀ s' o r h, P h → Y (s', o, Ok tt) h → R (Ev (embed (SyncPersist o)) r) h) →
    keeps R P (create_or_update s obj mutate) (λ r h,
      (r.1.1 = s ∨ ∃ o e, Y (r.1.1, o, e) h) ∧ (r.2 = Ok tt → ∃ o, Y (r.1.1, o, Ok tt) h)).

(** The object syncer for a callback that changes a state of the caller besides the
    object: it runs [CreateOrUpdate], an ignored error ends it without an error, and
    nothing is written then, nor for an owner that is being deleted. *)
Class StateSyncer (Op A S : Type) `{!Effect Op, !Embeds (sync_op A) Op} :=
  sync_state : S → A → (S → A → prog Op (S * A * result unit)) → prog Op (S * A * result unit).

Class StateSyncerLaws (Op A S : Type) `{!Effect Op, !Embeds (sync_op A) Op, !StateSyncer Op A S} : Prop :=
  sync_state_keeps R P (s : S) (obj : A) mutate Y :
    (∀ o r h, R (Ev (embed (SyncFetch o)) r) h) →
    (∀ o, keeps R (λ h, P h ∧ fetched obj o h) (mutate s o) Y) → (∀ r, stable (Y r)) →
    (∀ s' o r h, P h → Y (s', o, Ok tt) h → R (Ev (embed (SyncPersist o)) r) h) →
    keeps R P (sync_state s obj mutate) (λ r h,
      (r.1.1 = s ∨ ∃ o e, Y (r.1.1, o, e) h) ∧
      (r.2 = Ok tt → ∃ o e, ignored e = true ∧ Y (r.1.1, o, e) h)).

(** [retry.RetryOnConflict]: the body is run, and run again a bounded number of times
    while it fails with a conflict.  What every run keeps is kept. *)
Class RetryOnConflict (Op S : Type) `{!Effect Op} :=
  retry_on_conflict : S → (S → prog Op (S * result unit)) → prog Op (S * result unit).

Class RetryOnConflictLaws (Op S : Type) `{!Effect Op, !RetryOnConflict Op S} : Prop :=
  retry_keeps R P (I : S → list (event Op) → Prop) s body (Y : S * result unit → list (event Op) → Prop) :
    (∀ s, stable (I s)) → (∀ r, stable (Y r)) →
    (∀ s, keeps R (λ h, P h ∧ I s h) (body s) (λ r h, I r.1 h ∧ Y r h)) →
    keeps R (λ h, P h ∧ I s h) (retry_on_conflict s body) (λ r h, I r.1 h ∧ Y r h).

Module RefSyncer.
Section RefSyncer.
Context (Op A : Type) `{!Effect Op, !Embeds (sync_op A) Op}.

Definition ask (o : sync_op A) : prog Op (result A) := r ← call (embed o); mret (answer_of o r).

#[local] Instance syncer : ObjectSyncer Op A := λ obj mutate,
  r ← ask (SyncFetch obj);
  match r with
  | Err e => mret (obj, Err e)
  | Ok o =>
      r ← mutate o;
      match r.2 with
      | Err e => mret (r.1, if ignored (Err e) then Ok tt else Err e)
      | Ok _ =>
          p ← ask (SyncPersist r.1);
          mret (match p with Ok o => (o, Ok tt) | Err e => (r.1, Err e) end)
      end
  end.

Lemma ask_keeps R P (o : sync_op A) :
  (∀ r h, P h → R (Ev (embed o) r) h) → keeps R P (ask o) (λ _ _, True).
Proof.
  intros HR. apply (keeps_bind _ _ (λ _ _, True)); [by apply keeps_call|intros ?; exact (stable_const True)|].
  intros r. by apply keeps_ret.
Qed.

#[local] Instance syncer_laws : ObjectSyncerLaws Op A.
Proof.
  intros R P obj mutate Y HF Hm HY HP. unfold sync_object, syncer.
  apply (keeps_bind _ _ (λ _ _, True)); [by apply ask_keeps|intros ?; exact (stable_const True)|].
  intros [o|e]; [|by apply keeps_ret].
  eapply keeps_bind; [eapply keeps_weaken; [apply Hm|by intros h [? _]|done]|exact HY|].
  intros [o' [[]|e]]; simpl.
  - apply (keeps_bind _ _ (λ _ _, True)); [|intros ?; exact (stable_const True)|].
    + apply ask_keeps. intros r h [[Hh _] Ho]. by apply HP.
    + intros p. apply keeps_ret. intros h [[_ Ho] _] _. by exists o', (Ok tt).
  - apply keeps_ret. intros h [_ Ho]. case_bool_decide as Hi; simpl; [|done]. intros _.
    exists o', (Err e). split; [|done]. simpl. by rewrite bool_decide_eq_true_2.
Qed.

Context (S : Type).

#[local] Instance creator : CreateOrUpdate Op A S := λ s obj mutate,
  r ← ask (SyncFetch obj);
  match orNew obj r with
  | Err e => mret (s, obj, Err e)
  | Ok o =>
      r ← mutate s o;
      match r.2 with
      | Err e => mret r
      | Ok _ =>
          p ← ask (SyncPersist r.1.2);
          mret (match p with Ok o => (r.1.1, o, Ok tt) | Err e => (r.1, Err e) end)
      end
  end.

Lemma ask_fetched R P (obj : A) :
  (∀ o r h, R (Ev (embed (SyncFetch o)) r) h) →
  keeps R P (ask (SyncFetch obj)) (λ r h, ∀ o, orNew obj r = Ok o → fetched obj o h).
Proof.
  intros HF. unfold ask. apply (keeps_bind _ _ (λ r h, Ev (embed (SyncFetch obj)) r ∈ h)); [|intros ?; apply stable_elem|].
  - apply keeps_call; [intros; apply HF|]. intros r h _. apply elem_of_app. right. by left.
  - intros r. apply keeps_ret. intros h [_ Hin] o Ho. by exists r.
Qed.

#[local] Instance creator_laws : CreateOrUpdateLaws Op A S.
Proof.
  intros R P s obj mutate Y HF Hm HY HP. unfold create_or_update, creator.
  apply (keeps_bind _ _ (λ r h, ∀ o, orNew obj r = Ok o → fetched obj o h));
    [by apply ask_fetched|intros r h e Hr o Ho; by eapply fetched_stable, Hr|].
  intros r. destruct (orNew obj r) as [o|e];
    [|apply keeps_ret; intros; split; [by left|done]].
  eapply keeps_bind; [eapply keeps_weaken; [apply Hm|intros h [? Hf]; split; [done|by apply Hf]|done]|exact HY|].
  intros [[s' o'] [[]|e]]; simpl.
  - apply (keeps_bind _ _ (λ _ _, True)); [|intros ?; exact (stable_const True)|].
    + apply ask_keeps. intros p h [[Hh _] Ho]. by eapply HP.
    + intros [o''|e]; apply keeps_ret; intros h [[_ Ho] _]; simpl.
      * split; [right; by eexists _, _|]. intros _. by exists o'.
      * split; [right; by eexists _, _|done].
  - apply keeps_ret. intros h [_ Ho]. simpl. split; [right; by eexists _, _|done].
Qed.

#[local] Instance state_syncer : StateSyncer Op A S := λ s obj mutate,
  r ← ask (SyncFetch obj);
  match orNew obj r with
  | Err e => mret (s, obj, Err e)
  | Ok o =>
      r ← mutate s o;
      match r.2 with
      | Err e => mret (r.1, if ignored (Err e) then Ok tt else Err e)
      | Ok _ =>
          p ← ask (SyncPersist r.1.2);
          mret (match p with Ok o => (r.1.1, o, Ok tt) | Err e => (r.1, Err e) end)
      end
  end.

#[local] Instance state_syncer_laws : StateSyncerLaws Op A S.
Proof.
  intros R P s obj mutate Y HF Hm HY HP. unfold sync_state, state_syncer.
  apply (keeps_bind _ _ (λ r h, ∀ o, orNew obj r = Ok o → fetched obj o h));
    [by apply ask_fetched|intros r h e Hr o Ho; by eapply fetched_stable, Hr|].
  intros r0. destruct (orNew obj r0) as [o|e]; [|apply keeps_ret; intros; split; [by left|done]].
  eapply keeps_bind; [eapply keeps_weaken; [apply Hm|intros h [? Hf]; split; [done|by apply Hf]|done]|exact HY|].
  intros [[s' o'] [[]|e]]; simpl.
  - apply (keeps_bind _ _ (λ _ _, True)); [|intros ?; exact (stable_const True)|].
    + apply ask_keeps. intros p h [[Hh _] Ho]. by eapply HP.
    + intros [o''|e]; apply keeps_ret; intros h [[_ Ho] _]; simpl.
      * split; [right; by eexists _, _|]. intros _. exists o', (Ok tt). by split.
      * split; [right; by exists o', (Ok tt)|done].
  - apply keeps_ret. intros h [_ Ho]. simpl. split; [right; by exists o', (Err e)|].
    case_bool_decide as Hi; simpl; [|done]. intros _. exists o', (Err e). split; [|done].
    simpl. by rewrite bool_decide_eq_true_2.
Qed.

(** The error of the API server for a conflict. *)
Definition conflict : error := ErrMsg "the object has been modified".

Fixpoint attempts (n : nat) (s : S) (body : S → prog Op (S * result unit)) : prog Op (S * result unit) :=
  r ← body s;
  match n with
  | O => mret r
  | Datatypes.S n => if bool_decide (r.2 = Err conflict) then attempts n r.1 body else mret r
  end.

#[local] Instance retry : RetryOnConflict Op S := attempts 4.

#[local] Instance retry_laws : RetryOnConflictLaws Op S.
Proof.
  intros R P I s body Y HI HY Hb. unfold retry_on_conflict, retry. generalize 4%nat. intros n. revert s.
  induction n as [|n IH]; intros s; (eapply keeps_bind;
    [apply Hb|intros r; apply stable_and; [apply HI|apply HY]|intros r]).
  - apply keeps_ret. by intros h [_ ?].
  - case_bool_decide; [|apply keeps_ret; by intros h [_ ?]].
    eapply keeps_weaken; [apply IH|by intros h [[? _] [? _]]|done].
Qed.

End RefSyncer.
End RefSyncer.
