(* ===== verification/ClusterTypes.v ===== *)
(** * The data of the operator

    The API types of [pkg/apis/mysql/v1alpha1], the label, annotation and
    finalizer names of [pkg/apis/domain/domain.go], the constants of
    [pkg/util/constants], and the parts of the Kubernetes core types that the
    modelled code reads or writes.

    Enumerations of strings are inductive types; pointers are [option]s; maps
    are [gmap]s, with [None] for a nil map where the code writes to it; times
    are nanoseconds in [Z].  A [resource.Quantity] is its serialised form (the
    string of the manifest); the functions on it are the class [Resource], since
    they belong to [k8s.io/apimachinery].  A record lists the fields the
    modelled code uses; the other fields are only copied around. *)

From S2P Require Import Prelude GoStrings.
Open Scope stdpp_scope.

(** ** k8s.io/apimachinery *)

Definition Quantity := string.

Class Resource := {
  Value : Quantity → Z;
  MilliValue : Quantity → Z;
  QIsZero : Quantity → bool;
  QSub : Quantity → Quantity → Quantity;
  QCmp : Quantity → Quantity → Z;
  (** [resource.MustParse] does not panic *)
  QValid : Quantity → bool }.

Definition ResourceList := gmap string Quantity.

Record ResourceRequirements := mkResources {
  Requests : ResourceList; Limits : ResourceList }.
Definition no_resources : ResourceRequirements := mkResources ∅ ∅.

(** [intstr.IntOrString]. *)
Inductive IntOrString := FromInt (z : Z) | FromString (s : string).

#[export] Instance IntOrString_eq_dec : EqDecision IntOrString.
Proof. solve_decision. Defined.

(** [IntOrString.IntValue]: [Atoi] of a string, 0 when it is not a number. *)
Definition IntValue (v : IntOrString) : Z :=
  match v with FromInt z => z | FromString s => default 0%Z (Atoi s) end.

Inductive ConditionStatus := ConditionTrue | ConditionFalse | ConditionUnknown.

#[export] Instance ConditionStatus_eq_dec : EqDecision ConditionStatus.
Proof. solve_decision. Defined.

Record ObjectMeta := mkMeta {
  om_Name : string; om_Namespace : string; om_UID : string;
  om_Labels : gmap string string;
  om_Annotations : option (gmap string string);
  om_Finalizers : list string;
  om_CreationTimestamp : Z;
  om_DeletionTimestamp : option Z }.

(** [m[k]] with the second result: a nil map is empty. *)
Definition map_get {V} (m : option (gmap string V)) (k : string) : option V :=
  match m with Some m => m !! k | None => None end.

(** ** k8s.io/api/core/v1 *)

(** A value of a Kubernetes type that the operator only copies (tolerations, a
    volume source, a lifecycle hook): its manifest. *)
Definition Manifest := string.

Inductive EnvVarSource :=
  | FieldRef (apiVersion fieldPath : string)
  | SecretKeyRef (name key : string) (optional : bool).

Record EnvVar := mkEnvVarFrom {
  ev_Name : string; ev_Value : string; ev_ValueFrom : option EnvVarSource }.
Definition mkEnvVar (name value : string) : EnvVar := mkEnvVarFrom name value None.

Inductive EnvFromSource := EnvFromSecret (name : string) | EnvFromOther (manifest : Manifest).

Record VolumeMount := mkMount {
  vm_Name : string; vm_MountPath : string; vm_ReadOnly : bool }.

Record ContainerPort := mkContainerPort {
  cp_Name : string; cp_ContainerPort : Z; cp_Protocol : string }.

(** [core.Handler]: a command, or an HTTP request. *)
Inductive Handler :=
  | ExecAction (command : list string)
  | HTTPGetAction (path : string) (port : Z) (scheme : string).

Record Probe := mkProbe {
  pr_InitialDelaySeconds : Z; pr_TimeoutSeconds : Z; pr_PeriodSeconds : Z;
  pr_Handler : Handler; pr_SuccessThreshold : Z; pr_FailureThreshold : Z }.

Inductive Lifecycle := PreStopExec (command : list string) | UserLifecycle (manifest : Manifest).

Record SecurityContext := mkSecurityContext {
  sc_RunAsUser : option Z; sc_RunAsGroup : option Z; sc_AllowPrivilegeEscalation : option bool }.

(** Slices that the code tells apart from nil are [option]s. *)
Record Container := mkContainerFull {
  c_Name : string;
  c_Image : string;
  c_ImagePullPolicy : string;
  c_Command : list string;
  c_Args : option (list string);
  c_EnvFrom : option (list EnvFromSource);
  c_EnvVars : option (list EnvVar);
  c_VolumeMounts : option (list VolumeMount);
  c_Ports : option (list ContainerPort);
  c_Resources : ResourceRequirements;
  c_LivenessProbe : option Probe;
  c_ReadinessProbe : option Probe;
  c_Lifecycle : option Lifecycle;
  c_SecurityContext : option SecurityContext;
  c_TerminationMessagePath : string;
  c_TerminationMessagePolicy : string }.

Definition c_Env (c : Container) : list EnvVar := default [] (c_EnvVars c).

(** A container with a name, an image and an environment. *)
Definition mkContainer (name image : string) (env : list EnvVar) : Container :=
  mkContainerFull name image "" [] None None (Some env) None None no_resources None None None None "" "".

Record EmptyDirVolumeSource := mkEmptyDir { ed_Medium : string; ed_SizeLimit : option Quantity }.

Inductive VolumeSource :=
  | VolumeNone
  | VolumeClaim (claimName : string)
  | VolumeHostPath (manifest : Manifest)
  | VolumeEmptyDir (source : EmptyDirVolumeSource)
  | VolumeConfigMap (name : string) (defaultMode : Z)
  | VolumeOther (manifest : Manifest).

Record Volume := mkVolume { vol_Name : string; vol_Source : VolumeSource }.

Inductive PodPhase := PodPending | PodRunning | PodSucceeded | PodFailed | PodUnknown.

#[export] Instance PodPhase_eq_dec : EqDecision PodPhase.
Proof. solve_decision. Defined.

Record PodCondition := mkPodCondition {
  pc_Type : string; pc_Status : ConditionStatus;
  pc_Reason : string; pc_Message : string; pc_LastTransitionTime : Z }.

(** [core.PodReady]. *)
Definition PodReady : string := "Ready".

(** The state of an init container: [Terminated] with its exit code, if it is. *)
Record ContainerStatus := mkContainerStatus {
  cs_Name : string; cs_Terminated : option Z }.

Record Pod := mkPod {
  pod_Meta : ObjectMeta;
  pod_Hostname : string;
  pod_Containers : list Container;
  pod_InitContainers : list Container;
  pod_Phase : PodPhase;
  pod_Conditions : list PodCondition;
  pod_InitContainerStatuses : list ContainerStatus }.

Record PersistentVolumeClaimSpec := mkPVCSpec {
  pvc_AccessModes : list string;
  pvc_Resources : ResourceRequirements;
  pvc_VolumeMode : option string;
  pvc_StorageClass : option string }.

Record OwnerReference := mkOwnerFull {
  ow_APIVersion : string; ow_Kind : string; ow_Name : string; ow_UID : string;
  ow_Controller : option bool }.
Definition mkOwner (kind name : string) : OwnerReference := mkOwnerFull "" kind name "" None.

(** A template of a claim in a stateful set. *)
Record ClaimTemplate := mkClaimTemplate {
  ct_Name : string; ct_Owners : list OwnerReference; ct_Spec : PersistentVolumeClaimSpec }.

(** [core.Affinity]: the term that the operator builds, or what the user gave. *)
Inductive Affinity :=
  | PreferredAntiAffinity (weight : Z) (topologyKey : string) (matchLabels : gmap string string)
  | UserAffinity (manifest : string).

(** [core.PodSpec]. *)
Record PodSecurityContext := mkPodSecurityContext { psc_FSGroup : option Z; psc_RunAsUser : option Z }.

Record CorePodSpec := mkCorePodSpec {
  cps_InitContainers : list Container;
  cps_Containers : list Container;
  cps_Volumes : list Volume;
  cps_Affinity : option Affinity;
  cps_ImagePullSecrets : list string;
  cps_NodeSelector : gmap string string;
  cps_PriorityClassName : string;
  cps_Tolerations : list Manifest;
  cps_ServiceAccountName : string;
  cps_SecurityContext : option PodSecurityContext }.

(** ** k8s.io/api/apps/v1 *)

Record StatefulSet := mkStatefulSetFull {
  sts_Meta : ObjectMeta;
  sts_Replicas : option Z;
  sts_Selector : option (gmap string string);
  sts_ServiceName : string;
  sts_TemplateLabels : gmap string string;
  sts_TemplateAnnotations : gmap string string;
  sts_Template : CorePodSpec;
  sts_VolumeClaimTemplates : list ClaimTemplate;
  sts_ReadyReplicas : Z }.

Definition sts_Containers (s : StatefulSet) : list Container := cps_Containers (sts_Template s).
Definition sts_InitContainers (s : StatefulSet) : list Container := cps_InitContainers (sts_Template s).

(** A stateful set with its containers. *)
Definition mkStatefulSet (m : ObjectMeta) (replicas : option Z) (cs inits : list Container)
    (ready : Z) : StatefulSet :=
  mkStatefulSetFull m replicas None "" ∅ ∅ (mkCorePodSpec inits cs [] None [] ∅ "" [] "" None) [] ready.

(** ** pkg/apis/domain *)

(* src/pkg/apis/domain/domain.go:33-51 APIGroup *)
Definition APIGroup : string := "mysql" +:+ "." +:+ "presslabs.org".
Definition OperatorPrefix : string := "mysql-operator." +:+ "presslabs.org".
Definition BackupsPrefix : string := "backups.mysql." +:+ "presslabs.org".
Definition ManagedBy : string := APIGroup.

(* src/pkg/apis/domain/domain.go:56-68 LabelCluster *)
Definition LabelCluster : string := APIGroup +:+ "/cluster".
Definition LabelServiceType : string := APIGroup +:+ "/service-type".

(* src/pkg/apis/domain/domain.go:70-75 AnnotationVersion *)
Definition AnnotationVersion : string := APIGroup +:+ "/version".
Definition AnnotationSkipGTIDPurged : string := APIGroup +:+ "/skip-gtid-purged".
Definition AnnotationResourceDeletionPolicy : string :=
  OperatorPrefix +:+ "/resourceDeletionPolicy".

(* src/pkg/apis/domain/domain.go:77-83 FinalizerOrchestrator *)
Definition FinalizerOrchestrator : string := APIGroup +:+ "/registered-in-orchestrator".
Definition FinalizerUser : string := OperatorPrefix +:+ "/user".
Definition FinalizerDatabase : string := OperatorPrefix +:+ "/database".
Definition FinalizerRemoteStorageCleanup : string := BackupsPrefix +:+ "/remote-storage-cleanup".

(* src/pkg/apis/domain/domain.go:85-86 NodeInitializedConditionType *)
Definition NodeInitializedConditionType : string := APIGroup +:+ "/NodeInitialized".

(* src/pkg/apis/domain/domain.go:88-94 IsManagedByMySQL *)
Definition IsManagedByMySQL (labels : option (gmap string string)) : bool :=
  match labels with
  | None => false
  | Some m => String.eqb (default "" (m !! "app.kubernetes.io/managed-by")) ManagedBy
  end.

(** ** pkg/util/constants *)

(* src/pkg/util/constants/constants.go:20-22 MysqlPort *)
Definition MysqlPort : Z := 3306.

(* src/pkg/util/constants/constants.go:46-68 OperatorDbName *)
Definition OperatorDbName : string := "sys_operator".
Definition OperatorStatusTableName : string := "status".
Definition OperatorConfiguredKey : string := "configured".
Definition OperatorConfiguredPendingValue : string := "0".
Definition OperatorConfiguredDoneValue : string := "1".
Definition OperatorInitFileCompleteKey : string := "init_file_complete".
Definition OperatorInitFileCompleteValue : string := "1".

(* src/pkg/util/constants/constants.go:111-119 MySQLTagsToSemVer *)
Definition MySQLDefaultVersion : string := "5.7.35".
Definition MySQLTagsToSemVer : gmap string string :=
  list_to_map [("5.7", "5.7.35"); ("8.0", "8.0.20"); ("8.4", "8.4.8")].

(* src/pkg/util/constants/constants.go:120-136 MysqlImageVersions *)
Definition MysqlImageVersions : gmap string string := list_to_map [
  ("5.7.35", "percona@sha256:caab4e854bd75040d07802bf1862bfef1d2b4db0acbc9c4aaf5c21c698fdd393");
  ("5.7.31", "percona@sha256:68dad5e2efeb6893e2d7d116a1eae144f2c641c17d00e7869397395590c91651");
  ("5.7.29", "percona@sha256:d801123bbfaf750924f993f5c59189d144a93feb928b8aef95e541dd61c62881");
  ("5.7.26", "percona@sha256:713c1817615b333b17d0fbd252b0ccc53c48a665d4cfcb42178167435a957322");
  ("5.7.24", "percona@sha256:b3b7fb177b416563c46fe012298e042ec1607cc0539ce6014146380b0d27b08c");
  ("8.0.20", "percona@sha256:6d4524eccd26af7bd7fb623c567159dfbd7f3d9a0e2f7bebd54af1e9ca9903dc");
  ("8.4.8", "docker.io/percona/percona-server@sha256:eaa4cf955f8a01a43faa6ef656bf8fb69a17c17c278a3b0514212291ca0448b1")].

(** ** pkg/apis/mysql/v1alpha1/mysqlcluster_types.go *)

(* src/pkg/apis/mysql/v1alpha1/mysqlcluster_types.go:183-231 PodSpec *)
Record PodSpec := mkPodSpec {
  ImagePullPolicy : string;
  ImagePullSecrets : list string;
  ps_Labels : gmap string string;
  ps_Annotations : gmap string string;
  ps_Resources : ResourceRequirements;
  ps_Affinity : option Affinity;
  MysqlLifecycle : option Lifecycle;
  NodeSelector : gmap string string;
  PriorityClassName : string;
  Tolerations : list Manifest;
  ServiceAccountName : string;
  BackupAffinity : option Affinity;
  (** nil and empty are told apart *)
  BackupNodeSelector : option (gmap string string);
  BackupPriorityClassName : string;
  BackupTolerations : option (list Manifest);
  ps_Volumes : list Volume;
  ps_VolumeMounts : list VolumeMount;
  ps_InitContainers : list Container;
  ps_Containers : list Container;
  MetricsExporterResources : ResourceRequirements;
  MySQLOperatorSidecarResources : ResourceRequirements;
  PtHeartbeatResources : ResourceRequirements }.

(* src/pkg/apis/mysql/v1alpha1/mysqlcluster_types.go:233-256 VolumeSpec *)
Record VolumeSpec := mkVolumeSpec {
  EmptyDir : option EmptyDirVolumeSource;
  HostPath : option Manifest;
  PersistentVolumeClaim : option PersistentVolumeClaimSpec;
  KeepAfterDelete : bool }.

(* src/pkg/apis/mysql/v1alpha1/mysqlcluster_types.go:179-181 MysqlConf *)
Definition MysqlConf := gmap string IntOrString.

(* src/pkg/apis/mysql/v1alpha1/mysqlcluster_types.go:258-296 QueryLimits *)
Record QueryLimits := mkQueryLimits {
  MaxIdleTime : option Z;
  MaxQueryTime : Z;
  Kill : string;
  KillMode : string;
  IgnoreDb : list string;
  IgnoreCommand : list string;
  IgnoreUser : list string }.

(* src/pkg/apis/mysql/v1alpha1/mysqlcluster_types.go:32-177 MysqlClusterSpec *)
Record MysqlClusterSpec := mkSpec {
  Replicas : option Z;
  SecretName : string;
  MysqlVersion : string;
  Image : string;
  SidecarImage : string;
  InitBucketURL : string;
  InitBucketURI : string;
  InitBucketSecretName : string;
  MinAvailable : string;
  BackupSchedule : string;
  BackupURL : string;
  BackupRemoteDeletePolicy : string;
  BackupSecretName : string;
  BackupScheduleJobsHistoryLimit : option Z;
  sp_MysqlConf : option MysqlConf;
  sp_PodSpec : PodSpec;
  sp_VolumeSpec : VolumeSpec;
  TmpfsSize : option Quantity;
  MaxSlaveLatency : option Z;
  sp_QueryLimits : option QueryLimits;
  ReadOnly : bool;
  ServerIDOffset : option Z;
  BackupCompressCommand : list string;
  BackupDecompressCommand : list string;
  MetricsExporterExtraArgs : list string;
  RcloneExtraArgs : list string;
  XbstreamExtraArgs : list string;
  XtrabackupExtraArgs : list string;
  XtrabackupPrepareExtraArgs : list string;
  XtrabackupTargetDir : string;
  InitFileExtraSQL : list string }.

(* src/pkg/apis/mysql/v1alpha1/mysqlcluster_types.go:313-337 ClusterConditionType *)
Inductive ClusterConditionType :=
  | ClusterConditionReady
  | ClusterConditionFailoverAck
  | ClusterConditionReadOnly
  | ClusterConditionFailoverInProgress
  | ClusterConditionUpgradeBlocked.

#[export] Instance ClusterConditionType_eq_dec : EqDecision ClusterConditionType.
Proof. solve_decision. Defined.

(* src/pkg/apis/mysql/v1alpha1/mysqlcluster_types.go:298-311 ClusterCondition *)
Record ClusterCondition := mkClusterCondition {
  cc_Type : ClusterConditionType; cc_Status : ConditionStatus;
  cc_LastTransitionTime : Z; cc_Reason : string; cc_Message : string }.

(* src/pkg/apis/mysql/v1alpha1/mysqlcluster_types.go:352-365 NodeConditionType *)
Inductive NodeConditionType :=
  | NodeConditionLagged
  | NodeConditionReplicating
  | NodeConditionMaster
  | NodeConditionReadOnly.

#[export] Instance NodeConditionType_eq_dec : EqDecision NodeConditionType.
Proof. solve_decision. Defined.

(* src/pkg/apis/mysql/v1alpha1/mysqlcluster_types.go:345-350 NodeCondition *)
Record NodeCondition := mkNodeCondition {
  nc_Type : NodeConditionType; nc_Status : ConditionStatus; nc_LastTransitionTime : Z }.

(* src/pkg/apis/mysql/v1alpha1/mysqlcluster_types.go:339-343 NodeStatus *)
Record NodeStatus := mkNodeStatus { ns_Name : string; ns_Conditions : list NodeCondition }.

(* src/pkg/apis/mysql/v1alpha1/mysqlcluster_types.go:367-379 MysqlClusterStatus *)
Record MysqlClusterStatus := mkStatus {
  AppliedMysqlVersion : string;
  ReadyNodes : Z;
  st_Conditions : list ClusterCondition;
  st_Nodes : list NodeStatus }.

(* src/pkg/apis/mysql/v1alpha1/mysqlcluster_types.go:381-395 MysqlCluster *)
Record MysqlCluster := mkCluster {
  cl_Meta : ObjectMeta;
  cl_Spec : MysqlClusterSpec;
  cl_Status : MysqlClusterStatus }.

(** [reflect.DeepEqual] on what the controllers compare.  An empty list stands for
    a nil slice too: the API server does not tell them apart. *)
#[export] Instance ClusterCondition_eq_dec : EqDecision ClusterCondition.
Proof. solve_decision. Defined.
#[export] Instance NodeCondition_eq_dec : EqDecision NodeCondition.
Proof. solve_decision. Defined.
#[export] Instance NodeStatus_eq_dec : EqDecision NodeStatus.
Proof. solve_decision. Defined.
#[export] Instance MysqlClusterStatus_eq_dec : EqDecision MysqlClusterStatus.
Proof. solve_decision. Defined.

(** The embedded [ObjectMeta]. *)
Definition cl_Name (c : MysqlCluster) : string := om_Name (cl_Meta c).
Definition cl_Namespace (c : MysqlCluster) : string := om_Namespace (cl_Meta c).
Definition cl_Annotations (c : MysqlCluster) : option (gmap string string) :=
  om_Annotations (cl_Meta c).
Definition cl_DeletionTimestamp (c : MysqlCluster) : option Z :=
  om_DeletionTimestamp (cl_Meta c).

(** Assignments to fields. *)
Definition with_Status (s : MysqlClusterStatus) (c : MysqlCluster) : MysqlCluster :=
  mkCluster (cl_Meta c) (cl_Spec c) s.
Definition with_Spec (s : MysqlClusterSpec) (c : MysqlCluster) : MysqlCluster :=
  mkCluster (cl_Meta c) s (cl_Status c).
Definition with_Meta (m : ObjectMeta) (c : MysqlCluster) : MysqlCluster :=
  mkCluster m (cl_Spec c) (cl_Status c).
Definition with_Conditions (l : list ClusterCondition) (c : MysqlCluster) : MysqlCluster :=
  with_Status (mkStatus (AppliedMysqlVersion (cl_Status c)) (ReadyNodes (cl_Status c))
                        l (st_Nodes (cl_Status c))) c.
Definition with_Nodes (l : list NodeStatus) (c : MysqlCluster) : MysqlCluster :=
  with_Status (mkStatus (AppliedMysqlVersion (cl_Status c)) (ReadyNodes (cl_Status c))
                        (st_Conditions (cl_Status c)) l) c.
Definition with_Applied (v : string) (c : MysqlCluster) : MysqlCluster :=
  with_Status (mkStatus v (ReadyNodes (cl_Status c))
                        (st_Conditions (cl_Status c)) (st_Nodes (cl_Status c))) c.
Definition with_ReadyNodes (n : Z) (c : MysqlCluster) : MysqlCluster :=
  with_Status (mkStatus (AppliedMysqlVersion (cl_Status c)) n
                        (st_Conditions (cl_Status c)) (st_Nodes (cl_Status c))) c.

(** ** Values for examples: a cluster of three nodes with a volume claim *)

Module Sample.

Definition meta (name ns : string) : ObjectMeta :=
  mkMeta name ns "uid-1" ∅ None [] 0 None.

Definition podSpec : PodSpec :=
  mkPodSpec "" [] ∅ ∅ no_resources None None ∅ "" [] "" None None "" None [] [] [] []
            no_resources no_resources no_resources.

Definition volumeSpec : VolumeSpec :=
  mkVolumeSpec None None (Some (mkPVCSpec [] no_resources None None)) false.

Definition spec (version : string) (replicas : Z) : MysqlClusterSpec :=
  mkSpec (Some replicas) "secret" version "" "" "" "" "" "" "" "" "" "" None None
         podSpec volumeSpec None None None false None [] [] [] [] [] [] [] "" [].

Definition status (applied : string) (ready : Z) : MysqlClusterStatus :=
  mkStatus applied ready [] [].

Definition cluster (version applied : string) : MysqlCluster :=
  mkCluster (meta "demo" "prod") (spec version 3) (status applied 3).

Definition pod (name ns : string) (cs : list Container) : Pod :=
  mkPod (meta name ns) name cs [] PodRunning [mkPodCondition PodReady ConditionTrue "" "" 0] [].

Definition mysqlContainer (version : string) : Container :=
  mkContainer "mysql" "" [mkEnvVar "MY_MYSQL_VERSION" version].

Definition statefulSet (version : string) (ready : Z) : StatefulSet :=
  mkStatefulSet (meta "demo-mysql" "prod") (Some 3%Z) [mysqlContainer version] [] ready.

End Sample.
