(* ===== verification/Versioning.v ===== *)
(** * Version lines

    [pkg/mysqlversioning] and the option catalogue of [pkg/options]: the
    profile of a server version (its configuration defaults, SQL dialect,
    grants, sidecar and pod security), the resolution of versions from strings,
    images and pods, the images of a version, and the upgrade paths.

    [Profile] is the Go interface as a record of operations; the four built-in
    profiles are its values, [Registry] is the ordered list of them.  The
    process-wide state ([GetOptions], and [defaultRuntime], which only
    [InitDefault] assigns) is the class [Process]. *)

From S2P Require Import Prelude GoStrings Semver ClusterTypes.
Open Scope stdpp_scope.

(** ** Options *)

(* src/pkg/options/options.go:41-110 Options *)
Record Options := mkOptions {
  SidecarMysql57Image : string;
  SidecarMysql8Image : string;
  SidecarMysql84Image : string;
  MetricsExporterImage : string;
  o_ImagePullSecretName : string;
  o_ImagePullPolicy : string;
  OrchestratorURI : string;
  OrchestratorTopologyPassword : string;
  OrchestratorTopologyUser : string;
  LeaderElectionNamespace : string;
  LeaderElectionID : string;
  o_Namespace : string;
  MySQLVersionImageOverride : gmap string string;
  MySQLVersionCatalogFile : string;
  mysqlVersionCatalog : option (gmap string string);
  OrchestratorConcurrentReconciles : Z;
  FailoverBeforeShutdownEnabled : bool;
  ClusterRestrictPrivilegeEscalation : bool;
  AllowCrossNamespaceUsers : bool;
  AllowCrossNamespaceDatabases : bool;
  MetricsBindAddress : string;
  HealthProbeBindAddress : string }.

(* src/pkg/options/options.go:310-317 MysqlImageFromCatalog *)
Definition MysqlImageFromCatalog (o : Options) (versionKey : string) : option string :=
  map_get (mysqlVersionCatalog o) versionKey.

(** One line of the catalogue file: skipped, an entry, or an error. *)
Inductive catalog_line := LineSkip | LineEntry (key val : string) | LineError (e : error).

(* src/pkg/options/version_catalog.go:41-54 LoadMySQLVersionCatalogFile *)
Definition parseCatalogLine (text : string) : catalog_line :=
  let line := TrimSpace text in
  if String.eqb line "" || HasPrefix line "#" then LineSkip
  else match Index line "=" with
       | None | Some O =>
           LineError (ErrMsg ("catalog line must be semver=image: " +:+ Quote line))
       | Some idx =>
           let key := TrimSpace (str_take idx line) in
           let val := TrimSpace (str_drop (idx + 1) line) in
           if String.eqb key "" || String.eqb val "" then
             LineError (ErrMsg ("catalog line has empty key or value: " +:+ Quote line))
           else LineEntry key val
       end.

(** The scan of the lines of the file, whose opening, reading and closing are
    the caller's. *)
(* src/pkg/options/version_catalog.go:25-60 LoadMySQLVersionCatalogFile *)
Fixpoint LoadMySQLVersionCatalog (out : gmap string string) (lines : list string) :
    result (gmap string string) :=
  match lines with
  | [] => Ok out
  | text :: lines =>
      match parseCatalogLine text with
      | LineSkip => LoadMySQLVersionCatalog out lines
      | LineEntry k v => LoadMySQLVersionCatalog (<[k := v]> out) lines
      | LineError e => Err e
      end
  end.

(** ** Replication dialects and grants *)

(* src/pkg/mysqlversioning/replication.go:18-31 ReplicationDialect *)
Record ReplicationDialect := mkDialect {
  StopReplication : string;
  ChangeSourceSQL : string;
  StartReplication : string;
  FallbackStartSQL : string;
  ResetBinaryLogsForGTID : string;
  ResetMaster : string;
  ShowReplicaStatusCmd : string;
  ShowReplicasCmd : string;
  LogLabelPreStop : string }.

(* src/pkg/mysqlversioning/replication.go:33-58 MasterSlaveReplication *)
Definition MasterSlaveReplication : ReplicationDialect := {|
  StopReplication := "STOP SLAVE;";
  ChangeSourceSQL := "
	  CHANGE MASTER TO MASTER_AUTO_POSITION=1,
		MASTER_HOST=?,
		MASTER_USER=?,
		MASTER_PASSWORD=?,
		MASTER_CONNECT_RETRY=?;
	";
  StartReplication := "START SLAVE;";
  FallbackStartSQL := "
		  reset slave;
		  start slave IO_THREAD;
		  stop slave IO_THREAD;
		  reset slave;
		  start slave;
		";
  ResetMaster := "RESET MASTER;";
  ResetBinaryLogsForGTID := "";
  ShowReplicaStatusCmd := "SHOW SLAVE STATUS\G";
  ShowReplicasCmd := "SHOW SLAVE HOSTS\G";
  LogLabelPreStop := "show_slave_status" |}.

(* src/pkg/mysqlversioning/replication.go:60-88 SourceReplicaReplication *)
Definition SourceReplicaReplication : ReplicationDialect := {|
  StopReplication := "STOP REPLICA;";
  ChangeSourceSQL := "
	  CHANGE REPLICATION SOURCE TO SOURCE_AUTO_POSITION=1,
		SOURCE_HOST=?,
		SOURCE_USER=?,
		SOURCE_PASSWORD=?,
		SOURCE_CONNECT_RETRY=?,
		GET_SOURCE_PUBLIC_KEY=1;
	";
  StartReplication := "START REPLICA;";
  FallbackStartSQL := "
		  RESET REPLICA;
		  START REPLICA IO_THREAD;
		  STOP REPLICA IO_THREAD;
		  RESET REPLICA;
		  START REPLICA;
		";
  ResetMaster := "";
  ResetBinaryLogsForGTID := "RESET BINARY LOGS AND GTIDS;";
  ShowReplicaStatusCmd := "SHOW REPLICA STATUS\G";
  ShowReplicasCmd := "SHOW REPLICAS\G";
  LogLabelPreStop := "show_replica_status" |}.

(* src/pkg/mysqlversioning/replication.go:90-96 ResetBinaryLogsStatement *)
Definition ResetBinaryLogsStatement (d : ReplicationDialect) : string :=
  if negb (String.eqb (ResetBinaryLogsForGTID d) "") then ResetBinaryLogsForGTID d
  else ResetMaster d.

(* src/pkg/mysqlversioning/grants.go:18-23 GrantHints *)
Record GrantHints := mkGrantHints {
  OrchestratorMetadataTable : string;
  ReplicationUserPrivileges : list string;
  ResetReplicationAll : string }.

(* src/pkg/mysqlversioning/grants.go:25-33 masterSlaveGrantHintsMySQL57 *)
Definition masterSlaveGrantHintsMySQL57 : GrantHints := {|
  OrchestratorMetadataTable := "mysql.slave_master_info";
  ReplicationUserPrivileges :=
    ["SELECT"; "PROCESS"; "RELOAD"; "LOCK TABLES"; "REPLICATION CLIENT"; "REPLICATION SLAVE"];
  ResetReplicationAll := "RESET SLAVE ALL" |}.

(* src/pkg/mysqlversioning/grants.go:35-39 masterSlaveGrantHintsMySQL8 *)
Definition masterSlaveGrantHintsMySQL8 : GrantHints :=
  let h := masterSlaveGrantHintsMySQL57 in
  mkGrantHints (OrchestratorMetadataTable h)
    (ReplicationUserPrivileges h ++ ["BACKUP_ADMIN"]) (ResetReplicationAll h).

(* src/pkg/mysqlversioning/grants.go:41-51 sourceReplicaGrantHints *)
Definition sourceReplicaGrantHints : GrantHints :=
  let h := masterSlaveGrantHintsMySQL8 in
  mkGrantHints "mysql.slave_master_info" (ReplicationUserPrivileges h) "RESET REPLICA ALL".

(** ** Pod security *)

(* src/pkg/mysqlversioning/pod_security.go:18-30 PodSecurityHints *)
Record PodSecurityHints := mkPodSecurity {
  FSGroup : Z;
  RunAsUser : option Z;
  MysqlRunAsUser : option Z;
  MysqlRunAsGroup : option Z }.

(* src/pkg/mysqlversioning/pod_security.go:37-41 PodSecurityLegacy999 *)
Definition PodSecurityLegacy999 : PodSecurityHints := mkPodSecurity 999 (Some 999%Z) None None.

(* src/pkg/mysqlversioning/pod_security.go:43-56 PodSecurityPerconaUID1001VolumeGroup *)
Definition PodSecurityPerconaUID1001VolumeGroup : PodSecurityHints :=
  mkPodSecurity 1001 None (Some 1001%Z) (Some 1001%Z).

(** ** Configuration defaults *)

(* src/pkg/mysqlversioning/profile.go:51-92 OperatorKVCommon *)
Definition OperatorKVCommon (v : Version) (useSourceReplicaTerminology : bool) :
    gmap string string :=
  let out : gmap string string := list_to_map [
    ("log-bin", "/var/lib/mysql/mysql-bin");
    ("relay-log-recovery", "on");
    ("default-storage-engine", "InnoDB");
    ("gtid-mode", "on");
    ("enforce-gtid-consistency", "on");
    ("key-buffer-size", "32M");
    ("myisam-recover-options", "FORCE,BACKUP");
    ("max-allowed-packet", "16M");
    ("max-connect-errors", "1000000");
    ("sysdate-is-now", "1");
    ("sync-binlog", "1");
    ("binlog-format", "ROW");
    ("tmp-table-size", "32M");
    ("max-heap-table-size", "32M");
    ("max-connections", "500");
    ("thread-cache-size", "50");
    ("open-files-limit", "65535");
    ("table-definition-cache", "4096");
    ("table-open-cache", "4096");
    ("innodb-flush-method", "O_DIRECT");
    ("innodb-flush-log-at-trx-commit", "2");
    ("innodb-file-per-table", "1");
    ("character-set-server", "utf8mb4");
    ("collation-server", "utf8mb4_unicode_ci")] in
  let out := if AtLeastMySQL8030 v then out
             else <["innodb-log-files-in-group" := "2"]> out in
  if useSourceReplicaTerminology then
    <["skip-replica-start" := "on"]> (<["log-replica-updates" := "on"]> out)
  else
    <["master-info-repository" := "TABLE"]> (<["relay-log-info-repository" := "TABLE"]>
      (<["skip-slave-start" := "on"]> (<["log-slave-updates" := "on"]> out))).

(* src/pkg/mysqlversioning/config.go:23-32 Mysqld5xConfigs *)
Definition Mysqld5xConfigs : gmap string string := list_to_map [
  ("query-cache-type", "0");
  ("query-cache-size", "0");
  ("sql-mode", "STRICT_TRANS_TABLES,ERROR_FOR_DIVISION_BY_ZERO,NO_AUTO_CREATE_USER," +:+
    "NO_AUTO_VALUE_ON_ZERO,NO_ENGINE_SUBSTITUTION,NO_ZERO_DATE,NO_ZERO_IN_DATE,ONLY_FULL_GROUP_BY");
  ("expire-logs-days", "14")].

(* src/pkg/mysqlversioning/config.go:34-41 Mysqld8xConfigs *)
Definition Mysqld8xConfigs : gmap string string := list_to_map [
  ("sql-mode", "STRICT_TRANS_TABLES,ERROR_FOR_DIVISION_BY_ZERO,NO_AUTO_VALUE_ON_ZERO,NO_ENGINE_SUBSTITUTION," +:+
    "NO_ZERO_DATE,NO_ZERO_IN_DATE,ONLY_FULL_GROUP_BY");
  ("binlog_expire_logs_seconds", "1209600")].

(* src/pkg/mysqlversioning/config.go:43-48 Mysqld80AuthPluginConfig *)
Definition Mysqld80AuthPluginConfig : gmap string string :=
  list_to_map [("default-authentication-plugin", "mysql_native_password")].

(* src/pkg/mysqlversioning/config.go:50-59 MysqldBooleanConfigs *)
Definition MysqldBooleanConfigs (v : Version) : list string :=
  let out := ["skip-name-resolve"] in
  if AtLeastMySQL8030 v then out else out ++ ["skip-host-cache"].

(** ** Profiles *)

(* src/pkg/mysqlversioning/profile_names.go:18-31 ProfilePercona57 *)
Definition ProfilePercona57 : string := "percona-5.7".
Definition ProfilePercona80 : string := "percona-8.0".
Definition ProfilePercona84 : string := "percona-8.4".
Definition ProfileFallbackUnknown : string := "fallback-unknown".

(* src/pkg/mysqlversioning/profile_names.go:33-45 SidecarPercona57 *)
Definition SidecarPercona57 : string := "percona-57".
Definition SidecarPercona80 : string := "percona-80".
Definition SidecarPercona84 : string := "percona-84".

(* src/pkg/mysqlversioning/profile_names.go:47-53 profileUpgradeOrder *)
Definition profileUpgradeOrder : list string :=
  [ProfilePercona57; ProfilePercona80; ProfilePercona84; ProfileFallbackUnknown].

(** The loop of [profileUpgradeIndex], from index [i]. *)
Fixpoint upgradeIndexFrom (i : Z) (order : list string) (name : string) : option Z :=
  match order with
  | [] => None
  | n :: order => if String.eqb n name then Some i else upgradeIndexFrom (i + 1) order name
  end.

(* src/pkg/mysqlversioning/profile_names.go:55-62 profileUpgradeIndex *)
Definition profileUpgradeIndex (name : string) : option Z :=
  upgradeIndexFrom 0 profileUpgradeOrder name.

(* src/pkg/mysqlversioning/profile.go:27-49 Profile *)
Record Profile := mkProfile {
  Name : string;
  Matches : Version → bool;
  MySQLOperatorKV : Version → gmap string string;
  UseMySQL5xConfigs : bool;
  UseMySQL8xConfigs : bool;
  UseMySQL80AuthPlugin : bool;
  Replication : ReplicationDialect;
  ProfileGrantHints : GrantHints;
  SidecarProfileKey : string;
  WantsPerconaInitContainer : Version → bool;
  ProfilePodSecurityHints : bool → PodSecurityHints;
  ProfileValidate : MysqlClusterSpec → result unit;
  InnoDBOperatorLogSizing : Version → Z → string * Z }.

(* src/pkg/mysqlversioning/profile.go:94-100 DefaultValidate *)
Definition DefaultValidate (spec : MysqlClusterSpec) : result unit :=
  if String.eqb (SecretName spec) "" then Err (ErrMsg "secretName is required") else Ok tt.

Section Profiles.
Context `{!Blang}.

(** [MustParseRange] runs when the package is initialised; a panic there would
    stop the program before any profile is used. *)
(* src/pkg/mysqlversioning/profiles_builtin.go:25-25 perconaInitRange *)
Definition perconaInitRange (v : Version) : bool :=
  match MustParseRange ">=5.7.26 <8.0.0 || >=8.0.15" with
  | Some r => r v
  | None => false
  end.

(* src/pkg/mysqlversioning/profiles_builtin.go:27-64 profilePercona57 *)
Definition profilePercona57 : Profile := {|
  Name := ProfilePercona57;
  Matches := λ v, (Major v =? 5)%N;
  MySQLOperatorKV := λ v, OperatorKVCommon v false;
  UseMySQL5xConfigs := true;
  UseMySQL8xConfigs := false;
  UseMySQL80AuthPlugin := false;
  Replication := MasterSlaveReplication;
  ProfileGrantHints := masterSlaveGrantHintsMySQL57;
  SidecarProfileKey := SidecarPercona57;
  WantsPerconaInitContainer := perconaInitRange;
  ProfileValidate := DefaultValidate;
  ProfilePodSecurityHints := λ _, PodSecurityLegacy999;
  InnoDBOperatorLogSizing := λ _ perFileBytes, ("innodb-log-file-size", perFileBytes) |}.

(* src/pkg/mysqlversioning/profiles_builtin.go:66-106 profilePercona80 *)
Definition profilePercona80 : Profile := {|
  Name := ProfilePercona80;
  Matches := λ v, AtLeastMySQL8 v && negb (AtLeastMySQL84 v);
  MySQLOperatorKV := λ v, OperatorKVCommon v false;
  UseMySQL5xConfigs := false;
  UseMySQL8xConfigs := true;
  UseMySQL80AuthPlugin := true;
  Replication := MasterSlaveReplication;
  ProfileGrantHints := masterSlaveGrantHintsMySQL8;
  SidecarProfileKey := SidecarPercona80;
  WantsPerconaInitContainer := perconaInitRange;
  ProfileValidate := DefaultValidate;
  ProfilePodSecurityHints := λ _, PodSecurityLegacy999;
  InnoDBOperatorLogSizing := λ v perFileBytes,
    if AtLeastMySQL8030 v then ("innodb-redo-log-capacity", wrap64 (2 * perFileBytes))
    else ("innodb-log-file-size", perFileBytes) |}.

(* src/pkg/mysqlversioning/profiles_builtin.go:108-147 profilePercona84 *)
Definition profilePercona84 : Profile := {|
  Name := ProfilePercona84;
  Matches := AtLeastMySQL84;
  MySQLOperatorKV := λ v, OperatorKVCommon v true;
  UseMySQL5xConfigs := false;
  UseMySQL8xConfigs := true;
  UseMySQL80AuthPlugin := false;
  Replication := SourceReplicaReplication;
  ProfileGrantHints := sourceReplicaGrantHints;
  SidecarProfileKey := SidecarPercona84;
  WantsPerconaInitContainer := perconaInitRange;
  ProfileValidate := DefaultValidate;
  ProfilePodSecurityHints := λ perconaServerImage,
    if perconaServerImage : bool then PodSecurityPerconaUID1001VolumeGroup
    else PodSecurityLegacy999;
  InnoDBOperatorLogSizing := λ _ perFileBytes,
    ("innodb-redo-log-capacity", wrap64 (2 * perFileBytes)) |}.

(* src/pkg/mysqlversioning/registry.go:62-100 profileFallback *)
Definition profileFallback : Profile := {|
  Name := ProfileFallbackUnknown;
  Matches := λ _, true;
  MySQLOperatorKV := λ v, OperatorKVCommon v false;
  UseMySQL5xConfigs := true;
  UseMySQL8xConfigs := false;
  UseMySQL80AuthPlugin := false;
  Replication := MasterSlaveReplication;
  ProfileGrantHints := masterSlaveGrantHintsMySQL57;
  SidecarProfileKey := SidecarPercona57;
  WantsPerconaInitContainer := λ _, false;
  ProfileValidate := DefaultValidate;
  ProfilePodSecurityHints := λ _, PodSecurityLegacy999;
  InnoDBOperatorLogSizing := λ v perFileBytes,
    if AtLeastMySQL8030 v then ("innodb-redo-log-capacity", wrap64 (2 * perFileBytes))
    else ("innodb-log-file-size", perFileBytes) |}.

(* src/pkg/mysqlversioning/profiles_builtin.go:149-158 BuiltinProfiles *)
Definition BuiltinProfiles : list Profile :=
  [profilePercona84; profilePercona80; profilePercona57; profileFallback].

(** [NewRegistry] copies the list; the mutex guards nothing that changes. *)
(* src/pkg/mysqlversioning/registry.go:28-39 Registry *)
Record Registry := NewRegistry { profiles : list Profile }.

Fixpoint resolve_in (ps : list Profile) (v : Version) : result Profile :=
  match ps with
  | [] => Err (ErrMsg ("no mysql versioning profile matches " +:+ VString v))
  | p :: ps => if Matches p v then Ok p else resolve_in ps v
  end.

(* src/pkg/mysqlversioning/registry.go:41-51 Registry.Resolve *)
Definition Resolve (r : Registry) (v : Version) : result Profile := resolve_in (profiles r) v.

(* src/pkg/mysqlversioning/registry.go:53-60 Registry.MustResolve *)
Definition MustResolve (r : Registry) (v : Version) : Profile :=
  match Resolve r v with
  | Err _ => profileFallback
  | Ok p => p
  end.

End Profiles.

(** ** Images *)

Section Images.
Context `{!Blang}.

(** [NewImageResolver opt] is a resolver bound to [opt]: the options. *)
(* src/pkg/mysqlversioning/resolver.go:38-57 ServerImage *)
Definition ResolverServerImage (opt : Options) (ver : Version) (spec : option MysqlClusterSpec) :
    result string :=
  match spec with
  | None => Err (ErrMsg "nil MysqlCluster spec")
  | Some spec =>
      if negb (String.length (Image spec) =? 0)%nat then Ok (Image spec)
      else
        let key := VString ver in
        match MySQLVersionImageOverride opt !! key with
        | Some img => Ok img
        | None =>
            match MysqlImageFromCatalog opt key with
            | Some img => Ok img
            | None =>
                match MysqlImageVersions !! key with
                | Some img => Ok img
                | None => Err (ErrMsg ("no server image for mysql version " +:+ key))
                end
            end
        end
  end.

(* src/pkg/mysqlversioning/resolver.go:59-71 SidecarImage *)
Definition ResolverSidecarImage (opt : Options) (key : string) : string :=
  if String.eqb key SidecarPercona57 then SidecarMysql57Image opt
  else if String.eqb key SidecarPercona80 then SidecarMysql8Image opt
  else if String.eqb key SidecarPercona84 then SidecarMysql84Image opt
  else SidecarMysql57Image opt.

End Images.

(** ** The process *)

(** [initialised] holds the options [InitDefault] was called with, [None]
    before the call; [GetOptions] is the singleton of the options package. *)
Class Process := { initialised : option Options; GetOptions : Options }.

Section Runtime.
Context `{!Blang, !Process}.

(* src/pkg/mysqlversioning/runtime.go:27-31 Runtime *)
Record Runtime := mkRuntime { rt_Registry : Registry; rt_Resolver : Options }.

(* src/pkg/mysqlversioning/runtime.go:33-55 Default *)
Definition Default : option Runtime :=
  (λ opt, mkRuntime (NewRegistry BuiltinProfiles) opt) <$> initialised.

(* src/pkg/mysqlversioning/runtime.go:57-63 ProfileFor *)
Definition ProfileFor (v : Version) : Profile :=
  match Default with
  | Some rt => MustResolve (rt_Registry rt) v
  | None => MustResolve (NewRegistry BuiltinProfiles) v
  end.

(* src/pkg/mysqlversioning/runtime.go:65-71 ServerImage *)
Definition ServerImage (opt : Options) (ver : Version) (spec : option MysqlClusterSpec) :
    result string :=
  match Default with
  | Some rt => ResolverServerImage (rt_Resolver rt) ver spec
  | None => ResolverServerImage opt ver spec
  end.

(* src/pkg/mysqlversioning/runtime.go:73-86 SidecarImageFor *)
Definition SidecarImageFor (ver : Version) (sidecarOverride : string) : string :=
  if negb (String.eqb sidecarOverride "") then sidecarOverride
  else match Default with
       | Some rt =>
           ResolverSidecarImage (rt_Resolver rt)
             (SidecarProfileKey (MustResolve (rt_Registry rt) ver))
       | None =>
           ResolverSidecarImage GetOptions
             (SidecarProfileKey (MustResolve (NewRegistry BuiltinProfiles) ver))
       end.

(* src/pkg/mysqlversioning/profile.go:102-105 OperatorKVForVersion *)
Definition OperatorKVForVersion (v : Version) : gmap string string :=
  MySQLOperatorKV (ProfileFor v) v.

(** ** Upgrade paths *)

(* src/pkg/mysqlversioning/upgrade_path.go:24-48 ValidateUpgradePath *)
Definition ValidateUpgradePath (current target : Version) : result unit :=
  if LT target current then
    Err (ErrMsg ("downgrading MySQL from " +:+ VString current +:+ " to " +:+
                 VString target +:+ " is not supported"))
  else if EQ target current then Ok tt
  else
    let fromName := Name (ProfileFor current) in
    let toName := Name (ProfileFor target) in
    match profileUpgradeIndex fromName, profileUpgradeIndex toName with
    | Some fromIdx, Some toIdx =>
        if (toIdx >? fromIdx + 1)%Z then
          Err (ErrMsg ("upgrade from MySQL " +:+ VString current +:+ " (" +:+ fromName +:+
                 ") to " +:+ VString target +:+ " (" +:+ toName +:+
                 ") must be done one LTS line at a time (e.g. 8.0.x before 8.4.x)"))
        else Ok tt
    | _, _ =>
        Err (ErrMsg ("cannot validate upgrade path from profile " +:+ Quote fromName +:+
                     " to " +:+ Quote toName))
    end.

(* src/pkg/mysqlversioning/version_state.go:20-23 ProfilesMatch *)
Definition ProfilesMatch (a b : Version) : bool :=
  String.eqb (Name (ProfileFor a)) (Name (ProfileFor b)).

(* src/pkg/mysqlversioning/version_state.go:25-37 VersionChangePending *)
Definition VersionChangePending (desired applied : Version) (hasData : bool) : bool :=
  if IsZero applied then (if negb hasData then false else true)
  else if negb (ProfilesMatch applied desired) then true
  else LT applied desired.

End Runtime.

(** ** Resolution of versions *)

(* src/pkg/mysqlversioning/resolution.go:29-30 MySQLVersionEnv *)
Definition MySQLVersionEnv : string := "MY_MYSQL_VERSION".

(* src/pkg/mysqlversioning/resolution.go:149-157 imageTag *)
Definition imageTag (image : string) : string :=
  match LastIndex image "@" with
  | Some a =>
      if Contains (str_drop a image) "sha256:" then ""
      else match LastIndex image ":" with
           | Some idx => str_drop (idx + 1) image
           | None => ""
           end
  | None =>
      match LastIndex image ":" with
      | Some idx => str_drop (idx + 1) image
      | None => ""
      end
  end.

Section Resolution.
Context `{!Blang}.

(* src/pkg/mysqlversioning/resolution.go:32-43 DesiredVersion *)
Definition DesiredVersion (specVersion : string) : Version :=
  let version := if String.eqb specVersion "" then MySQLDefaultVersion else specVersion in
  let version := default version (MySQLTagsToSemVer !! version) in
  match Make version with Ok sv => sv | Err _ => Zero end.

(* src/pkg/mysqlversioning/resolution.go:45-55 AppliedDataPlaneVersion *)
Definition AppliedDataPlaneVersionOf (statusApplied : string) : Version :=
  if String.eqb statusApplied "" then Zero
  else match Parse statusApplied with
       | Err _ => Zero
       | Ok v => v
       end.

(** [if dash := strings.Index(s, "-"); dash > 0 { ... semver.Parse(s[:dash]) }]. *)
Definition parseBeforeDash (s : string) : option Version :=
  match Index s "-" with
  | Some (S n) => match Parse (str_take (S n) s) with Ok v => Some v | Err _ => None end
  | _ => None
  end.

(* src/pkg/mysqlversioning/resolution.go:122-147 semVerFromImageRef *)
Definition semVerFromImageRef (image : string) : Version :=
  if String.eqb image "" then Zero
  else
    let tag := imageTag image in
    if String.eqb tag "" || String.eqb tag "latest" then Zero
    else
      match (mapped ← MySQLTagsToSemVer !! tag;
             match Parse mapped with Ok v => Some v | Err _ => None end) with
      | Some v => v
      | None =>
          match parseBeforeDash tag with
          | Some v => v
          | None =>
              match Parse tag with
              | Ok v => v
              | Err _ => match Make tag with Ok v => v | Err _ => Zero end
              end
          end
      end.

(* src/pkg/mysqlversioning/resolution.go:100-120 ParseServerVersion *)
Definition ParseServerVersion (version : string) : result Version :=
  let version := TrimSpace version in
  if String.eqb version "" then Err (ErrMsg "empty server version")
  else match parseBeforeDash version with
       | Some v => Ok v
       | None =>
           match Parse version with
           | Ok v => Ok v
           | Err _ =>
               let v := semVerFromImageRef version in
               if IsZero v then
                 Err (ErrMsg ("unrecognized server version " +:+ Quote version))
               else Ok v
           end
       end.

(** The loop over the environment of a container. *)
Fixpoint versionFromEnv (env : list EnvVar) : option Version :=
  match env with
  | [] => None
  | e :: env =>
      if String.eqb (ev_Name e) MySQLVersionEnv && negb (String.eqb (ev_Value e) "") then
        match Parse (ev_Value e) with
        | Ok v => Some v
        | Err _ => versionFromEnv env
        end
      else versionFromEnv env
  end.

(* src/pkg/mysqlversioning/resolution.go:89-98 semVerFromMysqlContainer *)
Definition semVerFromMysqlContainer (c : Container) : Version :=
  match versionFromEnv (c_Env c) with
  | Some v => v
  | None => semVerFromImageRef (c_Image c)
  end.

(** The first container of a name. *)
Fixpoint findContainer (name : string) (cs : list Container) : option Container :=
  match cs with
  | [] => None
  | c :: cs => if String.eqb (c_Name c) name then Some c else findContainer name cs
  end.

(* src/pkg/mysqlversioning/resolution.go:57-74 SemVerFromStatefulSet *)
Definition SemVerFromStatefulSet (sts : option StatefulSet) : Version :=
  match sts with
  | None => Zero
  | Some sts =>
      match findContainer "mysql" (sts_Containers sts) with
      | Some c => semVerFromMysqlContainer c
      | None =>
          match findContainer "mysql-init-only" (sts_InitContainers sts) with
          | Some c => semVerFromMysqlContainer c
          | None => Zero
          end
      end
  end.

(* src/pkg/mysqlversioning/resolution.go:76-87 SemVerFromPod *)
Definition SemVerFromPod (pod : option Pod) : Version :=
  match pod with
  | None => Zero
  | Some pod =>
      match findContainer "mysql" (pod_Containers pod) with
      | Some c => semVerFromMysqlContainer c
      | None => Zero
      end
  end.

End Resolution.

(** ** Values for examples *)

Definition sampleOptions : Options :=
  mkOptions "ghcr.io/s57" "ghcr.io/s80" "ghcr.io/s84" "prom/mysqld-exporter:v0.16.0" ""
    "IfNotPresent" "" "" "" "default" "mysql-operator-leader-election" "" ∅ "" (Some ∅) 10
    true false false false ":8080" ":8081".

(** The process before [InitDefault]. *)
Definition sampleProcess : Process := {| initialised := None; GetOptions := sampleOptions |}.

(** ** Properties *)

(** The line a version belongs to, as the position of its profile in
    [profileUpgradeOrder]. *)
Definition lineIndex (v : Version) : Z :=
  if AtLeastMySQL84 v then 2 else if AtLeastMySQL8 v then 1
  else if (Major v =? 5)%N then 0 else 3.

Section Properties.
Context `{!Blang, !Process}.

Lemma ProfileFor_eq v :
  ProfileFor v = if AtLeastMySQL84 v then profilePercona84
                 else if AtLeastMySQL8 v then profilePercona80
                 else if (Major v =? 5)%N then profilePercona57
                 else profileFallback.
Proof.
  assert (E : MustResolve (NewRegistry BuiltinProfiles) v =
    if AtLeastMySQL84 v then profilePercona84
    else if AtLeastMySQL8 v then profilePercona80
    else if (Major v =? 5)%N then profilePercona57 else profileFallback).
  { unfold MustResolve, Resolve. simpl. destruct (AtLeastMySQL84 v); [done|].
    destruct (AtLeastMySQL8 v); [done|]. by destruct (Major v =? 5)%N. }
  unfold ProfileFor, Default. by destruct initialised.
Qed.

Lemma upgradeIndex_ProfileFor v :
  profileUpgradeIndex (Name (ProfileFor v)) = Some (lineIndex v).
Proof. rewrite ProfileFor_eq. unfold lineIndex. by repeat case_match. Qed.

Lemma ProfilesMatch_spec a b : ProfilesMatch a b = true ↔ lineIndex a = lineIndex b.
Proof.
  unfold ProfilesMatch. rewrite !ProfileFor_eq. unfold lineIndex. by repeat case_match.
Qed.

Lemma AtLeastMySQL84_8 v : AtLeastMySQL84 v = true → AtLeastMySQL8 v = true.
Proof. rewrite AtLeastMySQL84_spec, AtLeastMySQL8_spec. unfold version_lt, lex_lt. simpl. lia. Qed.

Lemma AtLeastMySQL84_8030 v : AtLeastMySQL84 v = true → AtLeastMySQL8030 v = true.
Proof.
  rewrite AtLeastMySQL84_spec, AtLeastMySQL8030_spec. unfold version_lt, lex_lt. simpl. lia.
Qed.

Lemma AtLeastMySQL8030_8 v : AtLeastMySQL8030 v = true → AtLeastMySQL8 v = true.
Proof.
  rewrite AtLeastMySQL8_spec, AtLeastMySQL8030_spec. unfold version_lt, lex_lt. simpl. lia.
Qed.

(** Which options the common defaults contain. *)
Lemma OperatorKV_group v b :
  OperatorKVCommon v b !! "innodb-log-files-in-group" =
    if AtLeastMySQL8030 v then None else Some "2".
Proof. unfold OperatorKVCommon. destruct (AtLeastMySQL8030 v), b; vm_compute; done. Qed.

Lemma OperatorKV_replica v b :
  OperatorKVCommon v b !! "skip-replica-start" = (if b then Some "on" else None) ∧
  OperatorKVCommon v b !! "skip-slave-start" = (if b then None else Some "on").
Proof. unfold OperatorKVCommon. destruct (AtLeastMySQL8030 v), b; vm_compute; done. Qed.

Lemma KVForVersion_common v :
  OperatorKVForVersion v = OperatorKVCommon v (AtLeastMySQL84 v).
Proof. unfold OperatorKVForVersion. rewrite ProfileFor_eq. by repeat case_match. Qed.

(** Profile resolution partitions the versions: whatever the state of the
    process, the profile of a version is percona-8.4 from 8.4.0 on,
    percona-8.0 from 8.0.0 up to 8.4.0, percona-5.7 for major version 5, and
    the fallback for every other version. *)
Theorem ProfileFor_partition (v : Version) :
  Name (ProfileFor v) =
    if decide (version_lt v (mkVersion 8 0 0)) then
      if decide (Major v = 5%N) then ProfilePercona57 else ProfileFallbackUnknown
    else if decide (version_lt v (mkVersion 8 4 0)) then ProfilePercona80
    else ProfilePercona84.
Proof.
  rewrite ProfileFor_eq.
  pose proof (AtLeastMySQL84_spec v) as H84. pose proof (AtLeastMySQL8_spec v) as H8.
  pose proof (AtLeastMySQL84_8 v) as H48. destruct (N.eqb_spec (Major v) 5);
    repeat case_decide; destruct (AtLeastMySQL84 v), (AtLeastMySQL8 v); try done;
    intuition congruence.
Qed.

(** The InnoDB log defaults of a version are consistent: the option for the
    size of the log is [innodb-redo-log-capacity] exactly from 8.0.30 on,
    exactly then [innodb-log-files-in-group] is left out of the configuration,
    and in both cases the space for the log is twice the size of one file (two
    files before 8.0.30), for every file size whose double fits an int64. *)
Theorem InnoDB_log_consistent (v : Version) (perFile : Z) :
  (0 ≤ perFile < 2 ^ 62)%Z →
  InnoDBOperatorLogSizing (ProfileFor v) v perFile =
    (if AtLeastMySQL8030 v then ("innodb-redo-log-capacity", (2 * perFile)%Z)
     else ("innodb-log-file-size", perFile)) ∧
  OperatorKVForVersion v !! "innodb-log-files-in-group" =
    (if AtLeastMySQL8030 v then None else Some "2").
Proof.
  intros Hp. rewrite KVForVersion_common. split; [|apply OperatorKV_group].
  rewrite ProfileFor_eq.
  pose proof (AtLeastMySQL84_8030 v) as H1. pose proof (AtLeastMySQL8030_8 v) as H2.
  assert (Hw : wrap64 (2 * perFile) = (2 * perFile)%Z).
  { apply wrap64_id. unfold in_int64. apply andb_true_intro. lia. }
  destruct (AtLeastMySQL84 v); [simpl; rewrite H1, Hw by done; done|].
  destruct (AtLeastMySQL8 v); [simpl; by rewrite Hw|].
  destruct (AtLeastMySQL8030 v) eqn:E; [by discriminate H2|].
  destruct (Major v =? 5)%N; simpl; by rewrite ?E.
Qed.

(** The replication dialect, the grants and the configuration of a version
    use one terminology: the new one from 8.4.0 on, the old one before; the
    statement that clears the binary logs is never empty; and [ChangeSourceSQL]
    has exactly the four placeholders that [ChangeMasterTo] fills. *)
Theorem dialect_of_version (v : Version) :
  StopReplication (Replication (ProfileFor v)) =
    (if AtLeastMySQL84 v then "STOP REPLICA;" else "STOP SLAVE;") ∧
  ResetBinaryLogsStatement (Replication (ProfileFor v)) =
    (if AtLeastMySQL84 v then "RESET BINARY LOGS AND GTIDS;" else "RESET MASTER;") ∧
  ResetReplicationAll (ProfileGrantHints (ProfileFor v)) =
    (if AtLeastMySQL84 v then "RESET REPLICA ALL" else "RESET SLAVE ALL") ∧
  OperatorKVForVersion v !! "skip-replica-start" =
    (if AtLeastMySQL84 v then Some "on" else None) ∧
  OperatorKVForVersion v !! "skip-slave-start" =
    (if AtLeastMySQL84 v then None else Some "on") ∧
  length (Split (ChangeSourceSQL (Replication (ProfileFor v))) "?") = 5%nat.
Proof.
  rewrite KVForVersion_common.
  destruct (OperatorKV_replica v (AtLeastMySQL84 v)) as [-> ->].
  rewrite ProfileFor_eq. destruct (AtLeastMySQL84 v); [by split_and!|].
  by destruct (AtLeastMySQL8 v), (Major v =? 5)%N; split_and!.
Qed.

End Properties.

Section UpgradeProperties.
Context `{!Blang, !BlangLaws, !Process}.

Lemma ValidateUpgradePath_iff (current target : Version) :
  ValidateUpgradePath current target = Ok tt ↔
    ¬ version_lt target current ∧
    (target = current ∨ lineIndex target ≤ lineIndex current + 1)%Z.
Proof.
  unfold ValidateUpgradePath. rewrite LT_bool, EQ_bool, !upgradeIndex_ProfileFor.
  repeat case_bool_decide; simplify_eq; try naive_solver.
  destruct (Z.gtb_spec (lineIndex target) (lineIndex current + 1)); naive_solver lia.
Qed.

(** [ValidateUpgradePath] accepts exactly the changes that are not a
    downgrade and do not move the profile line forward by more than one
    position of [profileUpgradeOrder]. *)
Theorem ValidateUpgradePath_spec (current target : Version) :
  is_ok (ValidateUpgradePath current target) = true ↔
    (current = target ∨ version_lt current target) ∧
    (lineIndex target ≤ lineIndex current + 1)%Z.
Proof.
  assert (is_ok (ValidateUpgradePath current target) = true ↔
          ValidateUpgradePath current target = Ok tt) as ->.
  { by destruct (ValidateUpgradePath current target) as [[]|]. }
  rewrite ValidateUpgradePath_iff.
  pose proof (version_lt_trichotomy current target).
  pose proof (version_lt_irrefl current). pose proof (version_lt_trans current target current).
  split; [intros [? [->|?]]|]; intuition (subst; try lia; try done); naive_solver.
Qed.

(** A sequence of server versions each of which the operator accepts as an
    upgrade of the one before. *)
Inductive upgrade_chain : list Version → Prop :=
  | chain_one v : upgrade_chain [v]
  | chain_step u v l :
      ValidateUpgradePath u v = Ok tt → upgrade_chain (v :: l) → upgrade_chain (u :: v :: l).

(** No sequence of accepted upgrades skips an LTS line: one that leads from
    a 5.x server to a server of the 8.4 line runs a version of the 8.0 line in
    between. *)
Theorem upgrade_chain_visits_80 (u w : Version) (l : list Version) :
  upgrade_chain (u :: l) → last (u :: l) = Some w →
  Major u = 5%N → AtLeastMySQL84 w = true →
  ∃ v, v ∈ u :: l ∧ Name (ProfileFor v) = ProfilePercona80.
Proof.
  intros Hc Hl Hu Hw.
  assert (Hidx : (lineIndex u ≤ 0)%Z).
  { unfold lineIndex, AtLeastMySQL84, AtLeastMySQL8. rewrite Hu. done. }
  clear Hu. remember (u :: l) as c eqn:Ec. revert u l Ec Hidx Hl.
  induction Hc as [v|u v l Hval Hc IH]; intros u' l' [= <- <-] Hidx Hl.
  - simpl in Hl. simplify_eq. unfold lineIndex in Hidx. by rewrite Hw in Hidx.
  - apply ValidateUpgradePath_iff in Hval as [_ Hval].
    destruct (decide (lineIndex v ≤ 0)%Z) as [Hv|Hv].
    + destruct (IH v l eq_refl Hv) as (x & Hx & ?); [done|]. exists x. split; [by right|done].
    + exists v. split; [right; by left|]. rewrite ProfileFor_eq. unfold lineIndex in *.
      destruct Hval as [->|Hval]; [lia|]. by repeat case_match; try lia.
Qed.

End UpgradeProperties.

Section ResolutionProperties.
Context `{!Blang, !BlangLaws}.

(** The bytes of a printed version: digits and dots. *)
Lemma VString_bytes (P : ascii → bool) v :
  (∀ c, is_digit c = true → P c = true) → P "."%char = true →
  str_forall P (VString v) = true.
Proof.
  intros HP Hdot. rewrite VString_eq.
  assert (Hz : ∀ n : N, str_forall P (itoa (Z.of_N n)) = true).
  { intros n. eapply str_forall_impl; [exact HP|]. rewrite str_forall_digits.
    apply all_digits_itoa. lia. }
  rewrite !str_forall_app, !Hz. unfold str_forall. simpl. by rewrite Hdot.
Qed.

Lemma VString_no_dash v : Index (VString v) "-" = None.
Proof.
  apply Index_char_None, VString_bytes; [|done].
  intros c. destruct (Ascii.eqb_spec "-"%char c) as [<-|]; done.
Qed.

Lemma VString_length v : ∃ n, String.length (VString v) = S n.
Proof.
  rewrite VString_eq, !str_length_app. simpl. eexists.
  rewrite Nat.add_comm. simpl. reflexivity.
Qed.

Lemma parseBeforeDash_vendor v suffix :
  version_fits v → parseBeforeDash (VString v +:+ String "-" suffix) = Some v.
Proof.
  intros Hv. unfold parseBeforeDash.
  rewrite (Index_char_app _ _ "-") by apply VString_no_dash.
  destruct (VString_length v) as [n Hn]. rewrite Hn, <-Hn, str_take_app.
  by rewrite Parse_VString.
Qed.

(** Round trip of server versions: what a server prints for version [v],
    alone or with a vendor suffix after a dash ([8.0.34-26]) and surrounded by
    whatever [TrimSpace] removes, is parsed back to [v]. *)
Theorem ParseServerVersion_roundtrip (v : Version) (suffix : string) :
  version_fits v → str_forall (λ c, negb (is_space c)) suffix = true →
  ParseServerVersion (VString v) = Ok v ∧
  ParseServerVersion (VString v +:+ "-" +:+ suffix) = Ok v.
Proof.
  intros Hv Hs. unfold ParseServerVersion.
  assert (Hsp : str_forall (λ c, negb (is_space c)) (VString v) = true).
  { apply VString_bytes; [|done]. intros c Hc. by rewrite is_digit_not_space. }
  assert (Hne : ∀ t, String.eqb (VString v +:+ t) "" = false).
  { intros t. destruct (VString_length v) as [n Hn]. by destruct (VString v). }
  split.
  - rewrite TrimSpace_no_space by done. rewrite <-(str_app_nil_r (VString v)) at 1.
    rewrite Hne. unfold parseBeforeDash. by rewrite VString_no_dash, Parse_VString.
  - rewrite TrimSpace_no_space by (by rewrite str_forall_app, Hsp, str_forall_app, Hs).
    rewrite Hne. change ("-" +:+ suffix) with (String "-" suffix).
    by rewrite parseBeforeDash_vendor.
Qed.

Lemma VString_no_byte v c :
  digit_val c = None → c ≠ "."%char → Index (VString v) (String c "") = None.
Proof.
  intros Hc Hdot. apply Index_char_None, VString_bytes.
  - intros d. unfold is_digit. destruct (Ascii.eqb_spec c d) as [->|]; [by rewrite Hc|done].
  - by destruct (Ascii.eqb_spec c ".").
Qed.

Lemma imageTag_tag name tag :
  Index name "@" = None → Index tag "@" = None → Index tag ":" = None →
  imageTag (name +:+ String ":" tag) = tag.
Proof.
  intros Hn Ht Hc. unfold imageTag.
  assert (LastIndex (name +:+ String ":" tag) "@" = None) as ->.
  { apply LastIndex_None, Index_app_None; [done|]. simpl. by rewrite Ht. }
  rewrite LastIndex_app by done.
  replace (String.length name + 1)%nat with (String.length (name +:+ ":"))
    by (rewrite str_length_app; done).
  change (String ":" tag) with (":" +:+ tag). by rewrite <-str_app_assoc, str_drop_app.
Qed.

Lemma tags_no_dash tag : is_Some (Index tag "-") → MySQLTagsToSemVer !! tag = None.
Proof.
  intros Hd. destruct (MySQLTagsToSemVer !! tag) eqn:E; [|done].
  apply elem_of_list_to_map_2 in E. destruct Hd as [i Hd].
  repeat (apply elem_of_cons in E as [E|E]; [by simplify_eq|]). by apply not_elem_of_nil in E.
Qed.

(** An image pinned by digest has no version tag: [name@sha256:digest] with
    no further [@] gives 0.0.0, so the callers fall back to the environment of
    the pod; and an image [name:tag] gives the version that its tag spells, here
    with a vendor suffix after a dash. *)
Theorem semVerFromImageRef_forms (name digest suffix : string) (v : Version) :
  version_fits v →
  Index digest "@" = None →
  Index name "@" = None →
  Index suffix "@" = None → Index suffix ":" = None →
  semVerFromImageRef (name +:+ "@sha256:" +:+ digest) = Zero ∧
  semVerFromImageRef (name +:+ ":" +:+ VString v +:+ "-" +:+ suffix) = v.
Proof.
  intros Hv Hd Hn Hs1 Hs2. unfold semVerFromImageRef.
  assert (Hne : ∀ c t, String.eqb (name +:+ String c t) "" = false) by (by destruct name).
  split.
  - change ("@sha256:" +:+ digest) with (String "@" ("sha256:" +:+ digest)).
    rewrite Hne. unfold imageTag. rewrite (LastIndex_app _ _ "@").
    + rewrite str_drop_app. unfold Contains. by destruct digest.
    + change (Index ("sha256:" +:+ digest) "@" = None). by apply Index_app_None.
  - change (":" +:+ VString v +:+ "-" +:+ suffix)
      with (String ":" (VString v +:+ String "-" suffix)). rewrite Hne.
    rewrite imageTag_tag; [|done|..].
    + destruct (VString_length v) as [n Hlen].
      assert (String.eqb (VString v +:+ String "-" suffix) "" = false) as ->
        by (by destruct (VString v)).
      destruct (String.eqb_spec (VString v +:+ String "-" suffix) "latest") as [E|_].
      { exfalso. pose proof (VString_no_dash v) as Hnd.
        apply (Index_char_app _ suffix) in Hnd. by rewrite E in Hnd. }
      rewrite tags_no_dash; [|rewrite (Index_char_app _ _ "-") by apply VString_no_dash; eauto].
      simpl. by rewrite parseBeforeDash_vendor.
    + apply Index_app_None; [by apply VString_no_byte|]. simpl. by rewrite Hs1.
    + apply Index_app_None; [by apply VString_no_byte|]. simpl. by rewrite Hs2.
Qed.

End ResolutionProperties.

(** ** Examples *)

Section Witnesses.
#[local] Existing Instances Ref.blang Ref.blang_laws sampleProcess.

Lemma InnoDB_log_consistent_witness :
  InnoDBOperatorLogSizing (ProfileFor (mkVersion 8 0 30)) (mkVersion 8 0 30) (128 * 2 ^ 20) =
    ("innodb-redo-log-capacity", (256 * 2 ^ 20)%Z).
Proof.
  exact (proj1 (InnoDB_log_consistent (mkVersion 8 0 30) (128 * 2 ^ 20) ltac:(lia))).
Defined.

Lemma ValidateUpgradePath_spec_witness :
  is_ok (ValidateUpgradePath (mkVersion 8 0 20) (mkVersion 8 4 8)) = true ∧
  is_ok (ValidateUpgradePath (mkVersion 5 7 35) (mkVersion 8 4 8)) ≠ true.
Proof.
  split.
  - apply (ValidateUpgradePath_spec (mkVersion 8 0 20) (mkVersion 8 4 8)).
    split; [right; unfold version_lt, lex_lt; simpl; lia|vm_compute; done].
  - intros Hok. apply (ValidateUpgradePath_spec (mkVersion 5 7 35) (mkVersion 8 4 8)) in Hok.
    destruct Hok as [_ Hok]. vm_compute in Hok. by apply Hok.
Defined.

Lemma upgrade_chain_visits_80_witness :
  ∃ v, v ∈ [mkVersion 5 7 35; mkVersion 8 0 20; mkVersion 8 4 8] ∧
       Name (ProfileFor v) = ProfilePercona80.
Proof.
  apply (upgrade_chain_visits_80 (mkVersion 5 7 35) (mkVersion 8 4 8)
           [mkVersion 8 0 20; mkVersion 8 4 8]); [|reflexivity|reflexivity|reflexivity].
  apply chain_step; [vm_compute; reflexivity|].
  apply chain_step; [vm_compute; reflexivity|]. apply chain_one.
Defined.

Lemma ParseServerVersion_roundtrip_witness :
  ParseServerVersion "8.0.34" = Ok (mkVersion 8 0 34) ∧
  ParseServerVersion "8.0.34-26" = Ok (mkVersion 8 0 34).
Proof.
  change "8.0.34-26" with ("8.0.34" +:+ "-" +:+ "26").
  assert (VString (mkVersion 8 0 34) = "8.0.34") as <- by (vm_compute; reflexivity).
  apply (ParseServerVersion_roundtrip (mkVersion 8 0 34) "26"); [|reflexivity].
  by split_and!.
Defined.

Lemma semVerFromImageRef_forms_witness :
  semVerFromImageRef "percona@sha256:caab4e85" = Zero ∧
  semVerFromImageRef "percona:5.7.31-centos" = mkVersion 5 7 31.
Proof.
  change "percona:5.7.31-centos" with ("percona" +:+ ":" +:+ "5.7.31" +:+ "-" +:+ "centos").
  assert (VString (mkVersion 5 7 31) = "5.7.31") as <- by (vm_compute; reflexivity).
  apply (semVerFromImageRef_forms "percona" "caab4e85" "centos" (mkVersion 5 7 31));
    [by split_and!|reflexivity..].
Defined.

End Witnesses.
