(* ===== verification/Startup.v ===== *)
(** * The start of the operator

    The options ([pkg/options/options.go]): their defaults from the environment,
    the flags, the validation that loads the catalogue of images; and the part of
    [cmd/mysql-operator/main.go] that sets them up for the version runtime.

    The environment of the process is [Environment]; what [pflag] makes of the
    arguments is a list of assignments of typed values to flags. *)

From S2P Require Import Prelude GoStrings Semver ClusterTypes Versioning.
From coqutil Require Import Datatypes.RecordSetters.
Import DoubleBraceUpdate.
Open Scope stdpp_scope.

(** ** The environment *)

(** The catalogue file: its lines, and the errors of the scan and of closing it. *)
Record CatalogFile := mkCatalogFile {
  cf_lines : list string; cf_scanErr : option error; cf_closeErr : option error }.

Record Environment := mkEnvironment {
  Getenv : string → string;
  (** the namespace file of the service account *)
  serviceAccountNamespace : result string;
  OpenFile : string → result CatalogFile;
  (** the names that the packages of the program have registered in
      [flag.CommandLine] *)
  GoFlags : list string }.

(** ** Defaults *)

(* src/pkg/util/constants/images.go:19-22 DefaultImageRegistry *)
Definition DefaultImageRegistry : string := "ghcr.io/codecapsules-io".

(* src/pkg/util/constants/images.go:24-27 OperatorImage *)
Definition OperatorImage (name tag : string) : string :=
  DefaultImageRegistry +:+ "/" +:+ name +:+ ":" +:+ tag.

Section Options.
Context (env : Environment).

(* src/pkg/options/options.go:32-39 getFromEnvOrDefault *)
Definition getFromEnvOrDefault (key def : string) : string :=
  let value := Getenv env key in
  if (String.length value =? 0)%nat then def else value.

(* src/pkg/options/options.go:133-152 defaultExporterImage *)
Definition defaultExporterImage : string := "prom/mysqld-exporter:v0.16.0".
Definition defaultImagePullPolicy : string := "IfNotPresent".
Definition defaultImagePullSecretName : string := "".
Definition defaultOrchestratorTopologyUser : string := "".
Definition defaultOrchestratorTopologyPassword : string := "".
Definition defaultLeaderElectionID : string := "mysql-operator-leader-election".
Definition defaultNamespace : string := "".
Definition defaultFailoverBeforeShutdownEnabled : bool := true.
Definition defaultClusterRestrictPrivilegeEscalation : bool := false.
Definition defaultMetricsBindAddress : string := ":8080".
Definition defaultHealthProbeBindAddress : string := ":8081".

(* src/pkg/options/options.go:154-157 defaultSidecarMysql57Image *)
Definition defaultSidecarMysql57Image : string :=
  getFromEnvOrDefault "MYSQL_OPERATOR_SIDECAR_MYSQL57_IMAGE"
    (OperatorImage "mysql-operator-sidecar-5.7" "latest").

(* src/pkg/options/options.go:159-162 defaultSidecarMysql8Image *)
Definition defaultSidecarMysql8Image : string :=
  getFromEnvOrDefault "MYSQL_OPERATOR_SIDECAR_MYSQL8_IMAGE"
    (OperatorImage "mysql-operator-sidecar-8.0" "latest").

(* src/pkg/options/options.go:164-167 defaultSidecarMysql84Image *)
Definition defaultSidecarMysql84Image : string :=
  getFromEnvOrDefault "MYSQL_OPERATOR_SIDECAR_MYSQL84_IMAGE"
    (OperatorImage "mysql-operator-sidecar-8.4" "latest").

(* src/pkg/options/options.go:169-185 namespace *)
Definition namespace : string :=
  if negb (String.eqb (Getenv env "KUBE_NAMESPACE") "") then Getenv env "KUBE_NAMESPACE"
  else if negb (String.eqb (Getenv env "MY_POD_NAMESPACE") "") then Getenv env "MY_POD_NAMESPACE"
  else match serviceAccountNamespace env with
       | Ok data =>
           let ns := TrimSpace data in
           if (0 <? String.length ns)%nat then ns else "default"
       | Err _ => "default"
       end.

(** The singleton as it is created; [GetOptions] of [Versioning.Process] is what
    it has become. *)
(* src/pkg/options/options.go:254-285 GetOptions *)
Definition newOptions : Options := {|
  SidecarMysql57Image := defaultSidecarMysql57Image;
  SidecarMysql8Image := defaultSidecarMysql8Image;
  SidecarMysql84Image := defaultSidecarMysql84Image;
  MetricsExporterImage := defaultExporterImage;
  o_ImagePullSecretName := defaultImagePullSecretName;
  o_ImagePullPolicy := defaultImagePullPolicy;
  OrchestratorURI := "";
  OrchestratorTopologyPassword := defaultOrchestratorTopologyPassword;
  OrchestratorTopologyUser := defaultOrchestratorTopologyUser;
  LeaderElectionNamespace := namespace;
  LeaderElectionID := "";
  o_Namespace := defaultNamespace;
  MySQLVersionImageOverride := ∅;
  MySQLVersionCatalogFile := "";
  mysqlVersionCatalog := Some ∅;
  OrchestratorConcurrentReconciles := 0;
  FailoverBeforeShutdownEnabled := defaultFailoverBeforeShutdownEnabled;
  ClusterRestrictPrivilegeEscalation := defaultClusterRestrictPrivilegeEscalation;
  AllowCrossNamespaceUsers := false;
  AllowCrossNamespaceDatabases := false;
  MetricsBindAddress := defaultMetricsBindAddress;
  HealthProbeBindAddress := defaultHealthProbeBindAddress |}.

(** Registering a flag sets its field to the default of the flag. *)
(* src/pkg/options/options.go:187-249 AddFlags *)
Definition AddFlags (o : Options) : Options := {|
  SidecarMysql57Image := defaultSidecarMysql57Image;
  SidecarMysql8Image := defaultSidecarMysql8Image;
  SidecarMysql84Image := defaultSidecarMysql84Image;
  MetricsExporterImage := defaultExporterImage;
  o_ImagePullSecretName := defaultImagePullSecretName;
  o_ImagePullPolicy := defaultImagePullPolicy;
  OrchestratorURI := "";
  OrchestratorTopologyPassword := defaultOrchestratorTopologyPassword;
  OrchestratorTopologyUser := defaultOrchestratorTopologyUser;
  LeaderElectionNamespace := namespace;
  LeaderElectionID := defaultLeaderElectionID;
  o_Namespace := defaultNamespace;
  MySQLVersionImageOverride := ∅;
  MySQLVersionCatalogFile := "";
  mysqlVersionCatalog := mysqlVersionCatalog o;
  OrchestratorConcurrentReconciles := 10;
  FailoverBeforeShutdownEnabled := defaultFailoverBeforeShutdownEnabled;
  ClusterRestrictPrivilegeEscalation := defaultClusterRestrictPrivilegeEscalation;
  AllowCrossNamespaceUsers := false;
  AllowCrossNamespaceDatabases := false;
  MetricsBindAddress := defaultMetricsBindAddress;
  HealthProbeBindAddress := defaultHealthProbeBindAddress |}.

(** ** Flags *)

(** A value as pflag has read it; a map with all its occurrences; a value that a flag
    of [flag.CommandLine] has accepted. *)
Inductive flag_value :=
  | FString (s : string) | FBool (b : bool) | FInt32 (z : Z) | FMap (m : gmap string string)
  | FGo (s : string).

(** The flags that the program registers itself. *)
Definition ownFlags : list string :=
  ["debug"; "sidecar-image"; "sidecar-mysql8-image"; "sidecar-mysql84-image"; "metrics-exporter-image";
   "image-pull-secret"; "image-pull-policy"; "orchestrator-uri"; "orchestrator-topology-password";
   "orchestrator-topology-user"; "leader-election-namespace"; "leader-election-id"; "namespace";
   "mysql-versions-to-image"; "mysql-version-catalog-file"; "orchestrator-concurrent-reconciles";
   "failover-before-shutdown"; "cluster-restrict-privilege-escalation"; "allow-cross-namespace-user";
   "allow-cross-namespace-database"; "metrics-addr"; "healthz-addr"].

(** Where the value of a flag goes; [None] for a flag that is not registered or a
    value of another type, with which pflag ends the process.  The flag [debug] and
    those of [flag.CommandLine] leave the options as they are. *)
(* src/pkg/options/options.go:187-249 AddFlags *)
Definition setFlag (name : string) (v : flag_value) (o : Options) : option Options :=
  let named := String.eqb name in
  match v with
  | FString s =>
      if named "sidecar-image" then Some (o {{ SidecarMysql57Image := s }})
      else if named "sidecar-mysql8-image" then Some (o {{ SidecarMysql8Image := s }})
      else if named "sidecar-mysql84-image" then Some (o {{ SidecarMysql84Image := s }})
      else if named "metrics-exporter-image" then Some (o {{ MetricsExporterImage := s }})
      else if named "image-pull-secret" then Some (o {{ o_ImagePullSecretName := s }})
      else if named "image-pull-policy" then Some (o {{ o_ImagePullPolicy := s }})
      else if named "orchestrator-uri" then Some (o {{ OrchestratorURI := s }})
      else if named "orchestrator-topology-password" then Some (o {{ OrchestratorTopologyPassword := s }})
      else if named "orchestrator-topology-user" then Some (o {{ OrchestratorTopologyUser := s }})
      else if named "leader-election-namespace" then Some (o {{ LeaderElectionNamespace := s }})
      else if named "leader-election-id" then Some (o {{ LeaderElectionID := s }})
      else if named "namespace" then Some (o {{ o_Namespace := s }})
      else if named "mysql-version-catalog-file" then Some (o {{ MySQLVersionCatalogFile := s }})
      else if named "metrics-addr" then Some (o {{ MetricsBindAddress := s }})
      else if named "healthz-addr" then Some (o {{ HealthProbeBindAddress := s }})
      else None
  | FMap m => if named "mysql-versions-to-image" then Some (o {{ MySQLVersionImageOverride := m }}) else None
  | FInt32 z =>
      if named "orchestrator-concurrent-reconciles" then Some (o {{ OrchestratorConcurrentReconciles := z }})
      else None
  | FBool b =>
      if named "failover-before-shutdown" then Some (o {{ FailoverBeforeShutdownEnabled := b }})
      else if named "cluster-restrict-privilege-escalation" then Some (o {{ ClusterRestrictPrivilegeEscalation := b }})
      else if named "allow-cross-namespace-user" then Some (o {{ AllowCrossNamespaceUsers := b }})
      else if named "allow-cross-namespace-database" then Some (o {{ AllowCrossNamespaceDatabases := b }})
      else if named "debug" then Some o
      else None
  | FGo _ => if existsb named (GoFlags env) then Some o else None
  end.

Fixpoint parseFlags (args : list (string * flag_value)) (o : Options) : option Options :=
  match args with
  | [] => Some o
  | (name, v) :: args => o ← setFlag name v o; parseFlags args o
  end.

(** ** Validation *)

(** The deferred call closes the file, and its error counts if there is no other. *)
(* src/pkg/options/version_catalog.go:25-60 LoadMySQLVersionCatalogFile *)
Definition LoadMySQLVersionCatalogFile (path : string) : result (gmap string string) :=
  match OpenFile env path with
  | Err err => Err (ErrMsg ("open mysql version catalog: " +:+ error_text err))
  | Ok f =>
      match LoadMySQLVersionCatalog ∅ (cf_lines f) with
      | Err err => Err err
      | Ok out =>
          match cf_scanErr f with
          | Some err => Err (ErrMsg ("read mysql version catalog: " +:+ error_text err))
          | None =>
              match cf_closeErr f with
              | Some cerr => Err (ErrMsg ("close mysql version catalog: " +:+ error_text cerr))
              | None => Ok out
              end
          end
      end
  end.

(* src/pkg/options/options.go:287-308 Validate *)
Definition Validate (o : Options) : result Options :=
  let o := when (λ o, String.length (OrchestratorTopologyUser o) =? 0)%nat
    (λ o, o {{ OrchestratorTopologyUser := getFromEnvOrDefault "ORC_TOPOLOGY_USER" "" }}) o in
  let o := when (λ o, String.length (OrchestratorTopologyPassword o) =? 0)%nat
    (λ o, o {{ OrchestratorTopologyPassword := getFromEnvOrDefault "ORC_TOPOLOGY_PASSWORD" "" }}) o in
  o ← (if negb (String.eqb (MySQLVersionCatalogFile o) "") then
         m ← LoadMySQLVersionCatalogFile (MySQLVersionCatalogFile o);
         Ok (o {{ mysqlVersionCatalog := Some m }})
       else Ok o);
  match mysqlVersionCatalog o with
  | None => Ok (o {{ mysqlVersionCatalog := Some ∅ }})
  | Some _ => Ok o
  end.

(** The options with which the controllers are set up, and the process from then
    on: [GetOptions] is the singleton, and [InitDefault] is called with it.  An
    error ends the process; so does the panic of pflag if a flag is registered
    twice. *)
(* src/cmd/mysql-operator/main.go:42-71 main *)
Definition startup (args : list (string * flag_value)) : result Options :=
  if existsb (λ name, existsb (String.eqb name) (GoFlags env)) ownFlags then Err (ErrMsg "flag redefined")
  else
    let opt := AddFlags newOptions in
    match parseFlags args opt with
    | None => Err (ErrMsg "flags")
    | Some opt => Validate opt
    end.

Definition processOf (opt : Options) : Process := {| initialised := Some opt; GetOptions := opt |}.

End Options.

(** ** What the process works with *)

(** The last value that an argument gives to a flag. *)
Definition lastFlag {A} (read : flag_value → option A) (name : string) (d : A)
    (args : list (string * flag_value)) : A :=
  foldl (λ d nv, if String.eqb nv.1 name then default d (read nv.2) else d) d args.

Definition readString (v : flag_value) : option string := match v with FString s => Some s | _ => None end.
Definition readMap (v : flag_value) : option (gmap string string) :=
  match v with FMap m => Some m | _ => None end.

(** The image of the last line of the catalogue for a version. *)
Definition entryFor (key text : string) : option string :=
  match parseCatalogLine text with
  | LineEntry k v => if String.eqb k key then Some v else None
  | _ => None
  end.
Definition lastEntry (key : string) (lines : list string) : option string :=
  last (omap (entryFor key) lines).

Lemma LoadMySQLVersionCatalog_lookup key lines out m :
  LoadMySQLVersionCatalog out lines = Ok m → m !! key = lastEntry key lines ∪ out !! key.
Proof.
  revert out. induction lines as [|text lines IH]; intros out H.
  - simplify_eq/=. unfold lastEntry. simpl. by destruct (_ !! key).
  - simpl in H. unfold lastEntry. simpl. unfold entryFor at 1.
    destruct (parseCatalogLine text) as [|k v|e]; [by apply IH| |done].
    apply IH in H. rewrite H. unfold lastEntry.
    destruct (String.eqb_spec k key) as [->|Hne].
    + rewrite lookup_insert_eq, last_cons. unfold omap. by destruct (last _), (out !! key).
    + by rewrite lookup_insert_ne.
Qed.

Section Parsed.
Context (env : Environment).

Lemma parseFlags_field {A} (f : Options → A) read name args o o' :
  (∀ n v o o', setFlag env n v o = Some o' →
     f o' = if String.eqb n name then default (f o) (read v) else f o) →
  parseFlags env args o = Some o' → f o' = lastFlag read name (f o) args.
Proof.
  intros Hf. revert o. induction args as [|[n v] args IH]; intros o Hp; [by injection Hp as ->|].
  simpl in Hp. destruct (setFlag env n v o) as [o1|] eqn:E; [|done].
  simpl in Hp. unfold lastFlag. simpl. rewrite <-(Hf n v o o1 E). by apply IH.
Qed.

Ltac flag_field :=
  let n := fresh "n" in let v := fresh "v" in let H := fresh "H" in
  intros n v ? ? H; unfold setFlag in H; destruct v; cbv zeta in H;
  try (destruct (existsb (String.eqb _) (GoFlags _)));
  repeat match type of H with
         | (if String.eqb n ?s then _ else _) = _ => destruct (String.eqb_spec n s) as [->|?]
         end;
  first [discriminate H | injection H as <-];
  first [reflexivity
        |match goal with |- context [String.eqb ?a ?b] => destruct (String.eqb_spec a b); first [reflexivity|congruence] end].

Lemma MySQLVersionCatalogFile_flag args o o' : parseFlags env args o = Some o' →
  MySQLVersionCatalogFile o' = lastFlag readString "mysql-version-catalog-file" (MySQLVersionCatalogFile o) args.
Proof. apply parseFlags_field. flag_field. Qed.

Lemma MySQLVersionImageOverride_flag args o o' : parseFlags env args o = Some o' →
  MySQLVersionImageOverride o' = lastFlag readMap "mysql-versions-to-image" (MySQLVersionImageOverride o) args.
Proof. apply parseFlags_field. flag_field. Qed.

Lemma SidecarImage_flags args o o' : parseFlags env args o = Some o' →
  SidecarMysql57Image o' = lastFlag readString "sidecar-image" (SidecarMysql57Image o) args ∧
  SidecarMysql8Image o' = lastFlag readString "sidecar-mysql8-image" (SidecarMysql8Image o) args ∧
  SidecarMysql84Image o' = lastFlag readString "sidecar-mysql84-image" (SidecarMysql84Image o) args.
Proof. intros H. split_and!; (eapply parseFlags_field; [|exact H]); flag_field. Qed.

Lemma OrchestratorTopology_flags args o o' : parseFlags env args o = Some o' →
  OrchestratorTopologyUser o' =
    lastFlag readString "orchestrator-topology-user" (OrchestratorTopologyUser o) args ∧
  OrchestratorTopologyPassword o' =
    lastFlag readString "orchestrator-topology-password" (OrchestratorTopologyPassword o) args.
Proof. intros H. split; (eapply parseFlags_field; [|exact H]); flag_field. Qed.

Lemma mysqlVersionCatalog_flags args o o' : parseFlags env args o = Some o' →
  mysqlVersionCatalog o' = mysqlVersionCatalog o.
Proof.
  revert o. induction args as [|[n v] args IH]; intros o Hp; [by injection Hp as ->|].
  simpl in Hp. destruct (setFlag env n v o) as [o1|] eqn:E; [|done]. simpl in Hp.
  rewrite (IH _ Hp). clear -E. unfold setFlag in E. destruct v; repeat (case_match; simplify_eq; try done).
Qed.

End Parsed.

Section Sources.
Context `{!Blang} (env : Environment) (args : list (string * flag_value)).

(** The image that the catalogue file gives to a version. *)
Definition catalogImage (key : string) : option string :=
  let path := lastFlag readString "mysql-version-catalog-file" "" args in
  if String.eqb path "" then None
  else match OpenFile env path with
       | Ok f => lastEntry key (cf_lines f)
       | Err _ => None
       end.

(** The flag and the environment of the sidecar image of a version. *)
Definition sidecarSource (v : Version) : string :=
  let source flag key image := lastFlag readString flag
    (getFromEnvOrDefault env key (OperatorImage image "latest")) args in
  if AtLeastMySQL84 v
  then source "sidecar-mysql84-image" "MYSQL_OPERATOR_SIDECAR_MYSQL84_IMAGE" "mysql-operator-sidecar-8.4"
  else if AtLeastMySQL8 v
  then source "sidecar-mysql8-image" "MYSQL_OPERATOR_SIDECAR_MYSQL8_IMAGE" "mysql-operator-sidecar-8.0"
  else source "sidecar-image" "MYSQL_OPERATOR_SIDECAR_MYSQL57_IMAGE" "mysql-operator-sidecar-5.7".

(** The catalogue that validation loads. *)
Lemma LoadFile_entries path (m : gmap string string) key :
  LoadMySQLVersionCatalogFile env path = Ok m →
  m !! key = match OpenFile env path with
             | Ok f => lastEntry key (cf_lines f)
             | Err _ => None
             end.
Proof.
  unfold LoadMySQLVersionCatalogFile. destruct (OpenFile env path) as [f|]; [|done].
  destruct (LoadMySQLVersionCatalog ∅ (cf_lines f)) as [out|] eqn:E; [|done].
  destruct (cf_scanErr f); [done|]. destruct (cf_closeErr f); [done|]. intros [= ->].
  rewrite (LoadMySQLVersionCatalog_lookup key _ _ _ E), lookup_empty.
  by destruct (lastEntry _ _).
Qed.

(** What validation adds to the options that were parsed. *)
Lemma Validate_adds o o' :
  Validate env o = Ok o' → mysqlVersionCatalog o = Some ∅ →
  MySQLVersionImageOverride o' = MySQLVersionImageOverride o ∧
  SidecarMysql57Image o' = SidecarMysql57Image o ∧ SidecarMysql8Image o' = SidecarMysql8Image o ∧
  SidecarMysql84Image o' = SidecarMysql84Image o ∧
  OrchestratorTopologyUser o' =
    (if String.eqb (OrchestratorTopologyUser o) "" then Getenv env "ORC_TOPOLOGY_USER"
     else OrchestratorTopologyUser o) ∧
  OrchestratorTopologyPassword o' =
    (if String.eqb (OrchestratorTopologyPassword o) "" then Getenv env "ORC_TOPOLOGY_PASSWORD"
     else OrchestratorTopologyPassword o) ∧
  ∀ key, MysqlImageFromCatalog o' key =
    if String.eqb (MySQLVersionCatalogFile o) "" then None
    else match OpenFile env (MySQLVersionCatalogFile o) with
         | Ok f => lastEntry key (cf_lines f)
         | Err _ => None
         end.
Proof.
  intros HV Hc. unfold Validate in HV. set (o1 := when _ _ o) in HV. set (o2 := when _ _ o1) in HV.
  assert (∀ key, getFromEnvOrDefault env key "" = Getenv env key) as Henv.
  { intros key. unfold getFromEnvOrDefault. by destruct (Getenv env key). }
  assert (MySQLVersionImageOverride o2 = MySQLVersionImageOverride o ∧
    SidecarMysql57Image o2 = SidecarMysql57Image o ∧ SidecarMysql8Image o2 = SidecarMysql8Image o ∧
    SidecarMysql84Image o2 = SidecarMysql84Image o ∧
    OrchestratorTopologyUser o2 = (if String.eqb (OrchestratorTopologyUser o) ""
      then Getenv env "ORC_TOPOLOGY_USER" else OrchestratorTopologyUser o) ∧
    OrchestratorTopologyPassword o2 = (if String.eqb (OrchestratorTopologyPassword o) ""
      then Getenv env "ORC_TOPOLOGY_PASSWORD" else OrchestratorTopologyPassword o) ∧
    MySQLVersionCatalogFile o2 = MySQLVersionCatalogFile o ∧ mysqlVersionCatalog o2 = Some ∅) as Ho2.
  { unfold o2, o1, when. clear HV o1 o2. destruct o as [? ? ? ? ? ? ? pass user]. cbn in Hc |- *. subst.
    by destruct user, pass; cbn; rewrite ?Henv. }
  clearbody o2. destruct Ho2 as (H1 & H2 & H3 & H4 & H5 & H6 & H7 & H8). rewrite H7 in HV.
  destruct (String.eqb (MySQLVersionCatalogFile o) ""); cbn [negb] in HV.
  - cbn in HV. rewrite H8 in HV. injection HV as <-. split_and!; try done.
    intros key. unfold MysqlImageFromCatalog. by rewrite H8.
  - destruct (LoadMySQLVersionCatalogFile env _) as [m|] eqn:El; [|done]. cbn in HV.
    injection HV as <-. split_and!; try done.
    intros key. exact (LoadFile_entries _ m key El).
Qed.

(** C19. Where the images of a process come from.  Once the operator has started,
    the server of a cluster at a version runs the image of the specification, or
    else the one that the flag of overrides, the last matching line of the
    catalogue file, or the built-in table gives to exactly that version, in this
    order; its sidecar runs the image of the flag of its release line, else of the
    environment, else the published one; and the credentials for Orchestrator are
    those of the flags, or of the environment if a flag is empty. *)
Theorem startup_images (o opt : Options) (v : Version) (spec : MysqlClusterSpec) :
  startup env args = Ok o →
  let P := processOf o in
  ServerImage opt v (Some spec) =
    match (if String.eqb (Image spec) "" then None else Some (Image spec)) ∪
          lastFlag readMap "mysql-versions-to-image" ∅ args !! VString v ∪
          catalogImage (VString v) ∪ MysqlImageVersions !! VString v with
    | Some img => Ok img
    | None => Err (ErrMsg ("no server image for mysql version " +:+ VString v))
    end ∧
  SidecarImageFor v "" = sidecarSource v ∧
  let source flag key := let s := lastFlag readString flag "" args in
                         if String.eqb s "" then Getenv env key else s in
  OrchestratorTopologyUser o = source "orchestrator-topology-user" "ORC_TOPOLOGY_USER" ∧
  OrchestratorTopologyPassword o = source "orchestrator-topology-password" "ORC_TOPOLOGY_PASSWORD".
Proof.
  intros Hs. unfold startup in Hs. destruct (existsb _ ownFlags); [done|].
  destruct (parseFlags env args (AddFlags env (newOptions env))) as [op|] eqn:Ep; [|done].
  pose proof (MySQLVersionCatalogFile_flag _ _ _ _ Ep) as Hf.
  pose proof (MySQLVersionImageOverride_flag _ _ _ _ Ep) as Hm.
  destruct (SidecarImage_flags _ _ _ _ Ep) as (H57 & H80 & H84).
  destruct (OrchestratorTopology_flags _ _ _ _ Ep) as [Hu Hp].
  pose proof (mysqlVersionCatalog_flags _ _ _ _ Ep) as Hc. cbn in Hf, Hm, H57, H80, H84, Hu, Hp, Hc.
  destruct (Validate_adds op o Hs Hc) as (Vm & V57 & V80 & V84 & Vu & Vp & Vc).
  cbn zeta. split_and!; [| |by rewrite Vu, Hu|by rewrite Vp, Hp].
  - unfold ServerImage, Default. simpl. unfold ResolverServerImage. rewrite Vm, Hm, Vc, Hf.
    fold (catalogImage (VString v)).
    destruct (String.eqb_spec (Image spec) "") as [->|Hi]; simpl.
    + destruct (lastFlag _ _ _ _ !! _), (catalogImage _), (MysqlImageVersions !! _); done.
    + destruct (Image spec) as [|? ?]; [done|]. simpl.
      destruct (lastFlag _ _ _ _ !! _), (catalogImage _), (MysqlImageVersions !! _); done.
  - unfold SidecarImageFor, Default. simpl.
    pose proof (ProfileFor_eq (H0 := processOf o) v) as HP. unfold ProfileFor, Default in HP. simpl in HP.
    rewrite HP. unfold sidecarSource.
    destruct (AtLeastMySQL84 v); [exact (eq_trans V84 H84)|].
    destruct (AtLeastMySQL8 v); [exact (eq_trans V80 H80)|].
    destruct (Major v =? 5)%N; exact (eq_trans V57 H57).
Qed.

End Sources.

(** ** Example *)

Section Witness.
#[local] Existing Instances Ref.blang Ref.blang_laws.

(** Two flags that the options have no field for, a catalogue with a comment and two
    lines for one version, the sidecar of 8.4
    from the environment, the user of Orchestrator from a flag. *)
Definition sampleEnvironment : Environment := {|
  Getenv key :=
    if String.eqb key "MYSQL_OPERATOR_SIDECAR_MYSQL84_IMAGE" then "corp/sidecar84:1"
    else if String.eqb key "ORC_TOPOLOGY_PASSWORD" then "pw"
    else if String.eqb key "ORC_TOPOLOGY_USER" then "fromEnv" else "";
  serviceAccountNamespace := Ok ("mysql" +:+ newline);
  OpenFile path :=
    if String.eqb path "/etc/images"
    then Ok (mkCatalogFile ["# images"; "8.0.20=corp/mysql:old"; ""; " 8.0.20 = corp/mysql:new "] None None)
    else Err (ErrMsg "no such file");
  GoFlags := ["kubeconfig"] |}.

Definition sampleArgs : list (string * flag_value) :=
  [("kubeconfig", FGo "/root/.kube/config"); ("debug", FBool true);
   ("mysql-version-catalog-file", FString "/etc/images"); ("orchestrator-topology-user", FString "orc")].

Definition sampleStarted : Options :=
  match startup sampleEnvironment sampleArgs with Ok o => o | Err _ => sampleOptions end.

Lemma startup_images_witness :
  startup sampleEnvironment sampleArgs = Ok sampleStarted ∧
  ServerImage (H0 := processOf sampleStarted) sampleOptions (mkVersion 8 0 20) (Some (cl_Spec (Sample.cluster "8.0" "")))
    = Ok "corp/mysql:new" ∧
  SidecarImageFor (H0 := processOf sampleStarted) (mkVersion 8 4 8) "" = "corp/sidecar84:1" ∧
  OrchestratorTopologyUser sampleStarted = "orc" ∧ OrchestratorTopologyPassword sampleStarted = "pw" ∧
  LeaderElectionNamespace sampleStarted = "mysql".
Proof.
  assert (Hs : startup sampleEnvironment sampleArgs = Ok sampleStarted) by (vm_compute; reflexivity).
  split; [exact Hs|].
  destruct (startup_images sampleEnvironment sampleArgs sampleStarted sampleOptions (mkVersion 8 0 20)
    (cl_Spec (Sample.cluster "8.0" "")) Hs) as (Hi & _ & Hu & Hp).
  destruct (startup_images sampleEnvironment sampleArgs sampleStarted sampleOptions (mkVersion 8 4 8)
    (cl_Spec (Sample.cluster "8.0" "")) Hs) as (_ & Hc & _).
  split; [rewrite Hi; vm_compute; reflexivity|]. split; [rewrite Hc; vm_compute; reflexivity|].
  split; [rewrite Hu; vm_compute; reflexivity|]. split; [rewrite Hp; vm_compute; reflexivity|].
  vm_compute. reflexivity.
Defined.

End Witness.
