(* ===== verification/ClusterStatus.v ===== *)
(** * Conditions and node statuses

    [pkg/internal/mysqlcluster/status.go].  The same update of a list of
    conditions is written out four times in the code (conditions of a cluster,
    of a node, of a pod and of a backup); [Module Conditions] has it once, over
    the class [IsCondition], with its abstract specification: a finite map from
    the type of a condition to the condition, in which an update is an insert
    that keeps the transition time while the status stays the same. *)

From S2P Require Import Prelude GoStrings ClusterTypes.
Open Scope stdpp_scope.

(** ** Lists of conditions *)

Class IsCondition (C T : Type) `{EqDecision T} := {
  cond_type : C → T;
  cond_status : C → ConditionStatus;
  cond_time : C → Z;
  cond_set_time : Z → C → C;
  cond_type_set_time t c : cond_type (cond_set_time t c) = cond_type c;
  cond_status_set_time t c : cond_status (cond_set_time t c) = cond_status c;
  cond_time_set_time t c : cond_time (cond_set_time t c) = t }.

Module Conditions.
Section Conditions.
Context {C T : Type} `{IsCondition C T}.
Implicit Types (c new : C) (conds : list C) (t : T).

(** The loop of [condIndex], [GetNodeConditionIndex] and [podCondIndex]: the
    index of the first condition of a type. *)
Fixpoint condIndex (ty : T) (conds : list C) : option nat :=
  match conds with
  | [] => None
  | c :: conds =>
      if decide (cond_type c = ty) then Some 0%nat else S <$> condIndex ty conds
  end.

(** The update at time [now], and whether the status of the type changed. *)
Definition updateConditions (now : Z) (new : C) (conds : list C) : list C * bool :=
  if (length conds =? 0)%nat then ([cond_set_time now new], true)
  else
    match condIndex (cond_type new) conds with
    | Some i =>
        match conds !! i with
        | Some c =>
            if decide (cond_status c = cond_status new)
            then (<[i := cond_set_time (cond_time c) new]> conds, false)
            else (<[i := cond_set_time now new]> conds, true)
        | None => (conds, false)
        end
    | None => (conds ++ [cond_set_time now new], true)
    end.

(** The abstraction: the condition of a type. *)
Definition condLookup (ty : T) (conds : list C) : option C :=
  i ← condIndex ty conds; conds !! i.

(** What an update should do to the condition of a type. *)
Definition updated (now : Z) (new : C) (old : option C) : C :=
  match old with
  | Some c =>
      if decide (cond_status c = cond_status new) then cond_set_time (cond_time c) new
      else cond_set_time now new
  | None => cond_set_time now new
  end.

Lemma condLookup_nil ty : condLookup ty [] = None.
Proof. done. Qed.

Lemma condLookup_cons ty c conds :
  condLookup ty (c :: conds) =
    if decide (cond_type c = ty) then Some c else condLookup ty conds.
Proof.
  unfold condLookup. simpl. destruct (decide (cond_type c = ty)); [done|].
  by destruct (condIndex ty conds).
Qed.

Lemma condLookup_type ty conds c : condLookup ty conds = Some c → cond_type c = ty.
Proof.
  induction conds as [|d conds IH]; [done|]. rewrite condLookup_cons.
  destruct (decide _); naive_solver.
Qed.

Lemma condLookup_elem ty conds c : condLookup ty conds = Some c → c ∈ conds.
Proof.
  induction conds as [|d conds IH]; [done|]. rewrite condLookup_cons.
  destruct (decide _); intros; simplify_eq; [by left|right; auto].
Qed.

(** The update in one recursive equation. *)
Lemma updateConditions_cons now new c conds :
  (updateConditions now new (c :: conds)).1 =
    if decide (cond_type c = cond_type new) then updated now new (Some c) :: conds
    else c :: (updateConditions now new conds).1.
Proof.
  unfold updateConditions. simpl length. simpl Nat.eqb. cbv iota. simpl condIndex.
  destruct (decide (cond_type c = cond_type new)) as [E|E]; simpl.
  { by destruct (decide (cond_status c = cond_status new)). }
  destruct conds as [|d conds]; [done|]. simpl Nat.eqb. cbv iota.
  destruct (condIndex (cond_type new) (d :: conds)) as [i|]; [|done]. simpl.
  destruct ((d :: conds) !! i) as [d'|]; [|done].
  by destruct (decide (cond_status d' = cond_status new)).
Qed.

Lemma updateConditions_nil now new :
  (updateConditions now new []).1 = [cond_set_time now new].
Proof. done. Qed.

Lemma cond_type_updated now new o : cond_type (updated now new o) = cond_type new.
Proof.
  destruct o as [c|]; simpl; [|apply cond_type_set_time].
  destruct (decide _); apply cond_type_set_time.
Qed.

Lemma updateConditions_lookup now new conds ty :
  condLookup ty (updateConditions now new conds).1 =
    if decide (ty = cond_type new) then Some (updated now new (condLookup ty conds))
    else condLookup ty conds.
Proof.
  induction conds as [|c conds IH].
  - rewrite updateConditions_nil, condLookup_cons, condLookup_nil, cond_type_set_time.
    destruct (decide (ty = cond_type new)), (decide (cond_type new = ty)); try done; congruence.
  - rewrite updateConditions_cons.
    destruct (decide (cond_type c = cond_type new)) as [E|E]; rewrite !condLookup_cons.
    + rewrite cond_type_updated.
      destruct (decide (ty = cond_type new)) as [->|];
        repeat case_decide; try done; congruence.
    + rewrite IH. destruct (decide (ty = cond_type new)) as [->|];
        repeat case_decide; try done; congruence.
Qed.

Lemma condIndex_Some ty conds i :
  condIndex ty conds = Some i → ∃ c, conds !! i = Some c ∧ cond_type c = ty.
Proof.
  revert i. induction conds as [|c conds IH]; intros i; [done|]. simpl.
  destruct (decide (cond_type c = ty)); [intros [= <-]; eauto|].
  destruct (condIndex ty conds) as [j|]; [|done]. intros [= <-]. by apply IH.
Qed.

Lemma updateConditions_changed now new conds :
  (updateConditions now new conds).2 =
    negb (bool_decide (cond_status <$> condLookup (cond_type new) conds = Some (cond_status new))).
Proof.
  unfold updateConditions, condLookup. destruct conds as [|c conds]; [done|].
  simpl Nat.eqb. cbv iota.
  destruct (condIndex (cond_type new) (c :: conds)) as [i|] eqn:Ei; [|done].
  apply condIndex_Some in Ei as (d & Ed & _). simpl. rewrite Ed. simpl.
  destruct (decide (cond_status d = cond_status new)) as [Es|Es]; simpl.
  - rewrite Es. by rewrite bool_decide_true.
  - rewrite bool_decide_false; [done|congruence].
Qed.

(** The types in the list, in order: an update replaces in place or appends. *)
Lemma updateConditions_types now new conds :
  cond_type <$> (updateConditions now new conds).1 =
    (cond_type <$> conds) ++
      (if decide (cond_type new ∈ cond_type <$> conds) then [] else [cond_type new]).
Proof.
  induction conds as [|c conds IH].
  - rewrite updateConditions_nil. destruct (decide _) as [Hin|Hin].
    + by apply not_elem_of_nil in Hin.
    + simpl. by rewrite cond_type_set_time.
  - rewrite updateConditions_cons. destruct (decide (cond_type c = cond_type new)) as [E|E].
    + rewrite !fmap_cons, cond_type_updated. rewrite decide_True by (rewrite E; left).
      by rewrite app_nil_r, E.
    + rewrite !fmap_cons, IH. simpl. f_equal. f_equal.
      destruct (decide (cond_type new ∈ cond_type <$> conds)) as [Hin|Hin].
      * rewrite decide_True by (by right). done.
      * rewrite decide_False; [done|]. intros [?|?]%elem_of_cons; congruence.
Qed.

Lemma updateConditions_NoDup now new conds :
  NoDup (cond_type <$> conds) → NoDup (cond_type <$> (updateConditions now new conds).1).
Proof.
  intros Hnd. rewrite updateConditions_types. destruct (decide _) as [|Hin].
  - by rewrite app_nil_r.
  - apply NoDup_app. split_and!; [done| |apply NoDup_singleton].
    intros x Hx ->%list_elem_of_singleton. done.
Qed.

End Conditions.
End Conditions.

Export Conditions.

#[export] Instance ClusterCondition_cond : IsCondition ClusterCondition ClusterConditionType.
Proof.
  refine {| cond_type := cc_Type; cond_status := cc_Status; cond_time := cc_LastTransitionTime;
            cond_set_time := λ t c, mkClusterCondition (cc_Type c) (cc_Status c) t
                                      (cc_Reason c) (cc_Message c) |}; done.
Defined.

#[export] Instance NodeCondition_cond : IsCondition NodeCondition NodeConditionType.
Proof.
  refine {| cond_type := nc_Type; cond_status := nc_Status; cond_time := nc_LastTransitionTime;
            cond_set_time := λ t c, mkNodeCondition (nc_Type c) (nc_Status c) t |}; done.
Defined.

#[export] Instance PodCondition_cond : IsCondition PodCondition string.
Proof.
  refine {| cond_type := pc_Type; cond_status := pc_Status; cond_time := pc_LastTransitionTime;
            cond_set_time := λ t c, mkPodCondition (pc_Type c) (pc_Status c)
                                      (pc_Reason c) (pc_Message c) t |}; done.
Defined.

(** ** The conditions of a cluster *)

(* src/pkg/internal/mysqlcluster/status.go:33-72 UpdateStatusCondition *)
Definition UpdateStatusCondition (now : Z) (condType : ClusterConditionType)
    (status : ConditionStatus) (reason msg : string) (c : MysqlCluster) : MysqlCluster :=
  let newCondition := mkClusterCondition condType status 0 reason msg in
  with_Conditions (updateConditions now newCondition (st_Conditions (cl_Status c))).1 c.

(* src/pkg/internal/mysqlcluster/status.go:74-92 GetClusterCondition *)
Definition GetClusterCondition (c : MysqlCluster) (condType : ClusterConditionType) :
    option ClusterCondition :=
  match condIndex condType (st_Conditions (cl_Status c)) with
  | Some i => st_Conditions (cl_Status c) !! i
  | None => None
  end.

(** ** The statuses of the nodes *)

(* src/pkg/internal/mysqlcluster/status.go:100-143 updateNodeCondition *)
Definition updateNodeCondition (now : Z) (ns : NodeStatus) (cType : NodeConditionType)
    (cStatus : ConditionStatus) : NodeStatus * bool :=
  let newCondition := mkNodeCondition cType cStatus 0 in
  let (conds, changed) := updateConditions now newCondition (ns_Conditions ns) in
  (mkNodeStatus (ns_Name ns) conds, changed).

(* src/pkg/internal/mysqlcluster/status.go:145-155 GetNodeConditionIndex *)
Definition GetNodeConditionIndex (nodeStatus : NodeStatus) (condType : NodeConditionType) :
    option nat :=
  condIndex condType (ns_Conditions nodeStatus).

(** The loop of [GetNodeStatusIndex]. *)
Fixpoint nodeIndex (name : string) (nodes : list NodeStatus) : option nat :=
  match nodes with
  | [] => None
  | n :: nodes => if String.eqb (ns_Name n) name then Some 0%nat else S <$> nodeIndex name nodes
  end.

(** [GetNodeStatusIndex] calls itself after it has appended the node: [fuel]
    bounds the calls; [None] when it runs out. *)
Fixpoint nodeStatusIndex (fuel : nat) (name : string) (nodes : list NodeStatus) :
    option (nat * list NodeStatus) :=
  match nodeIndex name nodes with
  | Some i => Some (i, nodes)
  | None =>
      match fuel with
      | O => None
      | S fuel => nodeStatusIndex fuel name (nodes ++ [mkNodeStatus name []])
      end
  end.

(* src/pkg/internal/mysqlcluster/status.go:157-168 GetNodeStatusIndex *)
Definition GetNodeStatusIndex (name : string) (c : MysqlCluster) : nat * MysqlCluster :=
  match nodeStatusIndex 1 name (st_Nodes (cl_Status c)) with
  | Some (i, nodes) => (i, with_Nodes nodes c)
  | None => (0%nat, c)
  end.

(* src/pkg/internal/mysqlcluster/status.go:94-98 UpdateNodeConditionStatus *)
Definition UpdateNodeConditionStatus (now : Z) (nodeName : string)
    (condType : NodeConditionType) (status : ConditionStatus) (c : MysqlCluster) :
    MysqlCluster * bool :=
  let (i, c) := GetNodeStatusIndex nodeName c in
  match st_Nodes (cl_Status c) !! i with
  | Some ns =>
      let (ns', changed) := updateNodeCondition now ns condType status in
      (with_Nodes (<[i := ns']> (st_Nodes (cl_Status c))) c, changed)
  | None => (c, false)
  end.

(** [GetNodeCondition] may append a node, as [GetNodeStatusIndex] does. *)
(* src/pkg/internal/mysqlcluster/status.go:170-179 GetNodeCondition *)
Definition GetNodeCondition (name : string) (condType : NodeConditionType) (c : MysqlCluster) :
    option NodeCondition * MysqlCluster :=
  let (nodeStatusIndex, c) := GetNodeStatusIndex name c in
  match st_Nodes (cl_Status c) !! nodeStatusIndex with
  | Some ns =>
      match GetNodeConditionIndex ns condType with
      | Some condIndex => (ns_Conditions ns !! condIndex, c)
      | None => (None, c)
      end
  | None => (None, c)
  end.

(* src/pkg/internal/mysqlcluster/status.go:181-185 GetNodeStatusFor *)
Definition GetNodeStatusFor (name : string) (c : MysqlCluster) : NodeStatus * MysqlCluster :=
  let (nodeStatusIndex, c) := GetNodeStatusIndex name c in
  (default (mkNodeStatus name []) (st_Nodes (cl_Status c) !! nodeStatusIndex), c).

(** ** Properties *)

(** The condition of a node, as a finite map from names and types. *)
Definition nodeCondition (nodes : list NodeStatus) (name : string) (ty : NodeConditionType) :
    option NodeCondition :=
  i ← nodeIndex name nodes; ns ← nodes !! i; condLookup ty (ns_Conditions ns).

Lemma nodeIndex_Some name nodes i :
  nodeIndex name nodes = Some i → ∃ ns, nodes !! i = Some ns ∧ ns_Name ns = name.
Proof.
  revert i. induction nodes as [|n nodes IH]; intros i; [done|]. simpl.
  destruct (String.eqb_spec (ns_Name n) name); [intros [= <-]; eauto|].
  destruct (nodeIndex name nodes) as [j|]; [|done]. intros [= <-]. by apply IH.
Qed.

Lemma nodeIndex_None name nodes :
  nodeIndex name nodes = None ↔ name ∉ ns_Name <$> nodes.
Proof.
  induction nodes as [|n nodes IH]; simpl.
  { split; [intros _; apply not_elem_of_nil|done]. }
  rewrite not_elem_of_cons. destruct (String.eqb_spec (ns_Name n) name) as [E|E].
  - split; [done|]. intros [? _]. congruence.
  - destruct (nodeIndex name nodes) as [j|]; simpl.
    + split; [done|]. intros [_ Hn]. by apply IH in Hn.
    + split; [|done]. intros _. split; [congruence|by apply IH].
Qed.

Lemma nodeIndex_snoc name nodes ns :
  nodeIndex name nodes = None → ns_Name ns = name →
  nodeIndex name (nodes ++ [ns]) = Some (length nodes).
Proof.
  intros Hn Hname. induction nodes as [|n nodes IH]; simpl in *.
  - by rewrite Hname, String.eqb_refl.
  - destruct (String.eqb (ns_Name n) name); [done|].
    destruct (nodeIndex name nodes); [done|]. by rewrite IH.
Qed.

(** One nested call is always enough. *)
Lemma nodeStatusIndex_eq fuel name nodes :
  nodeStatusIndex (S fuel) name nodes =
    Some (match nodeIndex name nodes with
          | Some i => (i, nodes)
          | None => (length nodes, nodes ++ [mkNodeStatus name []])
          end).
Proof.
  simpl. destruct (nodeIndex name nodes) as [i|] eqn:E; [done|].
  pose proof (nodeIndex_snoc name nodes (mkNodeStatus name []) E eq_refl) as E'.
  destruct fuel; simpl; by rewrite E'.
Qed.

(** The nodes after [GetNodeStatusIndex]: the node exists. *)
Definition ensureNode (name : string) (nodes : list NodeStatus) : list NodeStatus :=
  match nodeIndex name nodes with
  | Some _ => nodes
  | None => nodes ++ [mkNodeStatus name []]
  end.

Lemma with_Nodes_id c : with_Nodes (st_Nodes (cl_Status c)) c = c.
Proof. by destruct c as [m s []]. Qed.

Lemma GetNodeStatusIndex_eq name c :
  GetNodeStatusIndex name c =
    (default (length (st_Nodes (cl_Status c))) (nodeIndex name (st_Nodes (cl_Status c))),
     with_Nodes (ensureNode name (st_Nodes (cl_Status c))) c).
Proof.
  unfold GetNodeStatusIndex, ensureNode. rewrite nodeStatusIndex_eq.
  destruct (nodeIndex name _); simpl; by rewrite ?with_Nodes_id.
Qed.

Lemma nodeIndex_ensureNode name nodes :
  nodeIndex name (ensureNode name nodes) =
    Some (default (length nodes) (nodeIndex name nodes)).
Proof.
  unfold ensureNode. destruct (nodeIndex name nodes) eqn:E; [done|]. by apply nodeIndex_snoc.
Qed.

Lemma nodeCondition_cons n nodes name ty :
  nodeCondition (n :: nodes) name ty =
    if String.eqb (ns_Name n) name then condLookup ty (ns_Conditions n)
    else nodeCondition nodes name ty.
Proof.
  unfold nodeCondition. simpl. destruct (String.eqb (ns_Name n) name); [done|].
  by destruct (nodeIndex name nodes).
Qed.

Lemma nodeCondition_ensureNode name nodes name' ty :
  nodeCondition (ensureNode name nodes) name' ty = nodeCondition nodes name' ty.
Proof.
  unfold ensureNode. destruct (nodeIndex name nodes) eqn:E; [done|]. clear E.
  induction nodes as [|n nodes IH].
  - simpl. rewrite nodeCondition_cons. simpl. by destruct (String.eqb name name').
  - simpl. rewrite !nodeCondition_cons. by rewrite IH.
Qed.

Lemma nodeCondition_insert name nodes i ns ns' name' ty :
  nodeIndex name nodes = Some i → nodes !! i = Some ns → ns_Name ns' = name →
  nodeCondition (<[i := ns']> nodes) name' ty =
    if String.eqb name name' then condLookup ty (ns_Conditions ns')
    else nodeCondition nodes name' ty.
Proof.
  revert i. induction nodes as [|n nodes IH]; intros i Hi Hns Hname; [done|]. simpl in Hi.
  destruct (String.eqb_spec (ns_Name n) name) as [E|E].
  - injection Hi as <-. simpl. rewrite !nodeCondition_cons, Hname. by rewrite E; destruct (String.eqb name name').
  - destruct (nodeIndex name nodes) as [j|] eqn:Ej; [|done]. injection Hi as <-. simpl in *.
    rewrite !nodeCondition_cons, (IH j) by done.
    destruct (String.eqb_spec (ns_Name n) name'), (String.eqb_spec name name'); congruence || done.
Qed.

Lemma GetNodeCondition_eq name ty c :
  (GetNodeCondition name ty c).1 = nodeCondition (st_Nodes (cl_Status c)) name ty.
Proof.
  rewrite <-(nodeCondition_ensureNode name). unfold GetNodeCondition, nodeCondition.
  rewrite GetNodeStatusIndex_eq, nodeIndex_ensureNode. simpl.
  destruct (_ !! _) as [ns|]; simpl; [|done].
  unfold GetNodeConditionIndex, condLookup. by destruct (condIndex ty (ns_Conditions ns)).
Qed.

(** Reading the condition of a node that is there leaves the cluster alone. *)
Lemma GetNodeCondition_known name ty c :
  name ∈ ns_Name <$> st_Nodes (cl_Status c) →
  GetNodeCondition name ty c = (nodeCondition (st_Nodes (cl_Status c)) name ty, c).
Proof.
  intros Hin. rewrite (surjective_pairing (GetNodeCondition name ty c)), GetNodeCondition_eq. f_equal.
  unfold GetNodeCondition. rewrite GetNodeStatusIndex_eq. unfold ensureNode.
  destruct (nodeIndex name (st_Nodes (cl_Status c))) as [i|] eqn:E; [|by apply nodeIndex_None in E].
  rewrite with_Nodes_id. destruct (_ !! _) as [ns|]; [|done]. by destruct (GetNodeConditionIndex ns ty).
Qed.

Lemma UpdateNodeConditionStatus_nodes now name ty status c name' ty' :
  nodeCondition (st_Nodes (cl_Status (UpdateNodeConditionStatus now name ty status c).1)) name' ty' =
    if decide (name' = name ∧ ty' = ty) then
      Some (updated now (mkNodeCondition ty status 0)
             (nodeCondition (st_Nodes (cl_Status c)) name ty))
    else nodeCondition (st_Nodes (cl_Status c)) name' ty'.
Proof.
  unfold UpdateNodeConditionStatus. rewrite GetNodeStatusIndex_eq. simpl.
  set (nodes := st_Nodes (cl_Status c)).
  rewrite <-(nodeCondition_ensureNode name nodes name ty).
  rewrite <-(nodeCondition_ensureNode name nodes name' ty').
  pose proof (nodeIndex_ensureNode name nodes) as Hi.
  destruct (nodeIndex_Some _ _ _ Hi) as (ns & Hns & Hname). rewrite Hns.
  unfold updateNodeCondition.
  destruct (updateConditions now _ (ns_Conditions ns)) as [conds ch] eqn:Eu. simpl.
  rewrite (nodeCondition_insert name _ _ ns _ name' ty' Hi Hns) by done. simpl.
  assert (Hc : ∀ t, nodeCondition (ensureNode name nodes) name t = condLookup t (ns_Conditions ns)).
  { intros t. unfold nodeCondition. rewrite Hi. simpl. by rewrite Hns. }
  rewrite Hc.
  destruct (String.eqb_spec name name') as [<-|Hne]; [|by rewrite decide_False by naive_solver].
  replace conds with (updateConditions now (mkNodeCondition ty status 0) (ns_Conditions ns)).1
    by (by rewrite Eu).
  rewrite updateConditions_lookup. simpl.
  destruct (decide (ty' = ty)) as [->|]; [by rewrite decide_True|].
  by rewrite decide_False by naive_solver.
Qed.

Lemma GetClusterCondition_eq c ty :
  GetClusterCondition c ty = condLookup ty (st_Conditions (cl_Status c)).
Proof. unfold GetClusterCondition, condLookup. by destruct (condIndex ty _). Qed.

Lemma GetClusterCondition_type c ty cond :
  GetClusterCondition c ty = Some cond → cc_Type cond = ty.
Proof. rewrite GetClusterCondition_eq. intros E. exact (condLookup_type _ _ _ E). Qed.

Lemma UpdateStatusCondition_lookup now ty status reason msg c ty' :
  GetClusterCondition (UpdateStatusCondition now ty status reason msg c) ty' =
    if decide (ty' = ty) then
      Some (updated now (mkClusterCondition ty status 0 reason msg) (GetClusterCondition c ty))
    else GetClusterCondition c ty'.
Proof.
  rewrite !GetClusterCondition_eq. unfold UpdateStatusCondition. simpl.
  rewrite updateConditions_lookup. simpl. destruct (decide (ty' = ty)) as [->|]; done.
Qed.

Lemma UpdateStatusCondition_other now ty status reason msg c ty' :
  ty' ≠ ty →
  GetClusterCondition (UpdateStatusCondition now ty status reason msg c) ty' =
    GetClusterCondition c ty'.
Proof. intros. rewrite UpdateStatusCondition_lookup. by rewrite decide_False. Qed.

Lemma UpdateStatusCondition_same now ty status reason msg c :
  ∃ t, GetClusterCondition (UpdateStatusCondition now ty status reason msg c) ty =
         Some (mkClusterCondition ty status t reason msg).
Proof.
  rewrite UpdateStatusCondition_lookup, decide_True by done.
  destruct (GetClusterCondition c ty) as [o|]; simpl; [destruct (decide _)|]; by eexists.
Qed.

(** C37. [UpdateStatusCondition] refines the insertion into a finite map from
    condition types to conditions: the condition of the given type gets the new
    status, reason and message, with the old transition time if the status did
    not change and the current time if it did or the condition is new; every
    other condition, and the rest of the cluster, stay as they were. *)
Theorem UpdateStatusCondition_refines (now : Z) (ty ty' : ClusterConditionType)
    (status : ConditionStatus) (reason msg : string) (c : MysqlCluster) :
  let c' := UpdateStatusCondition now ty status reason msg c in
  GetClusterCondition c' ty' =
    (if decide (ty' = ty) then
       Some (mkClusterCondition ty status
               match GetClusterCondition c ty with
               | Some o => if decide (cc_Status o = status) then cc_LastTransitionTime o else now
               | None => now
               end reason msg)
     else GetClusterCondition c ty') ∧
  cl_Meta c' = cl_Meta c ∧ cl_Spec c' = cl_Spec c ∧
  st_Nodes (cl_Status c') = st_Nodes (cl_Status c) ∧
  ReadyNodes (cl_Status c') = ReadyNodes (cl_Status c) ∧
  AppliedMysqlVersion (cl_Status c') = AppliedMysqlVersion (cl_Status c).
Proof.
  cbv zeta. split_and!; try done. rewrite UpdateStatusCondition_lookup.
  destruct (decide (ty' = ty)); [|done].
  destruct (GetClusterCondition c ty) as [o|]; [|done]. simpl. by case_decide.
Qed.

(** The list of conditions stays a map: an update of a cluster keeps every
    condition in its place or appends one at the end, and a list without two
    conditions of the same type stays such a list. *)
Theorem UpdateStatusCondition_unique (now : Z) (ty : ClusterConditionType)
    (status : ConditionStatus) (reason msg : string) (c : MysqlCluster) :
  let conds' := st_Conditions (cl_Status (UpdateStatusCondition now ty status reason msg c)) in
  let types := cc_Type <$> st_Conditions (cl_Status c) in
  (cc_Type <$> conds' = types ∨ cc_Type <$> conds' = types ++ [ty]) ∧
  (NoDup types → NoDup (cc_Type <$> conds')).
Proof.
  cbv zeta. unfold UpdateStatusCondition. simpl. split.
  - pose proof (updateConditions_types now (mkClusterCondition ty status 0 reason msg)
                  (st_Conditions (cl_Status c))) as E. simpl in E.
    destruct (decide _) in E; rewrite E; [left; apply app_nil_r|by right].
  - intros Hnd. exact (updateConditions_NoDup now (mkClusterCondition ty status 0 reason msg)
                         (st_Conditions (cl_Status c)) Hnd).
Qed.

(** C40. [GetNodeStatusIndex] terminates: its nested call finds the node it has
    appended, so one is enough and more change nothing.  The index it returns
    is that of a node of the given name, and the nodes are the old ones,
    followed by an empty status only if the name was missing. *)
Theorem GetNodeStatusIndex_total (name : string) (c : MysqlCluster) (fuel : nat) :
  let nodes := st_Nodes (cl_Status c) in
  ∃ i ns nodes',
    nodeStatusIndex (S fuel) name nodes = Some (i, nodes') ∧
    GetNodeStatusIndex name c = (i, with_Nodes nodes' c) ∧
    nodes' !! i = Some ns ∧ ns_Name ns = name ∧
    nodes' = nodes ++ (if decide (name ∈ ns_Name <$> nodes) then [] else [mkNodeStatus name []]).
Proof.
  cbv zeta. set (nodes := st_Nodes (cl_Status c)).
  destruct (nodeIndex_Some _ _ _ (nodeIndex_ensureNode name nodes)) as (ns & Hns & Hname).
  exists (default (length nodes) (nodeIndex name nodes)), ns, (ensureNode name nodes).
  rewrite nodeStatusIndex_eq, GetNodeStatusIndex_eq. fold nodes. unfold ensureNode in *.
  pose proof (nodeIndex_None name nodes) as Hnone.
  destruct (nodeIndex name nodes) as [i|]; split_and!; try done.
  - rewrite decide_True; [by rewrite app_nil_r|].
    destruct (decide (name ∈ ns_Name <$> nodes)) as [|Hn]; [done|]. by apply Hnone in Hn.
  - rewrite decide_False; [done|]. by apply Hnone.
Qed.

(** [UpdateNodeConditionStatus] sets the one condition of the one node: it
    is present afterwards with the given status, every other condition of every
    node is as before, and the result says whether the status was different (or
    missing) before, which is exactly when the transition time becomes the
    current time. *)
Theorem UpdateNodeConditionStatus_frame (now : Z) (name name' : string)
    (ty ty' : NodeConditionType) (status : ConditionStatus) (c : MysqlCluster) :
  let (c', changed) := UpdateNodeConditionStatus now name ty status c in
  let old := nodeCondition (st_Nodes (cl_Status c)) name ty in
  changed = negb (bool_decide (nc_Status <$> old = Some status)) ∧
  nodeCondition (st_Nodes (cl_Status c')) name' ty' =
    (if decide (name' = name ∧ ty' = ty) then
       Some (mkNodeCondition ty status
               (if changed then now else default now (nc_LastTransitionTime <$> old)))
     else nodeCondition (st_Nodes (cl_Status c)) name' ty').
Proof.
  destruct (UpdateNodeConditionStatus now name ty status c) as [c' changed] eqn:E.
  assert (Hch : changed = negb (bool_decide
            (nc_Status <$> nodeCondition (st_Nodes (cl_Status c)) name ty = Some status))).
  { revert E. unfold UpdateNodeConditionStatus. rewrite GetNodeStatusIndex_eq. simpl.
    set (nodes := st_Nodes (cl_Status c)). rewrite <-(nodeCondition_ensureNode name).
    pose proof (nodeIndex_ensureNode name nodes) as Hi.
    destruct (nodeIndex_Some _ _ _ Hi) as (ns & Hns & _).
    unfold nodeCondition. rewrite Hi. simpl. rewrite Hns. simpl. unfold updateNodeCondition.
    pose proof (updateConditions_changed now (mkNodeCondition ty status 0) (ns_Conditions ns)) as Hc.
    destruct (updateConditions now _ (ns_Conditions ns)) as [conds ch]. simpl in *.
    intros [= _ <-]. exact Hc. }
  split; [exact Hch|].
  replace c' with (UpdateNodeConditionStatus now name ty status c).1 by (by rewrite E).
  rewrite UpdateNodeConditionStatus_nodes.
  destruct (decide (name' = name ∧ ty' = ty)) as [[-> ->]|]; [|done].
  rewrite Hch. destruct (nodeCondition (st_Nodes (cl_Status c)) name ty) as [o|]; [|done].
  simpl. destruct (decide (nc_Status o = status)) as [<-|Hs]; simpl.
  - by rewrite bool_decide_true.
  - rewrite bool_decide_false by congruence. done.
Qed.
