(* ===== verification/ClusterModel.v ===== *)
(** * The cluster

    [pkg/internal/mysqlcluster]: [mysqlcluster.go] (names, labels, hosts,
    images), [version.go] (which version a cluster wants and which it runs),
    [volume.go] and [validation.go].  [status.go] is in [ClusterStatus.v] and
    [defaults.go] in [ClusterDefaults.v]. *)

From S2P Require Import Prelude GoStrings Semver ClusterTypes Versioning ClusterStatus.
Open Scope stdpp_scope.

(** ** Names *)

(* src/pkg/internal/mysqlcluster/mysqlcluster.go:36-39 HeadlessSVCName *)
Definition HeadlessSVCName : string := "mysql".

(** [OldHeadlessSVC] is an untyped constant that the code uses as a name too. *)
(* src/pkg/internal/mysqlcluster/mysqlcluster.go:102-126 ResourceName *)
Inductive ResourceName :=
  | OldHeadlessSVC
  | HeadlessSVC
  | StatefulSetName
  | ConfigMap
  | MasterService
  | HealthyReplicasService
  | HealthyNodesService
  | PodDisruptionBudget
  | Secret.

#[export] Instance ResourceName_eq_dec : EqDecision ResourceName.
Proof. solve_decision. Defined.

(* src/pkg/internal/mysqlcluster/mysqlcluster.go:128-151 GetNameForResource *)
Definition GetNameForResource (name : ResourceName) (clusterName : string) : string :=
  match name with
  | StatefulSetName | ConfigMap | HealthyNodesService | PodDisruptionBudget =>
      clusterName +:+ "-mysql"
  | MasterService => clusterName +:+ "-mysql-master"
  | HealthyReplicasService => clusterName +:+ "-mysql-replicas"
  | HeadlessSVC => HeadlessSVCName
  | OldHeadlessSVC => clusterName +:+ "-mysql-nodes"
  | Secret => clusterName +:+ "-mysql-operated"
  end.

(* src/pkg/internal/mysqlcluster/mysqlcluster.go:153-158 GetPodHostname *)
Definition GetPodHostname (c : MysqlCluster) (p : Z) : string :=
  GetNameForResource StatefulSetName (cl_Name c) +:+ "-" +:+ itoa p +:+ "." +:+
  GetNameForResource HeadlessSVC (cl_Name c) +:+ "." +:+ cl_Namespace c.

(* src/pkg/internal/mysqlcluster/mysqlcluster.go:160-163 GetClusterAlias *)
Definition GetClusterAlias (c : MysqlCluster) : string := cl_Name c +:+ "." +:+ cl_Namespace c.

(** The loop ranges over the names of existing nodes, for which
    [GetNodeCondition] does not append ([GetNodeCondition_existing]). *)
(* src/pkg/internal/mysqlcluster/mysqlcluster.go:165-177 GetMasterHost *)
Definition GetMasterHost (c : MysqlCluster) : string :=
  fold_left (λ masterHost ns,
    match (GetNodeCondition (ns_Name ns) NodeConditionMaster c).1 with
    | Some cond => if decide (nc_Status cond = ConditionTrue) then ns_Name ns else masterHost
    | None => masterHost
    end) (st_Nodes (cl_Status c)) (GetPodHostname c 0).

(* src/pkg/internal/mysqlcluster/mysqlcluster.go:179-183 GetMasterServiceHost *)
Definition GetMasterServiceHost (c : MysqlCluster) : string :=
  GetNameForResource MasterService (cl_Name c) +:+ "." +:+ cl_Namespace c +:+ ".svc".

(* src/pkg/internal/mysqlcluster/mysqlcluster.go:220-223 String *)
Definition ClusterString (c : MysqlCluster) : string := cl_Namespace c +:+ "/" +:+ cl_Name c.

(* src/pkg/internal/mysqlcluster/mysqlcluster.go:246-252 GetNamespacedName *)
Definition GetNamespacedName (c : MysqlCluster) : string * string := (cl_Namespace c, cl_Name c).

(* src/pkg/internal/mysqlcluster/mysqlcluster.go:202-208 UpdateSpec *)
Definition UpdateSpec (c : MysqlCluster) : MysqlCluster :=
  let s := cl_Spec c in
  if (String.length (InitBucketURL s) =? 0)%nat then
    with_Spec (mkSpec (Replicas s) (SecretName s) (MysqlVersion s) (Image s) (SidecarImage s)
      (InitBucketURI s) (InitBucketURI s) (InitBucketSecretName s) (MinAvailable s)
      (BackupSchedule s) (BackupURL s) (BackupRemoteDeletePolicy s) (BackupSecretName s)
      (BackupScheduleJobsHistoryLimit s) (sp_MysqlConf s) (sp_PodSpec s) (sp_VolumeSpec s)
      (TmpfsSize s) (MaxSlaveLatency s) (sp_QueryLimits s) (ReadOnly s) (ServerIDOffset s)
      (BackupCompressCommand s) (BackupDecompressCommand s) (MetricsExporterExtraArgs s)
      (RcloneExtraArgs s) (XbstreamExtraArgs s) (XtrabackupExtraArgs s)
      (XtrabackupPrepareExtraArgs s) (XtrabackupTargetDir s) (InitFileExtraSQL s)) c
  else c.

(** The two nested loops over the spellings of the options. *)
(* src/pkg/internal/mysqlcluster/mysqlcluster.go:225-244 ExporterDataSourcePort *)
Definition ExporterDataSourcePort (c : MysqlCluster) : Z :=
  let conf := sp_MysqlConf (cl_Spec c) in
  let extraConns :=
    existsb (λ setting,
      match map_get conf setting with Some conns => (IntValue conns >? 1)%Z | None => false end)
      ["extra_max_connections"; "extra-max-connections"] in
  match map_get conf "extra_port", map_get conf "extra-port" with
  | Some port, _ | None, Some port => if extraConns then IntValue port else MysqlPort
  | None, None => MysqlPort
  end.

(* src/pkg/internal/mysqlcluster/mysqlcluster.go:259-269 IsClusterReady *)
Definition IsClusterReady (c : MysqlCluster) : bool :=
  existsb (λ cond, bool_decide (cc_Type cond = ClusterConditionReady) &&
                   bool_decide (cc_Status cond = ConditionTrue)) (st_Conditions (cl_Status c)).

(* src/pkg/internal/mysqlcluster/mysqlcluster.go:271-278 IsMysqlClusterKind *)
Definition IsMysqlClusterKind (kind : string) : bool :=
  String.eqb kind "MysqlCluster" || String.eqb kind "mysqlcluster" ||
  String.eqb kind "mysqlclusters".

(** [*cluster.Spec.Replicas]: the controllers apply the scheme defaults, which
    set it, before they read it. *)
Definition replicasOf (c : MysqlCluster) : Z := default 0%Z (Replicas (cl_Spec c)).

(** A panic: an error that no other part of the model returns. *)
Definition nilDeref : error := ErrMsg "runtime error: invalid memory address or nil pointer dereference".

(** ** Volumes *)

(* src/pkg/internal/mysqlcluster/volume.go:28-39 DesiredDataVolumeStorage *)
Definition DesiredDataVolumeStorage (c : MysqlCluster) : option Quantity :=
  match PersistentVolumeClaim (sp_VolumeSpec (cl_Spec c)) with
  | None => None
  | Some pvc => Requests (pvc_Resources pvc) !! "storage"
  end.

(* src/pkg/internal/mysqlcluster/volume.go:41-44 DataPVCName *)
Definition DataPVCName (c : MysqlCluster) (ordinal : Z) : string :=
  "data-" +:+ GetNameForResource StatefulSetName (cl_Name c) +:+ "-" +:+ itoa ordinal.

(* src/pkg/internal/mysqlcluster/volume.go:46-49 DataPVCNamePrefix *)
Definition DataPVCNamePrefix (c : MysqlCluster) : string :=
  "data-" +:+ GetNameForResource StatefulSetName (cl_Name c) +:+ "-".

(** ** Versions of a cluster *)

Section Versions.
Context `{!Blang}.

(* src/pkg/internal/mysqlcluster/version.go:44-47 DesiredVersion *)
Definition ClusterDesiredVersion (c : MysqlCluster) : Version :=
  DesiredVersion (MysqlVersion (cl_Spec c)).

(* src/pkg/internal/mysqlcluster/version.go:49-52 AppliedDataPlaneVersion *)
Definition AppliedDataPlaneVersion (c : MysqlCluster) : Version :=
  AppliedDataPlaneVersionOf (AppliedMysqlVersion (cl_Status c)).

(* src/pkg/internal/mysqlcluster/version.go:54-64 LaggingStatefulSetVersion *)
Definition LaggingStatefulSetVersion (c : MysqlCluster) (sts : option StatefulSet) : Version :=
  match sts with
  | None => Zero
  | Some _ =>
      let desired := ClusterDesiredVersion c in
      let v := SemVerFromStatefulSet sts in
      if negb (IsZero v) && negb (EQ v desired) then v else Zero
  end.

(* src/pkg/internal/mysqlcluster/version.go:66-69 SourceVersionForUpgrade *)
Definition SourceVersionForUpgrade (c : MysqlCluster) : Version := AppliedDataPlaneVersion c.

(* src/pkg/internal/mysqlcluster/version.go:71-80 EffectiveVersion *)
Definition EffectiveVersion (c : MysqlCluster) (sts : option StatefulSet) : Version :=
  let v := AppliedDataPlaneVersion c in
  if negb (IsZero v) then v
  else
    let v := LaggingStatefulSetVersion c sts in
    if negb (IsZero v) then v else ClusterDesiredVersion c.

(** Two copies of a cluster with the same versions, and with the same image if the
    user set one. *)
Definition sameVersions (c c' : MysqlCluster) : Prop :=
  ClusterDesiredVersion c = ClusterDesiredVersion c' ∧ AppliedDataPlaneVersion c = AppliedDataPlaneVersion c' ∧
  Image (cl_Spec c) = Image (cl_Spec c').

Lemma sameVersions_refl (c : MysqlCluster) : sameVersions c c.
Proof. done. Qed.

Lemma sameVersions_sym (c c' : MysqlCluster) : sameVersions c c' → sameVersions c' c.
Proof. unfold sameVersions. by intros (-> & -> & ->). Qed.

Lemma sameVersions_trans (c1 c2 c3 : MysqlCluster) : sameVersions c1 c2 → sameVersions c2 c3 → sameVersions c1 c3.
Proof. unfold sameVersions. intros (-> & -> & ->). done. Qed.

(* src/pkg/internal/mysqlcluster/mysqlcluster.go:62-90 GetLabels *)
Definition GetLabels (c : MysqlCluster) : gmap string string :=
  let instance_ := default (cl_Name c) (map_get (cl_Annotations c) "app.kubernetes.io/instance") in
  let component := default "database" (map_get (cl_Annotations c) "app.kubernetes.io/component") in
  let labels : gmap string string := list_to_map [
    (LabelCluster, cl_Name c);
    ("app.kubernetes.io/name", "mysql");
    ("app.kubernetes.io/instance", instance_);
    ("app.kubernetes.io/version", VString (ClusterDesiredVersion c));
    ("app.kubernetes.io/component", component);
    ("app.kubernetes.io/managed-by", ManagedBy)] in
  match map_get (cl_Annotations c) "app.kubernetes.io/part-of" with
  | Some part => <["app.kubernetes.io/part-of" := part]> labels
  | None => labels
  end.

(* src/pkg/internal/mysqlcluster/mysqlcluster.go:92-100 GetSelectorLabels *)
Definition GetSelectorLabels (c : MysqlCluster) : gmap string string := list_to_map [
  (LabelCluster, cl_Name c);
  ("app.kubernetes.io/name", "mysql");
  ("app.kubernetes.io/managed-by", ManagedBy)].

Context `{!Process}.

(* src/pkg/internal/mysqlcluster/mysqlcluster.go:190-200 GetMysqlImage *)
Definition GetMysqlImage (c : MysqlCluster) : string :=
  match ServerImage GetOptions (ClusterDesiredVersion c) (Some (cl_Spec c)) with
  | Err _ => ""
  | Ok img => img
  end.

(* src/pkg/internal/mysqlcluster/mysqlcluster.go:210-213 IsPerconaImage *)
Definition IsPerconaImage (c : MysqlCluster) : bool := Contains (GetMysqlImage c) "percona".

(* src/pkg/internal/mysqlcluster/version.go:98-101 WantsPerconaInitContainerFor *)
Definition WantsPerconaInitContainerFor (c : MysqlCluster) (v : Version) : bool :=
  IsPerconaImage c && WantsPerconaInitContainer (ProfileFor v) v.

(* src/pkg/internal/mysqlcluster/mysqlcluster.go:215-218 ShouldHaveInitContainerForMysql *)
Definition ShouldHaveInitContainerForMysql (c : MysqlCluster) : bool :=
  WantsPerconaInitContainerFor c (ClusterDesiredVersion c).

(* src/pkg/internal/mysqlcluster/mysqlcluster.go:254-257 GetSidecarImage *)
Definition GetSidecarImage (c : MysqlCluster) : string :=
  SidecarImageFor (ClusterDesiredVersion c) (SidecarImage (cl_Spec c)).

(** ** Validation *)

(** A Go interface value: nil, or a pointer (itself possibly nil) with its
    type.  Only the first is equal to [nil]. *)
Inductive interface := INil | ITyped {A} (pointer : option A).

(* src/pkg/internal/mysqlcluster/validation.go:54-61 anyIsNull *)
Definition anyIsNull (vars : list interface) : bool :=
  fold_left (λ isNull v, isNull || match v with INil => true | ITyped _ => false end)
    vars false.

(* src/pkg/internal/mysqlcluster/validation.go:26-52 Validate *)
Definition Validate (c : MysqlCluster) : result unit :=
  if (String.length (SecretName (cl_Spec c)) =? 0)%nat then
    Err (ErrMsg "spec.secretName is missing")
  else if (String.length (GetMysqlImage c) =? 0)%nat then
    Err (ErrMsg (MysqlVersion (cl_Spec c) +:+ " is not a valid MySQL version"))
  else if (String.length (GetSidecarImage c) =? 0)%nat then
    Err (ErrMsg ("no sidecar image configured for MySQL version " +:+ MysqlVersion (cl_Spec c) +:+
      " (set operator --sidecar-mysql84-image for 8.4+, or spec.sidecarImage)"))
  else match ProfileValidate (ProfileFor (ClusterDesiredVersion c)) (cl_Spec c) with
       | Err e => Err e
       | Ok _ =>
           let vs := sp_VolumeSpec (cl_Spec c) in
           if anyIsNull [ITyped (PersistentVolumeClaim vs); ITyped (HostPath vs);
                         ITyped (EmptyDir vs)]
           then Err (ErrMsg "no .spec.volumeSpec is specified")
           else Ok tt
       end.

End Versions.

(** ** Properties *)

Lemma GetNodeCondition_existing name ty c :
  name ∈ ns_Name <$> st_Nodes (cl_Status c) → (GetNodeCondition name ty c).2 = c.
Proof.
  intros Hin. unfold GetNodeCondition. rewrite GetNodeStatusIndex_eq. unfold ensureNode.
  pose proof (nodeIndex_None name (st_Nodes (cl_Status c))) as Hnone.
  destruct (nodeIndex name (st_Nodes (cl_Status c))) as [i|]; [|by apply Hnone in Hin].
  simpl. rewrite with_Nodes_id. destruct (_ !! _) as [ns|]; [|done].
  by destruct (GetNodeConditionIndex ns ty).
Qed.

(** A node is marked as master in the status. *)
Definition marked_master (c : MysqlCluster) (name : string) : Prop :=
  nc_Status <$> nodeCondition (st_Nodes (cl_Status c)) name NodeConditionMaster =
    Some ConditionTrue.

#[export] Instance marked_master_dec c name : Decision (marked_master c name).
Proof. unfold marked_master. apply _. Defined.

Lemma GetMasterHost_fold c (nodes : list NodeStatus) host0 :
  fold_left (λ masterHost ns,
    match (GetNodeCondition (ns_Name ns) NodeConditionMaster c).1 with
    | Some cond => if decide (nc_Status cond = ConditionTrue) then ns_Name ns else masterHost
    | None => masterHost
    end) nodes host0 =
  default host0 (last (filter (marked_master c) (ns_Name <$> nodes))).
Proof.
  revert host0. induction nodes as [|n nodes IH] using rev_ind; intros host0; [done|].
  rewrite fold_left_app, IH, fmap_app, filter_app. simpl.
  rewrite GetNodeCondition_eq.
  destruct (decide (marked_master c (ns_Name n))) as [Hm|Hm].
  - rewrite filter_cons_True, filter_nil by done. rewrite last_snoc. simpl.
    unfold marked_master in Hm. destruct (nodeCondition _ _ _) as [cond|]; [|done].
    simpl in Hm. injection Hm as Hm. by rewrite decide_True.
  - rewrite filter_cons_False, filter_nil, app_nil_r by done.
    unfold marked_master in Hm. destruct (nodeCondition _ _ _) as [cond|]; [|done].
    rewrite decide_False; [done|]. intros E. apply Hm. simpl. by rewrite E.
Qed.

(** [GetMasterHost] is the last node of the status that is marked as master,
    and the first pod of the stateful set when none is marked; so with a single
    marked node it is that node. *)
Theorem GetMasterHost_spec (c : MysqlCluster) :
  GetMasterHost c =
    default (GetPodHostname c 0)
      (last (filter (marked_master c) (ns_Name <$> st_Nodes (cl_Status c)))).
Proof. apply GetMasterHost_fold. Qed.

Section VersionProperties.
Context `{!Blang, !BlangLaws}.

Lemma IsZero_bool v : IsZero v = bool_decide (v = Zero).
Proof. apply EQ_bool. Qed.

Lemma LaggingStatefulSetVersion_eq c sts :
  LaggingStatefulSetVersion c sts =
    if decide (SemVerFromStatefulSet sts = ClusterDesiredVersion c) then Zero
    else SemVerFromStatefulSet sts.
Proof.
  unfold LaggingStatefulSetVersion. destruct sts as [s|]; simpl.
  - rewrite IsZero_bool, EQ_bool. repeat case_bool_decide; case_decide; simpl; congruence.
  - by case_decide.
Qed.

(** [EffectiveVersion], the version the SQL dialect is chosen by, is the
    first known of: the version confirmed by SQL, the version of the stateful
    set's pod template, the desired version. *)
Theorem EffectiveVersion_spec (c : MysqlCluster) (sts : option StatefulSet) :
  EffectiveVersion c sts =
    if decide (AppliedDataPlaneVersion c ≠ Zero) then AppliedDataPlaneVersion c
    else if decide (SemVerFromStatefulSet sts ≠ Zero) then SemVerFromStatefulSet sts
    else ClusterDesiredVersion c.
Proof.
  unfold EffectiveVersion. rewrite !IsZero_bool, LaggingStatefulSetVersion_eq.
  repeat case_bool_decide; repeat case_decide; simpl; try done; try congruence; naive_solver.
Qed.

End VersionProperties.

Section Labels.
Context `{!Blang}.

(** The selector of the operator's services is part of the labels of a
    cluster's objects, whatever annotations rename the instance, the component
    or the application it belongs to. *)
Theorem selector_included (c : MysqlCluster) : GetSelectorLabels c ⊆ GetLabels c.
Proof.
  apply map_subseteq_spec. intros k x Hk.
  unfold GetSelectorLabels in Hk. apply elem_of_list_to_map_2 in Hk.
  assert (Hbase : ∀ m : gmap string string, m !! k = Some x → k ≠ "app.kubernetes.io/part-of" →
    match map_get (cl_Annotations c) "app.kubernetes.io/part-of" with
    | Some part => <["app.kubernetes.io/part-of" := part]> m
    | None => m
    end !! k = Some x).
  { intros m Hm Hne. destruct (map_get _ _); [|done]. by rewrite lookup_insert_ne. }
  unfold GetLabels. apply Hbase.
  - repeat (apply elem_of_cons in Hk as [Hk|Hk]; [injection Hk as -> ->; vm_compute; reflexivity|]).
    by apply not_elem_of_nil in Hk.
  - repeat (apply elem_of_cons in Hk as [Hk|Hk]; [injection Hk as -> ->; done|]).
    by apply not_elem_of_nil in Hk.
Qed.

Context `{!Process}.

Lemma anyIsNull_typed {A B C} (a : option A) (b : option B) (d : option C) :
  anyIsNull [ITyped a; ITyped b; ITyped d] = false.
Proof. done. Qed.

(** What [Validate] checks: a secret name, an image for the server and an
    image for the sidecar.  The check of the volume never fails: the three
    pointers become interface values with a type, which are never equal to
    nil, so a cluster without any volume is valid as well. *)
Theorem Validate_spec (c : MysqlCluster) :
  is_ok (Validate c) = true ↔
    SecretName (cl_Spec c) ≠ "" ∧ GetMysqlImage c ≠ "" ∧ GetSidecarImage c ≠ "".
Proof.
  unfold Validate. rewrite anyIsNull_typed.
  assert (Hp : ProfileValidate (ProfileFor (ClusterDesiredVersion c)) = DefaultValidate).
  { rewrite ProfileFor_eq. by repeat case_match. }
  rewrite Hp. unfold DefaultValidate.
  destruct (SecretName (cl_Spec c)); simpl; [naive_solver|].
  destruct (GetMysqlImage c); simpl; [naive_solver|].
  destruct (GetSidecarImage c); simpl; naive_solver.
Qed.

End Labels.

Lemma EffectiveVersion_spec_witness :
  @EffectiveVersion Ref.blang (Sample.cluster "8.4" "") (Some (Sample.statefulSet "8.0.20" 3)) =
    mkVersion 8 0 20.
Proof.
  rewrite (@EffectiveVersion_spec Ref.blang Ref.blang_laws). vm_compute. reflexivity.
Defined.
