(* ===== verification/ClusterDefaults.v ===== *)
(** * Defaults

    [pkg/apis/mysql/v1alpha1/mysqlcluster_defaults.go] (the defaults of the API
    scheme) and [pkg/internal/mysqlcluster/defaults.go] (the defaults that the
    operator computes: the MySQL configuration from the resources).

    A write to a nil map panics: the operations that write to [mysqlConf] are
    partial, [None] being the panic.  The two computations on [float64] are
    written on binary fractions [m * 2^e] with the rounding to 53 bits
    (nearest, ties to even). *)

From S2P Require Import Prelude GoStrings Semver ClusterTypes Versioning ClusterStatus ClusterModel.
From coqutil Require Import Datatypes.RecordSetters.
Import DoubleBraceUpdate.
Open Scope stdpp_scope.

(** ** Scheme defaults *)

(* src/pkg/apis/mysql/v1alpha1/mysqlcluster_defaults.go:24-36 defaultMinAvailable *)
Definition defaultMinAvailable : string := "50%".
Definition resourceStorage : Quantity := "1Gi".
Definition resourceRequestCPU : Quantity := "200m".
Definition resourceRequestMemory : Quantity := "1Gi".

Definition cpu_memory (cpu memory : Quantity) : ResourceList :=
  list_to_map [("cpu", cpu); ("memory", memory)].

(** [len(m) == 0] for a resource list. *)
Definition no_entries (l : ResourceList) : bool := bool_decide (l = ∅).

(* src/pkg/apis/mysql/v1alpha1/mysqlcluster_defaults.go:61-111 setPodSpecDefaults *)
Definition setPodSpecDefaults (spec : PodSpec) : PodSpec :=
  let spec := when (λ spec, no_entries (Requests (ps_Resources spec)))
    (λ spec, spec {{ ps_Resources :=
       mkResources (cpu_memory resourceRequestCPU resourceRequestMemory) ∅ }}) spec in
  let spec := when (λ spec, no_entries (Requests (MetricsExporterResources spec)))
    (λ spec, spec {{ MetricsExporterResources -> Requests := cpu_memory "10m" "32Mi" }}) spec in
  let spec := when (λ spec, no_entries (Limits (MetricsExporterResources spec)))
    (λ spec, spec {{ MetricsExporterResources -> Limits := cpu_memory "100m" "128Mi" }}) spec in
  let spec := when (λ spec, no_entries (Requests (MySQLOperatorSidecarResources spec)))
    (λ spec, spec {{ MySQLOperatorSidecarResources -> Requests := cpu_memory "10m" "64Mi" }}) spec in
  let spec := when (λ spec, no_entries (Limits (MySQLOperatorSidecarResources spec)))
    (λ spec, spec {{ MySQLOperatorSidecarResources -> Limits := Limits (ps_Resources spec) }}) spec in
  let spec := when (λ spec, no_entries (Requests (PtHeartbeatResources spec)))
    (λ spec, spec {{ PtHeartbeatResources -> Requests := cpu_memory "10m" "32Mi" }}) spec in
  when (λ spec, no_entries (Limits (PtHeartbeatResources spec)))
    (λ spec, spec {{ PtHeartbeatResources -> Limits := cpu_memory "100m" "64Mi" }}) spec.

(* src/pkg/apis/mysql/v1alpha1/mysqlcluster_defaults.go:113-127 setVolumeSpecDefaults *)
Definition setVolumeSpecDefaults (spec : PersistentVolumeClaimSpec) : PersistentVolumeClaimSpec :=
  let spec :=
    if (length (pvc_AccessModes spec) =? 0)%nat then
      spec {{ pvc_AccessModes := ["ReadWriteOnce"] }} else spec in
  if no_entries (Requests (pvc_Resources spec)) then
    spec {{ pvc_Resources := mkResources (list_to_map [("storage", resourceStorage)]) ∅ }}
  else spec.

(* src/pkg/apis/mysql/v1alpha1/mysqlcluster_defaults.go:38-59 SetDefaults_MysqlCluster *)
Definition SetDefaults_MysqlCluster (c : MysqlCluster) : MysqlCluster :=
  let c := c {{ cl_Spec -> sp_PodSpec ::= setPodSpecDefaults }} in
  let c :=
    match PersistentVolumeClaim (sp_VolumeSpec (cl_Spec c)) with
    | Some pvc =>
        c {{ cl_Spec -> sp_VolumeSpec -> PersistentVolumeClaim := Some (setVolumeSpecDefaults pvc) }}
    | None => c
    end in
  let c := when (λ c, bool_decide (Replicas (cl_Spec c) = None))
    (λ c, c {{ cl_Spec -> Replicas := Some 1%Z }}) c in
  let c := when (λ c, bool_decide (default ∅ (sp_MysqlConf (cl_Spec c)) = ∅))
    (λ c, c {{ cl_Spec -> sp_MysqlConf := Some ∅ }}) c in
  when (λ c, (String.length (MinAvailable (cl_Spec c)) =? 0)%nat &&
             (default 0 (Replicas (cl_Spec c)) >? 1)%Z)
    (λ c, c {{ cl_Spec -> MinAvailable := defaultMinAvailable }}) c.

(** ** Binary floating point *)

(** The [float64] nearest to [m * 2^e], for [m ≥ 0]. *)
Definition f64_round (m e : Z) : Z * Z :=
  let n := (Z.log2 m + 1)%Z in
  if (n <=? 53)%Z then (m, e)
  else
    let s := (n - 53)%Z in
    let q := Z.shiftr m s in
    let r := (m `mod` 2 ^ s)%Z in
    let half := (2 ^ (s - 1))%Z in
    ((if (half <? r)%Z || ((r =? half)%Z && Z.odd q) then q + 1 else q)%Z, (e + s)%Z).

Definition f64_of_int (z : Z) : Z * Z := f64_round z 0.
Definition f64_mul (a b : Z * Z) : Z * Z := f64_round (a.1 * b.1) (a.2 + b.2).
(** [int64(x)]. *)
Definition f64_trunc (a : Z * Z) : Z :=
  if (0 <=? a.2)%Z then (a.1 * 2 ^ a.2)%Z else Z.shiftr a.1 (- a.2).

Definition f64_075 : Z * Z := (3, -2)%Z.
Definition f64_05 : Z * Z := (1, -1)%Z.
(** the double nearest to 0.8 *)
Definition f64_08 : Z * Z := (7205759403792794, -53)%Z.

(** ** The operator's defaults *)

(* src/pkg/internal/mysqlcluster/defaults.go:35-41 kb *)
Definition kb : Z := 2 ^ 10.
Definition mb : Z := 2 ^ 20.
Definition gb : Z := 2 ^ 30.

(** A write to [conf] when the option is not set; [None] is the panic of a write
    to a nil map. *)
(* src/pkg/internal/mysqlcluster/defaults.go:135-139 setConfigIfNotSet *)
Definition setConfigIfNotSet (conf : option MysqlConf) (option_ : string) (value : IntOrString) :
    option (option MysqlConf) :=
  match map_get conf option_ with
  | Some _ => Some conf
  | None =>
      match conf with
      | Some m => Some (Some (<[option_ := value]> m))
      | None => None
      end
  end.

(* src/pkg/internal/mysqlcluster/defaults.go:141-146 getRequestedStorage *)
Definition getRequestedStorage (pvc : PersistentVolumeClaimSpec) : option Quantity :=
  Requests (pvc_Resources pvc) !! "storage".

(* src/pkg/internal/mysqlcluster/defaults.go:165-173 tryUnit *)
Definition tryUnit (value scale : Z) (unitStr : string) : option string :=
  let allow := (value `quot` 1000)%Z in
  if (value >=? scale)%Z && (value `rem` scale <=? allow)%Z
  then Some (itoa (value `quot` scale) +:+ unitStr)
  else None.

(* src/pkg/internal/mysqlcluster/defaults.go:148-163 humanizeSize *)
Definition humanizeSize (value : Z) : IntOrString :=
  match tryUnit value gb "G" with
  | Some r => FromString r
  | None =>
      match tryUnit value mb "M" with
      | Some r => FromString r
      | None =>
          match tryUnit value kb "K" with
          | Some r => FromString r
          | None => FromString (itoa value +:+ "")
          end
      end
  end.

(* src/pkg/internal/mysqlcluster/defaults.go:224-229 min *)
Definition min64 (a b : Z) : Z := if (a <=? b)%Z then a else b.

(** The accessors [Memory] and [Cpu] of a resource list belong to the library:
    the quantity of the list, or a zero quantity. *)
Class ResourceAccess `{!Resource} := {
  rl_Memory : ResourceList → option Quantity;
  rl_Cpu : ResourceList → option Quantity }.

Section Defaults.
Context `{!Blang, !Process, !Resource, !ResourceAccess}.

(* src/pkg/internal/mysqlcluster/defaults.go:175-196 computeInnodbLogFileSize *)
Definition computeInnodbLogFileSize (mem : Quantity) : Z :=
  (if Value mem <? gb then 48 * mb
   else if Value mem <=? 4 * gb then 128 * mb
   else if Value mem <=? 8 * gb then 512 * mb
   else if Value mem <=? 16 * gb then 1 * gb
   else 2 * gb)%Z.

(* src/pkg/internal/mysqlcluster/defaults.go:198-222 computeInnodbBufferPoolSize *)
Definition computeInnodbBufferPoolSize (mem : Quantity) : result Z :=
  let bytes (availableMem : Quantity) (percentRAM : Z * Z) :=
    f64_trunc (f64_mul (f64_of_int (Value availableMem)) percentRAM) in
  if (Value mem <=? 512 * mb)%Z then
    Err (ErrMsg ("memory too small to compute innodb-buffer-pool-size: " +:+ mem))
  else if (Value mem <=? 1 * gb)%Z then Ok (bytes (QSub mem "256Mi") f64_05)
  else if (Value mem <=? 4 * gb)%Z then Ok (bytes (QSub mem "256Mi") f64_075)
  else Ok (bytes (QSub mem "512Mi") f64_08).

(** The quotient by 1000 is exact enough for [math.Ceil] while the number of
    millicores fits 52 bits. *)
Definition bufferPoolInstances (cpu : Quantity) (innodbBufferPoolSize : Z) : Z :=
  let cpuRounded := (- ((- MilliValue cpu) / 1000))%Z in
  Z.max (Z.min cpuRounded (innodbBufferPoolSize / gb)) 1.

(** The options derived from the requested memory: the size of the buffer pool
    as the later steps see it, and the configuration. *)
(* src/pkg/internal/mysqlcluster/defaults.go:87-101 SetDefaults *)
Definition setMemoryDefaults (c : MysqlCluster) (conf : option MysqlConf) :
    option (Z * option MysqlConf) :=
  let requests := Requests (ps_Resources (sp_PodSpec (cl_Spec c))) in
  '(size, conf) ←
    match rl_Memory requests with
    | Some mem =>
        if QIsZero mem then Some ((128 * mb)%Z, conf)
        else match computeInnodbBufferPoolSize mem with
             | Ok n => conf ← setConfigIfNotSet conf "innodb-buffer-pool-size" (humanizeSize n);
                       Some (n, conf)
             | Err _ => Some (0%Z, conf)
             end
    | None => Some ((128 * mb)%Z, conf)
    end;
  match rl_Memory requests with
  | Some mem =>
      let perFile := computeInnodbLogFileSize mem in
      let v := ClusterDesiredVersion c in
      let (key, sizeBytes) := InnoDBOperatorLogSizing (ProfileFor v) v perFile in
      conf ← setConfigIfNotSet conf key (humanizeSize sizeBytes); Some (size, conf)
  | None => Some (size, conf)
  end.

(** The limits of the binary logs for a volume of [space] bytes. *)
Definition binlogLimits (space : Z) : Z * Z :=
  if (space <? 2 * gb)%Z then
    let binlogSpaceLimit := (space `quot` 3)%Z in
    (binlogSpaceLimit, min64 (binlogSpaceLimit `quot` 3) (1 * gb))
  else
    let binlogSpaceLimit := (space `quot` 2)%Z in
    (binlogSpaceLimit, min64 (binlogSpaceLimit `quot` 4) (1 * gb)).

(* src/pkg/internal/mysqlcluster/defaults.go:103-120 SetDefaults *)
Definition setVolumeDefaults (c : MysqlCluster) (conf : option MysqlConf) :
    option (option MysqlConf) :=
  match (pvc ← PersistentVolumeClaim (sp_VolumeSpec (cl_Spec c)); getRequestedStorage pvc) with
  | Some space =>
      let (binlogSpaceLimit, maxBinlogSize) := binlogLimits (Value space) in
      conf ← (if IsPerconaImage c then
                setConfigIfNotSet conf "binlog-space-limit" (humanizeSize binlogSpaceLimit)
              else Some conf);
      setConfigIfNotSet conf "max-binlog-size" (humanizeSize maxBinlogSize)
  | None => Some conf
  end.

(* src/pkg/internal/mysqlcluster/defaults.go:43-133 SetDefaults *)
Definition SetDefaults (opt : Options) (c : MysqlCluster) : option MysqlCluster :=
  let c := when (λ c, (String.length (ImagePullPolicy (sp_PodSpec (cl_Spec c))) =? 0)%nat)
    (λ c, c {{ cl_Spec -> sp_PodSpec -> ImagePullPolicy := o_ImagePullPolicy opt }}) c in
  let c := when (λ c, (length (ImagePullSecrets (sp_PodSpec (cl_Spec c))) =? 0)%nat &&
                      negb (String.length (o_ImagePullSecretName opt) =? 0)%nat)
    (λ c, c {{ cl_Spec -> sp_PodSpec -> ImagePullSecrets := [o_ImagePullSecretName opt] }}) c in
  let c := when (λ c, (String.length (MysqlVersion (cl_Spec c)) =? 0)%nat)
    (λ c, c {{ cl_Spec -> MysqlVersion := MySQLDefaultVersion }}) c in
  let c := when (λ c, bool_decide (ps_Affinity (sp_PodSpec (cl_Spec c)) = None))
    (λ c, c {{ cl_Spec -> sp_PodSpec -> ps_Affinity :=
       Some (PreferredAntiAffinity 100 "kubernetes.io/hostname" (GetLabels c)) }}) c in
  '(size, conf) ← setMemoryDefaults c (sp_MysqlConf (cl_Spec c));
  conf ← setVolumeDefaults c conf;
  conf ← match rl_Cpu (Limits (ps_Resources (sp_PodSpec (cl_Spec c)))) with
         | Some cpu =>
             if QIsZero cpu then Some conf
             else setConfigIfNotSet conf "innodb-buffer-pool-instances"
                    (FromInt (bufferPoolInstances cpu size))
         | None => Some conf
         end;
  let c := c {{ cl_Spec -> sp_MysqlConf := conf }} in
  Some (when (λ c, (String.length (XtrabackupTargetDir (cl_Spec c)) =? 0)%nat)
    (λ c, c {{ cl_Spec -> XtrabackupTargetDir := "/tmp/xtrabackup_backupfiles/" }}) c).

End Defaults.

(** ** Properties *)

Lemma no_entries_spec l : no_entries l = true ↔ l = ∅.
Proof. unfold no_entries. by rewrite bool_decide_eq_true. Qed.

(** The limits that the user gave are dropped when the requests are missing. *)
Lemma setPodSpecDefaults_Resources spec :
  ps_Resources (setPodSpecDefaults spec) =
    if no_entries (Requests (ps_Resources spec))
    then mkResources (cpu_memory resourceRequestCPU resourceRequestMemory) ∅
    else ps_Resources spec.
Proof.
  unfold setPodSpecDefaults. cbv zeta. rewrite 6!(when_keeps ps_Resources) by done.
  unfold when. by destruct (no_entries _).
Qed.

Lemma SetDefaults_MysqlCluster_podSpec c :
  sp_PodSpec (cl_Spec (SetDefaults_MysqlCluster c)) = setPodSpecDefaults (sp_PodSpec (cl_Spec c)).
Proof.
  unfold SetDefaults_MysqlCluster. cbv zeta. rewrite !(when_keeps (λ c, sp_PodSpec (cl_Spec c))) by done.
  by destruct (PersistentVolumeClaim _).
Qed.

(** The scheme defaults fill in the requests of the MySQL container only when
    there are none, and then replace the whole of its resources: limits that
    the user gave without requests are lost.  Resources with requests are kept
    as they are. *)
Theorem scheme_defaults_resources (c : MysqlCluster) :
  let r := ps_Resources (sp_PodSpec (cl_Spec c)) in
  let r' := ps_Resources (sp_PodSpec (cl_Spec (SetDefaults_MysqlCluster c))) in
  (Requests r ≠ ∅ → r' = r) ∧
  (Requests r = ∅ →
     Requests r' = cpu_memory "200m" "1Gi" ∧ Limits r' = ∅).
Proof.
  cbv zeta.
  rewrite SetDefaults_MysqlCluster_podSpec, setPodSpecDefaults_Resources.
  destruct (no_entries _) eqn:Hn; split; intros Hr; try done.
  - by apply no_entries_spec in Hn.
  - apply no_entries_spec in Hr. congruence.
Qed.

(** The scheme defaults change the specification only. *)
Lemma SetDefaults_MysqlCluster_meta c :
  cl_Meta (SetDefaults_MysqlCluster c) = cl_Meta c ∧ cl_Status (SetDefaults_MysqlCluster c) = cl_Status c.
Proof.
  unfold SetDefaults_MysqlCluster. cbv zeta.
  split; rewrite !when_keeps by done; by destruct (PersistentVolumeClaim _).
Qed.

(** After the scheme defaults there is a configuration map to write to. *)
Lemma SetDefaults_MysqlCluster_conf c :
  sp_MysqlConf (cl_Spec (SetDefaults_MysqlCluster c)) =
    Some (default ∅ (sp_MysqlConf (cl_Spec c))).
Proof.
  unfold SetDefaults_MysqlCluster. cbv zeta.
  rewrite (when_keeps (λ c, sp_MysqlConf (cl_Spec c))) by done.
  set (c1 := when _ _ (match PersistentVolumeClaim _ with Some _ => _ | None => _ end)).
  assert (sp_MysqlConf (cl_Spec c) = sp_MysqlConf (cl_Spec c1)) as ->.
  { unfold c1. rewrite (when_keeps (λ c, sp_MysqlConf (cl_Spec c))) by done.
    by destruct (PersistentVolumeClaim _). }
  clearbody c1. unfold when. destruct (sp_MysqlConf (cl_Spec c1)) as [m|] eqn:E; simpl.
  - destruct (bool_decide (m = ∅)) eqn:Hb; [|done]. by apply bool_decide_eq_true in Hb as ->.
  - done.
Qed.

#[local] Arguments setConfigIfNotSet : simpl never.

(** A write that keeps what is set. *)
Lemma setConfigIfNotSet_Some m o v :
  setConfigIfNotSet (Some m) o v = Some (Some (match m !! o with Some _ => m | None => <[o := v]> m end)).
Proof. unfold setConfigIfNotSet. change (map_get (Some m) o) with (m !! o). by destruct (m !! o). Qed.

Lemma setConfigIfNotSet_keeps m o v :
  ∃ m', setConfigIfNotSet (Some m) o v = Some (Some m') ∧ m ⊆ m'.
Proof.
  rewrite setConfigIfNotSet_Some. destruct (m !! o) eqn:E; eexists; (split; [done|]); [done|].
  by apply insert_subseteq.
Qed.

(** A step of the defaults: it does not panic on a map, and only adds options. *)
Ltac keeps_step :=
  match goal with
  | |- context [setConfigIfNotSet (Some ?m) ?o ?v] =>
      let m' := fresh "m" in let E := fresh "E" in let Hsub := fresh "Hsub" in
      destruct (setConfigIfNotSet_keeps m o v) as (m' & E & Hsub); rewrite E; simpl
  end.

Section DefaultProperties.
Context `{!Blang, !Process, !Resource, !ResourceAccess}.

Lemma setMemoryDefaults_keeps c m :
  ∃ size m', setMemoryDefaults c (Some m) = Some (size, Some m') ∧ m ⊆ m'.
Proof.
  unfold setMemoryDefaults. destruct (rl_Memory _) as [mem|]; simpl; [|eauto].
  destruct (QIsZero mem); simpl; [|destruct (computeInnodbBufferPoolSize mem); simpl];
    try keeps_step; destruct (InnoDBOperatorLogSizing _ _ _); keeps_step;
    do 2 eexists; (split; [done|]); by repeat (etrans; [eassumption|]).
Qed.

Lemma setVolumeDefaults_keeps c m :
  ∃ m', setVolumeDefaults c (Some m) = Some (Some m') ∧ m ⊆ m'.
Proof.
  unfold setVolumeDefaults. destruct (_ ≫= _); [|eauto].
  destruct (binlogLimits _). destruct (IsPerconaImage c); simpl; repeat keeps_step;
    eexists; (split; [done|]); by repeat (etrans; [eassumption|]).
Qed.

(** After the scheme defaults the operator's defaults never write to a nil
    map (the code does not panic), and every option that the user set in
    [mysqlConf] keeps its value. *)
Theorem SetDefaults_total (opt : Options) (c : MysqlCluster) :
  ∃ c' conf', SetDefaults opt (SetDefaults_MysqlCluster c) = Some c' ∧
    sp_MysqlConf (cl_Spec c') = Some conf' ∧
    default ∅ (sp_MysqlConf (cl_Spec c)) ⊆ conf'.
Proof.
  set (m := default ∅ (sp_MysqlConf (cl_Spec c))).
  unfold SetDefaults. cbv zeta.
  set (c4 := when (λ c, bool_decide (ps_Affinity _ = None)) _ _).
  assert (H4 : sp_MysqlConf (cl_Spec c4) = Some m).
  { unfold c4. rewrite !(when_keeps (λ c, sp_MysqlConf (cl_Spec c))) by done.
    apply SetDefaults_MysqlCluster_conf. }
  rewrite H4. clearbody c4.
  destruct (setMemoryDefaults_keeps c4 m) as (size & m1 & E1 & S1). rewrite E1. simpl.
  destruct (setVolumeDefaults_keeps c4 m1) as (m2 & E2 & S2). rewrite E2. simpl.
  destruct (rl_Cpu _) as [cpu|]; simpl; [destruct (QIsZero cpu); simpl; [|keeps_step]|];
    do 2 eexists; (split; [done|]);
    (split; [rewrite (when_keeps (λ c, sp_MysqlConf (cl_Spec c))) by done; reflexivity|]);
    by repeat (etrans; [eassumption|]).
Qed.

Lemma VersionOf_default s : DesiredVersion (if (String.length s =? 0)%nat then MySQLDefaultVersion else s) = DesiredVersion s.
Proof. by destruct s. Qed.

(** The defaults complete the version by the one it stands for. *)
Lemma SetDefaults_versions (opt : Options) (c l : MysqlCluster) : SetDefaults opt (SetDefaults_MysqlCluster c) = Some l → sameVersions l c.
Proof.
  intros Hd. assert (cl_Status l = cl_Status c ∧
    MysqlVersion (cl_Spec l) = (if (String.length (MysqlVersion (cl_Spec c)) =? 0)%nat then MySQLDefaultVersion
                                else MysqlVersion (cl_Spec c)) ∧ Image (cl_Spec l) = Image (cl_Spec c)) as (Hs & Hv & Hi).
  2:{ unfold sameVersions, ClusterDesiredVersion, AppliedDataPlaneVersion. rewrite Hs, Hv.
      split_and!; [apply VersionOf_default|done..]. }
  rewrite <-(proj2 (SetDefaults_MysqlCluster_meta c)).
  assert (Image (cl_Spec c) = Image (cl_Spec (SetDefaults_MysqlCluster c))) as ->.
  { unfold SetDefaults_MysqlCluster. cbv zeta. rewrite !(when_keeps (λ c, Image (cl_Spec c))) by done.
    by destruct (PersistentVolumeClaim _). }
  assert (MysqlVersion (cl_Spec c) = MysqlVersion (cl_Spec (SetDefaults_MysqlCluster c))) as ->.
  { unfold SetDefaults_MysqlCluster. cbv zeta. rewrite !(when_keeps (λ c, MysqlVersion (cl_Spec c))) by done.
    by destruct (PersistentVolumeClaim _). }
  revert Hd. generalize (SetDefaults_MysqlCluster c). clear c. intros c. unfold SetDefaults. cbv zeta.
  match goal with |- context [setMemoryDefaults ?x _] => set (c1 := x) end.
  assert (cl_Status c1 = cl_Status c ∧
    MysqlVersion (cl_Spec c1) = (if (String.length (MysqlVersion (cl_Spec c)) =? 0)%nat then MySQLDefaultVersion
                                 else MysqlVersion (cl_Spec c)) ∧
    Image (cl_Spec c1) = Image (cl_Spec c)) as (<- & <- & <-).
  { unfold c1. split; [by rewrite !(when_keeps cl_Status)|]. split; [|by rewrite !(when_keeps (λ c, Image (cl_Spec c)))].
    rewrite (when_keeps (λ c, MysqlVersion (cl_Spec c))) by done.
    match goal with |- context [when _ _ (when ?f ?g (when ?f' ?g' c))] => set (c2 := when f g (when f' g' c)) end.
    assert (MysqlVersion (cl_Spec c2) = MysqlVersion (cl_Spec c)) as <-
      by (unfold c2; by rewrite !(when_keeps (λ c, MysqlVersion (cl_Spec c)))).
    clear c1; clearbody c2. unfold when. by destruct (String.length (MysqlVersion (cl_Spec c2)) =? 0)%nat. }
  clearbody c1. destruct (setMemoryDefaults c1 _) as [[size conf]|]; [|done]. cbn [mbind option_bind].
  destruct (setVolumeDefaults c1 conf) as [conf2|]; [|done]. cbn [mbind option_bind].
  match goal with |- context [rl_Cpu ?x] => destruct (rl_Cpu x) as [cpu|] end; cbn [mbind option_bind];
    [destruct (if QIsZero cpu then _ else _) as [conf3|]; [|done]|];
    intros [= <-]; (split_and!; [by rewrite (when_keeps cl_Status)|by rewrite (when_keeps (λ c, MysqlVersion (cl_Spec c)))|
      by rewrite (when_keeps (λ c, Image (cl_Spec c)))]).
Qed.

End DefaultProperties.

(** *** Sizes *)

Lemma tryUnit_Some value scale u r :
  (0 < scale)%Z → tryUnit value scale u = Some r →
  ∃ n, r = itoa n +:+ u ∧ (0 < n)%Z ∧
       (n * scale ≤ value ≤ n * scale + value / 1000)%Z.
Proof.
  unfold tryUnit. intros Hs. rewrite Z.geb_leb.
  destruct (Z.leb_spec scale value) as [Hv|]; [|done]. simpl.
  destruct (Z.leb_spec (value `rem` scale) (value `quot` 1000)) as [Hr|]; [|done].
  intros [= <-]. exists (value `quot` scale)%Z. split; [done|].
  rewrite Z.rem_mod_nonneg, Z.quot_div_nonneg in Hr by lia.
  rewrite Z.quot_div_nonneg by lia.
  pose proof (Z.div_mod value scale ltac:(lia)).
  pose proof (Z.mod_pos_bound value scale ltac:(lia)).
  pose proof (Z.div_str_pos value scale ltac:(lia)). nia.
Qed.

(** The units a size is written with. *)
Definition sizeUnits : list (string * Z) := [("G", gb); ("M", mb); ("K", kb); ("", 1%Z)].

(** [humanizeSize] is accurate: what it prints is a whole number of G, M, K or
    bytes, never more than the value, and short of it by at most a thousandth. *)
Theorem humanizeSize_accurate (value : Z) :
  (0 ≤ value)%Z →
  ∃ n suffix unit,
    humanizeSize value = FromString (itoa n +:+ suffix) ∧
    (suffix, unit) ∈ sizeUnits ∧
    (n * unit ≤ value ≤ n * unit + value / 1000)%Z.
Proof.
  intros Hv. unfold humanizeSize, sizeUnits.
  assert (Hpos : (0 < gb ∧ 0 < mb ∧ 0 < kb)%Z) by (unfold gb, mb, kb; lia).
  destruct (tryUnit value gb "G") as [r|] eqn:E1.
  { apply tryUnit_Some in E1 as (n & -> & _ & ?); [|tauto]. exists n, "G", gb.
    split; [done|]. split; [left|done]. }
  destruct (tryUnit value mb "M") as [r|] eqn:E2.
  { apply tryUnit_Some in E2 as (n & -> & _ & ?); [|tauto]. exists n, "M", mb.
    split; [done|]. split; [right; left|done]. }
  destruct (tryUnit value kb "K") as [r|] eqn:E3.
  { apply tryUnit_Some in E3 as (n & -> & _ & ?); [|tauto]. exists n, "K", kb.
    split; [done|]. split; [do 2 right; left|done]. }
  exists value, "", 1%Z. split; [done|]. split; [do 3 right; left|].
  pose proof (Z.div_pos value 1000 Hv). lia.
Qed.

(** The rounding of a positive number is off by at most half a unit in the last
    place. *)
Lemma f64_round_bound m e :
  (0 ≤ m)%Z →
  let s := Z.max 0 (Z.log2 m - 52) in
  ∃ q, f64_round m e = (q, e + s)%Z ∧ (0 ≤ q)%Z ∧ (2 * Z.abs (q * 2 ^ s - m) ≤ 2 ^ s)%Z.
Proof.
  intros Hm. cbv zeta. unfold f64_round. destruct (Z.leb_spec (Z.log2 m + 1) 53) as [Hn|Hn].
  - rewrite Z.max_l by lia. exists m. rewrite Z.add_0_r. split_and!; [done|lia|].
    rewrite Z.mul_1_r, Z.sub_diag. done.
  - rewrite Z.max_r by lia. set (s := (Z.log2 m + 1 - 53)%Z).
    replace (Z.log2 m - 52)%Z with s by lia.
    rewrite Z.shiftr_div_pow2 by lia. eexists. split; [reflexivity|].
    assert (Hs : (2 ^ s = 2 * 2 ^ (s - 1))%Z).
    { rewrite <-Z.pow_succ_r by lia. f_equal. lia. }
    assert (0 < 2 ^ (s - 1))%Z by (apply Z.pow_pos_nonneg; lia).
    pose proof (Z.div_mod m (2 ^ s) ltac:(lia)) as Hd.
    pose proof (Z.mod_pos_bound m (2 ^ s) ltac:(lia)) as Hr.
    pose proof (Z.div_pos m (2 ^ s) Hm ltac:(lia)) as Hq.
    set (q := (m / 2 ^ s)%Z) in *. set (r := (m `mod` 2 ^ s)%Z) in *.
    destruct (Z.ltb_spec (2 ^ (s - 1)) r); simpl; [split; [lia|]; nia|].
    destruct (Z.eqb_spec r (2 ^ (s - 1))), (Z.odd q); simpl; (split; [lia|]); nia.
Qed.

Lemma f64_of_int_exact m : (0 ≤ m < 2 ^ 53)%Z → f64_of_int m = (m, 0)%Z.
Proof.
  intros Hm. unfold f64_of_int, f64_round.
  destruct (Z.leb_spec (Z.log2 m + 1) 53) as [|Hl]; [done|].
  destruct (decide (m = 0)%Z) as [->|]; [done|].
  assert (Z.log2 m < 53)%Z by (apply Z.log2_lt_pow2; lia). lia.
Qed.

(** Multiplying an integer by a fraction [p / 2^k] of at most one and truncating
    is off by less than one, plus half for the rounding. *)
Lemma f64_scale_bound m p e k :
  (0 < m < 2 ^ 53)%Z → (0 < p ≤ 2 ^ k)%Z → (1 ≤ k)%Z → e = (- k)%Z →
  let t := f64_trunc (f64_mul (f64_of_int m) (p, e)) in
  (2 ^ k * t ≤ m * p + 2 ^ (k - 1) ∧ m * p - 2 ^ (k - 1) - 2 ^ k < 2 ^ k * t)%Z.
Proof.
  intros Hm Hp Hk ->. cbv zeta. rewrite f64_of_int_exact by lia.
  unfold f64_mul. cbn [fst snd]. rewrite Z.add_0_l.
  destruct (f64_round_bound (m * p) (- k) ltac:(lia)) as (q & -> & Hq & Hb).
  set (s := Z.max 0 (Z.log2 (m * p) - 52)) in *.
  assert (Hs : (0 ≤ s ≤ k)%Z).
  { split; [lia|]. assert (Hl : (Z.log2 (m * p) < 53 + k)%Z); [|lia].
    apply Z.log2_lt_pow2; [lia|]. rewrite Z.pow_add_r by lia. nia. }
  assert (Hsk : (2 ^ s ≤ 2 * 2 ^ (k - 1))%Z).
  { rewrite <-Z.pow_succ_r by lia. apply Z.pow_le_mono_r; lia. }
  assert (H2k : (2 ^ k = 2 ^ s * 2 ^ (k - s))%Z) by (rewrite <-Z.pow_add_r by lia; f_equal; lia).
  unfold f64_trunc. cbn [fst snd]. destruct (Z.leb_spec 0 (- k + s)) as [Hz|Hz].
  - assert (s = k) as -> by lia. rewrite Z.add_opp_diag_l, Z.mul_1_r. lia.
  - rewrite Z.shiftr_div_pow2 by lia. replace (- (- k + s))%Z with (k - s)%Z by lia.
    assert (0 < 2 ^ (k - s))%Z by (apply Z.pow_pos_nonneg; lia).
    assert (0 < 2 ^ s)%Z by (apply Z.pow_pos_nonneg; lia).
    pose proof (Z.div_mod q (2 ^ (k - s)) ltac:(lia)).
    pose proof (Z.mod_pos_bound q (2 ^ (k - s)) ltac:(lia)).
    set (t := (q / 2 ^ (k - s))%Z) in *. set (r := (q `mod` 2 ^ (k - s))%Z) in *.
    rewrite H2k. nia.
Qed.

(** What the operator relies on: subtracting the constants it subtracts. *)
Class ResourceLaws `{!Resource} : Prop := {
  Value_Sub_256Mi q : (256 * mb < Value q)%Z → Value (QSub q "256Mi") = (Value q - 256 * mb)%Z;
  Value_Sub_512Mi q : (512 * mb < Value q)%Z → Value (QSub q "512Mi") = (Value q - 512 * mb)%Z }.

(** The computed InnoDB buffer pool is at least MySQL's default of 128 MiB and
    less than 80 percent of the requested memory, for every request above
    512 MiB (and below 2^53 bytes); for a smaller request there is no value, and the
    option is left to MySQL. *)
Theorem buffer_pool_bounds `{!Resource, !ResourceLaws} (mem : Quantity) :
  (Value mem < 2 ^ 53)%Z →
  match computeInnodbBufferPoolSize mem with
  | Ok n => (512 * mb < Value mem ∧ 128 * mb ≤ n ∧ 10 * n ≤ 8 * Value mem)%Z
  | Err _ => (Value mem ≤ 512 * mb)%Z
  end.
Proof.
  intros Hmax. unfold computeInnodbBufferPoolSize, f64_05, f64_075, f64_08.
  assert (Hmb : mb = 1048576%Z) by done. assert (Hgb : gb = 1073741824%Z) by done.
  destruct (Z.leb_spec (Value mem) (512 * mb)) as [H1|H1]; [done|].
  destruct (Z.leb_spec (Value mem) (1 * gb)) as [H2|H2].
  { rewrite Value_Sub_256Mi by lia. set (m := (Value mem - 256 * mb)%Z).
    assert (Hm : (0 < m < 2 ^ 53)%Z) by (unfold m; lia).
    pose proof (f64_scale_bound m 1 (-1) 1 Hm ltac:(lia) ltac:(lia) eq_refl). unfold m in *. lia. }
  destruct (Z.leb_spec (Value mem) (4 * gb)) as [H3|H3].
  { rewrite Value_Sub_256Mi by lia. set (m := (Value mem - 256 * mb)%Z).
    assert (Hm : (0 < m < 2 ^ 53)%Z) by (unfold m; lia).
    pose proof (f64_scale_bound m 3 (-2) 2 Hm ltac:(lia) ltac:(lia) eq_refl). unfold m in *. lia. }
  rewrite Value_Sub_512Mi by lia. set (m := (Value mem - 512 * mb)%Z).
  assert (Hm : (0 < m < 2 ^ 53)%Z) by (unfold m; lia).
  pose proof (f64_scale_bound m 7205759403792794 (-53) 53 Hm ltac:(lia) ltac:(lia) eq_refl).
  unfold m in *. lia.
Qed.

(** ** An instance of the library for the examples *)

Module RefResource.

(** The number before a unit. *)
Definition stem (s u : string) : Z :=
  default 0%Z (parse_sign (str_take (String.length s - String.length u) s)).

Definition value (s : Quantity) : Z :=
  if HasSuffix s "Gi" then (stem s "Gi" * gb)%Z
  else if HasSuffix s "Mi" then (stem s "Mi" * mb)%Z
  else default 0%Z (parse_sign s).

Definition milli (s : Quantity) : Z :=
  if HasSuffix s "m" then stem s "m" else (1000 * value s)%Z.

#[export] Instance resource : Resource := {
  Value := value; MilliValue := milli;
  QIsZero q := (milli q =? 0)%Z;
  QSub a b := itoa (value a - value b);
  QCmp a b := match (value a ?= value b)%Z with Lt => -1 | Eq => 0 | Gt => 1 end%Z;
  QValid _ := true }.

#[export] Instance access : ResourceAccess := {
  rl_Memory l := Some (default "0" (l !! "memory"));
  rl_Cpu l := Some (default "0" (l !! "cpu")) }.

Lemma value_itoa z : (0 ≤ z)%Z → value (itoa z) = z.
Proof.
  intros Hz. unfold value.
  assert (Hs : ∀ c, is_digit c = false → HasSuffix (itoa z) (String c "i") = false).
  { intros c Hc. destruct (HasSuffix (itoa z) (String c "i")) eqn:E; [|done].
    apply HasSuffix_spec in E as [t Ht]. pose proof (all_digits_itoa z Hz) as Hd.
    rewrite <-str_forall_digits, Ht, str_forall_app in Hd. unfold str_forall in Hd. simpl in Hd.
    rewrite Hc in Hd. by rewrite andb_false_r in Hd. }
  rewrite !Hs by done. by rewrite parse_sign_itoa.
Qed.

#[export] Instance resource_laws : ResourceLaws.
Proof. split; intros q Hq; simpl in *; apply value_itoa; unfold mb in *; lia. Qed.

End RefResource.

Lemma humanizeSize_accurate_witness :
  humanizeSize (3 * 2 ^ 29) = FromString "1536M" ∧
  ∃ n suffix unit, humanizeSize (3 * 2 ^ 29) = FromString (itoa n +:+ suffix) ∧
    (suffix, unit) ∈ sizeUnits ∧
    (n * unit ≤ 3 * 2 ^ 29 ≤ n * unit + (3 * 2 ^ 29) / 1000)%Z.
Proof.
  split; [vm_compute; reflexivity|]. apply (humanizeSize_accurate (3 * 2 ^ 29)). lia.
Defined.

Lemma buffer_pool_bounds_witness :
  match @computeInnodbBufferPoolSize RefResource.resource "1Gi" with
  | Ok n => (512 * mb < 1024 * mb ∧ 128 * mb ≤ n ∧ 10 * n ≤ 8 * (1024 * mb))%Z
  | Err _ => (1024 * mb ≤ 512 * mb)%Z
  end.
Proof.
  exact (@buffer_pool_bounds RefResource.resource RefResource.resource_laws "1Gi"
           ltac:(vm_compute; reflexivity)).
Defined.
