(* ===== verification/VersionUpgrade.v ===== *)
(** * Server version upgrades

    [pkg/controller/mysqlcluster/internal/versionupgrade]: which version the
    stateful set runs during an upgrade ([RolloutMySQLVersion]), whether a
    requested version is accepted ([EnsureChecked]), when a rollout is complete,
    which version the data plane really runs ([ObserveDataPlaneVersionSQL]),
    and the init steps of an upgrade path ([NeedsDatadirChownInit]).

    The calls to the API server and to mysqld are the effects [vu_op]. *)

From S2P Require Import Prelude GoStrings Semver ClusterTypes Versioning ClusterStatus ClusterModel.
Open Scope stdpp_scope.

(** ** Effects *)

Inductive vu_op :=
  | VGetStatefulSet (ns name : string)
  | VGetSecret (ns name : string)
  (** [SELECT VERSION()] on a host *)
  | VQueryVersion (user password host : string).

#[export] Instance vu_effect : Effect vu_op := λ o,
  match o with
  | VGetStatefulSet _ _ => result StatefulSet
  | VGetSecret _ _ => result (gmap string string)
  | VQueryVersion _ _ _ => result string
  end.

(** ** Predicates on a cluster *)

(* src/pkg/controller/mysqlcluster/internal/versionupgrade/version.go:23-26 HasPersistentDataVolume *)
Definition HasPersistentDataVolume (c : MysqlCluster) : bool :=
  match PersistentVolumeClaim (sp_VolumeSpec (cl_Spec c)) with Some _ => true | None => false end.

(* src/pkg/controller/mysqlcluster/internal/versionupgrade/version.go:28-34 ClusterHasMySQLData *)
Definition ClusterHasMySQLData (c : MysqlCluster) : bool :=
  if negb (HasPersistentDataVolume c) then false
  else (ReadyNodes (cl_Status c) >? 0)%Z.

(* src/pkg/controller/mysqlcluster/internal/versionupgrade/server_version.go:117-137 podMysqlReady *)
Definition podMysqlReady (pod : Pod) : bool :=
  if negb (existsb (λ c, String.eqb (c_Name c) "mysql") (pod_Containers pod)) then false
  else existsb (λ cond, String.eqb (pc_Type cond) PodReady &&
                        bool_decide (pc_Status cond = ConditionTrue)) (pod_Conditions pod).

(* src/pkg/controller/mysqlcluster/internal/versionupgrade/server_version.go:105-115 readyMysqlPods *)
Definition readyMysqlPods (pods : list Pod) : list Pod := List.filter podMysqlReady pods.

(* src/pkg/controller/mysqlcluster/internal/versionupgrade/server_version.go:139-145 mysqldHost *)
Definition mysqldHost (pod : Pod) (headlessSVC namespace : string) : string :=
  let hostname :=
    if String.eqb (pod_Hostname pod) "" then om_Name (pod_Meta pod) else pod_Hostname pod in
  hostname +:+ "." +:+ headlessSVC +:+ "." +:+ namespace.

(** ** Completion of a rollout *)

(* src/pkg/controller/mysqlcluster/internal/versionupgrade/rollout_complete.go:62-76 podHasTemplateInitContainers *)
Definition podHasTemplateInitContainers (pod : Pod) (templateInits : list Container) : bool :=
  forallb (λ want, existsb (λ have, String.eqb (c_Name have) (c_Name want))
                     (pod_InitContainers pod)) templateInits.

(** The loop of [initContainerSucceeded]: the first status of the name decides. *)
Fixpoint statusSucceeded (statuses : list ContainerStatus) (name : string) : bool :=
  match statuses with
  | [] => false
  | s :: statuses =>
      if negb (String.eqb (cs_Name s) name) then statusSucceeded statuses name
      else match cs_Terminated s with
           | Some exitCode => (exitCode =? 0)%Z
           | None => false
           end
  end.

(* src/pkg/controller/mysqlcluster/internal/versionupgrade/rollout_complete.go:87-98 initContainerSucceeded *)
Definition initContainerSucceeded (pod : Pod) (name : string) : bool :=
  statusSucceeded (pod_InitContainerStatuses pod) name.

(* src/pkg/controller/mysqlcluster/internal/versionupgrade/rollout_complete.go:78-85 allInitContainersSucceeded *)
Definition allInitContainersSucceeded (pod : Pod) (templateInits : list Container) : bool :=
  forallb (λ ic, initContainerSucceeded pod (c_Name ic)) templateInits.

(* src/pkg/controller/mysqlcluster/internal/versionupgrade/rollout_complete.go:43-60 podTemplateInitContainersSucceeded *)
Definition podTemplateInitContainersSucceeded (sts : StatefulSet) (pods : list Pod)
    (replicas : Z) : bool :=
  let templateInits := sts_InitContainers sts in
  if (length templateInits =? 0)%nat then (Z.of_nat (length pods) >=? replicas)%Z
  else
    let ready := length (List.filter (λ pod,
      podHasTemplateInitContainers pod templateInits &&
      allInitContainersSucceeded pod templateInits) pods) in
    (Z.of_nat ready >=? replicas)%Z.

Section VersionUpgrade.
Context `{!Blang, !Process}.

(* src/pkg/controller/mysqlcluster/internal/versionupgrade/record.go:25-37 rolloutCompleteOnVersion *)
Definition rolloutCompleteOnVersion (c : MysqlCluster) (sts : option StatefulSet)
    (version : Version) : bool :=
  match sts, Replicas (cl_Spec c) with
  | Some s, Some replicas =>
      if (replicas =? 0)%Z then false
      else if negb (EQ (SemVerFromStatefulSet sts) version) then false
      else (sts_ReadyReplicas s >=? replicas)%Z
  | _, _ => false
  end.

(* src/pkg/controller/mysqlcluster/internal/versionupgrade/rollout_complete.go:25-41 RolloutComplete *)
Definition RolloutComplete (c : MysqlCluster) (sts : option StatefulSet) (pods : list Pod) : bool :=
  match sts, Replicas (cl_Spec c) with
  | Some s, Some replicas =>
      if (replicas =? 0)%Z then false
      else if negb (rolloutCompleteOnVersion c sts (ClusterDesiredVersion c)) then false
      else podTemplateInitContainersSucceeded s pods replicas
  | _, _ => false
  end.

(** ** The version to run *)

(* src/pkg/controller/mysqlcluster/internal/versionupgrade/rollout.go:27-60 RolloutMySQLVersion *)
Definition RolloutMySQLVersion (c : MysqlCluster) (sts : option StatefulSet) : Version :=
  let desired := ClusterDesiredVersion c in
  let applied := AppliedDataPlaneVersion c in
  let validated :=
    let source := SourceVersionForUpgrade c in
    if negb (IsZero source) && negb (is_ok (ValidateUpgradePath source desired)) then source
    else desired in
  if negb (IsZero applied) && GT applied desired then applied
  else if negb (VersionChangePending desired applied (ClusterHasMySQLData c)) then desired
  else if IsZero applied && ClusterHasMySQLData c then
    let lag := LaggingStatefulSetVersion c sts in
    if negb (IsZero lag) then lag
    else match sts with
         | Some _ =>
             let v := SemVerFromStatefulSet sts in
             if negb (IsZero v) && negb (EQ v desired) then v else validated
         | None => validated
         end
  else validated.

(* src/pkg/controller/mysqlcluster/internal/versionupgrade/checker.go:65-84 EnsureChecked *)
Definition EnsureChecked (c : MysqlCluster) : result unit :=
  if negb (VersionChangePending (ClusterDesiredVersion c) (AppliedDataPlaneVersion c)
             (ClusterHasMySQLData c)) then Ok tt
  else
    let source := SourceVersionForUpgrade c in
    if IsZero source then
      if negb (ClusterHasMySQLData c) then Ok tt
      else Err (ErrHoldRollout "waiting for MySQL data-plane version: cluster must be ready on the current version before upgrading (see status.appliedMysqlVersion)")
    else match ValidateUpgradePath source (ClusterDesiredVersion c) with
         | Err e => Err (ErrUpgradeBlocked ("MySQL version upgrade blocked: " +:+ error_text e))
         | Ok _ => Ok tt
         end.

(* src/pkg/controller/mysqlcluster/internal/versionupgrade/checker.go:42-46 IsHoldRollout *)
Definition IsHoldRollout (e : error) : bool :=
  match e with ErrHoldRollout _ => true | _ => false end.

(* src/pkg/controller/mysqlcluster/internal/versionupgrade/checker.go:59-63 IsUpgradeBlocked *)
Definition IsUpgradeBlocked (e : error) : bool :=
  match e with ErrUpgradeBlocked _ => true | _ => false end.

(* src/pkg/controller/mysqlcluster/internal/versionupgrade/version.go:36-39 MarkAppliedVersion *)
Definition MarkAppliedVersion (c : MysqlCluster) (version : Version) : MysqlCluster :=
  with_Applied (VString version) c.

(** ** Observing the data plane *)

(* src/pkg/controller/mysqlcluster/internal/versionupgrade/server_version.go:147-162 operatorSQLCredentials *)
Definition operatorSQLCredentials (c : MysqlCluster) : prog vu_op (result (string * string)) :=
  r ← call (VGetSecret (cl_Namespace c) (GetNameForResource Secret (cl_Name c)));
  mret match r with
       | Err e => Err (ErrMsg ("load operator secret for version query: " +:+ error_text e))
       | Ok data =>
           let user := default "" (data !! "OPERATOR_USER") in
           let password := default "" (data !! "OPERATOR_PASSWORD") in
           if String.eqb user "" || String.eqb password "" then
             Err (ErrHoldRollout "waiting for MySQL data-plane version: operator credentials not ready")
           else Ok (user, password)
       end.

(** The loop over the ready pods. *)
Fixpoint observePods (user password headless ns : string) (observed : Version)
    (ready : list Pod) : prog vu_op (result Version) :=
  match ready with
  | [] => mret (Ok observed)
  | pod :: ready =>
      let name := om_Name (pod_Meta pod) in
      raw ← call (VQueryVersion user password (mysqldHost pod headless ns));
      match raw with
      | Err e =>
          mret (Err (ErrHoldRollout ("waiting for MySQL data-plane version: query pod " +:+
            name +:+ ": " +:+ error_text e)))
      | Ok raw =>
          match ParseServerVersion raw with
          | Err e =>
              mret (Err (ErrHoldRollout ("waiting for MySQL data-plane version: parse " +:+
                Quote raw +:+ " from pod " +:+ name +:+ ": " +:+ error_text e)))
          | Ok v =>
              if IsZero observed then observePods user password headless ns v ready
              else if negb (EQ observed v) then
                mret (Err (ErrHoldRollout ("waiting for MySQL data-plane version: pods disagree (" +:+
                  VString observed +:+ " vs " +:+ VString v +:+ ")")))
              else observePods user password headless ns observed ready
          end
      end
  end.

(* src/pkg/controller/mysqlcluster/internal/versionupgrade/server_version.go:62-103 ObserveDataPlaneVersionSQL *)
Definition ObserveDataPlaneVersionSQL (c : MysqlCluster) (pods : list Pod) :
    prog vu_op (result Version) :=
  let ready := readyMysqlPods pods in
  if (length ready =? 0)%nat then
    mret (Err (ErrHoldRollout "waiting for MySQL data-plane version: no ready mysql pods"))
  else
    '(user, password) <-? operatorSQLCredentials c;
    observePods user password (GetNameForResource HeadlessSVC (cl_Name c)) (cl_Namespace c)
      Zero ready.

(* src/pkg/controller/mysqlcluster/internal/versionupgrade/applied_backfill.go:27-33 NeedsAppliedBackfill *)
Definition NeedsAppliedBackfill (c : MysqlCluster) : bool :=
  if negb (IsZero (AppliedDataPlaneVersion c)) then false else ClusterHasMySQLData c.

(** The cluster, updated or not, and whether it was. *)
(* src/pkg/controller/mysqlcluster/internal/versionupgrade/applied_backfill.go:35-46 BackfillAppliedVersion *)
Definition BackfillAppliedVersion (c : MysqlCluster) (pods : list Pod) :
    prog vu_op (result (MysqlCluster * bool)) :=
  if negb (NeedsAppliedBackfill c) then mret (Ok (c, false))
  else
    observed <-? ObserveDataPlaneVersionSQL c pods;
    mret (Ok (MarkAppliedVersion c observed, true)).

(** [None] for the result (Zero, false). *)
(* src/pkg/controller/mysqlcluster/internal/versionupgrade/checker.go:86-104 SyncAppliedVersion *)
Definition SyncAppliedVersion (c : MysqlCluster) (sts : option StatefulSet) (pods : list Pod) :
    prog vu_op (option Version) :=
  let desired := ClusterDesiredVersion c in
  let applied := AppliedDataPlaneVersion c in
  if ProfilesMatch applied desired && negb (LT applied desired) then mret None
  else if negb (RolloutComplete c sts pods) then mret None
  else
    r ← ObserveDataPlaneVersionSQL c pods;
    mret match r with
         | Err _ => None
         | Ok observed => if negb (ProfilesMatch observed desired) then None else Some observed
         end.

(* src/pkg/controller/mysqlcluster/internal/versionupgrade/checker.go:106-122 getStatefulSet *)
Definition getStatefulSet (c : MysqlCluster) : prog vu_op (result (option StatefulSet)) :=
  r ← call (VGetStatefulSet (cl_Namespace c) (GetNameForResource StatefulSetName (cl_Name c)));
  mret match r with
       | Ok sts => Ok (Some sts)
       | Err e => if is_not_found e then Ok None else Err e
       end.

(** ** The steps of an upgrade path *)

(* src/pkg/controller/mysqlcluster/internal/versionupgrade/step.go:30-32 StepDatadirChown *)
Definition StepDatadirChown : string := "datadir-chown".

(* src/pkg/controller/mysqlcluster/internal/versionupgrade/chown.go:26-29 DatadirChownInitContainerName *)
Definition DatadirChownInitContainerName : string := "mysql-datadir-chown".

(* src/pkg/controller/mysqlcluster/internal/versionupgrade/step.go:42-61 UpgradeContext *)
Record UpgradeContext := mkUpgradeContext {
  uc_Cluster : MysqlCluster; Source : Version; Target : Version }.

Definition newUpgradeContext (c : MysqlCluster) : UpgradeContext :=
  mkUpgradeContext c (SourceVersionForUpgrade c) (ClusterDesiredVersion c).

(** A step: its strategy is the two methods of [StepStrategy]. *)
(* src/pkg/controller/mysqlcluster/internal/versionupgrade/step.go:63-76 UpgradeStep *)
Record UpgradeStep := mkUpgradeStep {
  us_ID : string;
  us_SourceVersion : UpgradeContext → Version;
  us_Applicable : UpgradeContext → bool;
  us_InitContainer : option string }.

(* src/pkg/controller/mysqlcluster/internal/versionupgrade/step_strategy.go:35-50 datadirChownStrategy *)
Definition datadirChownApplicable (uctx : UpgradeContext) : bool :=
  let from := Source uctx in
  if IsZero from || EQ from (Target uctx) then false
  else if negb (HasPersistentDataVolume (uc_Cluster uctx)) then false
  else IsPerconaImage (uc_Cluster uctx).

(* src/pkg/controller/mysqlcluster/internal/versionupgrade/steps_builtin.go:18-33 builtinUpgradeSteps *)
Definition builtinUpgradeSteps : list UpgradeStep :=
  [mkUpgradeStep StepDatadirChown Source datadirChownApplicable
     (Some DatadirChownInitContainerName)].

(* src/pkg/controller/mysqlcluster/internal/versionupgrade/registry.go:28-36 StepByID *)
Definition StepByID (id : string) : option UpgradeStep :=
  List.find (λ s, String.eqb (us_ID s) id) builtinUpgradeSteps.

(* src/pkg/controller/mysqlcluster/internal/versionupgrade/upgrade_paths.go:24-39 upgradePathSteps *)
Definition upgradePathSteps (from to : string) : list string :=
  if String.eqb from ProfilePercona80 && String.eqb to ProfilePercona84
  then [StepDatadirChown] else [].

(* src/pkg/controller/mysqlcluster/internal/versionupgrade/upgrade_paths.go:41-48 stepIDsOnPath *)
Definition stepIDsOnPath (from to : Version) : list string :=
  let fromProfile := Name (ProfileFor from) in
  let toProfile := Name (ProfileFor to) in
  if String.eqb fromProfile toProfile then [] else upgradePathSteps fromProfile toProfile.

(* src/pkg/controller/mysqlcluster/internal/versionupgrade/upgrade_paths.go:50-57 sourceVersionForStep *)
Definition sourceVersionForStep (uctx : UpgradeContext) (stepID : string) : Version :=
  match StepByID stepID with
  | None => Zero
  | Some step => us_SourceVersion step uctx
  end.

(* src/pkg/controller/mysqlcluster/internal/versionupgrade/upgrade_paths.go:59-71 stepScheduled *)
Definition stepScheduled (uctx : UpgradeContext) (stepID : string) : bool :=
  let from := sourceVersionForStep uctx stepID in
  if IsZero from then false
  else existsb (λ id, String.eqb id stepID) (stepIDsOnPath from (Target uctx)).

(* src/pkg/controller/mysqlcluster/internal/versionupgrade/upgrade_paths.go:73-80 stepApplicable *)
Definition stepApplicable (uctx : UpgradeContext) (stepID : string) : bool :=
  match StepByID stepID with
  | None => false
  | Some step => us_Applicable step uctx
  end.

(* src/pkg/controller/mysqlcluster/internal/versionupgrade/upgrade_paths.go:82-85 stepRequired *)
Definition stepRequired (uctx : UpgradeContext) (stepID : string) : bool :=
  stepScheduled uctx stepID && stepApplicable uctx stepID.

(* src/pkg/controller/mysqlcluster/internal/versionupgrade/steps_builtin.go:35-42 RolloutInitStepRequired *)
Definition RolloutInitStepRequired (uctx : UpgradeContext) (stepID : string) : bool :=
  match StepByID stepID with
  | None => false
  | Some step =>
      match us_InitContainer step with
      | None => false
      | Some _ => if negb (stepRequired uctx stepID) then false else true
      end
  end.

(* src/pkg/controller/mysqlcluster/internal/versionupgrade/init_steps.go:26-29 NeedsRolloutInit *)
Definition NeedsRolloutInit (c : MysqlCluster) (stepID : string) : bool :=
  RolloutInitStepRequired (newUpgradeContext c) stepID.

(* src/pkg/controller/mysqlcluster/internal/versionupgrade/chown.go:31-34 NeedsDatadirChownInit *)
Definition NeedsDatadirChownInit (c : MysqlCluster) : bool := NeedsRolloutInit c StepDatadirChown.

End VersionUpgrade.

(** ** Properties *)

Section Properties.
Context `{!Blang, !BlangLaws, !Process}.

Lemma VersionChangePending_spec desired applied hasData :
  VersionChangePending desired applied hasData = true ↔
    if decide (applied = Zero) then hasData = true
    else lineIndex applied ≠ lineIndex desired ∨ version_lt applied desired.
Proof.
  unfold VersionChangePending. rewrite IsZero_bool, LT_bool.
  pose proof (ProfilesMatch_spec applied desired) as Hp.
  case_bool_decide; case_decide; try done; [by destruct hasData|].
  destruct (ProfilesMatch applied desired); simpl.
  - rewrite bool_decide_eq_true. destruct Hp as [Hp _]. specialize (Hp eq_refl). intuition.
  - split; [|done]. intros _. left. intros E. by apply Hp in E.
Qed.

(** The version run while the data plane is known. *)
Lemma Rollout_applied c sts :
  AppliedDataPlaneVersion c ≠ Zero →
  RolloutMySQLVersion c sts =
    if is_ok (ValidateUpgradePath (AppliedDataPlaneVersion c) (ClusterDesiredVersion c))
    then ClusterDesiredVersion c else AppliedDataPlaneVersion c.
Proof.
  intros Ha. unfold RolloutMySQLVersion, SourceVersionForUpgrade.
  set (applied := AppliedDataPlaneVersion c) in *. set (desired := ClusterDesiredVersion c).
  rewrite !IsZero_bool, bool_decide_false by done. simpl.
  destruct (GT applied desired) eqn:Hgt.
  { apply GT_spec in Hgt. unfold ValidateUpgradePath. by rewrite LT_bool, bool_decide_true. }
  assert (Hgt' : ¬ version_lt desired applied).
  { intros Hlt. apply GT_spec in Hlt. congruence. }
  destruct (VersionChangePending desired applied (ClusterHasMySQLData c)) eqn:Hp; simpl.
  { by destruct (is_ok _). }
  assert (Heq : desired = applied).
  { destruct (version_lt_trichotomy applied desired) as [Hlt|[->|?]]; [|done|done].
    assert (VersionChangePending desired applied (ClusterHasMySQLData c) = true); [|congruence].
    apply VersionChangePending_spec. rewrite decide_False by done. by right. }
  rewrite <-Heq. by destruct (is_ok _).
Qed.

(** Data is taken to be there when the cluster has a volume claim and a ready pod. *)
Lemma ClusterHasMySQLData_spec c :
  ClusterHasMySQLData c = true ↔
  PersistentVolumeClaim (sp_VolumeSpec (cl_Spec c)) ≠ None ∧ (0 < ReadyNodes (cl_Status c))%Z.
Proof.
  unfold ClusterHasMySQLData, HasPersistentDataVolume.
  destruct (PersistentVolumeClaim _); cbn [negb]; [|naive_solver]. rewrite Z.gtb_lt. naive_solver.
Qed.

(** The version run while the data plane is unknown. *)
Lemma Rollout_unknown c sts :
  AppliedDataPlaneVersion c = Zero →
  RolloutMySQLVersion c sts =
    if ClusterHasMySQLData c && negb (IsZero (SemVerFromStatefulSet sts))
    then SemVerFromStatefulSet sts else ClusterDesiredVersion c.
Proof.
  intros Ha. unfold RolloutMySQLVersion, SourceVersionForUpgrade.
  rewrite Ha, !IsZero_bool, bool_decide_true by done. simpl.
  pose proof (VersionChangePending_spec (ClusterDesiredVersion c) Zero (ClusterHasMySQLData c)) as Hp.
  rewrite decide_True in Hp by done.
  destruct (ClusterHasMySQLData c).
  - destruct (VersionChangePending _ _ _); [|exfalso; by assert (false = true) by tauto].
    simpl. rewrite LaggingStatefulSetVersion_eq, EQ_bool.
    destruct (decide (SemVerFromStatefulSet sts = ClusterDesiredVersion c)) as [E|E].
    + rewrite E, (bool_decide_true (Zero = Zero)) by done. simpl.
      rewrite (bool_decide_true (ClusterDesiredVersion c = ClusterDesiredVersion c)) by done.
      rewrite andb_false_r. destruct sts, (negb _); done.
    + destruct (decide (SemVerFromStatefulSet sts = Zero)) as [Hz|Hz].
      * rewrite Hz, (bool_decide_true (Zero = Zero)) by done. simpl. by destruct sts.
      * by rewrite bool_decide_false by done.
  - by destruct (VersionChangePending _ _ _).
Qed.

(** C1. The version that the stateful set runs during an upgrade is always a
    legal next step: it is never a downgrade of the confirmed data-plane
    version, and never skips an LTS line from it.  While no version is confirmed,
    the stateful set stays on the version that it runs as long as the cluster has
    a volume claim and its status counts a ready pod; without one or the other
    nothing holds it, and it gets the desired version whatever it runs. *)
Theorem RolloutMySQLVersion_safe (c : MysqlCluster) (sts : option StatefulSet) :
  (AppliedDataPlaneVersion c ≠ Zero →
     ValidateUpgradePath (AppliedDataPlaneVersion c) (RolloutMySQLVersion c sts) = Ok tt) ∧
  (AppliedDataPlaneVersion c = Zero →
     let hasData := PersistentVolumeClaim (sp_VolumeSpec (cl_Spec c)) ≠ None ∧ (0 < ReadyNodes (cl_Status c))%Z in
     (hasData → SemVerFromStatefulSet sts ≠ Zero → RolloutMySQLVersion c sts = SemVerFromStatefulSet sts) ∧
     (¬ hasData → RolloutMySQLVersion c sts = ClusterDesiredVersion c)).
Proof.
  split.
  - intros Ha. rewrite Rollout_applied by done.
    set (applied := AppliedDataPlaneVersion c). set (desired := ClusterDesiredVersion c).
    destruct (ValidateUpgradePath applied desired) as [[]|e] eqn:E; simpl; [done|].
    apply ValidateUpgradePath_iff. split; [apply version_lt_irrefl|by left].
  - intros Ha. rewrite Rollout_unknown, IsZero_bool by done. pose proof (ClusterHasMySQLData_spec c) as Hd. split.
    + intros Hdata Hs. by rewrite (proj2 Hd Hdata), bool_decide_false.
    + intros Hdata. destruct (ClusterHasMySQLData c); [|done]. by destruct Hdata; apply Hd.
Qed.

(** [EnsureChecked] and [RolloutMySQLVersion] agree: when the check blocks an
    upgrade the stateful set is held at the confirmed version; when it passes,
    the stateful set runs the desired version, except for a downgrade within
    one line, which the check lets pass and the rollout silently holds. *)
Theorem EnsureChecked_Rollout (c : MysqlCluster) (sts : option StatefulSet) :
  AppliedDataPlaneVersion c ≠ Zero →
  match EnsureChecked c with
  | Ok _ =>
      if decide (version_lt (ClusterDesiredVersion c) (AppliedDataPlaneVersion c))
      then ProfilesMatch (AppliedDataPlaneVersion c) (ClusterDesiredVersion c) = true ∧
           RolloutMySQLVersion c sts = AppliedDataPlaneVersion c
      else RolloutMySQLVersion c sts = ClusterDesiredVersion c
  | Err e =>
      IsUpgradeBlocked e = true ∧ RolloutMySQLVersion c sts = AppliedDataPlaneVersion c
  end.
Proof.
  intros Ha. rewrite Rollout_applied by done. unfold EnsureChecked, SourceVersionForUpgrade.
  set (applied := AppliedDataPlaneVersion c) in *. set (desired := ClusterDesiredVersion c).
  rewrite IsZero_bool, bool_decide_false by done.
  pose proof (ValidateUpgradePath_iff applied desired) as Hv.
  pose proof (VersionChangePending_spec desired applied (ClusterHasMySQLData c)) as Hp.
  rewrite decide_False in Hp by done.
  destruct (VersionChangePending desired applied _); simpl.
  - destruct (ValidateUpgradePath applied desired) as [[]|e]; simpl; [|done].
    destruct Hv as [Hv _]. destruct (Hv eq_refl) as [Hlt _]. by rewrite decide_False.
  - assert (Hp' : lineIndex applied = lineIndex desired ∧ ¬ version_lt applied desired).
    { destruct (decide (lineIndex applied = lineIndex desired)); intuition congruence. }
    destruct Hp' as [Hl Hnlt]. case_decide as Hd.
    + split; [by apply ProfilesMatch_spec|]. destruct (ValidateUpgradePath applied desired) as [[]|e]; simpl; [|done].
      destruct Hv as [Hv _]. by destruct (Hv eq_refl).
    + destruct (version_lt_trichotomy applied desired) as [?|[E|?]]; [done| |done].
      rewrite E. by destruct (is_ok _).
Qed.

(** The init container that changes the owner of the data runs exactly on the
    upgrades from the 8.0 line to the 8.4 line of a cluster with a volume claim
    and a Percona image. *)
Theorem NeedsDatadirChownInit_spec (c : MysqlCluster) :
  NeedsDatadirChownInit c = true ↔
    Name (ProfileFor (AppliedDataPlaneVersion c)) = ProfilePercona80 ∧
    Name (ProfileFor (ClusterDesiredVersion c)) = ProfilePercona84 ∧
    PersistentVolumeClaim (sp_VolumeSpec (cl_Spec c)) ≠ None ∧
    IsPerconaImage c = true.
Proof.
  change (NeedsDatadirChownInit c) with
    (if negb (stepRequired (newUpgradeContext c) StepDatadirChown) then false else true).
  unfold stepRequired, stepScheduled, stepApplicable.
  change (sourceVersionForStep (newUpgradeContext c) StepDatadirChown)
    with (AppliedDataPlaneVersion c).
  change (StepByID StepDatadirChown) with
    (Some (mkUpgradeStep StepDatadirChown Source datadirChownApplicable
             (Some DatadirChownInitContainerName))).
  cbn [us_Applicable]. unfold datadirChownApplicable, stepIDsOnPath, upgradePathSteps,
    HasPersistentDataVolume. cbn [Source Target uc_Cluster newUpgradeContext].
  unfold SourceVersionForUpgrade.
  set (applied := AppliedDataPlaneVersion c). set (desired := ClusterDesiredVersion c).
  rewrite IsZero_bool, EQ_bool.
  destruct (String.eqb_spec (Name (ProfileFor applied)) ProfilePercona80) as [E1|E1].
  - assert (Hz : applied ≠ Zero).
    { intros E. rewrite E, ProfileFor_eq in E1. vm_compute in E1. done. }
    rewrite bool_decide_false by done. rewrite E1.
    destruct (String.eqb_spec (Name (ProfileFor desired)) ProfilePercona84) as [E2|E2].
    + rewrite E2. simpl. assert (Hne : applied ≠ desired) by (intros Heq; by rewrite Heq, E2 in E1).
      rewrite bool_decide_false by done. simpl.
      destruct (PersistentVolumeClaim _), (IsPerconaImage c); simpl; naive_solver.
    + destruct (String.eqb _ _); simpl; naive_solver.
  - destruct (bool_decide (applied = Zero)); simpl; [naive_solver|].
    destruct (String.eqb (Name (ProfileFor applied)) (Name (ProfileFor desired))); simpl;
      naive_solver.
Qed.

(** *** Unanimity *)

(** The calls that ask each pod of a list for its version, with the answers. *)
Definition queries (user password headless ns : string)
    (answers : list (Pod * string)) : list (event vu_op) :=
  List.map (λ pr, Ev (VQueryVersion user password (mysqldHost pr.1 headless ns)) (Ok pr.2)) answers.

Lemma observePods_ok user password headless ns o ready w h v :
  (observePods user password headless ns o ready w h).1 = Ok v →
  ∃ raws, (observePods user password headless ns o ready w h).2 =
            h ++ queries user password headless ns (zip ready raws) ∧
    length raws = length ready ∧ (o = Zero ∨ v = o) ∧
    Forall (λ raw, ParseServerVersion raw = Ok v ∨ ParseServerVersion raw = Ok Zero) raws.
Proof.
  revert o h. induction ready as [|pod ready IH]; intros o h.
  { intros [= <-]. exists []. split_and!; try done; [by rewrite app_nil_r|by right]. }
  cbn [observePods]. unfold mbind, prog_bind, call. cbn [fst snd].
  set (op := VQueryVersion user password (mysqldHost pod headless ns)).
  destruct (w h op) as [raw|e] eqn:Eraw; [|done].
  destruct (ParseServerVersion raw) as [x|e] eqn:Ep; [|done].
  rewrite IsZero_bool, EQ_bool.
  assert (Hstep : ∀ o', (o' = x ∨ (x = Zero ∧ o' = o)) → (o = Zero ∨ o' = o) →
    (observePods user password headless ns o' ready w (h ++ [Ev op (Ok raw)])).1 = Ok v →
    ∃ raws, (observePods user password headless ns o' ready w (h ++ [Ev op (Ok raw)])).2 =
              h ++ queries user password headless ns (zip (pod :: ready) raws) ∧
      length raws = length (pod :: ready) ∧ (o = Zero ∨ v = o) ∧
      Forall (λ raw, ParseServerVersion raw = Ok v ∨ ParseServerVersion raw = Ok Zero) raws).
  { intros o' Hx Ho Hv. destruct (IH o' _ Hv) as (raws & Hh & Hlen & Hor & Hall).
    exists (raw :: raws). rewrite Hh. unfold queries. simpl.
    rewrite <-app_assoc. split_and!; [done|by rewrite Hlen| |constructor; [|done]].
    - destruct Ho as [?|Ho]; [by left|]. destruct Hor as [Hor|Hor]; [left|right]; congruence.
    - rewrite Ep. destruct Hx as [->|[-> _]]; [|by right].
      destruct Hor as [->| ->]; [by right|by left]. }
  case_bool_decide as Hz; [by apply Hstep; [left|left]|].
  case_bool_decide as He; simpl; [|done]. apply Hstep; [left; congruence|by right].
Qed.

Lemma operatorSQLCredentials_ok c w h user password :
  (operatorSQLCredentials c w h).1 = Ok (user, password) →
  ∃ data, (operatorSQLCredentials c w h).2 =
      h ++ [Ev (VGetSecret (cl_Namespace c) (cl_Name c +:+ "-mysql-operated")) (Ok data)] ∧
    data !! "OPERATOR_USER" = Some user ∧ data !! "OPERATOR_PASSWORD" = Some password.
Proof.
  unfold operatorSQLCredentials, mbind, prog_bind, call. cbn [fst snd].
  set (op := VGetSecret _ _). change (VGetSecret _ (cl_Name c +:+ _)) with op.
  destruct (w h op) as [data|e]; [|done]. simpl.
  destruct (data !! "OPERATOR_USER") as [u|] eqn:Eu; [|done]. simpl.
  destruct (String.eqb_spec u "") as [->|]; [done|].
  destruct (data !! "OPERATOR_PASSWORD") as [p|] eqn:Ep; [|done]. simpl.
  destruct (String.eqb_spec p "") as [->|]; [done|].
  intros [= <- <-]. by exists data.
Qed.

(** A server was asked, and answered with the version. *)
Definition reported (v : Version) (h : list (event vu_op)) : Prop :=
  ∃ user password host raw, Ev (VQueryVersion user password host) (Ok raw) ∈ h ∧ ParseServerVersion raw = Ok v.

Lemma reported_stable v : stable (reported v).
Proof. intros h e (u & p & host & raw & Hin & Hv). exists u, p, host, raw. split; [by apply stable_elem|done]. Qed.

Lemma query_keeps P user password host :
  keeps (λ _ _, True) P (call (VQueryVersion user password host) : prog vu_op (result string))
    (λ (r : result string) h, Ev (VQueryVersion user password host) r ∈ h).
Proof.
  apply (keeps_call _ _ (VQueryVersion user password host)); [done|].
  intros r h _. apply elem_of_app. right. by left.
Qed.

Lemma observePods_reports user password headless ns o ready P :
  (∀ h, P h → ready = [] → reported o h) →
  keeps (λ _ _, True) P (observePods user password headless ns o ready) (λ r h, ∀ v, r = Ok v → reported v h).
Proof.
  revert o P. induction ready as [|pod ready IH]; intros o P HP; cbn [observePods].
  { apply keeps_ret. intros h Hh v [= <-]. by apply HP. }
  eapply keeps_bind; [apply query_keeps|intros ?; apply stable_elem|].
  intros [raw|e]; [|by apply keeps_ret].
  destruct (ParseServerVersion raw) as [v|e] eqn:Ep; [|by apply keeps_ret].
  assert (∀ h, P h ∧ Ev (VQueryVersion user password (mysqldHost pod headless ns)) (Ok raw) ∈ h →
    ready = [] → reported v h) as Hv by (intros h [_ Hin] _; by eexists _, _, _, raw).
  destruct (IsZero o); [by apply IH|]. rewrite EQ_bool. case_bool_decide as Ho; [|by apply keeps_ret].
  apply IH. by rewrite Ho.
Qed.

Lemma Observe_reports c pods :
  keeps (λ _ _, True) (λ _, True) (ObserveDataPlaneVersionSQL c pods) (λ r h, ∀ v, r = Ok v → reported v h).
Proof.
  unfold ObserveDataPlaneVersionSQL. destruct (length (readyMysqlPods pods) =? 0)%nat eqn:El; [by apply keeps_ret|].
  apply (keeps_try _ _ (λ _ _, True)); [|intros ?; exact (stable_const True)| |done].
  - unfold operatorSQLCredentials. apply (keeps_bind _ _ (λ _ _, True)); [by apply (keeps_call _ _ (VGetSecret _ _))|
      intros ?; exact (stable_const True)|]. intros ?. by apply keeps_ret.
  - intros [user password]. eapply keeps_weaken; [apply (observePods_reports _ _ _ _ _ _ (λ _, True))|done|done].
    intros h _ E. by rewrite E in El.
Qed.

(** Unanimity: when [ObserveDataPlaneVersionSQL] reports a version, there is a
    ready pod, the credentials were read from the operator's secret, every
    ready pod was asked, in order and on its own host, and every answer parses
    to the reported version (or to 0.0.0, which the loop takes for "nothing
    observed yet"). *)
Theorem Observe_unanimous (c : MysqlCluster) (pods : list Pod) (w : world vu_op) (v : Version) :
  run (ObserveDataPlaneVersionSQL c pods) w = Ok v →
  ∃ data user password raws,
    let ready := readyMysqlPods pods in
    ready ≠ [] ∧ length raws = length ready ∧
    trace (ObserveDataPlaneVersionSQL c pods) w =
      Ev (VGetSecret (cl_Namespace c) (cl_Name c +:+ "-mysql-operated")) (Ok data) ::
      queries user password "mysql" (cl_Namespace c) (zip ready raws) ∧
    data !! "OPERATOR_USER" = Some user ∧ data !! "OPERATOR_PASSWORD" = Some password ∧
    Forall (λ raw, ParseServerVersion raw = Ok v ∨ ParseServerVersion raw = Ok Zero) raws.
Proof.
  unfold run, trace, ObserveDataPlaneVersionSQL.
  destruct (readyMysqlPods pods) as [|pod ready]; [done|]. cbn [length Nat.eqb].
  unfold try, mbind, prog_bind, mret, prog_ret.
  pose proof (operatorSQLCredentials_ok c w []) as Hc.
  destruct (operatorSQLCredentials c w []) as [[[user password]|e] h]; cbn [fst snd] in *; [|done].
  destruct (Hc user password eq_refl) as (data & -> & Hu & Hp).
  intros (raws & -> & Hlen & _ & Hall)%observePods_ok.
  by exists data, user, password, raws.
Qed.

(** The confirmed version advances only after the whole rollout:
    [SyncAppliedVersion] reports a version only when the stateful set runs the
    desired version with all replicas ready and all init containers completed,
    and all ready pods agree on a version of the desired line; and when the
    confirmed version is up to date it makes no call at all. *)
Theorem SyncAppliedVersion_sound (c : MysqlCluster) (sts : option StatefulSet)
    (pods : list Pod) (w : world vu_op) :
  (∀ v, run (SyncAppliedVersion c sts pods) w = Some v →
     RolloutComplete c sts pods = true ∧
     SemVerFromStatefulSet sts = ClusterDesiredVersion c ∧
     ProfilesMatch v (ClusterDesiredVersion c) = true ∧
     run (ObserveDataPlaneVersionSQL c pods) w = Ok v ∧
     (lineIndex (AppliedDataPlaneVersion c) ≠ lineIndex (ClusterDesiredVersion c) ∨
      version_lt (AppliedDataPlaneVersion c) (ClusterDesiredVersion c))) ∧
  (ProfilesMatch (AppliedDataPlaneVersion c) (ClusterDesiredVersion c) = true →
   ¬ version_lt (AppliedDataPlaneVersion c) (ClusterDesiredVersion c) →
   trace (SyncAppliedVersion c sts pods) w = []).
Proof.
  unfold run, trace, SyncAppliedVersion. rewrite LT_bool.
  pose proof (ProfilesMatch_spec (AppliedDataPlaneVersion c) (ClusterDesiredVersion c)) as Hp.
  split.
  - intros v.
    destruct (ProfilesMatch (AppliedDataPlaneVersion c) (ClusterDesiredVersion c) && _) eqn:E;
      [done|].
    destruct (RolloutComplete c sts pods) eqn:Erc; [|done]. simpl.
    unfold mbind, prog_bind, mret, prog_ret.
    destruct (ObserveDataPlaneVersionSQL c pods w []) as [[observed|e] h]; simpl; [|done].
    destruct (ProfilesMatch observed (ClusterDesiredVersion c)) eqn:Eo; [|done].
    intros [= <-]. split_and!; try done.
    + revert Erc. unfold RolloutComplete, rolloutCompleteOnVersion.
      destruct sts as [s|], (Replicas (cl_Spec c)) as [n|]; try done.
      destruct (n =? 0)%Z; [done|]. rewrite EQ_bool.
      destruct (bool_decide (SemVerFromStatefulSet (Some s) = _)) eqn:Hb; simpl; [|done].
      intros _. by apply bool_decide_eq_true in Hb.
    + apply andb_false_iff in E as [E|E].
      * left. intros Heq. apply Hp in Heq. congruence.
      * right. apply negb_false_iff in E. by apply bool_decide_eq_true in E.
  - intros Hm Hlt. rewrite Hm, bool_decide_false by done. done.
Qed.

End Properties.

(** ** Examples *)

Section Witnesses.
#[local] Existing Instances Ref.blang Ref.blang_laws sampleProcess.

Definition sampleSecret : gmap string string :=
  list_to_map [("OPERATOR_USER", "op"); ("OPERATOR_PASSWORD", "pw")].

(** A world in which every server prints [v]. *)
Definition sampleWorld (v : string) : world vu_op := λ _ o,
  match o with
  | VGetStatefulSet _ _ => Ok (Sample.statefulSet "8.0.20" 3)
  | VGetSecret _ _ => Ok sampleSecret
  | VQueryVersion _ _ _ => Ok v
  end.

Definition samplePods : list Pod :=
  (λ n, Sample.pod n "prod" [Sample.mysqlContainer "8.0.20"]) <$>
    ["demo-mysql-0"; "demo-mysql-1"; "demo-mysql-2"].

Lemma RolloutMySQLVersion_safe_witness :
  RolloutMySQLVersion (Sample.cluster "8.4" "5.7.35") None = mkVersion 5 7 35 ∧
  ValidateUpgradePath (mkVersion 5 7 35)
    (RolloutMySQLVersion (Sample.cluster "8.4" "5.7.35") None) = Ok tt.
Proof.
  split; [vm_compute; reflexivity|].
  assert (AppliedDataPlaneVersion (Sample.cluster "8.4" "5.7.35") = mkVersion 5 7 35) as <-
    by (vm_compute; reflexivity).
  apply (RolloutMySQLVersion_safe (Sample.cluster "8.4" "5.7.35") None).
  vm_compute; discriminate.
Defined.

Lemma EnsureChecked_Rollout_witness :
  is_ok (EnsureChecked (Sample.cluster "8.4" "5.7.35")) = false ∧
  match EnsureChecked (Sample.cluster "8.4" "5.7.35") with
  | Ok _ => True
  | Err e => IsUpgradeBlocked e = true
  end.
Proof.
  split; [vm_compute; reflexivity|].
  assert (Ha : AppliedDataPlaneVersion (Sample.cluster "8.4" "5.7.35") ≠ Zero)
    by (vm_compute; discriminate).
  pose proof (EnsureChecked_Rollout (Sample.cluster "8.4" "5.7.35") None Ha) as Hw.
  destruct (EnsureChecked _) as [|e]; [done|]. exact (proj1 Hw).
Defined.

Lemma NeedsDatadirChownInit_spec_witness :
  NeedsDatadirChownInit (Sample.cluster "8.4" "8.0.20") = true.
Proof.
  apply (NeedsDatadirChownInit_spec (Sample.cluster "8.4" "8.0.20")).
  split_and!; vm_compute; done.
Defined.

Lemma Observe_unanimous_witness :
  run (ObserveDataPlaneVersionSQL (Sample.cluster "8.4" "8.0.20") samplePods)
    (sampleWorld "8.0.20-11") = Ok (mkVersion 8 0 20) ∧
  ∃ raws, Forall (λ raw, ParseServerVersion raw = Ok (mkVersion 8 0 20) ∨
                         ParseServerVersion raw = Ok Zero) raws.
Proof.
  assert (Hr : run (ObserveDataPlaneVersionSQL (Sample.cluster "8.4" "8.0.20") samplePods)
    (sampleWorld "8.0.20-11") = Ok (mkVersion 8 0 20)) by (vm_compute; reflexivity).
  split; [exact Hr|].
  destruct (Observe_unanimous _ _ _ _ Hr) as (_ & _ & _ & raws & _ & _ & _ & _ & _ & Hf).
  by exists raws.
Defined.

Lemma SyncAppliedVersion_sound_witness :
  RolloutComplete (Sample.cluster "8.0" "5.7.35") (Some (Sample.statefulSet "8.0.20" 3)) samplePods
    = true.
Proof.
  refine (proj1 (proj1 (SyncAppliedVersion_sound (Sample.cluster "8.0" "5.7.35")
    (Some (Sample.statefulSet "8.0.20" 3)) samplePods (sampleWorld "8.0.20-11"))
    (mkVersion 8 0 20) _)).
  vm_compute; reflexivity.
Defined.

End Witnesses.
