(* ===== verification/StatefulSet.v ===== *)
(** * The stateful set

    [pkg/controller/mysqlcluster/internal/syncer/statefullset.go] with
    [container_security_context.go] and [podspec_defaults.go]: the stateful set
    that is built from the cluster, its pods (init containers, containers,
    environment, volumes, security) and its claim templates.

    [SyncFn] changes the stateful set that the API server has, and also the
    cluster: the number of ready nodes, and what the pod template shares with the
    specification (the map of annotations, the security contexts and ports of the
    containers of the user). *)

From S2P Require Import Prelude GoStrings Semver ClusterTypes Versioning ClusterStatus ClusterModel.
From S2P Require Import VersionUpgrade.
From coqutil Require Import Datatypes.RecordSetters.
Import DoubleBraceUpdate.
Open Scope stdpp_scope.

(** ** Names and paths *)

(* src/pkg/util/constants/constants.go:24-44 SidecarServerPort *)
Definition SidecarServerPort : Z := 8080.
Definition SidecarServerProbePath : string := "/health".
Definition ExporterPort : Z := 9125.
Definition ExporterPath : string := "/metrics".
Definition MetricsExporterMySQLUser : string := "sys_exporter".
Definition HeartBeatMySQLUser : string := "sys_heartbeat".

(* src/pkg/util/constants/constants.go:70-108 ConfVolumeMountPath *)
Definition ConfVolumeMountPath : string := "/etc/mysql".
Definition DataVolumeMountPath : string := "/var/lib/mysql".
Definition TmpfsVolumeMountPath : string := "/tmp".
Definition ConfMapVolumeMountPath : string := "/mnt/conf".
Definition ConfDPath : string := "/etc/mysql/conf.d".
Definition ConfClientPath : string := "/etc/mysql/client.conf".
Definition ConfHeartBeatPath : string := "/etc/mysql/heartbeat.conf".
Definition ConfPtKillPath : string := "/etc/mysql/pt-kill.conf".
Definition ShPreStop : string := "pre-shutdown-ha.sh".

(* src/pkg/controller/mysqlcluster/internal/syncer/settings.go:30-76 MysqlPortName *)
Definition MysqlPortName : string := "mysql".
Definition SidecarServerPortName : string := "sidecar-http".
Definition ExporterPortName : string := "prometheus".
Definition confClientPath : string := ConfClientPath.
Definition shPreStopFile : string := ShPreStop.
Definition TargetPort : Z := MysqlPort.
Definition ExporterTargetPort : Z := ExporterPort.

(* src/pkg/controller/mysqlcluster/internal/syncer/statefullset.go:46-52 confVolumeName *)
Definition confVolumeName : string := "conf".
Definition confMapVolumeName : string := "config-map".
Definition dataVolumeName : string := "data".
Definition tmpfsVolumeName : string := "tmp".

(* src/pkg/controller/mysqlcluster/internal/syncer/statefullset.go:54-67 containerDatadirChownName *)
Definition containerDatadirChownName : string := DatadirChownInitContainerName.
Definition containerCloneAndInitName : string := "init".
Definition containerMySQLInitName : string := "mysql-init-only".
Definition containerSidecarName : string := "sidecar".
Definition containerMysqlName : string := "mysql".
Definition containerExporterName : string := "metrics-exporter".
Definition containerHeartBeatName : string := "pt-heartbeat".
Definition containerKillerName : string := "pt-kill".

(* src/pkg/controller/mysqlcluster/internal/syncer/statefullset.go:891-893 isCloneAndInit *)
Definition isCloneAndInit (name : string) : bool := String.eqb name containerCloneAndInitName.

(* src/pkg/controller/mysqlcluster/internal/syncer/statefullset.go:895-897 isSidecar *)
Definition isSidecar (name : string) : bool := String.eqb name containerSidecarName.

(** ** Parts that do not depend on the version *)

(* src/pkg/controller/mysqlcluster/internal/syncer/statefullset.go:871-880 ensureProbe *)
Definition ensureProbe (delay timeout period : Z) (handler : Handler) : Probe :=
  mkProbe delay timeout period handler 1 3.

Definition withProtocol (p : ContainerPort) : ContainerPort :=
  if String.eqb (cp_Protocol p) "" then mkContainerPort (cp_Name p) (cp_ContainerPort p) "TCP" else p.

(* src/pkg/controller/mysqlcluster/internal/syncer/statefullset.go:882-889 ensurePorts *)
Definition ensurePorts (ports : list ContainerPort) : list ContainerPort := withProtocol <$> ports.

(* src/pkg/controller/mysqlcluster/internal/syncer/statefullset.go:822-827 ensureVolume *)
Definition ensureVolume (name : string) (source : VolumeSource) : Volume := mkVolume name source.

(* src/pkg/controller/mysqlcluster/internal/syncer/statefullset.go:209-223 envVarFromSecret *)
Definition envVarFromSecret (sctName name key : string) (opt : bool) : EnvVar :=
  mkEnvVarFrom name "" (Some (SecretKeyRef sctName key opt)).

(* src/pkg/controller/mysqlcluster/internal/syncer/statefullset.go:829-869 getCliOptionsFromQueryLimits *)
Definition getCliOptionsFromQueryLimits (ql : QueryLimits) : list string :=
  ["--print"; "--wait-after-kill=1"; "--busy-time"; itoa (MaxQueryTime ql)] ++
  (if String.eqb (KillMode ql) "connection" then ["--kill"] else ["--kill-query"]) ++
  match MaxIdleTime ql with Some t => ["--idle-time"; itoa t] | None => [] end ++
  (if negb (String.length (Kill ql) =? 0)%nat then ["--victims"; Kill ql] else []) ++
  (if (0 <? length (IgnoreDb ql))%nat then ["--ignore-db"; Join (IgnoreDb ql) "|"] else []) ++
  (if (0 <? length (IgnoreCommand ql))%nat
   then ["--ignore-command"; Join (IgnoreCommand ql) "|"] else []) ++
  (if (0 <? length (IgnoreUser ql))%nat then ["--ignore-user"; Join (IgnoreUser ql) "|"] else []).

(* src/pkg/controller/mysqlcluster/internal/syncer/podspec_defaults.go:47-74 normalizeContainer *)
Definition normalizeContainer (c : Container) : Container :=
  mkContainerFull (c_Name c) (c_Image c) (c_ImagePullPolicy c) (c_Command c)
    (Some (default [] (c_Args c))) (Some (default [] (c_EnvFrom c))) (Some (default [] (c_EnvVars c)))
    (Some (default [] (c_VolumeMounts c))) (Some (withProtocol <$> default [] (c_Ports c)))
    (c_Resources c) (c_LivenessProbe c) (c_ReadinessProbe c) (c_Lifecycle c) (c_SecurityContext c)
    (if String.eqb (c_TerminationMessagePath c) "" then "/dev/termination-log"
     else c_TerminationMessagePath c)
    (if String.eqb (c_TerminationMessagePolicy c) "" then "File" else c_TerminationMessagePolicy c).

(** The ports of a container, with their protocols. *)
Definition portsTCP (c : Container) : Container :=
  c {{ c_Ports := option_map (List.map withProtocol) (c_Ports c) }}.

(** All containers of a pod. *)
Definition on_containers (f : Container → Container) (spec : CorePodSpec) : CorePodSpec :=
  spec {{ cps_InitContainers ::= List.map f }} {{ cps_Containers ::= List.map f }}.

(* src/pkg/controller/mysqlcluster/internal/syncer/podspec_defaults.go:38-45 normalizePodSpec *)
Definition normalizePodSpec : CorePodSpec → CorePodSpec := on_containers normalizeContainer.

(** [scheme.Default] on a pod belongs to [k8s.io/apimachinery]: it fills in fields
    that are not set. *)
Class PodDefaults := scheme_default_pod : CorePodSpec → CorePodSpec.

(** What a container is and what it is told: its name, its image, its variables
    and its mounts. *)
Record Told := mkTold {
  t_Name : string; t_Image : string; t_Env : list (string * string); t_Mounts : list VolumeMount }.

Definition told (c : Container) : Told :=
  mkTold (c_Name c) (c_Image c) ((λ e, (ev_Name e, ev_Value e)) <$> c_Env c) (default [] (c_VolumeMounts c)).

Class PodDefaultsLaws `{!PodDefaults} : Prop := {
  default_pod_containers p :
    told <$> cps_Containers (scheme_default_pod p) = told <$> cps_Containers p;
  default_pod_inits p :
    told <$> cps_InitContainers (scheme_default_pod p) = told <$> cps_InitContainers p;
  default_pod_volumes p : vol_Name <$> cps_Volumes (scheme_default_pod p) = vol_Name <$> cps_Volumes p;
  (** a port without a protocol is a TCP port *)
  default_pod_ports p :
    normalizePodSpec (scheme_default_pod (on_containers portsTCP p)) =
      normalizePodSpec (scheme_default_pod p) }.

(* src/pkg/controller/mysqlcluster/internal/syncer/podspec_defaults.go:26-36 defaultPodSpec *)
Definition defaultPodSpec `{!PodDefaults} (spec : CorePodSpec) : CorePodSpec :=
  normalizePodSpec (scheme_default_pod spec).

(** ** The pod of a cluster

    [rollout] is the version that [RolloutMySQLVersion] gave for this run. *)

(** A container that is only given a name and an image. *)
Definition bareContainer (name : string) : Container :=
  mkContainerFull name "" "" [] None None None None None no_resources None None None None "" "".

Section Pod.
Context `{!Blang, !Process} (opt : Options) (c : MysqlCluster) (rollout : Version).

Let spec : MysqlClusterSpec := cl_Spec c.
Let pod : PodSpec := sp_PodSpec spec.

(* src/pkg/controller/mysqlcluster/internal/syncer/statefullset.go:174-180 serverImageForVersion *)
Definition serverImageForVersion (v : Version) : string :=
  match ServerImage opt v (Some spec) with
  | Err _ => GetMysqlImage c
  | Ok img => img
  end.

(* src/pkg/controller/mysqlcluster/internal/syncer/statefullset.go:182-184 sidecarImageForVersion *)
Definition sidecarImageForVersion (v : Version) : string := SidecarImageFor v (SidecarImage spec).

Definition securityHints (v : Version) : PodSecurityHints :=
  ProfilePodSecurityHints (ProfileFor v) (IsPerconaImage c).

(* src/pkg/controller/mysqlcluster/internal/syncer/statefullset.go:187-195 ensurePodSecurityContext *)
Definition ensurePodSecurityContext : PodSecurityContext :=
  let h := securityHints rollout in mkPodSecurityContext (Some (FSGroup h)) (RunAsUser h).

(* src/pkg/controller/mysqlcluster/internal/syncer/statefullset.go:226-382 getEnvFor *)
Definition getEnvFor (name : string) : list EnvVar :=
  let field n path := mkEnvVarFrom n "" (Some (FieldRef "v1" path)) in
  let nonempty (l : list string) := (0 <? length l)%nat in
  let sctName := SecretName spec in
  let sctOpName := GetNameForResource Secret (cl_Name c) in
  [field "MY_NAMESPACE" "metadata.namespace";
   field "MY_POD_NAME" "metadata.name";
   field "MY_POD_IP" "status.podIP";
   mkEnvVar "MY_SERVICE_NAME" (GetNameForResource HeadlessSVC (cl_Name c));
   mkEnvVar "MY_CLUSTER_NAME" (cl_Name c);
   mkEnvVar "MY_FQDN" "$(MY_POD_NAME).$(MY_SERVICE_NAME).$(MY_NAMESPACE)";
   mkEnvVar MySQLVersionEnv (VString rollout)] ++
  (if negb (String.length (InitBucketURL spec) =? 0)%nat && isCloneAndInit name
   then [mkEnvVar "INIT_BUCKET_URI" (InitBucketURL spec)] else []) ++
  match ServerIDOffset spec with
  | Some offset => [mkEnvVar "MY_SERVER_ID_OFFSET" (itoa offset)]
  | None => []
  end ++
  (if nonempty (BackupCompressCommand spec) && nonempty (BackupDecompressCommand spec) && isCloneAndInit name
   then [mkEnvVar "BACKUP_DECOMPRESS_COMMAND" (Join (BackupDecompressCommand spec) " ")] else []) ++
  (if nonempty (RcloneExtraArgs spec) && (isCloneAndInit name || isSidecar name)
   then [mkEnvVar "RCLONE_EXTRA_ARGS" (Join (RcloneExtraArgs spec) " ")] else []) ++
  (if nonempty (XbstreamExtraArgs spec) && (isCloneAndInit name || isSidecar name)
   then [mkEnvVar "XBSTREAM_EXTRA_ARGS" (Join (XbstreamExtraArgs spec) " ")] else []) ++
  (if nonempty (XtrabackupExtraArgs spec) && isSidecar name
   then [mkEnvVar "XTRABACKUP_EXTRA_ARGS" (Join (XtrabackupExtraArgs spec) " ")] else []) ++
  (if nonempty (XtrabackupPrepareExtraArgs spec) && isCloneAndInit name
   then [mkEnvVar "XTRABACKUP_PREPARE_EXTRA_ARGS" (Join (XtrabackupPrepareExtraArgs spec) " ")] else []) ++
  (if negb (String.length (XtrabackupTargetDir spec) =? 0)%nat && isSidecar name
   then [mkEnvVar "XTRABACKUP_TARGET_DIR" (XtrabackupTargetDir spec)] else []) ++
  (if nonempty (InitFileExtraSQL spec) && isCloneAndInit name
   then [mkEnvVar "INITFILE_EXTRA_SQL" (Join (InitFileExtraSQL spec) ";")] else []) ++
  (if String.eqb name containerExporterName then
     [envVarFromSecret sctOpName "MYSQLD_EXPORTER_PASSWORD" "METRICS_EXPORTER_PASSWORD" false]
   else if String.eqb name containerMySQLInitName then [mkEnvVar "MYSQL_INIT_ONLY" "1"]
   else if String.eqb name containerCloneAndInitName then
     [envVarFromSecret sctOpName "BACKUP_USER" "BACKUP_USER" true;
      envVarFromSecret sctOpName "BACKUP_PASSWORD" "BACKUP_PASSWORD" true]
   else if String.eqb name containerMysqlName then
     [mkEnvVar "ORCH_CLUSTER_ALIAS" (GetClusterAlias c);
      mkEnvVar "ORCH_HTTP_API" (OrchestratorURI opt)]
   else []) ++
  (if String.eqb name containerMySQLInitName ||
      negb (WantsPerconaInitContainerFor c rollout) && String.eqb name containerMysqlName then
     [envVarFromSecret sctName "MYSQL_ROOT_PASSWORD" "ROOT_PASSWORD" false;
      envVarFromSecret sctName "MYSQL_USER" "USER" true;
      envVarFromSecret sctName "MYSQL_PASSWORD" "PASSWORD" true;
      envVarFromSecret sctName "MYSQL_DATABASE" "DATABASE" true]
   else []).

(* src/pkg/controller/mysqlcluster/internal/syncer/statefullset.go:709-730 getEnvSourcesFor *)
Definition getEnvSourcesFor (name : string) : list EnvFromSource :=
  (if isCloneAndInit name && negb (String.length (InitBucketSecretName spec) =? 0)%nat
   then [EnvFromSecret (InitBucketSecretName spec)] else []) ++
  (if isCloneAndInit name || isSidecar name
   then [EnvFromSecret (GetNameForResource Secret (cl_Name c))] else []).

(** [TmpfsSize] mounts the volume at the path of the data volume. *)
(* src/pkg/controller/mysqlcluster/internal/syncer/statefullset.go:732-786 getVolumeMountsFor *)
Definition getVolumeMountsFor (name : string) : option (list VolumeMount) :=
  let tmpfs readOnly :=
    match TmpfsSize spec with
    | Some _ => [mkMount tmpfsVolumeName DataVolumeMountPath readOnly]
    | None => []
    end in
  if String.eqb name containerDatadirChownName then
    Some [mkMount dataVolumeName DataVolumeMountPath false]
  else if String.eqb name containerCloneAndInitName then
    Some [mkMount confVolumeName ConfVolumeMountPath false;
          mkMount confMapVolumeName ConfMapVolumeMountPath false;
          mkMount dataVolumeName DataVolumeMountPath false]
  else if String.eqb name containerMysqlName || String.eqb name containerSidecarName ||
          String.eqb name containerMySQLInitName then
    Some ([mkMount confVolumeName ConfVolumeMountPath false;
           mkMount dataVolumeName DataVolumeMountPath false] ++ tmpfs false ++ ps_VolumeMounts pod)
  else if String.eqb name containerHeartBeatName || String.eqb name containerKillerName then
    Some ([mkMount confVolumeName ConfVolumeMountPath false;
           mkMount dataVolumeName DataVolumeMountPath true] ++ tmpfs true)
  else None.

(* src/pkg/controller/mysqlcluster/internal/syncer/statefullset.go:796-820 ensureResources *)
Definition ensureResources (name : string) : ResourceRequirements :=
  if String.eqb name containerExporterName then MetricsExporterResources pod
  else if String.eqb name containerDatadirChownName || String.eqb name containerMySQLInitName ||
          String.eqb name containerCloneAndInitName || String.eqb name containerMysqlName
  then ps_Resources pod
  else if String.eqb name containerHeartBeatName then PtHeartbeatResources pod
  else if String.eqb name containerSidecarName then MySQLOperatorSidecarResources pod
  else mkResources (list_to_map [("cpu", "10m"); ("memory", "32Mi")]) (list_to_map [("cpu", "100m")]).

(* src/pkg/controller/mysqlcluster/internal/syncer/statefullset.go:197-207 ensureContainer *)
Definition ensureContainer (name image : string) (args : list string) : Container :=
  (bareContainer name) {{ c_Image := image }} {{ c_ImagePullPolicy := ImagePullPolicy pod }}
    {{ c_Args := Some args }} {{ c_EnvFrom := Some (getEnvSourcesFor name) }}
    {{ c_EnvVars := Some (getEnvFor name) }} {{ c_VolumeMounts := getVolumeMountsFor name }}.

Definition newline : string := String (ascii_of_nat 10) "".

(* src/pkg/controller/mysqlcluster/internal/syncer/statefullset.go:419-443 ensureDatadirChownInitContainer *)
Definition ensureDatadirChownInitContainer : Container :=
  let chownVersion := ClusterDesiredVersion c in
  let h := securityHints chownVersion in
  match MysqlRunAsUser h, MysqlRunAsGroup h with
  | Some u, Some g =>
      (bareContainer containerDatadirChownName) {{ c_Image := serverImageForVersion chownVersion }}
        {{ c_ImagePullPolicy := ImagePullPolicy pod }} {{ c_Command := ["/bin/sh"; "-ec"] }}
        {{ c_Args := Some ["if [ ! -f " +:+ DataVolumeMountPath +:+ "/ibdata1 ] && [ ! -d " +:+
             DataVolumeMountPath +:+ "/mysql ]; then exit 0; fi" +:+ newline +:+
             "chown -R " +:+ itoa u +:+ ":" +:+ itoa g +:+ " " +:+ DataVolumeMountPath] }}
        {{ c_SecurityContext := Some (mkSecurityContext (Some 0%Z) None None) }}
        {{ c_VolumeMounts := Some [mkMount dataVolumeName DataVolumeMountPath false] }}
  | _, _ => bareContainer containerDatadirChownName
  end.

(** A container with its resources. *)
Definition withResources (ctr : Container) : Container :=
  ctr {{ c_Resources := ensureResources (c_Name ctr) }}.

(* src/pkg/controller/mysqlcluster/internal/syncer/statefullset.go:384-417 ensureInitContainersSpec *)
Definition ensureInitContainersSpec : list Container :=
  (if NeedsDatadirChownInit c then
     let chown := ensureDatadirChownInitContainer in
     if (0 <? length (c_Command chown))%nat then [withResources chown] else []
   else []) ++
  ps_InitContainers pod ++
  [withResources (ensureContainer containerCloneAndInitName (sidecarImageForVersion rollout) ["clone-and-init"])] ++
  (if IsPerconaImage c && WantsPerconaInitContainer (ProfileFor rollout) rollout then
     [withResources (ensureContainer containerMySQLInitName (serverImageForVersion rollout) [])]
   else []).

(* src/pkg/controller/mysqlcluster/internal/syncer/statefullset.go:445-605 ensureContainersSpec *)
Definition ensureContainersSpec : list Container :=
  let port name n := mkContainerPort name n "" in
  let mysql := withResources (ensureContainer containerMysqlName (serverImageForVersion rollout) [])
    {{ c_Ports := Some (ensurePorts [port MysqlPortName MysqlPort]) }}
    {{ c_LivenessProbe := Some (ensureProbe 60 5 5
         (ExecAction ["mysqladmin"; "--defaults-file=" +:+ confClientPath; "ping"])) }}
    {{ c_Lifecycle :=
         match MysqlLifecycle pod with
         | Some l => Some l
         | None =>
             if FailoverBeforeShutdownEnabled opt
             then Some (PreStopExec ["bash"; ConfVolumeMountPath +:+ "/" +:+ shPreStopFile]) else None
         end }}
    {{ c_ReadinessProbe := Some (ensureProbe 5 5 2 (ExecAction ["/bin/sh"; "-c";
         "test $(mysql --defaults-file=" +:+ confClientPath +:+ " -NB -e 'SELECT COUNT(*) FROM " +:+
         OperatorDbName +:+ "." +:+ OperatorStatusTableName +:+ " WHERE name=" +:+ dquote +:+
         OperatorConfiguredKey +:+ dquote +:+ " AND value=" +:+ dquote +:+
         OperatorConfiguredDoneValue +:+ dquote +:+ "') -eq 1"])) }} in
  let sidecar := withResources (ensureContainer containerSidecarName
      (sidecarImageForVersion rollout) ["config-and-serve"])
    {{ c_Ports := Some (ensurePorts [port SidecarServerPortName SidecarServerPort]) }}
    {{ c_ReadinessProbe := Some (ensureProbe 30 5 5
         (HTTPGetAction SidecarServerProbePath SidecarServerPort "HTTP")) }} in
  let exporterCommand :=
    ["--config.my-cnf=/dev/null";
     "--web.listen-address=0.0.0.0:" +:+ itoa ExporterPort;
     "--web.telemetry-path=" +:+ ExporterPath;
     "--mysqld.address=127.0.0.1:" +:+ itoa (ExporterDataSourcePort c);
     "--mysqld.username=" +:+ MetricsExporterMySQLUser;
     "--collect.heartbeat";
     "--collect.heartbeat.database=" +:+ OperatorDbName] ++ MetricsExporterExtraArgs spec in
  let exporter := withResources (ensureContainer containerExporterName
      (MetricsExporterImage opt) exporterCommand)
    {{ c_Ports := Some (ensurePorts [port ExporterPortName ExporterPort]) }}
    {{ c_LivenessProbe := Some (ensureProbe 30 30 30
         (HTTPGetAction ExporterPath ExporterTargetPort "HTTP")) }} in
  let heartbeat := withResources (ensureContainer containerHeartBeatName
      (sidecarImageForVersion rollout)
      ["pt-heartbeat"; "--update"; "--replace"; "--check-read-only"; "--create-table";
       "--database"; OperatorDbName; "--table"; "heartbeat"; "--utc";
       "--defaults-file"; ConfHeartBeatPath; "--socket"; DataVolumeMountPath +:+ "/mysql.sock";
       "--fail-successive-errors=20"]) in
  [mysql; sidecar; exporter; heartbeat] ++
  match sp_QueryLimits spec with
  | Some ql =>
      [withResources (ensureContainer containerKillerName (sidecarImageForVersion rollout)
         (["pt-kill"; "--defaults-file"; ConfPtKillPath; "--socket"; DataVolumeMountPath +:+ "/mysql.sock"] ++
          getCliOptionsFromQueryLimits ql))]
  | None => []
  end ++ ps_Containers pod.

(* src/pkg/controller/mysqlcluster/internal/syncer/statefullset.go:607-655 ensureVolumes *)
Definition ensureVolumes : list Volume :=
  let dataVolume :=
    match PersistentVolumeClaim (sp_VolumeSpec spec), HostPath (sp_VolumeSpec spec),
          EmptyDir (sp_VolumeSpec spec) with
    | Some _, _, _ => VolumeClaim dataVolumeName
    | None, Some hostPath, _ => VolumeHostPath hostPath
    | None, None, Some emptyDir => VolumeEmptyDir emptyDir
    | None, None, None => VolumeNone
    end in
  [ensureVolume confVolumeName (VolumeEmptyDir (mkEmptyDir "" None));
   ensureVolume confMapVolumeName (VolumeConfigMap (GetNameForResource ConfigMap (cl_Name c)) 420);
   ensureVolume dataVolumeName dataVolume] ++
  match TmpfsSize spec with
  | Some size => [ensureVolume tmpfsVolumeName (VolumeEmptyDir (mkEmptyDir "Memory" (Some size)))]
  | None => []
  end ++ ps_Volumes pod.

(** [append] to a new slice, or the change of the first element of the given one. *)
(* src/pkg/controller/mysqlcluster/internal/syncer/statefullset.go:660-707 ensureVolumeClaimTemplates *)
Definition ensureVolumeClaimTemplates (pvc : PersistentVolumeClaimSpec) (in_ : list ClaimTemplate) :
    list ClaimTemplate :=
  let zero := mkClaimTemplate "" [] (mkPVCSpec [] no_resources None None) in
  let initPvc := match in_ with [] => true | _ => false end in
  let '(data, rest) := match in_ with [] => (zero, []) | data :: rest => (data, rest) end in
  let owners :=
    if initPvc && negb (KeepAfterDelete (sp_VolumeSpec spec)) then
      [mkOwnerFull (APIGroup +:+ "/v1alpha1") "MysqlCluster" (cl_Name c) (om_UID (cl_Meta c)) (Some true)]
    else ct_Owners data in
  let mode :=
    match pvc_VolumeMode pvc, pvc_VolumeMode (ct_Spec data) with
    | Some m, _ => Some m
    | None, Some m => Some m
    | None, None => Some "Filesystem"
    end in
  let class :=
    match pvc_StorageClass pvc with Some s => Some s | None => pvc_StorageClass (ct_Spec data) end in
  mkClaimTemplate dataVolumeName owners
    (mkPVCSpec (pvc_AccessModes pvc) (pvc_Resources pvc) mode class) :: rest.

(* src/pkg/controller/mysqlcluster/internal/syncer/statefullset.go:788-794 getLabels *)
Definition getLabels (extra : gmap string string) : gmap string string := extra ∪ GetLabels c.

(* src/pkg/controller/mysqlcluster/internal/syncer/statefullset.go:159-172 ensurePodSpec *)
Definition ensurePodSpec : CorePodSpec :=
  mkCorePodSpec ensureInitContainersSpec ensureContainersSpec ensureVolumes (ps_Affinity pod)
    (ImagePullSecrets pod) (NodeSelector pod) (PriorityClassName pod) (Tolerations pod)
    (ServiceAccountName pod) None.

(** *** Security contexts *)

Definition noSecurity : SecurityContext := mkSecurityContext None None None.

(* src/pkg/controller/mysqlcluster/internal/syncer/container_security_context.go:41-60 applyMysqlProcessSecurityContext *)
Definition applyMysqlProcessSecurityContext (containerName : string) (ctr : Container) : Container :=
  if negb (String.eqb containerName containerMysqlName) &&
     negb (String.eqb containerName containerMySQLInitName) then ctr
  else
    let h := securityHints rollout in
    match MysqlRunAsUser h, MysqlRunAsGroup h with
    | Some u, Some g =>
        let sc := default noSecurity (c_SecurityContext ctr) in
        ctr {{ c_SecurityContext := Some (mkSecurityContext
          (Some (default u (sc_RunAsUser sc))) (Some (default g (sc_RunAsGroup sc)))
          (sc_AllowPrivilegeEscalation sc)) }}
    | _, _ => ctr
    end.

(* src/pkg/controller/mysqlcluster/internal/syncer/container_security_context.go:62-73 applyRestrictPrivilegeEscalation *)
Definition applyRestrictPrivilegeEscalation (ctr : Container) : Container :=
  if negb (ClusterRestrictPrivilegeEscalation opt) then ctr
  else
    let sc := default noSecurity (c_SecurityContext ctr) in
    ctr {{ c_SecurityContext := Some (mkSecurityContext (sc_RunAsUser sc) (sc_RunAsGroup sc)
      (Some (default false (sc_AllowPrivilegeEscalation sc)))) }}.

(* src/pkg/controller/mysqlcluster/internal/syncer/container_security_context.go:36-39 applyContainerSecurityContext *)
Definition applyContainerSecurityContext (ctr : Container) : Container :=
  applyRestrictPrivilegeEscalation (applyMysqlProcessSecurityContext (c_Name ctr) ctr).

(* src/pkg/controller/mysqlcluster/internal/syncer/container_security_context.go:27-34 applyPodContainerSecurityContext *)
Definition applyPodContainerSecurityContext : CorePodSpec → CorePodSpec :=
  on_containers applyContainerSecurityContext.

(** The pod template. *)
Definition desiredTemplate `{!PodDefaults} : CorePodSpec :=
  defaultPodSpec (applyPodContainerSecurityContext ensurePodSpec
    {{ cps_SecurityContext := Some ensurePodSecurityContext }}).

(** What the template shares with a container of the user: the fields that a
    security context leaves open, and the protocols of its ports. *)
Definition sharedBack (u : Container) : Container :=
  u {{ c_SecurityContext :=
         match c_SecurityContext u with
         | Some _ => c_SecurityContext (applyContainerSecurityContext u)
         | None => None
         end }}
    {{ c_Ports := option_map (List.map withProtocol) (c_Ports u) }}.

End Pod.

(* src/pkg/controller/mysqlcluster/internal/syncer/statefullset.go:155-157 shouldSetVolumeClaimTemplates *)
Definition shouldSetVolumeClaimTemplates (sts : StatefulSet) : bool :=
  (om_CreationTimestamp (sts_Meta sts) =? 0)%Z || (length (sts_VolumeClaimTemplates sts) =? 0)%nat.

Section Sync.
Context `{!Blang, !Process, !PodDefaults} (opt : Options).

(** The cluster after the callback. *)
Definition syncedCluster (rollout : Version) (annotations : gmap string string) (c : MysqlCluster) :
    MysqlCluster :=
  let c := c {{ cl_Spec -> sp_PodSpec -> ps_Annotations ::=
                  λ old, if bool_decide (old = ∅) then old else annotations }} in
  c {{ cl_Spec -> sp_PodSpec -> ps_InitContainers ::= List.map (sharedBack opt c rollout) }}
    {{ cl_Spec -> sp_PodSpec -> ps_Containers ::= List.map (sharedBack opt c rollout) }}.

(** The annotations of the template. *)
Definition stamp (configMapRevision secretRevision : string) (m : gmap string string) : gmap string string :=
  <["prometheus.io/port" := itoa ExporterPort]> (<["prometheus.io/scrape" := "true"]>
  (<["secret_rev" := secretRevision]> (<["config_rev" := configMapRevision]> m))).

(** The claim templates. *)
Definition syncTemplates (c : MysqlCluster) (out : StatefulSet) : list ClaimTemplate :=
  match PersistentVolumeClaim (sp_VolumeSpec (cl_Spec c)) with
  | Some pvc =>
      if shouldSetVolumeClaimTemplates out
      then ensureVolumeClaimTemplates c pvc (sts_VolumeClaimTemplates out)
      else sts_VolumeClaimTemplates out
  | None => sts_VolumeClaimTemplates out
  end.

(** The callback of the syncer, once the pods were listed. *)
(* src/pkg/controller/mysqlcluster/internal/syncer/statefullset.go:104-152 SyncFn *)
Definition SyncFn (configMapRevision secretRevision : string) (c : MysqlCluster) (out : StatefulSet) :
    MysqlCluster * StatefulSet :=
  let rollout := RolloutMySQLVersion c (Some out) in
  let c := with_ReadyNodes (sts_ReadyReplicas out) c in
  let pod := sp_PodSpec (cl_Spec c) in
  let annotations := stamp configMapRevision secretRevision (ps_Annotations pod) in
  (syncedCluster rollout annotations c,
   mkStatefulSetFull (sts_Meta out) (Replicas (cl_Spec c)) (Some (GetSelectorLabels c))
     (GetNameForResource HeadlessSVC (cl_Name c)) (getLabels c (ps_Labels pod)) annotations
     (desiredTemplate opt c rollout) (syncTemplates c out) (sts_ReadyReplicas out)).

End Sync.

(** ** Properties *)

(** *** The version of the stateful set *)

Lemma on_containers_containers f p : cps_Containers (on_containers f p) = List.map f (cps_Containers p).
Proof. done. Qed.

Lemma on_containers_inits f p : cps_InitContainers (on_containers f p) = List.map f (cps_InitContainers p).
Proof. done. Qed.

Lemma on_containers_volumes f p : cps_Volumes (on_containers f p) = cps_Volumes p.
Proof. done. Qed.

Lemma map_told_ext (f : Container → Container) l :
  (∀ x, told (f x) = told x) → told <$> List.map f l = told <$> l.
Proof. intros Hf. induction l as [|x l IH]; [done|]. cbn [List.map]. by rewrite !fmap_cons, Hf, IH. Qed.

Lemma told_normalize ctr : told (normalizeContainer ctr) = told ctr.
Proof. done. Qed.

Lemma versionFromEnv_told `{!Blang} (l l' : list EnvVar) :
  ((λ e, (ev_Name e, ev_Value e)) <$> l) = ((λ e, (ev_Name e, ev_Value e)) <$> l') →
  versionFromEnv l = versionFromEnv l'.
Proof.
  revert l'. induction l as [|e l IH]; intros [|e' l']; try done. intros [= Hn Hv Hl].
  simpl. rewrite Hn, Hv, (IH l' Hl). done.
Qed.

Lemma semVer_told `{!Blang} a b : told a = told b → semVerFromMysqlContainer a = semVerFromMysqlContainer b.
Proof.
  intros [= Hn Hi He _]. unfold semVerFromMysqlContainer. by rewrite (versionFromEnv_told _ _ He), Hi.
Qed.

Section Version.
Context `{!Blang, !BlangLaws, !Process, !PodDefaults, !PodDefaultsLaws} (opt : Options).

Lemma told_apply c v ctr : told (applyContainerSecurityContext opt c v ctr) = told ctr.
Proof.
  unfold applyContainerSecurityContext, applyRestrictPrivilegeEscalation, applyMysqlProcessSecurityContext.
  repeat case_match; done.
Qed.

Lemma told_template c v :
  told <$> cps_Containers (desiredTemplate opt c v) = told <$> ensureContainersSpec opt c v.
Proof.
  unfold desiredTemplate, defaultPodSpec, normalizePodSpec, applyPodContainerSecurityContext.
  rewrite on_containers_containers, map_told_ext by done.
  rewrite default_pod_containers, on_containers_containers, map_told_ext by apply told_apply.
  done.
Qed.

Lemma told_template_inits c v :
  told <$> cps_InitContainers (desiredTemplate opt c v) = told <$> ensureInitContainersSpec opt c v.
Proof.
  unfold desiredTemplate, defaultPodSpec, normalizePodSpec, applyPodContainerSecurityContext.
  rewrite on_containers_inits, map_told_ext by done.
  rewrite default_pod_inits, on_containers_inits, map_told_ext by apply told_apply.
  done.
Qed.

Lemma template_volumes c v :
  vol_Name <$> cps_Volumes (desiredTemplate opt c v) = vol_Name <$> ensureVolumes c.
Proof.
  unfold desiredTemplate, defaultPodSpec, normalizePodSpec, applyPodContainerSecurityContext.
  by rewrite on_containers_volumes, default_pod_volumes.
Qed.

Lemma VString_nonempty v : VString v ≠ "".
Proof. rewrite VString_eq. by destruct (itoa (Z.of_N (Major v))). Qed.

Lemma mysql_reports c v : version_fits v →
  semVerFromMysqlContainer (ensureContainer opt c v containerMysqlName (serverImageForVersion opt c v) []) = v.
Proof.
  intros Hv. unfold semVerFromMysqlContainer, ensureContainer, c_Env. cbn [c_EnvVars default from_option].
  unfold getEnvFor. simpl. destruct (String.eqb_spec (VString v) "") as [E|_]; [by apply VString_nonempty in E|].
  by rewrite Parse_VString.
Qed.

Lemma template_mysql c v : version_fits v → ∃ ctr rest,
  cps_Containers (desiredTemplate opt c v) = ctr :: rest ∧ c_Name ctr = containerMysqlName ∧
  semVerFromMysqlContainer ctr = v ∧ c_Image ctr = serverImageForVersion opt c v.
Proof.
  intros Hv. pose proof (told_template c v) as Ht. unfold ensureContainersSpec in Ht. cbv zeta in Ht.
  rewrite fmap_app, fmap_cons in Ht. destruct (cps_Containers _) as [|ctr rest]; [done|].
  rewrite fmap_cons in Ht. apply (f_equal head) in Ht. cbn [head app] in Ht.
  assert (told ctr = told (ensureContainer opt c v containerMysqlName (serverImageForVersion opt c v) [])) as Ht'
    by exact (inj Some _ _ Ht). clear Ht.
  exists ctr, rest. split_and!; [done| | |].
  - exact (f_equal t_Name Ht').
  - rewrite (semVer_told _ _ Ht'). by apply mysql_reports.
  - exact (f_equal t_Image Ht').
Qed.

(** What the stateful set tells about itself is what was rolled out. *)
Lemma SyncFn_version (cmRev sctRev : string) (c : MysqlCluster) (out : StatefulSet) :
  version_fits (RolloutMySQLVersion c (Some out)) →
  SemVerFromStatefulSet (Some (SyncFn opt cmRev sctRev c out).2) = RolloutMySQLVersion c (Some out).
Proof.
  intros Hv. unfold SemVerFromStatefulSet, SyncFn. cbv zeta. cbn [snd]. unfold sts_Containers. cbn [sts_Template].
  destruct (template_mysql (with_ReadyNodes (sts_ReadyReplicas out) c) _ Hv) as (ctr & rest & -> & Hn & Hr & _).
  cbn [findContainer]. by rewrite Hn.
Qed.

(** The image that the pods of a stateful set run mysqld from. *)
Definition mysqlImage (sts : StatefulSet) : string :=
  match List.find (λ ctr, String.eqb (c_Name ctr) "mysql") (sts_Containers sts) with
  | Some ctr => c_Image ctr
  | None => ""
  end.

(** The image of the server is chosen by the version that is rolled out, if the user
    did not set one and there is one; the rest of the cluster does not count. *)
Lemma SyncFn_image (cmRev sctRev : string) (c : MysqlCluster) (out : StatefulSet) :
  version_fits (RolloutMySQLVersion c (Some out)) →
  mysqlImage (SyncFn opt cmRev sctRev c out).2 = serverImageForVersion opt c (RolloutMySQLVersion c (Some out)).
Proof.
  intros Hv. unfold mysqlImage, SyncFn. cbv zeta. cbn [snd]. unfold sts_Containers. cbn [sts_Template].
  destruct (template_mysql (with_ReadyNodes (sts_ReadyReplicas out) c) _ Hv) as (ctr & rest & -> & Hn & _ & Hi).
  cbn [List.find]. rewrite Hn. exact Hi.
Qed.

(** *** The pod is well formed *)

(** What the API server asks of a pod: the names of containers, of volumes and of
    the variables of a container are not repeated, and mounts are of volumes of the
    pod. *)
Definition wellFormed (p : CorePodSpec) : Prop :=
  let vols := vol_Name <$> cps_Volumes p in
  let containers := (told <$> cps_InitContainers p) ++ (told <$> cps_Containers p) in
  NoDup (t_Name <$> containers) ∧ NoDup vols ∧
  Forall (λ t, NoDup (t_Env t).*1 ∧ Forall (λ m, vm_Name m ∈ vols) (t_Mounts t)) containers.

Definition operatorContainers : list string :=
  [containerDatadirChownName; containerCloneAndInitName; containerMySQLInitName; containerMysqlName;
   containerSidecarName; containerExporterName; containerHeartBeatName; containerKillerName].
Definition operatorVolumes : list string :=
  [confVolumeName; confMapVolumeName; dataVolumeName; tmpfsVolumeName].

(** What the user has to keep to in the specification of the pod. *)
Record userFits (c : MysqlCluster) : Prop := {
  fit_names : NoDup (operatorContainers ++ (c_Name <$> ps_InitContainers (sp_PodSpec (cl_Spec c)) ++
                                            ps_Containers (sp_PodSpec (cl_Spec c))));
  fit_volumes : NoDup (operatorVolumes ++ (vol_Name <$> ps_Volumes (sp_PodSpec (cl_Spec c))));
  fit_env ctr : ctr ∈ ps_InitContainers (sp_PodSpec (cl_Spec c)) ++ ps_Containers (sp_PodSpec (cl_Spec c)) →
    NoDup (ev_Name <$> c_Env ctr);
  fit_mounts : Forall (λ m, vm_Name m ∈ vol_Name <$> ensureVolumes c) (ps_VolumeMounts (sp_PodSpec (cl_Spec c)));
  fit_containers ctr : ctr ∈ ps_InitContainers (sp_PodSpec (cl_Spec c)) ++ ps_Containers (sp_PodSpec (cl_Spec c)) →
    Forall (λ m, vm_Name m ∈ vol_Name <$> ensureVolumes c) (default [] (c_VolumeMounts ctr)) }.

Local Ltac solve_sublist :=
  repeat case_match; cbn [fmap list_fmap ev_Name mkEnvVar envVarFromSecret];
  repeat first [apply sublist_nil_l | apply sublist_skip | apply sublist_cons].

(** The variables of a container have one value each. *)
Lemma getEnvFor_unique c v name : NoDup (ev_Name <$> getEnvFor opt c v name).
Proof.
  eapply (sublist_NoDup _ (["MY_NAMESPACE"; "MY_POD_NAME"; "MY_POD_IP"; "MY_SERVICE_NAME"; "MY_CLUSTER_NAME";
    "MY_FQDN"; MySQLVersionEnv] ++ ["INIT_BUCKET_URI"] ++ ["MY_SERVER_ID_OFFSET"] ++ ["BACKUP_DECOMPRESS_COMMAND"] ++
    ["RCLONE_EXTRA_ARGS"] ++ ["XBSTREAM_EXTRA_ARGS"] ++ ["XTRABACKUP_EXTRA_ARGS"] ++ ["XTRABACKUP_PREPARE_EXTRA_ARGS"] ++
    ["XTRABACKUP_TARGET_DIR"] ++ ["INITFILE_EXTRA_SQL"] ++
    ["MYSQLD_EXPORTER_PASSWORD"; "MYSQL_INIT_ONLY"; "BACKUP_USER"; "BACKUP_PASSWORD"; "ORCH_CLUSTER_ALIAS"; "ORCH_HTTP_API"] ++
    ["MYSQL_ROOT_PASSWORD"; "MYSQL_USER"; "MYSQL_PASSWORD"; "MYSQL_DATABASE"])).
  - apply (bool_decide_unpack _). vm_compute. done.
  - unfold getEnvFor. cbv zeta. rewrite !fmap_app.
    repeat (apply sublist_app; [solve_sublist|]). solve_sublist.
Qed.

Section WellFormed.
Context (c : MysqlCluster) (v : Version).
Let pod : PodSpec := sp_PodSpec (cl_Spec c).

(** A container of the operator. *)
Definition opTold (name image : string) : Told :=
  mkTold name image ((λ e, (ev_Name e, ev_Value e)) <$> getEnvFor opt c v name)
    (default [] (getVolumeMountsFor c name)).

Definition chownTold : list Told :=
  if NeedsDatadirChownInit c && (0 <? length (c_Command (ensureDatadirChownInitContainer opt c)))%nat
  then [mkTold containerDatadirChownName (serverImageForVersion opt c (ClusterDesiredVersion c)) []
          [mkMount dataVolumeName DataVolumeMountPath false]] else [].

Lemma told_inits : told <$> ensureInitContainersSpec opt c v =
  chownTold ++ (told <$> ps_InitContainers pod) ++
  [opTold containerCloneAndInitName (sidecarImageForVersion c v)] ++
  (if IsPerconaImage c && WantsPerconaInitContainer (ProfileFor v) v
   then [opTold containerMySQLInitName (serverImageForVersion opt c v)] else []).
Proof.
  unfold ensureInitContainersSpec, chownTold. cbv zeta. rewrite !fmap_app. f_equal; [|do 2 f_equal].
  - destruct (NeedsDatadirChownInit c); [|done]. unfold ensureDatadirChownInitContainer. cbv zeta.
    by repeat case_match.
  - by destruct (IsPerconaImage c && _).
Qed.

Lemma told_containers : told <$> ensureContainersSpec opt c v =
  [opTold containerMysqlName (serverImageForVersion opt c v);
   opTold containerSidecarName (sidecarImageForVersion c v);
   opTold containerExporterName (MetricsExporterImage opt);
   opTold containerHeartBeatName (sidecarImageForVersion c v)] ++
  match sp_QueryLimits (cl_Spec c) with
  | Some _ => [opTold containerKillerName (sidecarImageForVersion c v)] | None => [] end ++
  (told <$> ps_Containers pod).
Proof.
  unfold ensureContainersSpec. cbv zeta. rewrite !fmap_app. do 2 f_equal.
  by destruct (sp_QueryLimits (cl_Spec c)).
Qed.

Lemma ops_mounts name : Forall (λ m, vm_Name m ∈ vol_Name <$> ensureVolumes c) (ps_VolumeMounts pod) →
  Forall (λ m, vm_Name m ∈ vol_Name <$> ensureVolumes c) (default [] (getVolumeMountsFor c name)).
Proof.
  intros Hu. unfold getVolumeMountsFor. fold pod.
  assert (∀ n, n ∈ [confVolumeName; confMapVolumeName; dataVolumeName] → n ∈ vol_Name <$> ensureVolumes c) as Hn.
  { intros n Hn. unfold ensureVolumes. cbv zeta. rewrite !fmap_app, elem_of_app. by left. }
  assert (∀ b, Forall (λ m, vm_Name m ∈ vol_Name <$> ensureVolumes c)
    match TmpfsSize (cl_Spec c) with Some _ => [mkMount tmpfsVolumeName DataVolumeMountPath b] | None => [] end) as Ht.
  { intros b. destruct (TmpfsSize (cl_Spec c)) eqn:E; [|constructor]. apply Forall_singleton.
    unfold ensureVolumes. cbv zeta. rewrite E, !fmap_app, !elem_of_app. right. left. by left. }
  repeat match goal with |- context [if ?b then _ else _] => match type of b with bool => destruct b end end; cbn [default from_option id];
    rewrite ?Forall_app, ?Forall_cons; split_and?; try (apply Hn; cbn; set_solver); try apply Ht; auto using Forall_nil.
Qed.

Lemma env_names (l : list EnvVar) : ((λ e, (ev_Name e, ev_Value e)) <$> l).*1 = ev_Name <$> l.
Proof. by rewrite <-list_fmap_compose. Qed.

Lemma told_names (l : list Container) : t_Name <$> (told <$> l) = c_Name <$> l.
Proof. by rewrite <-list_fmap_compose. Qed.

(** C32. The pods that are rolled out are well formed, whatever is set in the
    cluster: no two containers have the same name, no two volumes, no variable is
    given twice, and everything that is mounted is a volume of the pod, if the
    containers, volumes and mounts that the user adds do not clash. *)
Theorem desiredTemplate_wellFormed : userFits c → wellFormed (desiredTemplate opt c v).
Proof.
  intros [Hn Hv He Hm Hc]. unfold wellFormed. cbv zeta.
  rewrite told_template, told_template_inits, template_volumes, told_inits, told_containers.
  assert (∀ name img, NoDup (t_Env (opTold name img)).*1 ∧
    Forall (λ m, vm_Name m ∈ vol_Name <$> ensureVolumes c) (t_Mounts (opTold name img))) as Ho.
  { intros name img. cbn [opTold t_Env t_Mounts]. rewrite env_names. split; [apply getEnvFor_unique|by apply ops_mounts]. }
  assert (∀ l, (∀ ctr, ctr ∈ l → ctr ∈ ps_InitContainers pod ++ ps_Containers pod) →
    Forall (λ t, NoDup (t_Env t).*1 ∧ Forall (λ m, vm_Name m ∈ vol_Name <$> ensureVolumes c) (t_Mounts t)) (told <$> l)) as Hu.
  { intros l Hl. apply Forall_fmap, Forall_forall. intros ctr Hl'. cbn. rewrite env_names.
    split; [by apply He, Hl|by apply Hc, Hl]. }
  split_and!.
  - eapply (sublist_NoDup _ ([containerDatadirChownName] ++ (c_Name <$> ps_InitContainers pod) ++
      [containerCloneAndInitName; containerMySQLInitName; containerMysqlName; containerSidecarName;
       containerExporterName; containerHeartBeatName; containerKillerName] ++ (c_Name <$> ps_Containers pod))).
    + eapply NoDup_Permutation_proper; [|exact Hn]. rewrite fmap_app. unfold operatorContainers.
      set (u1 := c_Name <$> _). set (u2 := c_Name <$> _). cbn [app]. constructor.
      change (?a :: ?b :: ?x :: ?d :: ?e :: ?f :: ?g :: u1 ++ u2) with ([a; b; x; d; e; f; g] ++ u1 ++ u2).
      by rewrite (assoc_L (++)), (Permutation_app_comm _ u1), <-(assoc_L (++)).
    + rewrite !fmap_app, !told_names, <-!(assoc_L (++)). apply sublist_app; [|apply sublist_app; [done|]].
      * unfold chownTold. destruct (_ && _); solve_sublist.
      * destruct (sp_QueryLimits (cl_Spec c)), (_ && _); cbn [fmap list_fmap opTold t_Name app];
          repeat first [reflexivity | apply sublist_skip | apply sublist_cons].
  - unfold ensureVolumes. cbv zeta. rewrite !fmap_app.
    eapply sublist_NoDup; [exact Hv|]. unfold operatorVolumes.
    destruct (TmpfsSize (cl_Spec c)); cbn [fmap list_fmap vol_Name app];
      repeat first [reflexivity | apply sublist_skip | apply sublist_cons].
  - rewrite !Forall_app. split_and!; try (apply Hu; intros; apply elem_of_app; tauto).
    + unfold chownTold. destruct (_ && _); [|constructor]. apply Forall_singleton. split; [by apply NoDup_nil|].
      by apply (ops_mounts containerDatadirChownName).
    + by apply Forall_singleton.
    + destruct (_ && _); [by apply Forall_singleton|constructor].
    + do 4 (apply Forall_cons; split; [apply Ho|]). constructor.
    + destruct (sp_QueryLimits (cl_Spec c)); [by apply Forall_singleton|constructor].
Qed.

(** The volume that [TmpfsSize] asks for is mounted over the data: a pod with it has
    two mounts at one path, which the API server refuses. *)
Lemma mysql_mount_paths : ps_VolumeMounts pod = [] →
  NoDup (vm_MountPath <$> default [] (getVolumeMountsFor c containerMysqlName)) ↔ TmpfsSize (cl_Spec c) = None.
Proof.
  intros Hu. change (getVolumeMountsFor c containerMysqlName) with
    (Some ([mkMount confVolumeName ConfVolumeMountPath false; mkMount dataVolumeName DataVolumeMountPath false] ++
       match TmpfsSize (cl_Spec c) with
       | Some _ => [mkMount tmpfsVolumeName DataVolumeMountPath false] | None => [] end ++ ps_VolumeMounts pod)).
  rewrite Hu. destruct (TmpfsSize (cl_Spec c)); split; try done; intros Hd.
  - exfalso. revert Hd. apply (bool_decide_unpack (¬ _)). vm_compute. done.
  - apply (bool_decide_unpack _). vm_compute. done.
Qed.

(** A version of which no image is known is not held back either: the image is that of
    the version that is asked for. *)
Lemma unknown_image_not_held : is_ok (ServerImage opt v (Some (cl_Spec c))) = false →
  serverImageForVersion opt c v = GetMysqlImage c.
Proof. unfold serverImageForVersion. by destruct (ServerImage opt v _). Qed.

(** A version that is held back does not hold back an image that is set. *)
Lemma image_not_held : Image (cl_Spec c) ≠ "" → serverImageForVersion opt c v = Image (cl_Spec c).
Proof.
  intros Hi. unfold serverImageForVersion, ServerImage, ResolverServerImage.
  assert (negb (String.length (Image (cl_Spec c)) =? 0)%nat = true) as -> by by destruct (Image (cl_Spec c)).
  by destruct Default.
Qed.

(** The security contexts: a container that is not the server keeps its user
    and group; whatever the user set is kept; and with the option that restricts
    the escalation of privileges every container says whether it may. *)
Theorem container_security (ctr : Container) :
  let sc := default noSecurity (c_SecurityContext ctr) in
  let sc' := default noSecurity (c_SecurityContext (applyContainerSecurityContext opt c v ctr)) in
  (sc_RunAsUser sc ≠ None → sc_RunAsUser sc' = sc_RunAsUser sc) ∧
  (sc_RunAsGroup sc ≠ None → sc_RunAsGroup sc' = sc_RunAsGroup sc) ∧
  (sc_AllowPrivilegeEscalation sc ≠ None →
     sc_AllowPrivilegeEscalation sc' = sc_AllowPrivilegeEscalation sc) ∧
  (c_Name ctr ≠ containerMysqlName → c_Name ctr ≠ containerMySQLInitName →
     sc_RunAsUser sc' = sc_RunAsUser sc ∧ sc_RunAsGroup sc' = sc_RunAsGroup sc) ∧
  (ClusterRestrictPrivilegeEscalation opt = true → sc_AllowPrivilegeEscalation sc' ≠ None).
Proof.
  destruct ctr as [name ? ? ? ? ? ? ? ? ? ? ? ? sec ? ?]. cbn.
  unfold applyContainerSecurityContext, applyRestrictPrivilegeEscalation, applyMysqlProcessSecurityContext. cbn.
  destruct (String.eqb_spec name containerMysqlName), (String.eqb_spec name containerMySQLInitName); cbn;
    destruct (MysqlRunAsUser (securityHints c v)), (MysqlRunAsGroup (securityHints c v)); cbn;
    destruct (ClusterRestrictPrivilegeEscalation opt); cbn; destruct sec as [[[] [] []]|]; cbn; done.
Qed.

End WellFormed.

End Version.

(** *** A second run changes nothing *)

Lemma withProtocol_idem p : withProtocol (withProtocol p) = withProtocol p.
Proof. unfold withProtocol at 2 3. destruct (String.eqb (cp_Protocol p) "") eqn:E; [done|]. unfold withProtocol. by rewrite E. Qed.

Lemma portsTCP_none ctr : c_Ports ctr = None → portsTCP ctr = ctr.
Proof. destruct ctr; simpl. by intros ->. Qed.

Lemma portsTCP_idem ctr : portsTCP (portsTCP ctr) = portsTCP ctr.
Proof.
  destruct ctr as [? ? ? ? ? ? ? ? [ports|] ? ? ? ? ? ? ?]; [|done]. unfold portsTCP. cbn. do 2 f_equal.
  rewrite List.map_map. apply List.map_ext, withProtocol_idem.
Qed.

Section Settles.
Context `{!Blang, !BlangLaws, !Process, !PodDefaults, !PodDefaultsLaws} (opt : Options).

Lemma apply_ports c v ctr :
  applyContainerSecurityContext opt c v (portsTCP ctr) = portsTCP (applyContainerSecurityContext opt c v ctr).
Proof.
  unfold applyContainerSecurityContext, applyRestrictPrivilegeEscalation, applyMysqlProcessSecurityContext.
  change (c_Name (portsTCP ctr)) with (c_Name ctr). change (c_SecurityContext (portsTCP ctr)) with (c_SecurityContext ctr).
  repeat case_match; try done.
Qed.

(** The security context that a container gets. *)
Definition securityOf c v (ctr : Container) : option SecurityContext :=
  c_SecurityContext (applyContainerSecurityContext opt c v ctr).

Lemma apply_security c v ctr :
  applyContainerSecurityContext opt c v ctr = ctr {{ c_SecurityContext := securityOf c v ctr }}.
Proof.
  unfold securityOf, applyContainerSecurityContext, applyRestrictPrivilegeEscalation, applyMysqlProcessSecurityContext.
  destruct ctr. repeat case_match; done.
Qed.

Lemma securityOf_congr c v a b :
  c_Name a = c_Name b → c_SecurityContext a = c_SecurityContext b → securityOf c v a = securityOf c v b.
Proof.
  intros Hn Hs. unfold securityOf, applyContainerSecurityContext, applyRestrictPrivilegeEscalation,
    applyMysqlProcessSecurityContext. rewrite Hn. repeat case_match; cbn; by rewrite ?Hs.
Qed.

Lemma securityOf_idem c v ctr :
  securityOf c v (ctr {{ c_SecurityContext := securityOf c v ctr }}) = securityOf c v ctr.
Proof.
  unfold securityOf, applyContainerSecurityContext, applyRestrictPrivilegeEscalation, applyMysqlProcessSecurityContext.
  destruct ctr as [name ? ? ? ? ? ? ? ? ? ? ? ? sec ? ?]. cbn.
  destruct (negb (String.eqb name containerMysqlName) && _); cbn;
    destruct (MysqlRunAsUser (securityHints c v)), (MysqlRunAsGroup (securityHints c v));
    destruct (negb (ClusterRestrictPrivilegeEscalation opt)); cbn; destruct sec as [[]|]; done.
Qed.

Lemma sharedBack_apply c v u :
  applyContainerSecurityContext opt c v (sharedBack opt c v u) = portsTCP (applyContainerSecurityContext opt c v u).
Proof.
  rewrite <-apply_ports. destruct (c_SecurityContext u) as [sc|] eqn:E.
  - rewrite !apply_security. rewrite (securityOf_congr c v (portsTCP u) u) by done.
    rewrite (securityOf_congr c v (sharedBack opt c v u) (u {{ c_SecurityContext := securityOf c v u }})).
    + rewrite securityOf_idem. done.
    + done.
    + unfold sharedBack. cbn. by rewrite E.
  - f_equal. unfold sharedBack. rewrite E. destruct u. simpl in *. by subst.
Qed.

Lemma shared_security c v u : c_SecurityContext (sharedBack opt c v u) =
  match c_SecurityContext u with Some _ => securityOf c v u | None => None end.
Proof. done. Qed.

Lemma sharedBack_idem c v u : sharedBack opt c v (sharedBack opt c v u) = sharedBack opt c v u.
Proof.
  assert (c_SecurityContext (sharedBack opt c v (sharedBack opt c v u)) = c_SecurityContext (sharedBack opt c v u)) as Hs.
  { rewrite !shared_security. destruct (c_SecurityContext u); [|done].
    destruct (securityOf c v u) eqn:E; [|done]. rewrite <-E.
    exact (f_equal c_SecurityContext (sharedBack_apply c v u)). }
  assert (c_Ports (sharedBack opt c v (sharedBack opt c v u)) = c_Ports (sharedBack opt c v u)) as Hp.
  { exact (f_equal c_Ports (portsTCP_idem u)). }
  set (a := sharedBack opt c v u) in *. clearbody a. unfold sharedBack in *. destruct a. cbn in *. by rewrite Hs, Hp.
Qed.

(** The containers of the operator name their protocols. *)
Lemma operator_ports c v ctr :
  c_Ports ctr = None ∨ (∃ ports, c_Ports ctr = Some (ensurePorts ports)) →
  portsTCP (applyContainerSecurityContext opt c v ctr) = applyContainerSecurityContext opt c v ctr.
Proof.
  rewrite <-apply_ports. intros [Hp|[ports Hp]]; f_equal; [by apply portsTCP_none|].
  destruct ctr. simpl in Hp. subst. unfold portsTCP, ensurePorts. cbn. do 2 f_equal.
  induction ports as [|x ports IH]; [done|]. rewrite fmap_cons. cbn [List.map]. by rewrite withProtocol_idem, IH.
Qed.

Lemma chown_ports c :
  c_Ports (withResources c (ensureDatadirChownInitContainer opt c)) = None.
Proof.
  unfold ensureDatadirChownInitContainer. cbv zeta. by repeat case_match.
Qed.

Lemma pod_update_fix (d : MysqlCluster) (g : gmap string string → gmap string string) (f h : list Container → list Container) :
  g (ps_Annotations (sp_PodSpec (cl_Spec d))) = ps_Annotations (sp_PodSpec (cl_Spec d)) →
  f (ps_InitContainers (sp_PodSpec (cl_Spec d))) = ps_InitContainers (sp_PodSpec (cl_Spec d)) →
  h (ps_Containers (sp_PodSpec (cl_Spec d))) = ps_Containers (sp_PodSpec (cl_Spec d)) →
  d {{ cl_Spec -> sp_PodSpec -> ps_Annotations ::= g }} {{ cl_Spec -> sp_PodSpec -> ps_InitContainers ::= f }}
    {{ cl_Spec -> sp_PodSpec -> ps_Containers ::= h }} = d.
Proof.
  destruct d as [m sp st]. destruct sp. destruct sp_PodSpec. cbn. by intros -> -> ->.
Qed.

Lemma synced_fix v ann d :
  (if bool_decide (ps_Annotations (sp_PodSpec (cl_Spec d)) = ∅)
   then ps_Annotations (sp_PodSpec (cl_Spec d)) else ann) = ps_Annotations (sp_PodSpec (cl_Spec d)) →
  List.map (sharedBack opt d v) (ps_InitContainers (sp_PodSpec (cl_Spec d))) =
    ps_InitContainers (sp_PodSpec (cl_Spec d)) →
  List.map (sharedBack opt d v) (ps_Containers (sp_PodSpec (cl_Spec d))) =
    ps_Containers (sp_PodSpec (cl_Spec d)) →
  syncedCluster opt v ann d = d.
Proof.
  intros Ha Hi Hc.
  exact (pod_update_fix d (λ old, if bool_decide (old = ∅) then old else ann) _ _ Ha Hi Hc).
Qed.

Section Synced.
Context (v : Version) (ann : gmap string string) (c : MysqlCluster).
Let c' := syncedCluster opt v ann c.

Lemma synced_inits :
  List.map (applyContainerSecurityContext opt c' v) (ensureInitContainersSpec opt c' v) =
  List.map portsTCP (List.map (applyContainerSecurityContext opt c v) (ensureInitContainersSpec opt c v)).
Proof.
  unfold ensureInitContainersSpec. cbv zeta.
  change (NeedsDatadirChownInit c') with (NeedsDatadirChownInit c).
  change (ensureDatadirChownInitContainer opt c') with (ensureDatadirChownInitContainer opt c).
  change (ps_InitContainers (sp_PodSpec (cl_Spec c'))) with
    (List.map (sharedBack opt c v) (ps_InitContainers (sp_PodSpec (cl_Spec c)))).
  change (IsPerconaImage c') with (IsPerconaImage c).
  change (applyContainerSecurityContext opt c' v) with (applyContainerSecurityContext opt c v).
  rewrite !List.map_app. f_equal; [|f_equal; [|f_equal]].
  - destruct (NeedsDatadirChownInit c); [|done]. destruct (0 <? _)%nat; [|done]. cbn [List.map].
    change (withResources c' ?x) with (withResources c x). f_equal. symmetry. apply operator_ports. left. apply chown_ports.
  - rewrite !List.map_map. apply List.map_ext, sharedBack_apply.
  - cbn [List.map]. f_equal. symmetry. apply operator_ports. by left.
  - destruct (IsPerconaImage c && _); [|done]. cbn [List.map]. f_equal. symmetry. apply operator_ports. by left.
Qed.

Lemma synced_containers :
  List.map (applyContainerSecurityContext opt c' v) (ensureContainersSpec opt c' v) =
  List.map portsTCP (List.map (applyContainerSecurityContext opt c v) (ensureContainersSpec opt c v)).
Proof.
  unfold ensureContainersSpec. cbv zeta.
  change (ps_Containers (sp_PodSpec (cl_Spec c'))) with
    (List.map (sharedBack opt c v) (ps_Containers (sp_PodSpec (cl_Spec c)))).
  change (sp_QueryLimits (cl_Spec c')) with (sp_QueryLimits (cl_Spec c)).
  change (applyContainerSecurityContext opt c' v) with (applyContainerSecurityContext opt c v).
  rewrite !List.map_app. f_equal; [|f_equal].
  - cbn [List.map]. repeat f_equal; symmetry; apply operator_ports; first [by left|right; by eexists].
  - destruct (sp_QueryLimits (cl_Spec c)); [|done]. cbn [List.map]. f_equal. symmetry. apply operator_ports. by left.
  - rewrite !List.map_map. apply List.map_ext, sharedBack_apply.
Qed.

Lemma synced_template : desiredTemplate opt c' v = desiredTemplate opt c v.
Proof.
  unfold desiredTemplate, defaultPodSpec, applyPodContainerSecurityContext.
  rewrite <-(default_pod_ports (on_containers (applyContainerSecurityContext opt c v) _)). do 2 f_equal.
  pose proof synced_inits as Hi. pose proof synced_containers as Hc.
  unfold on_containers, ensurePodSpec. cbn -[ensureInitContainersSpec ensureContainersSpec applyContainerSecurityContext].
  unfold c' in *. f_equal; [exact Hi|exact Hc].
Qed.

Lemma synced_again ann' :
  (ps_Annotations (sp_PodSpec (cl_Spec c)) ≠ ∅ → ann' = ann) →
  syncedCluster opt v ann' c' = c'.
Proof.
  intros Hann. apply synced_fix.
  - change (ps_Annotations (sp_PodSpec (cl_Spec c'))) with
      (if bool_decide (ps_Annotations (sp_PodSpec (cl_Spec c)) = ∅)
       then ps_Annotations (sp_PodSpec (cl_Spec c)) else ann).
    destruct (decide (ps_Annotations (sp_PodSpec (cl_Spec c)) = ∅)) as [Ho|Ho].
    + by rewrite !(bool_decide_true (ps_Annotations _ = ∅)).
    + rewrite (bool_decide_false (ps_Annotations _ = ∅)) by done. rewrite (Hann Ho). by case_bool_decide.
  - change (ps_InitContainers (sp_PodSpec (cl_Spec c'))) with
      (List.map (sharedBack opt c v) (ps_InitContainers (sp_PodSpec (cl_Spec c)))).
    change (sharedBack opt c' v) with (sharedBack opt c v).
    rewrite List.map_map. apply List.map_ext, sharedBack_idem.
  - change (ps_Containers (sp_PodSpec (cl_Spec c'))) with
      (List.map (sharedBack opt c v) (ps_Containers (sp_PodSpec (cl_Spec c)))).
    change (sharedBack opt c' v) with (sharedBack opt c v).
    rewrite List.map_map. apply List.map_ext, sharedBack_idem.
Qed.

End Synced.

Lemma stamp_idem cm sec m : stamp cm sec (stamp cm sec m) = stamp cm sec m.
Proof. unfold stamp. apply map_eq. intros k. rewrite !lookup_insert. repeat case_decide; done. Qed.

Lemma claimTemplates_idem (c c' : MysqlCluster) pvc l :
  ensureVolumeClaimTemplates c' pvc (ensureVolumeClaimTemplates c pvc l) = ensureVolumeClaimTemplates c pvc l.
Proof.
  unfold ensureVolumeClaimTemplates. cbv zeta.
  destruct l as [|data l]; cbn; destruct (pvc_VolumeMode pvc), (pvc_StorageClass pvc); try done;
    by destruct (pvc_VolumeMode (ct_Spec data)).
Qed.

Lemma syncTemplates_idem c c' out out' :
  PersistentVolumeClaim (sp_VolumeSpec (cl_Spec c')) = PersistentVolumeClaim (sp_VolumeSpec (cl_Spec c)) →
  sts_Meta out' = sts_Meta out → sts_VolumeClaimTemplates out' = syncTemplates c out →
  syncTemplates c' out' = syncTemplates c out.
Proof.
  intros Hp Hm. unfold syncTemplates. rewrite Hp. destruct (PersistentVolumeClaim (sp_VolumeSpec (cl_Spec c))) as [pvc|]; [|done].
  unfold shouldSetVolumeClaimTemplates. rewrite Hm. destruct (_ || _) eqn:E; intros Ht; rewrite Ht; [|by rewrite E].
  assert (0 < length (ensureVolumeClaimTemplates c pvc (sts_VolumeClaimTemplates out))) as Hl.
  { unfold ensureVolumeClaimTemplates. destruct (sts_VolumeClaimTemplates out); apply Nat.lt_0_succ. }
  rewrite claimTemplates_idem. by case_match.
Qed.

(** The version does not move either. *)
Lemma Rollout_settles cmRev sctRev c out :
  version_fits (RolloutMySQLVersion c (Some out)) →
  AppliedDataPlaneVersion c ≠ Zero ∨ ReadyNodes (cl_Status c) = sts_ReadyReplicas out →
  let r := SyncFn opt cmRev sctRev c out in
  RolloutMySQLVersion r.1 (Some r.2) = RolloutMySQLVersion c (Some out).
Proof.
  intros Hv Hd. cbv zeta. pose proof (SyncFn_version opt cmRev sctRev c out Hv) as Hs.
  set (r := SyncFn opt cmRev sctRev c out) in *.
  assert (AppliedDataPlaneVersion r.1 = AppliedDataPlaneVersion c) as Ha by done.
  assert (ClusterDesiredVersion r.1 = ClusterDesiredVersion c) as Hc by done.
  destruct (decide (AppliedDataPlaneVersion c = Zero)) as [Hz|Hz].
  - destruct Hd as [?|Hd]; [done|]. rewrite !Rollout_unknown in * by congruence. rewrite Hs, Hc.
    assert (ClusterHasMySQLData r.1 = ClusterHasMySQLData c) as ->.
    { unfold ClusterHasMySQLData. rewrite Hd. done. }
    rewrite !IsZero_bool. destruct (ClusterHasMySQLData c); simpl; [|done].
    destruct (decide (SemVerFromStatefulSet (Some out) = Zero)) as [E|E].
    + rewrite !(bool_decide_true _ E). cbn [negb]. destruct (bool_decide (ClusterDesiredVersion c = Zero)); reflexivity.
    + rewrite !(bool_decide_false _ E). cbn [negb]. reflexivity.
  - rewrite !Rollout_applied by congruence. by rewrite Ha, Hc.
Qed.

(** C14. A run of the stateful set syncer settles: the version read back from the
    stateful set is the one that was rolled out, and a second run on what the
    first one left changes neither the stateful set nor the cluster, provided the
    number of ready nodes was up to date or the data plane version is known. *)
Theorem SyncFn_settles (cmRev sctRev : string) (c : MysqlCluster) (out : StatefulSet) :
  version_fits (RolloutMySQLVersion c (Some out)) →
  AppliedDataPlaneVersion c ≠ Zero ∨ ReadyNodes (cl_Status c) = sts_ReadyReplicas out →
  let r := SyncFn opt cmRev sctRev c out in
  SemVerFromStatefulSet (Some r.2) = RolloutMySQLVersion c (Some out) ∧
  SyncFn opt cmRev sctRev r.1 r.2 = r.
Proof.
  intros Hv Hd r. split; [by apply SyncFn_version|].
  pose proof (Rollout_settles cmRev sctRev c out Hv Hd) as Hr. cbv zeta in Hr.
  unfold SyncFn at 1. cbv zeta. fold r in Hr. rewrite Hr.
  set (v := RolloutMySQLVersion c (Some out)). set (c1 := with_ReadyNodes (sts_ReadyReplicas out) c).
  set (ann := stamp cmRev sctRev (ps_Annotations (sp_PodSpec (cl_Spec c)))).
  assert (with_ReadyNodes (sts_ReadyReplicas r.2) r.1 = syncedCluster opt v ann c1) as -> by done.
  assert (stamp cmRev sctRev (ps_Annotations (sp_PodSpec (cl_Spec (syncedCluster opt v ann c1)))) = ann) as ->.
  { change (ps_Annotations (sp_PodSpec (cl_Spec (syncedCluster opt v ann c1)))) with
      (if bool_decide (ps_Annotations (sp_PodSpec (cl_Spec c)) = ∅)
       then ps_Annotations (sp_PodSpec (cl_Spec c)) else ann).
    unfold ann. case_bool_decide; [done|]. apply stamp_idem. }
  rewrite (synced_again v ann c1 ann) by (intros; reflexivity). rewrite synced_template.
  rewrite (syncTemplates_idem c1 _ out) by done. done.
Qed.

End Settles.

(** ** Examples *)

Module RefPodDefaults.
#[export] Instance pod_defaults : PodDefaults := λ p, p.

Lemma normalize_ports ctr : normalizeContainer (portsTCP ctr) = normalizeContainer ctr.
Proof.
  unfold normalizeContainer, portsTCP. destruct ctr as [? ? ? ? ? ? ? ? [ports|] ? ? ? ? ? ? ?]; [|done].
  cbn. do 2 f_equal. induction ports as [|x l IH]; [done|]. cbn [List.map]. rewrite !fmap_cons. f_equal; [|exact IH].
  apply withProtocol_idem.
Qed.

#[export] Instance pod_defaults_laws : PodDefaultsLaws.
Proof.
  split; try done. intros p. unfold normalizePodSpec, scheme_default_pod, pod_defaults.
  destruct p as [i cs ? ? ? ? ? ? ? ?]. unfold on_containers. cbn [cps_InitContainers cps_Containers].
  cbn. rewrite !List.map_map. f_equal; apply List.map_ext, normalize_ports.
Qed.
End RefPodDefaults.

Section Witnesses.
#[local] Existing Instances Ref.blang Ref.blang_laws sampleProcess RefPodDefaults.pod_defaults
  RefPodDefaults.pod_defaults_laws.

(** A rolling update to 8.4, with a container of the user. *)
Definition sampleUpgrade : MysqlCluster :=
  (Sample.cluster "8.4" "8.0.20") {{ cl_Spec -> sp_PodSpec -> ps_Containers := [mkContainer "extra" "busybox" []] }}
    {{ cl_Spec -> sp_PodSpec -> ps_Annotations := {["team" := "db"]} }}.
Definition sampleSts : StatefulSet := Sample.statefulSet "8.0.20" 3.

Lemma SyncFn_settles_witness :
  let r := SyncFn sampleOptions "r1" "r2" sampleUpgrade sampleSts in
  RolloutMySQLVersion sampleUpgrade (Some sampleSts) = mkVersion 8 4 8 ∧
  SyncFn sampleOptions "r1" "r2" r.1 r.2 = r.
Proof.
  split; [vm_compute; reflexivity|].
  refine (proj2 (SyncFn_settles sampleOptions "r1" "r2" sampleUpgrade sampleSts _ _)).
  - vm_compute. intuition lia.
  - left. vm_compute. discriminate.
Defined.

Lemma desiredTemplate_wellFormed_witness :
  wellFormed (desiredTemplate sampleOptions sampleUpgrade (mkVersion 8 4 8)).
Proof.
  apply desiredTemplate_wellFormed. split.
  - apply (bool_decide_unpack _). vm_compute. done.
  - apply (bool_decide_unpack _). vm_compute. done.
  - intros ctr Hc. apply list_elem_of_singleton in Hc as ->. apply NoDup_nil. done.
  - constructor.
  - intros ctr Hc. apply list_elem_of_singleton in Hc as ->. constructor.
Defined.

End Witnesses.
