(* ===== verification/Syncers.v ===== *)
(** * The objects of a cluster

    [pkg/controller/mysqlcluster/internal/syncer]: the callbacks of the syncers of
    the services, the disruption budget, the secrets and the pods.  A callback
    changes the object as the API server has it: fields that it does not name are
    kept.

    The labels that [PodSyncFn] puts on the pods are what the selectors of the
    services look for; [pod_routing] relates the two. *)

From S2P Require Import Prelude GoStrings Semver ClusterTypes Versioning ClusterStatus ClusterModel.
From S2P Require Import VersionUpgrade StatefulSet.
From coqutil Require Import Datatypes.RecordSetters.
Import DoubleBraceUpdate.
Open Scope stdpp_scope.

(** ** Objects *)

(** [core.ServicePort] and [core.Service]. *)
Record ServicePort := mkServicePort {
  sp_Name : string; sp_Port : Z; sp_TargetPort : IntOrString; sp_Protocol : string }.

Record Service := mkService {
  svc_Meta : ObjectMeta;
  svc_Type : string;
  svc_ClusterIP : string;
  svc_Selector : gmap string string;
  svc_PublishNotReadyAddresses : bool;
  svc_Ports : list ServicePort }.

Record PDB := mkPDB {
  pdb_Meta : ObjectMeta; pdb_MinAvailable : option IntOrString;
  pdb_Selector : option (gmap string string) }.

Record SecretObject := mkSecret {
  sec_Meta : ObjectMeta; sec_ResourceVersion : string; sec_Data : gmap string string }.

Definition zeroPort : ServicePort := mkServicePort "" 0 (FromInt 0) "".

(** [if len(ports) != n { ports = make([]core.ServicePort, n) }]. *)
Definition ensureLength (n : nat) (ports : list ServicePort) : list ServicePort :=
  if (length ports =? n)%nat then ports else replicate n zeroPort.

(** [ports[i] = f(ports[i])], in range. *)
Definition setPort (i : nat) (f : ServicePort → ServicePort) (ports : list ServicePort) : list ServicePort :=
  alter f i ports.

(** The fields that are assigned; a target port that is not is kept. *)
Definition tcpPort (name : string) (port : Z) (target : option Z) (p : ServicePort) : ServicePort :=
  mkServicePort name port (match target with Some t => FromInt t | None => sp_TargetPort p end) "TCP".

(* src/pkg/apis/domain/domain.go:62-68 ServiceTypeMaster *)
Definition ServiceTypeMaster : string := "master".
Definition ServiceTypeReadyNodes : string := "ready-nodes".
Definition ServiceTypeReadyReplicas : string := "ready-replicas".
Definition ServiceTypeNamespaceNodes : string := "namespace-nodes".

(* src/pkg/controller/mysqlcluster/internal/syncer/pod.go:44-49 labelMaster *)
Definition labelMaster : string := "master".
Definition labelReplica : string := "replica".
Definition labelHealthy : string := "yes".
Definition labelNotHealthy : string := "no".

Definition with_labels (l : gmap string string) (m : ObjectMeta) : ObjectMeta :=
  m {{ om_Labels := l }}.

(** ** Services *)

Section Services.
Context `{!Blang} (c : MysqlCluster).

(* src/pkg/controller/mysqlcluster/internal/syncer/headless_service.go:32-74 NewHeadlessSVCSyncer *)
Definition HeadlessSVCSyncFn (service : Service) : Service :=
  mkService
    (with_labels (list_to_map [("app.kubernetes.io/name", "mysql");
       ("app.kubernetes.io/managed-by", ManagedBy); (LabelServiceType, ServiceTypeNamespaceNodes)])
       (svc_Meta service))
    (svc_Type service) "None"
    (list_to_map [("app.kubernetes.io/name", "mysql"); ("app.kubernetes.io/managed-by", ManagedBy)])
    true
    (setPort 1 (tcpPort ExporterPortName ExporterPort (Some ExporterTargetPort))
      (setPort 0 (tcpPort MysqlPortName MysqlPort (Some TargetPort)) (ensureLength 2 (svc_Ports service)))).

(** The two ports of the services for clients. *)
Definition clientPorts (ports : list ServicePort) : list ServicePort :=
  setPort 1 (tcpPort SidecarServerPortName SidecarServerPort None)
    (setPort 0 (tcpPort MysqlPortName MysqlPort (Some TargetPort)) (ensureLength 2 ports)).

(* src/pkg/controller/mysqlcluster/internal/syncer/master_service.go:32-64 NewMasterSVCSyncer *)
Definition MasterSVCSyncFn (service : Service) : Service :=
  mkService (with_labels (<[LabelServiceType := ServiceTypeMaster]> (GetLabels c)) (svc_Meta service))
    (svc_Type service) (svc_ClusterIP service)
    (<["role" := labelMaster]> (GetSelectorLabels c))
    (svc_PublishNotReadyAddresses service) (clientPorts (svc_Ports service)).

(* src/pkg/controller/mysqlcluster/internal/syncer/healthy_replicas_service.go:31-66 NewHealthyReplicasSVCSyncer *)
Definition HealthyReplicasSVCSyncFn (service : Service) : Service :=
  mkService (with_labels (<[LabelServiceType := ServiceTypeReadyReplicas]> (GetLabels c)) (svc_Meta service))
    (svc_Type service) (svc_ClusterIP service)
    (<["healthy" := labelHealthy]> (<["role" := labelReplica]> (GetSelectorLabels c)))
    (svc_PublishNotReadyAddresses service) (clientPorts (svc_Ports service)).

(* src/pkg/controller/mysqlcluster/internal/syncer/healthy_service.go:32-60 NewHealthySVCSyncer *)
Definition HealthySVCSyncFn (service : Service) : Service :=
  mkService (with_labels (<[LabelServiceType := ServiceTypeReadyNodes]> (GetLabels c)) (svc_Meta service))
    "ClusterIP" (svc_ClusterIP service)
    (<["healthy" := "yes"]> (GetSelectorLabels c))
    (svc_PublishNotReadyAddresses service)
    (setPort 0 (tcpPort MysqlPortName MysqlPort (Some TargetPort)) (ensureLength 1 (svc_Ports service))).

(* src/pkg/controller/mysqlcluster/internal/syncer/pdb.go:31-51 NewPDBSyncer *)
Definition PDBSyncFn (pdb : PDB) : PDB :=
  match pdb_MinAvailable pdb with
  | Some _ => pdb
  | None => mkPDB (pdb_Meta pdb) (Some (FromString (MinAvailable (cl_Spec c)))) (Some (GetSelectorLabels c))
  end.

End Services.

(** ** Secrets *)

(** [rand.AlphaNumericString] of [presslabs/controller-util]. *)
Inductive rand_op := AlphaNumericString (length : Z).
#[export] Instance rand_effect : Effect rand_op := λ _, result string.

(* src/pkg/controller/mysqlcluster/internal/syncer/secret_operated.go:33-35 rStrLen *)
Definition rStrLen : Z := 18.

(* src/pkg/controller/mysqlcluster/internal/syncer/secret_operated.go:89-100 addRandomPassword *)
Definition addRandomPassword (data : gmap string string) (key : string) :
    prog rand_op (gmap string string * result unit) :=
  if (String.length (default "" (data !! key)) =? 0)%nat then
    r ← call (AlphaNumericString rStrLen);
    mret match (r : result string) with
         | Err e => (data, Err e)
         | Ok random => (<[key := random]> data, Ok tt)
         end
  else mret (data, Ok tt).

(** One part of the callback: a name that is fixed, and a password that is drawn
    once; the rest is skipped when drawing fails. *)
Definition addUser (userKey user passwordKey : string) (r : gmap string string * result unit) :
    prog rand_op (gmap string string * result unit) :=
  match r with
  | (data, Err e) => mret (data, Err e)
  | (data, Ok _) => addRandomPassword (<[userKey := user]> data) passwordKey
  end.

(* src/pkg/controller/mysqlcluster/internal/syncer/secret_operated.go:37-87 NewOperatedSecretSyncer *)
Definition OperatedSecretSyncFn (opt : Options) (secret : SecretObject) :
    prog rand_op (SecretObject * result unit) :=
  r ← addUser "OPERATOR_USER" "sys_operator" "OPERATOR_PASSWORD" (sec_Data secret, Ok tt);
  r ← addUser "REPLICATION_USER" "sys_replication" "REPLICATION_PASSWORD" r;
  r ← addUser "METRICS_EXPORTER_USER" MetricsExporterMySQLUser "METRICS_EXPORTER_PASSWORD" r;
  let r := match r with
    | (data, Err e) => (data, Err e)
    | (data, Ok _) =>
        (<["ORC_TOPOLOGY_PASSWORD" := OrchestratorTopologyPassword opt]>
         (<["ORC_TOPOLOGY_USER" := OrchestratorTopologyUser opt]> data), Ok tt)
    end in
  r ← addUser "HEARTBEAT_USER" HeartBeatMySQLUser "HEARTBEAT_PASSWORD" r;
  r ← addUser "BACKUP_USER" "sys_backups" "BACKUP_PASSWORD" r;
  mret (mkSecret (sec_Meta secret) (sec_ResourceVersion secret) r.1, r.2).

(* src/pkg/controller/mysqlcluster/internal/syncer/secret.go:31-51 NewSecretSyncer *)
Definition SecretSyncFn (secret : SecretObject) : result SecretObject :=
  match sec_Data secret !! "ROOT_PASSWORD" with
  | None => Err (ErrMsg ("ROOT_PASSWORD not set in secret: " +:+ om_Name (sec_Meta secret)))
  | Some _ => Ok secret
  end.

(** ** Pods *)

(* src/pkg/controller/mysqlcluster/internal/syncer/pod.go:123-125 getPodNameForHost *)
Definition getPodNameForHost (host : string) : string := (Split2 host "."%char).1.

(* src/pkg/controller/mysqlcluster/internal/syncer/errors.go:50-56 NewPodNotFoundError *)
Definition NewPodNotFoundError : error := ErrPodNotFound.

(* src/pkg/controller/mysqlcluster/internal/syncer/errors.go:59-66 IsPodNotFound *)
Definition IsPodNotFound (err : error) : bool :=
  match err with ErrPodNotFound => true | _ => false end.

Definition status_is (s : ConditionStatus) (cond : option NodeCondition) : bool :=
  match cond with Some cond => bool_decide (nc_Status cond = s) | None => false end.

(** [GetNodeCondition] may add the node to the status of the cluster, which is
    returned too. *)
(* src/pkg/controller/mysqlcluster/internal/syncer/pod.go:72-121 SyncFn *)
Definition PodSyncFn (c : MysqlCluster) (hostname : string) (out : Pod) : MysqlCluster * (Pod * result unit) :=
  if (om_CreationTimestamp (pod_Meta out) =? 0)%Z then (c, (out, Err NewPodNotFoundError))
  else
    let (master, c) := GetNodeCondition hostname NodeConditionMaster c in
    let (replicating, c) := GetNodeCondition hostname NodeConditionReplicating c in
    let (lagged, c) := GetNodeCondition hostname NodeConditionLagged c in
    match master with
    | None => (c, (out, Err (ErrMsg "master status condition not set")))
    | Some _ =>
        let isMaster := status_is ConditionTrue master in
        let isLagged := status_is ConditionTrue lagged in
        let isReplicating := status_is ConditionTrue replicating in
        let role := if isMaster then labelMaster else labelReplica in
        let healthy :=
          if isMaster || negb isMaster && isReplicating && negb isLagged
          then labelHealthy else labelNotHealthy in
        (c, (out {{ pod_Meta -> om_Labels ::= λ l, <["healthy" := healthy]> (<["role" := role]> l) }}, Ok tt))
    end.

(** ** Properties *)

(** *** Who is served *)

(** A service sends its clients to the pods that have the labels of its selector. *)
Definition selects (service : Service) (pod : Pod) : Prop := svc_Selector service ⊆ om_Labels (pod_Meta pod).

Lemma insert_subseteq_iff (k v : string) (m m' : gmap string string) :
  m !! k = None → <[k := v]> m ⊆ m' ↔ m' !! k = Some v ∧ m ⊆ m'.
Proof.
  intros Hk. split.
  - intros Hs. split; [apply (lookup_weaken (<[k := v]> m)); [by rewrite lookup_insert_eq|done]|].
    etrans; [|exact Hs]. by apply insert_subseteq.
  - intros [? ?]. by apply insert_subseteq_l.
Qed.

(** The condition of a node, as the status has it. *)
Definition hostIs (c : MysqlCluster) (host : string) (ty : NodeConditionType) : bool :=
  status_is ConditionTrue (nodeCondition (st_Nodes (cl_Status c)) host ty).

Section Routing.
Context `{!Blang}.

Lemma GetNodeCondition_pair host ty c :
  GetNodeCondition host ty c =
    (nodeCondition (st_Nodes (cl_Status c)) host ty, (GetNodeCondition host ty c).2).
Proof. rewrite <-GetNodeCondition_eq. by destruct (GetNodeCondition host ty c). Qed.

Lemma GetNodeCondition_frame host ty c host' ty' :
  nodeCondition (st_Nodes (cl_Status (GetNodeCondition host ty c).2)) host' ty' =
    nodeCondition (st_Nodes (cl_Status c)) host' ty'.
Proof.
  rewrite <-(nodeCondition_ensureNode host (st_Nodes (cl_Status c)) host'). unfold GetNodeCondition.
  rewrite GetNodeStatusIndex_eq. simpl.
  destruct (_ !! _) as [ns|]; [|done]. by destruct (GetNodeConditionIndex ns ty).
Qed.

Lemma PodSyncFn_ok c host out :
  (PodSyncFn c host out).2.2 = Ok tt →
  om_Labels (pod_Meta (PodSyncFn c host out).2.1) =
    <["healthy" := if hostIs c host NodeConditionMaster ||
                      hostIs c host NodeConditionReplicating && negb (hostIs c host NodeConditionLagged)
                   then labelHealthy else labelNotHealthy]>
    (<["role" := if hostIs c host NodeConditionMaster then labelMaster else labelReplica]>
      (om_Labels (pod_Meta out))).
Proof.
  unfold PodSyncFn. destruct (_ =? 0)%Z; [done|].
  rewrite (GetNodeCondition_pair host NodeConditionMaster).
  rewrite (GetNodeCondition_pair host NodeConditionReplicating), GetNodeCondition_frame.
  rewrite (GetNodeCondition_pair host NodeConditionLagged), !GetNodeCondition_frame.
  unfold hostIs. destruct (nodeCondition _ host NodeConditionMaster) as [m|]; [|done]. intros _.
  by destruct (status_is ConditionTrue (Some m)).
Qed.

(** A known host: the cluster stays as it is. *)
Lemma PodSyncFn_cluster c host out :
  host ∈ ns_Name <$> st_Nodes (cl_Status c) → (PodSyncFn c host out).1 = c.
Proof.
  intros Hin. unfold PodSyncFn. destruct (_ =? 0)%Z; [done|].
  rewrite 3!GetNodeCondition_known by done. by destruct (nodeCondition _ host NodeConditionMaster).
Qed.

(** The selector of the headless service. *)
Lemma headless_subseteq c :
  (list_to_map [("app.kubernetes.io/name", "mysql"); ("app.kubernetes.io/managed-by", ManagedBy)]
    : gmap string string) ⊆ GetSelectorLabels c.
Proof.
  apply map_subseteq_spec. intros k x Hk. apply elem_of_list_to_map_2 in Hk.
  rewrite !elem_of_cons, elem_of_nil in Hk. destruct Hk as [[= -> ->]|[[= -> ->]|[]]]; done.
Qed.

(** C27. Where clients end up.  Once the syncer of a pod of the cluster is done, the
    master service selects the pod exactly if it is the master, the service of
    replicas exactly if it is no master, replicates and does not lag, and the
    service of healthy nodes if one of the two holds; the headless service always
    does. *)
Theorem pod_routing (c : MysqlCluster) (host : string) (out : Pod) (service : Service) :
  GetSelectorLabels c ⊆ om_Labels (pod_Meta out) →
  (PodSyncFn c host out).2.2 = Ok tt →
  let pod := (PodSyncFn c host out).2.1 in
  let master := hostIs c host NodeConditionMaster = true in
  let follows := hostIs c host NodeConditionReplicating = true ∧ hostIs c host NodeConditionLagged = false in
  (selects (MasterSVCSyncFn c service) pod ↔ master) ∧
  (selects (HealthyReplicasSVCSyncFn c service) pod ↔ ¬ master ∧ follows) ∧
  (selects (HealthySVCSyncFn c service) pod ↔ master ∨ follows) ∧
  selects (HeadlessSVCSyncFn service) pod.
Proof.
  intros Hl Hok. cbv zeta. pose proof (PodSyncFn_ok _ _ _ Hok) as E. unfold selects. rewrite E. clear E Hok.
  assert (GetSelectorLabels c !! "role" = None ∧ GetSelectorLabels c !! "healthy" = None) as [Hr Hh]
    by by split; vm_compute.
  assert (∀ h r, GetSelectorLabels c ⊆ <["healthy" := h]> (<["role" := r]> (om_Labels (pod_Meta out)))) as Hb.
  { intros h r. apply insert_subseteq_r; [done|]. by apply insert_subseteq_r. }
  unfold MasterSVCSyncFn, HealthyReplicasSVCSyncFn, HealthySVCSyncFn, HeadlessSVCSyncFn. cbn [svc_Selector].
  rewrite !insert_subseteq_iff by (rewrite ?lookup_insert_ne by done; done).
  rewrite lookup_insert_eq, lookup_insert_ne, lookup_insert_eq by done.
  assert (∀ a b : string, Some a = Some b ↔ a = b) as Hsome by (intros; split; congruence).
  rewrite !Hsome. clear Hsome.
  destruct (hostIs c host NodeConditionMaster), (hostIs c host NodeConditionReplicating),
    (hostIs c host NodeConditionLagged); cbn [orb andb negb]; split_and!; try (split; intros; intuition done).
  all: etrans; [apply headless_subseteq|apply Hb].
Qed.

End Routing.

(** *** Passwords are drawn once *)

Definition passwords : list string :=
  ["OPERATOR_PASSWORD"; "REPLICATION_PASSWORD"; "METRICS_EXPORTER_PASSWORD"; "HEARTBEAT_PASSWORD"; "BACKUP_PASSWORD"].

Definition userNames (opt : Options) : list (string * string) :=
  [("OPERATOR_USER", "sys_operator"); ("REPLICATION_USER", "sys_replication");
   ("METRICS_EXPORTER_USER", MetricsExporterMySQLUser);
   ("ORC_TOPOLOGY_USER", OrchestratorTopologyUser opt); ("ORC_TOPOLOGY_PASSWORD", OrchestratorTopologyPassword opt);
   ("HEARTBEAT_USER", HeartBeatMySQLUser); ("BACKUP_USER", "sys_backups")].

(** What one part does to the data. *)
Record userStep (userKey user passwordKey : string) (r r' : gmap string string * result unit) : Prop := {
  step_frame k : k ≠ userKey → k ≠ passwordKey → r'.1 !! k = r.1 !! k;
  step_password : default "" (r.1 !! passwordKey) ≠ "" → r'.1 !! passwordKey = r.1 !! passwordKey;
  step_ok : r'.2 = Ok tt → r.2 = Ok tt ∧ r'.1 !! userKey = Some user ∧ is_Some (r'.1 !! passwordKey) }.

Lemma step_keeps userKey user passwordKey r r' k v :
  userStep userKey user passwordKey r r' → k ≠ userKey → (k = passwordKey → v ≠ "") →
  r.1 !! k = Some v → r'.1 !! k = Some v.
Proof.
  intros [Hf Hp _] Hu Hv Hk. destruct (decide (k = passwordKey)) as [->|Hn].
  - rewrite Hp; [done|]. rewrite Hk. by apply Hv.
  - by rewrite Hf.
Qed.

Lemma length_eqb_0 (s : string) : (String.length s =? 0)%nat = bool_decide (s = "").
Proof. by destruct s. Qed.

Lemma draw_emits n :
  emits (λ _, True) (λ _ : result string, True) (call (AlphaNumericString n) : prog rand_op (result string)).
Proof. by apply (emits_call _ (AlphaNumericString n) (λ _, True)). Qed.

Lemma addUser_emits userKey user passwordKey r : userKey ≠ passwordKey →
  emits (λ _, True) (userStep userKey user passwordKey r) (addUser userKey user passwordKey r).
Proof.
  intros Hne. destruct r as [data [[]|e]]; [|by apply emits_ret].
  unfold addUser, addRandomPassword. rewrite length_eqb_0, lookup_insert_ne by done.
  case_bool_decide as Hd.
  - eapply (emits_bind _ (λ _, True)); [apply draw_emits|].
    intros [v|e] _; apply emits_ret; split; cbn [fst snd]; try done.
    + intros k ? ?. by rewrite !lookup_insert_ne by done.
    + rewrite lookup_insert_ne, !lookup_insert_eq by done. intros _. split_and!; [done|done|by eexists].
    + intros k ? ?. by rewrite lookup_insert_ne by done.
  - apply emits_ret. split; cbn [fst snd].
    + intros k ? ?. by rewrite lookup_insert_ne by done.
    + by rewrite lookup_insert_ne by done.
    + rewrite lookup_insert_eq, lookup_insert_ne by done. intros _. split_and!; [done|done|].
      destruct (data !! passwordKey); [by eexists|done].
Qed.

Lemma addUser_id userKey user passwordKey data w h :
  data !! userKey = Some user → default "" (data !! passwordKey) ≠ "" →
  addUser userKey user passwordKey (data, Ok tt) w h = ((data, Ok tt), h).
Proof.
  intros Hu Hp. unfold addUser, addRandomPassword. rewrite insert_id, length_eqb_0, bool_decide_false by done. done.
Qed.

(** A complete secret stays as it is. *)
Lemma OperatedSecret_id opt s w h :
  (∀ k v, (k, v) ∈ userNames opt → sec_Data s !! k = Some v) →
  (∀ k, k ∈ passwords → default "" (sec_Data s !! k) ≠ "") →
  OperatedSecretSyncFn opt s w h = ((s, Ok tt), h).
Proof.
  intros Hn Hp. unfold userNames in Hn. unfold passwords in Hp.
  unfold OperatedSecretSyncFn, mbind, prog_bind.
  do 3 (rewrite addUser_id by (first [apply Hn|apply Hp]; set_solver); cbn [fst snd]).
  rewrite (insert_id (sec_Data s) "ORC_TOPOLOGY_USER"), (insert_id (sec_Data s) "ORC_TOPOLOGY_PASSWORD")
    by (apply Hn; set_solver).
  do 2 (rewrite addUser_id by (first [apply Hn|apply Hp]; set_solver); cbn [fst snd]).
  by destruct s.
Qed.

(** C29. The operator's own secret.  Passwords that are set are kept, also when the
    callback fails, and so is all else in the secret; when it succeeds, every user
    has its name and every password is set; and a second run draws nothing and
    changes nothing, if the passwords drawn were not empty. *)
Theorem operated_secret_stable (opt : Options) (secret : SecretObject) (w : world rand_op) :
  let r := run (OperatedSecretSyncFn opt secret) w in
  sec_Meta r.1 = sec_Meta secret ∧
  (∀ k v, sec_Data secret !! k = Some v → k ∉ (userNames opt).*1 → (k ∈ passwords → v ≠ "") →
     sec_Data r.1 !! k = Some v) ∧
  (r.2 = Ok tt →
     (∀ k v, (k, v) ∈ userNames opt → sec_Data r.1 !! k = Some v) ∧
     (∀ k, k ∈ passwords → is_Some (sec_Data r.1 !! k)) ∧
     ((∀ k, k ∈ passwords → default "" (sec_Data r.1 !! k) ≠ "") →
      ∀ w' h, OperatedSecretSyncFn opt r.1 w' h = (r, h))).
Proof.
  set (Q := λ r : SecretObject * result unit,
    sec_Meta r.1 = sec_Meta secret ∧
    (∀ k v, sec_Data secret !! k = Some v → k ∉ (userNames opt).*1 → (k ∈ passwords → v ≠ "") →
       sec_Data r.1 !! k = Some v) ∧
    (r.2 = Ok tt → (∀ k v, (k, v) ∈ userNames opt → sec_Data r.1 !! k = Some v) ∧
       (∀ k, k ∈ passwords → is_Some (sec_Data r.1 !! k)))).
  assert (emits (λ _, True) Q (OperatedSecretSyncFn opt secret)) as He.
  { unfold OperatedSecretSyncFn.
    eapply emits_bind; [by apply addUser_emits|]. intros r1 H1.
    eapply emits_bind; [by apply addUser_emits|]. intros r2 H2.
    eapply emits_bind; [by apply addUser_emits|]. intros r3 H3. cbv zeta.
    eapply emits_bind; [by apply addUser_emits|]. intros r4 H4.
    eapply emits_bind; [by apply addUser_emits|]. intros r5 H5.
    set (r3' := match r3 with (data, Err e) => (data, Err e) | (data, Ok _) => _ end) in H4.
    assert (∀ k, k ≠ "ORC_TOPOLOGY_PASSWORD" → k ≠ "ORC_TOPOLOGY_USER" → r3'.1 !! k = r3.1 !! k) as F3'.
    { intros k ? ?. unfold r3'. destruct r3 as [data [[]|e]]; [|done]. cbn [fst]. by rewrite !lookup_insert_ne by done. }
    assert (r3'.2 = Ok tt → r3.2 = Ok tt ∧ r3'.1 !! "ORC_TOPOLOGY_USER" = Some (OrchestratorTopologyUser opt) ∧
      r3'.1 !! "ORC_TOPOLOGY_PASSWORD" = Some (OrchestratorTopologyPassword opt)) as O3'.
    { unfold r3'. destruct r3 as [data [[]|e]]; [|done]. intros _. cbn [fst snd].
      by rewrite lookup_insert_eq, lookup_insert_ne, lookup_insert_eq by done. }
    clearbody r3'. apply emits_ret. unfold Q. cbn [sec_Meta sec_Data fst snd]. split_and!; [done| |].
    - intros k v Hk Hn Hv. unfold userNames in Hn. cbn in Hn. rewrite !not_elem_of_cons in Hn.
      destruct Hn as (?&?&?&?&?&?&?&_).
      assert (∀ pk, pk ∈ passwords → k = pk → v ≠ "") as Hv' by (intros pk ? ->; by apply Hv).
      eapply step_keeps; [exact H5|done|apply Hv'; unfold passwords; set_solver|].
      eapply step_keeps; [exact H4|done|apply Hv'; unfold passwords; set_solver|].
      rewrite F3' by done.
      eapply step_keeps; [exact H3|done|apply Hv'; unfold passwords; set_solver|].
      eapply step_keeps; [exact H2|done|apply Hv'; unfold passwords; set_solver|].
      by eapply step_keeps; [exact H1|done|apply Hv'; unfold passwords; set_solver|].
    - intros Hok. destruct H5 as [F5 _ O5], H4 as [F4 _ O4], H3 as [F3 _ O3], H2 as [F2 _ O2], H1 as [F1 _ O1].
      destruct (O5 Hok) as (Hok4 & ? & ?), (O4 Hok4) as (Hok3' & ? & ?), (O3' Hok3') as (Hok3 & ? & ?),
        (O3 Hok3) as (Hok2 & ? & ?), (O2 Hok2) as (Hok1 & ? & ?), (O1 Hok1) as (_ & ? & ?).
      split.
      + intros k v Hkv. unfold userNames in Hkv. rewrite !elem_of_cons, elem_of_nil in Hkv.
        destruct Hkv as [[= -> ->]|[[= -> ->]|[[= -> ->]|[[= -> ->]|[[= -> ->]|[[= -> ->]|[[= -> ->]|[]]]]]]]];
          rewrite ?F5, ?F4, ?F3', ?F3, ?F2 by discriminate; done.
      + intros k Hk. unfold passwords in Hk. rewrite !elem_of_cons, elem_of_nil in Hk.
        destruct Hk as [->|[->|[->|[->|[->|[]]]]]]; rewrite ?F5, ?F4, ?F3', ?F3, ?F2 by discriminate; done. }
  destruct (emits_trace _ _ _ w He) as (_ & Hm & Hk & Hok).
  cbv zeta. split_and!; [exact Hm|exact Hk|]. intros Hr. destruct (Hok Hr) as [Hn Hp].
  split_and!; [exact Hn|exact Hp|]. intros Hne w' h.
  set (r := run (OperatedSecretSyncFn opt secret) w) in *. clearbody r. destruct r as [s ok]. cbn [fst snd] in *. subst ok.
  by apply OperatedSecret_id.
Qed.

(** ** Examples *)

Section Witnesses.
#[local] Existing Instances Ref.blang.

Definition nodeOf (host : string) (master : bool) : NodeStatus :=
  let st (b : bool) := if b then ConditionTrue else ConditionFalse in
  mkNodeStatus host
    [mkNodeCondition NodeConditionMaster (st master) 0; mkNodeCondition NodeConditionReplicating (st (negb master)) 0;
     mkNodeCondition NodeConditionLagged ConditionFalse 0].

(** The first pod is the master, the second follows it. *)
Definition routedCluster : MysqlCluster :=
  with_Nodes [nodeOf "demo-mysql-0.mysql.prod" true; nodeOf "demo-mysql-1.mysql.prod" false]
    (Sample.cluster "8.0" "8.0.20").

Definition routedPod (name : string) : Pod :=
  (Sample.pod name "prod" []) {{ pod_Meta -> om_CreationTimestamp := 1%Z }}
    {{ pod_Meta -> om_Labels := GetSelectorLabels routedCluster }}.

Definition plainService : Service := mkService (Sample.meta "s" "prod") "" "" ∅ false [].

Lemma pod_routing_witness :
  let pod host := (PodSyncFn routedCluster host (routedPod (getPodNameForHost host))).2.1 in
  selects (MasterSVCSyncFn routedCluster plainService) (pod "demo-mysql-0.mysql.prod") ∧
  selects (HealthyReplicasSVCSyncFn routedCluster plainService) (pod "demo-mysql-1.mysql.prod") ∧
  ¬ selects (MasterSVCSyncFn routedCluster plainService) (pod "demo-mysql-1.mysql.prod").
Proof.
  cbv zeta.
  destruct (pod_routing routedCluster "demo-mysql-0.mysql.prod" (routedPod "demo-mysql-0") plainService)
    as (Hm & _); [done|reflexivity|].
  destruct (pod_routing routedCluster "demo-mysql-1.mysql.prod" (routedPod "demo-mysql-1") plainService)
    as (Hm1 & Hr1 & _); [done|reflexivity|].
  split; [apply Hm; reflexivity|]. split; [apply Hr1; split; [discriminate|by split]|].
  rewrite Hm1. discriminate.
Defined.

End Witnesses.
