(* ===== verification/IniFile.v ===== *)
(** * Option files

    The files of sections and keys that the operator and the sidecar write with the
    library [go-ini]: the class [IniLib] of its operations; the laws [IniLaws], which
    say what a file holds after each of them, and how the text that is written reads
    as an option file of MySQL; and the reader [readCnf] of such texts.
    [Module RefIni] is an implementation, for examples.

    The values of the options in a specification are integers or strings, with the
    functions of the class [IntStr]. *)

From S2P Require Import Prelude GoStrings ClusterTypes.
Open Scope stdpp_scope.

(** ** What a file holds *)

(** A key has a value, and is written without it if it was made as a boolean one. *)
Record IniKey := mkIniKey { ik_value : string; isBooleanType : bool }.

(** The sections in the order in which they were named, with their keys. *)
Definition keys : Type := list (string * IniKey).
Definition content : Type := list (string * keys).

(** A key that is there keeps its place and stays boolean. *)
Fixpoint putKey (k v : string) (boolean : bool) (ks : keys) : keys :=
  match ks with
  | [] => [(k, mkIniKey v boolean)]
  | (k', x) :: ks =>
      if String.eqb k' k then (k', mkIniKey v (boolean || isBooleanType x)) :: ks
      else (k', x) :: putKey k v boolean ks
  end.

(** A section that is missing is added. *)
Fixpoint onSection (name : string) (g : keys → keys) (c : content) : content :=
  match c with
  | [] => [(name, g [])]
  | (n, ks) :: c => if String.eqb n name then (n, g ks) :: c else (n, ks) :: onSection name g c
  end.

Fixpoint findKey (k : string) (ks : keys) : option IniKey :=
  match ks with
  | [] => None
  | (k', x) :: ks => if String.eqb k' k then Some x else findKey k ks
  end.

Fixpoint keysOf (name : string) (c : content) : keys :=
  match c with
  | [] => []
  | (n, ks) :: c => if String.eqb n name then ks else keysOf name c
  end.

Lemma keysOf_onSection name g c n :
  keysOf n (onSection name g c) = if String.eqb name n then g (keysOf name c) else keysOf n c.
Proof.
  induction c as [|[n' ks] c IH]; simpl; [by destruct (String.eqb name n)|].
  destruct (String.eqb_spec n' name) as [->|Hne]; simpl; [by destruct (String.eqb_spec name n)|].
  rewrite IH. destruct (String.eqb_spec n' n) as [->|?]; [|done].
  by rewrite (proj2 (String.eqb_neq name n) (not_eq_sym Hne)).
Qed.

Lemma findKey_putKey k v b ks k' :
  findKey k' (putKey k v b ks) =
    if String.eqb k k' then Some (mkIniKey v (b || from_option isBooleanType false (findKey k ks)))
    else findKey k' ks.
Proof.
  induction ks as [|[k0 x] ks IH]; simpl.
  { rewrite orb_false_r. by destruct (String.eqb k k'). }
  destruct (String.eqb_spec k0 k) as [->|Hne]; simpl; [by destruct (String.eqb_spec k k')|].
  rewrite IH. destruct (String.eqb_spec k0 k') as [->|?]; [|done].
  by rewrite (proj2 (String.eqb_neq k k') (not_eq_sym Hne)).
Qed.

Lemma findKey_is_Some k ks : is_Some (findKey k ks) ↔ k ∈ ks.*1.
Proof.
  induction ks as [|[k' x] ks IH]; simpl.
  { split; [by intros []|by intros ?%not_elem_of_nil]. }
  rewrite elem_of_cons, <-IH. destruct (String.eqb_spec k' k) as [->|?]; [by split; [left|eauto]|].
  split; [by right|]. intros [->|?]; done.
Qed.

(** ** The text *)

(** The characters that neither the writer quotes nor the reader treats apart. *)
Definition plainChar (c : ascii) : bool :=
  negb (existsb (Ascii.eqb c) (ascii_of_N <$> [10; 13; 34; 35; 39; 59; 92; 96]%N)).

Definition keyChar (c : ascii) : bool :=
  plainChar c && negb (existsb (Ascii.eqb c) ["="; ":"; "["; "]"]%char).

Definition trimmed (s : string) : bool := String.eqb (TrimSpace s) s.

Definition plainValue (s : string) : bool := str_forall plainChar s && trimmed s.

Definition plainName (s : string) : bool := negb (String.eqb s "") && str_forall keyChar s && trimmed s.

Definition plainSection (s : string * keys) : Prop :=
  plainName s.1 = true ∧ s.1 ≠ "DEFAULT" ∧
  Forall (λ kx, plainName kx.1 = true ∧ plainValue (ik_value kx.2) = true) s.2.

(** An option as a reader finds it: its group, its name, and the value if there is
    one.  The directive that includes a directory is read as an option. *)
Definition cnfItem : Type := string * (string * option string).

Definition writtenKey (kx : string * IniKey) : string * option string :=
  (kx.1, if isBooleanType kx.2 then None else Some (ik_value kx.2)).

Definition written (c : content) : list cnfItem :=
  flat_map (λ s, List.map (λ kx, (s.1, writtenKey kx)) s.2) c.

(** The reader of option files: comments, groups, and options up to the sign [=]. *)
Definition readLine (group line : string) : string * list cnfItem :=
  match TrimLeftSpace line with
  | "" => (group, [])
  | String ch rest =>
      if Ascii.eqb ch "#" || Ascii.eqb ch ";" then (group, [])
      else if Ascii.eqb ch "[" then ((Split2 rest "]").1, [])
      else let kv := Split2 (String ch rest) "=" in (group, [(group, (TrimSpace kv.1, TrimSpace <$> kv.2))])
  end.

Fixpoint readLines (group : string) (lines : list string) : list cnfItem :=
  match lines with
  | [] => []
  | line :: lines => let r := readLine group line in r.2 ++ readLines r.1 lines
  end.

Definition readCnf (text : string) : list cnfItem := readLines "" (Split text (ascii_of_N 10)).

(** The options of a group. *)
Definition groupOf (group text : string) : list (string * option string) :=
  omap (λ i : cnfItem, if String.eqb i.1 group then Some i.2 else None) (readCnf text).

(** Dashes and underscores are the same in the name of an option; its last
    occurrence counts. *)
Fixpoint optionName (s : string) : string :=
  match s with
  | "" => ""
  | String ch s => String (if Ascii.eqb ch "_" then "-"%char else ch) (optionName s)
  end.

Definition settingIn (l : list (string * option string)) (k : string) : option (option string) :=
  last (omap (λ kv : string * option string,
    if String.eqb (optionName kv.1) (optionName k) then Some kv.2 else None) l).

(** [None] if the option is not in the group, [Some None] if it is there without a
    value. *)
Definition setting (text group k : string) : option (option string) := settingIn (groupOf group text) k.

(** ** The libraries *)

(** [go-ini].  A key is made in [f.Section(name)], which is added if it is missing. *)
Class IniLib := {
  Ini : Type;
  IniEmpty : Ini;
  IniSection : string → Ini → Ini;
  NewSection : string → Ini → result Ini;
  NewKey : string → string → string → Ini → result Ini;
  NewBooleanKey : string → string → Ini → result Ini;
  IniWriteTo : Ini → result string;
  IniContent : Ini → content }.

(** [intstr.Parse] and [IntOrString.String] of [k8s.io/apimachinery]. *)
Class IntStr := { IntStrParse : string → IntOrString; IntStrString : IntOrString → string }.

Class IniLaws `{!IniLib} : Prop := {
  content_empty : IniContent IniEmpty = [];
  content_section name f : name ≠ "" → IniContent (IniSection name f) = onSection name id (IniContent f);
  content_new_section name f : name ≠ "" →
    ∃ f', NewSection name f = Ok f' ∧ IniContent f' = onSection name id (IniContent f);
  content_new_key name k v f : name ≠ "" → k ≠ "" →
    ∃ f', NewKey name k v f = Ok f' ∧ IniContent f' = onSection name (putKey k v false) (IniContent f);
  new_key_empty name v f : ∃ e, NewKey name "" v f = Err e;
  content_new_boolean name k f : name ≠ "" → k ≠ "" →
    ∃ f', NewBooleanKey name k f = Ok f' ∧ IniContent f' = onSection name (putKey k "true" true) (IniContent f);
  (** what is plain reads back *)
  write_read f : Forall plainSection (IniContent f) →
    ∃ text, IniWriteTo f = Ok text ∧ readCnf text = written (IniContent f) }.

Class IntStrLaws `{!IntStr} : Prop := {
  intstr_parse s : Atoi s = None → IntStrParse s = FromString s;
  intstr_parse_int s i : Atoi s = Some i → ∃ j, IntStrParse s = FromInt j;
  intstr_string s : IntStrString (FromString s) = s;
  intstr_itoa i : IntStrString (FromInt i) = itoa i }.

(** *** The value of a key *)

Definition IniGet `{!IniLib} (f : Ini) (section k : string) : option string :=
  ik_value <$> findKey k (keysOf section (IniContent f)).

Section Values.
Context `{!IniLib, !IniLaws}.

Lemma ini_empty section k : IniGet IniEmpty section k = None.
Proof. unfold IniGet. by rewrite content_empty. Qed.

Lemma ini_section name f section k : name ≠ "" → IniGet (IniSection name f) section k = IniGet f section k.
Proof.
  intros Hn. unfold IniGet. rewrite content_section, keysOf_onSection by done. by destruct (String.eqb_spec name section) as [->|].
Qed.

Lemma ini_new_key name key v f : name ≠ "" → key ≠ "" →
  ∃ f', NewKey name key v f = Ok f' ∧
    ∀ section k, IniGet f' section k = if decide (section = name ∧ k = key) then Some v else IniGet f section k.
Proof.
  intros Hn Hk. destruct (content_new_key name key v f Hn Hk) as (f' & Hf' & Hc). exists f'. split; [done|].
  intros section k. unfold IniGet. rewrite Hc, keysOf_onSection.
  destruct (String.eqb_spec name section) as [->|]; [rewrite findKey_putKey; destruct (String.eqb_spec key k) as [->|]|];
    case_decide; naive_solver.
Qed.

End Values.

(** *** Plain text *)

Lemma plain_number i : plainValue (itoa i) = true.
Proof.
  assert (∀ j, (0 ≤ j)%Z → str_forall is_digit (itoa j) = true) as Hd by (intros j; apply all_digits_itoa).
  assert (∀ s, str_forall (λ c, is_digit c || Ascii.eqb c "-") s = true → plainValue s = true) as Himpl.
  { intros s Hs. apply andb_true_iff. split; [|apply String.eqb_eq, TrimSpace_no_space];
      (eapply str_forall_impl; [|exact Hs]); intros [[] [] [] [] [] [] [] []]; vm_compute; done. }
  apply Himpl. destruct i as [|p|p]; [done| |].
  - eapply str_forall_impl; [|apply (Hd (Z.pos p)); lia]. by intros c ->.
  - change (itoa (Z.neg p)) with ("-" +:+ itoa (Z.pos p)). rewrite str_forall_app.
    apply andb_true_iff. split; [done|]. eapply str_forall_impl; [|apply (Hd (Z.pos p)); lia]. by intros c ->.
Qed.

Lemma plain_parsed `{!IntStr, !IntStrLaws} s :
  plainValue s = true → plainValue (IntStrString (IntStrParse s)) = true.
Proof.
  intros Hs. destruct (Atoi s) as [i|] eqn:E.
  - destruct (intstr_parse_int s i E) as [j ->]. rewrite intstr_itoa. apply plain_number.
  - by rewrite intstr_parse, intstr_string.
Qed.

(** ** An implementation *)

Module RefIni.

(** Files as what they hold, written a line for a group and one for a key. *)
Definition keyLine (kx : string * IniKey) : string :=
  kx.1 +:+ (if isBooleanType kx.2 then "" else "=" +:+ ik_value kx.2).

Definition linesOf (c : content) : list string :=
  flat_map (λ s, ("[" +:+ s.1 +:+ "]") :: List.map keyLine s.2) c.

Definition write (c : content) : string := foldr (λ line t, line +:+ newline +:+ t) "" (linesOf c).

Definition newKey (boolean : bool) (name k v : string) (c : content) : result content :=
  if String.eqb k "" then Err (ErrMsg "error creating new key: empty key name")
  else Ok (onSection name (putKey k v boolean) c).

#[export] Instance lib : IniLib := {|
  Ini := content;
  IniEmpty := [];
  IniSection name := onSection name id;
  NewSection name c := if String.eqb name "" then Err (ErrMsg "empty section name") else Ok (onSection name id c);
  NewKey := newKey false;
  NewBooleanKey name k := newKey true name k "true";
  IniWriteTo c := Ok (write c);
  IniContent c := c |}.

(** *** Reading what was written *)

Lemma plain_index (P : ascii → bool) s c : str_forall P s = true → P c = false → Index s (String c "") = None.
Proof. intros Hs Hc. by eapply str_forall_Index. Qed.

Lemma TrimSpace_head s ch rest : TrimSpace s = s → s = String ch rest → is_space ch = false.
Proof.
  assert (∀ t, String.length (TrimRightSpace t) ≤ String.length t)%nat as Hr.
  { induction t as [|c t IH]; simpl; [done|]. destruct (TrimRightSpace t); simpl in *; [case_match; simpl; lia|lia]. }
  assert (∀ t, String.length (TrimLeftSpace t) ≤ String.length t)%nat as Hl.
  { induction t as [|c t IH]; simpl; [done|]. case_match; simpl in *; lia. }
  intros Hs ->. destruct (is_space ch) eqn:E; [|done]. exfalso.
  apply (f_equal String.length) in Hs. unfold TrimSpace in Hs. simpl in Hs. rewrite E in Hs.
  specialize (Hr (TrimLeftSpace rest)). specialize (Hl rest). lia.
Qed.

Lemma read_header group n :
  plainName n = true → readLine group ("[" +:+ n +:+ "]") = (n, []).
Proof.
  intros [[_ Hk]%andb_prop _]%andb_prop. unfold readLine. simpl.
  change ("]") with (String "]" ""). by rewrite Split2_app by (by eapply plain_index).
Qed.

Lemma Split2_none s (sep : ascii) : Index s (String sep "") = None → Split2 s sep = (s, None).
Proof.
  induction s as [|c s IH]; [done|]. simpl. rewrite andb_true_r, (Ascii.eqb_sym sep c).
  destruct (Ascii.eqb c sep); [done|]. destruct (Index s _) eqn:E; [done|]. intros _. by rewrite IH.
Qed.

Lemma read_key group kx :
  plainName kx.1 = true → plainValue (ik_value kx.2) = true →
  readLine group (keyLine kx) = (group, [(group, writtenKey kx)]).
Proof.
  destruct kx as [k [v b]]. cbn [fst snd ik_value]. unfold plainName, plainValue, trimmed, keyLine, writtenKey. cbn [fst snd ik_value isBooleanType].
  intros [[Hne Hk]%andb_prop Ht%String.eqb_eq]%andb_prop [_ Hv%String.eqb_eq]%andb_prop.
  destruct k as [|ch k]; [done|]. pose proof (TrimSpace_head _ ch k Ht eq_refl) as Hsp.
  assert (keyChar ch = true) as Hch by by apply andb_prop in Hk as [? _].
  unfold readLine. cbn [String.append TrimLeftSpace]. rewrite Hsp.
  assert (Ascii.eqb ch "#" || Ascii.eqb ch ";" = false ∧ Ascii.eqb ch "[" = false) as [-> ->].
  { clear -Hch. by destruct ch as [[] [] [] [] [] [] [] []]. }
  change (String ch (k +:+ ?t)) with (String ch k +:+ t).
  destruct b; cbv zeta; [rewrite str_app_nil_r, Split2_none by (by eapply plain_index)|
    change ("=" +:+ v) with (String "=" v); rewrite Split2_app by (by eapply plain_index)]; simpl; by rewrite Ht, ?Hv.
Qed.

Lemma read_keys group ks rest :
  Forall (λ kx, plainName kx.1 = true ∧ plainValue (ik_value kx.2) = true) ks →
  readLines group (List.map keyLine ks ++ rest) = List.map (λ kx, (group, writtenKey kx)) ks ++ readLines group rest.
Proof.
  induction 1 as [|kx ks [Hk Hv] _ IH]; [done|]. simpl. rewrite read_key by done. simpl. by rewrite IH.
Qed.

Lemma read_lines group c :
  Forall plainSection c → readLines group (linesOf c ++ [""]) = written c.
Proof.
  intros Hc. revert group. induction Hc as [|[n ks] c (Hn & _ & Hks) _ IH]; intros group; [done|].
  unfold linesOf, written. cbn [flat_map]. rewrite <-app_assoc. cbn [app readLines].
  cbn [fst snd] in Hn, Hks |- *. rewrite read_header by done. cbn [fst snd app].
  rewrite read_keys by done. f_equal. apply IH.
Qed.

Lemma no_newline c : Forall plainSection c → Forall (λ l, Index l newline = None) (linesOf c).
Proof.
  assert (∀ s, str_forall plainChar s = true → Index s newline = None) as Hi.
  { intros s Hs. by eapply plain_index. }
  assert (∀ s, str_forall keyChar s = true → str_forall plainChar s = true) as Hkp.
  { intros s. apply str_forall_impl. by intros c0 [? _]%andb_prop. }
  induction 1 as [|[n ks] c (Hn & _ & Hks) _ IH]; [constructor|]. unfold linesOf. cbn [flat_map].
  apply Forall_app. split; [|exact IH]. cbn [fst snd] in *. constructor.
  - apply Hi. rewrite !str_forall_app. apply andb_prop in Hn as [[_ Hn%Hkp]%andb_prop _]. by rewrite Hn.
  - induction Hks as [|kx ks [Hk Hv] _ IHk]; [constructor|]. constructor; [|exact IHk].
    apply Hi. unfold keyLine. apply andb_prop in Hk as [[_ Hk%Hkp]%andb_prop _]. apply andb_prop in Hv as [Hv _].
    destruct (isBooleanType kx.2); by rewrite ?str_app_nil_r, ?str_forall_app, ?Hk, ?Hv.
Qed.

Lemma Split_lines ls :
  Forall (λ l, Index l newline = None) ls →
  Split (foldr (λ line t, line +:+ newline +:+ t) "" ls) (ascii_of_N 10) = ls ++ [""].
Proof.
  induction 1 as [|l ls Hl _ IH]; [done|]. etrans; [by apply Split_app|]. exact (f_equal (cons l) IH).
Qed.

#[export] Instance laws : IniLaws.
Proof.
  split; intros *; try done.
  - intros Hn. cbn. destruct (String.eqb_spec name ""); [done|]. by eexists.
  - intros _ Hk. cbn. unfold newKey. destruct (String.eqb_spec k ""); [done|]. by eexists.
  - by eexists.
  - intros _ Hk. cbn. unfold newKey. destruct (String.eqb_spec k ""); [done|]. by eexists.
  - intros Hp. eexists. split; [reflexivity|]. unfold readCnf, write.
    rewrite Split_lines by by apply no_newline. by apply read_lines.
Qed.

#[export] Instance int_str : IntStr := {|
  IntStrParse s := match Atoi s with Some i => FromInt (wrap32 i) | None => FromString s end;
  IntStrString v := match v with FromInt i => itoa i | FromString s => s end |}.

#[export] Instance int_str_laws : IntStrLaws.
Proof.
  split; try done; intros s; unfold IntStrParse, int_str; [by intros ->|]. intros i ->. by eexists.
Qed.

End RefIni.
