(* ===== verification/ConfigMap.v ===== *)
(** * The configuration of the servers

    [pkg/controller/mysqlcluster/internal/syncer/config_map.go]: the config map with
    [my.cnf], built from the options of the operator for a version and those of the
    user, and the script that runs before a pod is stopped.

    The option file and its text are those of [IniFile]: what the theorem states of
    [my.cnf] is what the server reads in the text that is written. *)

From S2P Require Import Prelude GoStrings Semver ClusterTypes Versioning ClusterStatus ClusterModel.
From S2P Require Import IniFile VersionUpgrade StatefulSet Syncers.
From coqutil Require Import Datatypes.RecordSetters.
Import DoubleBraceUpdate.
Open Scope stdpp_scope.

(** ** The script *)

(** A raw string of Go has no backquote: here it stands for the double quote. *)
Fixpoint raw (s : string) : string :=
  match s with
  | "" => ""
  | String ch s => (if (N_of_ascii ch =? 96)%N then dquote else String ch "") +:+ raw s
  end.

Definition preStopTemplate : string := raw "#!/bin/bash
set -ex

# Source/replica terminology from MySQL 8.4+ (major > 8, or 8.x with minor >= 4).
prestop_mysql_use_source_replica_terms() {
  local ver=`$1`
  local mysql_major mysql_minor rest
  mysql_major=`${ver%%.*}`
  rest=`${ver#*.}`
  mysql_minor=`${rest%%.*}`
  if [ `${mysql_major}` -gt 8 ] || { [ `${mysql_major}` -eq 8 ] && [ `${mysql_minor}` -ge 4 ]; }; then
    return 0
  fi
  return 1
}

if [ -z `${MY_MYSQL_VERSION}` ]; then
  # Pods created before MY_MYSQL_VERSION was injected lack the env var; ask the local mysqld.
  MY_MYSQL_VERSION=$(mysql --defaults-file=ConfClientPathHolder -NB -e 'SELECT VERSION()')
fi
use_source_replica_terms=0
if prestop_mysql_use_source_replica_terms `${MY_MYSQL_VERSION}`; then
  use_source_replica_terms=1
fi
if [ `${use_source_replica_terms}` -eq 1 ]; then
  replica_status_cmd='__SR_STATUS__'
  replica_hosts_cmd='__SR_HOSTS__'
  log_label='__SR_LABEL__'
else
  replica_status_cmd='__MS_STATUS__'
  replica_hosts_cmd='__MS_HOSTS__'
  log_label='__MS_LABEL__'
fi

current=$(date `+%Y-%m-%d %H:%M:%S`)
echo `[${current}]preStop is ongoing`
read_only_status=$(mysql --defaults-file=ConfClientPathHolder -NB -e 'SELECT @@read_only')
replica_status=$(mysql --defaults-file=ConfClientPathHolder -NB -e `${replica_status_cmd}`)
# orchestrator will isolate old master during failover
has_replica_hosts=$(mysql --defaults-file=ConfClientPathHolder -NB -e `${replica_hosts_cmd}`)
replica_status_count=$(echo -n `$replica_status` | wc -l )
has_replica_count=$(echo -n `$has_replica_hosts` | wc -l )
echo `hostname=$(hostname) readonly=${read_only_status} ${log_label}=${replica_status_count}`
echo `has_replica_hosts=${has_replica_count}`
if [ ${read_only_status} -eq 0  ] && [ ${replica_status_count} -eq 0 ] && [ ${has_replica_count} -gt 0 ]
then
		masterhostname=$( curl  -s `${ORCH_HTTP_API}/master/${ORCH_CLUSTER_ALIAS}` |  awk -F`:` '{print $3}' | awk -F'`' '{print $2}' )
        echo `master from orchestrator: ${masterhostname}`
        if [ `${MY_FQDN}` == `${masterhostname}` ]
        then
                curl  -s `${ORCH_HTTP_API}/graceful-master-takeover-auto/${ORCH_CLUSTER_ALIAS}`
				echo `graceful-master-takeover-auto is ongoing, sleep 5 seconds in order to make sure service can work well.`
				sleep 5
        fi
fi
".

(* src/pkg/controller/mysqlcluster/internal/syncer/config_map.go:75-147 buildBashPreStop *)
Definition buildBashPreStop : string :=
  let masterSlavePhrases := MasterSlaveReplication in
  let sourceReplicaPhrases := SourceReplicaReplication in
  let replacements :=
    [("__SR_STATUS__", ShowReplicaStatusCmd sourceReplicaPhrases);
     ("__SR_HOSTS__", ShowReplicasCmd sourceReplicaPhrases);
     ("__SR_LABEL__", LogLabelPreStop sourceReplicaPhrases);
     ("__MS_STATUS__", ShowReplicaStatusCmd masterSlavePhrases);
     ("__MS_HOSTS__", ShowReplicasCmd masterSlavePhrases);
     ("__MS_LABEL__", LogLabelPreStop masterSlavePhrases)] in
  let data := fold_left (λ data r, ReplaceFirst data r.1 r.2) replacements preStopTemplate in
  ReplaceAll data "ConfClientPathHolder" confClientPath.

(** ** The file *)

(** [sort.Strings]. *)
Definition SortStrings (keys : list string) : list string :=
  merge_sort (λ a b, Is_true (String.leb a b)) keys.

Section Conf.
Context `{!Blang, !Process, !IniLib, !IntStr}.

(* src/pkg/controller/mysqlcluster/internal/syncer/config_map.go:227-235 convertMapToKVConfig *)
Definition convertMapToKVConfig (m : gmap string string) : gmap string IntOrString := IntStrParse <$> m.

(** An option that cannot be written is only logged. *)
Definition addKey (section : string) (extra : gmap string IntOrString) (f : Ini) (k : string) : Ini :=
  match NewKey section k (IntStrString (default (FromInt 0) (extra !! k))) f with
  | Ok f => f
  | Err _ => f
  end.

(* src/pkg/controller/mysqlcluster/internal/syncer/config_map.go:238-255 addKVConfigsToSection *)
Definition addKVConfigsToSection (section : string) (extraMysqld : list (gmap string IntOrString)) (f : Ini) : Ini :=
  fold_left (λ f extra, fold_left (addKey section extra) (SortStrings ((map_to_list extra).*1)) f) extraMysqld f.

(* src/pkg/controller/mysqlcluster/internal/syncer/config_map.go:258-272 addBConfigsToSection *)
Definition addBConfigsToSection (section : string) (boolConfigs : list (list string)) (f : Ini) : Ini :=
  fold_left (λ f extra, fold_left (λ f k,
    match NewBooleanKey section k f with Ok f => f | Err _ => f end) (SortStrings extra) f) boolConfigs f.

(** The options of the operator for the line of a version. *)
Definition lineConfigs (v : Version) : list (gmap string string) :=
  let prof := ProfileFor v in
  if UseMySQL5xConfigs prof then [Mysqld5xConfigs]
  else if UseMySQL8xConfigs prof then
    Mysqld8xConfigs :: (if UseMySQL80AuthPlugin prof then [Mysqld80AuthPluginConfig] else [])
  else [].

Definition userConf (c : MysqlCluster) : gmap string IntOrString := default ∅ (sp_MysqlConf (cl_Spec c)).

(** The file that is written. *)
(* src/pkg/controller/mysqlcluster/internal/syncer/config_map.go:150-193 buildMysqlConfData *)
Definition mysqlConf (v : Version) (c : MysqlCluster) : result Ini :=
  let f := IniSection "mysqld" IniEmpty in
  let f := fold_left (λ f m, addKVConfigsToSection "mysqld" [convertMapToKVConfig m] f) (lineConfigs v) f in
  let f := addBConfigsToSection "mysqld" [MysqldBooleanConfigs v] f in
  let opKV := OperatorKVForVersion v in
  let '(opKV, effectiveSocket) :=
    match userConf c !! "socket" with
    | None => (<["socket" := DataVolumeMountPath +:+ "/mysql.sock"]> opKV, DataVolumeMountPath +:+ "/mysql.sock")
    | Some sv => (opKV, IntStrString sv)
    end in
  let f := addKVConfigsToSection "mysqld" [convertMapToKVConfig opKV; userConf c] f in
  f ← NewSection "client" f;
  f ← NewKey "client" "socket" effectiveSocket f;
  NewBooleanKey "mysqld" ("!includedir " +:+ ConfDPath) f.

(* src/pkg/controller/mysqlcluster/internal/syncer/config_map.go:208-214 mysqlConfVersion *)
Definition mysqlConfVersion (c : MysqlCluster) (sts : option StatefulSet) : Version :=
  match sts with
  | Some _ => RolloutMySQLVersion c sts
  | None => ClusterDesiredVersion c
  end.

(* src/pkg/controller/mysqlcluster/internal/syncer/config_map.go:276-282 writeConfigs *)
Definition writeConfigs (cfg : Ini) : result string := IniWriteTo cfg.

(* src/pkg/controller/mysqlcluster/internal/syncer/config_map.go:194-202 buildMysqlConfData *)
Definition buildMysqlConfData (c : MysqlCluster) (sts : option StatefulSet) : result string :=
  f ← mysqlConf (mysqlConfVersion c sts) c;
  writeConfigs f.

(** ** The config map *)

Record ConfigMapObject := mkConfigMap {
  cm_Meta : ObjectMeta; cm_ResourceVersion : string; cm_Data : gmap string string }.

(** The callback, once the pods were listed; an error leaves the labels changed. *)
(* src/pkg/controller/mysqlcluster/internal/syncer/config_map.go:46-73 NewConfigMapSyncer *)
Definition ConfigMapSyncFn (c : MysqlCluster) (sts : option StatefulSet) (cm : ConfigMapObject) :
    ConfigMapObject * result unit :=
  let cm := cm {{ cm_Meta ::= with_labels (<["generated" := "true"]> (GetLabels c)) }} in
  match buildMysqlConfData c sts with
  | Err err => (cm, Err (ErrMsg ("failed to create mysql configs: " +:+ error_text err)))
  | Ok data =>
      let m : gmap string string := {["my.cnf" := data]} in
      let m := match MysqlLifecycle (sp_PodSpec (cl_Spec c)) with
               | None => <[shPreStopFile := buildBashPreStop]> m
               | Some _ => m
               end in
      (cm {{ cm_Data := m }}, Ok tt)
  end.

End Conf.

(** ** Properties *)

(** *** The keys of the server section *)

(** Keys that are made one after another. *)
Definition puts (ws : list (string * (string * bool))) (ks : keys) : keys :=
  fold_left (λ ks w, putKey w.1 w.2.1 w.2.2 ks) ws ks.

Lemma putKey_names k v b ks :
  (putKey k v b ks).*1 = ks.*1 ++ (if bool_decide (k ∈ ks.*1) then [] else [k]).
Proof.
  induction ks as [|[k' x] ks IH]; [done|]. cbn [putKey]. destruct (String.eqb_spec k' k) as [->|Hne].
  - rewrite bool_decide_eq_true_2, app_nil_r; [done|]. rewrite fmap_cons. by left.
  - rewrite !fmap_cons, IH. cbn. do 2 f_equal.
    rewrite (bool_decide_ext (k ∈ k' :: ks.*1) (k ∈ ks.*1)); [done|]. rewrite elem_of_cons. naive_solver.
Qed.

Lemma puts_names ws ks :
  NoDup ks.*1 → NoDup (puts ws ks).*1 ∧ ∃ new, (puts ws ks).*1 = ks.*1 ++ new ∧ ∀ k, k ∈ new → k ∈ ws.*1.
Proof.
  revert ks. induction ws as [|[k [v b]] ws IH]; intros ks Hnd.
  { split; [done|]. exists []. rewrite app_nil_r. split; [done|]. by intros ? ?%not_elem_of_nil. }
  destruct (IH (putKey k v b ks)) as (Hnd' & new & Hnew & Hin).
  { rewrite putKey_names. case_bool_decide; [by rewrite app_nil_r|].
    apply NoDup_app. split_and!; [done| |apply NoDup_singleton]. by intros x Hx ->%list_elem_of_singleton. }
  split; [exact Hnd'|]. cbn [puts fold_left] in *. unfold puts in *. cbn [fold_left fst snd].
  eexists. rewrite Hnew, putKey_names, <-(assoc_L (++)). split; [reflexivity|].
  intros x [Hx|Hx]%elem_of_app; rewrite fmap_cons; [|right; by apply Hin].
  case_bool_decide; [by apply not_elem_of_nil in Hx|]. apply list_elem_of_singleton in Hx as ->. by left.
Qed.

(** Where a key ends up: what it has, and what comes after it. *)
Lemma findKey_split k ks x : findKey k ks = Some x → ∃ l1 l2, ks = l1 ++ (k, x) :: l2.
Proof.
  induction ks as [|[k' y] ks IH]; [done|]. cbn [findKey]. destruct (String.eqb_spec k' k) as [->|].
  - intros [= ->]. by exists [], ks.
  - intros (l1 & l2 & ->)%IH. by exists ((k', y) :: l1), l2.
Qed.

Lemma findKey_elem k ks x : NoDup ks.*1 → (k, x) ∈ ks → findKey k ks = Some x.
Proof.
  induction ks as [|[k' y] ks IH]; [by intros _ ?%not_elem_of_nil|]. rewrite fmap_cons, NoDup_cons. cbn [fst findKey].
  intros [Hk Hnd] [[= -> ->]|Hin]%elem_of_cons; [by rewrite String.eqb_refl|].
  destruct (String.eqb_spec k' k) as [->|]; [|by apply IH]. destruct Hk. apply list_elem_of_fmap. by exists (k, x).
Qed.

Lemma settingIn_last (l1 l2 : list (string * option string)) k x :
  (∀ k', k' ∈ l2.*1 → optionName k' ≠ optionName k) → settingIn (l1 ++ (k, x) :: l2) k = Some x.
Proof.
  intros Hl2. unfold settingIn. rewrite omap_app. cbn. rewrite String.eqb_refl.
  assert (omap (λ kv : string * option string, if String.eqb (optionName kv.1) (optionName k) then Some kv.2 else None) l2 = []) as ->;
    [|by rewrite last_snoc].
  induction l2 as [|[k' y] l2 IH]; [done|]. cbn.
  rewrite (proj2 (String.eqb_neq _ _)); [|apply Hl2; rewrite fmap_cons; by left].
  apply IH. intros k0 Hk0. apply Hl2. rewrite fmap_cons. by right.
Qed.

Lemma after_prefix (l1 l2 a r : list string) k k' :
  NoDup (a ++ r) → l1 ++ k :: l2 = a ++ r → k' ∈ l2 → k' ∈ a → k ∈ a.
Proof.
  intros Hnd Heq Hk' Ha. rewrite <-Heq in Hnd. apply NoDup_app in Hnd as (_ & Hdis & Hnd).
  apply app_eq_inv in Heq as [(m & -> & _)|(m & -> & Hm)].
  - destruct (Hdis k'); [apply elem_of_app; by left|by right].
  - destruct m as [|y m].
    + rewrite app_nil_r in Ha. destruct (Hdis k'); [done|by right].
    + injection Hm as -> _. apply elem_of_app. right. by left.
Qed.

Lemma optionName_dash k s : optionName k = s → str_forall (λ c, negb (Ascii.eqb c "-")) s = true → k = s.
Proof.
  revert s. induction k as [|c k IH]; intros s <-; [done|]. cbn [optionName]. unfold str_forall. cbn.
  intros [Hc Hk]%andb_prop. destruct (Ascii.eqb_spec c "_"); [done|]. f_equal. by apply IH.
Qed.

(** *** The options of the operator *)

Definition includeKey : string := "!includedir " +:+ ConfDPath.

Definition booleanNames : list string := ["skip-name-resolve"; "skip-host-cache"].

(** The names that some version has. *)
Definition operatorNames : list string :=
  "socket" :: booleanNames ++ flat_map (λ m : gmap string string, (map_to_list m).*1)
    [Mysqld5xConfigs; Mysqld8xConfigs; Mysqld80AuthPluginConfig;
     OperatorKVCommon (mkVersion 5 7 0) true; OperatorKVCommon (mkVersion 5 7 0) false].

Definition operatorOption (k x : string) : Prop :=
  (k ∈ operatorNames) ∧ (k ∉ booleanNames) ∧ k ≠ "socket" ∧ plainValue x = true.

Lemma operatorNames_plain k : k ∈ operatorNames → plainName k = true ∧ HasPrefix k "!" = false.
Proof.
  assert (forallb (λ k, plainName k && negb (HasPrefix k "!")) operatorNames = true) as Hall by (vm_compute; reflexivity).
  intros Hk. rewrite forallb_forall in Hall. specialize (Hall k (proj1 (list_elem_of_In _ _) Hk)).
  apply andb_prop in Hall as [? ?%negb_true_iff]. done.
Qed.

(** No option of the operator has two spellings. *)
Lemma operatorNames_spelling k k' :
  k ∈ operatorNames → k' ∈ operatorNames → optionName k = optionName k' → k = k'.
Proof.
  assert (forallb (λ k, forallb (λ k', implb (String.eqb (optionName k) (optionName k')) (String.eqb k k'))
    operatorNames) operatorNames = true) as Hall by (vm_compute; reflexivity).
  intros Hk Hk' He. rewrite forallb_forall in Hall. specialize (Hall k (proj1 (list_elem_of_In _ _) Hk)).
  rewrite forallb_forall in Hall. specialize (Hall k' (proj1 (list_elem_of_In _ _) Hk')).
  rewrite He, String.eqb_refl in Hall. by apply String.eqb_eq.
Qed.

Section ConfLaws.
Context `{!Blang, !Process, !IniLib, !IniLaws, !IntStr, !IntStrLaws}.

Lemma OperatorKV_option v k x : OperatorKVForVersion v !! k = Some x → operatorOption k x.
Proof.
  rewrite KVForVersion_common. unfold OperatorKVCommon. intros Hk.
  destruct (AtLeastMySQL8030 v), (AtLeastMySQL84 v);
    match type of Hk with ?m !! _ = _ =>
      assert (bool_decide (map_Forall operatorOption m) = true) as Hall%bool_decide_eq_true_1 by (vm_compute; reflexivity) end;
    exact (Hall k x Hk).
Qed.

(** The option of the release line: the last map that has it. *)
Definition lineOption (maps : list (gmap string string)) (k : string) (old : option string) : option string :=
  fold_left (λ old m, match m !! k with Some x => Some (IntStrString (IntStrParse x)) | None => old end) maps old.

Lemma lineOption_option v k x :
  lineOption (lineConfigs v) k None = Some x → (k ∈ operatorNames) ∧ k ≠ "socket" ∧ plainValue x = true.
Proof.
  assert (∀ m y, m ∈ [Mysqld5xConfigs; Mysqld8xConfigs; Mysqld80AuthPluginConfig] → m !! k = Some y →
    (k ∈ operatorNames) ∧ k ≠ "socket" ∧ plainValue y = true) as Hm.
  { assert (bool_decide (Forall (map_Forall operatorOption) [Mysqld5xConfigs; Mysqld8xConfigs; Mysqld80AuthPluginConfig]) = true)
      as Hall%bool_decide_eq_true_1 by (vm_compute; reflexivity).
    rewrite Forall_forall in Hall. intros m y Hm Hy. by destruct (Hall m Hm k y Hy) as (? & _ & ? & ?). }
  assert (∀ m, m ∈ lineConfigs v → m ∈ [Mysqld5xConfigs; Mysqld8xConfigs; Mysqld80AuthPluginConfig]) as Hl.
  { intros m. unfold lineConfigs. repeat case_match; rewrite !elem_of_cons, ?elem_of_nil; tauto. }
  assert (∀ maps old, (∀ m, m ∈ maps → m ∈ lineConfigs v) → (∀ y, old = Some y → (k ∈ operatorNames) ∧ k ≠ "socket" ∧ plainValue y = true) →
    ∀ y, lineOption maps k old = Some y → (k ∈ operatorNames) ∧ k ≠ "socket" ∧ plainValue y = true) as Hgen.
  { induction maps as [|m maps IH]; intros old Hin Hold y Hy; [by apply Hold|].
    change (lineOption maps k (match m !! k with Some x => Some (IntStrString (IntStrParse x)) | None => old end) = Some y) in Hy.
    refine (IH _ _ _ y Hy); [intros; apply Hin; by right|]. intros z. destruct (m !! k) as [z'|] eqn:E; [|apply Hold].
    intros [= <-]. destruct (Hm m z' (Hl m (Hin m ltac:(by left))) E) as (? & ? & ?). split_and!; [done|done|by apply plain_parsed]. }
  by apply Hgen.
Qed.

(** *** What the steps of [mysqlConf] do to the section *)

Lemma elem_of_SortStrings k l : k ∈ SortStrings l ↔ k ∈ l.
Proof. unfold SortStrings. by rewrite merge_sort_Permutation. Qed.

Definition writesOf (extra : gmap string IntOrString) : list (string * (string * bool)) :=
  (λ k, (k, (IntStrString (default (FromInt 0) (extra !! k)), false))) <$> SortStrings (map_to_list extra).*1.

Definition booleanWrites (v : Version) : list (string * (string * bool)) :=
  (λ k, (k, ("true", true))) <$> SortStrings (MysqldBooleanConfigs v).

Lemma map_names (extra : gmap string IntOrString) k :
  k ∈ SortStrings (map_to_list extra).*1 ↔ is_Some (extra !! k).
Proof.
  rewrite elem_of_SortStrings, list_elem_of_fmap. split.
  - intros ([k' v] & -> & Hv%elem_of_map_to_list). by exists v.
  - intros [v Hv]. exists (k, v). split; [done|]. by apply elem_of_map_to_list.
Qed.

Lemma addKV_content extra f ks :
  extra !! "" = None → IniContent f = [("mysqld", ks)] →
  IniContent (addKVConfigsToSection "mysqld" [extra] f) = [("mysqld", puts (writesOf extra) ks)].
Proof.
  intros Hne. unfold addKVConfigsToSection, writesOf, puts. cbn [fold_left].
  assert ("" ∉ SortStrings (map_to_list extra).*1) as Hn by (rewrite map_names, Hne; by intros []).
  revert f ks. induction (SortStrings _) as [|k l IH]; intros f ks Hf; [done|]. rewrite not_elem_of_cons in Hn.
  cbn [fold_left]. rewrite fmap_cons. cbn [fold_left fst snd]. apply IH; [tauto|]. unfold addKey.
  destruct (content_new_key "mysqld" k (IntStrString (default (FromInt 0) (extra !! k))) f) as (f' & -> & ->);
    [done|naive_solver|]. by rewrite Hf.
Qed.

Lemma addB_content v f ks :
  IniContent f = [("mysqld", ks)] →
  IniContent (addBConfigsToSection "mysqld" [MysqldBooleanConfigs v] f) = [("mysqld", puts (booleanWrites v) ks)].
Proof.
  unfold addBConfigsToSection, booleanWrites, puts. cbn [fold_left].
  assert ("" ∉ SortStrings (MysqldBooleanConfigs v)) as Hn.
  { rewrite elem_of_SortStrings. unfold MysqldBooleanConfigs. destruct (AtLeastMySQL8030 v); set_solver. }
  revert f ks. induction (SortStrings _) as [|k l IH]; intros f ks Hf; [done|]. rewrite not_elem_of_cons in Hn.
  cbn [fold_left]. rewrite fmap_cons. cbn [fold_left fst snd]. apply IH; [tauto|].
  destruct (content_new_boolean "mysqld" k f) as (f' & -> & ->); [done|naive_solver|]. by rewrite Hf.
Qed.

(** The key that was written last, and whether it is a boolean one. *)
Lemma find_writes extra ks k :
  findKey k (puts (writesOf extra) ks) =
    match extra !! k with
    | Some x => Some (mkIniKey (IntStrString x) (from_option isBooleanType false (findKey k ks)))
    | None => findKey k ks
    end.
Proof.
  assert (∀ l ks, findKey k (puts ((λ k, (k, (IntStrString (default (FromInt 0) (extra !! k)), false))) <$> l) ks) =
    if bool_decide (k ∈ l) then
      Some (mkIniKey (IntStrString (default (FromInt 0) (extra !! k))) (from_option isBooleanType false (findKey k ks)))
    else findKey k ks) as Hgen.
  { induction l as [|k' l IH]; intros ks0; [done|]. rewrite fmap_cons. unfold puts. cbn [fold_left fst snd].
    unfold puts in IH. rewrite IH, findKey_putKey.
    destruct (String.eqb_spec k' k) as [->|Hne].
    - rewrite (bool_decide_eq_true_2 (k ∈ k :: l)) by by left. by case_bool_decide.
    - rewrite (bool_decide_ext (k ∈ k' :: l) (k ∈ l)); [done|]. rewrite elem_of_cons. naive_solver. }
  unfold writesOf. rewrite Hgen. destruct (extra !! k) as [x|] eqn:E.
  - rewrite bool_decide_eq_true_2; [done|]. rewrite map_names, E. by eexists.
  - rewrite bool_decide_eq_false_2; [done|]. rewrite map_names, E. by intros [].
Qed.

Lemma find_booleans v ks k :
  findKey k (puts (booleanWrites v) ks) =
    if bool_decide (k ∈ MysqldBooleanConfigs v) then Some (mkIniKey "true" true) else findKey k ks.
Proof.
  unfold booleanWrites. rewrite <-(bool_decide_ext _ _ (elem_of_SortStrings k (MysqldBooleanConfigs v))).
  revert ks. induction (SortStrings _) as [|k' l IH]; intros ks; [done|]. rewrite fmap_cons. unfold puts.
  cbn [fold_left fst snd]. unfold puts in IH. rewrite IH, findKey_putKey. destruct (String.eqb_spec k' k) as [->|Hne].
  - rewrite (bool_decide_eq_true_2 (k ∈ k :: l)) by by left. by case_bool_decide.
  - rewrite (bool_decide_ext (k ∈ k' :: l) (k ∈ l)); [done|]. rewrite elem_of_cons. naive_solver.
Qed.

(** *** The file *)

Definition datadirSocket : string := DataVolumeMountPath +:+ "/mysql.sock".

Section File.
Variables (v : Version) (c : MysqlCluster).

Definition socketKV : gmap string string :=
  match userConf c !! "socket" with
  | None => <["socket" := datadirSocket]> (OperatorKVForVersion v)
  | Some _ => OperatorKVForVersion v
  end.

Definition serverSocket : string :=
  match userConf c !! "socket" with None => datadirSocket | Some sv => IntStrString sv end.

Definition linePart : keys :=
  fold_left (λ ks m, puts (writesOf (convertMapToKVConfig m)) ks) (lineConfigs v) [].

Definition operatorPart : keys :=
  puts (writesOf (convertMapToKVConfig socketKV)) (puts (booleanWrites v) linePart).

Definition serverPart : keys := puts (writesOf (userConf c)) operatorPart.

(** The user's options are written as they are given. *)
Definition plainUser : Prop :=
  map_Forall (λ k x, plainName k = true ∧ HasPrefix k "!" = false ∧ plainValue (IntStrString x) = true) (userConf c).

(** The user spells an option in one way, if at all. *)
Definition alone (k : string) : Prop :=
  ∀ k', is_Some (userConf c !! k') → optionName k' = optionName k → k' = k.

Lemma socketKV_lookup k :
  socketKV !! k = match OperatorKVForVersion v !! k with
                  | Some x => Some x
                  | None => if decide (k = "socket" ∧ userConf c !! "socket" = None) then Some datadirSocket else None
                  end.
Proof.
  assert (OperatorKVForVersion v !! "socket" = None) as Hs.
  { destruct (OperatorKVForVersion v !! "socket") as [x|] eqn:E; [|done]. by apply OperatorKV_option in E as (_ & _ & ? & _). }
  unfold socketKV. destruct (decide (k = "socket")) as [->|Hk].
  - rewrite Hs. destruct (userConf c !! "socket"); [by rewrite decide_False by naive_solver|].
    by rewrite lookup_insert_eq, decide_True.
  - rewrite (decide_False (P := k = "socket" ∧ _)) by naive_solver.
    destruct (userConf c !! "socket"); [|rewrite lookup_insert_ne by done]; by destruct (OperatorKVForVersion v !! k).
Qed.

Lemma socketKV_name k x : socketKV !! k = Some x → (k ∈ operatorNames) ∧ (k ∉ booleanNames) ∧ plainValue x = true.
Proof.
  rewrite socketKV_lookup. destruct (OperatorKVForVersion v !! k) as [y|] eqn:E.
  - intros [= <-]. by apply OperatorKV_option in E as (? & ? & _ & ?).
  - case_decide as Hk; [|done]. destruct Hk as [-> _]. intros [= <-].
    split_and!; [by left|by apply (bool_decide_eq_true_1 _)|done].
Qed.

Lemma empty_name (m : gmap string string) : (∀ k x, m !! k = Some x → k ∈ operatorNames) → convertMapToKVConfig m !! "" = None.
Proof.
  intros Hm. unfold convertMapToKVConfig. rewrite lookup_fmap. destruct (m !! "") as [x|] eqn:E; [|done].
  by destruct (operatorNames_plain "" (Hm _ _ E)).
Qed.

Lemma lineConfigs_names m : m ∈ lineConfigs v → ∀ k x, m !! k = Some x → k ∈ operatorNames.
Proof.
  assert (bool_decide (Forall (map_Forall operatorOption) [Mysqld5xConfigs; Mysqld8xConfigs; Mysqld80AuthPluginConfig]) = true)
    as Hall%bool_decide_eq_true_1 by (vm_compute; reflexivity).
  rewrite Forall_forall in Hall. intros Hm k x Hx.
  assert (m ∈ [Mysqld5xConfigs; Mysqld8xConfigs; Mysqld80AuthPluginConfig]) as Hin.
  { unfold lineConfigs in Hm. repeat case_match; rewrite !elem_of_cons, ?elem_of_nil in *; tauto. }
  by destruct (Hall m Hin k x Hx).
Qed.

Lemma mysqlConf_content : plainUser →
  ∃ f, mysqlConf v c = Ok f ∧
    IniContent f = [("mysqld", putKey includeKey "true" true serverPart); ("client", [("socket", mkIniKey serverSocket false)])].
Proof.
  intros Hu. unfold mysqlConf. cbv zeta.
  assert (match userConf c !! "socket" with
    | None => (<["socket" := DataVolumeMountPath +:+ "/mysql.sock"]> (OperatorKVForVersion v), DataVolumeMountPath +:+ "/mysql.sock")
    | Some sv => (OperatorKVForVersion v, IntStrString sv) end = (socketKV, serverSocket)) as ->.
  { unfold socketKV, serverSocket. by destruct (userConf c !! "socket"). }
  assert (userConf c !! "" = None) as Hu0.
  { destruct (userConf c !! "") as [x|] eqn:E; [|done]. by destruct (Hu _ _ E). }
  set (f0 := fold_left _ _ _).
  assert (IniContent f0 = [("mysqld", linePart)]) as Hf0.
  { unfold f0, linePart. assert (IniContent (IniSection "mysqld" IniEmpty) = [("mysqld", [])]) as He
      by by rewrite content_section, content_empty.
    revert He. generalize (IniSection "mysqld" IniEmpty), (@nil (string * IniKey)). pose proof lineConfigs_names as Hl.
    induction (lineConfigs v) as [|m maps IH]; intros f ks Hf; [done|]. cbn [fold_left]. apply IH.
    - intros m' Hm'. apply Hl. by right.
    - apply addKV_content; [|done]. apply empty_name, Hl. by left. }
  clearbody f0. pose proof (addB_content v f0 _ Hf0) as Hf1. set (f1 := addBConfigsToSection _ _ f0) in *. clearbody f1.
  assert (IniContent (addKVConfigsToSection "mysqld" [convertMapToKVConfig socketKV; userConf c] f1) = [("mysqld", serverPart)]) as Hf2.
  { apply (addKV_content (userConf c)); [done|]. apply addKV_content; [|done].
    apply empty_name. by intros k x [? _]%socketKV_name. }
  set (f2 := addKVConfigsToSection _ _ f1) in *. clearbody f2.
  destruct (content_new_section "client" f2) as (f3 & -> & Hc3); [done|]. cbn [mbind result_bind].
  destruct (content_new_key "client" "socket" serverSocket f3) as (f4 & -> & Hc4); [done..|]. cbn [mbind result_bind].
  change ("!includedir " +:+ ConfDPath) with includeKey. destruct (content_new_boolean "mysqld" includeKey f4) as (f5 & -> & Hc5); [done..|].
  exists f5. split; [done|]. by rewrite Hc5, Hc4, Hc3, Hf2.
Qed.

(** The value of a key, and whether it is boolean. *)
Lemma serverPart_find k :
  findKey k serverPart =
    let boolean := bool_decide (k ∈ MysqldBooleanConfigs v) in
    match userConf c !! k with
    | Some x => Some (mkIniKey (IntStrString x) boolean)
    | None =>
        match socketKV !! k with
        | Some x => Some (mkIniKey (IntStrString (IntStrParse x)) boolean)
        | None => if boolean then Some (mkIniKey "true" true)
                  else (λ x, mkIniKey x false) <$> lineOption (lineConfigs v) k None
        end
    end.
Proof.
  assert (findKey k linePart = (λ x, mkIniKey x false) <$> lineOption (lineConfigs v) k None) as Hl.
  { assert (∀ maps ks, from_option isBooleanType false (findKey k ks) = false →
      findKey k (fold_left (λ ks m, puts (writesOf (convertMapToKVConfig m)) ks) maps ks) =
        (λ x, mkIniKey x false) <$> lineOption maps k (ik_value <$> findKey k ks)) as Hgen; [|by apply Hgen].
    induction maps as [|m maps IH]; intros ks Hb; unfold lineOption; cbn [fold_left].
    - destruct (findKey k ks) as [[x b]|]; [|done]. cbn in Hb |- *. by rewrite Hb.
    - rewrite IH; rewrite find_writes; unfold convertMapToKVConfig; rewrite lookup_fmap; by destruct (m !! k); cbn; rewrite ?Hb. }
  unfold serverPart, operatorPart. rewrite !find_writes, find_booleans, Hl. unfold convertMapToKVConfig. rewrite lookup_fmap.
  cbv zeta. case_bool_decide; destruct (userConf c !! k), (socketKV !! k), (lineOption _ _ _); done.
Qed.

(** The names of the operator come first, then those that only the user has. *)
Lemma serverPart_names :
  NoDup serverPart.*1 ∧ ∃ own, serverPart.*1 = operatorPart.*1 ++ own ∧ ∀ k, k ∈ own → is_Some (userConf c !! k).
Proof.
  assert (NoDup linePart.*1) as Hl.
  { unfold linePart. assert (NoDup (@nil (string * IniKey)).*1) as Hn by constructor. revert Hn.
    generalize (@nil (string * IniKey)). induction (lineConfigs v) as [|m maps IH]; intros ks Hn; [done|].
    cbn [fold_left]. apply IH. by apply puts_names. }
  assert (NoDup operatorPart.*1) as Ho by by apply puts_names, puts_names.
  destruct (puts_names (writesOf (userConf c)) operatorPart Ho) as (? & own & ? & Hown). split; [done|].
  exists own. split; [done|]. intros k Hk%Hown. unfold writesOf in Hk. rewrite <-list_fmap_compose in Hk.
  apply list_elem_of_fmap in Hk as (k' & -> & Hk'). by apply map_names.
Qed.

Lemma operatorPart_names k : k ∈ operatorPart.*1 → k ∈ operatorNames.
Proof.
  intros Hk%findKey_is_Some. unfold operatorPart in Hk. rewrite find_writes in Hk. unfold convertMapToKVConfig in Hk.
  rewrite lookup_fmap in Hk. destruct (socketKV !! k) as [x|] eqn:E; [by destruct (socketKV_name k x E)|].
  cbn in Hk. rewrite find_booleans in Hk. case_bool_decide as Hb.
  - right. apply elem_of_app. left. unfold MysqldBooleanConfigs in Hb. destruct (AtLeastMySQL8030 v); set_solver.
  - clear E Hb. revert Hk. unfold linePart. pose proof lineConfigs_names as Hl.
    assert (is_Some (findKey k []) → k ∈ operatorNames) as He by by intros [].
    revert He. generalize (@nil (string * IniKey)). induction (lineConfigs v) as [|m maps IH]; intros ks He; [done|].
    cbn [fold_left]. apply IH; [intros m' Hm'; apply Hl; by right|]. rewrite find_writes. unfold convertMapToKVConfig.
    rewrite lookup_fmap. destruct (m !! k) as [x|] eqn:E; [|done]. intros _. eapply (Hl m); [by left|exact E].
Qed.

(** The name that includes a directory is no option. *)
Lemma includeKey_other k : plainUser → k ∈ serverPart.*1 → HasPrefix k "!" = false.
Proof.
  intros Hu Hk. destruct serverPart_names as (_ & own & Heq & Hown). rewrite Heq in Hk.
  apply elem_of_app in Hk as [Hk%operatorPart_names%operatorNames_plain|Hk]; [by destruct Hk|].
  destruct (Hown k Hk) as [x Hx]. by destruct (Hu k x Hx) as (_ & ? & _).
Qed.

Lemma includeKey_last : plainUser → putKey includeKey "true" true serverPart = serverPart ++ [(includeKey, mkIniKey "true" true)].
Proof.
  intros Hu. assert (includeKey ∉ serverPart.*1) as Hn by by intros ?%(includeKey_other _ Hu).
  induction serverPart as [|[k x] ks IH]; [done|]. rewrite fmap_cons, not_elem_of_cons in Hn. cbn [putKey].
  rewrite (proj2 (String.eqb_neq k includeKey)); [|cbn in Hn; naive_solver]. cbn [app]. f_equal. apply IH. naive_solver.
Qed.

(** What the server finds for an option. *)
Lemma serverPart_setting k x : plainUser → alone k → findKey k serverPart = Some x →
  settingIn (List.map writtenKey (putKey includeKey "true" true serverPart)) k = Some (writtenKey (k, x)).2.
Proof.
  intros Hu Ha Hx. rewrite includeKey_last by done. destruct serverPart_names as (Hnd & own & Heq & Hown).
  assert (HasPrefix k "!" = false) as Hkp by (apply (includeKey_other k Hu), findKey_is_Some; by eexists).
  destruct (findKey_split _ _ _ Hx) as (l1 & l2 & Hl). rewrite Hl, map_app, map_app. cbn [List.map]. rewrite <-app_assoc.
  change (writtenKey (k, x)) with (k, (writtenKey (k, x)).2). apply settingIn_last.
  assert ((List.map writtenKey l2 ++ [writtenKey (includeKey, mkIniKey "true" true)]).*1 = l2.*1 ++ [includeKey]) as Hf.
  { rewrite fmap_app. f_equal. clear. induction l2 as [|[? ?] l2 IH]; [done|]. cbn. by f_equal. }
  intros k' Hk' Hn. replace (k' ∈ _) with (k' ∈ l2.*1 ++ [includeKey]) in Hk' by (by rewrite <-Hf).
  apply elem_of_app in Hk' as [Hk'|Hk'].
  - rewrite Hl, fmap_app, fmap_cons in Heq, Hnd. rewrite Heq in Hnd.
    assert (k' ≠ k) as Hne.
    { intros ->. rewrite <-Heq in Hnd. apply NoDup_app in Hnd as (_ & _ & [Hk _]%NoDup_cons). done. }
    assert (k' ∈ operatorPart.*1 ++ own) as Hin by (rewrite <-Heq; apply elem_of_app; right; by right).
    apply elem_of_app in Hin as [Hin|Hin]; [|by apply Hne, Ha; [apply Hown|]].
    pose proof (after_prefix _ _ _ _ _ _ Hnd Heq Hk' Hin) as Hk.
    by apply Hne, operatorNames_spelling; [apply operatorPart_names..|].
  - apply list_elem_of_singleton in Hk' as ->. destruct k as [|ch k]; [done|]. cbn in Hn, Hkp.
    injection Hn as Hch _. rewrite andb_true_r in Hkp. destruct (Ascii.eqb_spec ch "_"); [done|]. by subst.
Qed.

Lemma serverPart_plain : plainUser →
  Forall (λ kx, plainName kx.1 = true ∧ plainValue (ik_value kx.2) = true) serverPart.
Proof.
  intros Hu. destruct serverPart_names as (Hnd & own & Heq & Hown). apply Forall_forall. intros [k x] Hin. cbn [fst snd].
  assert (k ∈ serverPart.*1) as Hk by (apply list_elem_of_fmap; by exists (k, x)). split.
  - rewrite Heq in Hk. apply elem_of_app in Hk as [Hk%operatorPart_names%operatorNames_plain|Hk]; [by destruct Hk|].
    destruct (Hown k Hk) as [y Hy]. by destruct (Hu k y Hy).
  - pose proof (findKey_elem k _ x Hnd Hin) as Hf. rewrite serverPart_find in Hf. cbv zeta in Hf.
    destruct (userConf c !! k) as [y|] eqn:E; [injection Hf as <-; by destruct (Hu k y E) as (_ & _ & ?)|].
    destruct (socketKV !! k) as [y|] eqn:E2.
    { injection Hf as <-. apply plain_parsed. by destruct (socketKV_name k y E2) as (_ & _ & ?). }
    case_bool_decide; [by injection Hf as <-|]. destruct (lineOption _ _ _) as [y|] eqn:E3; [|done].
    injection Hf as <-. by destruct (lineOption_option v k y E3) as (_ & _ & ?).
Qed.

Lemma serverSocket_plain : plainUser → plainValue serverSocket = true.
Proof.
  intros Hu. unfold serverSocket. destruct (userConf c !! "socket") as [x|] eqn:E; [|done]. by destruct (Hu _ _ E) as (_ & _ & ?).
Qed.

(** The text, as the server reads it. *)
Lemma text_groups : plainUser →
  ∃ f text, mysqlConf v c = Ok f ∧ writeConfigs f = Ok text ∧
    groupOf "mysqld" text = List.map writtenKey (putKey includeKey "true" true serverPart) ∧
    groupOf "client" text = [("socket", Some serverSocket)].
Proof.
  intros Hu. destruct (mysqlConf_content Hu) as (f & Hf & Hc). destruct (write_read f) as (text & Ht & Hr).
  { rewrite Hc, includeKey_last by done. constructor; [|constructor; [|constructor]]; (split; [done|split; [done|]]).
    - apply Forall_app. split; [by apply serverPart_plain|]. by repeat constructor.
    - constructor; [|constructor]. split; [done|by apply serverSocket_plain]. }
  exists f, text. split_and!; [done|done| |]; unfold groupOf; rewrite Hr, Hc; unfold written; cbn [flat_map List.map app fst snd];
    rewrite omap_app; cbn [omap]; generalize (putKey includeKey "true" true serverPart); intros ks.
  - cbn. rewrite app_nil_r. induction ks as [|kx ks IH]; [done|]. cbn. by f_equal.
  - assert (∀ l : list cnfItem, Forall (λ i, i.1 = "mysqld") l →
      omap (λ i : cnfItem, if String.eqb i.1 "client" then Some i.2 else None) l = []) as Hnone.
    { induction 1 as [|i l Hi _ IH]; [done|]. cbn. by rewrite Hi. }
    rewrite Hnone; [done|]. induction ks; by constructor.
Qed.

End File.

(** C28. The options of the servers, as a server reads them in [my.cnf].  Unless the
    user gives a name or a value that has to be quoted, the file can be built and
    written, and in its server section: an option of the user has the value that the
    user gives it, except for the two options that the operator writes without a
    value, which stay without one; an option that the user does not give has the
    value of the operator, or else that of the release line; and there is nothing
    else.  An option may be spelled with dashes or underscores, as long as the user
    spells it in one way.  The client section has the socket of the server, whoever
    chose it; and the directory of further files is included. *)
Theorem my_cnf_spec (c : MysqlCluster) (sts : option StatefulSet) :
  plainUser c →
  let v := mysqlConfVersion c sts in
  ∃ text, buildMysqlConfData c sts = Ok text ∧
  (∀ k x, alone c k → userConf c !! k = Some x → k ∉ MysqldBooleanConfigs v →
     setting text "mysqld" k = Some (Some (IntStrString x))) ∧
  (∀ k, alone c k → k ∈ MysqldBooleanConfigs v → setting text "mysqld" k = Some None) ∧
  (∀ k x, alone c k → userConf c !! k = None → OperatorKVForVersion v !! k = Some x →
     setting text "mysqld" k = Some (Some (IntStrString (IntStrParse x)))) ∧
  (∀ k x, alone c k → userConf c !! k = None → OperatorKVForVersion v !! k = None → k ∉ MysqldBooleanConfigs v →
     lineOption (lineConfigs v) k None = Some x → setting text "mysqld" k = Some (Some x)) ∧
  (∀ k y, (k, y) ∈ groupOf "mysqld" text →
     is_Some (userConf c !! k) ∨ is_Some (OperatorKVForVersion v !! k) ∨ is_Some (lineOption (lineConfigs v) k None) ∨
     k ∈ MysqldBooleanConfigs v ∨ k = "socket" ∨ k = includeKey) ∧
  setting text "client" "socket" = setting text "mysqld" "socket" ∧
  setting text "client" "socket" =
    Some (Some match userConf c !! "socket" with Some x => IntStrString x | None => datadirSocket end) ∧
  (includeKey, None) ∈ groupOf "mysqld" text.
Proof.
  intros Hu v. destruct (text_groups v c Hu) as (f & text & Hf & Ht & Hm & Hc).
  exists text. split; [unfold buildMysqlConfData; fold v; by rewrite Hf|].
  pose proof (λ k x, serverPart_setting v c k x Hu) as Hset. rewrite <-Hm in Hset. change (settingIn (groupOf ?g ?t)) with (setting t g) in Hset.
  pose proof (serverPart_find v c) as Hfind. cbv zeta in Hfind.
  assert (∀ k, k ∈ MysqldBooleanConfigs v → k ∈ booleanNames) as Hbool.
  { intros k. unfold MysqldBooleanConfigs, booleanNames. destruct (AtLeastMySQL8030 v); set_solver. }
  assert (setting text "client" "socket" = Some (Some (serverSocket c))) as Hcs by by unfold setting; rewrite Hc.
  assert (setting text "mysqld" "socket" = Some (Some (serverSocket c))) as Hms.
  { assert (alone c "socket") as Ha by by intros k' _ ?%optionName_dash.
    assert (bool_decide ("socket" ∈ MysqldBooleanConfigs v) = false) as Hb.
    { apply bool_decide_eq_false_2. intros ?%Hbool. by apply (bool_decide_eq_false_1 ("socket" ∈ booleanNames)). }
    specialize (Hfind "socket"). rewrite Hb, socketKV_lookup in Hfind. unfold serverSocket.
    destruct (userConf c !! "socket") as [x|] eqn:E; [by rewrite (Hset _ _ Ha Hfind)|].
    destruct (OperatorKVForVersion v !! "socket") as [x|] eqn:E2; [by apply OperatorKV_option in E2 as (_ & _ & ? & _)|].
    rewrite decide_True in Hfind by done. rewrite (Hset _ _ Ha Hfind). cbn. by rewrite intstr_parse, intstr_string. }
  split_and!; [| | | | |by rewrite Hcs, Hms|done|].
  - intros k x Ha E Hb. etrans; [eapply (Hset k _ Ha); rewrite Hfind, E; reflexivity|]. cbn. by rewrite bool_decide_eq_false_2.
  - intros k Ha Hb. assert (∃ x, findKey k (serverPart v c) = Some (mkIniKey x true)) as [x Hx]; [|by rewrite (Hset k _ Ha Hx)].
    rewrite Hfind, bool_decide_eq_true_2 by done. repeat case_match; by eexists.
  - intros k x Ha E Eo. destruct (OperatorKV_option v k x Eo) as (_ & Hnb & _).
    etrans; [eapply (Hset k _ Ha); rewrite Hfind, E, socketKV_lookup, Eo; reflexivity|].
    cbn. rewrite bool_decide_eq_false_2; [done|]. by intros ?%Hbool.
  - intros k x Ha E Eo Hb El. destruct (decide (k = "socket")) as [->|Hk].
    { by apply lineOption_option in El as (_ & ? & _). }
    etrans; [eapply (Hset k _ Ha); rewrite Hfind, E, socketKV_lookup, Eo, decide_False, bool_decide_eq_false_2, El by naive_solver; reflexivity|].
    done.
  - intros k y Hin. rewrite Hm, includeKey_last, map_app in Hin by done. apply elem_of_app in Hin as [Hin|Hin].
    + apply list_elem_of_In, in_map_iff in Hin as ([k0 x] & [= -> _] & Hin%list_elem_of_In).
      assert (is_Some (findKey k (serverPart v c))) as Hs by (apply findKey_is_Some, list_elem_of_fmap; by exists (k, x)).
      rewrite Hfind, socketKV_lookup in Hs. case_bool_decide; [tauto|].
      destruct (userConf c !! k); [left; by eexists|]. destruct (OperatorKVForVersion v !! k); [right; left; by eexists|].
      case_decide as Hk; [destruct Hk; tauto|]. destruct (lineOption _ _ _); [right; right; left; by eexists|by destruct Hs].
    + apply list_elem_of_singleton in Hin as [= -> _]. tauto.
  - rewrite Hm, includeKey_last, map_app by done. apply elem_of_app. right. by left.
Qed.

(** The script names every statement of both dialects, and nothing is left to fill
    in. *)
Lemma prestop_complete :
  Contains buildBashPreStop "__" = false ∧ Contains buildBashPreStop "ConfClientPathHolder" = false ∧
  Forall (λ s, Contains buildBashPreStop s = true)
    [ShowReplicaStatusCmd MasterSlaveReplication; ShowReplicasCmd MasterSlaveReplication;
     ShowReplicaStatusCmd SourceReplicaReplication; ShowReplicasCmd SourceReplicaReplication].
Proof. split_and!; [vm_compute; reflexivity..|repeat constructor]. Qed.

(** The hook that the stateful set has when the user gives none finds its script. *)
Lemma prestop_present (c : MysqlCluster) sts cm :
  (ConfigMapSyncFn c sts cm).2 = Ok tt → MysqlLifecycle (sp_PodSpec (cl_Spec c)) = None →
  cm_Data (ConfigMapSyncFn c sts cm).1 !! shPreStopFile = Some buildBashPreStop.
Proof.
  unfold ConfigMapSyncFn. destruct (buildMysqlConfData c sts) as [data|e]; [|done]. intros _ ->.
  cbn [fst]. change (cm_Data (?x {{ cm_Data := ?y }})) with y. by rewrite lookup_insert_eq.
Qed.

End ConfLaws.

(** ** Examples *)

Section Witnesses.
#[local] Existing Instances Ref.blang Ref.blang_laws sampleProcess RefIni.lib RefIni.laws RefIni.int_str
  RefIni.int_str_laws.

Definition sampleConf : MysqlCluster :=
  (Sample.cluster "8.4" "8.4.8") {{ cl_Spec -> sp_MysqlConf := Some {[
    "max-connections" := FromInt 100; "max_allowed_packet" := FromString "64M"; "skip-name-resolve" := FromInt 0]} }}.

Lemma my_cnf_spec_witness : ∃ text, buildMysqlConfData sampleConf None = Ok text ∧
  setting text "mysqld" "max-connections" = Some (Some "100") ∧ setting text "mysqld" "max-allowed-packet" = Some (Some "64M") ∧
  setting text "mysqld" "skip-name-resolve" = Some None ∧
  setting text "client" "socket" = setting text "mysqld" "socket".
Proof.
  assert (alone sampleConf "max-connections" ∧ alone sampleConf "max_allowed_packet" ∧ alone sampleConf "skip-name-resolve") as (Ha & Hp & Hs).
  { assert (∀ k, bool_decide (map_Forall (λ k' _, optionName k' = optionName k → k' = k) (userConf sampleConf)) = true →
      alone sampleConf k) as Hk; [|split_and!; apply Hk; vm_compute; reflexivity].
    intros k Hk%bool_decide_eq_true_1 k' [x Hx]. by apply (Hk k' x). }
  destruct (my_cnf_spec sampleConf None) as (text & Ht & Hu & Hb & _ & _ & _ & Hc & _).
  { apply (bool_decide_eq_true_1 _). vm_compute. reflexivity. }
  exists text. split; [exact Ht|]. split_and!; [| | |exact Hc].
  - apply (Hu "max-connections" (FromInt 100)); [done|reflexivity|]. apply (bool_decide_eq_true_1 _). vm_compute. reflexivity.
  - apply (Hu "max_allowed_packet" (FromString "64M")); [done|reflexivity|]. apply (bool_decide_eq_true_1 _). vm_compute. reflexivity.
  - apply Hb; [done|]. apply (bool_decide_eq_true_1 _). vm_compute. reflexivity.
Defined.

End Witnesses.
