(* ===== verification/GoTime.v ===== *)
(** * Go times

    Package [time], as far as the operator uses it: a time is the number of
    nanoseconds since 1970 in [Z], a duration a number of nanoseconds; the
    current time is an argument of the operations that read the clock (one
    value for the whole operation, where the code reads the clock anew for each
    condition it writes).  [parseRFC3339] is [time.Parse(time.RFC3339, s)]. *)

From S2P Require Import Prelude GoStrings.
Open Scope stdpp_scope.
Open Scope Z_scope.

Definition second : Z := 10 ^ 9.

(** [n] digits. *)
Fixpoint take_digits (n : nat) (acc : Z) (s : string) : option (Z * string) :=
  match n with
  | O => Some (acc, s)
  | S n =>
      match s with
      | String c s => d ← digit_val c; take_digits n (acc * 10 + d) s
      | "" => None
      end
  end.

Definition expect (c : ascii) (s : string) : option string :=
  match s with
  | String d s => if Ascii.eqb c d then Some s else None
  | "" => None
  end.

(** Two digits, or one for an hour. *)
Definition take_hour (s : string) : option (Z * string) :=
  match take_digits 2 0 s with Some r => Some r | None => take_digits 1 0 s end.

(** The fraction of a second: the first nine digits count. *)
Fixpoint take_fraction (scale acc : Z) (s : string) : Z * string :=
  match s with
  | String c s' =>
      match digit_val c with
      | Some d => take_fraction (scale / 10) (acc + d * scale) s'
      | None => (acc, s)
      end
  | "" => (acc, s)
  end.

Definition take_nanos (s : string) : Z * string :=
  match s with
  | String c (String d _ as s') =>
      if Ascii.eqb c "." && is_digit d then take_fraction (10 ^ 8) 0 s' else (0, s)
  | _ => (0, s)
  end.

(** The offset of the zone, in seconds, up to the end of the string. *)
Definition take_zone (s : string) : option Z :=
  match s with
  | "Z" => Some 0
  | String c s =>
      sign ← (if Ascii.eqb c "+" then Some 1 else if Ascii.eqb c "-" then Some (-1) else None);
      '(h, s) ← take_digits 2 0 s; s ← expect ":" s; '(m, s) ← take_digits 2 0 s;
      if String.eqb s "" && (h <=? 24) && (m <? 60) then Some (sign * (h * 3600 + m * 60)) else None
  | "" => None
  end.

Definition leap (y : Z) : bool :=
  ((y mod 4 =? 0) && negb (y mod 100 =? 0)) || (y mod 400 =? 0).

Definition days_in (y m : Z) : Z :=
  if m =? 2 then (if leap y then 29 else 28)
  else if (m =? 4) || (m =? 6) || (m =? 9) || (m =? 11) then 30 else 31.

(** Days since 1970-01-01, counting years from March. *)
Definition days_from_civil (y m d : Z) : Z :=
  let y' := if m <=? 2 then y - 1 else y in
  let era := y' / 400 in
  let yoe := y' mod 400 in
  let doy := (153 * (if m <=? 2 then m + 9 else m - 3) + 2) / 5 + d - 1 in
  era * 146097 + (yoe * 365 + yoe / 4 - yoe / 100 + doy) - 719468.

Definition parseRFC3339 (s : string) : result Z :=
  match
    ('(y, s) ← take_digits 4 0 s; s ← expect "-" s;
     '(mo, s) ← take_digits 2 0 s; s ← expect "-" s;
     '(d, s) ← take_digits 2 0 s; s ← expect "T" s;
     '(h, s) ← take_hour s; s ← expect ":" s;
     '(mi, s) ← take_digits 2 0 s; s ← expect ":" s;
     '(se, s) ← take_digits 2 0 s;
     let (nanos, s) := take_nanos s in
     zone ← take_zone s;
     if (1 <=? mo) && (mo <=? 12) && (1 <=? d) && (d <=? days_in y mo) &&
        (h <? 24) && (mi <? 60) && (se <? 60)
     then Some ((days_from_civil y mo d * 86400 + h * 3600 + mi * 60 + se - zone) * second + nanos)
     else None)
  with
  | Some t => Ok t
  | None => Err (ErrMsg ("parsing time " +:+ Quote s))
  end.

(** [time.Since(t).Seconds() > n], and [< n]. *)
Definition since_gt (now t n : Z) : bool := now - t >? n * second.
Definition since_lt (now t n : Z) : bool := now - t <? n * second.

Example parseRFC3339_epoch : parseRFC3339 "1970-01-02T00:00:01Z" = Ok (86401 * second).
Proof. vm_compute. reflexivity. Qed.

Example parseRFC3339_zone :
  parseRFC3339 "2024-02-29T13:14:15.5+02:00" = Ok (1709205255 * second + 500000000).
Proof. vm_compute. reflexivity. Qed.

Example parseRFC3339_day : is_ok (parseRFC3339 "2023-02-29T00:00:00Z") = false.
Proof. vm_compute. reflexivity. Qed.
