(* ===== verification/PodNames.v ===== *)
(** * The names of pods

    The regular expressions with which the controllers take the name of a pod
    apart: [`^([\w-]+)-mysql-\d*$`] of the node controller, and the same shape
    as the first label of a host name in the Orchestrator reconciler.  The
    digits contain no dash, so they are what follows the last dash, and the
    captures are determined by that. *)

From S2P Require Import Prelude GoStrings.
Open Scope stdpp_scope.

(** The class [\w] and the class [[\w-]]. *)
Definition is_word (c : ascii) : bool :=
  let n := N_of_ascii c in
  (48 <=? n)%N && (n <=? 57)%N || (65 <=? n)%N && (n <=? 90)%N ||
  (97 <=? n)%N && (n <=? 122)%N || (n =? 95)%N.

Definition is_wordish (c : ascii) : bool := is_word c || Ascii.eqb c "-".

(** A name followed by [-mysql-] and digits, possibly none: the name and the
    digits. *)
Definition splitPodName (pod : string) : option (string * string) :=
  match LastIndex pod "-" with
  | None => None
  | Some i =>
      let digits := str_drop (i + 1) pod in
      let set := str_take i pod in
      if str_forall is_digit digits && HasSuffix set "-mysql" &&
         (6 <? String.length set)%nat && str_forall is_wordish set
      then Some (str_take (String.length set - 6) set, digits) else None
  end.

Definition podOrdinal (pod : string) : option string := snd <$> splitPodName pod.

Lemma all_digits_wordish s : all_digits s = true → str_forall is_wordish s = true.
Proof.
  intros Hs. apply (str_forall_impl is_digit); [|done]. intros c. unfold is_digit, digit_val.
  unfold is_wordish, is_word. destruct (_ && _)%N; [done|]. done.
Qed.

Lemma Split_three (a b c : string) :
  Index a "." = None → Index b "." = None → Index c "." = None →
  Split (a +:+ "." +:+ b +:+ "." +:+ c) "." = [a; b; c].
Proof.
  intros Ha Hb Hc. change ("." +:+ b +:+ "." +:+ c) with (String "." (b +:+ String "." c)).
  by rewrite !Split_app, Split_none.
Qed.

(** The names that the code gives to pods are taken apart again. *)
Lemma splitPodName_pod (name : string) (i : Z) :
  name ≠ "" → str_forall is_wordish name = true → (0 ≤ i)%Z →
  splitPodName (name +:+ "-mysql" +:+ "-" +:+ itoa i) = Some (name, itoa i).
Proof.
  intros Hn Hw Hi. pose proof (all_digits_itoa i Hi) as Hd. rewrite <-str_app_assoc.
  set (set_ := name +:+ "-mysql").
  assert (Hset : str_forall is_wordish set_ = true) by (unfold set_; by rewrite str_forall_app, Hw).
  unfold splitPodName. change ("-" +:+ itoa i) with (String "-" (itoa i)).
  rewrite LastIndex_app by (by apply all_digits_Index).
  change (String "-" (itoa i)) with ("-" +:+ itoa i).
  replace (String.length set_ + 1)%nat with (String.length (set_ +:+ "-"))
    by (by rewrite str_length_app).
  rewrite <-str_app_assoc, str_drop_app, (str_app_assoc set_), str_take_app.
  rewrite str_forall_digits, Hd, Hset.
  assert (HasSuffix set_ "-mysql" = true) as -> by (apply HasSuffix_spec; by eexists).
  assert (Hlen : String.length set_ = (String.length name + 6)%nat).
  { unfold set_. by rewrite str_length_app. }
  rewrite Hlen. assert ((6 <? String.length name + 6)%nat = true) as ->.
  { apply Nat.ltb_lt. destruct name; [done|]. simpl. lia. }
  replace (String.length name + 6 - 6)%nat with (String.length name) by lia.
  simpl. unfold set_. by rewrite str_take_app.
Qed.
