(* ===== verification/OrcTopology.v ===== *)
(** * The replication topology

    The instances that Orchestrator reports ([pkg/orchestrator/instance.go]) and
    how the operator determines the master from them
    ([DetermineMaster] of [pkg/controller/orchestrator/orchestrator_reconcile.go]).

    [getMasterForNode] follows the master of a node until it reaches an instance
    without one.  Its recursion is bounded by the list of visited nodes; the
    definition takes fuel, and [getMasterForNode_terminates] shows that as much
    fuel as there are instances is always enough.  The specification is the
    relation [leads]: the chain of masters as an inductive relation, without
    fuel and without the list of visited nodes. *)

From S2P Require Import Prelude GoStrings ClusterTypes.
Open Scope stdpp_scope.

(* src/pkg/orchestrator/instance.go:29-33 InstanceKey *)
Record InstanceKey := mkKey { Hostname : string; Port : Z }.

#[export] Instance InstanceKey_eq_dec : EqDecision InstanceKey.
Proof. solve_decision. Defined.

(** The fields the operator reads; a [sql.NullInt64] is an option. *)
(* src/pkg/orchestrator/instance.go:55-130 Instance *)
Record Instance_ := mkInstance {
  Key : InstanceKey;
  Uptime : Z;
  in_ReadOnly : bool;
  MasterKey : InstanceKey;
  IsDetachedMaster : bool;
  Slave_SQL_Running : bool;
  Slave_IO_Running : bool;
  SecondsBehindMaster : option Z;
  SlaveLagSeconds : option Z;
  IsCoMaster : bool;
  IsLastCheckValid : bool;
  IsUpToDate : bool;
  IsRecentlyChecked : bool;
  SecondsSinceLastSeen : option Z }.

(* src/pkg/orchestrator/instance.go:132-153 TopologyRecovery *)
Record TopologyRecovery := mkRecovery {
  Id : Z; rec_UID : string; IsSuccessful : bool;
  RecoveryStartTimestamp : string; Acknowledged : bool }.

(* src/pkg/controller/orchestrator/orchestrator_reconcile.go:581-582 InstancesSet *)
Definition InstancesSet := list Instance_.

(* src/pkg/controller/orchestrator/orchestrator_reconcile.go:584-593 GetInstance *)
Fixpoint GetInstance (insts : InstancesSet) (host : string) : option Instance_ :=
  match insts with
  | [] => None
  | node :: insts =>
      if String.eqb host (Hostname (Key node)) then Some node else GetInstance insts host
  end.

(** [None] when the fuel runs out, [Some None] for a nil instance. *)
(* src/pkg/controller/orchestrator/orchestrator_reconcile.go:595-621 getMasterForNode *)
Fixpoint getMasterForNode (fuel : nat) (insts : InstancesSet) (node : Instance_)
    (visited : list Instance_) : option (option Instance_) :=
  if existsb (λ vn, bool_decide (Key vn = Key node)) visited then Some None
  else
    let visited := visited ++ [node] in
    if negb (String.length (Hostname (MasterKey node)) =? 0)%nat &&
       negb (IsCoMaster node) && negb (IsDetachedMaster node) then
      match GetInstance insts (Hostname (MasterKey node)) with
      | Some master =>
          match fuel with
          | O => None
          | S fuel => getMasterForNode fuel insts master visited
          end
      | None => Some None
      end
    else if IsCoMaster node then Some (GetInstance insts (Hostname (MasterKey node)))
    else Some (Some node).

(** The master of a node, with fuel for all instances. *)
Definition masterForNode (insts : InstancesSet) (node : Instance_) : option Instance_ :=
  default None (getMasterForNode (length insts) insts node []).

(** The loop that collects the masters: [None] when a node has none. *)
Fixpoint mastersForNodes (insts nodes : InstancesSet) : option InstancesSet :=
  match nodes with
  | [] => Some []
  | node :: nodes =>
      match masterForNode insts node with
      | None => None
      | Some master => (λ ms, master :: ms) <$> mastersForNodes insts nodes
      end
  end.

(* src/pkg/controller/orchestrator/orchestrator_reconcile.go:623-650 DetermineMaster *)
Definition DetermineMaster (insts : InstancesSet) : option Instance_ :=
  match mastersForNodes insts insts with
  | None => None
  | Some [] => None
  | Some (masterHostName :: ms) =>
      if forallb (λ node, String.eqb (Hostname (Key node)) (Hostname (Key masterHostName)))
           (masterHostName :: ms)
      then Some masterHostName
      else None
  end.

(** ** The chain of masters *)

(** A node that follows the master named in its [MasterKey]. *)
Definition follows (node : Instance_) : Prop :=
  Hostname (MasterKey node) ≠ "" ∧ IsCoMaster node = false ∧ IsDetachedMaster node = false.

#[export] Instance follows_dec node : Decision (follows node).
Proof. unfold follows. apply _. Defined.

Inductive leads (insts : InstancesSet) : Instance_ → Instance_ → Prop :=
  | leads_root node : IsCoMaster node = false → ¬ follows node → leads insts node node
  | leads_comaster node m :
      IsCoMaster node = true → GetInstance insts (Hostname (MasterKey node)) = Some m →
      leads insts node m
  | leads_step node next m :
      follows node → GetInstance insts (Hostname (MasterKey node)) = Some next →
      leads insts next m → leads insts node m.

Lemma GetInstance_Some insts host i :
  GetInstance insts host = Some i → i ∈ insts ∧ Hostname (Key i) = host.
Proof.
  induction insts as [|n insts IH]; [done|]. simpl.
  destruct (String.eqb_spec host (Hostname (Key n))) as [->|].
  - intros [= ->]. split; [left|done].
  - intros [? ?]%IH. split; [by right|done].
Qed.

Lemma GetInstance_None insts host :
  GetInstance insts host = None ↔ ∀ i, i ∈ insts → Hostname (Key i) ≠ host.
Proof.
  induction insts as [|n insts IH]; simpl.
  - split; [intros _ i Hi; by apply not_elem_of_nil in Hi|done].
  - destruct (String.eqb_spec host (Hostname (Key n))) as [->|Hne].
    + split; [done|]. intros Hall. by destruct (Hall n ltac:(left)).
    + rewrite IH. split.
      * intros Hall i [->|Hi]%elem_of_cons; [congruence|by apply Hall].
      * intros Hall i Hi. apply Hall. by right.
Qed.

Lemma GetInstance_unique insts i :
  NoDup (Hostname ∘ Key <$> insts) → i ∈ insts → GetInstance insts (Hostname (Key i)) = Some i.
Proof.
  induction insts as [|n insts IH]; intros Hnd Hi; [by apply not_elem_of_nil in Hi|].
  simpl in *. apply NoDup_cons in Hnd as [Hn Hnd].
  apply elem_of_cons in Hi as [->|Hi]; [by rewrite String.eqb_refl|].
  destruct (String.eqb_spec (Hostname (Key i)) (Hostname (Key n))) as [E|]; [|by apply IH].
  destruct Hn. apply list_elem_of_fmap. by exists i.
Qed.

(** The test of the code for [follows]. *)
Lemma follows_test node :
  negb (String.length (Hostname (MasterKey node)) =? 0)%nat &&
  negb (IsCoMaster node) && negb (IsDetachedMaster node) = bool_decide (follows node).
Proof.
  apply eq_true_iff_eq. rewrite bool_decide_eq_true. unfold follows.
  destruct (Hostname (MasterKey node)) as [|c s], (IsCoMaster node), (IsDetachedMaster node);
    simpl; naive_solver.
Qed.

Lemma leads_det insts node m1 m2 : leads insts node m1 → leads insts node m2 → m1 = m2.
Proof.
  intros H1. revert m2. induction H1 as [n Hc Hf|n m Hc Hg|n next m Hf Hg Hl IH]; intros m2 H2;
    inversion H2 as [n' Hc' Hf'|n' m' Hc' Hg'|n' next' m' Hf' Hg' Hl']; subst;
    unfold follows in *; try naive_solver congruence.
Qed.

(** ** Termination *)

(** The instances whose key is not visited yet. *)
Definition unvisited (insts visited : list Instance_) : list Instance_ :=
  filter (λ i, Key i ∉ Key <$> visited) insts.

Lemma existsb_visited visited node :
  existsb (λ vn, bool_decide (Key vn = Key node)) visited = bool_decide (Key node ∈ Key <$> visited).
Proof.
  apply eq_true_iff_eq. rewrite existsb_exists, bool_decide_eq_true, list_elem_of_fmap.
  split.
  - intros (x & Hx & E%bool_decide_eq_true). exists x. split; [done|]. by apply list_elem_of_In.
  - intros (x & E & Hx). exists x. split; [by apply list_elem_of_In|]. by apply bool_decide_eq_true.
Qed.

Lemma unvisited_snoc (insts visited : list Instance_) node :
  node ∈ insts → Key node ∉ Key <$> visited →
  (length (unvisited insts (visited ++ [node])) < length (unvisited insts visited))%nat.
Proof.
  intros Hin Hv. unfold unvisited.
  assert (Hsub : ∀ l : list Instance_,
    (length (filter (λ i, Key i ∉ Key <$> visited ++ [node]) l) ≤
     length (filter (λ i, Key i ∉ Key <$> visited) l))%nat).
  { induction l as [|x l IH]; [done|]. rewrite !filter_cons.
    destruct (decide (Key x ∉ Key <$> visited ++ [node])) as [Hx|Hx].
    - rewrite decide_True; [simpl; lia|]. intros H. apply Hx. rewrite fmap_app. set_solver.
    - destruct (decide _); simpl; lia. }
  induction insts as [|x l IH]; [by apply not_elem_of_nil in Hin|]. rewrite !filter_cons.
  apply elem_of_cons in Hin as [<-|Hin].
  - rewrite decide_False by (intros H; apply H; rewrite fmap_app; set_solver).
    rewrite decide_True by done. simpl. specialize (Hsub l). lia.
  - specialize (IH Hin). destruct (decide (Key x ∉ Key <$> visited ++ [node])) as [Hx|Hx].
    + rewrite decide_True; [simpl; lia|]. intros H. apply Hx. rewrite fmap_app. set_solver.
    + destruct (decide _); simpl; lia.
Qed.

Lemma getMasterForNode_fuel fuel insts node visited :
  node ∈ insts → (length (unvisited insts visited) ≤ fuel)%nat →
  getMasterForNode fuel insts node visited ≠ None.
Proof.
  revert node visited. induction fuel as [|fuel IH]; intros node visited Hin Hm; simpl;
    rewrite existsb_visited; case_bool_decide as Hv; try done;
    pose proof (unvisited_snoc insts visited node Hin Hv) as Hlt; [lia|].
  destruct (negb _ && _ && _); [|by destruct (IsCoMaster node)].
  destruct (GetInstance insts _) as [master|] eqn:Eg; [|done].
  apply GetInstance_Some in Eg as [Hmaster _]. apply IH; [done|lia].
Qed.

(** Fuel beyond what is needed changes nothing. *)
Lemma getMasterForNode_mono fuel fuel' insts node visited r :
  getMasterForNode fuel insts node visited = Some r → (fuel ≤ fuel')%nat →
  getMasterForNode fuel' insts node visited = Some r.
Proof.
  revert fuel' node visited. induction fuel as [|fuel IH]; intros fuel' node visited;
    destruct fuel' as [|fuel']; intros Hr Hle; simpl in *; try lia; try done;
    destruct (existsb _ visited); try done;
    destruct (negb _ && _ && _); try done; destruct (GetInstance insts _); try done.
  apply IH; [done|lia].
Qed.

Lemma getMasterForNode_enough insts node fuel :
  node ∈ insts → (length insts ≤ fuel)%nat →
  getMasterForNode fuel insts node [] = Some (masterForNode insts node).
Proof.
  intros Hin Hf. unfold masterForNode.
  destruct (getMasterForNode (length insts) insts node []) as [r|] eqn:E.
  - simpl. by eapply getMasterForNode_mono.
  - exfalso. revert E. apply getMasterForNode_fuel; [done|].
    unfold unvisited. apply length_filter.
Qed.

(** ** Correctness *)

Lemma getMasterForNode_leads fuel insts node visited m :
  getMasterForNode fuel insts node visited = Some (Some m) → leads insts node m.
Proof.
  revert node visited. induction fuel as [|fuel IH]; intros node visited; simpl;
    destruct (existsb _ visited); try done; rewrite follows_test;
    (case_bool_decide as Hf;
      [|destruct (IsCoMaster node) eqn:Ec; [intros [= Hg]; by apply leads_comaster|
        intros [= <-]; by apply leads_root]]);
    (destruct (GetInstance insts _) as [next|] eqn:Hg; [|done]); [done|].
  intros Hr. eapply leads_step; [done..|]. by eapply IH.
Qed.

(** The chain with its length. *)
Inductive leads_in (insts : InstancesSet) : nat → Instance_ → Instance_ → Prop :=
  | leads_in_root node : IsCoMaster node = false → ¬ follows node → leads_in insts 0 node node
  | leads_in_comaster node m :
      IsCoMaster node = true → GetInstance insts (Hostname (MasterKey node)) = Some m →
      leads_in insts 0 node m
  | leads_in_step n node next m :
      follows node → GetInstance insts (Hostname (MasterKey node)) = Some next →
      leads_in insts n next m → leads_in insts (S n) node m.

Lemma leads_leads_in insts node m : leads insts node m → ∃ n, leads_in insts n node m.
Proof.
  induction 1 as [node Hc Hf|node m Hc Hg|node next m Hf Hg Hl [n IH]].
  - exists 0%nat. by apply leads_in_root.
  - exists 0%nat. by apply leads_in_comaster.
  - exists (S n). by eapply leads_in_step.
Qed.

Lemma leads_in_det insts n1 n2 node m1 m2 :
  leads_in insts n1 node m1 → leads_in insts n2 node m2 → n1 = n2.
Proof.
  intros H1. revert n2 m2.
  induction H1 as [node Hc Hf|node m Hc Hg|n node next m Hf Hg Hl IH]; intros n2 m2 H2;
    inversion H2; subst; unfold follows in *; try (done || naive_solver congruence).
Qed.

(** A visited instance is further from the master than the current one, so the
    current one is not among the visited. *)
Lemma leads_getMasterForNode fuel insts n node visited m :
  NoDup (Hostname ∘ Key <$> insts) → node ∈ insts →
  leads_in insts n node m → (n ≤ fuel)%nat →
  (∀ v, v ∈ visited → v ∈ insts ∧ ∃ k m', leads_in insts k v m' ∧ (n < k)%nat) →
  getMasterForNode fuel insts node visited = Some (Some m).
Proof.
  intros Hnd Hin Hl. revert fuel visited Hin.
  induction Hl as [node Hc Hf|node m Hc Hg|n node next m Hf Hg Hl IH];
    intros fuel visited Hin Hfuel Hvis.
  all: assert (Hnv : existsb (λ vn, bool_decide (Key vn = Key node)) visited = false);
    [rewrite existsb_visited; apply bool_decide_eq_false; intros (v & Hkey & Hv)%list_elem_of_fmap;
     destruct (Hvis v Hv) as (Hvin & k & m' & Hk & Hlt);
     assert (v = node) as -> by (pose proof (GetInstance_unique insts v Hnd Hvin) as G1;
       pose proof (GetInstance_unique insts node Hnd Hin) as G2; rewrite Hkey in G2; congruence)|].
  - pose proof (leads_in_det _ _ _ _ _ _ Hk (leads_in_root insts node Hc Hf)). lia.
  - destruct fuel; simpl; rewrite Hnv, follows_test, bool_decide_false by done; by rewrite Hc.
  - pose proof (leads_in_det _ _ _ _ _ _ Hk (leads_in_comaster insts node m Hc Hg)). lia.
  - destruct fuel; simpl; rewrite Hnv, follows_test, bool_decide_false, Hc, Hg; try done;
      unfold follows; naive_solver congruence.
  - pose proof (leads_in_det _ _ _ _ _ _ Hk (leads_in_step insts n node next m Hf Hg Hl)). lia.
  - destruct fuel as [|fuel]; [lia|]. simpl. rewrite Hnv, follows_test, bool_decide_true, Hg by done.
    apply IH; [by apply GetInstance_Some in Hg as [? _]|lia|].
    intros v [Hv|Hv]%elem_of_app.
    + destruct (Hvis v Hv) as (? & k & m' & ? & ?). split; [done|]. exists k, m'. split; [done|lia].
    + apply list_elem_of_singleton in Hv as ->. split; [done|]. exists (S n), m.
      split; [by eapply leads_in_step|lia].
Qed.

(** [masterForNode] computes the chain. *)
Lemma masterForNode_spec insts node m :
  NoDup (Hostname ∘ Key <$> insts) → node ∈ insts →
  masterForNode insts node = Some m ↔ leads insts node m.
Proof.
  intros Hnd Hin. split.
  - unfold masterForNode. destruct (getMasterForNode _ _ _ _) as [[m'|]|] eqn:E; simpl; [|done|done].
    intros [= ->]. by eapply getMasterForNode_leads.
  - intros [n Hn]%leads_leads_in.
    pose proof (leads_getMasterForNode (n + length insts) insts n node [] m Hnd Hin Hn
      ltac:(lia) ltac:(intros v Hv; by apply not_elem_of_nil in Hv)) as Hr.
    rewrite (getMasterForNode_enough insts node (n + length insts) Hin) in Hr by lia.
    congruence.
Qed.

Lemma mastersForNodes_Some insts nodes ms :
  mastersForNodes insts nodes = Some ms ↔ Forall2 (λ n m, masterForNode insts n = Some m) nodes ms.
Proof.
  revert ms. induction nodes as [|n nodes IH]; intros ms; simpl.
  { split; [by intros [= <-]|intros H; by inversion H]. }
  destruct (masterForNode insts n) as [m|] eqn:E.
  - split.
    + destruct (mastersForNodes insts nodes) as [ms'|]; [|done]. intros [= <-].
      constructor; [done|]. by apply IH.
    + intros H. inversion H as [|? m' ? ms' Hm Hms]; simplify_eq. apply IH in Hms. by rewrite Hms.
  - split; [done|]. intros H. inversion H; congruence.
Qed.

Lemma masterForNode_choice (insts : InstancesSet) (m : Instance_) (l : list Instance_) :
  (∀ x, x ∈ l → ∃ m', masterForNode insts x = Some m' ∧ Hostname (Key m') = Hostname (Key m)) →
  ∃ ms, Forall2 (λ n m, masterForNode insts n = Some m) l ms ∧
        Forall (λ x, Hostname (Key x) = Hostname (Key m)) ms.
Proof.
  induction l as [|x l IH]; intros Hl; [by exists []|].
  destruct IH as (ms & ? & ?); [intros y ?; apply Hl; by right|].
  destruct (Hl x) as (m' & ? & ?); [left|]. exists (m' :: ms). by split; constructor.
Qed.

Lemma DetermineMaster_Some insts m :
  DetermineMaster insts = Some m ↔
    ∃ ms, mastersForNodes insts insts = Some (m :: ms) ∧
      Forall (λ x, Hostname (Key x) = Hostname (Key m)) ms.
Proof.
  unfold DetermineMaster. destruct (mastersForNodes insts insts) as [[|m' ms]|] eqn:E.
  - split; [done|by intros (? & ? & _)].
  - simpl. rewrite String.eqb_refl. simpl. split.
    + destruct (forallb _ ms) eqn:Ef; [|done]. intros [= ->]. exists ms. split; [done|].
      rewrite forallb_forall in Ef. apply Forall_forall. intros x Hx.
      apply String.eqb_eq, Ef. by apply list_elem_of_In.
    + intros (ms' & [= -> ->] & Hall).
      assert (forallb (λ node, String.eqb (Hostname (Key node)) (Hostname (Key m))) ms' = true)
        as ->; [|done].
      apply forallb_forall. intros x Hx%list_elem_of_In. rewrite Forall_forall in Hall.
      by apply String.eqb_eq, Hall.
  - split; [done|by intros (? & ? & _)].
Qed.

(** [getMasterForNode] terminates on every topology, cycles included: for a
    node of the set, as much fuel as there are instances gives the result, and
    more fuel gives the same. *)
Theorem getMasterForNode_terminates (insts : InstancesSet) (node : Instance_) (fuel : nat) :
  node ∈ insts → (length insts ≤ fuel)%nat →
  getMasterForNode fuel insts node [] = Some (masterForNode insts node).
Proof. apply getMasterForNode_enough. Qed.

(** C25. [DetermineMaster] is sound and complete: on instances with distinct host
    names it returns [m] exactly when there is a node, the chain of masters of
    the first node ends in [m], and the chain of every node ends in an
    instance with the host name of [m].  In particular it returns nothing for a
    topology with a cycle, a missing master or two masters. *)
Theorem DetermineMaster_spec (insts : InstancesSet) (m : Instance_) :
  NoDup (Hostname ∘ Key <$> insts) →
  DetermineMaster insts = Some m ↔
    (∃ first, head insts = Some first ∧ leads insts first m) ∧
    (∀ node, node ∈ insts → ∃ m', leads insts node m' ∧ Hostname (Key m') = Hostname (Key m)).
Proof.
  intros Hnd. rewrite DetermineMaster_Some. split.
  - intros (ms & Hms & Hall). apply mastersForNodes_Some in Hms as Hf2.
    assert (Hnodes : ∀ node, node ∈ insts → ∃ m', m' ∈ m :: ms ∧ leads insts node m').
    { intros node Hin. apply list_elem_of_lookup in Hin as [i Hi].
      destruct (Forall2_lookup_l _ _ _ _ _ Hf2 Hi) as (m' & Hm' & Hmf).
      exists m'. split; [by eapply list_elem_of_lookup_2|].
      apply masterForNode_spec; [done|by eapply list_elem_of_lookup_2|done]. }
    split.
    + inversion Hf2 as [|first m' rest ms' Hfirst _ Heq]; subst. exists first. split; [done|].
      apply masterForNode_spec; [done|left|done].
    + intros node Hin. destruct (Hnodes node Hin) as (m' & Hm' & Hl). exists m'. split; [done|].
      apply elem_of_cons in Hm' as [->|Hm']; [done|]. rewrite Forall_forall in Hall. by apply Hall.
  - intros ((first & Hhead & Hfirst) & Hall).
    destruct (masterForNode_choice insts m insts) as (ms & Hf2 & Hhosts).
    { intros x Hx. destruct (Hall x Hx) as (m' & Hm' & ?). exists m'. split; [|done].
      by apply masterForNode_spec. }
    destruct insts as [|x insts]; [done|]. injection Hhead as ->.
    inversion Hf2 as [|? m' ? ms' Hm' Hms']; subst.
    assert (Hf : leads (first :: insts) first m').
    { apply masterForNode_spec; [done|left|done]. }
    assert (m' = m) as -> by (by eapply leads_det).
    exists ms'. split; [by apply mastersForNodes_Some|]. by inversion Hhosts.
Qed.

(** ** Examples *)

Definition sampleInstance (host master : string) (readOnly : bool) : Instance_ :=
  mkInstance (mkKey host 3306) 100 readOnly (mkKey master 3306) false true true None (Some 0%Z)
    false true true true (Some 1%Z).

(** A master with two replicas, one of them behind the other. *)
Definition sampleTopology : InstancesSet :=
  [sampleInstance "a" "" false; sampleInstance "b" "a" true; sampleInstance "c" "b" true].

Lemma getMasterForNode_terminates_witness :
  getMasterForNode 3 sampleTopology (sampleInstance "c" "b" true) [] =
    Some (masterForNode sampleTopology (sampleInstance "c" "b" true)).
Proof.
  apply (getMasterForNode_terminates sampleTopology (sampleInstance "c" "b" true) 3);
    [do 2 right; left|reflexivity].
Defined.

Lemma DetermineMaster_spec_witness :
  DetermineMaster sampleTopology = Some (sampleInstance "a" "" false) ∧
  leads sampleTopology (sampleInstance "a" "" false) (sampleInstance "a" "" false).
Proof.
  assert (Hd : DetermineMaster sampleTopology = Some (sampleInstance "a" "" false)) by reflexivity.
  split; [exact Hd|]. apply (DetermineMaster_spec sampleTopology) in Hd.
  - destruct Hd as [(first & Hhead & Hl) _]. injection Hhead as <-. exact Hl.
  - apply (bool_decide_unpack (NoDup _)). vm_compute. exact I.
Defined.
