(* ===== verification/OrcReconcile.v ===== *)
(** * The Orchestrator reconciler

    [pkg/controller/orchestrator/orchestrator_reconcile.go]: one round of
    [orcUpdater.Sync].  It reads the topology of a cluster from Orchestrator,
    registers and forgets nodes, makes nodes writable or read-only, writes the
    conditions of the nodes and of the cluster, and acknowledges recoveries.

    The Orchestrator client ([orc.Interface]) and the event recorder are the
    effects [orc_op]; the state is the cluster, threaded through the
    operations, which mutate its status. *)

From S2P Require Import Prelude GoStrings GoTime Semver ClusterTypes Versioning ClusterStatus.
From S2P Require Import ClusterModel PodNames OrcTopology.
Open Scope stdpp_scope.

(** ** Effects *)

(* src/pkg/orchestrator/orchestrator.go:24-42 Interface *)
Inductive orc_op :=
  | Discover (host : string) (port : Z)
  | Forget (host : string) (port : Z)
  | Master (clusterHint : string)
  | Cluster (cluster : string)
  | AuditRecovery (cluster : string)
  | AckRecovery (id : Z) (comment : string)
  | SetHostWritable (key : InstanceKey)
  | SetHostReadOnly (key : InstanceKey)
  (** [recorder.Event] *)
  | RecordEvent (type_ reason message : string).

#[export] Instance orc_effect : Effect orc_op := λ o,
  match o with
  | Discover _ _ | Forget _ _ | AckRecovery _ _ | SetHostWritable _ | SetHostReadOnly _ =>
      result unit
  | Master _ => result Instance_
  | Cluster _ => result InstancesSet
  | AuditRecovery _ => result (list TopologyRecovery)
  | RecordEvent _ _ _ => unit
  end.

(* src/pkg/orchestrator/errors.go:72-92 IsNotFound *)
Definition OrcIsNotFound (e : error) : bool :=
  match e with
  | ErrOrc msg =>
      if Contains msg "Unable to determine cluster name" then true
      else if Contains msg "Cannot read instance" then true
      else if Contains msg "No masters found" then true
      else false
  | _ => false
  end.

(* src/pkg/controller/orchestrator/orchestrator_reconcile.go:41-51 recoveryGraceTime *)
Definition recoveryGraceTime : Z := 600.
Definition forgetGraceTime : Z := 30.
Definition defaultMaxSlaveLatency : Z := 30.
Definition mysqlPort : Z := 3306.
Definition uptimeGraceTime : Z := 15.

(** The indices [0 .. n-1] of a loop over the pods. *)
Definition podIndices (n : Z) : list Z := Z.of_nat <$> seq 0 (Z.to_nat n).

Definition cond_is (status : ConditionStatus) {C T} `{IsCondition C T} (o : option C) : bool :=
  match o with Some cond => bool_decide (cond_status cond = status) | None => false end.

(** ** Reading from Orchestrator *)

(* src/pkg/controller/orchestrator/orchestrator_reconcile.go:127-168 getFromOrchestrator *)
Definition getFromOrchestrator (c : MysqlCluster) :
    prog orc_op (result (InstancesSet * option Instance_)) :=
  r ← call (Cluster (GetClusterAlias c));
  match r with
  | Err e => if negb (OrcIsNotFound e) then mret (Err e) else mret (Ok ([], None))
  | Ok instances =>
      r ← call (Master (GetClusterAlias c));
      let continue master :=
        let m := DetermineMaster instances in
        match master, m with
        | Some master, Some m =>
            if negb (String.eqb (Hostname (Key master)) (Hostname (Key m)))
            then mret (Ok (instances, None)) else mret (Ok (instances, Some master))
        | Some master, None => mret (Ok (instances, Some master))
        | None, Some m => mret (Ok (instances, Some m))
        | None, None => mret (Ok (instances, None))
        end in
      match r with
      | Err e => if negb (OrcIsNotFound e) then mret (Err e) else continue None
      | Ok master => continue (Some master)
      end
  end.

(* src/pkg/controller/orchestrator/orchestrator_reconcile.go:310-358 updateNodesInOrc *)
Definition updateNodesInOrc (c : MysqlCluster) (instances : InstancesSet) :
    InstancesSet * list InstanceKey * list InstanceKey :=
  let hosts := (λ i, (i, GetPodHostname c i)) <$> podIndices (replicasOf c) in
  let readyInstances := omap (λ ih : Z * string, GetInstance instances ih.2) hosts in
  let shouldDiscover := omap (λ ih : Z * string,
    match GetInstance instances ih.2 with
    | Some _ => None
    | None => if (ih.1 <? ReadyNodes (cl_Status c))%Z then Some (mkKey ih.2 mysqlPort) else None
    end) hosts in
  let shouldForget := omap (λ inst,
    match GetInstance readyInstances (Hostname (Key inst)) with
    | Some _ => None
    | None => Some (Key inst)
    end) instances in
  match cl_DeletionTimestamp c with
  | None => (readyInstances, shouldDiscover, shouldForget)
  | Some _ => (readyInstances, [], Key <$> instances)
  end.

(** ** Acting on Orchestrator *)

(* src/pkg/controller/orchestrator/orchestrator_reconcile.go:379-388 discoverNodesInOrc *)
Definition discoverNodesInOrc (keys : list InstanceKey) : prog orc_op unit :=
  for_each keys (λ key, _ ← call (Discover (Hostname key) (Port key)); mret tt).

(* src/pkg/controller/orchestrator/orchestrator_reconcile.go:360-377 forgetNodesFromOrc *)
Definition forgetNodesFromOrc (now : Z) (c : MysqlCluster) (keys : list InstanceKey) :
    prog orc_op unit :=
  let allowed :=
    match GetClusterCondition c ClusterConditionReady with
    | Some ready => bool_decide (cc_Status ready = ConditionTrue) &&
                    since_gt now (cc_LastTransitionTime ready) forgetGraceTime
    | None => false
    end || match cl_DeletionTimestamp c with Some _ => true | None => false end in
  if allowed then for_each keys (λ key, _ ← call (Forget (Hostname key) (Port key)); mret tt)
  else mret tt.

(* src/pkg/controller/orchestrator/orchestrator_reconcile.go:509-516 setWritableNode *)
Definition setWritableNode (inst : Instance_) : prog orc_op (result unit) :=
  if in_ReadOnly inst then call (SetHostWritable (Key inst)) else mret (Ok tt).

(* src/pkg/controller/orchestrator/orchestrator_reconcile.go:518-525 setReadOnlyNode *)
Definition setReadOnlyNode (inst : Instance_) : prog orc_op (result unit) :=
  if negb (in_ReadOnly inst) then call (SetHostReadOnly (Key inst)) else mret (Ok tt).

(** An error of a node is logged and the loop goes on. *)
Definition ignoreErr {A} (m : prog orc_op (result A)) : prog orc_op unit := _ ← m; mret tt.

(* src/pkg/controller/orchestrator/orchestrator_reconcile.go:527-579 markReadOnlyNodesInOrc *)
Definition markReadOnlyNodesInOrc (c : MysqlCluster) (insts : InstancesSet)
    (master : option Instance_) : prog orc_op unit :=
  if cond_is ConditionTrue (GetClusterCondition c ClusterConditionFailoverInProgress) then mret tt
  else
    let skip inst := negb (IsUpToDate inst) || (Uptime inst <? uptimeGraceTime)%Z in
    match master with
    | None =>
        for_each insts (λ inst, if skip inst then mret tt else ignoreErr (setReadOnlyNode inst))
    | Some master =>
        for_each insts (λ inst,
          if skip inst then mret tt
          else if ReadOnly (cl_Spec c) then ignoreErr (setReadOnlyNode inst)
          else if String.eqb (Hostname (Key inst)) (Hostname (Key master))
          then ignoreErr (setWritableNode inst)
          else ignoreErr (setReadOnlyNode inst))
    end.

(* src/pkg/controller/orchestrator/orchestrator_reconcile.go:390-422 getRecoveriesToAck *)
Definition getRecoveriesToAck (now : Z) (c : MysqlCluster) (recoveries : list TopologyRecovery) :
    list TopologyRecovery :=
  if (length recoveries =? 0)%nat then []
  else if negb match GetClusterCondition c ClusterConditionReady with
               | Some ready => bool_decide (cc_Status ready = ConditionTrue) &&
                               since_gt now (cc_LastTransitionTime ready) recoveryGraceTime
               | None => false
               end then []
  else
    List.filter (λ recovery,
      negb (Acknowledged recovery) &&
      match parseRFC3339 (RecoveryStartTimestamp recovery) with
      | Err _ => false
      | Ok start => negb (since_lt now start recoveryGraceTime)
      end) recoveries.

(* src/pkg/controller/orchestrator/orchestrator_reconcile.go:424-439 acknowledgeRecoveries *)
Definition acknowledgeRecoveries (c : MysqlCluster) (toAck : list TopologyRecovery) :
    prog orc_op (result unit) :=
  let comment := "Statefulset '" +:+ GetNameForResource StatefulSetName (cl_Name c) +:+
    "' is healthy for more than " +:+ itoa recoveryGraceTime +:+ " seconds" in
  for_each_err toAck (λ recovery,
    _ <-? call (AckRecovery (Id recovery) comment);
    _ ← call (RecordEvent "Normal" "RecoveryAcked"
               ("Recovery with id " +:+ itoa (Id recovery) +:+ " was acked."));
    mret (Ok tt)).

(** ** Updating the status *)

(* src/pkg/controller/orchestrator/orchestrator_reconcile.go:459-462 updateNodeCondition *)
Definition updateNodeConditionOf (now : Z) (host : string) (cType : NodeConditionType)
    (status : ConditionStatus) (c : MysqlCluster) : MysqlCluster :=
  (UpdateNodeConditionStatus now host cType status c).1.

(* src/pkg/controller/orchestrator/orchestrator_reconcile.go:204-207 getCondAsBool *)
Definition getCondAsBool (status : NodeStatus) (cond : NodeConditionType) : bool :=
  match GetNodeConditionIndex status cond with
  | Some index => cond_is ConditionTrue (ns_Conditions status !! index)
  | None => false
  end.

(** The loop over the pods: the cluster, and [Some hasMaster] when the loop ends,
    [None] when it returns with a node that is not replicating. *)
Fixpoint readyLoop (now : Z) (is_ : list Z) (hasMaster : bool) (c : MysqlCluster) :
    MysqlCluster * option bool :=
  match is_ with
  | [] => (c, Some hasMaster)
  | i :: is_ =>
      let hostname := GetPodHostname c i in
      let (ns, c) := GetNodeStatusFor hostname c in
      let master := getCondAsBool ns NodeConditionMaster in
      let replicating := getCondAsBool ns NodeConditionReplicating in
      if master then readyLoop now is_ true c
      else if negb replicating then
        (UpdateStatusCondition now ClusterConditionReady ConditionFalse "NotReplicating"
           ("Node " +:+ hostname +:+ " is part of topology and not replicating") c, None)
      else readyLoop now is_ hasMaster c
  end.

(* src/pkg/controller/orchestrator/orchestrator_reconcile.go:170-202 updateClusterReadyStatus *)
Definition updateClusterReadyStatus (now : Z) (c : MysqlCluster) : MysqlCluster :=
  if negb (ReadyNodes (cl_Status c) =? replicasOf c)%Z then
    UpdateStatusCondition now ClusterConditionReady ConditionFalse "StatefulSetNotReady"
      "StatefulSet is not ready" c
  else
    let (c, r) := readyLoop now (podIndices (replicasOf c)) false c in
    match r with
    | None => c
    | Some hasMaster =>
        if negb hasMaster && negb (ReadOnly (cl_Spec c)) && (replicasOf c >? 0)%Z then
          UpdateStatusCondition now ClusterConditionReady ConditionFalse "NoMaster"
            "Cluster has no designated master" c
        else
          UpdateStatusCondition now ClusterConditionReady ConditionTrue "ClusterReady"
            "Cluster is ready" c
    end.

Definition isMasterHost (host : string) (master : option Instance_) : bool :=
  match master with Some m => String.eqb host (Hostname (Key m)) | None => false end.

(** The body of the loop of [updateNodesStatus]. *)
Definition updateNodeStatus (now : Z) (master : option Instance_) (maxSlaveLatency : Z)
    (c : MysqlCluster) (node : Instance_) : MysqlCluster :=
  let host := Hostname (Key node) in
  let upd := updateNodeConditionOf now host in
  if negb (IsRecentlyChecked node) then
    if negb (IsLastCheckValid node) then
      let c := upd NodeConditionLagged ConditionUnknown c in
      let c := upd NodeConditionReplicating ConditionUnknown c in
      upd NodeConditionMaster ConditionUnknown c
    else c
  else
    let c :=
      if isMasterHost host master then upd NodeConditionLagged ConditionFalse c
      else match SlaveLagSeconds node with
           | None => upd NodeConditionLagged ConditionUnknown c
           | Some lag =>
               if (lag <=? maxSlaveLatency)%Z then upd NodeConditionLagged ConditionFalse c
               else upd NodeConditionLagged ConditionTrue c
           end in
    let c :=
      if Slave_SQL_Running node && Slave_IO_Running node
      then upd NodeConditionReplicating ConditionTrue c
      else upd NodeConditionReplicating ConditionFalse c in
    let c :=
      if isMasterHost host master then upd NodeConditionMaster ConditionTrue c
      else upd NodeConditionMaster ConditionFalse c in
    if in_ReadOnly node then upd NodeConditionReadOnly ConditionTrue c
    else upd NodeConditionReadOnly ConditionFalse c.

(* src/pkg/controller/orchestrator/orchestrator_reconcile.go:209-272 updateNodesStatus *)
Definition updateNodesStatus (now : Z) (insts : InstancesSet) (master : option Instance_)
    (c : MysqlCluster) : MysqlCluster :=
  let maxSlaveLatency := default defaultMaxSlaveLatency (MaxSlaveLatency (cl_Spec c)) in
  fold_left (updateNodeStatus now master maxSlaveLatency) insts c.

(* src/pkg/controller/orchestrator/orchestrator_reconcile.go:274-300 updateClusterReadOnlyStatus *)
Definition updateClusterReadOnlyStatus (now : Z) (insts : InstancesSet) (c : MysqlCluster) :
    MysqlCluster :=
  let host node := Hostname (Key node) in
  let readOnlyHosts := host <$> List.filter in_ReadOnly insts in
  let writableHosts := host <$> List.filter (λ node, negb (in_ReadOnly node)) insts in
  if (length writableHosts =? 0)%nat then
    UpdateStatusCondition now ClusterConditionReadOnly ConditionTrue "ClusterReadOnlyTrue"
      ("read-only nodes: " +:+ Join readOnlyHosts " ") c
  else
    UpdateStatusCondition now ClusterConditionReadOnly ConditionFalse "ClusterReadOnlyFalse"
      ("writable nodes: " +:+ Join writableHosts " ") c.

(* src/pkg/controller/orchestrator/orchestrator_reconcile.go:302-308 updateClusterFailoverInProgressStatus *)
Definition updateClusterFailoverInProgressStatus (now : Z) (master : option Instance_)
    (c : MysqlCluster) : MysqlCluster :=
  match (m ← master; SecondsSinceLastSeen m) with
  | Some s =>
      if (s <? 5)%Z then
        UpdateStatusCondition now ClusterConditionFailoverInProgress ConditionFalse
          "ClusterMasterHealthy" "Master is healthy in orchestrator" c
      else c
  | None => c
  end.

Definition formatBool (b : bool) : string := if b then "true" else "false".

(* src/pkg/controller/orchestrator/orchestrator_reconcile.go:661-670 makeRecoveryMessage *)
Definition makeRecoveryMessage (acks : list TopologyRecovery) : string :=
  Join ((λ a, "{id: " +:+ itoa (Id a) +:+ ", uid: " +:+ rec_UID a +:+ ", success: " +:+
               formatBool (IsSuccessful a) +:+ ", time: " +:+ RecoveryStartTimestamp a +:+ "}")
        <$> acks) " ".

(* src/pkg/controller/orchestrator/orchestrator_reconcile.go:441-457 updateFailoverAckStatus *)
Definition updateFailoverAckStatus (now : Z) (recoveries : list TopologyRecovery)
    (c : MysqlCluster) : MysqlCluster :=
  let unack := List.filter (λ r, negb (Acknowledged r)) recoveries in
  if (0 <? length unack)%nat then
    UpdateStatusCondition now ClusterConditionFailoverAck ConditionTrue
      "PendingFailoverAckExists" (makeRecoveryMessage unack) c
  else
    UpdateStatusCondition now ClusterConditionFailoverAck ConditionFalse
      "NoPendingFailoverAckExists" "no pending ack" c.

(** ** Nodes of a scaled-down cluster *)

(** The part between the dots: anything that ends in [mysql] or [mysql-nodes]. *)
Definition isServiceName (svc : string) : bool :=
  str_forall is_wordish svc && (HasSuffix svc "mysql" || HasSuffix svc "mysql-nodes").

(** The regular expression of the code has three parts separated by dots, and
    none of its classes contains a dot, so the parts are the pieces between the
    dots.  The index and the error are returned together, as in the code: an
    ordinal out of range gives the largest [int], converted to [int32]. *)
(* src/pkg/controller/orchestrator/orchestrator_reconcile.go:497-507 indexInSts *)
Definition indexInSts (name : string) : Z * option error :=
  match Split name "." with
  | [pod; svc; ns] =>
      match podOrdinal pod with
      | Some digits =>
          if isServiceName svc && negb (String.eqb ns "") && str_forall is_wordish ns then
            match Atoi digits with
            | Some i => (wrap32 i, None)
            | None => (wrap32 (if String.eqb digits "" then 0 else 2 ^ 63 - 1),
                       Some (ErrMsg ("strconv.Atoi: parsing " +:+ Quote digits)))
            end
          else (0%Z, Some (ErrMsg "no match found"))
      | None => (0%Z, Some (ErrMsg "no match found"))
      end
  | _ => (0%Z, Some (ErrMsg "no match found"))
  end.

(* src/pkg/controller/orchestrator/orchestrator_reconcile.go:684-690 shouldRemoveOldNode *)
Definition shouldRemoveOldNode (node : NodeStatus) (c : MysqlCluster) : bool :=
  match map_get (cl_Annotations c) AnnotationVersion with
  | Some version =>
      if String.eqb version "300" then Contains (ns_Name node) "-mysql-nodes" else false
  | None => false
  end.

(** Whether the loop keeps a node. *)
Definition keepNode (c : MysqlCluster) (ns : NodeStatus) : bool :=
  let (index, err) := indexInSts (ns_Name ns) in
  negb (shouldRemoveOldNode ns c) && (index <? replicasOf c)%Z ||
  match err with Some _ => true | None => false end.

(** The loop that moves the nodes to keep to the front of the same array: it
    reads index [i] of the current array and writes index [validIndex]. *)
Fixpoint compactNodes (keep : NodeStatus → bool) (n i validIndex : nat)
    (nodes : list NodeStatus) : list NodeStatus * nat :=
  match n with
  | O => (nodes, validIndex)
  | S n =>
      match nodes !! i with
      | Some ns =>
          if keep ns then compactNodes keep n (S i) (S validIndex) (<[validIndex := ns]> nodes)
          else compactNodes keep n (S i) validIndex nodes
      | None => (nodes, validIndex)
      end
  end.

(** What is known of a node that Orchestrator does not list. *)
Definition markNodeUnknown (now : Z) (host : string) (c : MysqlCluster) : MysqlCluster :=
  let upd := updateNodeConditionOf now host in
  let c := upd NodeConditionLagged ConditionUnknown c in
  let c := upd NodeConditionReplicating ConditionUnknown c in
  let c := upd NodeConditionMaster ConditionUnknown c in
  upd NodeConditionReadOnly ConditionUnknown c.

(* src/pkg/controller/orchestrator/orchestrator_reconcile.go:464-495 removeNodeConditionNotInOrc *)
Definition removeNodeConditionNotInOrc (now : Z) (insts : InstancesSet) (c : MysqlCluster) :
    MysqlCluster :=
  let c := fold_left (λ c ns,
    match GetInstance insts (ns_Name ns) with
    | Some _ => c
    | None => markNodeUnknown now (ns_Name ns) c
    end) (st_Nodes (cl_Status c)) c in
  let nodes := st_Nodes (cl_Status c) in
  let (nodes, validIndex) := compactNodes (keepNode c) (length nodes) 0 0 nodes in
  with_Nodes (take validIndex nodes) c.

(** ** One round *)

(** The cluster is returned with the error, since it has been mutated. *)
(* src/pkg/controller/orchestrator/orchestrator_reconcile.go:75-125 Sync *)
Definition Sync (now : Z) (c : MysqlCluster) : prog orc_op (MysqlCluster * result unit) :=
  r ← getFromOrchestrator c;
  match r with
  | Err e => mret (c, Err e)
  | Ok (allInstances, master) =>
      let '(instances, undiscovered, toRemove) := updateNodesInOrc c allInstances in
      _ ← discoverNodesInOrc undiscovered;
      let c := removeNodeConditionNotInOrc now instances c in
      _ ← markReadOnlyNodesInOrc c instances master;
      r ← call (AuditRecovery (GetClusterAlias c));
      let recoveries := match r with Ok rs => rs | Err _ => [] end in
      let c := updateNodesStatus now instances master c in
      let c := updateClusterFailoverInProgressStatus now master c in
      let c := updateClusterReadOnlyStatus now instances c in
      let c := updateClusterReadyStatus now c in
      let c := updateFailoverAckStatus now recoveries c in
      _ ← forgetNodesFromOrc now c toRemove;
      _ ← acknowledgeRecoveries c (getRecoveriesToAck now c recoveries);
      mret (c, Ok tt)
  end.

(** ** Properties *)

(** *** The master *)

(** The master that the round works with never contradicts the topology: it
    is the one that Orchestrator names, or the one the topology determines if
    Orchestrator names none, and there is none when the two have different host
    names.  Only errors other than "not found" end the round. *)
Theorem getFromOrchestrator_spec (c : MysqlCluster) (w : world orc_op) :
  match run (getFromOrchestrator c) w with
  | Ok (insts, Some m) =>
      w [] (Cluster (GetClusterAlias c)) = Ok insts ∧
      (∀ m', DetermineMaster insts = Some m' → Hostname (Key m') = Hostname (Key m)) ∧
      (DetermineMaster insts = Some m ∨
       w [Ev (Cluster (GetClusterAlias c)) (Ok insts)] (Master (GetClusterAlias c)) = Ok m)
  | Ok (_, None) => True
  | Err e => OrcIsNotFound e = false
  end.
Proof.
  unfold run, getFromOrchestrator, mbind, prog_bind, call, mret, prog_ret. cbn [fst snd].
  destruct (w [] (Cluster (GetClusterAlias c))) as [insts|e] eqn:Ec;
    [|by destruct (OrcIsNotFound e) eqn:En].
  simpl. set (h := [Ev _ _]). destruct (w h (Master (GetClusterAlias c))) as [m|e] eqn:Em.
  - destruct (DetermineMaster insts) as [m'|] eqn:Ed; simpl.
    + destruct (String.eqb_spec (Hostname (Key m)) (Hostname (Key m'))); simpl; [|done].
      split_and!; [done|intros ? ?; congruence|by right].
    + split_and!; [done|intros ? ?; congruence|by right].
  - destruct (OrcIsNotFound e) eqn:En; simpl; [|done].
    destruct (DetermineMaster insts) as [m'|] eqn:Ed; simpl; [|done].
    split_and!; [done|intros ? ?; congruence|by left].
Qed.

(** *** Which calls are made *)

Lemma emits_ignoreErr {A} (E : event orc_op → Prop) (Q : result A → Prop) (m : prog orc_op (result A)) :
  emits E Q m → emits E (λ _, True) (ignoreErr m).
Proof. intros H. eapply emits_bind; [exact H|]. intros ? _. by apply emits_ret. Qed.

Lemma emits_call_any (E : event orc_op → Prop) (o : orc_op) :
  (∀ r, E (Ev o r)) → emits E (λ _, True) (call o).
Proof. intros H. refine (emits_call _ o (λ _, True) _). intros r. by split. Qed.

Lemma emits_call_unit (E : event orc_op → Prop) (o : orc_op) :
  (∀ r, E (Ev o r)) → emits E (λ _, True) (_ ← call o; mret tt).
Proof.
  intros H. eapply (emits_bind _ (λ _, True)).
  - by apply emits_call_any.
  - intros ? _. by apply emits_ret.
Qed.

(** A call that [markReadOnlyNodesInOrc] may make on the instances. *)
Definition readOnlyCall (c : MysqlCluster) (insts : InstancesSet) (master : option Instance_)
    (e : event orc_op) : Prop :=
  cond_is ConditionTrue (GetClusterCondition c ClusterConditionFailoverInProgress) = false ∧
  ∃ inst, inst ∈ insts ∧ IsUpToDate inst = true ∧ (uptimeGraceTime ≤ Uptime inst)%Z ∧
  match ev_op e with
  | SetHostWritable k =>
      k = Key inst ∧ in_ReadOnly inst = true ∧ ReadOnly (cl_Spec c) = false ∧
      isMasterHost (Hostname k) master = true
  | SetHostReadOnly k =>
      k = Key inst ∧ in_ReadOnly inst = false ∧
      (ReadOnly (cl_Spec c) = true ∨ isMasterHost (Hostname k) master = false)
  | _ => False
  end.

Lemma markReadOnly_emits c insts master :
  emits (readOnlyCall c insts master) (λ _, True) (markReadOnlyNodesInOrc c insts master).
Proof.
  unfold markReadOnlyNodesInOrc.
  destruct (cond_is _ _) eqn:Hfip; [by apply emits_ret|].
  assert (Hro : ∀ inst, inst ∈ insts →
    negb (IsUpToDate inst) || (Uptime inst <? uptimeGraceTime)%Z = false →
    ReadOnly (cl_Spec c) = true ∨ isMasterHost (Hostname (Key inst)) master = false →
    emits (readOnlyCall c insts master) (λ _, True) (ignoreErr (setReadOnlyNode inst))).
  { intros inst Hin [Hu%negb_false_iff Ht%Z.ltb_ge]%orb_false_iff Hm.
    apply (emits_ignoreErr _ (λ _, True)). unfold setReadOnlyNode.
    destruct (in_ReadOnly inst) eqn:Hr; simpl; [by apply emits_ret|].
    refine (emits_call _ (SetHostReadOnly (Key inst)) (λ _, True) _).
    intros r. split; [|done]. split; [done|]. by exists inst. }
  destruct master as [m|].
  - apply emits_for_each. intros inst Hin.
    destruct (negb (IsUpToDate inst) || _) eqn:Hskip; [by apply emits_ret|].
    destruct (ReadOnly (cl_Spec c)) eqn:Hspec; [apply Hro; auto|].
    destruct (String.eqb _ _) eqn:Hm; [|by apply Hro; [..|right]].
    apply orb_false_iff in Hskip as [Hu%negb_false_iff Ht%Z.ltb_ge].
    apply (emits_ignoreErr _ (λ _, True)). unfold setWritableNode.
    destruct (in_ReadOnly inst) eqn:Hr; [|by apply emits_ret].
    refine (emits_call _ (SetHostWritable (Key inst)) (λ _, True) _).
    intros r. split; [|done]. split; [done|]. exists inst. simpl. rewrite Hspec, Hm. by split_and!.
  - apply emits_for_each. intros inst Hin.
    destruct (negb (IsUpToDate inst) || _) eqn:Hskip; [by apply emits_ret|].
    apply Hro; [done..|by right].
Qed.

(** Fencing: a node is made writable only if it is the master, the cluster is
    not meant to be read-only, and no failover is in progress; a node is made
    read-only only if it is not the master or the cluster is meant to be
    read-only; in both cases only if its state is up to date, it has been up for
    the grace time, and it is not in that state already. *)
Theorem markReadOnlyNodesInOrc_safe (c : MysqlCluster) (insts : InstancesSet)
    (master : option Instance_) (w : world orc_op) :
  Forall (readOnlyCall c insts master) (trace (markReadOnlyNodesInOrc c insts master) w).
Proof. exact (proj1 (emits_trace _ _ _ w (markReadOnly_emits c insts master))). Qed.

Lemma podIndices_elem n i : i ∈ podIndices n ↔ (0 ≤ i < n)%Z.
Proof.
  unfold podIndices. rewrite list_elem_of_fmap. split.
  - intros (k & -> & Hk%elem_of_seq). lia.
  - intros Hi. exists (Z.to_nat i). split; [lia|]. apply elem_of_seq. lia.
Qed.

(** What the three lists of [updateNodesInOrc] contain. *)
Lemma updateNodesInOrc_ready c insts inst :
  inst ∈ (updateNodesInOrc c insts).1.1 ↔
    ∃ i, (0 ≤ i < replicasOf c)%Z ∧ GetInstance insts (GetPodHostname c i) = Some inst.
Proof.
  assert (E : (updateNodesInOrc c insts).1.1 = omap (λ ih : Z * string, GetInstance insts ih.2)
    ((λ i, (i, GetPodHostname c i)) <$> podIndices (replicasOf c))).
  { unfold updateNodesInOrc. by destruct (cl_DeletionTimestamp c). }
  rewrite E, list_elem_of_omap. setoid_rewrite list_elem_of_fmap. split.
  - intros ([i' host] & (i & [= -> ->] & Hi) & Hg). exists i. by rewrite <-podIndices_elem.
  - intros (i & Hi & Hg). exists (i, GetPodHostname c i). split; [|done]. exists i.
    by rewrite podIndices_elem.
Qed.

Lemma updateNodesInOrc_discover c insts k :
  k ∈ (updateNodesInOrc c insts).1.2 ↔
    cl_DeletionTimestamp c = None ∧
    ∃ i, (0 ≤ i < replicasOf c)%Z ∧ (i < ReadyNodes (cl_Status c))%Z ∧
         k = mkKey (GetPodHostname c i) mysqlPort ∧ GetInstance insts (GetPodHostname c i) = None.
Proof.
  unfold updateNodesInOrc. destruct (cl_DeletionTimestamp c); simpl.
  { split; [intros H; by apply not_elem_of_nil in H|naive_solver]. }
  rewrite list_elem_of_omap. setoid_rewrite list_elem_of_fmap. split.
  - intros ([i' host] & (i & [= -> ->] & Hi) & Hg). simpl in Hg.
    destruct (GetInstance _ _) eqn:Eg; [done|].
    destruct (Z.ltb_spec i (ReadyNodes (cl_Status c))); [|done]. injection Hg as <-.
    split; [done|]. exists i. by rewrite <-podIndices_elem.
  - intros (_ & i & Hi & Hr & -> & Hg). exists (i, GetPodHostname c i). split.
    + exists i. by rewrite podIndices_elem.
    + simpl. rewrite Hg. by destruct (Z.ltb_spec i (ReadyNodes (cl_Status c))); [|lia].
Qed.

Lemma updateNodesInOrc_forget c insts k :
  k ∈ (updateNodesInOrc c insts).2 ↔
    ∃ inst, inst ∈ insts ∧ k = Key inst ∧
      (cl_DeletionTimestamp c ≠ None ∨
       ∀ i, (0 ≤ i < replicasOf c)%Z → GetPodHostname c i ≠ Hostname (Key inst)).
Proof.
  destruct (cl_DeletionTimestamp c) eqn:Hd.
  { unfold updateNodesInOrc. rewrite Hd. simpl. rewrite list_elem_of_fmap. naive_solver. }
  assert (Hready : ∀ host, GetInstance (updateNodesInOrc c insts).1.1 host = None ↔
    (∀ i, (0 ≤ i < replicasOf c)%Z → GetPodHostname c i ≠ host) ∨ GetInstance insts host = None).
  { intros host. rewrite GetInstance_None. split.
    - intros Hall. destruct (GetInstance insts host) as [x|] eqn:Eg; [left|by right].
      intros i Hi <-. apply (Hall x); [|by apply GetInstance_Some in Eg as [_ ?]].
      apply updateNodesInOrc_ready. by exists i.
    - intros Hor x (i & Hi & Hg)%updateNodesInOrc_ready.
      apply GetInstance_Some in Hg as Hx. destruct Hx as [_ Hx]. rewrite Hx.
      destruct Hor as [Hor|Hor]; [by apply Hor|]. congruence. }
  revert Hready. unfold updateNodesInOrc. rewrite Hd. simpl. intros Hready.
  rewrite list_elem_of_omap. split.
  - intros (inst & Hin & Hg). exists inst. destruct (GetInstance _ _) eqn:Eg; [done|].
    injection Hg as <-. split_and!; [done|done|]. right.
    apply Hready in Eg as [?|Eg]; [done|]. apply GetInstance_None with (i := inst) in Eg; done.
  - intros (inst & Hin & -> & [?|Hne]); [done|]. exists inst. split; [done|].
    destruct (Hready (Hostname (Key inst))) as [_ Hr]. by rewrite Hr by (by left).
Qed.

(** *** The condition Ready *)

(** Whether a condition of a node is known and true. *)
Definition nodeIs (c : MysqlCluster) (host : string) (ty : NodeConditionType) : bool :=
  cond_is ConditionTrue (nodeCondition (st_Nodes (cl_Status c)) host ty).

Lemma GetNodeStatusFor_eq host c :
  (GetNodeStatusFor host c).2 = with_Nodes (ensureNode host (st_Nodes (cl_Status c))) c ∧
  ∀ ty, getCondAsBool (GetNodeStatusFor host c).1 ty = nodeIs c host ty.
Proof.
  unfold GetNodeStatusFor. rewrite GetNodeStatusIndex_eq. split; [done|]. intros ty. simpl.
  unfold nodeIs. rewrite <-(nodeCondition_ensureNode host).
  set (nodes := st_Nodes (cl_Status c)).
  pose proof (nodeIndex_ensureNode host nodes) as Hi.
  destruct (nodeIndex_Some _ _ _ Hi) as (ns & Hns & _).
  unfold nodeCondition. rewrite Hi. simpl. rewrite Hns. simpl.
  unfold getCondAsBool, GetNodeConditionIndex, condLookup. by destruct (condIndex ty _).
Qed.

(** What the loop over the pods computes, and that it changes nothing but the
    list of nodes unless it stops. *)
Lemma readyLoop_spec now c is_ hm nodes :
  let host := GetPodHostname c in
  let ok i := nodeIs c (host i) NodeConditionMaster || nodeIs c (host i) NodeConditionReplicating in
  (∀ host ty, nodeIs (with_Nodes nodes c) host ty = nodeIs c host ty) →
  ∃ nodes',
    if forallb ok is_ then
      readyLoop now is_ hm (with_Nodes nodes c) =
        (with_Nodes nodes' c, Some (hm || existsb (λ i, nodeIs c (host i) NodeConditionMaster) is_))
    else ∃ msg, readyLoop now is_ hm (with_Nodes nodes c) =
      (UpdateStatusCondition now ClusterConditionReady ConditionFalse "NotReplicating" msg
         (with_Nodes nodes' c), None).
Proof.
  cbv zeta. revert hm nodes. induction is_ as [|i is_ IH]; intros hm nodes Hsame.
  { exists nodes. simpl. by rewrite orb_false_r. }
  simpl. change (GetPodHostname (with_Nodes nodes c) i) with (GetPodHostname c i).
  set (h := GetPodHostname c i).
  destruct (GetNodeStatusFor_eq h (with_Nodes nodes c)) as [Ec Ef].
  destruct (GetNodeStatusFor h _) as [ns c'] eqn:E. simpl in Ec, Ef.
  rewrite !Ef, !Hsame. subst c'. set (nodes1 := ensureNode _ _).
  change (with_Nodes nodes1 (with_Nodes nodes c)) with (with_Nodes nodes1 c).
  assert (Hsame1 : ∀ host ty, nodeIs (with_Nodes nodes1 c) host ty = nodeIs c host ty).
  { intros host ty. rewrite <-Hsame. unfold nodeIs, nodes1. simpl.
    by rewrite nodeCondition_ensureNode. }
  destruct (nodeIs c h NodeConditionMaster) eqn:Em; simpl.
  { destruct (IH true nodes1 Hsame1) as [nodes' Hn]. exists nodes'. by rewrite orb_true_r. }
  destruct (nodeIs c h NodeConditionReplicating) eqn:Er; simpl; [by apply IH|].
  exists nodes1. by eexists.
Qed.

(** When a cluster is ready, in terms of what is known of its pods. *)
Definition isReady (c : MysqlCluster) : bool :=
  let is_ := podIndices (replicasOf c) in
  let flag ty i := nodeIs c (GetPodHostname c i) ty in
  (ReadyNodes (cl_Status c) =? replicasOf c)%Z &&
  forallb (λ i, flag NodeConditionMaster i || flag NodeConditionReplicating i) is_ &&
  (existsb (flag NodeConditionMaster) is_ || ReadOnly (cl_Spec c) || (replicasOf c <=? 0)%Z).

(** C38. The condition Ready is true after the update exactly if every replica is
    ready, every pod is known to be the master or to replicate, and there is a
    master unless the cluster is read-only or has no replicas; otherwise it is
    false.  The transition time moves only when the status changes, and no other condition is touched. *)
Theorem updateClusterReadyStatus_spec (now : Z) (c : MysqlCluster) :
  let c' := updateClusterReadyStatus now c in
  let status := if isReady c then ConditionTrue else ConditionFalse in
  (∃ cond, GetClusterCondition c' ClusterConditionReady = Some cond ∧
     cc_Status cond = status ∧
     cc_LastTransitionTime cond =
       match GetClusterCondition c ClusterConditionReady with
       | Some o => if decide (cc_Status o = status) then cc_LastTransitionTime o else now
       | None => now
       end) ∧
  ∀ ty, ty ≠ ClusterConditionReady → GetClusterCondition c' ty = GetClusterCondition c ty.
Proof.
  cbv zeta.
  assert (Hupd : ∃ status reason msg nodes,
    updateClusterReadyStatus now c =
      UpdateStatusCondition now ClusterConditionReady status reason msg (with_Nodes nodes c) ∧
    status = if isReady c then ConditionTrue else ConditionFalse).
  { unfold updateClusterReadyStatus, isReady.
    destruct (Z.eqb_spec (ReadyNodes (cl_Status c)) (replicasOf c)); simpl.
    2:{ eexists _, _, _, (st_Nodes (cl_Status c)). by rewrite with_Nodes_id. }
    destruct (readyLoop_spec now c (podIndices (replicasOf c)) false (st_Nodes (cl_Status c)))
      as [nodes Hl]; [by rewrite with_Nodes_id|]. rewrite with_Nodes_id in Hl.
    destruct (forallb _ _); simpl.
    2:{ destruct Hl as [msg ->]. by eexists _, _, _, nodes. }
    rewrite Hl. simpl. change (replicasOf (with_Nodes nodes c)) with (replicasOf c).
    rewrite Z.gtb_ltb, Z.leb_antisym.
    destruct (existsb _ _), (ReadOnly (cl_Spec c)), (0 <? replicasOf c)%Z;
      by eexists _, _, _, nodes. }
  destruct Hupd as (status & reason & msg & nodes & -> & <-). split.
  - rewrite UpdateStatusCondition_lookup, decide_True by done.
    change (GetClusterCondition (with_Nodes nodes c)) with (GetClusterCondition c).
    eexists. split; [done|].
    destruct (GetClusterCondition c ClusterConditionReady) as [o|]; simpl; [|done].
    by destruct (decide (cc_Status o = status)).
  - intros ty Hty. by rewrite UpdateStatusCondition_other.
Qed.

(** *** The conditions of the nodes *)

(** The condition of a node of a cluster. *)
Definition condOf (c : MysqlCluster) (host : string) (ty : NodeConditionType) :
    option NodeCondition := nodeCondition (st_Nodes (cl_Status c)) host ty.

(** The condition with a new status. *)
Definition setTo (now : Z) (ty : NodeConditionType) (status : ConditionStatus)
    (old : option NodeCondition) : NodeCondition :=
  updated now (mkNodeCondition ty status 0) old.

Lemma setTo_idem now ty status old :
  setTo now ty status (Some (setTo now ty status old)) = setTo now ty status old.
Proof.
  unfold setTo, updated. destruct old as [o|]; simpl; repeat case_decide; simpl in *;
    congruence || done.
Qed.

Lemma condOf_upd now host ty status c host' ty' :
  condOf (updateNodeConditionOf now host ty status c) host' ty' =
    if decide (host' = host ∧ ty' = ty) then Some (setTo now ty status (condOf c host ty))
    else condOf c host' ty'.
Proof. apply UpdateNodeConditionStatus_nodes. Qed.

Lemma upd_frame now host ty status c :
  ∃ nodes, updateNodeConditionOf now host ty status c = with_Nodes nodes c.
Proof.
  unfold updateNodeConditionOf, UpdateNodeConditionStatus. rewrite GetNodeStatusIndex_eq.
  destruct (_ !! _) as [ns|]; [|by eexists].
  destruct (updateNodeCondition now ns ty status). by eexists.
Qed.

Lemma condOf_markNodeUnknown now host c host' ty :
  condOf (markNodeUnknown now host c) host' ty =
    if decide (host' = host) then Some (setTo now ty ConditionUnknown (condOf c host ty))
    else condOf c host' ty.
Proof.
  unfold markNodeUnknown. rewrite !condOf_upd.
  destruct (decide (host' = host)) as [->|Hne]; [|by rewrite !decide_False by naive_solver].
  destruct ty; repeat case_decide; naive_solver.
Qed.

(** The first loop of [removeNodeConditionNotInOrc]. *)
Lemma markUnknown_loop now insts (nodes : list NodeStatus) c host ty :
  condOf (fold_left (λ c ns,
      match GetInstance insts (ns_Name ns) with
      | Some _ => c
      | None => markNodeUnknown now (ns_Name ns) c
      end) nodes c) host ty =
    if decide (host ∈ ns_Name <$> nodes ∧ GetInstance insts host = None)
    then Some (setTo now ty ConditionUnknown (condOf c host ty)) else condOf c host ty.
Proof.
  revert c. induction nodes as [|ns nodes IH]; intros c; cbn [fold_left].
  { rewrite decide_False; [done|]. intros [[]%not_elem_of_nil _]. }
  rewrite fmap_cons, IH. clear IH.
  destruct (GetInstance insts (ns_Name ns)) as [x|] eqn:Eg.
  { destruct (decide (host = ns_Name ns)) as [->|Hne].
    - by rewrite !decide_False by (intros [_ ?]; congruence).
    - repeat case_decide; try done; set_solver. }
  rewrite condOf_markNodeUnknown. destruct (decide (host = ns_Name ns)) as [->|Hne].
  - rewrite setTo_idem. rewrite (decide_True (P := _ ∈ ns_Name ns :: _ ∧ _)) by set_solver.
    by case_decide.
  - repeat case_decide; try done; set_solver.
Qed.

(** The loop that compacts the array in place is a filter: the writes stay
    behind the reads. *)
Lemma compactNodes_filter keep (n i v : nat) nodes :
  (v ≤ i)%nat → length nodes = (i + n)%nat →
  let r := compactNodes keep n i v nodes in
  take r.2 r.1 = take v nodes ++ List.filter keep (drop i nodes).
Proof.
  cbv zeta. revert i v nodes. induction n as [|n IH]; intros i v nodes Hv Hlen; simpl.
  { rewrite drop_ge by lia. by rewrite app_nil_r. }
  destruct (lookup_lt_is_Some_2 nodes i) as [ns Hns]; [lia|]. rewrite Hns.
  rewrite (drop_S _ _ _ Hns). simpl. destruct (keep ns).
  - rewrite IH by (rewrite ?length_insert; lia).
    rewrite (take_S_r _ _ ns) by (rewrite list_lookup_insert_eq; [done|lia]).
    by rewrite take_insert_ge, drop_insert_lt, <-(assoc_L (++)) by lia.
  - by rewrite IH by lia.
Qed.

Lemma nodeCondition_filter (keep : string → bool) nodes name ty :
  nodeCondition (List.filter (λ ns, keep (ns_Name ns)) nodes) name ty =
    if keep name then nodeCondition nodes name ty else None.
Proof.
  unfold nodeCondition. induction nodes as [|n nodes IH]; simpl; [by destruct (keep name)|].
  destruct (keep (ns_Name n)) eqn:Ek; simpl; destruct (String.eqb_spec (ns_Name n) name) as [E|E].
  - by rewrite <-E, Ek.
  - destruct (nodeIndex name (List.filter _ _)), (nodeIndex name nodes); simpl in *; exact IH.
  - rewrite IH, <-E, Ek. done.
  - rewrite IH. destruct (nodeIndex name nodes); simpl; done.
Qed.

(** Whether a node of this name is kept: it depends on the name only. *)
Definition keepName (c : MysqlCluster) (name : string) : bool :=
  keepNode c (mkNodeStatus name []).

(** The names and namespaces that the regular expression of [indexInSts] reads. *)
Definition podNamesReadable (c : MysqlCluster) : Prop :=
  cl_Name c ≠ "" ∧ str_forall is_wordish (cl_Name c) = true ∧
  cl_Namespace c ≠ "" ∧ str_forall is_wordish (cl_Namespace c) = true.

(** The host name of a pod is read back to its ordinal. *)
Lemma indexInSts_GetPodHostname c i :
  podNamesReadable c → (0 ≤ i < 2 ^ 31)%Z → indexInSts (GetPodHostname c i) = (i, None).
Proof.
  intros (Hn & Hnw & Hns & Hnsw) Hi. unfold indexInSts, GetPodHostname. simpl GetNameForResource.
  pose proof (all_digits_itoa i ltac:(lia)) as Hd.
  set (set_ := cl_Name c +:+ "-mysql").
  assert (Hset : str_forall is_wordish set_ = true) by (unfold set_; by rewrite str_forall_app, Hnw).
  assert (Hpod : str_forall is_wordish (set_ +:+ "-" +:+ itoa i) = true).
  { by rewrite !str_forall_app, Hset, (all_digits_wordish _ Hd). }
  assert (Hsplit : Split (set_ +:+ "-" +:+ itoa i +:+ "." +:+ HeadlessSVCName +:+ "." +:+ cl_Namespace c) "." =
    [set_ +:+ "-" +:+ itoa i; HeadlessSVCName; cl_Namespace c]).
  { rewrite <-(str_app_assoc "-" (itoa i)), <-(str_app_assoc set_).
    by apply Split_three; try done; apply (str_forall_Index is_wordish). }
  rewrite Hsplit. clear Hsplit.
  assert (Hord : podOrdinal (set_ +:+ "-" +:+ itoa i) = Some (itoa i)).
  { unfold podOrdinal, set_. rewrite str_app_assoc. by rewrite splitPodName_pod by (done || lia). }
  rewrite Hord. simpl. rewrite Hnsw. destruct (String.eqb_spec (cl_Namespace c) ""); [done|]. simpl.
  rewrite Atoi_itoa by (apply andb_true_intro; split; [apply Z.leb_le|apply Z.ltb_lt]; lia).
  rewrite wrap32_id; [done|]. apply andb_true_intro; split; [apply Z.leb_le|apply Z.ltb_lt]; lia.
Qed.

(** What the round may change in a cluster before it updates the conditions. *)
Definition sameButNodes (c c' : MysqlCluster) : Prop := ∃ nodes, c' = with_Nodes nodes c.

#[export] Instance sameButNodes_preorder : PreOrder sameButNodes.
Proof.
  split.
  - intros c. exists (st_Nodes (cl_Status c)). by rewrite with_Nodes_id.
  - intros c1 c2 c3 [n2 ->] [n3 ->]. by exists n3.
Qed.

Lemma markNodeUnknown_frame now host c : sameButNodes c (markNodeUnknown now host c).
Proof.
  unfold markNodeUnknown. do 4 (etrans; [|apply upd_frame]). reflexivity.
Qed.

Lemma fold_left_rel {A B} (R : A → A → Prop) `{!PreOrder R} (f : A → B → A) l a :
  (∀ a b, R a (f a b)) → R a (fold_left f l a).
Proof.
  intros Hf. revert a. induction l as [|b l IH]; intros a; simpl; [reflexivity|].
  etrans; [apply Hf|apply IH].
Qed.

Lemma removeNodeConditionNotInOrc_frame now insts c :
  sameButNodes c (removeNodeConditionNotInOrc now insts c).
Proof.
  unfold removeNodeConditionNotInOrc. set (c1 := fold_left _ _ c).
  assert (H1 : sameButNodes c c1).
  { apply fold_left_rel; [apply _|]. intros a ns.
    destruct (GetInstance insts _); [reflexivity|apply markNodeUnknown_frame]. }
  destruct (compactNodes _ _ _ _ _). etrans; [exact H1|]. by eexists.
Qed.

Lemma condOf_removeNodeConditionNotInOrc now insts c host ty :
  condOf (removeNodeConditionNotInOrc now insts c) host ty =
    if keepName c host then
      if decide (host ∈ ns_Name <$> st_Nodes (cl_Status c) ∧ GetInstance insts host = None)
      then Some (setTo now ty ConditionUnknown (condOf c host ty)) else condOf c host ty
    else None.
Proof.
  unfold removeNodeConditionNotInOrc. rewrite <-markUnknown_loop. set (c1 := fold_left _ _ c).
  assert (H1 : sameButNodes c c1).
  { apply fold_left_rel; [apply _|]. intros a ns.
    destruct (GetInstance insts _); [reflexivity|apply markNodeUnknown_frame]. }
  set (nodes := st_Nodes (cl_Status c1)).
  pose proof (compactNodes_filter (keepNode c1) (length nodes) 0 0 nodes
                (Nat.le_refl _) eq_refl) as Hf. cbv zeta in Hf.
  destruct (compactNodes _ _ _ _ _) as [nodes' v]. cbn [fst snd take drop app] in Hf.
  unfold condOf. simpl. rewrite Hf.
  rewrite <-(nodeCondition_filter (keepName c)). destruct H1 as [nodes1 E1].
  f_equal. apply List.filter_ext. intros ns. by rewrite E1.
Qed.

(** The status of the nodes follows the size of the cluster: what is known of
    the pod [i] is dropped if the cluster has no such pod any more, is set to
    Unknown if Orchestrator does not list the pod, and stays otherwise.  The name
    of a pod, parsed by [indexInSts], gives its ordinal back, and the compaction
    of the array in place is the filter it should be. *)
Theorem removeNodeConditionNotInOrc_pods (now : Z) (insts : InstancesSet) (c : MysqlCluster)
    (i : Z) (ty : NodeConditionType) :
  podNamesReadable c → (0 ≤ i < 2 ^ 31)%Z →
  let host := GetPodHostname c i in
  shouldRemoveOldNode (mkNodeStatus host []) c = false →
  condOf (removeNodeConditionNotInOrc now insts c) host ty =
    if (i <? replicasOf c)%Z then
      match condOf c host ty, GetInstance insts host with
      | Some o, None =>
          Some (mkNodeCondition ty ConditionUnknown
                  (if decide (nc_Status o = ConditionUnknown) then nc_LastTransitionTime o else now))
      | None, None =>
          if decide (host ∈ ns_Name <$> st_Nodes (cl_Status c))
          then Some (mkNodeCondition ty ConditionUnknown now) else None
      | o, Some _ => o
      end
    else None.
Proof.
  intros Hc Hi host Hold. rewrite condOf_removeNodeConditionNotInOrc.
  assert (Hkeep : keepName c host = (i <? replicasOf c)%Z).
  { unfold keepName, keepNode. simpl. unfold host. rewrite indexInSts_GetPodHostname by done.
    fold host. rewrite Hold. simpl. by rewrite orb_false_r. }
  rewrite Hkeep. destruct (i <? replicasOf c)%Z; [|done].
  destruct (GetInstance insts host) as [x|].
  { rewrite decide_False by naive_solver. by destruct (condOf c host ty). }
  destruct (decide (host ∈ ns_Name <$> st_Nodes (cl_Status c))) as [Hin|Hout].
  - rewrite decide_True by done. destruct (condOf c host ty) as [o|]; [|done].
    unfold setTo, updated. simpl. by case_decide.
  - rewrite decide_False by naive_solver. apply nodeIndex_None in Hout.
    unfold condOf, nodeCondition. by rewrite Hout.
Qed.

(** The status that a round gives to a condition of a node, from what
    Orchestrator says of the node; [None] leaves the condition alone. *)
Definition observedStatus (master : option Instance_) (maxSlaveLatency : Z) (node : Instance_)
    (ty : NodeConditionType) : option ConditionStatus :=
  let cond (b : bool) := Some (if b then ConditionTrue else ConditionFalse) in
  let isMaster := isMasterHost (Hostname (Key node)) master in
  if IsRecentlyChecked node then
    match ty with
    | NodeConditionLagged =>
        if isMaster then Some ConditionFalse
        else match SlaveLagSeconds node with
             | Some lag => cond (negb (lag <=? maxSlaveLatency)%Z)
             | None => Some ConditionUnknown
             end
    | NodeConditionReplicating => cond (Slave_SQL_Running node && Slave_IO_Running node)
    | NodeConditionMaster => cond isMaster
    | NodeConditionReadOnly => cond (in_ReadOnly node)
    end
  else if IsLastCheckValid node then None
  else match ty with NodeConditionReadOnly => None | _ => Some ConditionUnknown end.

Definition updOpt (now : Z) (host : string) (ty : NodeConditionType)
    (status : option ConditionStatus) (c : MysqlCluster) : MysqlCluster :=
  match status with Some s => updateNodeConditionOf now host ty s c | None => c end.

Lemma condOf_updOpt_same now host ty status c :
  condOf (updOpt now host ty status c) host ty =
    match status with
    | Some s => Some (setTo now ty s (condOf c host ty))
    | None => condOf c host ty
    end.
Proof. destruct status; [|done]. simpl. by rewrite condOf_upd, decide_True. Qed.

Lemma condOf_updOpt_other now host ty status c host' ty' :
  host' ≠ host ∨ ty' ≠ ty → condOf (updOpt now host ty status c) host' ty' = condOf c host' ty'.
Proof.
  intros Hne. destruct status; [|done]. simpl. rewrite condOf_upd, decide_False; [done|].
  intros [-> ->]. by destruct Hne.
Qed.

(** The branches of the loop, condition by condition. *)
Lemma updateNodeStatus_eq now master maxLat c node :
  let host := Hostname (Key node) in
  let upd ty := updOpt now host ty (observedStatus master maxLat node ty) in
  updateNodeStatus now master maxLat c node =
    upd NodeConditionReadOnly (upd NodeConditionMaster
      (upd NodeConditionReplicating (upd NodeConditionLagged c))).
Proof.
  cbv zeta. unfold updateNodeStatus, observedStatus.
  destruct (IsRecentlyChecked node); simpl; [|by destruct (IsLastCheckValid node)].
  destruct (_ && _), (in_ReadOnly node), (isMasterHost _ master); simpl; try done;
    destruct (SlaveLagSeconds node) as [lag|]; simpl; try done;
    by destruct (lag <=? maxLat)%Z.
Qed.

Lemma condOf_updateNodeStatus now master maxLat c node host ty :
  condOf (updateNodeStatus now master maxLat c node) host ty =
    match observedStatus master maxLat node ty with
    | Some s =>
        if decide (host = Hostname (Key node)) then Some (setTo now ty s (condOf c host ty))
        else condOf c host ty
    | None => condOf c host ty
    end.
Proof.
  rewrite updateNodeStatus_eq. destruct (decide (host = Hostname (Key node))) as [->|Hn].
  - destruct ty; repeat first [rewrite condOf_updOpt_other by (by right) | rewrite condOf_updOpt_same]; done.
  - rewrite !condOf_updOpt_other by (by left). by destruct (observedStatus _ _ _ _).
Qed.

Lemma condOf_updateNodesStatus now master maxLat insts c host ty :
  NoDup (Hostname ∘ Key <$> insts) →
  condOf (fold_left (updateNodeStatus now master maxLat) insts c) host ty =
    match (node ← GetInstance insts host; observedStatus master maxLat node ty) with
    | Some s => Some (setTo now ty s (condOf c host ty))
    | None => condOf c host ty
    end.
Proof.
  revert c. induction insts as [|node insts IH]; intros c Hnd; [done|].
  rewrite fmap_cons in Hnd. apply NoDup_cons in Hnd as [Hnode Hnd].
  simpl. rewrite IH by done. rewrite condOf_updateNodeStatus.
  destruct (String.eqb_spec host (Hostname (Key node))) as [->|Hne].
  - assert (GetInstance insts (Hostname (Key node)) = None) as ->.
    { apply GetInstance_None. intros i Hi E. apply Hnode, list_elem_of_fmap. by exists i. }
    simpl. destruct (observedStatus _ _ node ty); [|done]. by rewrite decide_True.
  - destruct (observedStatus _ _ node ty); [|done]. by rewrite decide_False.
Qed.

(** What is known of the nodes follows Orchestrator: each condition of each
    node that Orchestrator lists gets the status that its record there implies
    (nothing if the record is stale but its last check was good, Unknown if the
    check was bad), with the transition time moving only on a change; the other
    nodes keep theirs.  Of the nodes whose record is fresh exactly the host of
    the designated master is marked as master. *)
Theorem updateNodesStatus_spec (now : Z) (insts : InstancesSet) (master : option Instance_)
    (c : MysqlCluster) (host : string) :
  NoDup (Hostname ∘ Key <$> insts) →
  let maxLat := default defaultMaxSlaveLatency (MaxSlaveLatency (cl_Spec c)) in
  let c' := updateNodesStatus now insts master c in
  match GetInstance insts host with
  | None => ∀ ty, condOf c' host ty = condOf c host ty
  | Some node =>
      (∀ ty, nc_Status <$> condOf c' host ty =
         match observedStatus master maxLat node ty with
         | Some s => Some s
         | None => nc_Status <$> condOf c host ty
         end) ∧
      (IsRecentlyChecked node = true →
         nodeIs c' host NodeConditionMaster = isMasterHost host master) ∧
      (∀ ty o, condOf c host ty = Some o →
         nc_LastTransitionTime <$> condOf c' host ty =
           Some (if decide (nc_Status <$> condOf c' host ty = Some (nc_Status o))
                 then nc_LastTransitionTime o else now))
  end.
Proof.
  intros Hnd. cbv zeta. unfold updateNodesStatus.
  pose proof (λ ty, condOf_updateNodesStatus now master (default defaultMaxSlaveLatency
    (MaxSlaveLatency (cl_Spec c))) insts c host ty Hnd) as H.
  set (maxLat := default _ _) in *. set (c' := fold_left _ _ _) in *.
  destruct (GetInstance insts host) as [node|] eqn:Eg; simpl in H; [|done].
  apply GetInstance_Some in Eg as [_ Eh].
  assert (Hset : ∀ ty s old, nc_Status (setTo now ty s old) = s).
  { intros ty s [o|]; [|done]. unfold setTo, updated. by destruct (decide _). }
  split_and!.
  - intros ty. rewrite H. destruct (observedStatus _ _ _ _); simpl; [by rewrite Hset|done].
  - intros Hrec. unfold nodeIs. fold (condOf c' host NodeConditionMaster). rewrite H.
    unfold observedStatus. rewrite Hrec, Eh. simpl. rewrite Hset.
    by destruct (isMasterHost host master).
  - intros ty o Ho. rewrite H, Ho. destruct (observedStatus _ _ _ _) as [s|]; simpl.
    + destruct (decide (nc_Status o = s)) as [<-|Hn]; simpl.
      * by rewrite decide_True.
      * rewrite decide_False by congruence. done.
    + by rewrite decide_True.
Qed.

(** *** A round changes the status only *)

Definition sameObject (c c' : MysqlCluster) : Prop :=
  cl_Meta c' = cl_Meta c ∧ cl_Spec c' = cl_Spec c.

#[export] Instance sameObject_preorder : PreOrder sameObject.
Proof. split; [by intros c|]. intros c1 c2 c3 [? ?] [? ?]. split; congruence. Qed.

Lemma sameButNodes_object c c' : sameButNodes c c' → sameObject c c'.
Proof. by intros [nodes ->]. Qed.

Lemma UpdateStatusCondition_object now ct status reason msg c :
  sameObject c (UpdateStatusCondition now ct status reason msg c).
Proof. done. Qed.

Lemma updateNodeConditionOf_object now host ty status c :
  sameObject c (updateNodeConditionOf now host ty status c).
Proof. destruct (upd_frame now host ty status c) as [nodes ->]. done. Qed.

Lemma updateNodeStatus_object now master lat c node :
  sameObject c (updateNodeStatus now master lat c node).
Proof.
  unfold updateNodeStatus. cbv zeta.
  repeat first [reflexivity | etrans; [|apply updateNodeConditionOf_object] | case_match].
Qed.

Lemma GetNodeStatusFor_object name c : sameObject c (GetNodeStatusFor name c).2.
Proof.
  unfold GetNodeStatusFor. rewrite GetNodeStatusIndex_eq. done.
Qed.

Lemma readyLoop_object now is_ : ∀ hasMaster c, sameObject c (readyLoop now is_ hasMaster c).1.
Proof.
  induction is_ as [|i is_ IH]; intros hasMaster c; simpl; [reflexivity|].
  pose proof (GetNodeStatusFor_object (GetPodHostname c i) c) as Hc.
  destruct (GetNodeStatusFor _ c) as [ns c1]. simpl in Hc.
  destruct (getCondAsBool _ _); [etrans; [exact Hc|apply IH]|].
  destruct (negb _); [exact Hc|etrans; [exact Hc|apply IH]].
Qed.

Lemma updateClusterReadyStatus_object now c : sameObject c (updateClusterReadyStatus now c).
Proof.
  unfold updateClusterReadyStatus. destruct (negb _); [apply UpdateStatusCondition_object|].
  pose proof (readyLoop_object now (podIndices (replicasOf c)) false c) as Hc.
  destruct (readyLoop _ _ _ _) as [c1 [hasMaster|]]; [|exact Hc].
  destruct (_ && _); exact Hc.
Qed.

(** What the round does to the cluster once Orchestrator has answered. *)
Definition syncedStatus (now : Z) (instances : InstancesSet) (master : option Instance_)
    (recoveries : list TopologyRecovery) (c : MysqlCluster) : MysqlCluster :=
  let c := removeNodeConditionNotInOrc now instances c in
  let c := updateNodesStatus now instances master c in
  let c := updateClusterFailoverInProgressStatus now master c in
  let c := updateClusterReadOnlyStatus now instances c in
  let c := updateClusterReadyStatus now c in
  updateFailoverAckStatus now recoveries c.

Lemma syncedStatus_object now instances master recoveries c :
  sameObject c (syncedStatus now instances master recoveries c).
Proof.
  unfold syncedStatus.
  etrans; [|unfold updateFailoverAckStatus; destruct (0 <? _)%nat; apply UpdateStatusCondition_object].
  etrans; [|apply updateClusterReadyStatus_object].
  etrans; [|unfold updateClusterReadOnlyStatus; destruct (_ =? _)%nat; apply UpdateStatusCondition_object].
  assert (∀ c, sameObject c (updateClusterFailoverInProgressStatus now master c)) as Hfip.
  { intros c1. unfold updateClusterFailoverInProgressStatus.
    destruct (master ≫= _) as [s|]; [|done]. by destruct (s <? 5)%Z. }
  etrans; [|apply Hfip]. unfold updateNodesStatus.
  etrans; [|apply (fold_left_rel sameObject); intros; apply updateNodeStatus_object].
  apply sameButNodes_object, removeNodeConditionNotInOrc_frame.
Qed.

(** *** The calls of a round *)

(** What a round may call: [mhost] is the host of the master it works with. *)
Definition syncCall (c : MysqlCluster) (mhost : string) (e : event orc_op) : Prop :=
  let isPod host := ∃ i, (0 ≤ i < replicasOf c)%Z ∧ host = GetPodHostname c i in
  match ev_op e with
  | SetHostWritable k =>
      cond_is ConditionTrue (GetClusterCondition c ClusterConditionFailoverInProgress) = false ∧
      ReadOnly (cl_Spec c) = false ∧ isPod (Hostname k) ∧ Hostname k = mhost
  | SetHostReadOnly k =>
      cond_is ConditionTrue (GetClusterCondition c ClusterConditionFailoverInProgress) = false ∧
      isPod (Hostname k) ∧ (ReadOnly (cl_Spec c) = false → Hostname k ≠ mhost)
  | Forget host _ => cl_DeletionTimestamp c = None → ¬ isPod host
  | Discover host port =>
      cl_DeletionTimestamp c = None ∧ port = mysqlPort ∧
      ∃ i, (0 ≤ i < replicasOf c)%Z ∧ (i < ReadyNodes (cl_Status c))%Z ∧ host = GetPodHostname c i
  | _ => True
  end.

Lemma ready_is_pod c insts inst :
  inst ∈ (updateNodesInOrc c insts).1.1 →
  ∃ i, (0 ≤ i < replicasOf c)%Z ∧ Hostname (Key inst) = GetPodHostname c i.
Proof.
  intros (i & Hi & Hg)%updateNodesInOrc_ready. exists i. split; [done|].
  by apply GetInstance_Some in Hg as [_ ?].
Qed.

Lemma readOnlyCall_syncCall c c' insts master e :
  sameButNodes c c' →
  readOnlyCall c' (updateNodesInOrc c insts).1.1 master e →
  syncCall c (default "" (Hostname ∘ Key <$> master)) e.
Proof.
  intros [nodes ->] (Hf & inst & Hin & _ & _ & He).
  change (GetClusterCondition (with_Nodes nodes c)) with (GetClusterCondition c) in Hf.
  change (cl_Spec (with_Nodes nodes c)) with (cl_Spec c) in He.
  destruct (ready_is_pod _ _ _ Hin) as (i & Hi & Hh).
  unfold syncCall. destruct (ev_op e); try done.
  - destruct He as (-> & _ & Hro & Hm). split_and!; [done|done|by exists i|].
    destruct master as [m|]; [|done]. by apply String.eqb_eq.
  - destruct He as (-> & _ & Hm). split_and!; [done|by exists i|]. intros Hro.
    destruct Hm as [?|Hm]; [congruence|]. destruct master as [m|]; simpl in *.
    + by apply String.eqb_neq.
    + rewrite Hh. unfold GetPodHostname. by destruct (cl_Name c).
Qed.

Lemma getFromOrchestrator_emits c :
  emits (λ e, ∀ mhost, syncCall c mhost e) (λ _, True) (getFromOrchestrator c).
Proof.
  unfold getFromOrchestrator. eapply (emits_bind _ (λ _, True)).
  { apply (emits_call_any _ (Cluster _)). intros r mhost. exact I. }
  intros [insts|e] _; [|by destruct (OrcIsNotFound e); apply emits_ret].
  eapply (emits_bind _ (λ _, True)).
  { apply (emits_call_any _ (Master _)). intros r mhost. exact I. }
  intros [m|e] _; [|destruct (OrcIsNotFound e); [|by apply emits_ret]]; simpl;
    destruct (DetermineMaster insts) as [m'|]; try by apply emits_ret.
  by destruct (String.eqb _ _); apply emits_ret.
Qed.

Lemma discoverNodesInOrc_emits c mhost insts :
  emits (syncCall c mhost) (λ _, True) (discoverNodesInOrc (updateNodesInOrc c insts).1.2).
Proof.
  apply emits_for_each. intros k Hk. refine (emits_call_unit _ (Discover _ _) _). intros r.
  apply updateNodesInOrc_discover in Hk as (Hd & i & Hi & Hr & -> & _).
  split_and!; [done|done|]. by exists i.
Qed.

Lemma forgetNodesFromOrc_emits now c c' mhost insts :
  emits (syncCall c mhost) (λ _, True) (forgetNodesFromOrc now c' (updateNodesInOrc c insts).2).
Proof.
  unfold forgetNodesFromOrc. destruct (_ || _); [|by apply emits_ret].
  apply emits_for_each. intros k Hk. refine (emits_call_unit _ (Forget _ _) _). intros r.
  apply updateNodesInOrc_forget in Hk as (inst & _ & -> & Hor).
  intros Hd (i & Hi & Hh). destruct Hor as [?|Hor]; [done|]. by apply (Hor i).
Qed.

Lemma acknowledgeRecoveries_emits c c' mhost recs :
  emits (syncCall c mhost) (λ _, True) (acknowledgeRecoveries c' recs).
Proof.
  apply emits_for_each_err. intros r _. apply (emits_try _ (λ _, True)).
  - refine (emits_call _ (AckRecovery _ _) _ _). intros r'. split; [done|]. by destruct r'.
  - intros _ _. apply (emits_bind _ (λ _, True)).
    + apply (emits_call_any _ (RecordEvent _ _ _)). intros r'. exact I.
    + intros _ _. by apply emits_ret.
Qed.

(** The host name of the master that a round works with. *)
Definition masterOf (r : result (InstancesSet * option Instance_)) : string :=
  match r with Ok (_, Some m) => Hostname (Key m) | _ => "" end.
Definition roundMaster (c : MysqlCluster) (w : world orc_op) : string :=
  masterOf (run (getFromOrchestrator c) w).

Lemma Sync_round now c w h :
  ∃ t, (Sync now c w h).2 = h ++ t ∧
    Forall (syncCall c (masterOf (getFromOrchestrator c w h).1)) t.
Proof.
  unfold Sync, mbind, prog_bind at 1.
  destruct (getFromOrchestrator_emits c w h) as (t & Ht & Hcalls & _).
  destruct (getFromOrchestrator c w h) as [r h1]. cbn [fst snd] in *. subst h1.
  assert (Hpre : ∀ mhost, Forall (syncCall c mhost) t).
  { intros mhost. eapply Forall_impl; [exact Hcalls|]. intros e He. apply He. }
  destruct r as [[insts master]|e]; [|exists t; split; [done|apply Hpre]].
  unfold masterOf. set (mhost := match master with Some m => Hostname (Key m) | None => "" end).
  match goal with |- ∃ _, snd (?m w _) = _ ∧ _ =>
    assert (Hrest : emits (syncCall c mhost) (λ _, True) m) end.
  2:{ destruct (Hrest w (h ++ t)) as (t' & Ht' & Hc' & _). exists (t ++ t'). split.
      - refine (eq_trans Ht' _). by rewrite (assoc_L (++)).
      - apply Forall_app. by split; [apply Hpre|]. }
  pose proof (discoverNodesInOrc_emits c mhost insts) as Hdisc.
  pose proof (λ c', forgetNodesFromOrc_emits now c c' mhost insts) as Hforget.
  pose proof (λ c' e, readOnlyCall_syncCall c c' insts master e) as Hro.
  assert (default "" (Hostname ∘ Key <$> master) = mhost) as Em by (by destruct master).
  rewrite Em in Hro. clearbody mhost.
  destruct (updateNodesInOrc c insts) as [[instances undiscovered] toRemove].
  cbn [fst snd] in *.
  eapply emits_bind; [exact Hdisc|]. intros _ _.
  pose proof (removeNodeConditionNotInOrc_frame now instances c) as Hc1.
  eapply emits_bind.
  { eapply emits_weaken; [apply markReadOnly_emits|intros e; by apply Hro|done]. }
  intros _ _. eapply (emits_bind _ (λ _, True)).
  { apply (emits_call_any _ (AuditRecovery _)). intros r. exact I. }
  intros r _. eapply emits_bind; [apply Hforget|]. intros _ _.
  eapply (emits_bind _ (λ _, True)); [|intros _ _; by apply emits_ret].
  apply acknowledgeRecoveries_emits.
Qed.

Lemma Sync_emits now c : emits (λ e, ∃ mhost, syncCall c mhost e) (λ _, True) (Sync now c).
Proof.
  intros w h. destruct (Sync_round now c w h) as (t & Ht & Hc). exists t. split_and!; [done| |done].
  eapply Forall_impl; [exact Hc|]. intros e He. by eexists.
Qed.

(** The calls of a whole round, whatever Orchestrator answers and however it
    fails: the only host that is made writable is that of the one master the
    round works with, it is a pod the cluster should have, and neither is the
    cluster read-only nor a failover in progress; a pod is made read-only only if
    it is not that master, or the cluster is read-only; no pod that the cluster
    should have is forgotten unless the cluster is deleted; and only ready pods
    of a cluster that is not deleted are registered. *)
Theorem Sync_calls (now : Z) (c : MysqlCluster) (w : world orc_op) :
  Forall (syncCall c (roundMaster c w)) (trace (Sync now c) w).
Proof.
  destruct (Sync_round now c w []) as (t & Ht & Hc). unfold trace. by rewrite Ht.
Qed.

(** ** Examples *)

(** A cluster of three pods that has been scaled down from four. *)
Definition sampleScaledDown : MysqlCluster :=
  with_Nodes [mkNodeStatus "demo-mysql-0.mysql.prod" [mkNodeCondition NodeConditionMaster ConditionTrue 5];
              mkNodeStatus "demo-mysql-3.mysql.prod" [mkNodeCondition NodeConditionLagged ConditionFalse 6];
              mkNodeStatus "demo-mysql-1.mysql.prod" [mkNodeCondition NodeConditionMaster ConditionFalse 7]]
    (Sample.cluster "8.0.39" "8.0.39").

Definition sampleOrcInstances : InstancesSet :=
  [sampleInstance "demo-mysql-0.mysql.prod" "" true;
   sampleInstance "demo-mysql-1.mysql.prod" "demo-mysql-0.mysql.prod" true].

Lemma removeNodeConditionNotInOrc_pods_witness :
  condOf (removeNodeConditionNotInOrc 100 sampleOrcInstances sampleScaledDown)
    (GetPodHostname sampleScaledDown 3) NodeConditionLagged = None ∧
  condOf (removeNodeConditionNotInOrc 100 [] sampleScaledDown)
    (GetPodHostname sampleScaledDown 0) NodeConditionMaster =
    Some (mkNodeCondition NodeConditionMaster ConditionUnknown 100).
Proof.
  assert (Hr : podNamesReadable sampleScaledDown) by (split_and!; done).
  split.
  - refine (eq_trans (removeNodeConditionNotInOrc_pods 100 sampleOrcInstances sampleScaledDown 3
      NodeConditionLagged Hr ltac:(lia) _) _); vm_compute; reflexivity.
  - refine (eq_trans (removeNodeConditionNotInOrc_pods 100 [] sampleScaledDown 0
      NodeConditionMaster Hr ltac:(lia) _) _); vm_compute; reflexivity.
Defined.

Lemma updateNodesStatus_spec_witness :
  nodeIs (updateNodesStatus 100 sampleOrcInstances (head sampleOrcInstances) sampleScaledDown)
    "demo-mysql-0.mysql.prod" NodeConditionMaster = true ∧
  nodeIs (updateNodesStatus 100 sampleOrcInstances (head sampleOrcInstances) sampleScaledDown)
    "demo-mysql-1.mysql.prod" NodeConditionMaster = false.
Proof.
  assert (Hnd : NoDup (Hostname ∘ Key <$> sampleOrcInstances)).
  { apply (bool_decide_unpack (NoDup _)). vm_compute. exact I. }
  split.
  - destruct (updateNodesStatus_spec 100 sampleOrcInstances (head sampleOrcInstances)
      sampleScaledDown "demo-mysql-0.mysql.prod" Hnd) as (_ & Hm & _). exact (Hm eq_refl).
  - destruct (updateNodesStatus_spec 100 sampleOrcInstances (head sampleOrcInstances)
      sampleScaledDown "demo-mysql-1.mysql.prod" Hnd) as (_ & Hm & _). exact (Hm eq_refl).
Defined.

(** A master that is still read-only is made writable. *)
Example sample_round_writes :
  trace_ops (markReadOnlyNodesInOrc sampleScaledDown sampleOrcInstances (head sampleOrcInstances))
    (λ _ o, match o with
            | Discover _ _ | Forget _ _ | AckRecovery _ _ | SetHostWritable _ | SetHostReadOnly _ => Ok tt
            | Master _ => Err (ErrOrc "none")
            | Cluster _ => Ok []
            | AuditRecovery _ => Ok []
            | RecordEvent _ _ _ => tt
            end) = [SetHostWritable (mkKey "demo-mysql-0.mysql.prod" 3306)].
Proof. reflexivity. Qed.
