(* ===== verification/OrcConverge.v ===== *)
(** * Convergence of the Orchestrator reconciler

    What rounds of [OrcReconcile.Sync] lead to when Orchestrator does what it is
    told: the server below keeps the instances it knows, adds the hosts it is told
    to discover, drops those it is told to forget, and switches hosts to writable
    or read-only.  [Sync_converges]: two rounds bring any such server to the
    topology that the resource asks for, in which only the master is writable, and
    further rounds keep it there. *)

From S2P Require Import Prelude GoStrings GoTime Semver ClusterTypes Versioning ClusterStatus.
From S2P Require Import ClusterModel PodNames OrcTopology OrcReconcile.
Open Scope stdpp_scope.

(** ** A round leaves a calm cluster calm *)

Definition inFailover (c : MysqlCluster) : bool :=
  cond_is ConditionTrue (GetClusterCondition c ClusterConditionFailoverInProgress).

(** What a round may do to the parts of the resource on which its calls depend. *)
Definition calmer (c c' : MysqlCluster) : Prop :=
  sameObject c c' ∧ ReadyNodes (cl_Status c') = ReadyNodes (cl_Status c) ∧
  (inFailover c = false → inFailover c' = false).

#[export] Instance calmer_preorder : PreOrder calmer.
Proof.
  split; [by intros c|]. intros c1 c2 c3 (? & ? & ?) (? & ? & ?).
  split_and!; [by etrans|congruence|auto].
Qed.

Lemma sameButNodes_calmer c c' : sameButNodes c c' → calmer c c'.
Proof. by intros [nodes ->]. Qed.

Lemma UpdateStatusCondition_calmer now ct status reason msg c :
  ct ≠ ClusterConditionFailoverInProgress ∨ status = ConditionFalse →
  calmer c (UpdateStatusCondition now ct status reason msg c).
Proof.
  intros Hct. split_and!; [done|done|]. unfold inFailover.
  destruct (decide (ct = ClusterConditionFailoverInProgress)) as [->|Hne].
  - destruct Hct as [?| ->]; [done|]. intros _.
    destruct (UpdateStatusCondition_same now ClusterConditionFailoverInProgress ConditionFalse reason msg c)
      as [t Ht]. by rewrite Ht.
  - by rewrite UpdateStatusCondition_other.
Qed.

Lemma updateNodeStatus_frame now master lat c node :
  sameButNodes c (updateNodeStatus now master lat c node).
Proof.
  unfold updateNodeStatus. cbv zeta.
  repeat first [reflexivity | etrans; [|apply upd_frame] | case_match].
Qed.

Lemma readyLoop_calmer now is_ : ∀ hasMaster c, calmer c (readyLoop now is_ hasMaster c).1.
Proof.
  induction is_ as [|i is_ IH]; intros hasMaster c; simpl; [reflexivity|].
  assert (calmer c (GetNodeStatusFor (GetPodHostname c i) c).2) as Hc.
  { unfold GetNodeStatusFor. rewrite GetNodeStatusIndex_eq. by apply sameButNodes_calmer; eexists. }
  destruct (GetNodeStatusFor _ c) as [ns c1]. simpl in Hc.
  destruct (getCondAsBool _ _); [etrans; [exact Hc|apply IH]|].
  destruct (negb _); simpl; (etrans; [exact Hc|]); [apply UpdateStatusCondition_calmer; by left|apply IH].
Qed.

Lemma syncedStatus_calmer now instances master recoveries c :
  calmer c (syncedStatus now instances master recoveries c).
Proof.
  unfold syncedStatus.
  etrans; [|unfold updateFailoverAckStatus; destruct (0 <? _)%nat; apply UpdateStatusCondition_calmer; by left].
  set (c1 := updateClusterReadOnlyStatus _ _ _).
  assert (calmer c1 (updateClusterReadyStatus now c1)) as Hready.
  { unfold updateClusterReadyStatus. destruct (negb _); [apply UpdateStatusCondition_calmer; by left|].
    pose proof (readyLoop_calmer now (podIndices (replicasOf c1)) false c1) as Hc.
    destruct (readyLoop _ _ _ _) as [c2 [hasMaster|]]; [|exact Hc]. simpl in Hc.
    destruct (_ && _); (etrans; [exact Hc|apply UpdateStatusCondition_calmer; by left]). }
  etrans; [|exact Hready]. unfold c1.
  etrans; [|unfold updateClusterReadOnlyStatus; destruct (_ =? _)%nat; apply UpdateStatusCondition_calmer; by left].
  assert (∀ c, calmer c (updateClusterFailoverInProgressStatus now master c)) as Hfip.
  { intros c2. unfold updateClusterFailoverInProgressStatus.
    destruct (master ≫= _) as [s|]; [|done]. destruct (s <? 5)%Z; [|done].
    apply UpdateStatusCondition_calmer. by right. }
  etrans; [|apply Hfip]. unfold updateNodesStatus.
  etrans; [|apply (fold_left_rel calmer); intros; apply sameButNodes_calmer, updateNodeStatus_frame].
  apply sameButNodes_calmer, removeNodeConditionNotInOrc_frame.
Qed.

(** ** The server *)

Definition set_ReadOnly (b : bool) (x : Instance_) : Instance_ :=
  mkInstance (Key x) (Uptime x) b (MasterKey x) (IsDetachedMaster x) (Slave_SQL_Running x)
    (Slave_IO_Running x) (SecondsBehindMaster x) (SlaveLagSeconds x) (IsCoMaster x)
    (IsLastCheckValid x) (IsUpToDate x) (IsRecentlyChecked x) (SecondsSinceLastSeen x).

Definition switch (b : bool) (insts : InstancesSet) (k : InstanceKey) : InstancesSet :=
  (λ x, if bool_decide (Key x = k) then set_ReadOnly b x else x) <$> insts.

Section Converge.
(** The recoveries it reports, what it makes of a new host, and the master. *)
Context (recoveries : list TopologyRecovery) (fresh : InstanceKey → Instance_) (mhost : string).

Definition orcAnswer (insts : InstancesSet) (o : orc_op) : Resp o :=
  match o return Resp o with
  | Cluster _ => Ok insts
  | Master _ => match GetInstance insts mhost with
                | Some m => Ok m
                | None => Err (ErrOrc "No masters found")
                end
  | AuditRecovery _ => Ok recoveries
  | RecordEvent _ _ _ => tt
  | Discover _ _ | Forget _ _ | AckRecovery _ _ | SetHostWritable _ | SetHostReadOnly _ => Ok tt
  end.

Definition orcStep (insts : InstancesSet) (e : event orc_op) : InstancesSet :=
  match ev_op e with
  | Discover host port =>
      match GetInstance insts host with
      | Some _ => insts
      | None => insts ++ [fresh (mkKey host port)]
      end
  | Forget host port => List.filter (λ x, negb (bool_decide (Key x = mkKey host port))) insts
  | SetHostWritable k => switch false insts k
  | SetHostReadOnly k => switch true insts k
  | _ => insts
  end.

#[local] Abbreviation serves := (Prelude.serves orcAnswer orcStep).

(** An instance that has been up for a while and replicates from the master,
    without an intermediate. *)
Definition healthy (x : Instance_) : Prop :=
  IsUpToDate x = true ∧ (uptimeGraceTime ≤ Uptime x)%Z ∧
  IsCoMaster x = false ∧ IsDetachedMaster x = false ∧
  Hostname (MasterKey x) = (if String.eqb (Hostname (Key x)) mhost then "" else mhost).

(** The states of the server that are considered. *)
Definition wellKnown (insts : InstancesSet) : Prop :=
  NoDup (Hostname ∘ Key <$> insts) ∧ Forall healthy insts.

Context (fresh_key : ∀ k, Key (fresh k) = k) (fresh_healthy : ∀ k, healthy (fresh k)).
Context (master_named : mhost ≠ "").

(** *** The operations of the server *)

Lemma GetInstance_app a b host :
  GetInstance (a ++ b) host = match GetInstance a host with Some x => Some x | None => GetInstance b host end.
Proof. induction a as [|x a IH]; [done|]. simpl. by destruct (String.eqb _ _). Qed.

Lemma GetInstance_switch b k insts host :
  GetInstance (switch b insts k) host =
    (λ x, if bool_decide (Key x = k) then set_ReadOnly b x else x) <$> GetInstance insts host.
Proof.
  induction insts as [|x insts IH]; [done|]. unfold switch in *. simpl.
  replace (Key (if bool_decide (Key x = k) then set_ReadOnly b x else x)) with (Key x) by by case_bool_decide.
  by destruct (String.eqb _ _).
Qed.

Lemma GetInstance_forget insts k host :
  Hostname k ≠ host →
  GetInstance (List.filter (λ x, negb (bool_decide (Key x = k))) insts) host = GetInstance insts host.
Proof.
  intros Hk. induction insts as [|x insts IH]; [done|]. simpl. case_bool_decide as Hx; simpl.
  - rewrite IH. destruct (String.eqb_spec host (Hostname (Key x))); [congruence|done].
  - by destruct (String.eqb _ _).
Qed.

Lemma wellKnown_switch b insts k : wellKnown insts → wellKnown (switch b insts k).
Proof.
  intros [Hnd Hh]. unfold switch. split.
  - rewrite <-list_fmap_compose. replace (_ <$> insts) with (Hostname ∘ Key <$> insts); [done|].
    apply list_fmap_ext. intros i x _. simpl. by case_bool_decide.
  - apply Forall_fmap. eapply Forall_impl; [exact Hh|]. intros x Hx. simpl. by case_bool_decide.
Qed.

Lemma wellKnown_filter (P : Instance_ → bool) insts : wellKnown insts → wellKnown (List.filter P insts).
Proof.
  intros [Hnd Hh]. induction insts as [|x insts IH]; [done|].
  apply NoDup_cons in Hnd as [Hx Hnd]. apply Forall_cons in Hh as [Hhx Hh].
  destruct (IH Hnd Hh) as [Hnd' Hh']. simpl. destruct (P x); [|done]. split; [|by constructor].
  apply NoDup_cons. split; [|done]. intros (y & Hy & Hin)%list_elem_of_fmap. apply Hx.
  apply list_elem_of_fmap. exists y. split; [done|].
  apply list_elem_of_In in Hin. apply filter_In in Hin as [Hin _]. by apply list_elem_of_In.
Qed.

Lemma wellKnown_snoc insts x :
  wellKnown insts → healthy x → GetInstance insts (Hostname (Key x)) = None → wellKnown (insts ++ [x]).
Proof.
  intros [Hnd Hh] Hx Hn. split.
  - rewrite fmap_app. apply NoDup_app. split_and!; [done| |apply NoDup_singleton].
    intros h (y & -> & Hy)%list_elem_of_fmap Hin%list_elem_of_singleton.
    rewrite GetInstance_None in Hn. by apply (Hn y).
  - apply Forall_app. split; [done|by constructor].
Qed.

(** *** Discovering and forgetting *)

Definition discovered (insts : InstancesSet) (k : InstanceKey) : InstancesSet :=
  orcStep insts (Ev (Discover (Hostname k) (Port k)) (Ok tt)).
Definition forgotten (insts : InstancesSet) (k : InstanceKey) : InstancesSet :=
  orcStep insts (Ev (Forget (Hostname k) (Port k)) (Ok tt)).

Lemma discover_serves keys insts :
  serves (discoverNodesInOrc keys) insts tt (foldl discovered insts keys).
Proof.
  apply serves_for_each. intros k s _. eapply serves_bind; [|apply serves_ret].
  refine (serves_call _ _ (Discover _ _) _ _ _ eq_refl eq_refl).
Qed.

Lemma discovered_spec insts k :
  wellKnown insts →
  wellKnown (discovered insts k) ∧ is_Some (GetInstance (discovered insts k) (Hostname k)) ∧
  ∀ host x, GetInstance insts host = Some x → GetInstance (discovered insts k) host = Some x.
Proof.
  intros Hw. unfold discovered, orcStep. simpl. destruct k as [host port]. simpl.
  destruct (GetInstance insts host) eqn:E; [by split_and!|]. split_and!.
  - apply wellKnown_snoc; [done|apply fresh_healthy|by rewrite fresh_key].
  - rewrite GetInstance_app, E. simpl. rewrite fresh_key. simpl. by rewrite String.eqb_refl.
  - intros h x Hx. by rewrite GetInstance_app, Hx.
Qed.

Lemma discovered_all keys insts :
  wellKnown insts →
  wellKnown (foldl discovered insts keys) ∧
  (∀ k, k ∈ keys → is_Some (GetInstance (foldl discovered insts keys) (Hostname k))) ∧
  ∀ host x, GetInstance insts host = Some x → GetInstance (foldl discovered insts keys) host = Some x.
Proof.
  revert insts. induction keys as [|k keys IH]; intros insts Hw; simpl.
  { split_and!; [done| |done]. by intros k ?%elem_of_nil. }
  destruct (discovered_spec insts k Hw) as (Hw1 & [x Hx] & Hold).
  destruct (IH _ Hw1) as (Hw2 & Hin & Hold2). split_and!; [done| |by auto].
  intros k' [->|Hk']%elem_of_cons; [|by apply Hin]. exists x. by apply Hold2.
Qed.

Lemma forgotten_all keys insts host :
  (∀ k, k ∈ keys → Hostname k ≠ host) →
  GetInstance (foldl forgotten insts keys) host = GetInstance insts host.
Proof.
  revert insts. induction keys as [|k keys IH]; intros insts Hk; [done|]. simpl.
  rewrite IH by (intros k' ?; apply Hk; by right). apply GetInstance_forget. simpl. apply Hk. by left.
Qed.

Lemma wellKnown_forgotten keys insts : wellKnown insts → wellKnown (foldl forgotten insts keys).
Proof.
  revert insts. induction keys as [|k keys IH]; intros insts Hw; [done|]. by apply IH, wellKnown_filter.
Qed.

(** *** Marking *)

(** Whether a node should be read-only, for the master of the round. *)
Definition wanted (m : option Instance_) (x : Instance_) : bool :=
  match m with
  | Some m => negb (String.eqb (Hostname (Key x)) (Hostname (Key m)))
  | None => true
  end.

Definition marked (m : option Instance_) (insts : InstancesSet) (x : Instance_) : InstancesSet :=
  if Bool.eqb (in_ReadOnly x) (wanted m x) then insts else switch (wanted m x) insts (Key x).

Lemma set_serves x insts :
  serves (ignoreErr (setReadOnlyNode x)) insts tt
    (if Bool.eqb (in_ReadOnly x) true then insts else switch true insts (Key x)) ∧
  serves (ignoreErr (setWritableNode x)) insts tt
    (if Bool.eqb (in_ReadOnly x) false then insts else switch false insts (Key x)).
Proof.
  unfold setReadOnlyNode, setWritableNode, ignoreErr.
  split; destruct (in_ReadOnly x); cbn [negb Bool.eqb].
  - eapply serves_bind; apply serves_ret.
  - eapply serves_bind; [refine (serves_call _ _ (SetHostReadOnly _) _ _ _ eq_refl eq_refl)|apply serves_ret].
  - eapply serves_bind; [refine (serves_call _ _ (SetHostWritable _) _ _ _ eq_refl eq_refl)|apply serves_ret].
  - eapply serves_bind; apply serves_ret.
Qed.

Lemma mark_serves c xs m insts :
  inFailover c = false → ReadOnly (cl_Spec c) = false → Forall healthy xs →
  serves (markReadOnlyNodesInOrc c xs m) insts tt (foldl (marked m) insts xs).
Proof.
  intros Hf Hro Hh. unfold markReadOnlyNodesInOrc. unfold inFailover in Hf. rewrite Hf.
  assert (∀ x, x ∈ xs → negb (IsUpToDate x) || (Uptime x <? uptimeGraceTime)%Z = false) as Hskip.
  { intros x Hx. rewrite Forall_forall in Hh. destruct (Hh x Hx) as (-> & Hu & _).
    apply orb_false_iff. split; [done|]. by apply Z.ltb_ge. }
  destruct m as [m|]; apply serves_for_each; intros x s Hx; cbv zeta; rewrite Hskip by done.
  - rewrite Hro. unfold marked, wanted. destruct (String.eqb _ _); apply set_serves.
  - apply set_serves.
Qed.

Lemma wellKnown_marked m xs insts : wellKnown insts → wellKnown (foldl (marked m) insts xs).
Proof.
  revert insts. induction xs as [|x xs IH]; intros insts Hw; [done|]. apply IH. unfold marked.
  destruct (Bool.eqb _ _); [done|by apply wellKnown_switch].
Qed.

Lemma wanted_key m x y : Key x = Key y → wanted m x = wanted m y.
Proof. intros E. unfold wanted. by rewrite E. Qed.

(** A node that is marked ends as it should be, if what the round read of it is
    what the server has. *)
Lemma marked_all m host ro xs : ∀ insts y,
  GetInstance insts host = Some y → (∀ x, x ∈ xs → Key x = Key y → in_ReadOnly x = ro) →
  in_ReadOnly y = ro ∨ in_ReadOnly y = wanted m y →
  ∃ y', GetInstance (foldl (marked m) insts xs) host = Some y' ∧ Key y' = Key y ∧
    (in_ReadOnly y = wanted m y ∨ (∃ x, x ∈ xs ∧ Key x = Key y) → in_ReadOnly y' = wanted m y).
Proof.
  induction xs as [|x xs IH]; intros insts y Hy Hxs Hro; simpl.
  { exists y. split_and!; [done|done|]. intros [?|(x & Hx & _)]; [done|by apply not_elem_of_nil in Hx]. }
  assert (∃ y1, GetInstance (marked m insts x) host = Some y1 ∧ Key y1 = Key y ∧
    (in_ReadOnly y1 = ro ∨ in_ReadOnly y1 = wanted m y) ∧
    (in_ReadOnly y = wanted m y ∨ Key x = Key y → in_ReadOnly y1 = wanted m y)) as (y1 & Hy1 & Hk1 & Hro1 & Hd1).
  { unfold marked. destruct (Bool.eqb _ _) eqn:Eb.
    - exists y. split_and!; [done|done|done|]. intros [?|Hk]; [done|]. apply eqb_prop in Eb.
      rewrite (wanted_key m x y Hk) in Eb. rewrite (Hxs x ltac:(left) Hk) in Eb. naive_solver.
    - rewrite GetInstance_switch, Hy. simpl. destruct (decide (Key y = Key x)) as [Hk|Hk].
      + rewrite bool_decide_eq_true_2 by done. eexists. split; [done|]. simpl.
        rewrite (wanted_key m x y) by done. by split_and!; [|right|].
      + rewrite bool_decide_eq_false_2 by done. exists y. split_and!; [done|done|done|].
        by intros [?|?]. }
  destruct (IH (marked m insts x) y1 Hy1) as (y' & Hy' & Hk' & Hd').
  - intros z Hz Hk. apply Hxs; [by right|congruence].
  - by rewrite (wanted_key m y1 y).
  - exists y'. split_and!; [done|congruence|]. rewrite (wanted_key m y1 y) in Hd' by done.
    intros [Hw|(z & [->|Hz]%elem_of_cons & Hzk)]; apply Hd'; [left; auto|left; auto|right].
    exists z. split; [done|congruence].
Qed.

(** *** Reading *)

Lemma leads_master insts x m :
  wellKnown insts → leads insts x m → x ∈ insts → Hostname (Key m) = mhost.
Proof.
  intros [_ Hh]. rewrite Forall_forall in Hh. induction 1 as [x Hco Hf|x m Hco Hg|x y m Hf Hg Hl IH]; intros Hin;
    destruct (Hh x Hin) as (_ & _ & Hc & Hd & Hm).
  - destruct (String.eqb_spec (Hostname (Key x)) mhost) as [|Hne]; [done|]. destruct Hf.
    split_and!; [by rewrite Hm|done|done].
  - congruence.
  - apply IH. by apply GetInstance_Some in Hg as [? _].
Qed.

Lemma DetermineMaster_master insts m :
  wellKnown insts → DetermineMaster insts = Some m → Hostname (Key m) = mhost.
Proof.
  intros Hw (ms & Hms & _)%DetermineMaster_Some. apply mastersForNodes_Some in Hms.
  inversion Hms as [|x ? ? ? Hx _ Heq]; subst. destruct Hw as [Hnd Hh].
  apply masterForNode_spec in Hx; [|done|by left]. eapply leads_master; [by split|exact Hx|by left].
Qed.

(** The master of a round is the one of the server, once that knows it. *)
Lemma read_serves c insts :
  wellKnown insts →
  ∃ m, serves (getFromOrchestrator c) insts (Ok (insts, m)) insts ∧
    (is_Some (GetInstance insts mhost) → ∃ x, m = Some x ∧ Hostname (Key x) = mhost).
Proof.
  intros Hw.
  destruct (GetInstance insts mhost) as [x|] eqn:Ex.
  - apply GetInstance_Some in Ex as Hx. destruct Hx as [_ Hx].
    exists (Some x). split; [|by exists x].
    eapply serves_bind; [refine (serves_call _ _ (Cluster _) _ _ _ eq_refl eq_refl)|].
    eapply serves_bind; [refine (serves_call _ _ (Master _) insts (Ok x) _ _ eq_refl); unfold orcAnswer; by rewrite Ex|].
    cbv beta iota zeta. destruct (DetermineMaster insts) as [y|] eqn:Ey; [|apply serves_ret].
    cbv beta iota. rewrite (DetermineMaster_master _ _ Hw Ey), Hx, String.eqb_refl. apply serves_ret.
  - exists (DetermineMaster insts). split; [|by intros []].
    eapply serves_bind; [refine (serves_call _ _ (Cluster _) _ _ _ eq_refl eq_refl)|].
    eapply serves_bind; [refine (serves_call _ _ (Master _) insts (Err _) _ _ eq_refl); unfold orcAnswer; by rewrite Ex|].
    simpl. destruct (DetermineMaster insts); apply serves_ret.
Qed.

(** ** Rounds *)

(** A cluster whose pods are all ready, and whose master is one of them. *)
Definition asked (c : MysqlCluster) : Prop :=
  cl_DeletionTimestamp c = None ∧ ReadOnly (cl_Spec c) = false ∧ inFailover c = false ∧
  ReadyNodes (cl_Status c) = replicasOf c ∧
  ∃ i, (0 ≤ i < replicasOf c)%Z ∧ GetPodHostname c i = mhost.

(** Every pod is known. *)
Definition registered (c : MysqlCluster) (insts : InstancesSet) : Prop :=
  ∀ i, (0 ≤ i < replicasOf c)%Z → is_Some (GetInstance insts (GetPodHostname c i)).

(** Every pod is known, and writable exactly if it is the master. *)
Definition settled (c : MysqlCluster) (insts : InstancesSet) : Prop :=
  ∀ i, (0 ≤ i < replicasOf c)%Z → ∃ x,
    GetInstance insts (GetPodHostname c i) = Some x ∧
    in_ReadOnly x = negb (String.eqb (GetPodHostname c i) mhost).

Lemma settled_registered c insts : settled c insts → registered c insts.
Proof. intros Hs i Hi. destruct (Hs i Hi) as (x & Hx & _). by exists x. Qed.

Lemma asked_calmer c c' : asked c → calmer c c' → asked c'.
Proof.
  intros (Hd & Hro & Hf & Hr & Hm) ([Hmeta Hspec] & Hready & Hcalm).
  unfold asked, replicasOf, GetPodHostname, cl_Name, cl_Namespace, cl_DeletionTimestamp in *.
  rewrite Hmeta, Hspec, Hready. split_and!; auto.
Qed.

Lemma settled_calmer c c' insts : settled c' insts → calmer c c' → settled c insts.
Proof.
  intros Hs ([Hmeta Hspec] & _). unfold settled, replicasOf, GetPodHostname, cl_Name, cl_Namespace in *.
  by rewrite Hmeta, Hspec in Hs.
Qed.

Lemma ack_serves c toAck insts : serves (acknowledgeRecoveries c toAck) insts (Ok tt) insts.
Proof.
  unfold acknowledgeRecoveries. cbv zeta. induction toAck as [|r rs IH]; [apply serves_ret|]. simpl.
  eapply serves_try; [|exact IH].
  eapply serves_try; [refine (serves_call _ _ (AckRecovery _ _) _ _ _ eq_refl eq_refl)|].
  eapply serves_bind; [refine (serves_call _ _ (RecordEvent _ _ _) _ _ _ eq_refl eq_refl)|apply serves_ret].
Qed.

Lemma forget_serves now c keys insts :
  ∃ keys', keys' ⊆ keys ∧ serves (forgetNodesFromOrc now c keys) insts tt (foldl forgotten insts keys').
Proof.
  unfold forgetNodesFromOrc. destruct (_ || _).
  - exists keys. split; [done|]. apply serves_for_each. intros k s _.
    eapply serves_bind; [refine (serves_call _ _ (Forget _ _) _ _ _ eq_refl eq_refl)|apply serves_ret].
  - exists []. split; [|apply serves_ret]. intros k Hk. by apply not_elem_of_nil in Hk.
Qed.

Lemma marked_keeps m xs insts host :
  is_Some (GetInstance insts host) → is_Some (GetInstance (foldl (marked m) insts xs) host).
Proof.
  revert insts. induction xs as [|x xs IH]; intros insts Hi; [done|]. apply IH. unfold marked.
  destruct (Bool.eqb _ _); [done|]. rewrite GetInstance_switch. by apply fmap_is_Some.
Qed.

(** What a round makes of the state of the server. *)
Definition rounded (c : MysqlCluster) (m : option Instance_) (forget : list InstanceKey)
    (insts : InstancesSet) : InstancesSet :=
  foldl forgotten (foldl (marked m) (foldl discovered insts (updateNodesInOrc c insts).1.2)
    (updateNodesInOrc c insts).1.1) forget.

Lemma Sync_serves now c insts :
  asked c → wellKnown insts →
  ∃ c' m keys, serves (Sync now c) insts (c', Ok tt) (rounded c m keys insts) ∧ calmer c c' ∧
    keys ⊆ (updateNodesInOrc c insts).2 ∧
    (is_Some (GetInstance insts mhost) → ∃ x, m = Some x ∧ Hostname (Key x) = mhost).
Proof.
  intros (Hd & Hro & Hf & Hr & Hm) Hw. destruct (read_serves c insts Hw) as (m & Hread & Hmaster).
  set (u := updateNodesInOrc c insts). set (c' := syncedStatus now u.1.1 m recoveries c).
  set (s2 := foldl (marked m) (foldl discovered insts u.1.2) u.1.1).
  destruct (forget_serves now c' u.2 s2) as (keys & Hk & Hforget).
  exists c', m, keys. split_and!; [|apply syncedStatus_calmer|exact Hk|exact Hmaster].
  unfold Sync. eapply serves_bind; [exact Hread|]. cbv beta iota. fold u. destruct u as [[ready und] rem] eqn:Eu.
  cbn [fst snd] in *. cbv beta iota zeta.
  eapply serves_bind; [apply discover_serves|]. cbv beta.
  eapply serves_bind; [apply mark_serves|].
  - destruct (removeNodeConditionNotInOrc_frame now ready c) as [nodes ->]. exact Hf.
  - destruct (removeNodeConditionNotInOrc_frame now ready c) as [nodes ->]. exact Hro.
  - apply Forall_forall. intros x Hx. destruct Hw as [_ Hh]. rewrite Forall_forall in Hh. apply Hh.
    assert (x ∈ (updateNodesInOrc c insts).1.1) as Hx' by (fold u; by rewrite Eu).
    apply updateNodesInOrc_ready in Hx' as (i & _ & Hg). by apply GetInstance_Some in Hg as [? _].
  - cbv beta. eapply serves_bind; [refine (serves_call _ _ (AuditRecovery _) _ _ _ eq_refl eq_refl)|].
    cbn [orcAnswer]. cbv beta iota zeta.
    eapply serves_bind; [exact Hforget|]. eapply serves_bind; [apply ack_serves|].
    unfold rounded. fold u. rewrite Eu. apply serves_ret.
Qed.

Lemma rounded_spec c m keys insts :
  asked c → wellKnown insts → keys ⊆ (updateNodesInOrc c insts).2 →
  wellKnown (rounded c m keys insts) ∧ registered c (rounded c m keys insts) ∧
  (registered c insts → (∃ x, m = Some x ∧ Hostname (Key x) = mhost) → settled c (rounded c m keys insts)).
Proof.
  intros (Hd & Hro & Hf & Hr & Hm) Hw Hk. unfold rounded.
  destruct (discovered_all (updateNodesInOrc c insts).1.2 insts Hw) as (Hw1 & Hnew & Hold).
  set (s1 := foldl discovered _ _) in *.
  assert (∀ i s, (0 ≤ i < replicasOf c)%Z →
    GetInstance (foldl forgotten s keys) (GetPodHostname c i) = GetInstance s (GetPodHostname c i)) as Hfor.
  { intros i s Hi. apply forgotten_all. intros k Hin.
    apply Hk, updateNodesInOrc_forget in Hin as (x & _ & -> & [?|Hne]); [done|]. intros E. by apply (Hne i Hi). }
  split_and!.
  - by apply wellKnown_forgotten, wellKnown_marked.
  - intros i Hi. rewrite Hfor by done. apply marked_keeps.
    destruct (GetInstance insts (GetPodHostname c i)) as [x|] eqn:E; [exists x; by apply Hold|].
    apply (Hnew (mkKey (GetPodHostname c i) mysqlPort)). apply updateNodesInOrc_discover.
    split; [done|]. exists i. split_and!; [lia|lia|lia|done|done].
  - intros Hreg (mm & -> & Hmm) i Hi. rewrite Hfor by done. destruct (Hreg i Hi) as [y Hy].
    destruct (marked_all (Some mm) (GetPodHostname c i) (in_ReadOnly y) (updateNodesInOrc c insts).1.1 s1 y
      (Hold _ _ Hy)) as (y' & Hy' & _ & Hd'); [|by left|].
    + intros x (j & Hj & Hx)%updateNodesInOrc_ready Hkey.
      apply GetInstance_Some in Hx as Hxh. apply GetInstance_Some in Hy as Hyh.
      destruct Hxh as [_ Hxh], Hyh as [_ Hyh]. rewrite Hkey in Hxh. congruence.
    + exists y'. split; [exact Hy'|]. rewrite Hd'.
      * unfold wanted. apply GetInstance_Some in Hy as [_ ->]. by rewrite Hmm.
      * right. exists y. split; [|done]. apply updateNodesInOrc_ready. by exists i.
Qed.

(** C4. Rounds converge.  Against an Orchestrator that does what it is told, and
    whatever it knows at first, one round registers every pod of a cluster whose
    pods are all ready, and the second leaves exactly the master writable; a
    round from such a state leaves such a state. *)
Theorem Sync_converges (now1 now2 : Z) (c : MysqlCluster) (insts : InstancesSet) :
  asked c → wellKnown insts →
  (∃ c1 insts1 c2 insts2,
     serves (Sync now1 c) insts (c1, Ok tt) insts1 ∧ registered c insts1 ∧
     serves (Sync now2 c1) insts1 (c2, Ok tt) insts2 ∧ settled c insts2 ∧ wellKnown insts2 ∧
     asked c2 ∧ sameObject c c2) ∧
  (settled c insts → ∃ c' insts',
     serves (Sync now1 c) insts (c', Ok tt) insts' ∧ settled c insts' ∧ wellKnown insts' ∧ asked c').
Proof.
  intros Ha Hw.
  destruct (Sync_serves now1 c insts Ha Hw) as (c1 & m1 & k1 & Hs1 & Hc1 & Hk1 & Hm1).
  destruct (rounded_spec c m1 k1 insts Ha Hw Hk1) as (Hw1 & Hreg1 & Hset1).
  assert (∀ c insts, asked c → registered c insts → is_Some (GetInstance insts mhost)) as Hmh.
  { intros c0 s (_ & _ & _ & _ & i & Hi & <-) Hreg. by apply Hreg. }
  pose proof (asked_calmer _ _ Ha Hc1) as Ha1. split.
  - set (s1 := rounded c m1 k1 insts) in *.
    destruct (Sync_serves now2 c1 s1 Ha1 Hw1) as (c2 & m2 & k2 & Hs2 & Hc2 & Hk2 & Hm2).
    destruct (rounded_spec c1 m2 k2 s1 Ha1 Hw1 Hk2) as (Hw2 & _ & Hset2).
    assert (registered c1 s1) as Hreg1'.
    { destruct Hc1 as ([Hmeta Hspec] & _).
      unfold registered, replicasOf, GetPodHostname, cl_Name, cl_Namespace in *. by rewrite Hmeta, Hspec. }
    exists c1, s1, c2, (rounded c1 m2 k2 s1). split_and!; try done.
    + eapply settled_calmer; [|exact Hc1]. by eapply Hset2, Hm2, Hmh.
    + by eapply asked_calmer.
    + etrans; [apply Hc1|apply Hc2].
  - intros Hset%settled_registered. exists c1, (rounded c m1 k1 insts). split_and!; try done.
    apply Hset1; [done|]. apply Hm1. exact (Hmh c insts Ha Hset).
Qed.

End Converge.

(** ** Example *)

(** A new host, which replicates from the first pod. *)
Definition sampleFresh (k : InstanceKey) : Instance_ :=
  mkInstance k 100 true
    (mkKey (if String.eqb (Hostname k) "demo-mysql-0.mysql.prod" then "" else "demo-mysql-0.mysql.prod") 3306)
    false true true (Some 0%Z) (Some 0%Z) false true true true (Some 1%Z).

Definition sampleAsked : MysqlCluster := Sample.cluster "8.0.39" "8.0.39".

Lemma Sync_converges_witness :
  let answer := orcAnswer [] "demo-mysql-0.mysql.prod" in
  let step := orcStep sampleFresh in
  ∃ c1 insts1 c2 insts2,
    Prelude.serves answer step (Sync 100 sampleAsked) [] (c1, Ok tt) insts1 ∧
    Prelude.serves answer step (Sync 105 c1) insts1 (c2, Ok tt) insts2 ∧
    settled "demo-mysql-0.mysql.prod" sampleAsked insts2.
Proof.
  cbn zeta.
  destruct (Sync_converges [] sampleFresh "demo-mysql-0.mysql.prod" (λ k, eq_refl)) with
    (now1 := 100%Z) (now2 := 105%Z) (c := sampleAsked) (insts := [] : InstancesSet)
    as [(c1 & i1 & c2 & i2 & H1 & _ & H2 & H3 & _) _].
  - intros k. split; [reflexivity|]. split; [vm_compute; discriminate|].
    split; [reflexivity|]. split; [reflexivity|]. unfold sampleFresh. simpl. by destruct (String.eqb _ _).
  - discriminate.
  - split; [reflexivity|]. split; [reflexivity|]. split; [reflexivity|]. split; [reflexivity|].
    exists 0%Z. split; [|reflexivity]. vm_compute. split; [discriminate|reflexivity].
  - split; constructor.
  - exists c1, i1, c2, i2. split; [exact H1|]. split; [exact H2|exact H3].
Defined.
