(* ===== verification/OrcClient.v ===== *)
(** * The client of Orchestrator

    [pkg/orchestrator]: the HTTP requests behind [orc.Interface]
    ([orchestrator.go], [util.go]) and the errors it returns ([errors.go]).

    A request is the call [HGet]; its answer is a [Reply], whose body is a stream
    that is consumed by reading it.  [json.Unmarshal] into the types of the
    package is the class [JSON].  [orcCall] maps the calls of the reconciler
    ([orc_op]) to the client, and [Sync_requests] states in terms of the requests
    that are sent what a whole round of the reconciler may do. *)

From S2P Require Import Prelude GoStrings ClusterTypes ClusterStatus ClusterModel.
From S2P Require Import OrcTopology OrcReconcile.
Open Scope stdpp_scope.

(** ** Requests and replies *)

(** What the successive calls of [ioutil.ReadAll] on a body give: after one that
    reads to the end there is nothing left; after one that fails a further one
    may give anything. *)
Definition Body := list (result string).

Definition ReadAll (b : Body) : result string * Body :=
  match b with
  | [] => (Ok "", [])
  | Ok s :: _ => (Ok s, [])
  | Err e :: b => (Err e, b)
  end.

Inductive Reply :=
  (** [http.NewRequest] cannot parse the address *)
  | NoRequest (msg : string)
  (** [client.Do] fails, the timeout included *)
  | NoReply (msg : string)
  | Replied (StatusCode : Z) (body : Body).

Inductive net_op :=
  | HGet (uri : string)
  (** [recorder.Event], which does not go through the client *)
  | NEvent (type_ reason message : string).

#[export] Instance net_effect : Effect net_op := λ o,
  match o with HGet _ => Reply | NEvent _ _ _ => unit end.

(** ** Errors *)

(** [Details] is an [interface{}]; the code only sets it to an error, of which it
    is the text, and [None] is nil. *)
(* src/pkg/orchestrator/errors.go:28-33 Error *)
Record Error_ := mkError {
  oe_HTTPStatus : Z; oe_Path : string; oe_Message : string; oe_Details : option string }.

Definition with_Message (m : string) (e : Error_) : Error_ :=
  mkError (oe_HTTPStatus e) (oe_Path e) m (oe_Details e).

(** [fmt]'s [%v] of a nil interface is [<nil>]. *)
(* src/pkg/orchestrator/errors.go:35-38 Error.Error *)
Definition Error_text (e : Error_) : string :=
  "[orc]: status: " +:+ itoa (oe_HTTPStatus e) +:+ " path: " +:+ oe_Path e +:+
  " msg: " +:+ oe_Message e +:+ ", details: " +:+ default "<nil>" (oe_Details e).

(** As a Go [error]; [IsNotFound] looks at the message only. *)
Definition asError (e : Error_) : error := ErrOrc (oe_Message e).

(** The anonymous struct of [makeGetAPIRequest]. *)
Record apiObj := mkAPI { Code : string; Message : string }.

(* src/pkg/orchestrator/instance.go:170-178 Maintenance *)
Record Maintenance_ := mkMaintenance {
  MaintenanceId : Z; mt_Key : InstanceKey; BeginTimestamp : string; SecondsElapsed : Z;
  mt_IsActive : bool; Owner : string; Reason : string }.

(** [json.Unmarshal(body, &obj)]: what becomes of [obj], and the error.  An empty
    input is not JSON. *)
Class Unmarshaler (T : Type) := unmarshal : string → T → T * option string.

Class JSON := {
  unmarshal_api :: Unmarshaler apiObj;
  unmarshal_error :: Unmarshaler Error_;
  unmarshal_instance :: Unmarshaler Instance_;
  unmarshal_instances :: Unmarshaler (list Instance_);
  unmarshal_recoveries :: Unmarshaler (list TopologyRecovery);
  unmarshal_maintenances :: Unmarshaler (list Maintenance_) }.

Definition noJSON : string := "unexpected end of JSON input".

Class JSONLaws `{JSON} := unmarshal_empty (e : Error_) : unmarshal "" e = (e, Some noJSON).

(** The zero value of an [Instance]. *)
Definition zeroInstance : Instance_ :=
  mkInstance (mkKey "" 0) 0 false (mkKey "" 0) false false false None None false false false
    false None.

(** ** [net/url] *)

Definition unreserved (c : ascii) : bool :=
  let n := N_of_ascii c in
  ((48 <=? n) && (n <=? 57) || (65 <=? n) && (n <=? 90) || (97 <=? n) && (n <=? 122) ||
   (n =? 45) || (n =? 46) || (n =? 95) || (n =? 126))%N.

Definition upper_hex (n : N) : ascii :=
  if (n <? 10)%N then ascii_of_N (48 + n) else ascii_of_N (55 + n).

(** [url.QueryEscape]: letters, digits and [-._~] as they are, a space as [+],
    any other byte as two hexadecimal digits. *)
Fixpoint QueryEscape (s : string) : string :=
  match s with
  | "" => ""
  | String c s =>
      (if unreserved c then String c ""
       else if Ascii.eqb c " " then "+"
       else String "%" (String (upper_hex (N_of_ascii c `div` 16))
                          (String (upper_hex (N_of_ascii c `mod` 16)) ""))) +:+ QueryEscape s
  end.

(** [url.Values.Encode], of values with their keys in order. *)
Definition Encode (query : list (string * list string)) : string :=
  Join ('(k, vs) ← query; (λ v, QueryEscape k +:+ "=" +:+ QueryEscape v) <$> vs) "&".

(** ** The client *)

Section Client.
Context `{!JSON} (connectURI : string).

(* src/pkg/orchestrator/errors.go:41-61 NewError *)
Definition NewError (StatusCode : Z) (body : Body) (path : string) (details : option string) : Error_ :=
  let rsp := mkError StatusCode path "" details in
  match (ReadAll body).1 with
  | Err _ => with_Message "<<Can't read body>>" rsp
  | Ok body =>
      match unmarshal body rsp with
      | (rsp, Some err) =>
          with_Message ("<<can't get more details, in error: error: " +:+ err +:+
                        ", body: " +:+ body +:+ ">>") rsp
      | (rsp, None) => rsp
      end
  end.

(* src/pkg/orchestrator/errors.go:64-70 NewErrorMsg *)
Definition NewErrorMsg (msg path : string) : Error_ := mkError 0 path msg None.

(** The object, the error, and what is left of the body. *)
(* src/pkg/orchestrator/util.go:82-94 unmarshalJSON *)
Definition unmarshalJSON `{!Unmarshaler T} (body : Body) (obj : T) : T * option string * Body :=
  match ReadAll body with
  | (Err e, body) => (obj, Some ("io read error: " +:+ error_text e), body)
  | (Ok s, body) => (unmarshal s obj, body)
  end.

(* src/pkg/orchestrator/util.go:32-58 makeGetRequest *)
Definition makeGetRequest `{!Unmarshaler T} (path : string) (out : T) : prog net_op (Error_ + T) :=
  let uri := connectURI +:+ "/" +:+ path in
  resp ← call (HGet uri);
  mret match (resp : Reply) with
       | NoRequest err => inl (NewErrorMsg ("can't create request: " +:+ err) path)
       | NoReply err => inl (NewErrorMsg err path)
       | Replied status body =>
           if (500 <=? status)%Z then inl (NewError status body path None)
           else match unmarshalJSON body out with
                | (_, Some err, rest) => inl (NewError status rest path (Some err))
                | (out, None, _) => inr out
                end
       end.

(* src/pkg/orchestrator/util.go:60-80 makeGetAPIRequest *)
Definition makeGetAPIRequest (path : string) (query : list (string * list string)) :
    prog net_op (result unit) :=
  let args := Encode query in
  let args := if negb (String.length args =? 0)%nat then "?" +:+ args else args in
  let path := path +:+ args in
  r ← makeGetRequest path (mkAPI "" "");
  mret match r with
       | inl err => Err (asError err)
       | inr apiObj =>
           if negb (String.eqb (Code apiObj) "OK")
           then Err (ErrMsg ("orc failed with: " +:+ Message apiObj)) else Ok tt
       end.

Definition returned {T} (r : Error_ + T) : result T :=
  match r with inl err => Err (asError err) | inr out => Ok out end.

Definition hostPort (host : string) (port : Z) : string := host +:+ "/" +:+ itoa port.

(* src/pkg/orchestrator/orchestrator.go:57-63 Discover *)
Definition c_Discover (host : string) (port : Z) : prog net_op (result unit) :=
  makeGetAPIRequest ("discover/" +:+ hostPort host port) [].

(* src/pkg/orchestrator/orchestrator.go:65-71 Forget *)
Definition c_Forget (host : string) (port : Z) : prog net_op (result unit) :=
  makeGetAPIRequest ("forget/" +:+ hostPort host port) [].

(* src/pkg/orchestrator/orchestrator.go:73-81 Master *)
Definition c_Master (clusterHint : string) : prog net_op (result Instance_) :=
  r ← makeGetRequest ("master/" +:+ clusterHint) zeroInstance; mret (returned r).

(* src/pkg/orchestrator/orchestrator.go:83-91 Cluster *)
Definition c_Cluster (cluster : string) : prog net_op (result (list Instance_)) :=
  r ← makeGetRequest ("cluster/" +:+ cluster) ([] : list Instance_); mret (returned r).

(* src/pkg/orchestrator/orchestrator.go:93-101 AuditRecovery *)
Definition c_AuditRecovery (cluster : string) : prog net_op (result (list TopologyRecovery)) :=
  r ← makeGetRequest ("audit-recovery/cluster/" +:+ cluster) ([] : list TopologyRecovery); mret (returned r).

(* src/pkg/orchestrator/orchestrator.go:103-112 AckRecovery *)
Definition c_AckRecovery (id : Z) (comment : string) : prog net_op (result unit) :=
  makeGetAPIRequest ("ack-recovery/" +:+ itoa id) [("comment", [comment])].

(* src/pkg/orchestrator/orchestrator.go:114-121 SetHostWritable *)
Definition c_SetHostWritable (key : InstanceKey) : prog net_op (result unit) :=
  makeGetAPIRequest ("set-writeable/" +:+ hostPort (Hostname key) (Port key)) [].

(* src/pkg/orchestrator/orchestrator.go:123-130 SetHostReadOnly *)
Definition c_SetHostReadOnly (key : InstanceKey) : prog net_op (result unit) :=
  makeGetAPIRequest ("set-read-only/" +:+ hostPort (Hostname key) (Port key)) [].

(* src/pkg/orchestrator/orchestrator.go:132-139 BeginMaintenance *)
Definition c_BeginMaintenance (key : InstanceKey) (owner reason : string) :
    prog net_op (result unit) :=
  makeGetAPIRequest ("begin-maintenance/" +:+ hostPort (Hostname key) (Port key) +:+ "/" +:+
                     owner +:+ "/" +:+ reason) [].

(* src/pkg/orchestrator/orchestrator.go:141-147 EndMaintenance *)
Definition c_EndMaintenance (key : InstanceKey) : prog net_op (result unit) :=
  makeGetAPIRequest ("end-maintenance/" +:+ hostPort (Hostname key) (Port key)) [].

(* src/pkg/orchestrator/orchestrator.go:149-156 Maintenance *)
Definition c_Maintenance : prog net_op (result (list Maintenance_)) :=
  r ← makeGetRequest "maintenance" ([] : list Maintenance_); mret (returned r).

(** The calls of the reconciler, made by the client. *)
Definition orcCall (o : orc_op) : prog net_op (Resp o) :=
  match o return prog net_op (Resp o) with
  | Discover host port => c_Discover host port
  | Forget host port => c_Forget host port
  | Master hint => c_Master hint
  | Cluster cluster => c_Cluster cluster
  | AuditRecovery cluster => c_AuditRecovery cluster
  | AckRecovery id comment => c_AckRecovery id comment
  | SetHostWritable key => c_SetHostWritable key
  | SetHostReadOnly key => c_SetHostReadOnly key
  | RecordEvent t r m => call (NEvent t r m)
  end.

(** The path of a call, for a call that goes to Orchestrator. *)
Definition apiPath (o : orc_op) : option string :=
  match o with
  | Discover host port => Some ("discover/" +:+ hostPort host port)
  | Forget host port => Some ("forget/" +:+ hostPort host port)
  | Master hint => Some ("master/" +:+ hint)
  | Cluster cluster => Some ("cluster/" +:+ cluster)
  | AuditRecovery cluster => Some ("audit-recovery/cluster/" +:+ cluster)
  | AckRecovery id comment =>
      Some ("ack-recovery/" +:+ itoa id +:+ "?comment=" +:+ QueryEscape comment)
  | SetHostWritable key => Some ("set-writeable/" +:+ hostPort (Hostname key) (Port key))
  | SetHostReadOnly key => Some ("set-read-only/" +:+ hostPort (Hostname key) (Port key))
  | RecordEvent _ _ _ => None
  end.

End Client.

(** ** Addresses *)

Lemma unreserved_safe c : unreserved c = true → c ≠ "&"%char ∧ c ≠ "#"%char ∧ c ≠ "+"%char ∧ c ≠ "%"%char.
Proof. intros H. repeat split; intros ->; vm_compute in H; discriminate. Qed.

(** What [url.QueryUnescape] makes of a byte that starts with [%]. *)
Definition hex_val (c : ascii) : N :=
  let n := N_of_ascii c in if (n <? 65)%N then (n - 48)%N else (n - 55)%N.

Fixpoint QueryUnescape (s : string) : string :=
  match s with
  | String "%" (String a (String b s)) =>
      String (ascii_of_N (16 * hex_val a + hex_val b)) (QueryUnescape s)
  | String c s => String (if Ascii.eqb c "+" then " "%char else c) (QueryUnescape s)
  | "" => ""
  end.

Lemma hex_val_upper n : (n < 16)%N → hex_val (upper_hex n) = n.
Proof.
  intros Hn. unfold hex_val, upper_hex. destruct (n <? 10)%N eqn:E;
    [apply N.ltb_lt in E|apply N.ltb_ge in E]; rewrite N_ascii_embedding by lia;
    (destruct (_ <? 65)%N eqn:E2; [apply N.ltb_lt in E2|apply N.ltb_ge in E2]; lia).
Qed.

Lemma QueryUnescape_Escape s : QueryUnescape (QueryEscape s) = s.
Proof.
  induction s as [|c s IH]; [done|]. cbn [QueryEscape]. destruct (unreserved c) eqn:E.
  - apply unreserved_safe in E as (_ & _ & Hp & Hq). destruct c as [[] [] [] [] [] [] [] []];
      cbn in *; rewrite ?IH; congruence.
  - destruct (Ascii.eqb_spec c " ") as [->|Hs]; [cbn; by rewrite IH|].
    cbn [String.append QueryUnescape]. f_equal; [|done].
    pose proof (N_ascii_bounded c).
    rewrite !hex_val_upper by (apply N.mod_lt || apply N.Div0.div_lt_upper_bound; lia).
    rewrite <-N.div_mod by done. apply ascii_N_embedding.
Qed.

#[export] Instance QueryEscape_inj : Inj (=) (=) QueryEscape.
Proof. intros s t H. rewrite <-(QueryUnescape_Escape s), H. apply QueryUnescape_Escape. Qed.

Lemma itoa_Index z c : digit_val c = None → c ≠ "-"%char → Index (itoa z) (String c "") = None.
Proof.
  intros Hc Hm. destruct z as [|n|n].
  - by apply all_digits_Index.
  - apply all_digits_Index; [done|]. by apply all_digits_itoa.
  - change (itoa (Z.neg n)) with (String "-" (itoa (Z.pos n))). simpl.
    rewrite andb_true_r. destruct (Ascii.eqb_spec c "-") as [?|_]; [done|].
    rewrite all_digits_Index; [done|done|]. exact (all_digits_itoa (Z.pos n) ltac:(lia)).
Qed.

Lemma hostPort_inj h1 p1 h2 p2 : hostPort h1 p1 = hostPort h2 p2 → h1 = h2 ∧ p1 = p2.
Proof.
  unfold hostPort. change ("/" +:+ itoa p1) with (String "/" (itoa p1)).
  change ("/" +:+ itoa p2) with (String "/" (itoa p2)). intros H.
  pose proof (LastIndex_app h1 (itoa p1) "/" (itoa_Index p1 "/" eq_refl ltac:(done))) as H1.
  pose proof (LastIndex_app h2 (itoa p2) "/" (itoa_Index p2 "/" eq_refl ltac:(done))) as H2.
  rewrite H, H2 in H1. injection H1 as Hl.
  assert (h1 = h2) as ->.
  { by rewrite <-(str_take_app h1 (String "/" (itoa p1))), H, <-Hl, str_take_app. }
  apply str_app_inv_l in H. injection H as H%itoa_inj. done.
Qed.

Lemma ack_inj i1 c1 i2 c2 :
  itoa i1 +:+ "?comment=" +:+ QueryEscape c1 = itoa i2 +:+ "?comment=" +:+ QueryEscape c2 →
  i1 = i2 ∧ c1 = c2.
Proof.
  change ("?comment=" +:+ QueryEscape c1) with (String "?" ("comment=" +:+ QueryEscape c1)).
  change ("?comment=" +:+ QueryEscape c2) with (String "?" ("comment=" +:+ QueryEscape c2)).
  intros H.
  pose proof (Index_char_app (itoa i1) ("comment=" +:+ QueryEscape c1) "?" (itoa_Index i1 "?" eq_refl ltac:(done))) as H1.
  pose proof (Index_char_app (itoa i2) ("comment=" +:+ QueryEscape c2) "?" (itoa_Index i2 "?" eq_refl ltac:(done))) as H2.
  rewrite H, H2 in H1. injection H1 as Hl.
  assert (itoa i1 = itoa i2) as Hi.
  { by rewrite <-(str_take_app (itoa i1) (String "?" ("comment=" +:+ QueryEscape c1))), H,
      <-Hl, str_take_app. }
  rewrite Hi in H. apply str_app_inv_l in H. injection H as H%(inj QueryEscape).
  by apply itoa_inj in Hi.
Qed.

(** Different calls are different requests. *)
Lemma apiPath_inj o1 o2 p : apiPath o1 = Some p → apiPath o2 = Some p → o1 = o2.
Proof.
  intros H1 H2. assert (apiPath o1 = apiPath o2) as H by congruence. clear H2.
  destruct o1 as [| | | | | |[]|[]|]; [..|done];
    destruct o2 as [| | | | | |[]|[]|]; try (cbn -[hostPort] in H; discriminate H);
    injection H as H;
    (apply hostPort_inj in H as [-> ->] || apply ack_inj in H as [-> ->] || subst); done.
Qed.

(** ** Requests of the calls *)

Section Requests.
Context `{!JSON} (connectURI : string).

Definition uriOf (path : string) : string := connectURI +:+ "/" +:+ path.

Lemma makeGetRequest_run `{!Unmarshaler T} path (out : T) w h :
  (makeGetRequest connectURI path out w h).2 = h ++ [Ev (HGet (uriOf path)) (w h (HGet (uriOf path)))].
Proof. done. Qed.

(** Each call is one request, to its path; an event is recorded. *)
Definition requestOf (o : orc_op) : net_op :=
  match o, apiPath o with
  | RecordEvent t r m, _ => NEvent t r m
  | _, Some p => HGet (uriOf p)
  | _, None => HGet connectURI
  end.

Lemma orcCall_request o w h :
  (orcCall connectURI o w h).2 = h ++ [Ev (requestOf o) (w h (requestOf o))].
Proof.
  destruct o; simpl; try done.
  all: unfold requestOf; simpl; unfold uriOf; try by rewrite str_app_nil_r.
Qed.

End Requests.

(** ** A round of the reconciler, as requests *)

Section Rounds.
Context `{!JSON} (connectURI : string).
Implicit Types (w : world net_op) (c : MysqlCluster).

(** The reconciler with the client. *)
Definition netRound (now : Z) (c : MysqlCluster) : prog net_op (MysqlCluster * result unit) :=
  handle (orcCall connectURI) (Sync now c).

(** What the reconciler sees of the network. *)
Definition orcWorld (w : world net_op) : world orc_op := through (orcCall connectURI) w [].

Definition requestedURI (e : event net_op) : option string :=
  match ev_op e with HGet uri => Some uri | NEvent _ _ _ => None end.

Lemma requests_of_calls w (h : list (event orc_op)) :
  omap requestedURI (replay (orcCall connectURI) w [] h) =
  uriOf connectURI <$> omap (apiPath ∘ ev_op) h.
Proof.
  induction h as [|[o r] h IH] using rev_ind; [done|].
  unfold replay in *. rewrite foldl_app. simpl. rewrite orcCall_request, !omap_app, fmap_app, IH.
  f_equal. by destruct o.
Qed.

(** C3. A round of the reconciler sends exactly one request for each of its calls
    to Orchestrator, and every request allows the call it stands for: whatever
    the network answers, all [set-writeable] requests are for the host of the
    master the round works with, which is a desired pod, [set-read-only] is never
    sent for it unless the cluster is read-only, desired pods are only forgotten
    when the cluster is deleted, and only ready pods are registered. *)
Theorem Sync_requests (now : Z) c w :
  let requests := omap requestedURI (trace (netRound now c) w) in
  let calls := trace (Sync now c) (orcWorld w) in
  requests = uriOf connectURI <$> omap (apiPath ∘ ev_op) calls ∧
  ∀ o p r, apiPath o = Some p → uriOf connectURI p ∈ requests →
    syncCall c (roundMaster c (orcWorld w)) (Ev o r).
Proof.
  cbn zeta. unfold trace at 1 3, netRound, handle. cbn [snd].
  rewrite requests_of_calls. split; [done|]. intros o p r Hp Hu.
  apply list_elem_of_fmap in Hu as (p' & Hpp & (e & He & Hin)%list_elem_of_omap).
  apply str_app_inv_l in Hpp. injection Hpp as <-.
  destruct (Sync_round now c (orcWorld w) []) as (t & Ht & Hc).
  fold (orcWorld w) in He. rewrite Ht in He. rewrite Forall_forall in Hc.
  specialize (Hc e He). destruct e as [o' r'].
  destruct (apiPath_inj o' o p Hin Hp). exact Hc.
Qed.

(** ** Errors *)

(** What a request for the instances of a cluster is answered. *)
Definition clusterReply c w : Reply := w [] (HGet (uriOf connectURI ("cluster/" +:+ GetClusterAlias c))).

(** The body has been read when the error is built: the details that were sent
    are lost, and such an error never says that a cluster is not found. *)
Lemma undecodable_message `{!JSONLaws} (status : Z) (path err : string) :
  let e := NewError status [] path (Some err) in
  oe_Message e = "<<can't get more details, in error: error: unexpected end of JSON input, body: >>" ∧
  OrcIsNotFound (asError e) = false.
Proof. cbn zeta. unfold NewError, asError. simpl. by rewrite unmarshal_empty. Qed.

(** C34. The reconciler takes the topology for empty only if Orchestrator answered
    with an empty list, or with an error (a status of 500 or more, or no answer);
    an answer that cannot be decoded is an error of the round, and not an unknown
    cluster. *)
Theorem empty_topology `{!JSONLaws} c w m (status : Z) (body : string) (rest : Body) :
  run (handle (orcCall connectURI) (getFromOrchestrator c)) w = Ok ([], m) →
  clusterReply c w = Replied status (Ok body :: rest) →
  (500 ≤ status)%Z ∨ unmarshal body ([] : list Instance_) = ([], None).
Proof.
  intros HR Hr. destruct (decide (500 ≤ status)%Z) as [|Hs]; [by left|right].
  assert (@fst (result InstancesSet) _ (call (Cluster (GetClusterAlias c)) (orcWorld w) []) =
    returned match unmarshal body ([] : list Instance_) with
             | (_, Some err) => inl (NewError status [] ("cluster/" +:+ GetClusterAlias c) (Some err))
             | (out, None) => inr out
             end) as Hcall.
  { unfold call, orcWorld, through. simpl. unfold mret, prog_ret. simpl.
    unfold clusterReply, uriOf in Hr. simpl in Hr. rewrite Hr.
    rewrite (proj2 (Z.leb_gt _ _)) by lia. unfold unmarshalJSON. simpl.
    by destruct (unmarshal body _) as [? [|]]. }
  unfold run, handle, getFromOrchestrator in HR. cbn [fst] in HR.
  unfold mbind, prog_bind at 1 in HR. fold (orcWorld w) in HR. rewrite Hcall in HR. clear Hcall.
  destruct (unmarshal body []) as [out [err|]].
  - unfold returned in HR. destruct (undecodable_message status ("cluster/" +:+ GetClusterAlias c) err)
      as [_ Hn]. rewrite Hn in HR. done.
  - unfold returned in HR. f_equal. revert HR. unfold mbind, prog_bind.
    destruct (call _ _ _) as [[mm|e] h]; simpl;
      [|destruct (OrcIsNotFound e); [|done]]; simpl; destruct (DetermineMaster out); simpl;
      try destruct (String.eqb _ _); simpl; congruence.
Qed.

End Rounds.

(** ** Examples *)

(** A reading of a few literal answers. *)
Module RefJSON.

#[export] Instance refJSON : JSON := {
  unmarshal_api s o :=
    if String.eqb s "{Code:OK}" then (mkAPI "OK" (Message o), None) else (o, Some noJSON);
  unmarshal_error s e :=
    if String.eqb s "{Message:No masters found}" then (with_Message "No masters found" e, None)
    else (e, Some noJSON);
  unmarshal_instance s o := (o, Some noJSON);
  unmarshal_instances s o :=
    if String.eqb s "[0,1]" then (sampleOrcInstances, None)
    else if String.eqb s "[]" then ([], None) else (o, Some noJSON);
  unmarshal_recoveries s o :=
    if String.eqb s "[]" then ([], None) else (o, Some noJSON);
  unmarshal_maintenances s o := (o, Some noJSON) }.

#[export] Instance refJSONLaws : JSONLaws.
Proof. intros e. reflexivity. Qed.

Definition sampleURI : string := "http://orc:3000/api".

(** Orchestrator knows two instances and no master of the cluster. *)
Definition sampleNet (cluster : Reply) : world net_op := λ _ o,
  match o with
  | HGet uri =>
      if String.eqb uri (sampleURI +:+ "/cluster/demo.prod") then cluster
      else if String.eqb uri (sampleURI +:+ "/master/demo.prod")
      then Replied 500 [Ok "{Message:No masters found}"]
      else if String.eqb uri (sampleURI +:+ "/audit-recovery/cluster/demo.prod")
      then Replied 200 [Ok "[]"]
      else Replied 200 [Ok "{Code:OK}"]
  | NEvent _ _ _ => tt
  end.

Example sampleRequests :
  omap requestedURI
    (trace (netRound sampleURI 1000 sampleScaledDown) (sampleNet (Replied 200 [Ok "[0,1]"]))) =
  [sampleURI +:+ "/cluster/demo.prod"; sampleURI +:+ "/master/demo.prod";
   sampleURI +:+ "/discover/demo-mysql-2.mysql.prod/3306";
   sampleURI +:+ "/set-writeable/demo-mysql-0.mysql.prod/3306";
   sampleURI +:+ "/audit-recovery/cluster/demo.prod"].
Proof. vm_compute. reflexivity. Qed.

Lemma empty_topology_witness :
  let w := sampleNet (Replied 200 [Ok "[]"]) in
  run (handle (orcCall sampleURI) (getFromOrchestrator sampleScaledDown)) w = Ok ([], None) ∧
  unmarshal "[]" ([] : list Instance_) = ([], None).
Proof.
  cbn zeta. split; [vm_compute; reflexivity|].
  destruct (empty_topology sampleURI sampleScaledDown (sampleNet (Replied 200 [Ok "[]"])) None 200 "[]" [])
    as [Hs|Hu]; [vm_compute; reflexivity|vm_compute; reflexivity| |exact Hu].
  exfalso. exact (Hs eq_refl).
Defined.

End RefJSON.
