(* ===== verification/NodeSQL.v ===== *)
(** * SQL on a node

    [pkg/controller/node/sql.go]: [nodeSQLRunner], the implementation of the
    interface [SQLInterface] with which the node controller configures the mysqld
    of a pod.  A connection is opened for every statement, so an effect names
    the data source and the statement; opening it may fail, which is one of the
    errors that the effect returns.

    The effects [node_op] are those of the whole node controller: the calls to
    the API server are used in [NodeController.v]. *)

From S2P Require Import Prelude GoStrings Semver ClusterTypes Versioning.
Open Scope stdpp_scope.

(** ** Effects *)

Inductive sql_arg := ArgString (s : string) | ArgInt (z : Z).

(** What a [select] on the context and a timer of one second returns. *)
Inductive select_result := CtxDone (err : string) | TimerFired.

Inductive node_op :=
  | GetPod (ns name : string)
  | GetCluster (ns name : string)
  (** with the client that has no cache *)
  | RefreshCluster (ns name : string)
  | GetSecret (ns name : string)
  | GetStatefulSet (ns name : string)
  | UpdateCluster (c : MysqlCluster)
  | UpdatePodStatus (pod : Pod)
  | Select
  (** [db.ExecContext] *)
  | Exec (dsn query : string) (args : list sql_arg)
  (** [db.QueryRowContext] and [Scan] into one string: [None] for [sql.ErrNoRows] *)
  | QueryRow (dsn query : string).

#[export] Instance node_effect : Effect node_op := λ o,
  match o with
  | GetPod _ _ => result Pod
  | GetCluster _ _ | RefreshCluster _ _ => result MysqlCluster
  | GetSecret _ _ => result (gmap string string)
  | GetStatefulSet _ _ => result StatefulSet
  | UpdateCluster _ | UpdatePodStatus _ | Exec _ _ _ => result unit
  | Select => select_result
  | QueryRow _ _ => result (option string)
  end.

(** ** The runner *)

(* src/pkg/controller/node/sql.go:33-36 connRetry *)
Definition connRetry : Z := 1.

(* src/pkg/controller/node/sql.go:56-62 nodeSQLRunner *)
Record nodeSQLRunner := mkRunner {
  dsn : string; host : string; enableBinLog : bool; rep : ReplicationDialect }.

(* src/pkg/controller/node/sql.go:66-73 newNodeConn *)
Definition newNodeConn `{!Blang, !Process} (dsn host : string) (mysqlVer : Version) : nodeSQLRunner :=
  mkRunner dsn host false (Replication (ProfileFor mysqlVer)).

Section Runner.
Context (r : nodeSQLRunner).

(** The statement with the binary log switched off. *)
Definition fullQuery (q : string) : string :=
  if negb (enableBinLog r) then "SET @@SESSION.SQL_LOG_BIN = 0;" +:+ newline +:+ q else q.

(* src/pkg/controller/node/sql.go:178-195 runQuery *)
Definition runQuery (q : string) (args : list sql_arg) : prog node_op (result unit) :=
  call (Exec (dsn r) (fullQuery q) args).

(* src/pkg/controller/node/sql.go:198-212 readFromMysql *)
Definition readFromMysql (query : string) : prog node_op (result (option string)) :=
  call (QueryRow (dsn r) query).

Definition statusQuery (key : string) : string :=
  "SELECT value FROM " +:+ OperatorDbName +:+ "." +:+ OperatorStatusTableName +:+
  " WHERE name='" +:+ key +:+ "'".

(* src/pkg/controller/node/sql.go:276-289 readStatusValue *)
Definition readStatusValue (key : string) : prog node_op (result string) :=
  value <-? readFromMysql (statusQuery key);
  mret (Ok (default "" value)).

Definition writeQuery (key value : string) : string :=
  "REPLACE INTO " +:+ OperatorDbName +:+ "." +:+ OperatorStatusTableName +:+
  " VALUES ('" +:+ key +:+ "', '" +:+ value +:+ "');".

(* src/pkg/controller/node/sql.go:290-302 writeStatusValue *)
Definition writeStatusValue (key value : string) : prog node_op (result unit) :=
  runQuery (writeQuery key value) [].

(** The loops of [Wait] and [WaitForOperatorStatusTable].  Every turn waits for a
    second unless the context is done, and the context is done after
    [mysqlReconciliationTimeout], that is after 120 turns at the latest. *)
Fixpoint pollLoop (turns : nat) (test : prog node_op bool) (timeout : string → error) :
    prog node_op (result unit) :=
  match turns with
  | O => mret (Err (timeout "context deadline exceeded"))
  | S turns =>
      s ← call Select;
      match s with
      | CtxDone err => mret (Err (timeout err))
      | TimerFired =>
          ok ← test;
          if ok : bool then mret (Ok tt) else pollLoop turns test timeout
      end
  end.

(** [mysqlReconciliationTimeout], 2 minutes, in turns of one second. *)
(* src/pkg/controller/node/node_controller.go:60-60 mysqlReconciliationTimeout *)
Definition mysqlReconciliationTurns : nat := 120.

(* src/pkg/controller/node/sql.go:76-90 Wait *)
Definition Wait : prog node_op (result unit) :=
  pollLoop mysqlReconciliationTurns
    (r ← runQuery "SELECT 1" []; mret (is_ok r))
    (λ _, ErrMsg "timeout: mysql is not ready").

(* src/pkg/controller/node/sql.go:111-126 isInitFileComplete *)
Definition isInitFileComplete : prog node_op (result bool) :=
  complete <-? readStatusValue OperatorInitFileCompleteKey;
  if String.eqb complete OperatorInitFileCompleteValue then mret (Ok true)
  else
    configured <-? readStatusValue OperatorConfiguredKey;
    mret (Ok (String.eqb configured OperatorConfiguredDoneValue)).

(* src/pkg/controller/node/sql.go:92-109 WaitForOperatorStatusTable *)
Definition WaitForOperatorStatusTable : prog node_op (result unit) :=
  pollLoop mysqlReconciliationTurns
    (r ← isInitFileComplete; mret match r with Ok done => done | Err _ => false end)
    (λ err, ErrMsg ("timeout waiting for init-file completion: " +:+ err)).

(** The function that [DisableSuperReadOnly] returns: its error is only logged. *)
(* src/pkg/controller/node/sql.go:128-136 DisableSuperReadOnly *)
Definition enableSuperReadOnly : prog node_op unit :=
  _ ← runQuery "SET GLOBAL SUPER_READ_ONLY = 1;" []; mret tt.

(* src/pkg/controller/node/sql.go:128-136 DisableSuperReadOnly *)
Definition DisableSuperReadOnly : prog node_op (result unit) :=
  runQuery "SET GLOBAL READ_ONLY = 1; SET GLOBAL SUPER_READ_ONLY = 0;" [].

(* src/pkg/controller/node/sql.go:139-156 ChangeMasterTo *)
Definition ChangeMasterTo (masterHost user pass : string) : prog node_op (result unit) :=
  let query := StopReplication (rep r) +:+ newline +:+ ChangeSourceSQL (rep r) in
  res ← runQuery query [ArgString masterHost; ArgString user; ArgString pass; ArgInt connRetry];
  match res with
  | Err err => mret (Err (ErrMsg ("failed to configure slave node, err: " +:+ error_text err)))
  | Ok _ =>
      res ← runQuery (StartReplication (rep r)) [];
      match res with
      | Ok _ => mret (Ok tt)
      | Err _ =>
          res ← runQuery (FallbackStartSQL (rep r)) [];
          match res with
          | Ok _ => mret (Ok tt)
          | Err err => mret (Err (ErrMsg ("failed to start slave node, err: " +:+ error_text err)))
          end
      end
  end.

(* src/pkg/controller/node/sql.go:159-161 MarkConfigurationDone *)
Definition MarkConfigurationDone : prog node_op (result unit) :=
  writeStatusValue OperatorConfiguredKey OperatorConfiguredDoneValue.

(* src/pkg/controller/node/sql.go:164-167 IsConfigured *)
Definition IsConfigured : prog node_op (result bool) :=
  val <-? readStatusValue OperatorConfiguredKey;
  mret (Ok (String.eqb val OperatorConfiguredDoneValue)).

(* src/pkg/controller/node/sql.go:169-171 MarkSetGTIDPurged *)
Definition MarkSetGTIDPurged : prog node_op (result unit) :=
  writeStatusValue "set_gtid_purged" "skipped".

Definition purgeQuery : string :=
  let resetBinlogs := ResetBinaryLogsStatement (rep r) in
  "
	  SET @@SESSION.SQL_LOG_BIN = 0;
	  START TRANSACTION;
		SELECT value INTO @gtid FROM " +:+ OperatorDbName +:+ "." +:+ OperatorStatusTableName +:+ " WHERE name='" +:+ "backup_gtid_purged" +:+ "';
		" +:+ resetBinlogs +:+ "
		SET @@GLOBAL.GTID_PURGED = @gtid;
		REPLACE INTO " +:+ OperatorDbName +:+ "." +:+ OperatorStatusTableName +:+ " VALUES ('" +:+ "set_gtid_purged" +:+ "', @gtid);
	  COMMIT;
    ".

(* src/pkg/controller/node/sql.go:236-271 SetPurgedGTID *)
Definition SetPurgedGTID : prog node_op (result unit) :=
  setGTID <-? readStatusValue "set_gtid_purged";
  if negb (String.eqb setGTID "") then mret (Ok tt)
  else
    backupGTID <-? readStatusValue "backup_gtid_purged";
    if String.eqb backupGTID "" then mret (Ok tt)
    else runQuery purgeQuery [].

End Runner.

(** ** Properties

    What a method has done, in terms of the statements that were executed and of
    their answers. *)
Section Facts.
Context (r : nodeSQLRunner).
Implicit Types (h : list (event node_op)).

(** A statement was executed. *)
Definition executed (q : string) (args : list sql_arg) h : Prop :=
  Ev (Exec (dsn r) (fullQuery r q) args) (Ok tt) ∈ h.

(** A value of the status table was read (the empty string if it was missing). *)
Definition read (key val : string) h : Prop :=
  ∃ o, Ev (QueryRow (dsn r) (statusQuery key)) (Ok o) ∈ h ∧ default "" o = val.

Definition markQuery : string := writeQuery OperatorConfiguredKey OperatorConfiguredDoneValue.

(** The statement that makes the node ready. *)
Definition isMark (e : event node_op) : Prop :=
  ev_op e = Exec (dsn r) (fullQuery r markQuery) [].

(** The purged GTIDs have been dealt with. *)
Definition gtidSettled h : Prop :=
  (∃ v, v ≠ "" ∧ read "set_gtid_purged" v h) ∨ read "backup_gtid_purged" "" h ∨
  executed (purgeQuery r) [] h.

Definition pointedAt (master user pass : string) h : Prop :=
  executed (StopReplication (rep r) +:+ newline +:+ ChangeSourceSQL (rep r))
    [ArgString master; ArgString user; ArgString pass; ArgInt connRetry] h.

(** The node was pointed at the master, and replication was started after it. *)
Definition replicates (master user pass : string) h : Prop :=
  ∃ h1 q h2, h = h1 ++ Ev (Exec (dsn r) (fullQuery r q) []) (Ok tt) :: h2 ∧
    (q = StartReplication (rep r) ∨ q = FallbackStartSQL (rep r)) ∧ pointedAt master user pass h1.

Definition configured h : Prop :=
  read OperatorConfiguredKey OperatorConfiguredDoneValue h ∨ executed markQuery [] h.

Lemma executed_stable q args : stable (executed q args).
Proof. apply stable_elem. Qed.

Lemma read_stable key val : stable (read key val).
Proof. unfold read. auto with stable. Qed.

Lemma gtidSettled_stable : stable gtidSettled.
Proof. unfold gtidSettled. auto using read_stable, executed_stable with stable. Qed.

Lemma replicates_stable master user pass : stable (replicates master user pass).
Proof.
  intros h e (h1 & q & h2 & -> & Hq & Hp). exists h1, q, (h2 ++ [e]).
  by rewrite <-(assoc_L (++)).
Qed.

Lemma configured_stable : stable configured.
Proof. unfold configured. auto using read_stable, executed_stable with stable. Qed.

(** A call to this server other than the one that makes the node ready. *)
Definition otherSQL (e : event node_op) : Prop :=
  match ev_op e with
  | Exec d _ _ | QueryRow d _ => d = dsn r ∧ ¬ isMark e
  | _ => False
  end.

Lemma fullQuery_inj q1 q2 : fullQuery r q1 = fullQuery r q2 → q1 = q2.
Proof.
  unfold fullQuery. destruct (negb (enableBinLog r)); [|done].
  intros E. apply str_app_inv_l in E. by apply str_app_inv_l in E.
Qed.

Lemma otherSQL_exec q args res :
  q ≠ markQuery ∨ args ≠ [] → otherSQL (Ev (Exec (dsn r) (fullQuery r q) args) res).
Proof.
  intros Hne. split; [done|]. unfold isMark. simpl. intros [= Hq Ha].
  apply fullQuery_inj in Hq. by destruct Hne.
Qed.

Lemma otherSQL_read q res : otherSQL (Ev (QueryRow (dsn r) q) res).
Proof. by split. Qed.

Context (R : event node_op → list (event node_op) → Prop).

(** What the methods other than [MarkConfigurationDone] need of the rule [R]. *)
Definition allows (P : list (event node_op) → Prop) : Prop :=
  ∀ e h, P h → otherSQL e → R e h.

Lemma allows_and P X : allows P → allows (λ h, P h ∧ X h).
Proof. intros H e h [? ?]. by apply H. Qed.
End Facts.

#[export] Hint Resolve executed_stable read_stable gtidSettled_stable replicates_stable
  configured_stable : stable.

Section Methods.
Context (r : nodeSQLRunner) (R : event node_op → list (event node_op) → Prop).
Implicit Types (P : list (event node_op) → Prop).

(** The statements of the dialect that start the replication do not make the
    node ready. *)
Definition dialectSafe : Prop :=
  StartReplication (rep r) ≠ markQuery ∧ FallbackStartSQL (rep r) ≠ markQuery.

Lemma exec_keeps P q args (Y : result unit → list (event node_op) → Prop) :
  let o := Exec (dsn r) (fullQuery r q) args in
  (∀ res h, P h → R (Ev o res) h) → (∀ res h, P h → Y res (h ++ [Ev o res])) →
  keeps R P (runQuery r q args) Y.
Proof. exact (keeps_call R P (Exec (dsn r) (fullQuery r q) args) Y). Qed.

Lemma queryRow_keeps P q (Y : result (option string) → list (event node_op) → Prop) :
  let o := QueryRow (dsn r) q in
  (∀ res h, P h → R (Ev o res) h) → (∀ res h, P h → Y res (h ++ [Ev o res])) →
  keeps R P (readFromMysql r q) Y.
Proof. exact (keeps_call R P (QueryRow (dsn r) q) Y). Qed.

Lemma runQuery_keeps P q args :
  allows r R P → q ≠ markQuery ∨ args ≠ [] →
  keeps R P (runQuery r q args) (λ res h, res = Ok tt → executed r q args h).
Proof.
  intros HR Hq. apply exec_keeps.
  - intros res h HP. apply HR; [done|by apply otherSQL_exec].
  - intros res h _ ->. apply elem_of_app. right. left.
Qed.

Lemma readStatusValue_keeps P key :
  allows r R P →
  keeps R P (readStatusValue r key)
    (λ res h, match res with Ok v => read r key v h | Err _ => True end).
Proof.
  intros HR. eapply (keeps_try _ _ (λ res h, match res with
    | Ok o => Ev (QueryRow (dsn r) (statusQuery key)) (Ok o) ∈ h | Err _ => True end)).
  - apply queryRow_keeps.
    + intros res h HP. apply HR; [done|apply otherSQL_read].
    + intros [o|e] h _; [|done]. apply elem_of_app. right. left.
  - intros [o|e]; auto with stable.
  - intros o. apply keeps_ret. intros h [_ Hin]. by exists o.
  - done.
Qed.

Lemma SetPurgedGTID_keeps P :
  allows r R P → keeps R P (SetPurgedGTID r) (λ res h, res = Ok tt → gtidSettled r h).
Proof.
  intros HR. eapply keeps_try; [by apply readStatusValue_keeps| | |done].
  { intros [v|e]; auto with stable. }
  intros v. destruct (String.eqb_spec v "") as [->|Hv]; simpl.
  2:{ apply keeps_ret. intros h [_ Hr] _. left. by exists v. }
  eapply keeps_try; [by apply readStatusValue_keeps, allows_and| | |done].
  { intros [v|e]; auto with stable. }
  intros v. destruct (String.eqb_spec v "") as [->|Hv]; simpl.
  { apply keeps_ret. intros h [_ Hr] _. by right; left. }
  refine (keeps_weaken _ _ _ _ _ _ (runQuery_keeps _ _ _ _ _) (λ h H, H) _).
  - by do 2 apply allows_and.
  - left. by intros [=].
  - intros res h Hex Hok. right; right. auto.
Qed.

Lemma ChangeMasterTo_keeps P master user pass :
  allows r R P → dialectSafe →
  keeps R P (ChangeMasterTo r master user pass) (λ res h, res = Ok tt → replicates r master user pass h).
Proof.
  intros HR [Hstart Hfallback]. unfold ChangeMasterTo.
  eapply keeps_bind; [apply runQuery_keeps; [done|by right]| |].
  { intros res. apply stable_imp. auto with stable. }
  intros [[]|e]; [|by apply keeps_ret].
  assert (Hrun : ∀ P' q, (∀ h, P' h → P h ∧ pointedAt r master user pass h) →
    q ≠ markQuery → q = StartReplication (rep r) ∨ q = FallbackStartSQL (rep r) →
    keeps R P' (runQuery r q []) (λ res h, res = Ok tt → replicates r master user pass h)).
  { intros P' q HP' Hq Hor. apply exec_keeps.
    - intros res h HP. apply HR; [by apply HP'|]. apply otherSQL_exec. by left.
    - intros res h HP ->. exists h, q, []. split_and!; [done|done|by apply HP']. }
  eapply keeps_bind.
  - apply Hrun; [intros h [? Hp]; split; [done|by apply Hp]|done|by left].
  - intros res. apply stable_imp. auto with stable.
  - intros [[]|e].
    + apply keeps_ret. intros h [_ H] _. by apply H.
    + eapply keeps_bind.
      * apply Hrun; [intros h [[? Hp] _]; split; [done|by apply Hp]|done|by right].
      * intros res. apply stable_imp. auto with stable.
      * intros [[]|e']; apply keeps_ret; [|done]. intros h [_ H] _. by apply H.
Qed.

Lemma enableSuperReadOnly_keeps P : allows r R P → keeps R P (enableSuperReadOnly r) (λ _ _, True).
Proof.
  intros HR. eapply keeps_bind; [apply runQuery_keeps; [done|by left]| |].
  - intros res. apply stable_imp. auto with stable.
  - intros res. by apply keeps_ret.
Qed.

End Methods.
