(* ===== verification/NodeController.v ===== *)
(** * The node controller

    [pkg/controller/node/node_controller.go]: one run of [Reconcile] for a pod,
    which configures the mysqld of the pod (replication, purged GTIDs) and sets
    the condition [NodeInitialized] of the pod.  The effects are [node_op]; the
    SQL is that of [NodeSQL.v].

    The properties are about the order of the calls: a call of some kind is
    _guarded_ by a condition on the calls before it ([guarded]). *)

From S2P Require Import Prelude GoStrings Semver ClusterTypes Versioning ClusterStatus ClusterModel.
From S2P Require Import PodNames NodeSQL.
Open Scope stdpp_scope.

(** ** The controller *)

(* src/pkg/controller/node/node_controller.go:365-371 credentials *)
Record credentials := mkCredentials {
  User : string; Password : string; ReplicationUser : string; ReplicationPassword : string }.

(* src/pkg/controller/node/node_controller.go:89-91 isOwnedByMySQL *)
Definition isOwnedByMySQL (pod : Pod) : bool := IsManagedByMySQL (Some (om_Labels (pod_Meta pod))).

(** The first condition of the type decides. *)
(* src/pkg/controller/node/node_controller.go:93-102 isReady *)
Definition isReady (pod : Pod) : bool :=
  match condLookup PodReady (pod_Conditions pod) with
  | Some cond => bool_decide (pc_Status cond = ConditionTrue)
  | None => false
  end.

(* src/pkg/controller/node/node_controller.go:104-108 isRunning *)
Definition isRunning (pod : Pod) : bool := bool_decide (pod_Phase pod = PodRunning).

(** The events that trigger a run, with the new state of the pod. *)
(* src/pkg/controller/node/node_controller.go:118-136 add *)
Definition triggers (evt : Pod + Pod + Pod) : bool :=
  match evt with
  | inl (inl created) => isOwnedByMySQL created && isRunning created && negb (isReady created)
  | inl (inr updated) => isOwnedByMySQL updated && isRunning updated && negb (isReady updated)
  | inr deleted => false
  end.

(* src/pkg/controller/node/node_controller.go:405-411 anyIsEmpty *)
Definition anyIsEmpty (ss : list string) : bool :=
  fold_left (λ zero s, zero || (String.length s =? 0)%nat) ss false.

(* src/pkg/controller/node/node_controller.go:397-403 credentials.Validate *)
Definition ValidateCredentials (c : credentials) : result unit :=
  if anyIsEmpty [User c; Password c; ReplicationUser c; ReplicationPassword c]
  then Err (ErrMsg "validation error: some credentials are empty") else Ok tt.

(* src/pkg/controller/node/node_controller.go:373-391 getCredsSecret *)
Definition getCredsSecret (c : MysqlCluster) : prog node_op (result credentials) :=
  data <-? call (GetSecret (cl_Namespace c) (GetNameForResource Secret (cl_Name c)));
  let get k := default "" (data !! k) in
  let creds := mkCredentials (get "OPERATOR_USER") (get "OPERATOR_PASSWORD")
                 (get "REPLICATION_USER") (get "REPLICATION_PASSWORD") in
  mret match ValidateCredentials creds with Ok _ => Ok creds | Err e => Err e end.

(* src/pkg/controller/node/node_controller.go:315-329 getNodeCluster *)
Definition getNodeCluster (pod : Pod) : prog node_op (result MysqlCluster) :=
  match splitPodName (om_Name (pod_Meta pod)) with
  | None => mret (Err (ErrMsg "pod name can't be parsed"))
  | Some (cName, _) => call (GetCluster (om_Namespace (pod_Meta pod)) cName)
  end.

(* src/pkg/controller/node/node_controller.go:352-363 getClusterStatefulSet *)
Definition getClusterStatefulSet (c : MysqlCluster) : prog node_op (result (option StatefulSet)) :=
  r ← call (GetStatefulSet (cl_Namespace c) (GetNameForResource StatefulSetName (cl_Name c)));
  mret match r with
       | Ok sts => Ok (Some sts)
       | Err e => if is_not_found e then Ok None else Err e
       end.

(* src/pkg/controller/node/node_controller.go:454-470 shouldUpdateToVersion *)
Definition shouldUpdateToVersion (c : MysqlCluster) (targetVersion : Z) : bool :=
  match map_get (cl_Annotations c) AnnotationVersion with
  | None => true
  | Some version =>
      match ParseInt32 version with
      | None => true
      | Some ver => (ver <? targetVersion)%Z
      end
  end.

(* src/pkg/controller/node/node_controller.go:472-482 refreshCluster *)
Definition refreshCluster (c : MysqlCluster) : prog node_op (result MysqlCluster) :=
  call (RefreshCluster (cl_Namespace c) (cl_Name c)).

(* src/pkg/controller/node/node_controller.go:414-442 updatePodStatusCondition *)
Definition updatePodStatusCondition (now : Z) (pod : Pod) (condType : string)
    (status : ConditionStatus) (reason msg : string) : Pod :=
  let newCondition := mkPodCondition condType status reason msg 0 in
  mkPod (pod_Meta pod) (pod_Hostname pod) (pod_Containers pod) (pod_InitContainers pod)
    (pod_Phase pod) (updateConditions now newCondition (pod_Conditions pod)).1
    (pod_InitContainerStatuses pod).

(* src/pkg/controller/node/node_controller.go:393-395 updatePod *)
Definition updatePod (pod : Pod) : prog node_op (result unit) := call (UpdatePodStatus pod).

Section Controller.
Context `{!Blang, !Process}.

(* src/pkg/controller/node/node_controller.go:345-350 replicationSQLVersion *)
Definition replicationSQLVersion (c : MysqlCluster) (pod : Pod) (sts : option StatefulSet) : Version :=
  let v := SemVerFromPod (Some pod) in
  if negb (IsZero v) then v else EffectiveVersion c sts.

(* src/pkg/controller/node/node_controller.go:333-342 getMySQLConnection *)
Definition getMySQLConnection (c : MysqlCluster) (pod : Pod) (creds : credentials)
    (sts : option StatefulSet) : nodeSQLRunner :=
  let host := pod_Hostname pod +:+ "." +:+ GetNameForResource HeadlessSVC (cl_Name c) +:+ "." +:+
              om_Namespace (pod_Meta pod) in
  let dsn := User creds +:+ ":" +:+ Password creds +:+ "@tcp(" +:+ host +:+ ":" +:+
             itoa MysqlPort +:+ ")/?timeout=5s&multiStatements=true&interpolateParams=true" in
  newNodeConn dsn host (replicationSQLVersion c pod sts).

(** The part after the deferred call. *)
Definition configureMySQL (sql : nodeSQLRunner) (c : MysqlCluster) (creds : credentials) :
    prog node_op (result unit) :=
  _ <-? match map_get (cl_Annotations c) AnnotationSkipGTIDPurged with
        | Some _ => MarkSetGTIDPurged sql
        | None => mret (Ok tt)
        end;
  _ <-? SetPurgedGTID sql;
  _ <-? (if negb (String.eqb (GetMasterHost c) (host sql))
         then ChangeMasterTo sql (GetMasterHost c) (ReplicationUser creds) (ReplicationPassword creds)
         else mret (Ok tt));
  MarkConfigurationDone sql.

(* src/pkg/controller/node/node_controller.go:267-312 initializeMySQL *)
Definition initializeMySQL (sql : nodeSQLRunner) (c : MysqlCluster) (creds : credentials) :
    prog node_op (result unit) :=
  configured <-? IsConfigured sql;
  if configured : bool then mret (Ok tt)
  else
    _ <-? DisableSuperReadOnly sql;
    res ← configureMySQL sql c creds;
    _ ← enableSuperReadOnly sql;
    mret res.

Definition cond_true (o : option ClusterCondition) : bool :=
  match o with Some cond => bool_decide (cc_Status cond = ConditionTrue) | None => false end.

(* src/pkg/controller/node/node_controller.go:160-264 Reconcile *)
Definition Reconcile (now : Z) (ns name : string) : prog node_op (result unit) :=
  r ← call (GetPod ns name);
  match r with
  | Err e => mret (if is_not_found e then Ok tt else Err e)
  | Ok pod =>
      cluster <-? getNodeCluster pod;
      match cl_DeletionTimestamp cluster with
      | Some _ => mret (Ok tt)
      | None =>
          if shouldUpdateToVersion cluster 300 then
            let m := cl_Meta cluster in
            let annotations := default ∅ (om_Annotations m) in
            call (UpdateCluster (with_Meta
              (mkMeta (om_Name m) (om_Namespace m) (om_UID m) (om_Labels m)
                 (Some (<[AnnotationSkipGTIDPurged := "true"]> annotations))
                 (om_Finalizers m) (om_CreationTimestamp m) (om_DeletionTimestamp m)) cluster))
          else
            creds <-? getCredsSecret cluster;
            sts <-? getClusterStatefulSet cluster;
            let sql := getMySQLConnection cluster pod creds sts in
            _ <-? Wait sql;
            _ <-? WaitForOperatorStatusTable sql;
            cluster <-? refreshCluster cluster;
            if cond_true (GetClusterCondition cluster ClusterConditionFailoverInProgress) then
              mret (Err (ErrMsg "delay node sync because a failover is in progress"))
            else
              r ← initializeMySQL sql cluster creds;
              match r with
              | Err err =>
                  let pod := updatePodStatusCondition now pod NodeInitializedConditionType
                    ConditionFalse "mysqlInitializationFailed" (error_text err) in
                  _ <-? updatePod pod;
                  mret (Err err)
              | Ok _ =>
                  updatePod (updatePodStatusCondition now pod NodeInitializedConditionType
                    ConditionTrue "mysqlInitializationSucceeded" "success")
              end
      end
  end.

End Controller.

(** ** Properties *)

Section Order.
Context `{!Blang, !Process}.
Context (sql : nodeSQLRunner) (c : MysqlCluster) (creds : credentials).

(** The node follows the master of the cluster, unless it is the master. *)
Definition inPlace (h : list (event node_op)) : Prop :=
  GetMasterHost c ≠ host sql →
  replicates sql (GetMasterHost c) (ReplicationUser creds) (ReplicationPassword creds) h.

Lemma inPlace_stable : stable inPlace.
Proof. apply stable_imp. auto with stable. Qed.

Context (R : event node_op → list (event node_op) → Prop).

(** What making the node ready needs of the rule [R]. *)
Definition allowsMark (P : list (event node_op) → Prop) : Prop :=
  ∀ e h, P h → gtidSettled sql h → inPlace h → isMark sql e → R e h.

Lemma configureMySQL_keeps (P : list (event node_op) → Prop) :
  allows sql R P → allowsMark P → dialectSafe sql →
  keeps R P (configureMySQL sql c creds) (λ res h, res = Ok tt → configured sql h).
Proof.
  intros HR Hmark Hd. unfold configureMySQL.
  apply (keeps_try _ _ (λ _ _, True)); [|intros ?; apply stable_const| |done].
  { destruct (map_get _ _); [|by apply keeps_ret].
    eapply keeps_weaken; [apply runQuery_keeps; [exact HR|by left]|done|done]. }
  intros []. apply (keeps_try _ _ (λ res h, res = Ok tt → gtidSettled sql h)); [| | |done].
  { by apply SetPurgedGTID_keeps, allows_and. }
  { intros res. apply stable_imp. auto with stable. }
  intros []. apply (keeps_try _ _ (λ res h, res = Ok tt → inPlace h)); [| | |done].
  { destruct (String.eqb_spec (GetMasterHost c) (host sql)) as [E|E]; simpl.
    - apply keeps_ret. by intros h _ _ ?.
    - eapply keeps_weaken; [apply ChangeMasterTo_keeps; [|exact Hd]|intros h Hh; exact Hh|].
      + by do 2 apply allows_and.
      + intros res h Hy Hok _. by apply Hy. }
  { intros res. apply stable_imp, inPlace_stable. }
  intros []. apply exec_keeps.
  - intros res h (((HP & _) & Hg) & Hi). apply Hmark; [done|auto|auto|reflexivity].
  - intros res h _ ->. right. apply elem_of_app. right. left.
Qed.

Lemma initializeMySQL_keeps (P : list (event node_op) → Prop) :
  allows sql R P → allowsMark P → dialectSafe sql →
  keeps R P (initializeMySQL sql c creds) (λ res h, res = Ok tt → configured sql h).
Proof.
  intros HR Hmark Hd. unfold initializeMySQL.
  apply (keeps_try _ _ (λ res h, res = Ok true → configured sql h)); [| | |done].
  { eapply keeps_try; [by apply readStatusValue_keeps| | |done].
    - intros [v|e]; auto with stable.
    - intros v. apply keeps_ret. intros h [_ Hr] [= Hv%String.eqb_eq]. left. by rewrite <-Hv. }
  { intros res. apply stable_imp. auto with stable. }
  intros [].
  { apply keeps_ret. intros h [_ Hy] _. by apply Hy. }
  apply (keeps_try _ _ (λ _ _, True)); [|intros ?; apply stable_const| |done].
  { refine (keeps_weaken _ _ _ _ _ _ (runQuery_keeps _ _ _ _ _ _ _) (λ h Hh, Hh) _);
      [by apply allows_and|by left|done]. }
  intros []. eapply keeps_bind.
  - apply configureMySQL_keeps; [by do 2 apply allows_and| |done].
    intros e h [[HP _] _]. by apply Hmark.
  - intros res. apply stable_imp. auto with stable.
  - intros res. eapply keeps_bind.
    + apply enableSuperReadOnly_keeps. by do 3 apply allows_and.
    + intros ?. exact (stable_const True).
    + intros u. apply keeps_ret. by intros h [[_ Hy] _].
Qed.

End Order.

(** *** One initialization *)

Section Initialize.
Context `{!Blang, !BlangLaws, !Process}.

Lemma newNodeConn_dialect d h v : dialectSafe (newNodeConn d h v).
Proof.
  unfold dialectSafe, newNodeConn. simpl. rewrite ProfileFor_eq.
  destruct (AtLeastMySQL84 v); [done|]. by destruct (AtLeastMySQL8 v), (Major v =? 5)%N.
Qed.

(** The order of an initialization, whatever the server answers: the
    statement that makes the node ready is executed only after the purged GTIDs
    have been dealt with (set before, nothing to set, or set now) and, unless
    the node is the master of the cluster, after it was pointed at the master
    and replication was started, in that order; and an initialization succeeds
    only if the node was marked before or has been marked now. *)
Theorem initializeMySQL_order (d h : string) (v : Version) (c : MysqlCluster)
    (creds : credentials) (w : world node_op) :
  let sql := newNodeConn d h v in
  let t := trace (initializeMySQL sql c creds) w in
  (∀ h1 e h2, t = h1 ++ e :: h2 → isMark sql e →
     gtidSettled sql h1 ∧
     (GetMasterHost c ≠ h →
        replicates sql (GetMasterHost c) (ReplicationUser creds) (ReplicationPassword creds) h1)) ∧
  (run (initializeMySQL sql c creds) w = Ok tt → configured sql t).
Proof.
  cbv zeta. set (sql := newNodeConn d h v).
  set (R := λ (e : event node_op) h1, isMark sql e → gtidSettled sql h1 ∧ inPlace sql c creds h1).
  destruct (keeps_run R (initializeMySQL sql c creds) (λ res h, res = Ok tt → configured sql h) w)
    as [Hg Hrun].
  - apply initializeMySQL_keeps; [..|apply newNodeConn_dialect].
    + intros e h1 _ Ho Hm. unfold otherSQL in Ho. destruct (ev_op e); by destruct Ho.
    + intros e h1 _ Hgt Hin _. by split.
  - split; [|exact Hrun]. intros h1 e h2 Ht Hm. by apply (Hg h1 e h2 Ht).
Qed.
End Initialize.

(** Whether an event is a statement that succeeded. *)
Definition exec_ok (e : event node_op) : bool :=
  match e with Ev (Exec _ _ _) res => is_ok (res : result unit) | _ => false end.

(** Whenever [SUPER_READ_ONLY] was switched off it is switched on again as
    the last statement of the initialization, on every path, errors included. *)
Theorem initializeMySQL_super_read_only (sql : nodeSQLRunner) (c : MysqlCluster)
    (creds : credentials) (w : world node_op) :
  let t := trace (initializeMySQL sql c creds) w in
  executed sql "SET GLOBAL READ_ONLY = 1; SET GLOBAL SUPER_READ_ONLY = 0;" [] t →
  ∃ t' res, t = t' ++ [Ev (Exec (dsn sql) (fullQuery sql "SET GLOBAL SUPER_READ_ONLY = 1;") []) res].
Proof.
  cbv zeta. unfold trace, initializeMySQL, IsConfigured, readStatusValue, try, mbind, prog_bind.
  unfold readFromMysql, DisableSuperReadOnly, enableSuperReadOnly, runQuery, call, mbind, prog_bind.
  assert (Hq : ∀ o q res l, o = QueryRow (dsn sql) q → l = [@Ev node_op node_effect o res] →
    executed sql "SET GLOBAL READ_ONLY = 1; SET GLOBAL SUPER_READ_ONLY = 0;" [] l → False).
  { intros o q res l -> -> [E|[]%not_elem_of_nil]%elem_of_cons. by apply (f_equal ev_op) in E. }
  cbn [fst snd app].
  destruct (w [] (QueryRow _ _)) as [o|e] eqn:E1; cbn [fst snd mret prog_ret app].
  2:{ intros Hx. destruct (Hq _ _ _ _ eq_refl eq_refl Hx). }
  destruct (String.eqb (default "" o) OperatorConfiguredDoneValue); cbn [fst snd mret prog_ret app].
  { intros Hx. destruct (Hq _ _ _ _ eq_refl eq_refl Hx). }
  set (h := [Ev _ _]). set (o2 := Exec _ _ _). destruct (w h o2) as [[]|e] eqn:E2;
    cbn [fst snd mret prog_ret app].
  - intros _. eexists _, _. reflexivity.
  - intros [E|[E|[]%not_elem_of_nil]%elem_of_cons]%elem_of_cons.
    + by apply (f_equal ev_op) in E.
    + by apply (f_equal exec_ok) in E.
Qed.

(** *** One run *)

Section Run.
Context `{!Blang, !BlangLaws, !Process}.
Context (ns name : string).
Implicit Types (h : list (event node_op)).

(** The cluster of the pod was read, alive and at the current version. *)
Definition clusterOf (pod : Pod) (c0 : MysqlCluster) h : Prop :=
  Ev (GetPod ns name) (Ok pod) ∈ h ∧
  (∃ cName digits, splitPodName (om_Name (pod_Meta pod)) = Some (cName, digits) ∧
     Ev (GetCluster (om_Namespace (pod_Meta pod)) cName) (Ok c0) ∈ h) ∧
  cl_DeletionTimestamp c0 = None ∧ shouldUpdateToVersion c0 300 = false.

(** The credentials are those of the operated secret of the cluster, none is empty. *)
Definition credentialsOf (c0 : MysqlCluster) (creds : credentials) h : Prop :=
  ∃ data, Ev (GetSecret (cl_Namespace c0) (cl_Name c0 +:+ "-mysql-operated")) (Ok data) ∈ h ∧
    User creds = default "" (data !! "OPERATOR_USER") ∧ Password creds = default "" (data !! "OPERATOR_PASSWORD") ∧
    ReplicationUser creds = default "" (data !! "REPLICATION_USER") ∧
    ReplicationPassword creds = default "" (data !! "REPLICATION_PASSWORD") ∧
    User creds ≠ "" ∧ Password creds ≠ "" ∧ ReplicationUser creds ≠ "" ∧ ReplicationPassword creds ≠ "".

(** The connection is to the mysqld of the pod, as the operator's user, without a binary
    log, in the dialect of the version that the pod runs. *)
Definition connected (pod : Pod) (c0 : MysqlCluster) (creds : credentials) (sql : nodeSQLRunner) h : Prop :=
  clusterOf pod c0 h ∧ credentialsOf c0 creds h ∧
  host sql = pod_Hostname pod +:+ ".mysql." +:+ om_Namespace (pod_Meta pod) ∧
  dsn sql = User creds +:+ ":" +:+ Password creds +:+ "@tcp(" +:+ host sql +:+
    ":3306)/?timeout=5s&multiStatements=true&interpolateParams=true" ∧
  enableBinLog sql = false ∧
  ∃ r, Ev (GetStatefulSet (cl_Namespace c0) (cl_Name c0 +:+ "-mysql")) r ∈ h ∧
    rep sql = Replication (ProfileFor (replicationSQLVersion c0 pod
      match (r : result StatefulSet) with Ok sts => Some sts | Err _ => None end)).

(** Fresh information on the cluster showed no failover. *)
Definition fresh (c0 c : MysqlCluster) h : Prop :=
  Ev (RefreshCluster (cl_Namespace c0) (cl_Name c0)) (Ok c) ∈ h ∧
  cond_true (GetClusterCondition c ClusterConditionFailoverInProgress) = false.

Lemma clusterOf_stable pod c0 : stable (clusterOf pod c0).
Proof.
  unfold clusterOf. repeat apply stable_and; [apply stable_elem| |exact (stable_const _)..].
  do 2 (apply stable_exists; intros ?). apply stable_and; [exact (stable_const _)|apply stable_elem].
Qed.

Lemma credentialsOf_stable c0 creds : stable (credentialsOf c0 creds).
Proof.
  apply stable_exists; intros data. apply stable_and; [apply stable_elem|exact (stable_const _)].
Qed.

Lemma connected_stable pod c0 creds sql : stable (connected pod c0 creds sql).
Proof.
  unfold connected. apply stable_and; [apply clusterOf_stable|]. apply stable_and; [apply credentialsOf_stable|].
  do 3 (apply stable_and; [exact (stable_const _)|]). apply stable_exists; intros r. apply stable_and; [apply stable_elem|exact (stable_const _)].
Qed.

Lemma fresh_stable c0 c : stable (fresh c0 c).
Proof. apply stable_and; [apply stable_elem|exact (stable_const _)]. Qed.

(** Whether a pod says that its mysqld is initialized. *)
Definition saysInitialized (pod : Pod) : bool :=
  match condLookup NodeInitializedConditionType (pod_Conditions pod) with
  | Some cond => bool_decide (pc_Status cond = ConditionTrue)
  | None => false
  end.

(** The rule of a run. *)
Definition nodeRule (e : event node_op) h : Prop :=
  match ev_op e with
  | Exec d q args => ∃ pod c0 creds sql, connected pod c0 creds sql h ∧ d = dsn sql ∧
      (q = fullQuery sql "SELECT 1" ∧ args = [] ∨
       ∃ c, fresh c0 c h ∧ (isMark sql e → gtidSettled sql h ∧ inPlace sql c creds h))
  | QueryRow d _ => ∃ pod c0 creds sql, connected pod c0 creds sql h ∧ d = dsn sql
  | UpdatePodStatus pod' => ∃ pod c0 creds sql c, connected pod c0 creds sql h ∧ fresh c0 c h ∧
      pod_Meta pod' = pod_Meta pod ∧ (saysInitialized pod' = true → configured sql h)
  | UpdateCluster c => ∃ ns' name' c0, Ev (GetCluster ns' name') (Ok c0) ∈ h ∧ shouldUpdateToVersion c0 300 = true ∧
      cl_Spec c = cl_Spec c0 ∧ cl_Status c = cl_Status c0 ∧
      map_get (cl_Annotations c) AnnotationSkipGTIDPurged = Some "true"
  | _ => True
  end.

Lemma saysInitialized_update now pod status reason msg :
  saysInitialized (updatePodStatusCondition now pod NodeInitializedConditionType status reason msg) =
    bool_decide (status = ConditionTrue).
Proof.
  unfold saysInitialized, updatePodStatusCondition. simpl. rewrite updateConditions_lookup.
  rewrite decide_True by done. unfold updated.
  destruct (condLookup _ _); [|done]. by destruct (decide _).
Qed.

Lemma pollLoop_keeps (P : list (event node_op) → Prop) n test timeout :
  keeps nodeRule P test (λ _ _, True) → keeps nodeRule P (pollLoop n test timeout) (λ _ _, True).
Proof.
  intros Ht. induction n as [|n IH]; [by apply keeps_ret|]. simpl.
  eapply (keeps_bind _ _ (λ _ _, True)).
  - by apply (keeps_call nodeRule P Select (λ _ _, True)).
  - intros ?. exact (stable_const True).
  - intros [err|]; [by apply keeps_ret|].
    eapply (keeps_bind _ _ (λ _ _, True)).
    + eapply keeps_weaken; [exact Ht|by intros h [? _]|done].
    + intros ?. exact (stable_const True).
    + intros []; [by apply keeps_ret|].
      eapply keeps_weaken; [exact IH|by intros h [[? _] _]|done].
Qed.

(** While it waits. *)
Section Connected.
Context (pod : Pod) (c0 : MysqlCluster) (creds : credentials) (sql : nodeSQLRunner).
Implicit Types (P : list (event node_op) → Prop).

Lemma Wait_keeps P : (∀ h, P h → connected pod c0 creds sql h) → keeps nodeRule P (Wait sql) (λ _ _, True).
Proof.
  intros HP. apply pollLoop_keeps. eapply (keeps_bind _ _ (λ _ _, True)).
  - apply exec_keeps; [|done]. intros res h Hh. exists pod, c0, creds, sql. split_and!; [by apply HP|done|by left].
  - intros ?. exact (stable_const True).
  - intros res. by apply keeps_ret.
Qed.

Lemma read_keeps P key :
  (∀ h, P h → connected pod c0 creds sql h) → keeps nodeRule P (readStatusValue sql key) (λ _ _, True).
Proof.
  intros HP. apply (keeps_try _ _ (λ _ _, True)); [|intros ?; exact (stable_const True)| |done].
  - apply queryRow_keeps; [|done]. intros res h Hh. exists pod, c0, creds, sql. split; [by apply HP|done].
  - intros o. by apply keeps_ret.
Qed.

Lemma WaitForOperatorStatusTable_keeps P : (∀ h, P h → connected pod c0 creds sql h) →
  keeps nodeRule P (WaitForOperatorStatusTable sql) (λ _ _, True).
Proof.
  intros HP. apply pollLoop_keeps. eapply (keeps_bind _ _ (λ _ _, True)).
  - apply (keeps_try _ _ (λ _ _, True)); [by apply read_keeps|intros ?; exact (stable_const True)| |done].
    intros v. destruct (String.eqb _ _); [by apply keeps_ret|].
    apply (keeps_try _ _ (λ _ _, True)); [apply read_keeps|intros ?; exact (stable_const True)| |done].
    { intros h [? _]. auto. }
    intros v'. by apply keeps_ret.
  - intros ?. exact (stable_const True).
  - intros res. by apply keeps_ret.
Qed.

(** The part of a run after the fresh information was read. *)
Lemma initialized_keeps P now c :
  (∀ h, P h → connected pod c0 creds sql h ∧ fresh c0 c h) → dialectSafe sql →
  keeps nodeRule P
    (r ← initializeMySQL sql c creds;
     match r with
     | Err err =>
         _ <-? updatePod (updatePodStatusCondition now pod NodeInitializedConditionType
                 ConditionFalse "mysqlInitializationFailed" (error_text err));
         mret (Err err : result unit)
     | Ok _ => updatePod (updatePodStatusCondition now pod NodeInitializedConditionType
                 ConditionTrue "mysqlInitializationSucceeded" "success")
     end) (λ _ _, True).
Proof.
  intros HP Hd. eapply keeps_bind; [apply (initializeMySQL_keeps sql c creds)| |].
  - intros e h Hh Ho. unfold otherSQL in Ho. unfold nodeRule. destruct (HP h Hh) as [Hc Hf].
    destruct (ev_op e) as [| | | | | | | |d q args|d q] eqn:Eo; try done; destruct Ho as [-> Ho];
      exists pod, c0, creds, sql; (split; [exact Hc|]); [|done]. split; [done|]. right. exists c. by split.
  - intros e h Hh Hg Hi Hm. unfold nodeRule. rewrite Hm. destruct (HP h Hh) as [Hc Hf].
    exists pod, c0, creds, sql. split; [done|]. split; [done|]. right. exists c. auto.
  - exact Hd.
  - intros res. apply stable_imp. auto with stable.
  - intros [u|err].
    + apply (keeps_call _ _ (UpdatePodStatus _) (λ _ _, True)); [|done].
      intros r h [Hh Hc]. destruct (HP h Hh). exists pod, c0, creds, sql, c.
      split_and!; [done..|]. intros _. destruct u. auto.
    + apply (keeps_try _ _ (λ _ _, True)); [|intros ?; exact (stable_const True)| |done].
      * apply (keeps_call _ _ (UpdatePodStatus _) (λ _ _, True)); [|done].
        intros r h [Hh _]. destruct (HP h Hh). exists pod, c0, creds, sql, c.
        split_and!; [done..|]. rewrite saysInitialized_update. intros Hf. discriminate Hf.
      * intros u. by apply keeps_ret.
Qed.
End Connected.

Lemma nodeCall_keeps P (o : node_op) :
  (∀ r h, P h → nodeRule (Ev o r) h) → keeps nodeRule P (call o) (λ r h, Ev o r ∈ h).
Proof.
  intros HR. apply keeps_call; [done|]. intros r h _. apply elem_of_app. right. left.
Qed.

Lemma nodeCall_any P (o : node_op) :
  (∀ r h, P h → nodeRule (Ev o r) h) → keeps nodeRule P (call o) (λ _ _, True).
Proof. intros HR. by apply keeps_call. Qed.

Lemma anyIsEmpty_false ss : anyIsEmpty ss = false → Forall (λ s, s ≠ "") ss.
Proof.
  unfold anyIsEmpty. assert (∀ z, fold_left (λ zero s, zero || (String.length s =? 0)%nat) ss z = false →
    z = false ∧ Forall (λ s, s ≠ "") ss) as Hg; [|intros Hss; by apply (Hg false)].
  induction ss as [|s ss IH]; intros z; [done|]. cbn [fold_left]. intros [Hz Hss]%IH.
  apply orb_false_elim in Hz as [-> Hs]. split; [done|]. constructor; [by destruct s|done].
Qed.

Lemma getCredsSecret_keeps P c : keeps nodeRule P (getCredsSecret c) (λ r h, ∀ creds, r = Ok creds → credentialsOf c creds h).
Proof.
  eapply keeps_try; [by apply (nodeCall_keeps _ (GetSecret _ _))|intros ?; apply stable_elem| |done].
  intros data. apply keeps_ret. intros h [_ Hin] creds. unfold ValidateCredentials. cbv zeta.
  destruct (anyIsEmpty _) eqn:E; [done|]. intros [= <-]. apply anyIsEmpty_false in E.
  rewrite !Forall_cons in E. destruct E as (? & ? & ? & ? & _). exists data. by split_and!.
Qed.

Lemma getClusterStatefulSet_keeps P c : keeps nodeRule P (getClusterStatefulSet c) (λ r h, ∀ sts, r = Ok sts →
  ∃ r', Ev (GetStatefulSet (cl_Namespace c) (cl_Name c +:+ "-mysql")) r' ∈ h ∧
    sts = match (r' : result StatefulSet) with Ok sts => Some sts | Err _ => None end).
Proof.
  eapply keeps_bind; [by apply (nodeCall_keeps _ (GetStatefulSet _ _))|intros ?; apply stable_elem|].
  intros r. apply keeps_ret. intros h [_ Hin] sts Hr. exists r. split; [exact Hin|].
  destruct (r : result StatefulSet) as [s|e]; [by injection Hr as <-|]. destruct (is_not_found e); [by injection Hr as <-|done].
Qed.

Lemma getNodeCluster_keeps P pod : keeps nodeRule P (getNodeCluster pod) (λ r h, ∀ c, r = Ok c →
  ∃ cName digits, splitPodName (om_Name (pod_Meta pod)) = Some (cName, digits) ∧
    Ev (GetCluster (om_Namespace (pod_Meta pod)) cName) (Ok c) ∈ h).
Proof.
  unfold getNodeCluster. destruct (splitPodName _) as [[cName digits]|]; [|by apply keeps_ret].
  refine (keeps_weaken _ _ _ _ _ _ (nodeCall_keeps P (GetCluster _ cName) _) (λ h Hh, Hh) _); [done|].
  intros r h Hin c ->. by exists cName, digits.
Qed.

(** The part of a run once everything was read. *)
Lemma connected_keeps now pod c0 creds sts :
  let sql := getMySQLConnection c0 pod creds sts in
  keeps nodeRule (connected pod c0 creds sql)
    (_ <-? Wait sql;
     _ <-? WaitForOperatorStatusTable sql;
     cluster <-? refreshCluster c0;
     if cond_true (GetClusterCondition cluster ClusterConditionFailoverInProgress) then
       mret (Err (ErrMsg "delay node sync because a failover is in progress"))
     else
       r ← initializeMySQL sql cluster creds;
       match r with
       | Err err =>
           _ <-? updatePod (updatePodStatusCondition now pod NodeInitializedConditionType
                   ConditionFalse "mysqlInitializationFailed" (error_text err));
           mret (Err err : result unit)
       | Ok _ => updatePod (updatePodStatusCondition now pod NodeInitializedConditionType
                   ConditionTrue "mysqlInitializationSucceeded" "success")
       end) (λ _ _, True).
Proof.
  intros sql. apply (keeps_try _ _ (λ _ _, True)); [by eapply Wait_keeps|intros ?; exact (stable_const True)| |done].
  intros u1. apply (keeps_try _ _ (λ _ _, True)); [|intros ?; exact (stable_const True)| |done].
  { eapply WaitForOperatorStatusTable_keeps. by intros h [? _]. }
  intros u2. eapply keeps_try; [by apply (nodeCall_keeps _ (RefreshCluster _ _))|intros ?; apply stable_elem| |done].
  intros c. destruct (cond_true _) eqn:Hfip; [by apply keeps_ret|].
  apply (initialized_keeps pod c0 creds sql); [|apply newNodeConn_dialect].
  intros h [[[Hc _] _] Hin]. by split.
Qed.

Lemma Reconcile_keeps now : keeps nodeRule (λ _, True) (Reconcile now ns name) (λ _ _, True).
Proof.
  unfold Reconcile. eapply keeps_bind; [by apply (nodeCall_keeps _ (GetPod _ _))|intros ?; apply stable_elem|].
  intros [pod|e]; [|by apply keeps_ret].
  eapply keeps_try; [apply getNodeCluster_keeps| | |done].
  { intros r h e Hr c Hc. destruct (Hr c Hc) as (cName & digits & ? & ?). exists cName, digits. split; [done|by apply stable_elem]. }
  intros c0. destruct (cl_DeletionTimestamp c0) eqn:Hdel; [by apply keeps_ret|].
  destruct (shouldUpdateToVersion c0 300) eqn:Hver.
  { apply (keeps_call _ _ (UpdateCluster _) (λ _ _, True)); [|done]. intros r h [_ Hc0].
    destruct (Hc0 c0 eq_refl) as (cName & digits & _ & Hin). eexists _, _, c0. split; [exact Hin|]. split_and!; [done..|].
    simpl. unfold cl_Annotations. simpl. by rewrite lookup_insert_eq. }
  eapply keeps_try; [apply getCredsSecret_keeps| | |done].
  { intros r h e Hr creds Hc. by apply credentialsOf_stable, Hr. }
  intros creds. eapply keeps_try; [apply getClusterStatefulSet_keeps| | |done].
  { intros r h e Hr sts Hs. destruct (Hr sts Hs) as (r' & ? & ?). exists r'. split; [by apply stable_elem|done]. }
  intros sts. eapply keeps_weaken; [apply (connected_keeps now pod c0 creds sts)| |done].
  intros h ((([_ Hp] & Hc) & Hcr) & Hs). destruct (Hs sts eq_refl) as (r & Hr & ->).
  split_and!; [by split_and!; [|apply Hc| |]|by apply Hcr|done..|]. by exists r.
Qed.

(** C6. One run of the node controller for a pod, whatever the API server and mysqld
    answer.  All statements go to the mysqld of this pod, with the credentials of the
    operated secret of its cluster, and none but the probes of the connection is executed
    before the cluster was seen alive and at the current version and fresh
    information showed no failover.  The node is marked as ready only after the purged GTIDs
    were settled and, unless the host is the master of that fresh information, it was
    pointed at this master with the credentials of the secret and replication was
    started, in this order.  The condition [NodeInitialized] of this pod, and of no
    other, is set to true only if the node was marked before or has been marked now.  The
    only change to the cluster is the annotation of clusters that are being upgraded
    from an old version. *)
Theorem Reconcile_order (now : Z) (w : world node_op) :
  guarded nodeRule (trace (Reconcile now ns name) w).
Proof. exact (proj1 (keeps_run nodeRule _ (λ _ _, True) w (Reconcile_keeps now))). Qed.

End Run.

(** ** Examples *)

Section Witnesses.
#[local] Existing Instances Ref.blang Ref.blang_laws sampleProcess.

(** A replica of a cluster at version 8.0.39. *)
Definition sampleNodeCluster : MysqlCluster :=
  with_Meta (mkMeta "demo" "prod" "uid-1" ∅ (Some {[ AnnotationVersion := "300" ]}) [] 0 None)
    (Sample.cluster "8.0.39" "8.0.39").

Definition sampleCreds : credentials := mkCredentials "sys_operator" "pw" "sys_replication" "rpw".

(** A world in which everything works, the init file is complete and the node
    was restored from a backup. *)
Definition sampleNodeWorld : world node_op := λ _ o,
  match o with
  | GetPod ns name => Ok (Sample.pod name ns [Sample.mysqlContainer "8.0.39"])
  | GetCluster _ _ | RefreshCluster _ _ => Ok sampleNodeCluster
  | GetSecret _ _ => Ok (list_to_map [("OPERATOR_USER", "sys_operator"); ("OPERATOR_PASSWORD", "pw");
                                      ("REPLICATION_USER", "sys_replication"); ("REPLICATION_PASSWORD", "rpw")])
  | GetStatefulSet _ _ => Err (ErrAPI true "StatefulSet" "not found")
  | UpdateCluster _ | UpdatePodStatus _ | Exec _ _ _ => Ok tt
  | Select => TimerFired
  | QueryRow _ q =>
      Ok (if String.eqb q (statusQuery OperatorInitFileCompleteKey) then Some "1"
          else if String.eqb q (statusQuery "backup_gtid_purged") then Some "uuid:1-5" else None)
  end.

Lemma Reconcile_order_witness :
  run (Reconcile 7 "prod" "demo-mysql-1") sampleNodeWorld = Ok tt ∧
  length (trace (Reconcile 7 "prod" "demo-mysql-1") sampleNodeWorld) = 19%nat ∧
  guarded (nodeRule "prod" "demo-mysql-1") (trace (Reconcile 7 "prod" "demo-mysql-1") sampleNodeWorld).
Proof.
  split; [vm_compute; reflexivity|]. split; [vm_compute; reflexivity|].
  exact (Reconcile_order "prod" "demo-mysql-1" 7 sampleNodeWorld).
Defined.

Definition sampleRunner : nodeSQLRunner := newNodeConn "dsn" "demo-mysql-1.mysql.prod" (mkVersion 8 0 39).

Lemma initializeMySQL_order_witness :
  configured sampleRunner (trace (initializeMySQL sampleRunner sampleNodeCluster sampleCreds) sampleNodeWorld).
Proof.
  apply (initializeMySQL_order "dsn" "demo-mysql-1.mysql.prod" (mkVersion 8 0 39) sampleNodeCluster
           sampleCreds sampleNodeWorld).
  vm_compute. reflexivity.
Defined.

Lemma initializeMySQL_super_read_only_witness :
  ∃ t' res, trace (initializeMySQL sampleRunner sampleNodeCluster sampleCreds) sampleNodeWorld =
    t' ++ [Ev (Exec "dsn" (fullQuery sampleRunner "SET GLOBAL SUPER_READ_ONLY = 1;") []) res].
Proof.
  apply (initializeMySQL_super_read_only sampleRunner sampleNodeCluster sampleCreds sampleNodeWorld).
  right. left.
Defined.

End Witnesses.
