(* ===== verification/OrcHelper.v ===== *)
(** * The hooks of Orchestrator

    [pkg/orc-helper] and the commands of [cmd/orc-helper]: when Orchestrator
    detects a failure or starts a failover it runs [orc-helper] with the alias of
    the cluster, which sets the condition [FailoverInProgress] of the resource or
    records an event.  Orchestrator computes the alias on the server of a pod, by
    the query of its configuration ([aliasQuery]); [failover_hook] shows that the
    alias leads back to the resource of the pod, and that the condition holds the
    node controller back. *)

From S2P Require Import Prelude GoStrings Semver ClusterTypes Versioning ClusterStatus ClusterModel.
From S2P Require Import OrcReconcile NodeSQL NodeController.
Open Scope stdpp_scope.

(** ** Effects *)

Record ObjectReference := mkReference {
  or_Kind : string; or_Namespace : string; or_Name : string; or_UID : string }.

Record Event := mkEvent {
  e_Name : string; e_Namespace : string; e_FirstTimestamp : Z; e_Type : string;
  e_Reason : string; e_Message : string; e_Component : string; e_InvolvedObject : ObjectReference }.

Inductive helper_op :=
  | HelperGet (ns name : string)
  | HelperStatusUpdate (c : MysqlCluster)
  (** [reference.GetReference] on the scheme of the client *)
  | HelperReference (c : MysqlCluster)
  (** [rand.AlphaNumericString] *)
  | HelperRandom (n : Z)
  | HelperCreateEvent (e : Event).

#[export] Instance helper_effect : Effect helper_op := λ o,
  match o with
  | HelperGet _ _ => result MysqlCluster
  | HelperStatusUpdate _ | HelperCreateEvent _ => result unit
  | HelperReference _ => result ObjectReference
  | HelperRandom _ => result string
  end.

(** ** The functions *)

(** The namespace and the name. *)
(* src/pkg/orc-helper/helper.go:38-46 orcNameToKey *)
Definition orcNameToKey (name : string) : result (string * string) :=
  let components := Split name "." in
  match components with
  | [n; ns] => Ok (ns, n)
  | _ => Err (ErrMsg ("can't parse name: " +:+ name))
  end.

(* src/pkg/orc-helper/helper.go:48-76 UpdateClusterFailoverCond *)
Definition UpdateClusterFailoverCond (now : Z) (clusterName reason msg : string) (status : bool) :
    prog helper_op (result unit) :=
  match orcNameToKey clusterName with
  | Err err => mret (Err err)
  | Ok (ns, name) =>
      cluster <-? call (HelperGet ns name);
      let s := if status then ConditionTrue else ConditionFalse in
      let cluster := UpdateStatusCondition now ClusterConditionFailoverInProgress s reason msg cluster in
      call (HelperStatusUpdate cluster)
  end.

(** [now] is the time in seconds, which is also in the name of the event. *)
(* src/pkg/orc-helper/helper.go:78-123 UpdateEventForCluster *)
Definition UpdateEventForCluster (now : Z) (clusterName evReason evMsg : string) (warning : bool) :
    prog helper_op (result unit) :=
  match orcNameToKey clusterName with
  | Err err => mret (Err err)
  | Ok (ns, name) =>
      cluster <-? call (HelperGet ns name);
      let evType := if warning then "Warning" else "Normal" in
      ref <-? call (HelperReference cluster);
      randStr <-? call (HelperRandom 5);
      call (HelperCreateEvent (mkEvent
        (cl_Name cluster +:+ "-" +:+ randStr +:+ "." +:+ itoa now) (cl_Namespace cluster)
        now evType evReason evMsg "orchestrator" ref))
  end.

(** The commands; an error ends the process with a message ([log.Fatal]). *)
(* src/cmd/orc-helper/main.go:66-80 failover-in-progress *)
Definition failoverInProgress (now : Z) (args : list string) : prog helper_op (result unit) :=
  match args with
  | [name; msg] =>
      r ← UpdateClusterFailoverCond now name "OrcFailoverInProgress" msg true;
      mret match r with Ok _ => Ok tt | Err err => Err (ErrMsg ("error in updating cluster: " +:+ error_text err)) end
  | _ => mret (Err (ErrMsg "see usage: <cluster.name> <message>"))
  end.

(* src/cmd/orc-helper/main.go:83-99 event *)
Definition eventCommand (now : Z) (evWarningType : bool) (args : list string) :
    prog helper_op (result unit) :=
  match args with
  | [name; reason; msg] =>
      r ← UpdateEventForCluster now name reason msg evWarningType;
      mret match r with Ok _ => Ok tt | Err err => Err (ErrMsg ("error in updating cluster: " +:+ error_text err)) end
  | _ => mret (Err (ErrMsg "see usage: <cluster.name> <event-name> <message> [-warning]"))
  end.

(** ** The alias of a cluster *)

(** MySQL's [SUBSTRING_INDEX(s, d, -n)]: what follows the [n]-th [d] from the end. *)
Definition substringIndexEnd (s : string) (d : ascii) (n : nat) : string :=
  let parts := Split s d in Join (drop (length parts - n) parts) (String d "").

(** The query that Orchestrator runs on a server to learn the alias of its cluster. *)
(* src/deploy/manifests/v0.7.0/operator/orchestrator-config.yaml:18-18 DetectClusterAliasQuery *)
Definition aliasQuery (hostname report_host : string) : string :=
  str_take (String.length hostname - 1 - String.length (substringIndexEnd hostname "-" 2)) hostname +:+
  "." +:+ substringIndexEnd report_host "." 1.

(** The name of a pod, which is the host name of its server. *)
Definition podName (c : MysqlCluster) (i : Z) : string :=
  GetNameForResource StatefulSetName (cl_Name c) +:+ "-" +:+ itoa i.

Lemma Split_snoc s t (sep : ascii) : Split (s +:+ String sep t) sep = Split s sep ++ Split t sep.
Proof.
  induction s as [|c s IH]; simpl; [by rewrite Ascii.eqb_refl|].
  destruct (Ascii.eqb c sep); [by rewrite IH|]. rewrite IH.
  assert (Split s sep ≠ []) as Hne by (destruct s; simpl; [done|]; repeat case_match; done).
  by destruct (Split s sep).
Qed.

Lemma Split_length s sep : (0 < length (Split s sep))%nat.
Proof. destruct s; simpl; [lia|]. repeat case_match; simpl; lia. Qed.

Lemma substringIndexEnd_last s t d :
  Index t (String d "") = None → substringIndexEnd (s +:+ String d t) d 1 = t.
Proof.
  intros Ht. unfold substringIndexEnd. rewrite Split_snoc, (Split_none t) by done.
  rewrite length_app. simpl. rewrite Nat.add_sub, drop_app_length. done.
Qed.

Lemma substringIndexEnd_last2 s t u d :
  Index t (String d "") = None → Index u (String d "") = None →
  substringIndexEnd (s +:+ String d (t +:+ String d u)) d 2 = t +:+ String d u.
Proof.
  intros Ht Hu. unfold substringIndexEnd.
  rewrite !Split_snoc, (Split_none t), (Split_none u) by done.
  rewrite !length_app. simpl. rewrite Nat.add_sub, drop_app_length. done.
Qed.

(** On every pod of a cluster, Orchestrator reads the alias by which the
    controllers ask for the cluster. *)
Lemma aliasQuery_pod (c : MysqlCluster) (i : Z) :
  (0 ≤ i)%Z → Index (cl_Namespace c) "." = None →
  aliasQuery (podName c i) (GetPodHostname c i) = GetClusterAlias c.
Proof.
  intros Hi Hns. unfold aliasQuery, GetClusterAlias.
  assert (podName c i = cl_Name c +:+ String "-" ("mysql" +:+ String "-" (itoa i))) as ->.
  { unfold podName. simpl. by rewrite str_app_assoc. }
  rewrite substringIndexEnd_last2; [|done|apply all_digits_Index; [done|by apply all_digits_itoa]].
  rewrite str_length_app. cbn [String.length].
  replace (String.length (cl_Name c) + S _ - 1 - _)%nat with (String.length (cl_Name c)) by lia.
  rewrite str_take_app. f_equal.
  replace (GetPodHostname c i) with
    ((podName c i +:+ "." +:+ GetNameForResource HeadlessSVC (cl_Name c)) +:+ String "." (cl_Namespace c)).
  - by rewrite substringIndexEnd_last.
  - unfold GetPodHostname, podName. by rewrite !str_app_assoc.
Qed.

(** The alias is taken apart again if the name has no dot; otherwise the hooks fail. *)
Lemma orcNameToKey_alias (c : MysqlCluster) :
  Index (cl_Namespace c) "." = None →
  orcNameToKey (GetClusterAlias c) =
    if decide (Index (cl_Name c) "." = None) then Ok (cl_Namespace c, cl_Name c)
    else Err (ErrMsg ("can't parse name: " +:+ GetClusterAlias c)).
Proof.
  intros Hns. unfold orcNameToKey, GetClusterAlias.
  change ("." +:+ cl_Namespace c) with (String "." (cl_Namespace c)).
  rewrite Split_snoc, (Split_none (cl_Namespace c)) by done.
  destruct (decide (Index (cl_Name c) "." = None)) as [Hn|Hn]; [by rewrite Split_none|].
  destruct (Index (cl_Name c) ".") as [j|] eqn:E; [|done].
  apply Index_Some in E as (a & b & -> & _). change ("." +:+ b) with (String "." b).
  rewrite Split_snoc. pose proof (Split_length a ".") as Ha. pose proof (Split_length b ".") as Hb.
  destruct (Split a ".") as [|x [|y l]], (Split b ".") as [|z [|u l']]; simpl in *; try lia; try done.
  all: by destruct l.
Qed.

(** ** The hook of a failover *)

Section Hook.
Context `{!Blang, !BlangLaws, !Process}.
Implicit Types (c : MysqlCluster).

(** What the condition holds back: a round of the Orchestrator reconciler makes no
    host writable or read-only, and a run of the node controller that reads the
    cluster so executes nothing but the probe and leaves the pod as it is. *)
Definition heldBack (c : MysqlCluster) : Prop :=
  (∀ now (w : world orc_op) e, e ∈ trace (Sync now c) w →
     match ev_op e with SetHostWritable _ | SetHostReadOnly _ => False | _ => True end) ∧
  (∀ now ns name (w : world node_op),
     let t := trace (Reconcile now ns name) w in
     (∀ ns' name' c', Ev (RefreshCluster ns' name') (Ok c') ∈ t → c' = c) →
     ∀ e, e ∈ t →
       match ev_op e with
       | Exec _ q _ => ∃ sql, q = fullQuery sql "SELECT 1"
       | UpdatePodStatus _ => False
       | _ => True
       end).

Lemma failover_holds c :
  cond_true (GetClusterCondition c ClusterConditionFailoverInProgress) = true → heldBack c.
Proof.
  intros Hc. split.
  - intros now w e He. destruct (Sync_round now c w []) as (t & Ht & Hcalls).
    unfold trace in He. rewrite Ht in He. rewrite Forall_forall in Hcalls.
    specialize (Hcalls e He). unfold syncCall in Hcalls.
    destruct (ev_op e); try done; destruct Hcalls as [Hf _]; unfold cond_true in Hc;
      unfold cond_is in Hf; simpl in Hf; destruct (GetClusterCondition _ _); simplify_eq/=; congruence.
  - intros now ns name w t Hr e He.
    destruct (keeps_run (nodeRule ns name) _ (λ _ _, True) w (Reconcile_keeps ns name now)) as [Hg _].
    fold t in Hg. apply list_elem_of_split in He as (h1 & h2 & Ht).
    specialize (Hg h1 e h2 Ht). unfold nodeRule in Hg.
    assert (∀ c0 c', fresh c0 c' h1 → False) as Hno.
    { intros c0 c' [Hin Hf]. rewrite (Hr _ _ c' ltac:(rewrite Ht; apply elem_of_app; by left)) in Hf. congruence. }
    destruct (ev_op e); try done.
    + destruct Hg as (pod1 & c0 & creds & sql & c' & _ & Hs & _). by apply (Hno c0 c').
    + destruct Hg as (pod1 & c0 & creds & sql & _ & _ & [[-> _]|(c' & Hs & _)]); [by exists sql|].
      by destruct (Hno c0 c').
Qed.

(** The cluster with the mark of the hook. *)
Definition marked (now : Z) (msg : string) (c : MysqlCluster) : MysqlCluster :=
  UpdateStatusCondition now ClusterConditionFailoverInProgress ConditionTrue "OrcFailoverInProgress" msg c.

(** C7. The hook that Orchestrator runs before a failover, with the alias that it
    read on any pod of a cluster, reads the resource of exactly that cluster and, if
    it is there, writes it with the condition [FailoverInProgress] and nothing else
    changed; while the condition stands, the reconciler makes no host of the cluster
    writable or read-only and the node controller configures none.  A cluster whose
    name has a dot is never marked: the alias cannot be taken apart. *)
Theorem failover_hook (now i : Z) (msg : string) c (w : world helper_op) :
  (0 ≤ i)%Z → Index (cl_Namespace c) "." = None →
  let alias := aliasQuery (podName c i) (GetPodHostname c i) in
  let m := failoverInProgress now [alias; msg] in
  if decide (Index (cl_Name c) "." = None) then
    match w [] (HelperGet (cl_Namespace c) (cl_Name c)) with
    | Ok stored =>
        trace_ops m w = [HelperGet (cl_Namespace c) (cl_Name c); HelperStatusUpdate (marked now msg stored)] ∧
        heldBack (marked now msg stored) ∧
        cl_Meta (marked now msg stored) = cl_Meta stored ∧ cl_Spec (marked now msg stored) = cl_Spec stored ∧
        st_Nodes (cl_Status (marked now msg stored)) = st_Nodes (cl_Status stored) ∧
        ∀ ty, ty ≠ ClusterConditionFailoverInProgress →
          GetClusterCondition (marked now msg stored) ty = GetClusterCondition stored ty
    | Err _ => trace_ops m w = [HelperGet (cl_Namespace c) (cl_Name c)] ∧ is_ok (run m w) = false
    end
  else trace_ops m w = [] ∧ is_ok (run m w) = false.
Proof.
  intros Hi Hns. rewrite aliasQuery_pod by done. cbn zeta.
  unfold trace_ops, trace, run, failoverInProgress, UpdateClusterFailoverCond.
  rewrite orcNameToKey_alias by done. destruct (decide _) as [Hn|Hn]; [|done].
  destruct (w [] (HelperGet (cl_Namespace c) (cl_Name c))) as [stored|e] eqn:E.
  - split_and!; [| |done..|].
    + unfold try, mbind, prog_bind, call. cbn [fst snd app]. rewrite E. done.
    + apply failover_holds.
      destruct (UpdateStatusCondition_same now ClusterConditionFailoverInProgress ConditionTrue
        "OrcFailoverInProgress" msg stored) as [t Ht].
      unfold marked. rewrite Ht. done.
    + intros ty Hty. by apply UpdateStatusCondition_other.
  - unfold try, mbind, prog_bind, call. cbn [fst snd app]. rewrite E. done.
Qed.

(** An event is created only in the namespace of the cluster and for it. *)
Lemma event_created (now : Z) (c : MysqlCluster) (warning : bool) (reason msg : string) (w : world helper_op) e r :
  Index (cl_Namespace c) "." = None →
  Ev (HelperCreateEvent e) r ∈ trace (eventCommand now warning [GetClusterAlias c; reason; msg]) w →
  ∃ stored randStr, w [] (HelperGet (cl_Namespace c) (cl_Name c)) = Ok stored ∧
    e_Namespace e = cl_Namespace stored ∧ e_Reason e = reason ∧ e_Message e = msg ∧
    e_Type e = (if warning then "Warning" else "Normal") ∧
    e_Name e = cl_Name stored +:+ "-" +:+ randStr +:+ "." +:+ itoa now.
Proof.
  intros Hns He. unfold trace, eventCommand, UpdateEventForCluster in He.
  rewrite orcNameToKey_alias in He by done. destruct (decide _) as [Hn|Hn]; [|by apply elem_of_nil in He].
  unfold try, mbind, prog_bind, call in He. cbn [fst snd app] in He.
  destruct (w [] (HelperGet (cl_Namespace c) (cl_Name c))) as [stored|err] eqn:E; cbn [fst snd app] in He.
  2:{ apply list_elem_of_singleton in He. by apply (f_equal ev_op) in He. }
  exists stored. destruct (w _ (HelperReference stored)) as [ref|err]; cbn [fst snd app] in He.
  2:{ repeat apply elem_of_cons in He as [He|He]; try (by apply (f_equal ev_op) in He); by apply elem_of_nil in He. }
  destruct (w _ (HelperRandom 5)) as [s|err]; cbn [fst snd app] in He; exists s || exists "".
  - repeat apply elem_of_cons in He as [He|He]; try (by apply (f_equal ev_op) in He); [|by apply elem_of_nil in He].
    apply (f_equal ev_op) in He. cbn in He. injection He as ->. done.
  - repeat apply elem_of_cons in He as [He|He]; try (by apply (f_equal ev_op) in He); by apply elem_of_nil in He.
Qed.

End Hook.

(** ** Example *)

Section Witness.
#[local] Existing Instances Ref.blang Ref.blang_laws sampleProcess.

Definition sampleHookCluster : MysqlCluster := Sample.cluster "8.0.39" "8.0.39".

Definition sampleHookWorld : world helper_op := λ _ o,
  match o with
  | HelperGet _ _ => Ok sampleHookCluster
  | HelperStatusUpdate _ | HelperCreateEvent _ => Ok tt
  | HelperReference c => Ok (mkReference "MysqlCluster" (cl_Namespace c) (cl_Name c) "uid")
  | HelperRandom _ => Ok "a1b2c"
  end.

Example sample_alias : aliasQuery "demo-mysql-1" "demo-mysql-1.mysql.prod" = "demo.prod".
Proof. reflexivity. Qed.

Lemma failover_hook_witness :
  let stored := marked 7 "DeadMaster" sampleHookCluster in
  trace_ops (failoverInProgress 7 [aliasQuery "demo-mysql-1" "demo-mysql-1.mysql.prod"; "DeadMaster"])
    sampleHookWorld = [HelperGet "prod" "demo"; HelperStatusUpdate stored] ∧ heldBack stored.
Proof.
  cbn zeta.
  pose proof (failover_hook 7 1 "DeadMaster" sampleHookCluster sampleHookWorld ltac:(lia) eq_refl) as H.
  destruct H as (Ht & Hh & _). split; [exact Ht|exact Hh].
Defined.

End Witness.
