(* ===== verification/PVCs.v ===== *)
(** * Volume claims

    [pkg/controller/mysqlcluster/internal/cleaner]: the cleaner, which deletes
    the data claims of pods that a smaller cluster no longer has, and the
    resizer, which grows the data claims when the cluster asks for more storage.
    The effects are the calls to the API server and the events. *)

From S2P Require Import Prelude GoStrings Semver ClusterTypes Versioning ClusterStatus ClusterModel.
Open Scope stdpp_scope.

(** ** Effects *)

Record PVC := mkPVC {
  pvc_Name : string; pvc_Namespace : string;
  pvc_Owners : list OwnerReference;
  pvc_DeletionTimestamp : option Z;
  pvc_Requests : ResourceList;
  pvc_StorageClassName : option string }.

Record StorageClass := mkStorageClass {
  sc_Name : string; sc_Annotations : gmap string string; AllowVolumeExpansion : option bool }.

Inductive pvc_op :=
  | ListPVCs (ns : string) (selector : gmap string string)
  | DeletePVC (pvc : PVC)
  (** the claim, patched to the given request of storage *)
  | PatchPVC (pvc : PVC) (storage : Quantity)
  | ListStorageClasses
  | GetStorageClass (name : string)
  | PVCEvent (type_ reason message : string).

#[export] Instance pvc_effect : Effect pvc_op := λ o,
  match o with
  | ListPVCs _ _ => result (list PVC)
  | DeletePVC _ | PatchPVC _ _ => result unit
  | ListStorageClasses => result (list StorageClass)
  | GetStorageClass _ => result StorageClass
  | PVCEvent _ _ _ => unit
  end.

(** ** The claims of a cluster *)

(* src/pkg/controller/mysqlcluster/internal/cleaner/pvc_list.go:52-69 isClusterManagedPVC *)
Definition isClusterManagedPVC (pvc : PVC) (c : MysqlCluster) : bool :=
  if negb (String.eqb (pvc_Namespace pvc) (cl_Namespace c)) then false
  else
    let stsName := GetNameForResource StatefulSetName (cl_Name c) in
    existsb (λ ref,
      String.eqb (ow_Kind ref) "MysqlCluster" && String.eqb (ow_Name ref) (cl_Name c) ||
      String.eqb (ow_Kind ref) "StatefulSet" && String.eqb (ow_Name ref) stsName) (pvc_Owners pvc).

Section Claims.
Context `{!Blang}.

(* src/pkg/controller/mysqlcluster/internal/cleaner/pvc_list.go:29-50 listOwnedClusterPVCs *)
Definition listOwnedClusterPVCs (c : MysqlCluster) : prog pvc_op (result (list PVC)) :=
  items <-? call (ListPVCs (cl_Namespace c) (GetSelectorLabels c));
  mret (Ok (List.filter (λ claim, isClusterManagedPVC claim c &&
    match pvc_DeletionTimestamp claim with Some _ => false | None => true end) items)).

(** ** The cleaner *)

(** The index and the error are returned together, as in the code. *)
(* src/pkg/controller/mysqlcluster/internal/cleaner/pvc.go:109-122 getOrdinal *)
Definition getOrdinal (name : string) : Z * option error :=
  let failed := (-1, Some (ErrMsg ("failed to extract ordinal from pvc name: " +:+ name)))%Z in
  match LastIndex name "-" with
  | None => failed
  | Some idx =>
      match Atoi (str_drop (idx + 1) name) with
      | Some ordinal => (wrap32 ordinal, None)
      | None => failed
      end
  end.

(* src/pkg/controller/mysqlcluster/internal/cleaner/pvc.go:97-108 deletePVC *)
Definition deletePVC (c : MysqlCluster) (pvc : PVC) : prog pvc_op (result unit) :=
  r ← call (DeletePVC pvc);
  match r with
  | Err err =>
      _ ← call (PVCEvent "Warning" "FailedPVCCleanup"
        ("delete Claim " +:+ pvc_Name pvc +:+ " in StatefulSet " +:+ cl_Name c +:+ " failed"));
      mret (Err err)
  | Ok _ =>
      _ ← call (PVCEvent "Normal" "SuccessfulPVCCleanup"
        ("delete Claim " +:+ pvc_Name pvc +:+ " in StatefulSet " +:+ cl_Name c +:+ " successful"));
      mret (Ok tt)
  end.

(** The body of the loop.  [*cluster.Spec.Replicas] is read only for a claim with an
    ordinal, and is a nil pointer when the defaults were not set. *)
(* src/pkg/controller/mysqlcluster/internal/cleaner/pvc.go:77-92 Run *)
Definition cleanPVC (c : MysqlCluster) (pvc : PVC) : prog pvc_op (result unit) :=
  if negb (HasPrefix (pvc_Name pvc) (DataPVCNamePrefix c)) then mret (Ok tt)
  else match getOrdinal (pvc_Name pvc) with
  | (ord, None) =>
      match Replicas (cl_Spec c) with
      | None => mret (Err nilDeref)
      | Some replicas =>
          if (replicas <=? ord)%Z && negb (ord =? 0)%Z then deletePVC c pvc else mret (Ok tt)
      end
  | (_, Some _) => mret (Ok tt)
  end.

(* src/pkg/controller/mysqlcluster/internal/cleaner/pvc.go:61-95 Run *)
Definition CleanerRun (c : MysqlCluster) : prog pvc_op (result unit) :=
  match cl_DeletionTimestamp c with
  | Some _ => mret (Ok tt)
  | None =>
      pvcs <-? listOwnedClusterPVCs c;
      for_each_err pvcs (cleanPVC c)
  end.

(** ** The resizer *)

(* src/pkg/controller/mysqlcluster/internal/cleaner/pvc_resize_support.go:31-33 storageClassAllowsResize *)
Definition storageClassAllowsResize (sc : option StorageClass) : bool :=
  match sc with Some sc => default false (AllowVolumeExpansion sc) | None => false end.

Definition defaultStorageClassAnnotation : string := "storageclass.kubernetes.io/is-default-class".

(* src/pkg/controller/mysqlcluster/internal/cleaner/pvc_resize_support.go:35-50 resolveStorageClassName *)
Definition resolveStorageClassName (pvc : PVC) : prog pvc_op (result string) :=
  match pvc_StorageClassName pvc with
  | Some name =>
      if negb (String.eqb name "") then mret (Ok name)
      else
        items <-? call ListStorageClasses;
        mret (Ok (default "" (sc_Name <$> List.find (λ sc,
          String.eqb (default "" (sc_Annotations sc !! defaultStorageClassAnnotation)) "true") items)))
  | None =>
      items <-? call ListStorageClasses;
      mret (Ok (default "" (sc_Name <$> List.find (λ sc,
        String.eqb (default "" (sc_Annotations sc !! defaultStorageClassAnnotation)) "true") items)))
  end.

(* src/pkg/controller/mysqlcluster/internal/cleaner/pvc_resize_support.go:52-65 storageClassForPVC *)
Definition storageClassForPVC (pvc : PVC) : prog pvc_op (result (option StorageClass * string)) :=
  name <-? resolveStorageClassName pvc;
  if String.eqb name "" then mret (Ok (None, ""))
  else
    sc <-? call (GetStorageClass name);
    mret (Ok (Some sc, name)).

(* src/pkg/controller/mysqlcluster/internal/cleaner/pvc_resize_support.go:67-78 resizeNotSupportedReason *)
Definition resizeNotSupportedReason (scName : string) (sc : option StorageClass) : string :=
  if String.eqb scName "" then
    "PVC has no storageClassName and no default StorageClass was found; volume expansion requires a StorageClass with allowVolumeExpansion: true"
  else match sc with
  | None => "StorageClass " +:+ Quote scName +:+ " not found"
  | Some _ =>
      if negb (storageClassAllowsResize sc) then
        "StorageClass " +:+ Quote scName +:+
        " does not allow volume expansion (set allowVolumeExpansion: true)"
      else ""
  end.

(* src/pkg/controller/mysqlcluster/internal/cleaner/pvc_resize_support.go:80-89 isPVCResizeForbidden *)
Definition isPVCResizeForbidden (err : error) : bool :=
  if negb (is_forbidden err) then false
  else
    let msg := ToLower (error_text err) in
    Contains msg "resize" || Contains msg "resized".

(* src/pkg/controller/mysqlcluster/internal/cleaner/pvc_resize.go:145-149 warnResizeUnsupported *)
Definition warnResizeUnsupported (pvcName reason : string) : prog pvc_op unit :=
  call (PVCEvent "Warning" "PVCResizeUnsupported" ("cannot expand Claim " +:+ pvcName +:+ ": " +:+ reason)).

(* src/pkg/controller/mysqlcluster/internal/cleaner/pvc_resize.go:151-154 clusterHasRunningReplicas *)
Definition clusterHasRunningReplicas (c : MysqlCluster) : bool :=
  match Replicas (cl_Spec c) with Some replicas => (replicas >? 0)%Z | None => false end.

(* src/pkg/controller/mysqlcluster/internal/cleaner/pvc_resize.go:156-160 warnNoDataPVCsToResize *)
Definition warnNoDataPVCsToResize (desired : Quantity) : prog pvc_op unit :=
  call (PVCEvent "Warning" "PVCResizeNoTargets" ("desired data storage is " +:+ desired +:+
    " but no cluster data PVCs were found to expand")).

Context `{!Resource}.

(* src/pkg/controller/mysqlcluster/internal/cleaner/pvc_resize.go:140-143 StorageNeedsExpansion *)
Definition StorageNeedsExpansion (desired current : Quantity) : bool := (QCmp desired current >? 0)%Z.

(* src/pkg/controller/mysqlcluster/internal/cleaner/pvc_resize.go:95-138 resizePVCIfNeeded *)
Definition resizePVCIfNeeded (pvc : PVC) (desired : Quantity) : prog pvc_op (result unit) :=
  match pvc_Requests pvc !! "storage" with
  | None => mret (Ok tt)
  | Some current =>
      if (QCmp desired current <=? 0)%Z then mret (Ok tt)
      else
        '(sc, scName) <-? storageClassForPVC pvc;
        let reason := resizeNotSupportedReason scName sc in
        if negb (String.eqb reason "") then
          _ ← warnResizeUnsupported (pvc_Name pvc) reason; mret (Ok tt)
        else
          r ← call (PatchPVC pvc desired);
          match r with
          | Err err =>
              if isPVCResizeForbidden err then
                _ ← warnResizeUnsupported (pvc_Name pvc) (error_text err); mret (Ok tt)
              else
                _ ← call (PVCEvent "Warning" "FailedPVCResize"
                  ("expand Claim " +:+ pvc_Name pvc +:+ " to " +:+ desired +:+ " failed: " +:+
                   error_text err));
                mret (Err err)
          | Ok _ =>
              _ ← call (PVCEvent "Normal" "SuccessfulPVCResize"
                ("expanded Claim " +:+ pvc_Name pvc +:+ " from " +:+ current +:+ " to " +:+ desired));
              mret (Ok tt)
          end
  end.

(* src/pkg/controller/mysqlcluster/internal/cleaner/pvc_resize.go:61-92 Run *)
Definition ResizerRun (c : MysqlCluster) : prog pvc_op (result unit) :=
  match cl_DeletionTimestamp c, DesiredDataVolumeStorage c with
  | Some _, _ | None, None => mret (Ok tt)
  | None, Some desired =>
      pvcs <-? listOwnedClusterPVCs c;
      let data := List.filter (λ pvc, HasPrefix (pvc_Name pvc) (DataPVCNamePrefix c)) pvcs in
      _ <-? for_each_err data (λ pvc, resizePVCIfNeeded pvc desired);
      if (length data =? 0)%nat && clusterHasRunningReplicas c then
        _ ← warnNoDataPVCsToResize desired; mret (Ok tt)
      else mret (Ok tt)
  end.

End Claims.

(** ** Properties *)

(** The claim of a pod is read back to the ordinal of the pod. *)
Lemma getOrdinal_DataPVCName c i :
  (0 ≤ i < 2 ^ 31)%Z → getOrdinal (DataPVCName c i) = (i, None).
Proof.
  intros Hi. unfold getOrdinal, DataPVCName.
  pose proof (all_digits_itoa i ltac:(lia)) as Hd.
  rewrite <-(str_app_assoc "data-"). set (p := "data-" +:+ GetNameForResource _ _). change ("-" +:+ itoa i) with (String "-" (itoa i)).
  rewrite LastIndex_app by (by apply all_digits_Index).
  change (String "-" (itoa i)) with ("-" +:+ itoa i).
  replace (String.length p + 1)%nat with (String.length (p +:+ "-")) by (by rewrite str_length_app).
  rewrite <-str_app_assoc, str_drop_app.
  rewrite Atoi_itoa by (apply andb_true_intro; split; [apply Z.leb_le|apply Z.ltb_lt]; lia).
  rewrite wrap32_id; [done|]. apply andb_true_intro; split; [apply Z.leb_le|apply Z.ltb_lt]; lia.
Qed.

Lemma DataPVCName_prefix c i : HasPrefix (DataPVCName c i) (DataPVCNamePrefix c) = true.
Proof.
  unfold DataPVCName, DataPVCNamePrefix. apply HasPrefix_spec. exists (itoa i).
  by rewrite !str_app_assoc.
Qed.

(** A live claim of the cluster, or of its stateful set. *)
Definition claimOf (c : MysqlCluster) (pvc : PVC) : Prop :=
  pvc_Namespace pvc = cl_Namespace c ∧ pvc_DeletionTimestamp pvc = None ∧
  ∃ ref, ref ∈ pvc_Owners pvc ∧
    (ow_Kind ref = "MysqlCluster" ∧ ow_Name ref = cl_Name c ∨
     ow_Kind ref = "StatefulSet" ∧ ow_Name ref = cl_Name c +:+ "-mysql").

(** What an orphan is, in terms of the names that Kubernetes gives to claims: the
    claim of template [data] for a pod of the stateful set, which is named after the
    cluster, with a number beyond those of the pods; pod 0 always has its claim. *)
Record orphan (c : MysqlCluster) (replicas : Z) (pvc : PVC) : Prop := mkOrphan {
  orphan_of : claimOf c pvc;
  orphan_data : ∃ rest, pvc_Name pvc = "data-" +:+ cl_Name c +:+ "-mysql-" +:+ rest;
  orphan_number : ∃ before num ordinal, pvc_Name pvc = before +:+ "-" +:+ num ∧ Index num "-" = None ∧
    Atoi num = Some ordinal ∧ (replicas ≤ wrap32 ordinal)%Z ∧ wrap32 ordinal ≠ 0%Z }.

(** The test of the loop. *)
Definition orphanTest (c : MysqlCluster) (replicas : Z) (pvc : PVC) : bool :=
  HasPrefix (pvc_Name pvc) (DataPVCNamePrefix c) &&
  match getOrdinal (pvc_Name pvc) with
  | (ord, None) => (replicas <=? ord)%Z && negb (ord =? 0)%Z
  | (_, Some _) => false
  end.

Definition ownedTest (c : MysqlCluster) (pvc : PVC) : bool :=
  isClusterManagedPVC pvc c && match pvc_DeletionTimestamp pvc with Some _ => false | None => true end.

Lemma getOrdinal_Some name ord : getOrdinal name = (ord, None) ↔
  ∃ before num z, name = before +:+ "-" +:+ num ∧ Index num "-" = None ∧ Atoi num = Some z ∧ ord = wrap32 z.
Proof.
  unfold getOrdinal. split.
  - destruct (LastIndex name "-") as [idx|] eqn:E; [|done].
    destruct (LastIndex_split _ _ _ E) as (before & num & -> & Hl & Hn).
    change (String "-" num) with ("-" +:+ num). rewrite <-str_app_assoc.
    replace (idx + 1)%nat with (String.length (before +:+ "-")) by (rewrite str_length_app, Hl; done).
    rewrite str_drop_app. destruct (Atoi num) as [z|] eqn:Ez; [|done]. intros [= <-].
    exists before, num, z. by rewrite str_app_assoc.
  - intros (before & num & z & -> & Hn & Hz & ->). change ("-" +:+ num) with (String "-" num).
    rewrite LastIndex_app by done. change (String "-" num) with ("-" +:+ num).
    replace (String.length before + 1)%nat with (String.length (before +:+ "-")) by (by rewrite str_length_app).
    by rewrite <-str_app_assoc, str_drop_app, Hz.
Qed.

Lemma orphanTest_number c n pvc : orphanTest c n pvc = true ↔
  (∃ rest, pvc_Name pvc = "data-" +:+ cl_Name c +:+ "-mysql-" +:+ rest) ∧
  ∃ before num ordinal, pvc_Name pvc = before +:+ "-" +:+ num ∧ Index num "-" = None ∧
    Atoi num = Some ordinal ∧ (n ≤ wrap32 ordinal)%Z ∧ wrap32 ordinal ≠ 0%Z.
Proof.
  unfold orphanTest. rewrite andb_true_iff, HasPrefix_spec. apply Morphisms_Prop.and_iff_morphism.
  - unfold DataPVCNamePrefix, GetNameForResource. split; intros [rest E]; exists rest; by rewrite E, !str_app_assoc.
  - destruct (getOrdinal (pvc_Name pvc)) as [ord [e|]] eqn:E.
    + split; [done|]. intros (before & num & z & Hn & Hi & Hz & _).
      assert (getOrdinal (pvc_Name pvc) = (wrap32 z, None)) by (apply getOrdinal_Some; eauto 10). congruence.
    + rewrite andb_true_iff, negb_true_iff, Z.leb_le, Z.eqb_neq. split.
      * intros Ho. apply getOrdinal_Some in E as (before & num & z & ? & ? & ? & ->). eauto 10.
      * intros (before & num & z & Hn & Hi & Hz & Ho).
        assert (getOrdinal (pvc_Name pvc) = (wrap32 z, None)) as E' by (apply getOrdinal_Some; eauto 10).
        rewrite E in E'. by injection E' as ->.
Qed.

Lemma claimOf_spec c pvc : ownedTest c pvc = true ↔ claimOf c pvc.
Proof.
  unfold ownedTest, isClusterManagedPVC, claimOf. rewrite andb_true_iff.
  destruct (pvc_DeletionTimestamp pvc); [naive_solver|].
  destruct (String.eqb_spec (pvc_Namespace pvc) (cl_Namespace c)); cbn [negb]; [|naive_solver].
  rewrite existsb_exists. setoid_rewrite <-list_elem_of_In.
  setoid_rewrite orb_true_iff. setoid_rewrite andb_true_iff. setoid_rewrite String.eqb_eq. naive_solver.
Qed.

Lemma orphan_spec c n pvc : ownedTest c pvc && orphanTest c n pvc = true ↔ orphan c n pvc.
Proof.
  rewrite andb_true_iff, claimOf_spec, orphanTest_number. split.
  - intros (? & ? & ?). by constructor.
  - by intros [? ? ?].
Qed.

#[export] Instance orphan_dec c n pvc : Decision (orphan c n pvc).
Proof. refine (cast_if (decide (ownedTest c pvc && orphanTest c n pvc = true))); by rewrite <-orphan_spec. Defined.

Lemma orphans_filter c n items :
  List.filter (orphanTest c n) (List.filter (ownedTest c) items) = filter (orphan c n) items.
Proof.
  induction items as [|pvc items IH]; [done|]. rewrite filter_cons. cbn [List.filter].
  pose proof (orphan_spec c n pvc) as Ho. destruct (ownedTest c pvc); cbn [List.filter andb] in *.
  - destruct (orphanTest c n pvc), (decide (orphan c n pvc)); naive_solver congruence.
  - destruct (decide (orphan c n pvc)); naive_solver.
Qed.

Lemma orphan_DataPVCName c n pvc i :
  (0 ≤ i < 2 ^ 31)%Z → pvc_Name pvc = "data-" +:+ cl_Name c +:+ "-mysql-" +:+ itoa i →
  orphan c n pvc ↔ claimOf c pvc ∧ (n ≤ i)%Z ∧ i ≠ 0%Z.
Proof.
  intros Hi E. rewrite <-orphan_spec, andb_true_iff, claimOf_spec. unfold orphanTest.
  assert (pvc_Name pvc = DataPVCName c i) as -> by (rewrite E; unfold DataPVCName, GetNameForResource; by rewrite !str_app_assoc).
  rewrite DataPVCName_prefix, getOrdinal_DataPVCName by done. cbn [andb].
  by rewrite andb_true_iff, negb_true_iff, Z.leb_le, Z.eqb_neq.
Qed.

(** The claims deleted by a sequence of calls. *)
Definition deleted (ops : list pvc_op) : list PVC :=
  omap (λ o, match o with DeletePVC pvc => Some pvc | _ => None end) ops.

Lemma deleted_app a b : deleted (a ++ b) = deleted a ++ deleted b.
Proof. apply omap_app. Qed.

Lemma deletePVC_run c pvc w h :
  let r := deletePVC c pvc w h in
  ∃ t, r.2 = h ++ t ∧ deleted (List.map ev_op t) = [pvc] ∧ r.1 = w h (DeletePVC pvc).
Proof.
  unfold deletePVC, mbind, prog_bind, call, mret, prog_ret. cbn [fst snd].
  destruct (w h (DeletePVC pvc)) as [[]|e] eqn:E; cbn [fst snd]; rewrite <-(assoc_L (++));
    eexists; split_and!; done.
Qed.

Lemma cleanPVC_eq c n pvc : Replicas (cl_Spec c) = Some n →
  cleanPVC c pvc = if orphanTest c n pvc then deletePVC c pvc else mret (Ok tt).
Proof.
  intros Hn. unfold cleanPVC, orphanTest. rewrite Hn. destruct (HasPrefix _ _); [|done]. cbn [negb andb].
  by destruct (getOrdinal _) as [ord [e|]].
Qed.

Lemma cleanerLoop_run c n w pvcs h : Replicas (cl_Spec c) = Some n →
  let r := for_each_err pvcs (cleanPVC c) w h in
  let orphans := List.filter (orphanTest c n) pvcs in
  ∃ t, r.2 = h ++ t ∧ deleted (List.map ev_op t) `prefix_of` orphans ∧
       (r.1 = Ok tt → deleted (List.map ev_op t) = orphans).
Proof.
  intros Hn. cbv zeta. revert h. induction pvcs as [|pvc pvcs IH]; intros h.
  { exists []. simpl. split_and!; [by rewrite app_nil_r|done|done]. }
  cbn [for_each_err List.filter]. unfold try, mbind, prog_bind. rewrite (cleanPVC_eq c n) by done.
  destruct (orphanTest c n pvc).
  - destruct (deletePVC_run c pvc w h) as (t & Ht & Hd & Hr).
    destruct (deletePVC c pvc w h) as [r h1]. cbn [fst snd] in *. subst h1.
    destruct r as [[]|e]; cbn [mret prog_ret fst snd].
    + destruct (IH (h ++ t)) as (t' & Ht' & Hp & Hok). exists (t ++ t').
      rewrite Ht', (assoc_L (++)), List.map_app, deleted_app, Hd. split_and!; [done| |].
      * by apply prefix_cons.
      * intros Hx. simpl. by rewrite Hok.
    + exists t. rewrite Hd. split_and!; [done|by exists (List.filter (orphanTest c n) pvcs)|done].
  - apply IH.
Qed.

(** Without a number of pods nothing is deleted. *)
Lemma cleanerLoop_nil c w pvcs h : Replicas (cl_Spec c) = None →
  (for_each_err pvcs (cleanPVC c) w h).2 = h.
Proof.
  intros Hn. induction pvcs as [|pvc pvcs IH]; [done|]. cbn [for_each_err]. unfold try, mbind, prog_bind.
  assert (∃ r, cleanPVC c pvc w h = (r, h)) as [[u|e] ->]; [|exact IH|done].
  unfold cleanPVC. rewrite Hn. destruct (negb _); [by eexists|].
  destruct (getOrdinal _) as [ord [e|]]; by eexists.
Qed.

(** C30. The cleaner deletes, in order, the orphans among the claims that are listed
    for the cluster, and nothing else; it stops at the first failure, and it has
    deleted all of them if it succeeds.  An orphan is a claim that belongs to the
    cluster or its stateful set, is not being deleted already, is named after the data
    of a pod, and has a number beyond those of the pods.  So the claims of the pods that
    the cluster should have, and that of pod 0, are never deleted, and those of the pods
    beyond are.  A cluster that is
    being deleted keeps all its claims, and so does one without a number of replicas. *)
Theorem CleanerRun_spec `{!Blang} (c : MysqlCluster) (w : world pvc_op) :
  let t := trace_ops (CleanerRun c) w in
  match cl_DeletionTimestamp c, w [] (ListPVCs (cl_Namespace c) (GetSelectorLabels c)), Replicas (cl_Spec c) with
  | Some _, _, _ => t = []
  | None, Err e, _ => deleted t = [] ∧ run (CleanerRun c) w = Err e
  | None, Ok items, None => deleted t = []
  | None, Ok items, Some n =>
      deleted t `prefix_of` filter (orphan c n) items ∧
      (run (CleanerRun c) w = Ok tt → deleted t = filter (orphan c n) items)
  end ∧
  ∀ n pvc i, (0 ≤ i < 2 ^ 31)%Z → pvc_Name pvc = "data-" +:+ cl_Name c +:+ "-mysql-" +:+ itoa i →
    orphan c n pvc ↔ claimOf c pvc ∧ (n ≤ i)%Z ∧ i ≠ 0%Z.
Proof.
  cbv zeta. split; [|intros n pvc i; apply orphan_DataPVCName].
  unfold trace_ops, trace, run, CleanerRun, listOwnedClusterPVCs.
  destruct (cl_DeletionTimestamp c); [done|].
  unfold try, mbind, prog_bind, call. cbn [fst snd app].
  destruct (w [] (ListPVCs _ _)) as [items|e]; cbn [fst snd mret prog_ret]; [|done].
  change (List.filter _ items) with (List.filter (ownedTest c) items). set (h := [_]).
  destruct (Replicas (cl_Spec c)) as [n|] eqn:Hn; [|by rewrite cleanerLoop_nil].
  destruct (cleanerLoop_run c n w (List.filter (ownedTest c) items) h Hn) as (t & Ht & Hp & Hok). cbv zeta in *.
  rewrite orphans_filter in Hp, Hok. by rewrite Ht.
Qed.

(** The rule of the resizer. *)
Definition resizeRule `{!Resource} (c : MysqlCluster) (e : event pvc_op) (h : list (event pvc_op)) : Prop :=
  match ev_op e with
  | PatchPVC pvc size =>
      DesiredDataVolumeStorage c = Some size ∧ isClusterManagedPVC pvc c = true ∧
      pvc_DeletionTimestamp pvc = None ∧ HasPrefix (pvc_Name pvc) (DataPVCNamePrefix c) = true ∧
      (∃ current, pvc_Requests pvc !! "storage" = Some current ∧ (0 < QCmp size current)%Z) ∧
      ∃ name sc, Ev (GetStorageClass name) (Ok sc) ∈ h ∧ AllowVolumeExpansion sc = Some true
  | DeletePVC _ => False
  | _ => True
  end.


Section ResizeSafety.
Context `{!Blang, !Resource}.
Implicit Types (P : list (event pvc_op) → Prop).

Lemma quietCall_keeps c P (o : pvc_op) :
  (∀ r h, resizeRule c (Ev o r) h) → keeps (resizeRule c) P (call o) (λ r h, Ev o r ∈ h).
Proof.
  intros HR. apply keeps_call; [auto|]. intros r h _. apply elem_of_app. right. left.
Qed.

Lemma warnResizeUnsupported_keeps c P name reason :
  keeps (resizeRule c) P
    (_ ← warnResizeUnsupported name reason; mret (Ok tt : result unit)) (λ _ _, True).
Proof.
  eapply keeps_bind; [by apply (quietCall_keeps _ _ (PVCEvent _ _ _))|intros u; apply stable_elem|].
  intros u. by apply keeps_ret.
Qed.

Lemma resolveStorageClassName_keeps c P pvc :
  keeps (resizeRule c) P (resolveStorageClassName pvc) (λ _ _, True).
Proof.
  assert (Hlist : keeps (resizeRule c) P
    (items <-? call ListStorageClasses;
     mret (Ok (default "" (sc_Name <$> List.find (λ sc,
       String.eqb (default "" (sc_Annotations sc !! defaultStorageClassAnnotation)) "true") items))))
    (λ _ _, True)).
  { eapply keeps_try; [by apply (quietCall_keeps _ _ ListStorageClasses)|intros r; apply stable_elem| |done].
    intros items. by apply keeps_ret. }
  unfold resolveStorageClassName. destruct (pvc_StorageClassName pvc) as [name|]; [|exact Hlist].
  destruct (negb _); [by apply keeps_ret|exact Hlist].
Qed.

(** The storage class that is returned was read under the name that is returned. *)
Lemma storageClassForPVC_keeps c P pvc :
  keeps (resizeRule c) P (storageClassForPVC pvc) (λ r h,
    match r with
    | Ok (Some sc, name) => Ev (GetStorageClass name) (Ok sc) ∈ h
    | _ => True
    end).
Proof.
  apply (keeps_try _ _ (λ _ _, True));
    [apply resolveStorageClassName_keeps|intros ?; exact (stable_const True)| |done].
  intros name. destruct (String.eqb name ""); [by apply keeps_ret|].
  eapply keeps_try; [by apply (quietCall_keeps _ _ (GetStorageClass name))|intros r; apply stable_elem| |done].
  intros sc. apply keeps_ret. by intros h [_ Hin].
Qed.

Lemma resizePVCIfNeeded_keeps c pvc desired :
  DesiredDataVolumeStorage c = Some desired → isClusterManagedPVC pvc c = true →
  pvc_DeletionTimestamp pvc = None → HasPrefix (pvc_Name pvc) (DataPVCNamePrefix c) = true →
  ∀ P, keeps (resizeRule c) P (resizePVCIfNeeded pvc desired) (λ _ _, True).
Proof.
  intros Hd Hm Hl Hp P. unfold resizePVCIfNeeded.
  destruct (pvc_Requests pvc !! "storage") as [current|] eqn:Ec; [|by apply keeps_ret].
  destruct (Z.leb_spec (QCmp desired current) 0) as [|Hc]; [by apply keeps_ret|].
  eapply keeps_try; [apply storageClassForPVC_keeps| | |done].
  { intros [[[sc|] name]|e]; auto with stable. }
  intros [sc name]. destruct (String.eqb_spec (resizeNotSupportedReason name sc) "") as [Hs|]; simpl;
    [|apply warnResizeUnsupported_keeps].
  eapply (keeps_bind _ _ (λ _ _, True)); [|intros ?; exact (stable_const True)|].
  - apply (keeps_call _ _ (PatchPVC pvc desired) (λ _ _, True)); [|done].
    intros r h [_ Hsc]. split_and!; try done; [by exists current|].
    unfold resizeNotSupportedReason in Hs. destruct (String.eqb name ""); [done|].
    destruct sc as [sc|]; [|done]. simpl in Hs. exists name, sc. split; [exact Hsc|].
    by destruct (AllowVolumeExpansion sc) as [[]|].
  - intros [u|err].
    + eapply keeps_bind; [by apply (quietCall_keeps _ _ (PVCEvent _ _ _))|intros ?; apply stable_elem|].
      intros ?. by apply keeps_ret.
    + destruct (isPVCResizeForbidden err); [apply warnResizeUnsupported_keeps|].
      eapply keeps_bind; [by apply (quietCall_keeps _ _ (PVCEvent _ _ _))|intros ?; apply stable_elem|].
      intros ?. by apply keeps_ret.
Qed.

Lemma ResizerRun_keeps (c : MysqlCluster) : keeps (resizeRule c) (λ _, True) (ResizerRun c) (λ _ _, True).
Proof.
  unfold ResizerRun.
  destruct (cl_DeletionTimestamp c); [by apply keeps_ret|].
  destruct (DesiredDataVolumeStorage c) as [desired|] eqn:Hd; [|by apply keeps_ret].
  apply (keeps_try _ _ (λ r _, match r with
    | Ok pvcs => ∀ pvc, pvc ∈ pvcs → isClusterManagedPVC pvc c = true ∧ pvc_DeletionTimestamp pvc = None
    | Err _ => True end)); [|intros ?; apply stable_const| |done].
  { eapply keeps_try; [by apply (quietCall_keeps _ _ (ListPVCs _ _))|intros r; apply stable_elem| |done].
    intros items. apply keeps_ret. intros h _ pvc Hin.
    apply list_elem_of_In, filter_In in Hin as [_ [Hm Hl]%andb_prop].
    split; [done|]. by destruct (pvc_DeletionTimestamp pvc). }
  intros pvcs. apply keeps_static. intros Hpvcs.
  apply (keeps_try _ _ (λ _ _, True)); [|intros ?; exact (stable_const True)| |done].
  - apply keeps_for_each_err. intros pvc Hin. apply list_elem_of_In, filter_In in Hin as [Hin Hp].
    apply list_elem_of_In in Hin. destruct (Hpvcs pvc Hin). by apply resizePVCIfNeeded_keeps.
  - intros u. destruct (_ && _); [|by apply keeps_ret].
    eapply keeps_bind; [by apply (quietCall_keeps _ _ (PVCEvent _ _ _))|intros ?; apply stable_elem|].
    intros ?. by apply keeps_ret.
Qed.

Lemma CleanerRun_emits (c : MysqlCluster) : emits (λ _, True) (λ _, True) (CleanerRun c).
Proof.
  unfold CleanerRun. destruct (cl_DeletionTimestamp c); [by apply emits_ret|].
  eapply (emits_try _ (λ _, True)).
  - unfold listOwnedClusterPVCs.
    eapply (emits_try _ (λ _, True)); [by apply (emits_call _ (ListPVCs _ _) (λ r : result _, match r with Ok _ => True | Err _ => True end)); intros []|].
    intros items _. by apply emits_ret.
  - intros pvcs _. apply emits_for_each_err. intros pvc _. unfold cleanPVC.
    repeat case_match; try by apply emits_ret. unfold deletePVC.
    eapply (emits_bind _ (λ _, True)); [by apply (emits_call _ (DeletePVC pvc) (λ _, True))|]. intros [u|e] _;
      (eapply (emits_bind _ (λ _, True)); [by apply (emits_call _ (PVCEvent _ _ _) (λ _, True))|]; intros ? _; by apply emits_ret).
Qed.

(** The resizer only grows: it patches a claim only to the storage that the
    cluster asks for and only if that is more than the claim has; the claim is a
    live data claim of the cluster; and the storage class of the claim was read
    before and allows the expansion.  It deletes nothing. *)
Theorem ResizerRun_grows (c : MysqlCluster) (w : world pvc_op) :
  guarded (resizeRule c) (trace (ResizerRun c) w).
Proof. exact (proj1 (keeps_run _ _ _ w (ResizerRun_keeps c))). Qed.
End ResizeSafety.
