(* ===== verification/MysqlQuery.v ===== *)
(** * The SQL of users and databases

    [pkg/internal/mysql]: queries with placeholders ([query.go]), the escaping of
    strings ([escape.go]), and the statements for users ([user.go]) and databases
    ([database.go]).

    [NewQuery] panics on an empty query: a query that may be empty is an
    [option], [None] being the panic.  The iteration over a Go map has no fixed
    order: where the code ranges over the resource limits, the model takes the
    list of entries in the order of the iteration, and the theorems hold for
    every list. *)

From S2P Require Import Prelude GoStrings ClusterTypes.
Open Scope stdpp_scope.

(** ** Queries *)

Inductive query_arg := ArgS (s : string) | ArgI (z : Z).

(* src/pkg/internal/mysql/query.go:23-28 Query *)
Record Query := mkQuery { escapedQuery : string; args : list query_arg }.

(* src/pkg/internal/mysql/query.go:40-54 NewQuery *)
Definition NewQuery (q : string) (args : list query_arg) : option Query :=
  if String.eqb q "" then None
  else Some (mkQuery (if negb (HasSuffix q ";") then q +:+ ";" else q) args).

(** The loop of [ConcatenateQueries]. *)
Definition concatStep (acc : string * list query_arg) (pq : Query) : string * list query_arg :=
  let (query, args_) := acc in
  let query := if negb (String.eqb query "") && negb (HasSuffix query newline)
               then query +:+ newline else query in
  (query +:+ escapedQuery pq, args_ ++ args pq).

(* src/pkg/internal/mysql/query.go:56-73 ConcatenateQueries *)
Definition ConcatenateQueries (queries : list Query) : option Query :=
  let (query, args) := fold_left concatStep queries ("", []) in
  NewQuery query args.

(* src/pkg/internal/mysql/query.go:75-81 BuildAtomicQuery *)
Definition BuildAtomicQuery (queries : list Query) : option Query :=
  begin_ ← NewQuery "BEGIN" [];
  commit ← NewQuery "COMMIT" [];
  ConcatenateQueries ((begin_ :: queries) ++ [commit]).

(** ** Escaping *)

(** The byte that follows the backslash, for the bytes that are escaped. *)
Definition escapeByte (c : ascii) : option ascii :=
  let n := N_of_ascii c in
  if (n =? 0)%N then Some "0"%char
  else if (n =? 10)%N then Some "n"%char
  else if (n =? 13)%N then Some "r"%char
  else if (n =? 92)%N then Some (ascii_of_N 92)
  else if (n =? 39)%N then Some (ascii_of_N 39)
  else if (n =? 34)%N then Some (ascii_of_N 34)
  else if (n =? 26)%N then Some "Z"%char
  else None.

(* src/pkg/internal/mysql/escape.go:20-50 Escape *)
Fixpoint Escape (sql : string) : string :=
  match sql with
  | "" => ""
  | String c sql =>
      match escapeByte c with
      | Some e => String (ascii_of_N 92) (String e (Escape sql))
      | None => String c (Escape sql)
      end
  end.

(* src/pkg/internal/mysql/user.go:146-155 escapeID *)
Definition escapeID (id : string) : string :=
  if String.eqb id "*" then id
  else "`" +:+ ReplaceAll id "`" "" +:+ "`".

(** ** Users *)

(* src/pkg/apis/mysql/v1alpha1/mysqluser_types.go:60-67 MysqlPermission *)
Record MysqlPermission := mkPermission {
  Schema : string; Tables : list string; Permissions : list string }.

(** The loop of [getUsersIdentification], from host [i] on. *)
Fixpoint usersIdentification (first : bool) (user : string) (pwd : option string)
    (allowedHosts : list string) : string * list query_arg :=
  match allowedHosts with
  | [] => ("", [])
  | host :: hosts =>
      let (ids, args) := usersIdentification false user pwd hosts in
      let comma := if first then "" else "," in
      match pwd with
      | Some p => (comma +:+ " ?@? IDENTIFIED BY ?" +:+ ids, ArgS user :: ArgS host :: ArgS p :: args)
      | None => (comma +:+ " ?@?" +:+ ids, ArgS user :: ArgS host :: args)
      end
  end.

(* src/pkg/internal/mysql/user.go:88-105 getUsersIdentification *)
Definition getUsersIdentification (user : string) (pwd : option string)
    (allowedHosts : list string) : string * list query_arg :=
  usersIdentification true user pwd allowedHosts.

(* src/pkg/internal/mysql/user.go:82-86 getCreateUserQuery *)
Definition getCreateUserQuery (user pwd : string) (allowedHosts : list string) : option Query :=
  let (idsTmpl, idsArgs) := getUsersIdentification user (Some pwd) allowedHosts in
  NewQuery ("CREATE USER IF NOT EXISTS" +:+ idsTmpl) idsArgs.

Section Users.
(** [Quantity.AsInt64]: the value, 0 when it does not fit. *)
Context (AsInt64 : Quantity → Z).

(** The loop over the resource options. *)
Definition addLimits (resourceOptions : list (string * Quantity)) (q : string) : string :=
  fold_left (λ q kv, q +:+ " " +:+ Escape (fst kv) +:+ " ?") resourceOptions q.

(* src/pkg/internal/mysql/user.go:60-80 getAlterUserQuery *)
Definition getAlterUserQuery (user pwd : string) (allowedHosts : list string)
    (resourceOptions : list (string * Quantity)) : option Query :=
  let (ids, idsArgs) := getUsersIdentification user (Some pwd) allowedHosts in
  let q := "ALTER USER" +:+ ids in
  if (0 <? length resourceOptions)%nat then
    NewQuery (addLimits resourceOptions (q +:+ " WITH"))
      (idsArgs ++ ((λ kv, ArgI (AsInt64 (snd kv))) <$> resourceOptions))
  else NewQuery q idsArgs.

(** The grant on one table. *)
Definition grantQuery (perm : MysqlPermission) (user : string) (allowedHosts : list string)
    (table : string) : option Query :=
  let escPerms := Escape <$> Permissions perm in
  let schemaTable := escapeID (Schema perm) +:+ "." +:+ escapeID table in
  let (idsTmpl, idsArgs) := getUsersIdentification user None allowedHosts in
  NewQuery ("GRANT " +:+ Join escPerms ", " +:+ " ON " +:+ schemaTable +:+ " TO" +:+ idsTmpl) idsArgs.

(* src/pkg/internal/mysql/user.go:117-144 permissionsToQuery *)
Definition permissionsToQuery (permissions : list MysqlPermission) (user : string)
    (allowedHosts : list string) : option Query :=
  permQueries ← mapM (λ pt, grantQuery (fst pt) user allowedHosts (snd pt))
    (perm ← permissions; (λ table, (perm, table)) <$> Tables perm);
  ConcatenateQueries permQueries.

(** The query that [CreateUserIfNotExists] executes: an error, a panic or a
    query. *)
(* src/pkg/internal/mysql/user.go:32-58 CreateUserIfNotExists *)
Definition createUserQuery (user pass : string) (allowedHosts : list string)
    (permissions : list MysqlPermission) (resourceOptions : list (string * Quantity)) :
    result (option Query) :=
  if (length allowedHosts =? 0)%nat then Err (ErrMsg "no allowedHosts specified")
  else Ok (
    create ← getCreateUserQuery user pass allowedHosts;
    alter ← getAlterUserQuery user pass allowedHosts resourceOptions;
    grants ← (if (0 <? length permissions)%nat
              then q ← permissionsToQuery permissions user allowedHosts; Some [q]
              else Some []);
    BuildAtomicQuery ([create; alter] ++ grants)).

End Users.

(* src/pkg/internal/mysql/user.go:108-116 DropUser *)
Definition dropUserQuery (user host : string) : option Query :=
  NewQuery "DROP USER IF EXISTS ?@?;" [ArgS user; ArgS host].

(** ** Databases *)

(* src/pkg/internal/mysql/database.go:24-44 CreateDatabaseIfNotExists *)
Definition createDatabaseQuery (database charset collate : string) : option Query :=
  let query := "CREATE DATABASE IF NOT EXISTS `" +:+ Escape database +:+ "`" in
  let args := [] in
  let (query, args) := if (0 <? String.length charset)%nat
    then (query +:+ " CHARACTER SET ?", args ++ [ArgS charset]) else (query, args) in
  let (query, args) := if (0 <? String.length collate)%nat
    then (query +:+ " COLLATE ?", args ++ [ArgS collate]) else (query, args) in
  NewQuery query args.

(* src/pkg/internal/mysql/database.go:46-55 DropDatabase *)
Definition dropDatabaseQuery (database : string) : option Query :=
  NewQuery ("DROP DATABASE IF EXISTS " +:+ escapeID database) [].

(** ** Properties *)

(** *** Placeholders *)

(** The number of occurrences of a byte. *)
Fixpoint count (c : ascii) (s : string) : nat :=
  match s with
  | "" => 0
  | String d s => (if Ascii.eqb d c then 1 else 0) + count c s
  end.

Lemma count_app c a b : count c (a +:+ b) = (count c a + count c b)%nat.
Proof. induction a as [|d a IH]; [done|]. simpl. rewrite IH. lia. Qed.

(** The arguments of a query fill its placeholders. *)
Definition balanced (q : Query) : Prop := count "?" (escapedQuery q) = length (args q).

Lemma NewQuery_balanced s l q :
  NewQuery s l = Some q → count "?" s = length l → balanced q.
Proof.
  unfold NewQuery, balanced. destruct (String.eqb s ""); [done|]. intros [= <-] Hc. simpl.
  destruct (negb _); [|done]. rewrite count_app, Hc. simpl. lia.
Qed.

Lemma concatStep_fold qs s l :
  Forall balanced qs → count "?" s = length l →
  let r := fold_left concatStep qs (s, l) in count "?" r.1 = length r.2.
Proof.
  intros Hqs. revert s l. induction Hqs as [|q qs Hq _ IH]; intros s l Hc; [done|]. simpl.
  apply IH. rewrite count_app, length_app. unfold balanced in Hq. rewrite Hq.
  destruct (_ && _); rewrite ?count_app, Hc; simpl; lia.
Qed.

Lemma ConcatenateQueries_balanced qs q :
  Forall balanced qs → ConcatenateQueries qs = Some q → balanced q.
Proof.
  intros Hqs. unfold ConcatenateQueries.
  pose proof (concatStep_fold qs "" [] Hqs eq_refl) as Hc. cbv zeta in Hc.
  destruct (fold_left concatStep qs ("", [])) as [s l]. intros E. by apply (NewQuery_balanced _ _ _ E).
Qed.

Lemma count_Escape s : count "?" (Escape s) = count "?" s.
Proof.
  induction s as [|c s IH]; [done|]. simpl. unfold escapeByte.
  repeat match goal with
  | |- context [(N_of_ascii c =? ?n)%N] => destruct (N.eqb_spec (N_of_ascii c) n) as [E|]
  end; simpl; rewrite ?IH; try done;
    apply (f_equal ascii_of_N) in E; rewrite ascii_N_embedding in E; subst c; done.
Qed.

Lemma replace_from_1_count (c d : ascii) s :
  c ≠ d → count c (ReplaceAll s (String d "") "") = count c s.
Proof.
  intros Hne. unfold ReplaceAll. induction s as [|e s IH]; [done|]. simpl.
  rewrite andb_true_r. destruct (Ascii.eqb_spec d e) as [->|]; simpl; rewrite IH; [|done].
  destruct (Ascii.eqb_spec e c) as [->|]; [done|]. done.
Qed.

Lemma count_escapeID s : count "?" (escapeID s) = count "?" s.
Proof.
  unfold escapeID. destruct (String.eqb s "*"); [done|].
  rewrite !count_app, replace_from_1_count by done. simpl. lia.
Qed.

Lemma count_Join xs sep :
  count "?" sep = 0%nat → Forall (λ s, count "?" s = 0%nat) xs → count "?" (Join xs sep) = 0%nat.
Proof.
  intros Hs Hxs. induction Hxs as [|x xs Hx Hxs IH]; [done|]. simpl.
  destruct xs; [done|]. by rewrite !count_app, Hx, Hs, IH.
Qed.

Lemma usersIdentification_count first user pwd hosts :
  let r := usersIdentification first user pwd hosts in count "?" r.1 = length r.2.
Proof.
  revert first. induction hosts as [|h hosts IH]; intros first; [done|]. simpl.
  specialize (IH false). destruct (usersIdentification false user pwd hosts) as [ids l]. simpl in IH.
  destruct pwd, first; simpl; by rewrite IH.
Qed.

(** Names that do not look like a placeholder. *)
Definition plain (s : string) : Prop := count "?" s = 0%nat.

Definition plainPermission (p : MysqlPermission) : Prop :=
  plain (Schema p) ∧ Forall plain (Tables p) ∧ Forall plain (Permissions p).

Section CreateUser.
Context (AsInt64 : Quantity → Z).

Lemma getCreateUserQuery_balanced user pwd hosts q :
  getCreateUserQuery user pwd hosts = Some q → balanced q.
Proof.
  unfold getCreateUserQuery, getUsersIdentification.
  pose proof (usersIdentification_count true user (Some pwd) hosts) as Hc. cbv zeta in Hc.
  destruct (usersIdentification _ _ _ _) as [ids l]. simpl in Hc. intros E. apply (NewQuery_balanced _ _ _ E).
  by rewrite count_app.
Qed.

Lemma limits_count (limits : list (string * Quantity)) s :
  Forall (λ kv, plain kv.1) limits →
  count "?" (addLimits limits s) =
    (count "?" s + length limits)%nat.
Proof.
  intros Hl. unfold addLimits. revert s.
  induction Hl as [|kv limits Hkv _ IH]; intros s; simpl; [lia|].
  unfold plain in Hkv. rewrite IH, count_app. simpl. rewrite count_app, count_Escape, Hkv. simpl. lia.
Qed.

Lemma getAlterUserQuery_balanced user pwd hosts limits q :
  Forall (λ kv, plain kv.1) limits →
  getAlterUserQuery AsInt64 user pwd hosts limits = Some q → balanced q.
Proof.
  intros Hl. unfold getAlterUserQuery, getUsersIdentification.
  pose proof (usersIdentification_count true user (Some pwd) hosts) as Hc. cbv zeta in Hc.
  destruct (usersIdentification _ _ _ _) as [ids l]. simpl in Hc.
  destruct (0 <? length limits)%nat; intros E; apply (NewQuery_balanced _ _ _ E).
  - rewrite limits_count by done. rewrite !count_app, Hc, length_app, length_fmap. simpl. lia.
  - by rewrite count_app.
Qed.

Lemma grantQuery_balanced perm user hosts table q :
  plainPermission perm → plain table → grantQuery perm user hosts table = Some q → balanced q.
Proof.
  intros (Hs & _ & Hp) Ht. unfold grantQuery, getUsersIdentification.
  pose proof (usersIdentification_count true user None hosts) as Hc. cbv zeta in Hc.
  destruct (usersIdentification _ _ _ _) as [ids l]. simpl in Hc.
  intros E. apply (NewQuery_balanced _ _ _ E). unfold plain in *.
  rewrite !count_app, !count_escapeID, Hs, Ht, Hc, count_Join; [done|done|].
  apply Forall_fmap. eapply Forall_impl; [exact Hp|]. intros s Hx. simpl. by rewrite count_Escape.
Qed.
End CreateUser.

(** *** Whole queries *)

Lemma concatStep_eq s l q :
  ∃ sep, concatStep (s, l) q = (s +:+ sep +:+ escapedQuery q, l ++ args q).
Proof.
  unfold concatStep. destruct (_ && _); [exists newline|exists ""]; by rewrite ?str_app_assoc.
Qed.

Lemma concat_prefix qs s l : ∃ t, (fold_left concatStep qs (s, l)).1 = s +:+ t.
Proof.
  revert s l. induction qs as [|q qs IH]; intros s l; cbn [fold_left].
  { exists "". by rewrite str_app_nil_r. }
  destruct (concatStep_eq s l q) as [sep ->].
  destruct (IH (s +:+ sep +:+ escapedQuery q) (l ++ args q)) as [t ->].
  rewrite !str_app_assoc. by eexists.
Qed.

(** A transaction around the queries. *)
Lemma BuildAtomicQuery_Some qs :
  ∃ q t, BuildAtomicQuery qs = Some q ∧ escapedQuery q = "BEGIN;" +:+ t +:+ "COMMIT;" ∧
    (Forall balanced qs → balanced q).
Proof.
  unfold BuildAtomicQuery. simpl. set (b := mkQuery "BEGIN;" []). set (e := mkQuery "COMMIT;" []).
  assert (Hex : ∃ q t, ConcatenateQueries (b :: qs ++ [e]) = Some q ∧
    escapedQuery q = "BEGIN;" +:+ t +:+ "COMMIT;").
  { unfold ConcatenateQueries. cbn [fold_left]. rewrite fold_left_app.
    change (concatStep ("", []) b) with ("BEGIN;", @nil query_arg).
    destruct (concat_prefix qs "BEGIN;" []) as [t Ht].
    destruct (fold_left concatStep qs ("BEGIN;", [])) as [s l]. cbn [fst] in Ht. subst s. cbn [fold_left].
    destruct (concatStep_eq ("BEGIN;" +:+ t) l e) as [sep ->].
    unfold NewQuery. rewrite str_app_assoc, <-(str_app_assoc t).
    assert (HasSuffix ("BEGIN;" +:+ (t +:+ sep) +:+ escapedQuery e) ";" = true) as ->.
    { apply HasSuffix_spec. exists ("BEGIN;" +:+ (t +:+ sep) +:+ "COMMIT"). by rewrite !str_app_assoc. }
    simpl. by eexists _, (t +:+ sep). }
  destruct Hex as (q & t & Hq & Ht). exists q, t. split_and!; [exact Hq|exact Ht|].
  intros Hb. refine (ConcatenateQueries_balanced _ _ _ Hq).
  constructor; [done|]. apply Forall_app. split; [done|]. by repeat constructor.
Qed.

Lemma NewQuery_nonempty s l q : NewQuery s l = Some q → escapedQuery q ≠ "".
Proof.
  unfold NewQuery. destruct (String.eqb_spec s ""); [done|]. intros [= <-]. simpl.
  destruct (negb _); [|done]. by destruct s.
Qed.

Lemma ConcatenateQueries_None qs :
  Forall (λ q, escapedQuery q ≠ "") qs → ConcatenateQueries qs = None ↔ qs = [].
Proof.
  intros Hqs. unfold ConcatenateQueries. destruct Hqs as [|q qs Hq _]; [done|]. simpl.
  destruct (concat_prefix qs (escapedQuery q) (args q)) as [t Ht].
  destruct (fold_left concatStep qs _) as [s l]. simpl in Ht. subst s. unfold NewQuery.
  destruct (String.eqb_spec (escapedQuery q +:+ t) "") as [E|]; [|done].
  by destruct (escapedQuery q).
Qed.

Lemma addLimits_nonempty limits s : s ≠ "" → addLimits limits s ≠ "".
Proof.
  unfold addLimits. revert s. induction limits as [|kv limits IH]; intros s Hs; [done|]. simpl.
  apply IH. by destruct s.
Qed.

Lemma grantQuery_Some perm user hosts table : is_Some (grantQuery perm user hosts table).
Proof.
  unfold grantQuery. destruct (getUsersIdentification _ _ _). unfold NewQuery. simpl.
  by eexists.
Qed.

(** The tables on which something is granted. *)
Definition grants (permissions : list MysqlPermission) : list (MysqlPermission * string) :=
  perm ← permissions; (λ table, (perm, table)) <$> Tables perm.

Lemma permissionsToQuery_None perms user hosts :
  permissionsToQuery perms user hosts = None ↔ grants perms = [].
Proof.
  unfold permissionsToQuery. fold (grants perms). generalize (grants perms). intros l.
  destruct (mapM _ l) as [qs|] eqn:E; simpl.
  - apply mapM_Some in E. rewrite ConcatenateQueries_None.
    + split; intros ->; [by apply Forall2_nil_inv_r in E|by apply Forall2_nil_inv_l in E].
    + clear -E. induction E as [|[p t] q l qs Hq _ IH]; constructor; [|done].
      unfold grantQuery in Hq. destruct (getUsersIdentification _ _ _). by eapply NewQuery_nonempty.
  - exfalso. apply eq_None_not_Some in E. apply E. apply mapM_is_Some, Forall_forall.
    intros [p t] _. exact (grantQuery_Some p user hosts t).
Qed.

Lemma permissionsToQuery_balanced perms user hosts q :
  Forall plainPermission perms → permissionsToQuery perms user hosts = Some q → balanced q.
Proof.
  intros Hp. unfold permissionsToQuery. fold (grants perms).
  assert (Hg : Forall (λ pt, plainPermission pt.1 ∧ plain pt.2) (grants perms)).
  { apply Forall_forall. intros [p t] (p' & Hin & Hp')%list_elem_of_bind.
    apply list_elem_of_fmap in Hin as (t' & [= -> ->] & Ht').
    rewrite Forall_forall in Hp. destruct (Hp p' Hp') as (? & Htab & ?).
    split; [done|]. rewrite Forall_forall in Htab. by apply Htab. }
  generalize dependent (grants perms). intros l Hg.
  destruct (mapM _ l) as [qs|] eqn:E; [|done]. simpl. apply ConcatenateQueries_balanced.
  apply mapM_Some in E. induction E as [|[p t] q' l qs Hq _ IH]; constructor.
  - apply Forall_cons in Hg as [[? ?] _]. by eapply grantQuery_balanced.
  - apply IH. by apply Forall_cons in Hg as [_ ?].
Qed.

(** [CreateUserIfNotExists], whose only failure before the server is asked is
    an empty list of hosts: the query is one transaction, and it has exactly as
    many placeholders as arguments, whatever user, password and hosts are (the
    names that are written into the query must not contain a question mark).
    [NewQuery] panics, without any query, exactly when there are permissions but
    none of them names a table. *)
Theorem createUserQuery_spec (AsInt64 : Quantity → Z) (user pass : string)
    (hosts : list string) (permissions : list MysqlPermission) (limits : list (string * Quantity)) :
  hosts ≠ [] → Forall plainPermission permissions → Forall (λ kv, plain kv.1) limits →
  match createUserQuery AsInt64 user pass hosts permissions limits with
  | Ok (Some q) =>
      count "?" (escapedQuery q) = length (args q) ∧
      (∃ t, escapedQuery q = "BEGIN;" +:+ t +:+ "COMMIT;") ∧
      (permissions = [] ∨ grants permissions ≠ [])
  | Ok None => permissions ≠ [] ∧ grants permissions = []
  | Err _ => False
  end.
Proof.
  intros Hh Hp Hl. unfold createUserQuery. destruct hosts as [|host hosts]; [done|]. simpl length.
  simpl Nat.eqb. cbv iota.
  assert (Hc : ∃ q, getCreateUserQuery user pass (host :: hosts) = Some q).
  { unfold getCreateUserQuery. destruct (getUsersIdentification _ _ _). by eexists. }
  assert (Ha : ∃ q, getAlterUserQuery AsInt64 user pass (host :: hosts) limits = Some q).
  { unfold getAlterUserQuery. destruct (getUsersIdentification _ _ _) as [ids l].
    destruct (0 <? _)%nat; [|by eexists]. unfold NewQuery.
    destruct (String.eqb_spec (addLimits limits (("ALTER USER" +:+ ids) +:+ " WITH")) "") as [E|];
      [|by eexists]. by apply addLimits_nonempty in E. }
  destruct Hc as [q1 Hq1], Ha as [q2 Hq2]. rewrite Hq1, Hq2. simpl.
  apply getCreateUserQuery_balanced in Hq1. apply getAlterUserQuery_balanced in Hq2; [|done].
  destruct permissions as [|perm perms]; simpl Nat.ltb; cbv iota; simpl.
  - destruct (BuildAtomicQuery_Some [q1; q2]) as (q & t & -> & Ht & Hb).
    split_and!; [|by exists t|by left]. apply Hb. by repeat constructor.
  - pose proof (permissionsToQuery_None (perm :: perms) user (host :: hosts)) as Hnone.
    destruct (permissionsToQuery _ _ _) as [q3|] eqn:Hq3; simpl.
    + destruct (BuildAtomicQuery_Some [q1; q2; q3]) as (q & t & -> & Ht & Hb).
      apply permissionsToQuery_balanced in Hq3; [|done].
      split_and!; [|by exists t|]. { apply Hb. by repeat constructor. }
      right. intros Hg. by apply Hnone in Hg.
    + split; [done|]. by apply Hnone.
Qed.

(** *** Escaping *)

(** The byte that MySQL reads for a backslash and a byte in a string literal (the
    escape sequences of the MySQL manual; every other byte stands for itself). *)
Definition unescapeByte (c : ascii) : ascii :=
  let n := N_of_ascii c in
  if (n =? 48)%N then ascii_of_N 0
  else if (n =? 98)%N then ascii_of_N 8
  else if (n =? 110)%N then ascii_of_N 10
  else if (n =? 114)%N then ascii_of_N 13
  else if (n =? 116)%N then ascii_of_N 9
  else if (n =? 90)%N then ascii_of_N 26
  else c.

(** How MySQL reads a string literal after its opening quote: the value and what
    follows the closing quote; a doubled quote is a quote. *)
Fixpoint readLiteral (quote : ascii) (s : string) : option (string * string) :=
  match s with
  | "" => None
  | String c rest =>
      if Ascii.eqb c (ascii_of_N 92) then
        match rest with
        | "" => None
        | String d rest =>
            '(v, after) ← readLiteral quote rest; Some (String (unescapeByte d) v, after)
        end
      else if Ascii.eqb c quote then
        match rest with
        | String d rest' =>
            if Ascii.eqb d quote then
              '(v, after) ← readLiteral quote rest'; Some (String quote v, after)
            else Some ("", rest)
        | "" => Some ("", "")
        end
      else '(v, after) ← readLiteral quote rest; Some (String c v, after)
  end.

Lemma escapeByte_Some c e : escapeByte c = Some e → unescapeByte e = c.
Proof.
  intros E. destruct c as [[] [] [] [] [] [] [] []]; vm_compute in E;
    first [discriminate E | injection E as <-; reflexivity].
Qed.

Lemma escapeByte_None c :
  escapeByte c = None →
  Ascii.eqb c (ascii_of_N 92) = false ∧ Ascii.eqb c (ascii_of_N 39) = false ∧
  Ascii.eqb c (ascii_of_N 34) = false.
Proof. destruct c as [[] [] [] [] [] [] [] []]; vm_compute; try discriminate; auto. Qed.

(** C39. An escaped string never leaves its quotes: between single or double
    quotes, MySQL reads exactly the original string, and what follows the
    closing quote is untouched. *)
Theorem Escape_literal (quote : ascii) (s rest : string) :
  quote = ascii_of_N 39 ∨ quote = ascii_of_N 34 → HasPrefix rest (String quote "") = false →
  readLiteral quote (Escape s +:+ String quote rest) = Some (s, rest).
Proof.
  intros Hq Hrest. induction s as [|c s IH].
  - cbn [Escape String.append readLiteral].
    assert (Ascii.eqb quote (ascii_of_N 92) = false) as -> by (by destruct Hq as [-> | ->]).
    rewrite Ascii.eqb_refl. destruct rest as [|d rest]; [done|]. simpl in Hrest.
    rewrite andb_true_r, Ascii.eqb_sym in Hrest. by rewrite Hrest.
  - cbn [Escape]. destruct (escapeByte c) as [e|] eqn:E; cbn [String.append readLiteral].
    + rewrite Ascii.eqb_refl, IH. simpl. by rewrite (escapeByte_Some _ _ E).
    + destruct (escapeByte_None _ E) as (-> & H39 & H34).
      assert (Ascii.eqb c quote = false) as -> by (by destruct Hq as [-> | ->]).
      by rewrite IH.
Qed.

Lemma Escape_literal_witness :
  readLiteral (ascii_of_N 39) (Escape "it's" +:+ "' OR 1=1") = Some ("it's", " OR 1=1").
Proof. apply (Escape_literal (ascii_of_N 39) "it's" " OR 1=1"); [by left|reflexivity]. Defined.

Lemma ReplaceAll_removes c s : count c (ReplaceAll s (String c "") "") = 0%nat.
Proof.
  unfold ReplaceAll. induction s as [|d s IH]; [done|]. cbn [replace_from HasPrefix].
  rewrite andb_true_r. destruct (Ascii.eqb_spec c d) as [->|Hne]; [exact IH|]. simpl.
  destruct (Ascii.eqb_spec d c); [congruence|exact IH].
Qed.

(** An identifier of a grant, and the name in [DROP DATABASE], never leave their
    backticks: [escapeID] gives [*] or a text without backticks between two of
    them.  [CREATE DATABASE] does not have this property: it uses [Escape], which
    leaves a backtick alone, so the name of a database can end the identifier. *)
Theorem escapeID_quoted (id : string) :
  (escapeID id = "*" ∨ ∃ t, escapeID id = "`" +:+ t +:+ "`" ∧ count "`" t = 0%nat) ∧
  (∃ name q, createDatabaseQuery name "" "" = Some q ∧
     escapedQuery q = "CREATE DATABASE IF NOT EXISTS `a`; DROP TABLE `t`;").
Proof.
  split.
  - unfold escapeID. destruct (String.eqb_spec id "*") as [->|]; [by left|]. right.
    exists (ReplaceAll id "`" ""). split; [done|apply ReplaceAll_removes].
  - by exists "a`; DROP TABLE `t", (mkQuery "CREATE DATABASE IF NOT EXISTS `a`; DROP TABLE `t`;" []).
Qed.

Lemma createUserQuery_spec_witness :
  ∃ q, createUserQuery (λ _, 7%Z) "app" "pw" ["%"; "10.0.0.1"]
         [mkPermission "db" ["*"; "t"] ["SELECT"; "INSERT"]] [("MAX_USER_CONNECTIONS", "7")] = Ok (Some q) ∧
       count "?" (escapedQuery q) = length (args q) ∧ length (args q) = 21%nat.
Proof.
  assert (Hp : Forall plainPermission [mkPermission "db" ["*"; "t"] ["SELECT"; "INSERT"]]).
  { repeat constructor. }
  assert (Hl : Forall (λ kv : string * Quantity, plain kv.1) [("MAX_USER_CONNECTIONS", "7")]).
  { repeat constructor. }
  pose proof (createUserQuery_spec (λ _, 7%Z) "app" "pw" ["%"; "10.0.0.1"] _ _ ltac:(discriminate) Hp Hl) as Hq.
  destruct (createUserQuery _ _ _ _ _ _) as [[q|]|e] eqn:E.
  - exists q. split; [done|]. destruct Hq as [Hq _]. split; [exact Hq|].
    vm_compute in E. injection E as <-. reflexivity.
  - vm_compute in E. discriminate E.
  - vm_compute in E. discriminate E.
Defined.
