(* ===== verification/MysqlObjects.v ===== *)
(** * Users and databases: what their controllers share

    The API types [MysqlUser] and [MysqlDatabase], their conditions
    ([pkg/internal/mysqluser], [pkg/internal/mysqldatabase]: the same update in
    both), the deletion policy, and the connection to the master of a cluster
    ([pkg/internal/mysql/mysql.go]).

    The functions on finalizers belong to [presslabs/controller-util]: they are
    the class [FinalizerMeta], and what the code relies on is
    [FinalizerMetaLaws]. *)

From S2P Require Import Prelude GoStrings Semver ClusterTypes Versioning ClusterStatus ClusterModel.
From S2P Require Import MysqlQuery.
Open Scope stdpp_scope.

(** ** API types *)

(* src/pkg/apis/mysql/v1alpha1/mysqluser_types.go:28-32 ClusterReference *)
Record ClusterReference := mkClusterRef { cr_Name : string; cr_Namespace : string }.

(** The conditions of users and of databases have the same fields. *)
(* src/pkg/apis/mysql/v1alpha1/mysqluser_types.go:93-109 MySQLUserCondition *)
Record ObjCondition := mkObjCondition {
  oc_Type : string; oc_Status : ConditionStatus; oc_LastUpdateTime : Z;
  oc_LastTransitionTime : Z; oc_Reason : string; oc_Message : string }.

#[export] Instance ObjCondition_eq_dec : EqDecision ObjCondition.
Proof. solve_decision. Defined.

(** [MySQLUserReady] and [MysqlDatabaseReady]. *)
Definition ObjReady : string := "Ready".
Definition ProvisionFailedReason : string := "ProvisionFailed".
Definition ProvisionSucceededReason : string := "ProvisionSucceeded".

(** ** Conditions *)

(** The update of a list of conditions, at the first condition of the type. *)
(* src/pkg/internal/mysqluser/mysqluser.go:54-98 UpdateStatusCondition *)
Fixpoint updateObjCondition (now : Z) (condType : string) (status : ConditionStatus)
    (reason message : string) (conds : list ObjCondition) : list ObjCondition :=
  match conds with
  | [] => [mkObjCondition condType status now now reason message]
  | c :: conds =>
      if String.eqb (oc_Type c) condType then
        mkObjCondition (oc_Type c) status
          (if negb (String.eqb message (oc_Message c)) || negb (String.eqb reason (oc_Reason c))
           then now else oc_LastUpdateTime c)
          (if negb (bool_decide (status = oc_Status c)) then now else oc_LastTransitionTime c)
          reason message :: conds
      else c :: updateObjCondition now condType status reason message conds
  end.

(* src/pkg/internal/mysqluser/mysqluser.go:101-114 ConditionExists *)
Definition ObjConditionExists (ct : string) (conds : list ObjCondition) : option ObjCondition :=
  List.find (λ c, String.eqb (oc_Type c) ct) conds.

(** ** Deletion policy and finalizers *)

(* src/pkg/apis/mysql/v1alpha1/common_types.go:38-42 DeletionPolicyRetain *)
Definition DeletionPolicyRetain (m : ObjectMeta) : bool :=
  match om_Annotations m with
  | Some annotations => String.eqb (default "" (annotations !! AnnotationResourceDeletionPolicy)) "retain"
  | None => false
  end.

Definition with_Finalizers (l : list string) (m : ObjectMeta) : ObjectMeta :=
  mkMeta (om_Name m) (om_Namespace m) (om_UID m) (om_Labels m) (om_Annotations m) l
    (om_CreationTimestamp m) (om_DeletionTimestamp m).

Class FinalizerMeta := {
  HasFinalizer : ObjectMeta → string → bool;
  AddFinalizer : ObjectMeta → string → ObjectMeta;
  RemoveFinalizer : ObjectMeta → string → ObjectMeta }.

(** They write the list of finalizers and nothing else; a finalizer that was
    added is there, and one that is removed from a list without duplicates is not. *)
Class FinalizerMetaLaws `{!FinalizerMeta} : Prop := {
  AddFinalizer_frame m f : ∃ l, AddFinalizer m f = with_Finalizers l m;
  RemoveFinalizer_frame m f : ∃ l, RemoveFinalizer m f = with_Finalizers l m;
  HasFinalizer_Add m f : HasFinalizer (AddFinalizer m f) f = true;
  RemoveFinalizer_unique m f : NoDup (om_Finalizers m) →
    om_Finalizers (RemoveFinalizer m f) = List.filter (λ g, negb (String.eqb g f)) (om_Finalizers m) }.

(** The functions on lists without duplicates, for examples. *)
Module RefFinalizers.
#[local] Instance meta : FinalizerMeta := {|
  HasFinalizer m f := bool_decide (f ∈ om_Finalizers m);
  AddFinalizer m f := if bool_decide (f ∈ om_Finalizers m) then m
                      else with_Finalizers (om_Finalizers m ++ [f]) m;
  RemoveFinalizer m f := with_Finalizers (List.filter (λ g, negb (String.eqb g f)) (om_Finalizers m)) m |}.

#[local] Instance meta_laws : FinalizerMetaLaws.
Proof.
  split; intros m f; simpl.
  - destruct (bool_decide _); [|by eexists]. exists (om_Finalizers m). by destruct m.
  - by eexists.
  - apply bool_decide_eq_true. destruct (bool_decide _) eqn:E; simpl.
    + by apply bool_decide_eq_true in E.
    + apply elem_of_app. right. by left.
  - done.
Qed.
End RefFinalizers.

(** ** Connections *)

(* src/pkg/internal/mysql/mysql.go:38-43 Config *)
Record Config := mkConfig { cfg_User : string; cfg_Password : string; cfg_Host : string; cfg_Port : Z }.

(* src/pkg/internal/mysql/mysql.go:68-72 GetMysqlDSN *)
Definition GetMysqlDSN (c : Config) : string :=
  cfg_User c +:+ ":" +:+ cfg_Password c +:+ "@tcp(" +:+ cfg_Host c +:+ ":" +:+ itoa (cfg_Port c) +:+
  ")/?timeout=5s&multiStatements=true&interpolateParams=true".

(** What a controller needs of its effects to reach the database: the cluster and
    the secrets of the API server, [sql.Open] and [SQLRunner.QueryExec]. *)
Class Connection (Op : Type) `{!Effect Op} := {
  conn_cluster : string → string → prog Op (result MysqlCluster);
  conn_secret : string → string → prog Op (result (gmap string string));
  conn_open : Config → prog Op (result unit);
  conn_exec : Config → Query → prog Op (result unit) }.

Section Connect.
Context {Op : Type} `{!Effect Op, !Connection Op}.

(* src/pkg/internal/mysql/mysql.go:46-65 NewConfigFromClusterKey *)
Definition NewConfigFromClusterKey (clusterKey : string * string) : prog Op (result Config) :=
  cluster <-? conn_cluster (fst clusterKey) (snd clusterKey);
  data <-? conn_secret (cl_Namespace cluster) (SecretName (cl_Spec cluster));
  mret (Ok (mkConfig "root" (default "" (data !! "ROOT_PASSWORD"))
    (cl_Name cluster +:+ "-mysql-master." +:+ cl_Namespace cluster) 3306)).

(* src/pkg/internal/mysql/mysql.go:96-118 NewSQLRunner *)
Definition NewSQLRunner (cfg : result Config) : prog Op (result Config) :=
  match cfg with
  | Err e => mret (Err e)
  | Ok cfg => _ <-? conn_open cfg; mret (Ok cfg)
  end.

Definition connect (clusterKey : string * string) : prog Op (result Config) :=
  cfg ← NewConfigFromClusterKey clusterKey; NewSQLRunner cfg.

(** The calls of a connection are allowed by the rule [R], an error that they
    return is recorded ([failed]), and so is a query that succeeds ([ran]). *)
Class ConnectionKeeps (R : event Op → list (event Op) → Prop)
    (failed : error → list (event Op) → Prop) (ran : Query → list (event Op) → Prop) : Prop := {
  failed_stable err : stable (failed err);
  ran_stable q : stable (ran q);
  conn_cluster_keeps P ns name :
    keeps R P (conn_cluster ns name) (λ r h, ∀ e, r = Err e → failed e h);
  conn_secret_keeps P ns name :
    keeps R P (conn_secret ns name) (λ r h, ∀ e, r = Err e → failed e h);
  conn_open_keeps P cfg : keeps R P (conn_open cfg) (λ r h, ∀ e, r = Err e → failed e h);
  conn_exec_keeps P cfg q : keeps R P (conn_exec cfg q) (λ r h, r = Ok tt → ran q h) }.

Context R failed ran `{!ConnectionKeeps R failed ran}.

Lemma failure_stable {A} (r : result A) : stable (λ h, ∀ e, r = Err e → failed e h).
Proof. intros h ev Hr e ->. by apply failed_stable, Hr. Qed.

Lemma connect_keeps P key :
  keeps R P (connect key) (λ r h, ∀ e, r = Err e → failed e h).
Proof.
  eapply (keeps_bind _ _ (λ r h, ∀ e, r = Err e → failed e h)); [|apply failure_stable|].
  - eapply keeps_try; [apply conn_cluster_keeps|apply failure_stable| |].
    + intros cl. eapply keeps_try; [apply conn_secret_keeps|apply failure_stable| |].
      * intros data. by apply keeps_ret.
      * intros e h _ Hf e' [= <-]. by apply Hf.
    + intros e h _ Hf e' [= <-]. by apply Hf.
  - intros [cfg|e]; simpl.
    + eapply keeps_try; [apply conn_open_keeps|apply failure_stable| |].
      * intros ?. by apply keeps_ret.
      * intros e h _ Hf e' [= <-]. by apply Hf.
    + apply keeps_ret. intros h [_ Hf] e' [= <-]. by apply Hf.
Qed.

End Connect.

(** ** Properties *)

(** Whether the condition of a type is true. *)
Definition condTrue (ct : string) (conds : list ObjCondition) : bool :=
  match ObjConditionExists ct conds with
  | Some c => bool_decide (oc_Status c = ConditionTrue)
  | None => false
  end.

Lemma updateObjCondition_exists now ct status reason message conds :
  ∃ c, ObjConditionExists ct (updateObjCondition now ct status reason message conds) = Some c ∧
    oc_Status c = status ∧ oc_Reason c = reason ∧ oc_Message c = message.
Proof.
  unfold ObjConditionExists. induction conds as [|c conds IH]; simpl.
  { rewrite String.eqb_refl. by eexists. }
  destruct (String.eqb (oc_Type c) ct) eqn:E; simpl; rewrite E; [by eexists|exact IH].
Qed.

Lemma updateObjCondition_condTrue now ct status reason message conds :
  condTrue ct (updateObjCondition now ct status reason message conds) =
    bool_decide (status = ConditionTrue).
Proof.
  unfold condTrue.
  destruct (updateObjCondition_exists now ct status reason message conds) as (c & -> & -> & _). done.
Qed.

(** An update with what is there already changes nothing. *)
Lemma updateObjCondition_idem now now' ct status reason message conds :
  let conds' := updateObjCondition now ct status reason message conds in
  updateObjCondition now' ct status reason message conds' = conds'.
Proof.
  simpl. induction conds as [|c conds IH]; simpl.
  { by rewrite !String.eqb_refl, bool_decide_eq_true_2. }
  destruct (String.eqb (oc_Type c) ct) eqn:E; simpl; rewrite E.
  - by rewrite !String.eqb_refl, bool_decide_eq_true_2.
  - by rewrite IH.
Qed.
