(* ===== verification/Finalizers.v ===== *)
(** * Finalizers

    [addFinalizer] and [removeFinalizer] of the Orchestrator controller
    ([pkg/controller/orchestrator/orchestrator_syncers.go]), and the same loop of
    the backup controller ([deletionjob.go]).

    [removeFinalizer] changes the slice that it ranges over, so the model has the
    backing array and the length of the slice: the range is over the array as it
    was entered (its length is fixed, its contents are not), while
    [append(s[:i], s[i+1:]...)] moves elements within that array and shortens the
    slice, and [s[i+1:]] panics beyond its length. *)

From S2P Require Import Prelude GoStrings ClusterTypes MysqlObjects.
Open Scope stdpp_scope.

(** ** The operations *)

(* src/pkg/controller/orchestrator/orchestrator_syncers.go:59-73 addFinalizer *)
Definition addFinalizer (finalizers : list string) (finalizer : string) : list string :=
  if existsb (λ f, String.eqb f finalizer) finalizers then finalizers
  else finalizers ++ [finalizer].

(** A slice: its backing array, from its first element on, and its length. *)
Record slice := mkSlice { sl_array : list string; sl_len : nat }.

Definition slice_list (s : slice) : list string := take (sl_len s) (sl_array s).

(** [append(s[:i], s[i+1:]...)], in place; [None] is a panic. *)
Definition removeAt (s : slice) (i : nat) : option slice :=
  if (S i <=? sl_len s)%nat then
    Some (mkSlice (take i (sl_array s) ++ drop (S i) (slice_list s) ++ drop (sl_len s - 1) (sl_array s))
            (sl_len s - 1))
  else None.

(** The loop from index [i] on, [n] elements being left. *)
Fixpoint removeLoop (finalizer : string) (n i : nat) (s : slice) : option slice :=
  match n with
  | 0%nat => Some s
  | S n =>
      s ← (if String.eqb (default "" (sl_array s !! i)) finalizer then removeAt s i else Some s);
      removeLoop finalizer n (S i) s
  end.

(* src/pkg/controller/orchestrator/orchestrator_syncers.go:75-85 removeFinalizer *)
Definition removeFinalizer (finalizers : list string) (finalizer : string) : option (list string) :=
  slice_list <$> removeLoop finalizer (length finalizers) 0 (mkSlice finalizers (length finalizers)).

(** ** Properties *)

Definition without (f : string) (l : list string) : list string :=
  List.filter (λ g, negb (String.eqb g f)) l.

Lemma without_absent f l : f ∉ l → without f l = l.
Proof.
  induction l as [|g l IH]; [done|]. intros [Hne Hl]%not_elem_of_cons. simpl.
  destruct (String.eqb_spec g f) as [->|_]; [done|]. simpl. by rewrite IH.
Qed.

Lemma elem_of_without f g l : g ∈ without f l ↔ g ∈ l ∧ g ≠ f.
Proof.
  unfold without. rewrite !list_elem_of_In, filter_In.
  destruct (String.eqb_spec g f); naive_solver.
Qed.

(** The loop does nothing when what is left of the array has no such element. *)
Lemma removeLoop_absent f n : ∀ i s,
  (∀ j, (i ≤ j < i + n)%nat → default "" (sl_array s !! j) ≠ f) →
  removeLoop f n i s = Some s.
Proof.
  induction n as [|n IH]; [done|]. intros i s Hj. simpl.
  destruct (String.eqb_spec (default "" (sl_array s !! i)) f) as [E|_].
  - exfalso. apply (Hj i); [lia|done].
  - simpl. apply IH. intros j ?. apply Hj. lia.
Qed.

Lemma removeLoop_skip f (l1 : list string) : ∀ n i s,
  (∀ j, (i ≤ j < i + length l1)%nat → default "" (sl_array s !! j) ≠ f) →
  removeLoop f (length l1 + n) i s = removeLoop f n (i + length l1) s.
Proof.
  induction l1 as [|x l1 IH]; intros n i s Hj; simpl.
  { by rewrite Nat.add_0_r. }
  destruct (String.eqb_spec (default "" (sl_array s !! i)) f) as [E|_].
  - exfalso. simpl in Hj. apply (Hj i); [lia|done].
  - simpl. rewrite IH; [f_equal; lia|]. intros j ?. apply Hj. simpl. lia.
Qed.

Lemma removeFinalizer_absent f l : f ∉ l → removeFinalizer l f = Some l.
Proof.
  intros Hf. unfold removeFinalizer. rewrite removeLoop_absent; simpl.
  - unfold slice_list. simpl. by rewrite firstn_all.
  - intros j Hj. destruct (lookup_lt_is_Some_2 l j ltac:(lia)) as [x Hx]. rewrite Hx. simpl.
    intros ->. by apply list_elem_of_lookup_2 in Hx.
Qed.

(** The removed element is gone from the slice, and one stale element is left
    behind it in the array. *)
Lemma removeAt_app f (l1 l2 : list string) :
  ∃ y, removeAt (mkSlice (l1 ++ f :: l2) (length (l1 ++ f :: l2))) (length l1) =
    Some (mkSlice (l1 ++ l2 ++ [y]) (length (l1 ++ l2))) ∧ y ∈ f :: l2 ∧ (l2 ≠ [] → y ∈ l2).
Proof.
  set (n := length (l1 ++ f :: l2)).
  assert (n = (length l1 + S (length l2))%nat) as En by (subst n; rewrite length_app; done).
  unfold removeAt, slice_list. cbn [sl_array sl_len].
  rewrite (proj2 (Nat.leb_le _ _)) by lia. subst n. rewrite firstn_all, take_app_length.
  replace (drop (S (length l1)) (l1 ++ f :: l2)) with l2
    by (rewrite drop_app_ge, Nat.sub_succ_l, Nat.sub_diag by lia; done).
  replace (length (l1 ++ f :: l2) - 1)%nat with (length (l1 ++ l2)) by (rewrite En, length_app; lia).
  destruct l2 as [|z l2 _] using rev_ind.
  - exists f. rewrite app_nil_r, drop_app_length. split_and!; [done|by left|done].
  - exists z. split_and!; [|right; apply elem_of_app; right; by left|intros _; apply elem_of_app; right; by left].
    replace (drop _ (l1 ++ f :: l2 ++ [z])) with [z]; [done|].
    rewrite app_comm_cons, (assoc_L (++) l1 (f :: l2) [z]), drop_app_length'; [done|].
    rewrite !length_app. simpl. lia.
Qed.

Lemma removeFinalizer_once f (l1 l2 : list string) :
  f ∉ l1 → f ∉ l2 → removeFinalizer (l1 ++ f :: l2) f = Some (l1 ++ l2).
Proof.
  intros H1 H2. unfold removeFinalizer.
  replace (length (l1 ++ f :: l2)) with (length l1 + S (length l2))%nat at 1 by (by rewrite length_app).
  rewrite removeLoop_skip.
  2:{ intros j Hj. simpl. rewrite lookup_app_l by lia.
      destruct (lookup_lt_is_Some_2 l1 j ltac:(lia)) as [x Hx]. rewrite Hx. simpl. intros ->.
      by apply list_elem_of_lookup_2 in Hx. }
  cbn [removeLoop sl_array]. rewrite lookup_app_r, Nat.sub_diag by lia. cbn.
  rewrite String.eqb_refl. destruct (removeAt_app f l1 l2) as (y & -> & Hy & Hy2). cbn.
  rewrite removeLoop_absent; [cbn; unfold slice_list; cbn; by rewrite (assoc_L (++)), take_app_length|].
  intros j Hj. cbn. rewrite lookup_app_r by lia.
  destruct (lookup_lt_is_Some_2 (l2 ++ [y]) (j - length l1)) as [x Hx].
  { rewrite length_app. simpl. lia. }
  rewrite Hx. simpl. intros ->. apply list_elem_of_lookup_2 in Hx.
  apply elem_of_app in Hx as [?|Hx]; [done|]. apply list_elem_of_singleton in Hx as ->.
  destruct l2; [simpl in Hj; lia|]. by apply H2, Hy2.
Qed.

(** Only elements that are the finalizer are removed, whatever the list. *)
Lemma removeAt_without f s i s' :
  (sl_len s ≤ length (sl_array s))%nat → sl_array s !! i = Some f → removeAt s i = Some s' →
  without f (slice_list s') = without f (slice_list s) ∧ (sl_len s' ≤ length (sl_array s'))%nat ∧
  (length (sl_array s') = length (sl_array s)).
Proof.
  unfold removeAt. intros Hlen Hi. destruct (Nat.leb_spec (S i) (sl_len s)) as [Hlt|]; [|done]. intros [= <-].
  assert (length (take i (sl_array s) ++ drop (S i) (slice_list s)) = (sl_len s - 1)%nat) as Hl.
  { unfold slice_list. rewrite length_app, length_drop, !length_take. lia. }
  assert (slice_list s = take i (sl_array s) ++ f :: drop (S i) (slice_list s)) as Hs.
  { unfold slice_list. rewrite <-(take_drop_middle (take (sl_len s) (sl_array s)) i f) at 1.
    - by rewrite take_take, Nat.min_l by lia.
    - by rewrite lookup_take_lt by lia. }
  remember (drop (S i) (slice_list s)) as rest eqn:Er. clear Er.
  split_and!; cbn [sl_len sl_array].
  - unfold slice_list at 1. cbn [sl_len sl_array]. rewrite (assoc_L (++)), take_app_length' by done.
    rewrite Hs. unfold without. rewrite !List.filter_app. simpl. by rewrite String.eqb_refl.
  - rewrite (assoc_L (++)), length_app, Hl, length_drop. lia.
  - rewrite (assoc_L (++)), length_app, Hl, length_drop. lia.
Qed.

Lemma removeLoop_without f n : ∀ i s s',
  (sl_len s ≤ length (sl_array s))%nat → (i + n ≤ length (sl_array s))%nat →
  removeLoop f n i s = Some s' → without f (slice_list s') = without f (slice_list s).
Proof.
  induction n as [|n IH]; intros i s s' Hlen Hin; simpl; [by intros [= <-]|].
  destruct (lookup_lt_is_Some_2 (sl_array s) i ltac:(lia)) as [x Hx]. rewrite Hx. simpl.
  destruct (String.eqb_spec x f) as [->|_]; simpl.
  - destruct (removeAt s i) as [s1|] eqn:E; [|done]. simpl. intros Hr.
    destruct (removeAt_without f s i s1 Hlen Hx E) as (<- & Hlen1 & Harr).
    apply IH in Hr; [done|done|lia].
  - apply IH; [done|lia].
Qed.

Lemma removeFinalizer_without f l l' :
  removeFinalizer l f = Some l' → without f l' = without f l.
Proof.
  unfold removeFinalizer. intros (s & Hs & ->)%fmap_Some. apply removeLoop_without in Hs; simpl; [|lia..].
  rewrite Hs. unfold slice_list. simpl. by rewrite firstn_all.
Qed.

Lemma removeFinalizer_keeps f g l l' :
  removeFinalizer l f = Some l' → g ≠ f → g ∈ l → g ∈ l'.
Proof.
  intros Hr%removeFinalizer_without Hg Hin.
  assert (g ∈ without f l) as H by (by apply elem_of_without). rewrite <-Hr in H.
  by apply elem_of_without in H as [? _].
Qed.

Lemma addFinalizer_elem f l : f ∈ addFinalizer l f.
Proof.
  unfold addFinalizer. destruct (existsb _ l) eqn:E.
  - apply existsb_exists in E as (g & Hg & Eg). apply String.eqb_eq in Eg as ->. by apply list_elem_of_In.
  - apply elem_of_app. right. by left.
Qed.

(** Removing a finalizer that occurs at most once gives the list without it, in
    the same order; and after adding it, which never duplicates it, removing it
    gives back the list without it.  The loop is right for no other reason: since
    it shortens the slice that it ranges over, a finalizer that occurs twice makes
    it panic, or stays.  It never removes another one. *)
Theorem removeFinalizer_spec (f : string) (l : list string) :
  (NoDup l → removeFinalizer l f = Some (without f l)) ∧
  (NoDup l → NoDup (addFinalizer l f) ∧ f ∈ addFinalizer l f ∧
     removeFinalizer (addFinalizer l f) f = Some (without f l)) ∧
  (∀ g l', removeFinalizer l f = Some l' → g ≠ f → (g ∈ l' ↔ g ∈ l)) ∧
  removeFinalizer [f; f] f = None ∧
  (∀ g, g ≠ f → removeFinalizer [f; f; g] f = Some [f; g]).
Proof.
  assert (Hrem : ∀ l, NoDup l → removeFinalizer l f = Some (without f l)).
  { clear l. intros l Hnd. destruct (decide (f ∈ l)) as [Hin|Hout].
    - apply list_elem_of_split in Hin as (l1 & l2 & ->).
      apply NoDup_app in Hnd as (_ & Hd & [Hf2 _]%NoDup_cons).
      assert (f ∉ l1) as Hf1. { intros Hin. apply (Hd f Hin). by left. }
      rewrite removeFinalizer_once by done. unfold without. rewrite List.filter_app. simpl.
      rewrite String.eqb_refl. simpl.
      fold (without f l1) (without f l2). by rewrite !without_absent.
    - rewrite removeFinalizer_absent, without_absent; done. }
  split_and!; [apply Hrem| | | |].
  - intros Hnd. unfold addFinalizer. destruct (existsb _ l) eqn:E.
    + apply existsb_exists in E as (g & Hg & Eg). apply String.eqb_eq in Eg as ->. split_and!; [done| |by apply Hrem].
      by apply list_elem_of_In.
    + assert (f ∉ l) as Hf.
      { intros Hin%list_elem_of_In. apply not_true_iff_false in E. apply E, existsb_exists.
        exists f. by rewrite String.eqb_refl. }
      split_and!.
      * apply NoDup_app. split_and!; [done| |apply NoDup_singleton].
        intros x Hx Hf'. apply list_elem_of_singleton in Hf' as ->. done.
      * apply elem_of_app. right. by left.
      * rewrite removeFinalizer_once by (done || apply not_elem_of_nil).
        by rewrite app_nil_r, without_absent.
  - intros g l' Hr%removeFinalizer_without Hg.
    pose proof (elem_of_without f g l') as H1. pose proof (elem_of_without f g l) as H2.
    rewrite Hr in H1. naive_solver.
  - unfold removeFinalizer, removeAt. simpl. rewrite !String.eqb_refl. cbn. by rewrite !String.eqb_refl.
  - intros g Hg%String.eqb_neq. unfold removeFinalizer, removeAt. simpl. rewrite !String.eqb_refl. cbn. rewrite Hg. cbn.
    by rewrite Hg.
Qed.

Lemma removeFinalizer_spec_witness :
  NoDup ["a"; "b"] ∧ removeFinalizer ["a"; "b"] "a" = Some ["b"].
Proof.
  assert (NoDup ["a"; "b"]) as Hnd by (repeat (apply NoDup_cons; split; [set_solver|]); apply NoDup_nil_2).
  split; [exact Hnd|]. exact (proj1 (removeFinalizer_spec "a" ["a"; "b"]) Hnd).
Defined.
