(* ===== verification/OrcController.v ===== *)
(** * The Orchestrator controller

    [pkg/controller/orchestrator/orchestrator_controller.go] and
    [orchestrator_syncers.go]: the reconciliation that runs every five seconds for
    each cluster.  It keeps the finalizer of the cluster, runs a round of
    [OrcReconcile.Sync], and stores the status.

    [Module Server] is an Orchestrator and an API server, for the deletion of a
    cluster. *)

From S2P Require Import Prelude KubeSync GoStrings GoTime Semver ClusterTypes Versioning ClusterStatus.
From S2P Require Import ClusterModel ClusterDefaults PodNames OrcTopology OrcReconcile MysqlObjects Finalizers.
Open Scope stdpp_scope.

(** ** Effects *)

Inductive octl_op :=
  | OGetCluster (ns name : string)
  (** the reads and writes of the finalizer syncer *)
  | OSync (o : sync_op MysqlCluster)
  | OOrc (o : orc_op)
  | OUpdateStatus (c : MysqlCluster).

#[export] Instance octl_effect : Effect octl_op := λ o,
  match o with
  | OGetCluster _ _ | OUpdateStatus _ => result MysqlCluster
  | OSync o => Resp o
  | OOrc o => Resp o
  end.

#[export] Instance orc_embeds : Embeds orc_op octl_op :=
  {| embed := OOrc; answer_of o r := r; answer_to o r := r |}.

#[export] Instance cluster_embeds : Embeds (sync_op MysqlCluster) octl_op :=
  {| embed := OSync; answer_of o r := r; answer_to o r := r |}.

(** ** The finalizer *)

(* src/pkg/controller/orchestrator/orchestrator_controller.go:44-51 OldOrchestratorFinalizer *)
Definition OldOrchestratorFinalizer : string := "OrchestratorFinalizer".

(** A panic of [removeFinalizer] ends the run: it is the error below, which no other
    part of the model returns. *)
Definition panicked : error := ErrMsg "slice bounds out of range".

Definition set_finalizers (l : list string) (c : MysqlCluster) : MysqlCluster :=
  with_Meta (with_Finalizers l (cl_Meta c)) c.

Definition remove_finalizer (f : string) (c : MysqlCluster) : result MysqlCluster :=
  match removeFinalizer (om_Finalizers (cl_Meta c)) f with
  | Some l => Ok (set_finalizers l c)
  | None => Err panicked
  end.

(** The callback of the syncer. *)
(* src/pkg/controller/orchestrator/orchestrator_syncers.go:29-57 newFinalizerSyncer *)
Definition finalizerSyncFn (out : MysqlCluster) : prog octl_op (MysqlCluster * result unit) :=
  let out := set_finalizers (addFinalizer (om_Finalizers (cl_Meta out)) FinalizerOrchestrator) out in
  match remove_finalizer OldOrchestratorFinalizer out with
  | Err e => mret (out, Err e)
  | Ok out =>
      match cl_DeletionTimestamp out with
      | None => mret (out, Ok tt)
      | Some _ =>
          r ← lift (call (Cluster (GetClusterAlias out)));
          let instances := match r : result InstancesSet with Ok insts => insts | Err _ => [] end in
          if (length instances =? 0)%nat then
            mret match remove_finalizer FinalizerOrchestrator out with
                 | Ok out => (out, Ok tt)
                 | Err e => (out, Err e)
                 end
          else mret (out, Ok tt)
      end
  end.

(** ** The controller *)

Section OrcController.
Context `{!ObjectSyncer octl_op MysqlCluster}.

(* src/pkg/controller/orchestrator/orchestrator_controller.go:173-223 Reconcile *)
Definition ReconcileOrc (now : Z) (ns name : string) : prog octl_op (result unit) :=
  r ← call (OGetCluster ns name);
  match r with
  | Err e => mret (if is_not_found e then Ok tt else Err e)
  | Ok cluster =>
      let oldStatus := cl_Status cluster in
      r ← sync_object cluster finalizerSyncFn;
      match r with
      | (_, Err e) => mret (Err e)
      | (cluster, Ok _) =>
          let cluster := SetDefaults_MysqlCluster cluster in
          r ← lift (Sync now cluster);
          match r with
          | (_, Err e) => mret (Err e)
          | (cluster, Ok _) =>
              if negb (bool_decide (oldStatus = cl_Status cluster)) &&
                 match cl_DeletionTimestamp cluster with None => true | Some _ => false end then
                r ← call (OUpdateStatus cluster);
                mret match r with Ok _ => Ok tt | Err e => Err e end
              else mret (Ok tt)
          end
      end
  end.

End OrcController.

(** ** Properties *)

Definition deleting (c : MysqlCluster) : Prop := cl_DeletionTimestamp c ≠ None.

(** Orchestrator reported no instance of the cluster, or did not answer. *)
Definition noInstances (alias : string) (h : list (event octl_op)) : Prop :=
  Ev (OOrc (Cluster alias)) (Ok [] : result InstancesSet) ∈ h ∨
  ∃ e, Ev (OOrc (Cluster alias)) (Err e : result InstancesSet) ∈ h.

Definition octlRule (e : event octl_op) (h : list (event octl_op)) : Prop :=
  match ev_op e with
  | OSync (SyncPersist c) =>
      FinalizerOrchestrator ∈ om_Finalizers (cl_Meta c) ∨
      deleting c ∧ noInstances (GetClusterAlias c) h
  | OUpdateStatus c => ¬ deleting c
  | _ => True
  end.

Lemma noInstances_stable alias : stable (noInstances alias).
Proof.
  unfold noInstances. apply stable_or; [apply stable_elem|]. apply stable_exists. intros e. apply stable_elem.
Qed.

(** What the callback returns, and what it has seen of Orchestrator. *)
Definition finalizerKept (r : MysqlCluster * result unit) (h : list (event octl_op)) : Prop :=
  r.2 = Ok tt → FinalizerOrchestrator ∈ om_Finalizers (cl_Meta r.1) ∨
    deleting r.1 ∧ noInstances (GetClusterAlias r.1) h.

Lemma finalizerKept_stable r : stable (finalizerKept r).
Proof.
  apply stable_imp, stable_or; [apply (stable_const _)|].
  apply stable_and; [apply (stable_const _)|apply noInstances_stable].
Qed.

Lemma lift_cluster_keeps P alias :
  keeps octlRule P (lift (call (Cluster alias))) (λ r h, Ev (OOrc (Cluster alias)) r ∈ h).
Proof. exact (lift_call_keeps octlRule P (Cluster alias) (λ _ _ _, I)). Qed.

Lemma finalizerSyncFn_keeps P out : keeps octlRule P (finalizerSyncFn out) finalizerKept.
Proof.
  unfold finalizerSyncFn. set (out1 := set_finalizers _ out).
  unfold remove_finalizer at 1. destruct (removeFinalizer _ OldOrchestratorFinalizer) as [l|] eqn:El;
    [|by apply keeps_ret].
  set (out2 := set_finalizers l out1).
  assert (FinalizerOrchestrator ∈ om_Finalizers (cl_Meta out2)) as Hfin.
  { eapply removeFinalizer_keeps; [exact El|discriminate|]. apply addFinalizer_elem. }
  destruct (cl_DeletionTimestamp out2) eqn:Hdel; [|apply keeps_ret; by left].
  eapply keeps_bind; [apply lift_cluster_keeps|intros r; apply stable_elem|].
  intros r. destruct (_ =? 0)%nat eqn:Hlen; [apply Nat.eqb_eq in Hlen|apply keeps_ret; by left].
  apply keeps_ret. intros h [_ Hin]. unfold remove_finalizer.
  destruct (removeFinalizer (om_Finalizers (cl_Meta out2)) FinalizerOrchestrator) as [l2|];
    [|done]. intros _. right. split.
  - change (cl_DeletionTimestamp out2 ≠ None). by rewrite Hdel.
  - change (GetClusterAlias (set_finalizers l2 out2)) with (GetClusterAlias out2).
    destruct (r : result InstancesSet) as [insts|e].
    + apply nil_length_inv in Hlen as ->. by left.
    + right. by exists e.
Qed.

(** An Orchestrator that does not answer releases the finalizer too, although
    nothing is known of the instances. *)
Lemma finalizerSyncFn_error (w : world octl_op) (c : MysqlCluster) (e : error) :
  deleting c → om_Finalizers (cl_Meta c) = [FinalizerOrchestrator] →
  w [] (OOrc (Cluster (GetClusterAlias c))) = Err e →
  run (finalizerSyncFn c) w = (set_finalizers [] c, Ok tt).
Proof.
  intros Hdel Hfin He. unfold run, finalizerSyncFn. rewrite Hfin.
  change (addFinalizer _ _) with [FinalizerOrchestrator]. unfold remove_finalizer at 1. cbn [cl_Meta].
  change (removeFinalizer _ OldOrchestratorFinalizer) with (Some [FinalizerOrchestrator]).
  cbv beta iota. unfold deleting in Hdel.
  change (cl_DeletionTimestamp (set_finalizers _ (set_finalizers _ c))) with (cl_DeletionTimestamp c).
  destruct (cl_DeletionTimestamp c); [|done].
  unfold mbind, prog_bind, lift, call, world_of. cbn [fst snd embed answer_of orc_embeds List.map app].
  change (GetClusterAlias (set_finalizers _ (set_finalizers _ c))) with (GetClusterAlias c).
  by rewrite He.
Qed.

Section OrcOrder.
Context `{!ObjectSyncer octl_op MysqlCluster, !ObjectSyncerLaws octl_op MysqlCluster}.

(** C35. The finalizer of Orchestrator: whatever the API server and Orchestrator answer,
    the cluster is only ever written with the finalizer, unless it is being deleted
    and Orchestrator was asked and reported no instance of it, or failed to answer;
    and the status of a cluster that is being deleted is not written. *)
Theorem ReconcileOrc_order (now : Z) (ns name : string) (w : world octl_op) :
  guarded octlRule (trace (ReconcileOrc now ns name) w).
Proof.
  refine (proj1 (keeps_run octlRule _ (λ _ _, True) w _)). unfold ReconcileOrc.
  apply (keeps_bind _ _ (λ _ _, True)); [by apply (keeps_call octlRule _ (OGetCluster ns name))|
    intros ?; exact (stable_const True)|].
  intros [c|e]; [|by apply keeps_ret].
  apply (keeps_bind _ _ (λ _ _, True)); [|intros ?; exact (stable_const True)|].
  { eapply keeps_weaken.
    - apply (sync_keeps octlRule (λ _, True) c finalizerSyncFn finalizerKept); [done| | |].
      + intros o. apply finalizerSyncFn_keeps.
      + apply finalizerKept_stable.
      + intros o r h _ Ho. by apply Ho.
    - done.
    - done. }
  intros [c' [[]|e]]; [|by apply keeps_ret].
  apply (keeps_bind _ _ (λ _ _, True)); [|intros ?; exact (stable_const True)|].
  { refine (lift_keeps _ _ _ _ _ (Sync_emits now (SetDefaults_MysqlCluster c')) _). by intros e h. }
  intros [c2 [[]|e]]; [|by apply keeps_ret].
  destruct (negb _ && _) eqn:Hst; [|by apply keeps_ret].
  apply andb_true_iff in Hst as [_ Hdel].
  apply (keeps_bind _ _ (λ _ _, True)); [|intros ?; exact (stable_const True)|intros r; by apply keeps_ret].
  apply (keeps_call octlRule _ (OUpdateStatus c2)); [|done].
  intros r h _. intros Hd. unfold deleting in Hd. simpl in Hd. by destruct (cl_DeletionTimestamp c2).
Qed.

End OrcOrder.

(** ** The deletion of a cluster *)

Module Server.

(** An Orchestrator that answers, for one cluster: its state is the instances it
    knows.  [master] is what it says of the master: an instance, or "not found". *)
Section Orchestrator.
Context (master : InstancesSet → result Instance_).

Definition orcAnswer (insts : InstancesSet) (o : orc_op) : Resp o :=
  match o return Resp o with
  | Cluster _ => Ok insts
  | Master _ => master insts
  | AuditRecovery _ => Ok []
  | RecordEvent _ _ _ => tt
  | Discover _ _ | Forget _ _ | AckRecovery _ _ | SetHostWritable _ | SetHostReadOnly _ => Ok tt
  end.

Definition forget (insts : InstancesSet) (k : InstanceKey) : InstancesSet :=
  List.filter (λ x, negb (bool_decide (Key x = k))) insts.

Definition orcStep (insts : InstancesSet) (e : event orc_op) : InstancesSet :=
  match ev_op e with
  | Forget host port => forget insts (mkKey host port)
  | _ => insts
  end.

#[local] Abbreviation serves := (Prelude.serves orcAnswer orcStep).

Hypothesis master_not_found : ∀ insts e, master insts = Err e → OrcIsNotFound e = true.

Lemma quiet_serves (o : orc_op) insts :
  (∀ r, orcStep insts (Ev o r) = insts) → serves (call o) insts (orcAnswer insts o) insts.
Proof. intros Hq. by apply serves_call. Qed.

Lemma getFromOrchestrator_serves c insts :
  ∃ m, serves (getFromOrchestrator c) insts (Ok (insts, m)) insts.
Proof.
  unfold getFromOrchestrator. destruct (master insts) as [x|e] eqn:Em.
  - assert (∃ m, serves (match DetermineMaster insts with
      | Some m => if negb (String.eqb (Hostname (Key x)) (Hostname (Key m)))
                  then mret (Ok (insts, None)) else mret (Ok (insts, Some x))
      | None => mret (Ok (insts, Some x))
      end) insts (Ok (insts, m)) insts) as [m Hm].
    { destruct (DetermineMaster insts) as [y|]; [|eexists; apply serves_ret].
      destruct (String.eqb _ _); eexists; apply serves_ret. }
    exists m. eapply serves_bind; [by apply (quiet_serves (Cluster _))|].
    by eapply serves_bind; [refine (serves_call _ _ (Master _) _ _ _ Em eq_refl)|].
  - assert (∃ m, serves (match DetermineMaster insts with
      | Some m => mret (Ok (insts, Some m))
      | None => mret (Ok (insts, None))
      end) insts (Ok (insts, m)) insts) as [m Hm].
    { destruct (DetermineMaster insts); eexists; apply serves_ret. }
    exists m. eapply serves_bind; [by apply (quiet_serves (Cluster _))|].
    eapply serves_bind; [refine (serves_call _ _ (Master _) _ _ _ Em eq_refl)|].
    cbv beta iota zeta. rewrite (master_not_found _ _ Em). exact Hm.
Qed.

Lemma quiet_for_each {A} (xs : list A) body insts :
  (∀ x, serves (body x) insts tt insts) → serves (for_each xs body) insts tt insts.
Proof.
  intros Hb. induction xs as [|x xs IH]; [apply serves_ret|]. eapply serves_bind; [apply Hb|exact IH].
Qed.

Lemma ignoreErr_serves {A} (m : prog orc_op (result A)) insts r :
  serves m insts r insts → serves (ignoreErr m) insts tt insts.
Proof. intros Hm. eapply serves_bind; [exact Hm|]. apply serves_ret. Qed.

Lemma setReadOnlyNode_serves inst insts : serves (ignoreErr (setReadOnlyNode inst)) insts tt insts.
Proof.
  unfold setReadOnlyNode. destruct (negb _).
  - eapply ignoreErr_serves. by apply (quiet_serves (SetHostReadOnly _)).
  - eapply ignoreErr_serves. apply serves_ret.
Qed.

Lemma setWritableNode_serves inst insts : serves (ignoreErr (setWritableNode inst)) insts tt insts.
Proof.
  unfold setWritableNode. destruct (in_ReadOnly inst).
  - eapply ignoreErr_serves. by apply (quiet_serves (SetHostWritable _)).
  - eapply ignoreErr_serves. apply serves_ret.
Qed.

Lemma markReadOnly_serves c nodes m insts :
  serves (markReadOnlyNodesInOrc c nodes m) insts tt insts.
Proof.
  unfold markReadOnlyNodesInOrc. destruct (cond_is _ _); [apply serves_ret|].
  destruct m as [m|]; apply quiet_for_each; intros inst; destruct (_ || _);
    repeat (apply serves_ret || apply setReadOnlyNode_serves || apply setWritableNode_serves || case_match).
Qed.

Lemma forget_all insts ks :
  (∀ x, x ∈ insts → Key x ∈ ks) → foldl forget insts ks = [].
Proof.
  revert insts. induction ks as [|k ks IH]; intros insts Hall; simpl.
  - destruct insts as [|x insts]; [done|]. exfalso. apply (not_elem_of_nil (Key x)), Hall. by left.
  - apply IH. intros x [Hin Hx]%list_elem_of_In%filter_In. apply list_elem_of_In in Hin.
    apply Hall in Hin as [Hk|?]%elem_of_cons; [|done]. rewrite bool_decide_eq_true_2 in Hx by done. done.
Qed.

(** A round for a cluster that is being deleted: Orchestrator forgets every
    instance. *)
Lemma Sync_forgets now c insts :
  deleting c → ∃ c', serves (Sync now c) insts (c', Ok tt) [] ∧ sameObject c c'.
Proof.
  intros Hdel. destruct (getFromOrchestrator_serves c insts) as [m Hm].
  unfold Sync. set (c' := syncedStatus now (updateNodesInOrc c insts).1.1 m [] c).
  exists c'. split; [|apply syncedStatus_object].
  eapply serves_bind; [exact Hm|]. cbv beta iota.
  assert (updateNodesInOrc c insts = ((updateNodesInOrc c insts).1.1, [], Key <$> insts)) as Hu.
  { unfold updateNodesInOrc. unfold deleting in Hdel. by destruct (cl_DeletionTimestamp c). }
  rewrite Hu. eapply serves_bind; [apply serves_ret|].
  eapply serves_bind; [apply markReadOnly_serves|].
  eapply serves_bind; [by apply (quiet_serves (AuditRecovery _))|]. cbn [orcAnswer].
  refine (serves_bind _ _ (forgetNodesFromOrc now c' (Key <$> insts)) _ _ tt [] _ _ _ _).
  2:{ eapply serves_bind; [|apply serves_ret]. apply serves_ret. }
  unfold forgetNodesFromOrc. destruct (syncedStatus_object now (updateNodesInOrc c insts).1.1 m [] c) as [Hmeta _].
  fold c' in Hmeta. unfold cl_DeletionTimestamp at 1. rewrite Hmeta.
  unfold deleting, cl_DeletionTimestamp in Hdel. destruct (om_DeletionTimestamp (cl_Meta c)); [|done].
  rewrite orb_true_r. rewrite <-(forget_all insts (Key <$> insts)).
  - apply serves_for_each. intros k s _.
    eapply serves_bind; [|apply serves_ret]. apply serves_call; [done|]. by destruct k.
  - intros x Hx. apply list_elem_of_fmap. by exists x.
Qed.

End Orchestrator.

(** With the API server. *)
Record server := mkServer { stored : option MysqlCluster; known : InstancesSet }.

Definition not_found : error := ErrAPI true "mysqlclusters" "not found".

Definition afterWrite (s : server) (c : MysqlCluster) : option MysqlCluster :=
  if bool_decide (cl_DeletionTimestamp c ≠ None ∧ om_Finalizers (cl_Meta c) = []) then None
  else Some (match stored s with Some old => with_Status (cl_Status old) c | None => c end).

Section Deletion.
Context (master : InstancesSet → result Instance_).

Definition answer (s : server) (o : octl_op) : Resp o :=
  match o return Resp o with
  | OGetCluster _ _ | OSync (SyncFetch _) =>
      match stored s with Some c => Ok c | None => Err not_found end
  | OSync (SyncPersist c) => Ok (default c (afterWrite s c))
  | OUpdateStatus c => Ok c
  | OOrc o => orcAnswer master (known s) o
  end.

Definition step (s : server) (e : event octl_op) : server :=
  match e with
  | Ev (OSync (SyncPersist c)) _ => mkServer (afterWrite s c) (known s)
  | Ev (OUpdateStatus c) _ => mkServer (with_Status (cl_Status c) <$> stored s) (known s)
  | Ev (OOrc o) r => mkServer (stored s) (orcStep (known s) (Ev o r))
  | _ => s
  end.

#[local] Abbreviation serves := (Prelude.serves answer step).
#[local] Existing Instances RefSyncer.syncer.

Hypothesis master_not_found : ∀ insts e, master insts = Err e → OrcIsNotFound e = true.

Lemma lift_orc {A} (m : prog orc_op A) st insts a insts' :
  Prelude.serves (orcAnswer master) orcStep m insts a insts' →
  serves (lift m) (mkServer st insts) a (mkServer st insts').
Proof. apply (lift_serves _ _ _ _ (mkServer st)); [by intros i []|by intros i []]. Qed.

(** The callback, for a cluster that is being deleted and whose only finalizer is
    that of Orchestrator. *)
Lemma finalizerSyncFn_serves c insts :
  deleting c → om_Finalizers (cl_Meta c) = [FinalizerOrchestrator] →
  serves (finalizerSyncFn c) (mkServer (Some c) insts)
    (set_finalizers (if (length insts =? 0)%nat then [] else [FinalizerOrchestrator]) c, Ok tt)
    (mkServer (Some c) insts).
Proof.
  intros Hdel Hfin. unfold finalizerSyncFn. rewrite Hfin.
  change (addFinalizer _ _) with [FinalizerOrchestrator]. unfold remove_finalizer at 1. cbn [cl_Meta].
  change (removeFinalizer _ OldOrchestratorFinalizer) with (Some [FinalizerOrchestrator]).
  cbv beta iota. unfold deleting in Hdel.
  change (cl_DeletionTimestamp (set_finalizers _ (set_finalizers _ c))) with (cl_DeletionTimestamp c).
  destruct (cl_DeletionTimestamp c); [|done].
  eapply serves_bind; [by apply lift_orc, (quiet_serves master (Cluster _))|]. cbn [orcAnswer].
  destruct (length insts =? 0)%nat; apply serves_ret.
Qed.

(** A round: the finalizer goes when no instance is left, and no instance is left
    afterwards. *)
Lemma ReconcileOrc_round now ns name c insts :
  deleting c → om_Finalizers (cl_Meta c) = [FinalizerOrchestrator] →
  serves (ReconcileOrc now ns name) (mkServer (Some c) insts) (Ok tt)
    (mkServer (if (length insts =? 0)%nat then None else Some c) []).
Proof.
  intros Hdel Hfin. unfold ReconcileOrc.
  eapply serves_bind; [refine (serves_call _ _ (OGetCluster _ _) _ _ _ eq_refl eq_refl)|].
  cbn [answer stored]. cbv beta iota.
  set (c' := set_finalizers (if (length insts =? 0)%nat then [] else [FinalizerOrchestrator]) c).
  assert (afterWrite (mkServer (Some c) insts) c' = if (length insts =? 0)%nat then None else Some c) as Ha.
  { unfold afterWrite, c'. simpl. destruct (length insts =? 0)%nat; simpl.
    - by rewrite bool_decide_eq_true_2.
    - rewrite bool_decide_eq_false_2 by (by intros [_ ?]). f_equal. rewrite <-Hfin. by destruct c as [[] ? ?]. }
  assert (serves (sync_object c finalizerSyncFn) (mkServer (Some c) insts)
    (default c' (if (length insts =? 0)%nat then None else Some c), Ok tt)
    (mkServer (if (length insts =? 0)%nat then None else Some c) insts)) as Hsync.
  { unfold sync_object, RefSyncer.syncer, RefSyncer.ask.
    eapply serves_bind; [eapply serves_bind; [refine (serves_call _ _ (OSync (SyncFetch _)) _ _ _ eq_refl eq_refl)|apply serves_ret]|].
    cbn [answer stored answer_of cluster_embeds]. cbv beta iota.
    eapply serves_bind; [by apply finalizerSyncFn_serves|]. fold c'. cbn [fst snd].
    eapply serves_bind; [eapply serves_bind; [refine (serves_call _ _ (OSync (SyncPersist c')) _ _ _ eq_refl eq_refl)|apply serves_ret]|].
    cbn [answer stored answer_of cluster_embeds step]. rewrite Ha. apply serves_ret. }
  eapply serves_bind; [exact Hsync|]. cbv beta iota. set (c1 := default _ _).
  assert (deleting c1) as Hdel1 by (subst c1; by destruct (_ =? _)%nat).
  assert (deleting (SetDefaults_MysqlCluster c1)) as Hdel2.
  { unfold deleting, cl_DeletionTimestamp. by rewrite (proj1 (SetDefaults_MysqlCluster_meta c1)). }
  destruct (Sync_forgets master master_not_found now _ insts Hdel2) as (c2 & Hc2 & Hsame & _).
  eapply serves_bind; [by apply lift_orc|]. cbv beta iota.
  unfold deleting in Hdel2. unfold cl_DeletionTimestamp in *. rewrite Hsame.
  destruct (om_DeletionTimestamp _); [|done]. rewrite andb_false_r. apply serves_ret.
Qed.

(** C36. A cluster that is deleted goes away: with an Orchestrator and an API server
    that answer, and no other finalizer, after at most two rounds Orchestrator
    knows no instance of the cluster and the resource is gone; the first round
    keeps the resource exactly while Orchestrator knows an instance. *)
Theorem ReconcileOrc_deletes (now now' : Z) (ns name : string) (c : MysqlCluster) (insts : InstancesSet) :
  deleting c → om_Finalizers (cl_Meta c) = [FinalizerOrchestrator] →
  ∃ s1, serves (ReconcileOrc now ns name) (mkServer (Some c) insts) (Ok tt) s1 ∧
    known s1 = [] ∧ (stored s1 = None ↔ insts = []) ∧
    (insts ≠ [] → serves (ReconcileOrc now' ns name) s1 (Ok tt) (mkServer None [])).
Proof.
  intros Hdel Hfin. eexists. split; [by apply ReconcileOrc_round|]. split; [done|].
  destruct insts as [|x insts]; simpl; [done|]. split; [done|]. intros _.
  exact (ReconcileOrc_round now' ns name c [] Hdel Hfin).
Qed.

End Deletion.
End Server.

(** ** Examples *)

Section Witnesses.
#[local] Existing Instances RefSyncer.syncer RefSyncer.syncer_laws.

Definition sampleDeleted : MysqlCluster :=
  with_Meta (mkMeta "demo" "prod" "uid-1" ∅ None [FinalizerOrchestrator] 0 (Some 9%Z))
    (Sample.cluster "8.0.39" "8.0.39").

Definition sampleMaster (insts : InstancesSet) : result Instance_ :=
  match insts with [] => Err (ErrOrc "No masters found") | x :: _ => Ok x end.

Lemma sampleMaster_not_found insts e : sampleMaster insts = Err e → OrcIsNotFound e = true.
Proof. destruct insts; [|done]. intros [= <-]. vm_compute. reflexivity. Defined.

Lemma ReconcileOrc_order_witness :
  let w := serverWorld (Server.answer sampleMaster) Server.step
             (Server.mkServer (Some sampleDeleted) []) in
  length (trace (ReconcileOrc 7 "prod" "demo") w) = 7%nat ∧
  guarded octlRule (trace (ReconcileOrc 7 "prod" "demo") w).
Proof. split; [vm_compute; reflexivity|]. exact (ReconcileOrc_order 7 "prod" "demo" _). Defined.

Lemma ReconcileOrc_deletes_witness : ∃ s1,
  serves (Server.answer sampleMaster) Server.step (ReconcileOrc 7 "prod" "demo")
    (Server.mkServer (Some sampleDeleted) sampleOrcInstances) (Ok tt) s1 ∧
  serves (Server.answer sampleMaster) Server.step (ReconcileOrc 12 "prod" "demo")
    s1 (Ok tt) (Server.mkServer None []).
Proof.
  destruct (Server.ReconcileOrc_deletes sampleMaster sampleMaster_not_found 7 12 "prod" "demo"
    sampleDeleted sampleOrcInstances ltac:(discriminate) eq_refl) as (s1 & H1 & _ & _ & H2).
  exists s1. split; [exact H1|]. apply H2. discriminate.
Defined.

End Witnesses.
