(* ===== verification/OrcTicker.v ===== *)
(** * The queue of the Orchestrator controller

    [add] of [pkg/controller/orchestrator/orchestrator_controller.go]: clusters are
    not reconciled when they change but all of them every few seconds.  Handlers
    of create and delete events keep the set of clusters in a [sync.Map], and a
    goroutine ranges over it at every tick and sends each cluster to a channel of
    1024 events, from which the controller takes its requests.

    The handlers, the goroutine and the controller run concurrently: the model is
    a step relation, whose labels are the atomic operations on the map and on the
    channel. *)

From S2P Require Import Prelude GoStrings.
From stdpp Require Import sets fin_sets.
Open Scope stdpp_scope.

(** ** State *)

(** What a request keeps of an object: its namespace and name. *)
Record Object_ := mkObject { ob_Namespace : string; ob_Name : string }.

#[export] Instance Object_eq_dec : EqDecision Object_.
Proof. solve_decision. Defined.

#[export] Instance Object_countable : Countable Object_.
Proof. by apply (inj_countable' (λ o, (ob_Namespace o, ob_Name o)) (λ p, mkObject p.1 p.2)); intros []. Defined.

(* src/pkg/controller/orchestrator/orchestrator_controller.go:60-62 reconcileTimePeriod *)
Definition reconcileTimePeriod : Z := 5.
Definition orcRequestsTimeout : Z := 15.

(** [types.NamespacedName.String] puts a slash between the two. *)
(* src/pkg/controller/orchestrator/orchestrator_controller.go:230-236 getKey *)
Definition getKey (o : Object_) : string := ob_Namespace o +:+ "/" +:+ ob_Name o.

(** A call of [Range] that has not returned is a loop over keys: those that it has
    been at, and those that it still has to come to. *)
Inductive phase := Waiting | Ranging (past todo : list string) | Stopped.

Record queue := mkQueue {
  clusters : gmap string Object_;
  dispatcher : phase;
  events : list Object_ }.

Definition capacity : nat := 1024.

Definition started : queue := mkQueue ∅ Waiting [].

(** ** Steps *)

(** An event handler gets no object when the event has none. *)
Inductive label :=
  | Created (o : option Object_)
  | Deleted (o : option Object_)
  | Tick
  | Sent (o : Object_)
  | Skipped
  | RangeDone
  | Received (o : Object_)
  | ContextDone.

(* src/pkg/controller/orchestrator/orchestrator_controller.go:100-110 add *)
Definition onCreate (o : option Object_) (q : queue) : queue :=
  match o with
  | None => q
  | Some o => mkQueue (<[getKey o := o]> (clusters q)) (dispatcher q) (events q)
  end.

(* src/pkg/controller/orchestrator/orchestrator_controller.go:111-120 add *)
Definition onDelete (o : option Object_) (q : queue) : queue :=
  match o with
  | None => q
  | Some o => mkQueue (delete (getKey o) (clusters q)) (dispatcher q) (events q)
  end.

(** The handlers, the goroutine and the channel.  [Range] of [sync.Map] loops over the
    keys that the map has when it is called, in an order of its own, and looks each
    of them up when it comes to it; a key that is stored meanwhile may be taken up,
    unless the loop was at it already, and one that is deleted meanwhile may be passed
    over even if it is stored again. *)
(* src/pkg/controller/orchestrator/orchestrator_controller.go:83-160 add *)
Inductive step : queue → label → queue → Prop :=
  | step_created q o : step q (Created o) (onCreate o q)
  | step_taken_up q o past l1 l2 :
      dispatcher q = Ranging past (l1 ++ l2) → getKey o ∉ past ++ l1 ++ l2 →
      step q (Created (Some o))
        (mkQueue (clusters (onCreate (Some o) q)) (Ranging past (l1 ++ getKey o :: l2)) (events q))
  | step_deleted q o : step q (Deleted o) (onDelete o q)
  | step_passed_over q o past l1 l2 :
      dispatcher q = Ranging past (l1 ++ getKey o :: l2) →
      step q (Deleted (Some o))
        (mkQueue (clusters (onDelete (Some o) q)) (Ranging (past ++ [getKey o]) (l1 ++ l2)) (events q))
  | step_tick q keys :
      dispatcher q = Waiting → keys ≡ₚ (map_to_list (clusters q)).*1 →
      step q Tick (mkQueue (clusters q) (Ranging [] keys) (events q))
  | step_sent q past k todo o :
      dispatcher q = Ranging past (k :: todo) → clusters q !! k = Some o → length (events q) < capacity →
      step q (Sent o) (mkQueue (clusters q) (Ranging (past ++ [k]) todo) (events q ++ [o]))
  | step_skipped q past k todo :
      dispatcher q = Ranging past (k :: todo) → clusters q !! k = None →
      step q Skipped (mkQueue (clusters q) (Ranging (past ++ [k]) todo) (events q))
  | step_done q past :
      dispatcher q = Ranging past [] →
      step q RangeDone (mkQueue (clusters q) Waiting (events q))
  | step_received q o es :
      events q = o :: es →
      step q (Received o) (mkQueue (clusters q) (dispatcher q) es)
  | step_stop q :
      dispatcher q = Waiting →
      step q ContextDone (mkQueue (clusters q) Stopped (events q)).

Inductive steps : queue → list label → queue → Prop :=
  | steps_nil q : steps q [] q
  | steps_cons q1 l q2 ls q3 : step q1 l q2 → steps q2 ls q3 → steps q1 (l :: ls) q3.

Lemma steps_app q1 q2 q3 ls ls' : steps q1 ls q2 → steps q2 ls' q3 → steps q1 (ls ++ ls') q3.
Proof. induction 1; intros; [done|]. econstructor; eauto. Qed.

Lemma steps_app_inv q1 q3 ls ls' : steps q1 (ls ++ ls') q3 → ∃ q2, steps q1 ls q2 ∧ steps q2 ls' q3.
Proof.
  revert q1. induction ls as [|l ls IH]; intros q1 H; [by exists q1; split; [constructor|]|].
  inversion H as [|? ? q2 ? ? H1 H2]; subst. destruct (IH _ H2) as (q & ? & ?).
  exists q. split; [by econstructor|done].
Qed.

(** ** Invariants *)

Definition sentIn (l : label) : option Object_ := match l with Sent o => Some o | _ => None end.
Definition receivedIn (l : label) : option Object_ := match l with Received o => Some o | _ => None end.

(** The clusters, by namespace and name, that were created and not deleted since. *)
Definition register (s : gset Object_) (l : label) : gset Object_ :=
  match l with
  | Created (Some o) => s ∪ {[ o ]}
  | Deleted (Some o) => s ∖ {[ o ]}
  | _ => s
  end.

Definition registered (ls : list label) : gset Object_ := foldl register ∅ ls.

(** A namespace of Kubernetes has no slash in it. *)
Definition named (l : label) : Prop :=
  match l with Created (Some o) | Deleted (Some o) => Index (ob_Namespace o) "/" = None | _ => True end.

Lemma getKey_inj o o' : Index (ob_Namespace o) "/" = None → Index (ob_Namespace o') "/" = None →
  getKey o = getKey o' → o = o'.
Proof.
  intros Ho Ho' E. destruct o as [ns name], o' as [ns' name']. unfold getKey in E. cbn [ob_Namespace ob_Name] in *.
  change ("/" +:+ name) with (String "/" name) in E. change ("/" +:+ name') with (String "/" name') in E.
  assert (String.length ns = String.length ns') as Hl.
  { pose proof (Index_char_app ns name "/" Ho) as H1. rewrite E, (Index_char_app ns' name' "/" Ho') in H1. by injection H1. }
  assert (str_take (String.length ns) (ns +:+ String "/" name) = str_take (String.length ns') (ns' +:+ String "/" name')) as Ht
    by (by rewrite E, Hl).
  rewrite !str_take_app in Ht. subst ns'. apply str_app_inv_l in E. by injection E as ->.
Qed.

(** The map has the registered clusters, each under its key. *)
Definition keyed (m : gmap string Object_) (s : gset Object_) : Prop :=
  (∀ k o, m !! k = Some o ↔ k = getKey o ∧ o ∈ s) ∧ ∀ o, o ∈ s → Index (ob_Namespace o) "/" = None.

Lemma keyed_create m s o : keyed m s → Index (ob_Namespace o) "/" = None → keyed (<[getKey o := o]> m) (s ∪ {[ o ]}).
Proof.
  intros [Hm Hs] Ho. split.
  - intros k o'. rewrite lookup_insert_Some, elem_of_union, elem_of_singleton, Hm. split; [naive_solver|].
    intros [-> Hin]. destruct (decide (getKey o = getKey o')) as [E|E]; [left|right].
    + split; [done|]. destruct Hin as [Hin| ->]; [|done]. apply getKey_inj; auto.
    + split; [done|]. split; [done|]. destruct Hin as [|Hin]; [done|]. congruence.
  - intros o'. rewrite elem_of_union, elem_of_singleton. intros [?| ->]; auto.
Qed.

Lemma keyed_delete m s o : keyed m s → Index (ob_Namespace o) "/" = None → keyed (delete (getKey o) m) (s ∖ {[ o ]}).
Proof.
  intros [Hm Hs] Ho. split.
  - intros k o'. rewrite lookup_delete_Some, elem_of_difference, elem_of_singleton, Hm. split; [naive_solver|].
    intros (-> & Hin & Hne). split; [|done]. intros E. apply Hne. symmetry. by apply getKey_inj; auto.
  - intros o' [? _]%elem_of_difference. auto.
Qed.

Lemma step_keyed q l q' s : step q l q' → named l → keyed (clusters q) s → keyed (clusters q') (register s l).
Proof.
  intros Hs Hn Hk. destruct Hs; simpl in *; try done; try (destruct o as [o|]; simpl; [|done]);
    by first [apply keyed_create | apply keyed_delete].
Qed.

Lemma steps_keyed q ls q' s : steps q ls q' → Forall named ls → keyed (clusters q) s →
  keyed (clusters q') (foldl register s ls).
Proof.
  intros Hs. revert s. induction Hs as [|q1 l q2 ls q3 H1 _ IH]; intros s Hn Hk; [done|].
  apply Forall_cons in Hn as [Hl Hn]. simpl. apply IH; [done|]. by eapply step_keyed.
Qed.

(** The channel loses nothing, repeats nothing and keeps the order. *)
Lemma steps_fifo q ls q' :
  steps q ls q' → events q ++ omap sentIn ls = omap receivedIn ls ++ events q'.
Proof.
  induction 1 as [|q1 l q2 ls q3 Hs _ IH]; [by rewrite app_nil_r|].
  destruct Hs; simpl in *; try (by destruct o); try done.
  - rewrite <-(assoc_L (++)) in IH. exact IH.
  - match goal with He : events q = _ |- _ => rewrite He end. exact (f_equal (cons o) IH).
Qed.

Lemma steps_capacity q ls q' :
  steps q ls q' → length (events q) ≤ capacity → length (events q') ≤ capacity.
Proof.
  induction 1 as [|q1 l q2 ls q3 Hs _ IH]; [done|]. intros Hl. apply IH.
  destruct Hs; simpl in *; try (by destruct o); try done.
  - rewrite length_app. simpl. lia.
  - match goal with He : events q = _ |- _ => rewrite He in Hl end. simpl in Hl. lia.
Qed.

(** *** During a range *)

(** The loop, after the labels [ls] since the clusters were [s]: its keys are all
    different, what was sent is among those it was at, in their order, and a
    cluster that was there at the beginning and not deleted since was sent or is still
    to come. *)
Definition inRange (s : gset Object_) (ls : list label) (q : queue) : Prop :=
  ∃ past todo, dispatcher q = Ranging past todo ∧ NoDup (past ++ todo) ∧
    (getKey <$> omap sentIn ls) `sublist_of` past ∧
    (∀ o, o ∈ omap sentIn ls → o ∈ s ∨ Created (Some o) ∈ ls) ∧
    (∀ o, o ∈ s → Deleted (Some o) ∉ ls →
       o ∈ omap sentIn ls ∨ getKey o ∈ todo ∧ clusters q !! getKey o = Some o).

(** What is registered later was registered before or created since. *)
Lemma foldl_registered s ls o : o ∈ foldl register s ls → o ∈ s ∨ Created (Some o) ∈ ls.
Proof.
  revert s. induction ls as [|l ls IH]; intros s; [by left|]. simpl. intros [Hin|Hin]%IH; [|right; by right].
  destruct l as [[o'|]|[o'|]| | | | | |]; simpl in Hin; try by left.
  - apply elem_of_union in Hin as [?| ->%elem_of_singleton]; [by left|right; by left].
  - apply elem_of_difference in Hin as [? _]. by left.
Qed.

Lemma inRange_step s ls q l q' :
  inRange s ls q → keyed (clusters q) (foldl register s ls) → named l → step q l q' → l ≠ RangeDone →
  inRange s (ls ++ [l]) q'.
Proof.
  intros (past & todo & Hd & Hnd & Hsub & Hreg & Hcov) Hk Hn Hs Hl.
  assert (∀ o, o ∈ s → Deleted (Some o) ∉ ls ++ [l] → o ∈ omap sentIn ls ∨ getKey o ∈ todo ∧ clusters q !! getKey o = Some o) as Hcov'.
  { intros o Ho Hx. apply Hcov; [done|]. intros ?. apply Hx, elem_of_app. by left. }
  assert (∀ o, o ∈ omap sentIn ls → o ∈ s ∨ Created (Some o) ∈ ls ++ [l]) as Hreg'.
  { intros o [?|?]%Hreg; [by left|right]. apply elem_of_app. by left. }
  assert (∀ o, clusters q !! getKey o = Some o → Index (ob_Namespace o) "/" = None) as Hname.
  { intros o E. apply (proj2 Hk). by apply (proj1 Hk (getKey o) o). }
  (* nothing is sent, and what is to come stays or is deleted *)
  assert (∀ past' todo', omap sentIn [l] = [] → dispatcher q' = Ranging past' todo' → NoDup (past' ++ todo') →
    past `sublist_of` past' → (∀ o, o ∈ s → Deleted (Some o) ∉ ls ++ [l] → getKey o ∈ todo →
      clusters q !! getKey o = Some o → getKey o ∈ todo' ∧ clusters q' !! getKey o = Some o) →
    inRange s (ls ++ [l]) q') as Hsame.
  { intros past' todo' He Hd' Hnd' Hp Ht. exists past', todo'. rewrite omap_app, He, app_nil_r.
    split_and!; [done|done|by etrans|done|]. intros o Ho Hx. destruct (Hcov' o Ho Hx) as [?|[? ?]]; [by left|right]. by apply Ht. }
  destruct Hs as [q o|q o past0 l1 l2 Hd0 Hfresh|q o|q o past0 l1 l2 Hd0|q keys Hw _|q past0 k todo0 o Hd0 Hlk Hcap|
    q past0 k todo0 Hd0 Hlk|q past0 _|q o es He|q Hw]; try (by rewrite Hd in Hw); try done.
  - apply (Hsame past todo); [done|by destruct o|done|done|]. intros o' _ _ Hin Ho'. split; [done|].
    destruct o as [o|]; [|done]. simpl in *. destruct (decide (getKey o = getKey o')) as [E|E]; [|by rewrite lookup_insert_ne].
    rewrite E, lookup_insert_eq. f_equal. apply getKey_inj; [done| |done]. by apply Hname.
  - rewrite Hd in Hd0. injection Hd0 as <- ->. eapply Hsame; [done|reflexivity| |done|].
    + rewrite <-(Permutation_middle l1 l2 (getKey o)), <-Permutation_middle. by constructor.
    + intros o' _ _ Hin Ho'. simpl. apply elem_of_app in Hin. rewrite elem_of_app, elem_of_cons. split; [tauto|].
      rewrite lookup_insert_ne; [done|]. intros E. apply Hfresh. rewrite E, !elem_of_app. tauto.
  - apply (Hsame past todo); [done|by destruct o|done|done|]. intros o' _ Hx Hin Ho'. split; [done|].
    destruct o as [o|]; [|done]. simpl in *. rewrite lookup_delete_ne; [done|]. intros E. apply Hx, elem_of_app. right.
    apply list_elem_of_singleton. do 2 f_equal. symmetry. apply getKey_inj; [done| |done]. by apply Hname.
  - rewrite Hd in Hd0. injection Hd0 as <- ->. eapply Hsame; [done|reflexivity| |by apply sublist_inserts_r|].
    + rewrite <-(Permutation_middle l1 l2 (getKey o)), <-Permutation_middle in Hnd.
      rewrite <-(assoc_L (++)). simpl. by rewrite <-Permutation_middle.
    + intros o' _ Hx Hin Ho'. simpl in *. assert (getKey o ≠ getKey o') as Hne.
      { intros E. apply Hx, elem_of_app. right. apply list_elem_of_singleton. do 2 f_equal. symmetry.
        apply getKey_inj; [done| |done]. by apply Hname. }
      rewrite lookup_delete_ne by done. apply elem_of_app in Hin. rewrite elem_of_cons in Hin. rewrite elem_of_app.
      split; [|done]. destruct Hin as [?|[?|?]]; [by left|congruence|by right].
  - rewrite Hd in Hd0. injection Hd0 as <- ->. destruct (proj1 (proj1 Hk k o) Hlk) as [-> Hin].
    exists (past ++ [getKey o]), todo0. rewrite omap_app, fmap_app. simpl. split_and!; [done| |by apply sublist_app| |].
    + by rewrite <-(assoc_L (++)).
    + intros o' [Ho'| ->%list_elem_of_singleton]%elem_of_app; [by apply Hreg'|].
      destruct (foldl_registered _ _ _ Hin); [by left|right]. apply elem_of_app. by left.
    + intros o' Ho' Hx. rewrite elem_of_app, list_elem_of_singleton. destruct (Hcov' o' Ho' Hx) as [?|[[E|?]%elem_of_cons Hlk']]; [by left; left| |by right].
      left. right. rewrite E in Hlk'. congruence.
  - rewrite Hd in Hd0. injection Hd0 as <- ->. eapply Hsame; [done|reflexivity| |by apply sublist_inserts_r|].
    + by rewrite <-(assoc_L (++)).
    + intros o' _ _ [E|?]%elem_of_cons Ho'; [congruence|done].
  - apply (Hsame past todo); done.
Qed.

Lemma inRange_steps s ls ls' q q' :
  inRange s ls q → keyed (clusters q) (foldl register s ls) → Forall named ls' → steps q ls' q' → RangeDone ∉ ls' →
  inRange s (ls ++ ls') q'.
Proof.
  intros Hr Hk Hn Hs. revert ls Hr Hk. induction Hs as [|q1 l q2 ls' q3 H1 _ IH]; intros ls Hr Hk Hd.
  - by rewrite app_nil_r.
  - apply not_elem_of_cons in Hd as [Hl Hd]. apply Forall_cons in Hn as [Hnl Hn].
    rewrite (cons_middle l ls ls'), (assoc_L (++)). apply IH; [done| | |done].
    + by eapply inRange_step.
    + rewrite foldl_app. by eapply step_keyed.
Qed.

(** At a tick every cluster is to come. *)
Lemma range_starts s q keys :
  keyed (clusters q) s → keys ≡ₚ (map_to_list (clusters q)).*1 →
  inRange s [] (mkQueue (clusters q) (Ranging [] keys) (events q)).
Proof.
  intros [Hk Hs] Hkeys. exists [], keys. split_and!; [done| |done|by intros o ?%not_elem_of_nil|].
  - simpl. rewrite Hkeys. apply NoDup_fst_map_to_list.
  - intros o Ho _. right. assert (clusters q !! getKey o = Some o) as Hlk by (by apply Hk). split; [|done].
    rewrite Hkeys. apply list_elem_of_fmap. exists (getKey o, o). split; [done|]. by apply elem_of_map_to_list.
Qed.

(** C18. Every cluster gets its turn, and only clusters do.  From a tick to the end
    of its round, however events, sends and receptions interleave: no cluster is
    sent twice; every cluster that is registered at the tick and not deleted
    during the round is sent; what is sent was registered at the tick or created
    during the round; and the controller receives, in order, exactly what was sent, never
    more than 1024 events waiting.  Clusters are told apart by namespace and name; that
    no namespace has a slash in it, as Kubernetes asks, makes the keys of the map different. *)
Theorem dispatch_round (ls0 ls : list label) (q0 q : queue) :
  steps started ls0 q0 → steps q0 (Tick :: ls ++ [RangeDone]) q → RangeDone ∉ ls →
  Forall named (ls0 ++ ls) →
  let sent := omap sentIn ls in
  NoDup sent ∧
  (∀ o, o ∈ registered ls0 → Deleted (Some o) ∉ ls → o ∈ sent) ∧
  (∀ o, o ∈ sent → o ∈ registered ls0 ∨ Created (Some o) ∈ ls) ∧
  omap sentIn (ls0 ++ ls) = omap receivedIn (ls0 ++ ls) ++ events q ∧
  length (events q) ≤ capacity.
Proof.
  intros H0 Hr Hn [Hn0 Hn1]%Forall_app. cbn zeta. pose proof (steps_app _ _ _ _ _ H0 Hr) as Hall.
  pose proof (steps_fifo _ _ _ Hall) as Hf. pose proof (steps_capacity _ _ _ Hall (Nat.le_0_l _)) as Hcap.
  assert (keyed (clusters q0) (registered ls0)) as Hk.
  { eapply steps_keyed; [exact H0|done|]. split; [|set_solver]. intros k o. simpl. rewrite lookup_empty. set_solver. }
  inversion Hr as [|? ? q1 ? ? Ht Hls]; subst. inversion Ht as [| | | |? keys Hw Hkeys| | | | |]; subst.
  apply steps_app_inv in Hls as (q2 & Hls & Hdone).
  eapply (inRange_steps (registered ls0) []) in Hls; [|by apply range_starts|exact Hk|done|done].
  destruct Hls as (past & todo & Hd & Hnd & Hsub & Hreg & Hcov).
  assert (todo = []) as ->.
  { inversion Hdone as [|? ? ? ? ? Hs]; subst. inversion Hs as [| | | | | | |? past' Hd'| |]; subst. congruence. }
  split_and!; [|intros o Ho Hx; destruct (Hcov o Ho Hx) as [?|[[]%not_elem_of_nil _]]; done|exact Hreg| |exact Hcap].
  - apply (NoDup_fmap_1 getKey). rewrite app_nil_r in Hnd. by eapply sublist_NoDup; [exact Hnd|exact Hsub].
  - rewrite !omap_app in Hf. simpl in Hf. rewrite !omap_app in Hf |- *. simpl in Hf.
    rewrite !app_nil_r in Hf. exact Hf.
Qed.

(** *** A round ends *)

Definition progresses (l : label) : Prop :=
  match l with Sent _ | Skipped | Received _ | RangeDone => True | _ => False end.

Lemma drain q : ∃ ls q', steps q ls q' ∧ Forall progresses ls ∧
  clusters q' = clusters q ∧ dispatcher q' = dispatcher q ∧ events q' = [].
Proof.
  destruct q as [m d es]. induction es as [|o es IH].
  - exists [], (mkQueue m d []). split_and!; constructor.
  - destruct IH as (ls & q' & Hs & Hf & ? & ? & ?). exists (Received o :: ls), q'.
    split_and!; [|by constructor|done..]. econstructor; [|exact Hs].
    exact (step_received (mkQueue m d (o :: es)) o es eq_refl).
Qed.

(** Nothing blocks for good: from every state in which the goroutine ranges over the
    clusters, the controller and the goroutine can bring the round to its end by
    themselves. *)
Theorem round_ends (q : queue) (past todo : list string) :
  dispatcher q = Ranging past todo →
  ∃ ls q', steps q ls q' ∧ Forall progresses ls ∧ dispatcher q' = Waiting.
Proof.
  revert q past. induction todo as [|k todo IH]; intros q past Hd.
  - exists [RangeDone], (mkQueue (clusters q) Waiting (events q)).
    split_and!; [|by repeat constructor|done]. econstructor; [|constructor]. by eapply step_done.
  - destruct (drain q) as (ls1 & q1 & Hs1 & Hf1 & _ & Hd1 & He1). rewrite Hd in Hd1.
    assert (∃ l q2, step q1 l q2 ∧ progresses l ∧ dispatcher q2 = Ranging (past ++ [k]) todo) as (l & q2 & Hstep & Hl & Hd2).
    { destruct (clusters q1 !! k) as [o|] eqn:E; eexists _, _; [split; [by eapply step_sent; [..|rewrite He1; apply Nat.lt_0_succ]|done]|
        split; [by eapply step_skipped|done]]. }
    destruct (IH q2 _ Hd2) as (ls' & q' & Hs3 & Hf3 & Hd3). exists (ls1 ++ l :: ls'), q'.
    split_and!; [|apply Forall_app; split; [done|by constructor]|done].
    eapply steps_app; [exact Hs1|]. by econstructor.
Qed.

(** ** Example *)

(** Two clusters of the same name. *)
Definition sampleObject : Object_ := mkObject "prod" "demo".
Definition otherObject : Object_ := mkObject "test" "demo".

Definition sampleLabels : list label := [Sent otherObject; Received otherObject; Sent sampleObject].

Lemma dispatch_round_witness :
  ∃ q0 q, steps started [Created (Some sampleObject); Created (Some otherObject)] q0 ∧
    steps q0 (Tick :: sampleLabels ++ [RangeDone]) q ∧
    sampleObject ∈ omap sentIn sampleLabels ∧ otherObject ∈ omap sentIn sampleLabels.
Proof.
  set (q0 := onCreate (Some otherObject) (onCreate (Some sampleObject) started)).
  assert (steps started [Created (Some sampleObject); Created (Some otherObject)] q0) as H0
    by (econstructor; [apply step_created|econstructor; [apply step_created|constructor]]).
  assert (∃ q, steps q0 (Tick :: sampleLabels ++ [RangeDone]) q) as [q Hq].
  { eexists. econstructor; [apply (step_tick q0 ["test/demo"; "prod/demo"] eq_refl)|].
    { change (clusters q0) with (<[getKey otherObject := otherObject]> (<[getKey sampleObject := sampleObject]> (∅ : gmap string Object_))).
      rewrite !map_to_list_insert, map_to_list_empty by (vm_compute; reflexivity). done. }
    econstructor; [by eapply step_sent; [reflexivity|vm_compute; reflexivity|apply Nat.lt_0_succ]|].
    econstructor; [by apply step_received|].
    econstructor; [by eapply step_sent; [reflexivity|vm_compute; reflexivity|apply Nat.lt_0_succ]|].
    econstructor; [by eapply step_done|constructor]. }
  exists q0, q. split; [exact H0|]. split; [exact Hq|].
  destruct (dispatch_round _ _ _ _ H0 Hq) as (_ & Hsent & _).
  { unfold sampleLabels. set_solver. }
  { repeat constructor. }
  split; apply Hsent; try (unfold sampleLabels; set_solver); unfold registered; simpl; set_solver.
Defined.

Lemma round_ends_witness :
  let q := mkQueue {[ "prod/demo" := sampleObject ]} (Ranging [] ["prod/demo"]) [] in
  ∃ ls q', steps q ls q' ∧ Forall progresses ls ∧ dispatcher q' = Waiting.
Proof. cbn zeta. exact (round_ends (mkQueue {[ "prod/demo" := sampleObject ]} (Ranging [] ["prod/demo"]) []) [] ["prod/demo"] eq_refl). Defined.
