(* ===== verification/Upgrades.v ===== *)
(** * The upgrade of clusters of old operators

    [pkg/controller/mysqlcluster/internal/upgrades]: a cluster that does not have the
    annotation of version 300 is scaled down to its first pod, its stateful set is
    deleted (it is created again by the cluster controller), and the annotation is
    written.

    A nil pointer that is followed ends the run with [nilDeref]. *)

From S2P Require Import Prelude GoStrings Semver ClusterTypes Versioning ClusterStatus ClusterModel.
From S2P Require Import GoTime PodNames OrcTopology OrcReconcile.
From coqutil Require Import Datatypes.RecordSetters.
Import DoubleBraceUpdate.
Open Scope stdpp_scope.

(** ** Effects *)

Inductive up_op :=
  | UGetStatefulSet (ns name : string)
  | UUpdateStatefulSet (sts : StatefulSet)
  | UDeleteStatefulSet (sts : StatefulSet)
  | UDeleteService (ns name : string)
  | UUpdateCluster (c : MysqlCluster)
  | UUpdateClusterStatus (c : MysqlCluster)
  | UOrc (o : orc_op).

(** An update gives the object as the API server has it afterwards. *)
#[export] Instance up_effect : Effect up_op := λ o,
  match o with
  | UGetStatefulSet _ _ | UUpdateStatefulSet _ => result StatefulSet
  | UDeleteStatefulSet _ | UDeleteService _ _ => result unit
  | UUpdateCluster _ | UUpdateClusterStatus _ => result MysqlCluster
  | UOrc o => Resp o
  end.

#[export] Instance up_orc : Embeds orc_op up_op :=
  {| embed := UOrc; answer_of o r := r; answer_to o r := r |}.

(** ** The upgrader *)

(* src/pkg/controller/mysqlcluster/internal/upgrades/upgrades.go:234-245 NewUpgrader *)
Definition upgraderVersion : Z := 300.

(* src/pkg/controller/mysqlcluster/internal/upgrades/upgrades.go:132-149 ShouldUpdate *)
Definition ShouldUpdate (c : MysqlCluster) : bool :=
  match map_get (cl_Annotations c) AnnotationVersion with
  | None => true
  | Some version =>
      match ParseInt32 version with
      | None => true
      | Some ver => (ver <? upgraderVersion)%Z
      end
  end.

(** The annotation. *)
Definition annotated (c : MysqlCluster) : MysqlCluster :=
  c {{ cl_Meta -> om_Annotations ::= λ m, Some (<[AnnotationVersion := itoa upgraderVersion]> (default ∅ m)) }}.

(* src/pkg/controller/mysqlcluster/internal/upgrades/upgrades.go:151-162 markUpgradeComplete *)
Definition markUpgradeComplete (c : MysqlCluster) : prog up_op (MysqlCluster * result unit) :=
  let c := annotated c in
  r ← call (UUpdateCluster c);
  mret match (r : result MysqlCluster) with Ok c => (c, Ok tt) | Err e => (c, Err e) end.

(* src/pkg/controller/mysqlcluster/internal/upgrades/upgrades.go:164-171 getStatefulSet *)
Definition upGetStatefulSet (c : MysqlCluster) : prog up_op (result StatefulSet) :=
  call (UGetStatefulSet (cl_Namespace c) (GetNameForResource StatefulSetName (cl_Name c))).

(* src/pkg/controller/mysqlcluster/internal/upgrades/upgrades.go:173-184 instancesFromOrc *)
Definition instancesFromOrc (c : MysqlCluster) : prog up_op (result InstancesSet) :=
  r ← lift (call (Cluster (GetClusterAlias c)));
  mret match (r : result InstancesSet) with
       | Ok insts => Ok insts
       | Err e => if negb (OrcIsNotFound e) then Err e else Ok []
       end.

(* src/pkg/controller/mysqlcluster/internal/upgrades/upgrades.go:219-223 getPodOldHostname *)
Definition getPodOldHostname (c : MysqlCluster) (node : Z) : string :=
  GetNameForResource StatefulSetName (cl_Name c) +:+ "-" +:+ itoa node +:+ "." +:+
  GetNameForResource OldHeadlessSVC (cl_Name c) +:+ "." +:+ cl_Namespace c.

(* src/pkg/controller/mysqlcluster/internal/upgrades/upgrades.go:209-217 getNodeFrom *)
Definition getNodeFrom (c : MysqlCluster) (insts : InstancesSet) (node : Z) : option Instance_ :=
  List.find (λ inst, String.eqb (Hostname (Key inst)) (getPodOldHostname c node)) insts.

(* src/pkg/controller/mysqlcluster/internal/upgrades/upgrades.go:186-206 checkNode0Ok *)
Definition checkNode0Ok (c : MysqlCluster) (insts : InstancesSet) : result unit :=
  match getNodeFrom c insts 0 with
  | None => Err (ErrMsg "node-0 not found in orchestarotr")
  | Some node0 =>
      if negb (String.length (Hostname (MasterKey node0)) =? 0)%nat && negb (IsDetachedMaster node0)
      then Err (ErrMsg "node 0 not yet master")
      else match SecondsBehindMaster node0 with
           | Some lag => if (lag >? 3)%Z then Err (ErrMsg "node 0 is lagged") else Ok tt
           | None => Ok tt
           end
  end.

(* src/pkg/controller/mysqlcluster/internal/upgrades/upgrades.go:225-233 forgetFromOrc *)
Definition forgetFromOrc (c : MysqlCluster) : prog up_op (result unit) :=
  match Replicas (cl_Spec c) with
  | None => mret (Err nilDeref)
  | Some n =>
      for_each_err (List.map Z.of_nat (seq 0 (Z.to_nat n))) (λ node,
        lift (call (Forget (getPodOldHostname c node) 3306)))
  end.

(** The part that scales down: the cluster and the stateful set afterwards. *)
Definition scaleDown (c : MysqlCluster) (sts : StatefulSet) :
    prog up_op (MysqlCluster * result StatefulSet) :=
  match sts_Replicas sts with
  | None => mret (c, Err nilDeref)
  | Some n =>
      if (n >? 1)%Z then
        r ← call (UUpdateStatefulSet (sts {{ sts_Replicas := Some 1%Z }}));
        match (r : result StatefulSet) with
        | Err e => mret (c, Err e)
        | Ok sts =>
            let c := with_ReadyNodes 0 c in
            r ← call (UUpdateClusterStatus c);
            mret match (r : result MysqlCluster) with
                 | Err e => (c, Err e)
                 | Ok c => (c, Ok sts)
                 end
        end
      else mret (c, Ok sts)
  end.

(** The part that deletes. *)
Definition recreate (c : MysqlCluster) (sts : StatefulSet) (insts : InstancesSet) :
    prog up_op (MysqlCluster * result unit) :=
  if (sts_ReadyReplicas sts >? 1)%Z then
    mret (c, Err (ErrMsg "statefulset has more than one running pods"))
  else match checkNode0Ok c insts with
  | Err e => mret (c, Err e)
  | Ok _ =>
      r ← forgetFromOrc c;
      match r with
      | Err e => mret (c, Err e)
      | Ok _ =>
          r ← call (UDeleteStatefulSet sts);
          match (r : result unit) with
          | Err e => mret (c, Err e)
          | Ok _ =>
              r ← call (UDeleteService (cl_Namespace c) (GetNameForResource OldHeadlessSVC (cl_Name c)));
              match (r : result unit) with
              | Err e => mret (c, Err e)
              | Ok _ => markUpgradeComplete c
              end
          end
      end
  end.

(* src/pkg/controller/mysqlcluster/internal/upgrades/upgrades.go:60-131 Run *)
Definition UpgraderRun (c : MysqlCluster) : prog up_op (MysqlCluster * result unit) :=
  r ← upGetStatefulSet c;
  match r with
  | Err e => if is_not_found e then markUpgradeComplete c else mret (c, Err e)
  | Ok sts =>
      _ ← for_each (st_Nodes (cl_Status c)) (λ ns, _ ← lift (call (Discover (ns_Name ns) MysqlPort)); mret tt);
      r ← instancesFromOrc c;
      match r with
      | Err e => mret (c, Err e)
      | Ok insts =>
          r ← scaleDown c sts;
          match r with
          | (c, Err e) => mret (c, Err e)
          | (c, Ok sts) => recreate c sts insts
          end
      end
  end.

(** ** Properties *)

(** The first pod can take over alone: it is known, it is no replica (or was
    detached), and does not lag by more than three seconds. *)
Definition node0Fine (c : MysqlCluster) (insts : InstancesSet) : Prop :=
  ∃ x, x ∈ insts ∧ Hostname (Key x) = getPodOldHostname c 0 ∧
    (Hostname (MasterKey x) = "" ∨ IsDetachedMaster x = true) ∧
    (∀ lag, SecondsBehindMaster x = Some lag → (lag ≤ 3)%Z).

Lemma checkNode0Ok_spec c insts : checkNode0Ok c insts = Ok tt → node0Fine c insts.
Proof.
  unfold checkNode0Ok, getNodeFrom. destruct (List.find _ insts) as [x|] eqn:E; [|done].
  apply List.find_some in E as [Hin Hn%String.eqb_eq].
  destruct (negb _ && negb _) eqn:Em; [done|]. intros Hl. exists x.
  split_and!; [by apply list_elem_of_In|done| |].
  - apply andb_false_iff in Em as [Em|Em]; [|right; by apply negb_false_iff].
    left. by destruct (Hostname (MasterKey x)).
  - intros lag Hlag. rewrite Hlag in Hl. destruct (lag >? 3)%Z eqn:El; [done|]. lia.
Qed.

(** The rule on the calls of a run for the cluster [c]. *)
Definition upRule (c : MysqlCluster) (e : event up_op) (h : list (event up_op)) : Prop :=
  match ev_op e with
  | UDeleteStatefulSet sts =>
      (sts_ReadyReplicas sts ≤ 1)%Z ∧
      ∃ c' alias insts, (c' = c ∨ ∃ u, Ev (UUpdateClusterStatus u) (Ok c') ∈ h) ∧
        Ev (UOrc (Cluster alias)) (Ok insts) ∈ h ∧ node0Fine c' insts
  | UDeleteService _ _ => ∃ sts, Ev (UDeleteStatefulSet sts) (Ok tt) ∈ h
  | UUpdateCluster c' =>
      ShouldUpdate c' = false ∧
      ((∃ ns name e, is_not_found e = true ∧ Ev (UGetStatefulSet ns name) (Err e) ∈ h) ∨
       (∃ sts, Ev (UDeleteStatefulSet sts) (Ok tt) ∈ h))
  | UUpdateStatefulSet sts => sts_Replicas sts = Some 1%Z
  | _ => True
  end.

Lemma ShouldUpdate_annotated c : ShouldUpdate (annotated c) = false.
Proof.
  unfold ShouldUpdate, annotated. destruct c as [m s st]. destruct m. cbn. by rewrite lookup_insert_eq.
Qed.

Section Order.
Context (c : MysqlCluster).
#[local] Abbreviation keeps := (Prelude.keeps (upRule c)).

(** A call, which is remembered with its answer. *)
Lemma upCall_keeps P (o : up_op) :
  (∀ r h, P h → upRule c (Ev o r) h) → keeps P (call o) (λ r h, Ev o r ∈ h).
Proof. intros Hr. apply keeps_call; [done|]. intros r h _. apply elem_of_app. right. by left. Qed.

Lemma liftOrc_keeps P (o : orc_op) : keeps P (lift (call o)) (λ r h, Ev (UOrc o) r ∈ h).
Proof. exact (lift_call_keeps (upRule c) P o (λ _ _ _, I)). Qed.

(** The cluster is as the API server answered. *)
Definition written (r : MysqlCluster * result unit) (h : list (event up_op)) : Prop :=
  r.2 = Ok tt → ∃ u, Ev (UUpdateCluster u) (Ok r.1) ∈ h.

Lemma written_stable r : stable (written r).
Proof. unfold written. auto with stable. Qed.

Lemma markUpgradeComplete_keeps P c' :
  (∀ h, P h → (∃ ns name e, is_not_found e = true ∧ Ev (UGetStatefulSet ns name) (Err e) ∈ h) ∨
              (∃ sts, Ev (UDeleteStatefulSet sts) (Ok tt) ∈ h)) →
  keeps P (markUpgradeComplete c') written.
Proof.
  intros HP. unfold markUpgradeComplete. cbv zeta.
  eapply keeps_bind; [apply (upCall_keeps P (UUpdateCluster (annotated c')))|intros ?; apply stable_elem|].
  - intros r h Hh. split; [apply ShouldUpdate_annotated|by apply HP].
  - intros r. apply keeps_ret. intros h [_ Hin]. destruct (r : result MysqlCluster); [intros _; by eexists|done].
Qed.

(** What is known of the cluster in memory. *)
Definition current (c' : MysqlCluster) (h : list (event up_op)) : Prop :=
  c' = c ∨ ∃ u, Ev (UUpdateClusterStatus u) (Ok c') ∈ h.

Lemma current_stable c' : stable (current c').
Proof. unfold current. auto with stable. Qed.

Lemma forgetFromOrc_keeps P c' : keeps P (forgetFromOrc c') (λ _ _, True).
Proof.
  unfold forgetFromOrc. destruct (Replicas (cl_Spec c')); [|by apply keeps_ret].
  apply keeps_for_each_err. intros x _. eapply keeps_weaken; [apply liftOrc_keeps|intros h Hh; exact Hh|done].
Qed.

Lemma recreate_keeps P c' sts insts :
  (∀ h, P h → current c' h ∧ (insts ≠ [] → ∃ alias, Ev (UOrc (Cluster alias)) (Ok insts) ∈ h)) →
  keeps P (recreate c' sts insts) written.
Proof.
  intros HP. unfold recreate. destruct (sts_ReadyReplicas sts >? 1)%Z eqn:Er; [by apply keeps_ret|].
  destruct (checkNode0Ok c' insts) as [[]|e] eqn:Ec; [|by apply keeps_ret]. apply checkNode0Ok_spec in Ec.
  eapply keeps_bind; [apply forgetFromOrc_keeps|intros ?; exact (stable_const True)|].
  intros [[]|e]; [|by apply keeps_ret].
  eapply keeps_bind; [apply (upCall_keeps _ (UDeleteStatefulSet sts))|intros ?; apply stable_elem|].
  { intros r h [Hh _]. destruct (HP h Hh) as [Hc Hi]. split; [lia|].
    destruct Hi as [alias Hi]; [destruct Ec as (x & Hx & _); by intros ->; apply elem_of_nil in Hx|].
    by exists c', alias, insts. }
  intros [[]|e]; [|by apply keeps_ret].
  eapply keeps_bind; [apply (upCall_keeps _ (UDeleteService _ _))|intros ?; apply stable_elem|].
  { intros r h [_ Hd]. by exists sts. }
  intros [[]|e]; [|by apply keeps_ret].
  apply markUpgradeComplete_keeps. intros h [[_ Hd] _]. right. by exists sts.
Qed.

Lemma scaleDown_keeps P sts :
  keeps P (scaleDown c sts) (λ r h, ∀ s, r.2 = Ok s → current r.1 h).
Proof.
  unfold scaleDown. destruct (sts_Replicas sts) as [n|]; [|by apply keeps_ret].
  destruct (n >? 1)%Z; [|apply keeps_ret; by left].
  eapply keeps_bind; [by apply (upCall_keeps _ (UUpdateStatefulSet _))|intros ?; apply stable_elem|].
  intros [s|e]; [|by apply keeps_ret]. cbv zeta.
  eapply keeps_bind; [by apply (upCall_keeps _ (UUpdateClusterStatus _))|intros ?; apply stable_elem|].
  intros [c'|e]; apply keeps_ret; [|done]. intros h [_ Hin] s' _. right. by eexists.
Qed.

Lemma UpgraderRun_keeps : keeps (λ _, True) (UpgraderRun c) written.
Proof.
  unfold UpgraderRun.
  eapply keeps_bind; [by apply (upCall_keeps _ (UGetStatefulSet _ _))|intros ?; apply stable_elem|].
  intros [sts|e].
  2:{ destruct (is_not_found e) eqn:En; [|by apply keeps_ret].
      apply markUpgradeComplete_keeps. intros h [_ Hin]. left. by eexists _, _, e. }
  apply (keeps_bind _ _ (λ _ _, True)); [|intros ?; exact (stable_const True)|intros _].
  { generalize (st_Nodes (cl_Status c)). intros nodes. induction nodes as [|n nodes IH]; [by apply keeps_ret|].
    apply (keeps_bind _ _ (λ _ _, True)); [|intros ?; exact (stable_const True)|intros _].
    - eapply keeps_bind; [apply liftOrc_keeps|intros ?; apply stable_elem|]. intros ?. by apply keeps_ret.
    - eapply keeps_weaken; [exact IH|by intros h [? _]|done]. }
  eapply (keeps_bind _ _ (λ r h, ∀ insts, r = Ok insts → insts ≠ [] →
    ∃ alias, Ev (UOrc (Cluster alias)) (Ok insts) ∈ h)).
  - unfold instancesFromOrc. eapply keeps_bind; [apply liftOrc_keeps|intros ?; apply stable_elem|].
    intros r. apply keeps_ret. intros h [_ Hin] insts Hr Hne. destruct (r : result InstancesSet) as [i|e].
    + injection Hr as ->. by eexists.
    + destruct (negb (OrcIsNotFound e)); [done|]. by injection Hr as <-.
  - intros r h e Hr insts Hi Hne. destruct (Hr insts Hi Hne) as [alias Ha]. exists alias. by apply stable_elem.
  - intros [insts|e]; [|by apply keeps_ret].
    eapply keeps_bind; [apply scaleDown_keeps|intros r h e Hr s Hs; by eapply current_stable, Hr|].
    intros [c' [s|e]]; [|by apply keeps_ret]. apply recreate_keeps.
    intros h [[_ Hi] Hc]. split; [by apply (Hc s)|]. by apply Hi.
Qed.

(** C13. The upgrade of an old cluster, whatever the API server and Orchestrator
    answer: the stateful set is deleted only if it has at most one ready pod and
    Orchestrator has just reported the first pod as a server that follows no other
    and does not lag; the headless service is deleted and the upgrade is marked as
    done only once the stateful set is gone; and a cluster that is marked is not
    upgraded again. *)
Theorem UpgraderRun_safe (w : world up_op) : guarded (upRule c) (trace (UpgraderRun c) w).
Proof. exact (proj1 (keeps_run _ _ _ w UpgraderRun_keeps)). Qed.

End Order.

(** ** Examples *)

Section Witnesses.
#[local] Existing Instances Ref.blang.

Definition oldCluster : MysqlCluster := Sample.cluster "5.7" "".

(** Two pods, of which the first is the master. *)
Definition oldSts (ready : Z) : StatefulSet := Sample.statefulSet "5.7.35" ready.

Definition sampleUpgradeWorld : world up_op := λ _ o,
  match o return Resp o with
  | UGetStatefulSet _ _ => Ok (oldSts 1)
  | UUpdateStatefulSet s => Ok s
  | UUpdateCluster c | UUpdateClusterStatus c => Ok c
  | UDeleteStatefulSet _ | UDeleteService _ _ => Ok tt
  | UOrc (Cluster _) => Ok [sampleInstance (getPodOldHostname oldCluster 0) "" false]
  | UOrc (Master _) => Err (ErrOrc "No masters found")
  | UOrc (AuditRecovery _) => Ok []
  | UOrc (RecordEvent _ _ _) => tt
  | UOrc (Discover _ _) | UOrc (Forget _ _) | UOrc (AckRecovery _ _) | UOrc (SetHostWritable _)
  | UOrc (SetHostReadOnly _) => Ok tt
  end.

(** The whole upgrade: the cluster has the annotation afterwards. *)
Lemma UpgraderRun_sample :
  (run (UpgraderRun oldCluster) sampleUpgradeWorld).2 = Ok tt ∧
  ShouldUpdate (run (UpgraderRun oldCluster) sampleUpgradeWorld).1 = false.
Proof. split; vm_compute; reflexivity. Qed.

End Witnesses.
