(* ===== verification/UserController.v ===== *)
(** * The user controller

    [pkg/controller/mysqluser/mysqluser_controller.go]: one run of [Reconcile] for
    a [MysqlUser], which creates the user in the master of the cluster, and drops
    it and releases the finalizer when the resource is deleted.

    A panic of [NewQuery] ends the run: a run returns an [option], [None] being
    the panic. *)

From S2P Require Import Prelude GoStrings Semver ClusterTypes Versioning ClusterStatus ClusterModel.
From S2P Require Import MysqlQuery MysqlObjects.
Open Scope stdpp_scope.

(** ** Data and effects *)

(* src/pkg/apis/mysql/v1alpha1/mysqluser_types.go:35-57 MysqlUserSpec *)
Record MysqlUserSpec := mkUserSpec {
  us_ClusterRef : ClusterReference;
  us_User : string;
  (** the name and the key of the secret *)
  us_Password : string * string;
  us_AllowedHosts : list string;
  us_Permissions : list MysqlPermission;
  (** in the order in which the code ranges over the map *)
  us_ResourceLimits : list (string * Quantity) }.

(* src/pkg/apis/mysql/v1alpha1/mysqluser_types.go:111-119 MysqlUserStatus *)
Record MysqlUserStatus := mkUserStatus {
  us_Conditions : list ObjCondition; us_StatusHosts : list string }.

#[export] Instance MysqlUserStatus_eq_dec : EqDecision MysqlUserStatus.
Proof. solve_decision. Defined.

(* src/pkg/apis/mysql/v1alpha1/mysqluser_types.go:129-134 MysqlUser *)
Record MysqlUser := mkUser {
  user_Meta : ObjectMeta; user_Spec : MysqlUserSpec; user_Status : MysqlUserStatus }.

Inductive user_op :=
  | GetUser (ns name : string)
  | UGetCluster (ns name : string)
  | UGetSecret (ns name : string)
  (** the object, as the server returns it *)
  | UpdateUser (u : MysqlUser)
  | UpdateUserStatus (u : MysqlUser)
  (** [sql.Open] *)
  | Open (cfg : Config)
  | QueryExec (cfg : Config) (q : Query).

#[export] Instance user_effect : Effect user_op := λ o,
  match o with
  | GetUser _ _ | UpdateUser _ | UpdateUserStatus _ => result MysqlUser
  | UGetCluster _ _ => result MysqlCluster
  | UGetSecret _ _ => result (gmap string string)
  | Open _ | QueryExec _ _ => result unit
  end.

(** [reconcile.Result]. *)
Record ReconcileResult := mkResult { Requeue : bool; RequeueAfter : Z }.
Definition noRequeue : ReconcileResult := mkResult false 0.
Definition second : Z := 1000000000.

(* src/pkg/internal/mysqluser/mysqluser.go:116-127 GetClusterKey *)
Definition UserClusterKey (u : MysqlUser) : string * string :=
  let ref := us_ClusterRef (user_Spec u) in
  (if String.eqb (cr_Namespace ref) "" then om_Namespace (user_Meta u) else cr_Namespace ref, cr_Name ref).

Definition with_UserStatus (s : MysqlUserStatus) (u : MysqlUser) : MysqlUser :=
  mkUser (user_Meta u) (user_Spec u) s.

Definition UpdateUserCondition (now : Z) (status : ConditionStatus) (reason message : string)
    (u : MysqlUser) : MysqlUser :=
  with_UserStatus (mkUserStatus
    (updateObjCondition now ObjReady status reason message (us_Conditions (user_Status u)))
    (us_StatusHosts (user_Status u))) u.

#[export] Instance user_connection : Connection user_op := {|
  conn_cluster ns name := call (UGetCluster ns name);
  conn_secret ns name := call (UGetSecret ns name);
  conn_open cfg := call (Open cfg);
  conn_exec cfg q := call (QueryExec cfg q) |}.

(* src/pkg/internal/mysql/user.go:107-116 DropUser *)
Definition DropUser (sql : Config) (user host : string) : prog user_op (result unit) :=
  match dropUserQuery user host with
  | None => mret (Ok tt) (* not reached: the query is not empty *)
  | Some query =>
      r ← call (QueryExec sql query);
      mret match r with
           | Err err => Err (ErrMsg ("failed to delete user, err: " +:+ error_text err))
           | Ok _ => Ok tt
           end
  end.

(* src/pkg/controller/mysqluser/mysqluser_controller.go:236-243 stringIn *)
Definition stringIn (str : string) (strs : list string) : option nat :=
  fst <$> list_find (λ s, s = str) strs.

(* src/pkg/controller/mysqluser/mysqluser_controller.go:224-234 stringDiffIn *)
Definition stringDiffIn (actual desired : list string) : list string :=
  List.filter (λ aStr, match stringIn aStr desired with Some _ => false | None => true end) actual.

Section UserController.
Context `{!FinalizerMeta} (AsInt64 : Quantity → Z) (allowCrossNamespaceUsers : bool).

(* src/pkg/internal/mysql/user.go:31-58 CreateUserIfNotExists *)
Definition CreateUserIfNotExists (sql : Config) (user pass : string) (allowedHosts : list string)
    (permissions : list MysqlPermission) (resourceOptions : list (string * Quantity)) :
    prog user_op (option (result unit)) :=
  match createUserQuery AsInt64 user pass allowedHosts permissions resourceOptions with
  | Err e => mret (Some (Err e))
  | Ok None => mret None
  | Ok (Some query) =>
      r ← call (QueryExec sql query);
      mret (Some match r with
                 | Err err => Err (ErrMsg ("failed to configure user (user/pass/access), err: " +:+
                                           error_text err))
                 | Ok _ => Ok tt
                 end)
  end.

(* src/pkg/controller/mysqluser/mysqluser_controller.go:187-222 reconcileUserInDB *)
Definition reconcileUserInDB (u : MysqlUser) : prog user_op (option (result unit)) :=
  let spec := user_Spec u in
  r ← connect (UserClusterKey u);
  match r with
  | Err e => mret (Some (Err e))
  | Ok sql =>
      r ← call (UGetSecret (om_Namespace (user_Meta u)) (fst (us_Password spec)));
      match r with
      | Err e => mret (Some (Err e))
      | Ok data =>
          let password := default "" (data !! snd (us_Password spec)) in
          if String.eqb password "" then
            mret (Some (Err (ErrMsg "the MySQL user's password must not be empty")))
          else
            r ← CreateUserIfNotExists sql (us_User spec) password (us_AllowedHosts spec)
                  (us_Permissions spec) (us_ResourceLimits spec);
            match r with
            | None => mret None
            | Some (Err e) => mret (Some (Err e))
            | Some (Ok _) =>
                let toRemove := stringDiffIn (us_StatusHosts (user_Status u)) (us_AllowedHosts spec) in
                r ← for_each_err toRemove (λ host, DropUser sql (us_User spec) host);
                mret (Some r)
            end
      end
  end.

(* src/pkg/controller/mysqluser/mysqluser_controller.go:320-327 setFailedStatus *)
Definition setFailedStatus (now : Z) (err : result unit) (u : MysqlUser) : MysqlUser :=
  match err with
  | Err e => UpdateUserCondition now ConditionFalse ProvisionFailedReason
               ("The user provisioning has failed: " +:+ error_text e) u
  | Ok _ => u
  end.

(** The part after the user was reconciled in the database. *)
Definition markProvisioned (now : Z) (u : MysqlUser) : MysqlUser :=
  let u := if bool_decide (us_StatusHosts (user_Status u) = us_AllowedHosts (user_Spec u)) then u
           else with_UserStatus (mkUserStatus (us_Conditions (user_Status u))
                                   (us_AllowedHosts (user_Spec u))) u in
  UpdateUserCondition now ConditionTrue ProvisionSucceededReason
    "The user provisioning has succeeded." u.

(** The user is returned with the error, since it has been mutated. *)
(* src/pkg/controller/mysqluser/mysqluser_controller.go:156-185 reconcileUserInCluster *)
Definition reconcileUserInCluster (now : Z) (u : MysqlUser) :
    prog user_op (option (MysqlUser * result unit)) :=
  r ← reconcileUserInDB u;
  match r with
  | None => mret None
  | Some (Err e) => mret (Some (setFailedStatus now (Err e) u, Err e))
  | Some (Ok _) =>
      if negb (HasFinalizer (user_Meta u) FinalizerUser) then
        let u := mkUser (AddFinalizer (user_Meta u) FinalizerUser) (user_Spec u) (user_Status u) in
        r ← call (UpdateUser u);
        match r with
        | Err e => mret (Some (setFailedStatus now (Err e) u, Err e))
        | Ok u => mret (Some (markProvisioned now u, Ok tt))
        end
      else mret (Some (markProvisioned now u, Ok tt))
  end.

(* src/pkg/controller/mysqluser/mysqluser_controller.go:245-269 dropUserFromDB *)
Definition dropUserFromDB (u : MysqlUser) : prog user_op (result unit) :=
  r ← connect (UserClusterKey u);
  match r with
  | Err err =>
      mret match err with
           | ErrAPI true kind _ => if IsMysqlClusterKind kind then Ok tt else Err err
           | _ => Err err
           end
  | Ok sql =>
      for_each_err (us_StatusHosts (user_Status u)) (λ host, DropUser sql (us_User (user_Spec u)) host)
  end.

(* src/pkg/controller/mysqluser/mysqluser_controller.go:136-153 removeUser *)
Definition removeUser (u : MysqlUser) : prog user_op (result unit) :=
  if HasFinalizer (user_Meta u) FinalizerUser then
    _ <-? (if negb (DeletionPolicyRetain (user_Meta u)) then dropUserFromDB u else mret (Ok tt));
    _ <-? call (UpdateUser (mkUser (RemoveFinalizer (user_Meta u) FinalizerUser) (user_Spec u)
                              (user_Status u)));
    mret (Ok tt)
  else mret (Ok tt).

(* src/pkg/controller/mysqluser/mysqluser_controller.go:271-285 updateStatusAndErr *)
Definition updateStatusAndErr (u : MysqlUser) (oldStatus : MysqlUserStatus) (prevErr : result unit) :
    prog user_op (result unit) :=
  if negb (bool_decide (oldStatus = user_Status u)) then
    r ← call (UpdateUserStatus u);
    match r with
    | Err err =>
        mret match prevErr with
             | Err prev => Err (ErrMsg ("failed to update status: " +:+ error_text err +:+
                                        ", previous error was: " +:+ error_text prev))
             | Ok _ => Err err
             end
    | Ok _ => mret prevErr
    end
  else mret prevErr.

(* src/pkg/controller/mysqluser/mysqluser_controller.go:75-134 Reconcile *)
Definition Reconcile (now : Z) (ns name : string) : prog user_op (option (result ReconcileResult)) :=
  r ← call (GetUser ns name);
  match r with
  | Err e => mret (Some (if is_not_found e then Ok noRequeue else Err e))
  | Ok u =>
      if negb allowCrossNamespaceUsers &&
         negb (String.eqb (om_Namespace (user_Meta u)) (fst (UserClusterKey u))) then
        mret (Some (Err (ErrMsg "cross namespace user creation is disabled")))
      else
        let oldStatus := user_Status u in
        match om_DeletionTimestamp (user_Meta u) with
        | Some _ =>
            r ← removeUser u;
            mret (Some match r with Ok _ => Ok noRequeue | Err e => Err e end)
        | None =>
            r ← call (UGetCluster (fst (UserClusterKey u)) (snd (UserClusterKey u)));
            match r with
            | Err e => mret (Some (Err e))
            | Ok cluster =>
                if negb (IsClusterReady cluster) then
                  let u := UpdateUserCondition now ConditionFalse ProvisionFailedReason
                             "cluster is not ready" u in
                  _ ← updateStatusAndErr u oldStatus (Err (ErrMsg "cluster is not ready"));
                  mret (Some (Ok (mkResult false (30 * second))))
                else
                  r ← reconcileUserInCluster now u;
                  match r with
                  | None => mret None
                  | Some (u, ruErr) =>
                      r ← updateStatusAndErr u oldStatus ruErr;
                      mret (Some match r with
                                 | Err e => Err e
                                 | Ok _ => Ok (mkResult true (2 * 60 * second))
                                 end)
                  end
            end
        end
  end.

End UserController.

(** ** Properties *)

Section UserOrder.
Context `{!FinalizerMeta, !FinalizerMetaLaws} (AsInt64 : Quantity → Z).
Implicit Types (h : list (event user_op)) (P : list (event user_op) → Prop).

(** The error that a call returned. *)
Definition ev_error (e : event user_op) : option error :=
  let err {A} (r : result A) := match r with Err e => Some e | Ok _ => None end in
  match e with
  | Ev (GetUser _ _) r | Ev (UpdateUser _) r | Ev (UpdateUserStatus _) r => err (r : result MysqlUser)
  | Ev (UGetCluster _ _) r => err (r : result MysqlCluster)
  | Ev (UGetSecret _ _) r => err (r : result (gmap string string))
  | Ev (Open _) r | Ev (QueryExec _ _) r => err (r : result unit)
  end.

Definition failed (err : error) h : Prop := ∃ e, e ∈ h ∧ ev_error e = Some err.

(** A query was executed. *)
Definition ran (q : Query) h : Prop := ∃ cfg, Ev (QueryExec cfg q) (Ok tt) ∈ h.

(** The user exists with the access that the resource asks for. *)
Definition created h : Prop :=
  ∃ ns name u pass q, Ev (GetUser ns name) (Ok u) ∈ h ∧
    createUserQuery AsInt64 (us_User (user_Spec u)) pass (us_AllowedHosts (user_Spec u))
      (us_Permissions (user_Spec u)) (us_ResourceLimits (user_Spec u)) = Ok (Some q) ∧ ran q h.

(** Nothing of the user is left, or nothing should be dropped. *)
Definition released (u : MysqlUser) h : Prop :=
  DeletionPolicyRetain (user_Meta u) = true ∨
  (∃ kind msg, IsMysqlClusterKind kind = true ∧ failed (ErrAPI true kind msg) h) ∨
  (∀ host, host ∈ us_StatusHosts (user_Status u) →
     ∃ q, dropUserQuery (us_User (user_Spec u)) host = Some q ∧ ran q h).

Definition userRule (e : event user_op) h : Prop :=
  match ev_op e with
  | UpdateUser u =>
      match om_DeletionTimestamp (user_Meta u) with
      | Some _ => released u h
      | None => created h
      end
  | UpdateUserStatus u => condTrue ObjReady (us_Conditions (user_Status u)) = true → created h
  | _ => True
  end.

Lemma userCall_keeps P (o : user_op) :
  (∀ r h, P h → userRule (Ev o r) h) → keeps userRule P (call o) (λ r h, Ev o r ∈ h).
Proof.
  intros HR. apply keeps_call; [done|]. intros r h _. apply elem_of_app. right. left.
Qed.

#[local] Instance user_conn_keeps : ConnectionKeeps userRule failed ran.
Proof.
  split.
  - intros err h e (e' & Hin & He). exists e'. split; [|done]. apply elem_of_app. by left.
  - intros q. unfold ran. auto with stable.
  - intros P ns name. eapply keeps_weaken; [by apply (userCall_keeps P (UGetCluster ns name))|intros h Hh; exact Hh|].
    intros r h Hin e ->. by eexists.
  - intros P ns name. eapply keeps_weaken; [by apply (userCall_keeps P (UGetSecret ns name))|intros h Hh; exact Hh|].
    intros r h Hin e ->. by eexists.
  - intros P cfg. eapply keeps_weaken; [by apply (userCall_keeps P (Open cfg))|intros h Hh; exact Hh|].
    intros r h Hin e ->. by eexists.
  - intros P cfg q. eapply keeps_weaken; [by apply (userCall_keeps P (QueryExec cfg q))|intros h Hh; exact Hh|].
    intros r h Hin ->. by exists cfg.
Qed.

Lemma created_stable : stable created.
Proof.
  unfold created. do 5 (apply stable_exists; intros ?). apply stable_and; [apply stable_elem|].
  apply stable_and; [apply (stable_const _)|apply ran_stable].
Qed.

Lemma DropUser_keeps P sql user host :
  keeps userRule P (DropUser sql user host) (λ r h, r = Ok tt →
    ∃ q, dropUserQuery user host = Some q ∧ ran q h).
Proof.
  unfold DropUser. destruct (dropUserQuery user host) as [q|] eqn:E; [|done].
  eapply keeps_bind; [by apply (userCall_keeps _ (QueryExec sql q))|intros r; apply stable_elem|].
  intros r. apply keeps_ret. intros h [_ Hin] Hr. exists q. split; [done|]. exists sql.
  by destruct (r : result unit) as [[]|].
Qed.

Lemma dropHosts_keeps P sql user hosts :
  keeps userRule P (for_each_err hosts (λ host, DropUser sql user host)) (λ r h, r = Ok tt →
    ∀ host, host ∈ hosts → ∃ q, dropUserQuery user host = Some q ∧ ran q h).
Proof.
  revert P. induction hosts as [|x hosts IH]; intros P.
  { apply keeps_ret. intros h _ _ host []%not_elem_of_nil. }
  eapply keeps_try; [apply DropUser_keeps| | |done].
  { intros r. apply stable_imp, stable_exists. intros q.
    apply stable_and; [apply (stable_const _)|apply ran_stable]. }
  intros []. eapply keeps_weaken; [apply keeps_post, IH|intros h Hh; exact Hh|].
  intros r h [[_ Hx] Hxs] Hr host [->|Hin]%elem_of_cons; [by apply Hx|by apply Hxs].
Qed.

Lemma removeUser_keeps P u :
  om_DeletionTimestamp (user_Meta u) ≠ None → keeps userRule P (removeUser u) (λ _ _, True).
Proof.
  intros Hdel. unfold removeUser. destruct (HasFinalizer _ _); [|by apply keeps_ret].
  eapply (keeps_try _ _ (λ r h, r = Ok tt → released u h)); [| | |done].
  - destruct (DeletionPolicyRetain (user_Meta u)) eqn:Hret; simpl.
    { apply keeps_ret. intros h _ _. by left. }
    eapply keeps_bind; [apply (connect_keeps _ failed ran)|apply (failure_stable _ failed ran)|].
    intros [sql|err].
    + eapply keeps_weaken; [apply dropHosts_keeps|intros h Hh; exact Hh|]. intros r h Hr Hok. right; right. auto.
    + apply keeps_ret. intros h [_ Hf] Hok. specialize (Hf _ eq_refl). right; left.
      destruct err as [|[] kind msg| | | | | |]; try done. exists kind, msg.
      by destruct (IsMysqlClusterKind kind).
  - intros r. apply stable_imp. unfold released.
    apply stable_or; [apply (stable_const _)|apply stable_or].
    + do 2 (apply stable_exists; intros ?). apply stable_and; [apply (stable_const _)|apply (failed_stable (ran:=ran))].
    + intros h e Hall host Hin. destruct (Hall host Hin) as (q & Hq & Hran). exists q.
      split; [done|by apply ran_stable].
  - intros []. eapply keeps_try; [apply (userCall_keeps _ (UpdateUser _))|intros r; apply stable_elem| |done].
    + intros r h [_ Hrel]. unfold userRule. simpl.
      destruct (RemoveFinalizer_frame (user_Meta u) FinalizerUser) as [l El].
      assert (Hr : released (mkUser (RemoveFinalizer (user_Meta u) FinalizerUser) (user_Spec u)
        (user_Status u)) h).
      { unfold released. rewrite El. simpl. exact (Hrel eq_refl). }
      assert (om_DeletionTimestamp (RemoveFinalizer (user_Meta u) FinalizerUser) =
        om_DeletionTimestamp (user_Meta u)) as -> by (by rewrite El).
      by destruct (om_DeletionTimestamp (user_Meta u)).
    + intros ?. by apply keeps_ret.
Qed.

Lemma updateStatusAndErr_keeps P u old prev :
  (∀ h, P h → condTrue ObjReady (us_Conditions (user_Status u)) = true → created h) →
  keeps userRule P (updateStatusAndErr u old prev) (λ _ _, True).
Proof.
  intros HP. unfold updateStatusAndErr. destruct (negb _); [|by apply keeps_ret].
  eapply keeps_bind; [apply (userCall_keeps _ (UpdateUserStatus u))|intros r; apply stable_elem|].
  - intros r h Hh. exact (HP h Hh).
  - intros [u'|e]; by apply keeps_ret.
Qed.

Definition got (u : MysqlUser) h : Prop := ∃ ns name, Ev (GetUser ns name) (Ok u) ∈ h.

Lemma CreateUserIfNotExists_keeps P sql user pass hosts perms limits :
  keeps userRule P (CreateUserIfNotExists AsInt64 sql user pass hosts perms limits) (λ r h,
    r = Some (Ok tt) →
    ∃ q, createUserQuery AsInt64 user pass hosts perms limits = Ok (Some q) ∧ ran q h).
Proof.
  unfold CreateUserIfNotExists. destruct (createUserQuery _ _ _ _ _ _) as [[q|]|e] eqn:E;
    [|by apply keeps_ret..].
  eapply keeps_bind; [by apply (userCall_keeps _ (QueryExec sql q))|intros r; apply stable_elem|].
  intros r. apply keeps_ret. intros h [_ Hin] Hr. exists q. split; [done|]. exists sql.
  by destruct (r : result unit) as [[]|].
Qed.

Lemma reconcileUserInDB_keeps P u :
  (∀ h, P h → got u h) →
  keeps userRule P (reconcileUserInDB AsInt64 u) (λ r h, r = Some (Ok tt) → created h).
Proof.
  intros HP. unfold reconcileUserInDB.
  eapply keeps_bind; [apply (connect_keeps _ failed ran)|apply (failure_stable _ failed ran)|].
  intros [sql|e]; [|by apply keeps_ret].
  eapply keeps_bind; [by apply (userCall_keeps _ (UGetSecret _ _))|intros r; apply stable_elem|].
  intros [data|e]; [|by apply keeps_ret].
  destruct (String.eqb _ _); [by apply keeps_ret|].
  eapply keeps_bind; [apply CreateUserIfNotExists_keeps| |].
  { intros r. apply stable_imp, stable_exists. intros q.
    apply stable_and; [apply (stable_const _)|apply ran_stable]. }
  intros [[[]|e]|]; [|by apply keeps_ret..].
  apply (keeps_bind _ _ (λ _ _, True)); [|intros ?; exact (stable_const True)|].
  { eapply keeps_weaken; [apply dropHosts_keeps|intros h Hh; exact Hh|done]. }
  intros r. apply keeps_ret. intros h [[[[Hh _] _] Hq] _] _.
  destruct (HP h Hh) as (ns & name & Hgot). destruct (Hq eq_refl) as (q & Hq' & Hran).
  by eexists ns, name, u, _, q.
Qed.

Lemma setFailedStatus_condTrue now e u :
  condTrue ObjReady (us_Conditions (user_Status (setFailedStatus now (Err e) u))) = false.
Proof. simpl. by rewrite updateObjCondition_condTrue. Qed.

Lemma reconcileUserInCluster_keeps P now u :
  (∀ h, P h → got u h) → om_DeletionTimestamp (user_Meta u) = None →
  keeps userRule P (reconcileUserInCluster AsInt64 now u) (λ r h,
    match r with
    | Some (u', _) => condTrue ObjReady (us_Conditions (user_Status u')) = true → created h
    | None => True
    end).
Proof.
  intros HP Hdel. unfold reconcileUserInCluster.
  eapply keeps_bind; [by apply reconcileUserInDB_keeps|intros r; apply stable_imp, created_stable|].
  intros [[[]|e]|]; [| |by apply keeps_ret].
  2:{ apply keeps_ret. intros h _ Ht. by rewrite setFailedStatus_condTrue in Ht. }
  destruct (negb _); [|apply keeps_ret; intros h [_ Hc] _; by apply Hc].
  eapply keeps_bind; [apply (userCall_keeps _ (UpdateUser _))|intros r; apply stable_elem|].
  - intros r h [_ Hc]. unfold userRule. simpl.
    destruct (AddFinalizer_frame (user_Meta u) FinalizerUser) as [l ->]. simpl. rewrite Hdel. by apply Hc.
  - intros [u'|e]; apply keeps_ret.
    + intros h [[_ Hc] _] _. by apply Hc.
    + intros h _ Ht. by rewrite setFailedStatus_condTrue in Ht.
Qed.

(** C31. The life of a user, whatever the API server and the database answer: the
    finalizer is added, and the condition Ready is set to true, only after the
    user was created with what the resource asks for; and the finalizer of a
    deleted resource is released only if its policy is to retain the user, if the
    cluster itself does not exist any more, or after the user was dropped on every
    host of the status; when the status has no hosts, because it could not be written
    after the user was created, nothing is dropped and it is released all the same.
    A missing secret does not release it. *)
Theorem Reconcile_user_order (allowCrossNamespaceUsers : bool) (now : Z) (ns name : string)
    (w : world user_op) :
  guarded userRule (trace (Reconcile AsInt64 allowCrossNamespaceUsers now ns name) w).
Proof.
  refine (proj1 (keeps_run userRule _ (λ _ _, True) w _)). unfold Reconcile.
  eapply keeps_bind; [by apply (userCall_keeps _ (GetUser ns name))|intros r; apply stable_elem|].
  intros [u|e]; [|by apply keeps_ret]. destruct (negb _ && _); [by apply keeps_ret|].
  destruct (om_DeletionTimestamp (user_Meta u)) eqn:Hdel.
  { apply (keeps_bind _ _ (λ _ _, True)); [apply removeUser_keeps; congruence| |].
    - intros ?. exact (stable_const True).
    - intros r. by apply keeps_ret. }
  eapply keeps_bind; [by apply (userCall_keeps _ (UGetCluster _ _))|intros r; apply stable_elem|].
  intros [c|e]; [|by apply keeps_ret]. destruct (negb (IsClusterReady c)).
  { apply (keeps_bind _ _ (λ _ _, True)); [|intros ?; exact (stable_const True)|].
    - apply updateStatusAndErr_keeps. intros h _ Ht. simpl in Ht.
      by rewrite updateObjCondition_condTrue in Ht.
    - intros r. by apply keeps_ret. }
  eapply keeps_bind; [apply reconcileUserInCluster_keeps; [|exact Hdel]| |].
  - intros h [[_ Hin] _]. by exists ns, name.
  - intros [[u' r]|]; [apply stable_imp, created_stable|exact (stable_const True)].
  - intros [[u' ruErr]|]; [|by apply keeps_ret].
    apply (keeps_bind _ _ (λ _ _, True)); [|intros ?; exact (stable_const True)|].
    + apply updateStatusAndErr_keeps. by intros h [_ Hc].
    + intros r. by apply keeps_ret.
Qed.

End UserOrder.

(** ** Examples *)

Section Witnesses.
#[local] Existing Instances RefFinalizers.meta RefFinalizers.meta_laws.

(** A deleted user that is known on two hosts. *)
Definition sampleUser : MysqlUser :=
  mkUser (mkMeta "app" "prod" "uid-2" ∅ None [FinalizerUser] 0 (Some 9%Z))
    (mkUserSpec (mkClusterRef "demo" "") "app" ("app-secret", "PASSWORD") ["%"] [] [])
    (mkUserStatus [] ["%"; "10.0.0.1"]).

Definition sampleUserWorld : world user_op := λ _ o,
  match o with
  | GetUser _ _ => Ok sampleUser
  | UpdateUser u | UpdateUserStatus u => Ok u
  | UGetCluster _ _ => Ok (Sample.cluster "8.0.39" "8.0.39")
  | UGetSecret _ _ => Ok {[ "ROOT_PASSWORD" := "root" ]}
  | Open _ | QueryExec _ _ => Ok tt
  end.

(** The user is dropped on both hosts before the finalizer is released. *)
Lemma Reconcile_user_order_witness :
  length (trace (Reconcile (λ _, 0%Z) false 7 "prod" "app") sampleUserWorld) = 7%nat ∧
  guarded (userRule (λ _, 0%Z)) (trace (Reconcile (λ _, 0%Z) false 7 "prod" "app") sampleUserWorld).
Proof.
  split; [vm_compute; reflexivity|].
  exact (Reconcile_user_order (λ _, 0%Z) false 7 "prod" "app" sampleUserWorld).
Defined.
End Witnesses.
