(* ===== verification/DatabaseController.v ===== *)
(** * The database controller

    [pkg/controller/mysqldatabase/db_controller.go], [pkg/internal/mysqldatabase]
    and [pkg/internal/mysql/database.go]: one run of [Reconcile] for a
    [MysqlDatabase], which creates the database in the master of the cluster, and
    drops it and releases the finalizer when the resource is deleted.

    [Module ApiServer] is an API server with a MySQL behind it, for the
    convergence of the controller. *)

From S2P Require Import Prelude GoStrings Semver ClusterTypes Versioning ClusterStatus ClusterModel.
From S2P Require Import MysqlQuery MysqlObjects UserController.
Open Scope stdpp_scope.

(** ** Data and effects *)

(* src/pkg/apis/mysql/v1alpha1/mysqldatabase_types.go:51-67 MysqlDatabaseSpec *)
Record MysqlDatabaseSpec := mkDbSpec {
  db_ClusterRef : ClusterReference;
  db_Database : string;
  db_CharacterSet : string;
  db_Collation : string }.

(* src/pkg/apis/mysql/v1alpha1/mysqldatabase_types.go:85-91 MysqlDatabase *)
Record MysqlDatabase := mkDb {
  db_Meta : ObjectMeta; db_Spec : MysqlDatabaseSpec; db_Conditions : list ObjCondition }.

Inductive db_op :=
  | GetDatabase (ns name : string)
  | DGetCluster (ns name : string)
  | DGetSecret (ns name : string)
  (** the object, as the server returns it *)
  | UpdateDatabase (db : MysqlDatabase)
  | UpdateDatabaseStatus (db : MysqlDatabase)
  | DOpen (cfg : Config)
  | DExec (cfg : Config) (q : Query).

#[export] Instance db_effect : Effect db_op := λ o,
  match o with
  | GetDatabase _ _ | UpdateDatabase _ | UpdateDatabaseStatus _ => result MysqlDatabase
  | DGetCluster _ _ => result MysqlCluster
  | DGetSecret _ _ => result (gmap string string)
  | DOpen _ | DExec _ _ => result unit
  end.

#[export] Instance db_connection : Connection db_op := {|
  conn_cluster ns name := call (DGetCluster ns name);
  conn_secret ns name := call (DGetSecret ns name);
  conn_open cfg := call (DOpen cfg);
  conn_exec cfg q := call (DExec cfg q) |}.

(* src/pkg/internal/mysqldatabase/mysqldatabase.go:111-122 GetClusterKey *)
Definition DbClusterKey (db : MysqlDatabase) : string * string :=
  let ref := db_ClusterRef (db_Spec db) in
  (if String.eqb (cr_Namespace ref) "" then om_Namespace (db_Meta db) else cr_Namespace ref, cr_Name ref).

Definition with_DbMeta (m : ObjectMeta) (db : MysqlDatabase) : MysqlDatabase :=
  mkDb m (db_Spec db) (db_Conditions db).

(** The same update as for users. *)
(* src/pkg/internal/mysqldatabase/mysqldatabase.go:70-110 UpdateCondition *)
Definition UpdateDbCondition (now : Z) (status : ConditionStatus) (reason message : string)
    (db : MysqlDatabase) : MysqlDatabase :=
  mkDb (db_Meta db) (db_Spec db)
    (updateObjCondition now ObjReady status reason message (db_Conditions db)).

Section Queries.
Context {Op : Type} `{!Effect Op, !Connection Op}.

(* src/pkg/internal/mysql/database.go:24-44 CreateDatabaseIfNotExists *)
Definition CreateDatabaseIfNotExists (sql : Config) (database charset collate : string) :
    prog Op (option (result unit)) :=
  match createDatabaseQuery database charset collate with
  | None => mret None
  | Some query =>
      r ← conn_exec sql query;
      mret (Some match r with
                 | Err err => Err (ErrMsg ("failed to create database, err: " +:+ error_text err))
                 | Ok _ => Ok tt
                 end)
  end.

(* src/pkg/internal/mysql/database.go:46-55 DropDatabase *)
Definition DropDatabase (sql : Config) (database : string) : prog Op (option (result unit)) :=
  match dropDatabaseQuery database with
  | None => mret None
  | Some query =>
      r ← conn_exec sql query;
      mret (Some match r with
                 | Err err => Err (ErrMsg ("failed to remove database, err: " +:+ error_text err))
                 | Ok _ => Ok tt
                 end)
  end.

End Queries.

(** ** The controller

    [None] is the panic of [NewQuery], which [ReconcileDatabase_order] shows never
    to happen here. *)

Section DatabaseController.
Context `{!FinalizerMeta} (allowCrossNamespaceDatabases : bool).

(* src/pkg/controller/mysqldatabase/db_controller.go:153-187 deleteDatabase *)
Definition deleteDatabase (db : MysqlDatabase) : prog db_op (option (result unit)) :=
  if DeletionPolicyRetain (db_Meta db) then mret (Some (Ok tt))
  else
    r ← connect (DbClusterKey db);
    match r with
    | Err err =>
        mret (Some match err with
                   | ErrAPI true kind _ => if IsMysqlClusterKind kind then Ok tt else Err err
                   | _ => Err err
                   end)
    | Ok sql => DropDatabase sql (db_Database (db_Spec db))
    end.

(* src/pkg/controller/mysqldatabase/db_controller.go:189-201 createDatabase *)
Definition createDatabase (db : MysqlDatabase) : prog db_op (option (result unit)) :=
  r ← connect (DbClusterKey db);
  match r with
  | Err e => mret (Some (Err e))
  | Ok sql => CreateDatabaseIfNotExists sql (db_Database (db_Spec db))
                (db_CharacterSet (db_Spec db)) (db_Collation (db_Spec db))
  end.

(* src/pkg/controller/mysqldatabase/db_controller.go:203-222 updateReadyCondition *)
Definition updateReadyCondition (now : Z) (oldDBStatus : list ObjCondition) (db : MysqlDatabase)
    (err : result unit) : prog db_op (result unit) :=
  let db := match err with
            | Ok _ => UpdateDbCondition now ConditionTrue ProvisionSucceededReason
                        "Database successfully created." db
            | Err e => UpdateDbCondition now ConditionFalse ProvisionFailedReason (error_text e) db
            end in
  if negb (bool_decide (oldDBStatus = db_Conditions db)) then
    _ <-? call (UpdateDatabaseStatus db);
    mret err
  else mret err.

(** [return reconcile.Result{}, err]. *)
Definition noResult (r : result unit) : option (result ReconcileResult) :=
  Some match r with Ok _ => Ok noRequeue | Err e => Err e end.

(* src/pkg/controller/mysqldatabase/db_controller.go:76-151 Reconcile *)
Definition ReconcileDatabase (now : Z) (ns name : string) :
    prog db_op (option (result ReconcileResult)) :=
  r ← call (GetDatabase ns name);
  match r with
  | Err e => mret (noResult (if is_not_found e then Ok tt else Err e))
  | Ok db =>
      let oldDBStatus := db_Conditions db in
      if negb allowCrossNamespaceDatabases &&
         negb (String.eqb (om_Namespace (db_Meta db)) (fst (DbClusterKey db))) then
        r ← updateReadyCondition now oldDBStatus db
              (Err (ErrMsg "cross namespace database creation is disabled"));
        mret (noResult r)
      else
        match om_DeletionTimestamp (db_Meta db) with
        | Some _ =>
            r ← deleteDatabase db;
            match r with
            | None => mret None
            | Some (Err e) => mret (noResult (Err e))
            | Some (Ok _) =>
                r ← call (UpdateDatabase (with_DbMeta (RemoveFinalizer (db_Meta db) FinalizerDatabase) db));
                mret (noResult match r with Ok _ => Ok tt | Err e => Err e end)
            end
        | None =>
            r ← call (DGetCluster (fst (DbClusterKey db)) (snd (DbClusterKey db)));
            match r with
            | Err e =>
                r ← updateReadyCondition now oldDBStatus db (Err e);
                mret (noResult r)
            | Ok cluster =>
                if negb (IsClusterReady cluster) then
                  _ ← updateReadyCondition now oldDBStatus db (Err (ErrMsg "cluster is not ready"));
                  mret (Some (Ok (mkResult false (30 * second))))
                else
                  r ← createDatabase db;
                  match r with
                  | None => mret None
                  | Some (Err e) =>
                      r ← updateReadyCondition now oldDBStatus db (Err e);
                      mret (noResult r)
                  | Some (Ok _) =>
                      if negb (HasFinalizer (db_Meta db) FinalizerDatabase) then
                        r ← call (UpdateDatabase (with_DbMeta (AddFinalizer (db_Meta db) FinalizerDatabase) db));
                        match r with
                        | Err uErr => mret (noResult (Err uErr))
                        | Ok db =>
                            r ← updateReadyCondition now oldDBStatus db (Ok tt);
                            mret (noResult r)
                        end
                      else
                        r ← updateReadyCondition now oldDBStatus db (Ok tt);
                        mret (noResult r)
                  end
            end
        end
  end.

End DatabaseController.

(** ** Properties *)

Lemma NewQuery_some q args : q ≠ "" → is_Some (NewQuery q args).
Proof. intros Hq. unfold NewQuery. destruct (String.eqb_spec q ""); [done|by eexists]. Qed.

Lemma createDatabaseQuery_some database charset collate :
  is_Some (createDatabaseQuery database charset collate).
Proof.
  unfold createDatabaseQuery.
  destruct (0 <? String.length charset)%nat, (0 <? String.length collate)%nat;
    apply NewQuery_some; discriminate.
Qed.

Lemma dropDatabaseQuery_some database : is_Some (dropDatabaseQuery database).
Proof. apply NewQuery_some. discriminate. Qed.

Section DatabaseOrder.
Context `{!FinalizerMeta, !FinalizerMetaLaws}.
Implicit Types (h : list (event db_op)) (P : list (event db_op) → Prop).

(** The error that a call returned. *)
Definition db_error (e : event db_op) : option error :=
  let err {A} (r : result A) := match r with Err e => Some e | Ok _ => None end in
  match e with
  | Ev (GetDatabase _ _) r | Ev (UpdateDatabase _) r | Ev (UpdateDatabaseStatus _) r =>
      err (r : result MysqlDatabase)
  | Ev (DGetCluster _ _) r => err (r : result MysqlCluster)
  | Ev (DGetSecret _ _) r => err (r : result (gmap string string))
  | Ev (DOpen _) r | Ev (DExec _ _) r => err (r : result unit)
  end.

Definition dbFailed (err : error) h : Prop := ∃ e, e ∈ h ∧ db_error e = Some err.

(** A query was executed. *)
Definition dbRan (q : Query) h : Prop := ∃ cfg, Ev (DExec cfg q) (Ok tt) ∈ h.

Definition dbGot (db : MysqlDatabase) h : Prop := ∃ ns name, Ev (GetDatabase ns name) (Ok db) ∈ h.

Definition createQueryOf (db : MysqlDatabase) : option Query :=
  createDatabaseQuery (db_Database (db_Spec db)) (db_CharacterSet (db_Spec db))
    (db_Collation (db_Spec db)).

(** The database that the resource asks for was created. *)
Definition dbCreated h : Prop := ∃ db q, dbGot db h ∧ createQueryOf db = Some q ∧ dbRan q h.

(** Nothing of the database is left, or nothing should be dropped. *)
Definition dbReleased (db : MysqlDatabase) h : Prop :=
  DeletionPolicyRetain (db_Meta db) = true ∨
  (∃ kind msg, IsMysqlClusterKind kind = true ∧ dbFailed (ErrAPI true kind msg) h) ∨
  (∃ q, dropDatabaseQuery (db_Database (db_Spec db)) = Some q ∧ dbRan q h).

Definition dbRule (e : event db_op) h : Prop :=
  match ev_op e with
  | UpdateDatabase db =>
      match om_DeletionTimestamp (db_Meta db) with
      | Some _ => dbReleased db h
      | None => dbCreated h
      end
  | UpdateDatabaseStatus db => condTrue ObjReady (db_Conditions db) = true → dbCreated h
  | _ => True
  end.

Lemma dbCall_keeps P (o : db_op) :
  (∀ r h, P h → dbRule (Ev o r) h) → keeps dbRule P (call o) (λ r h, Ev o r ∈ h).
Proof.
  intros HR. apply keeps_call; [done|]. intros r h _. apply elem_of_app. right. left.
Qed.

#[local] Instance db_conn_keeps : ConnectionKeeps dbRule dbFailed dbRan.
Proof.
  split.
  - intros err h e (e' & Hin & He). exists e'. split; [|done]. apply elem_of_app. by left.
  - intros q. unfold dbRan. auto with stable.
  - intros P ns name. eapply keeps_weaken; [by apply (dbCall_keeps P (DGetCluster ns name))|intros h Hh; exact Hh|].
    intros r h Hin e ->. by eexists.
  - intros P ns name. eapply keeps_weaken; [by apply (dbCall_keeps P (DGetSecret ns name))|intros h Hh; exact Hh|].
    intros r h Hin e ->. by eexists.
  - intros P cfg. eapply keeps_weaken; [by apply (dbCall_keeps P (DOpen cfg))|intros h Hh; exact Hh|].
    intros r h Hin e ->. by eexists.
  - intros P cfg q. eapply keeps_weaken; [by apply (dbCall_keeps P (DExec cfg q))|intros h Hh; exact Hh|].
    intros r h Hin ->. by exists cfg.
Qed.

Lemma dbGot_stable db : stable (dbGot db).
Proof. unfold dbGot. auto with stable. Qed.

Lemma dbCreated_stable : stable dbCreated.
Proof.
  unfold dbCreated. do 2 (apply stable_exists; intros ?). apply stable_and; [apply dbGot_stable|].
  apply stable_and; [apply (stable_const _)|apply (ran_stable (failed:=dbFailed))].
Qed.

(** A step of a handler that returns [None] on a panic, which does not happen. *)
Definition unless_panic {A} (Y : A → list (event db_op) → Prop) (r : option A) h : Prop :=
  match r with Some a => Y a h | None => False end.

Lemma dbExec_keeps P sql (query : option Query) msg :
  is_Some query →
  keeps dbRule P
    (match query with
     | None => mret None
     | Some query =>
         r ← conn_exec sql query;
         mret (Some match r with
                    | Err err => Err (ErrMsg (msg +:+ error_text err))
                    | Ok _ => Ok tt
                    end)
     end)
    (unless_panic (λ r h, r = Ok tt → ∃ q, query = Some q ∧ dbRan q h)).
Proof.
  intros [q ->]. eapply keeps_bind; [apply conn_exec_keeps| |].
  - intros r. apply stable_imp, (ran_stable (failed:=dbFailed)).
  - intros [[]|e]; apply keeps_ret; intros h [_ Hr] Hok; [|done]. exists q. auto.
Qed.

Lemma deleteDatabase_keeps P db :
  keeps dbRule P (deleteDatabase db) (unless_panic (λ r h, r = Ok tt → dbReleased db h)).
Proof.
  unfold deleteDatabase. destruct (DeletionPolicyRetain _) eqn:Hret.
  { apply keeps_ret. intros h _ _. by left. }
  eapply keeps_bind; [apply (connect_keeps _ dbFailed dbRan)|apply (failure_stable _ dbFailed dbRan)|].
  intros [sql|err].
  - eapply keeps_weaken; [apply dbExec_keeps, dropDatabaseQuery_some|intros h Hh; exact Hh|].
    intros [r|] h Hr; [|done]. intros Hok. right; right. by apply Hr.
  - apply keeps_ret. intros h [_ Hf] Hok. specialize (Hf _ eq_refl). right; left.
    destruct err as [|[] kind msg| | | | | |]; try done. exists kind, msg.
    by destruct (IsMysqlClusterKind kind).
Qed.

Lemma createDatabase_keeps P db :
  keeps dbRule P (createDatabase db)
    (unless_panic (λ r h, r = Ok tt → ∃ q, createQueryOf db = Some q ∧ dbRan q h)).
Proof.
  eapply keeps_bind; [apply (connect_keeps _ dbFailed dbRan)|apply (failure_stable _ dbFailed dbRan)|].
  intros [sql|err]; [|by apply keeps_ret].
  eapply keeps_weaken; [apply dbExec_keeps, createDatabaseQuery_some|intros h Hh; exact Hh|done].
Qed.

Lemma updateReadyCondition_keeps P now old db err :
  (∀ h, P h → err = Ok tt → dbCreated h) →
  keeps dbRule P (updateReadyCondition now old db err) (λ _ _, True).
Proof.
  intros HP. unfold updateReadyCondition. destruct (negb _); [|by apply keeps_ret].
  eapply keeps_try; [apply (dbCall_keeps _ (UpdateDatabaseStatus _))|intros r; apply stable_elem| |done].
  - intros r h Hh. unfold dbRule. simpl. destruct err as [[]|e]; [by intros _; apply HP|].
    simpl. by rewrite updateObjCondition_condTrue.
  - intros ?. by apply keeps_ret.
Qed.

Lemma finishReady_keeps P now old db err :
  (∀ h, P h → err = Ok tt → dbCreated h) →
  keeps dbRule P (r ← updateReadyCondition now old db err; mret (noResult r))
    (unless_panic (λ _ _, True)).
Proof.
  intros HP. eapply keeps_bind; [by apply updateReadyCondition_keeps|intros ?; exact (stable_const True)|].
  intros r. by apply keeps_ret.
Qed.

(** The life of a database, whatever the API server and MySQL answer: the
    finalizer is added, and the condition Ready is set to true, only after the
    database was created with the character set and the collation that the
    resource asks for; the finalizer of a deleted resource is released only if
    its policy is to retain the database, if the cluster itself does not exist
    any more, or after the database was dropped; and no run panics. *)
Theorem ReconcileDatabase_order (allowCrossNamespaceDatabases : bool) (now : Z) (ns name : string)
    (w : world db_op) :
  guarded dbRule (trace (ReconcileDatabase allowCrossNamespaceDatabases now ns name) w) ∧
  run (ReconcileDatabase allowCrossNamespaceDatabases now ns name) w ≠ None.
Proof.
  assert (keeps dbRule (λ _, True) (ReconcileDatabase allowCrossNamespaceDatabases now ns name)
    (unless_panic (λ _ _, True))) as Hk.
  { unfold ReconcileDatabase.
    eapply keeps_bind; [by apply (dbCall_keeps _ (GetDatabase ns name))|intros r; apply stable_elem|].
    intros [db|e]; [|by apply keeps_ret].
    destruct (negb _ && _); [by apply finishReady_keeps|].
    destruct (om_DeletionTimestamp (db_Meta db)) eqn:Hdel.
    { eapply keeps_bind; [apply deleteDatabase_keeps| |].
      - intros [r|]; [|exact (stable_const False)]. apply stable_imp.
        apply stable_or; [apply (stable_const _)|apply stable_or].
        + do 2 (apply stable_exists; intros ?).
          apply stable_and; [apply (stable_const _)|apply (failed_stable (ran:=dbRan))].
        + apply stable_exists; intros ?.
          apply stable_and; [apply (stable_const _)|apply (ran_stable (failed:=dbFailed))].
      - intros [[[]|e]|]; [|by apply keeps_ret|apply keeps_ret; by intros h [_ []]].
        eapply keeps_bind; [apply (dbCall_keeps _ (UpdateDatabase _))|intros r; apply stable_elem|].
        + intros r h [_ Hrel]. unfold dbRule. simpl.
          destruct (RemoveFinalizer_frame (db_Meta db) FinalizerDatabase) as [l El].
          unfold dbReleased. simpl. rewrite El. simpl. rewrite Hdel. exact (Hrel eq_refl).
        + intros r. by apply keeps_ret. }
    eapply keeps_bind; [by apply (dbCall_keeps _ (DGetCluster _ _))|intros r; apply stable_elem|].
    intros [c|e]; [|by apply finishReady_keeps]. destruct (negb (IsClusterReady c)).
    { eapply keeps_bind; [by apply updateReadyCondition_keeps|intros ?; exact (stable_const True)|].
      intros r. by apply keeps_ret. }
    eapply keeps_bind; [apply createDatabase_keeps| |].
    - intros [r|]; [|exact (stable_const False)]. apply stable_imp, stable_exists. intros ?.
      apply stable_and; [apply (stable_const _)|apply (ran_stable (failed:=dbFailed))].
    - assert (∀ h, (((True ∧ Ev (GetDatabase ns name) (Ok db) ∈ h) ∧
          Ev (DGetCluster (DbClusterKey db).1 (DbClusterKey db).2) (Ok c) ∈ h) ∧
          unless_panic (λ r h, r = Ok tt → ∃ q, createQueryOf db = Some q ∧ dbRan q h) (Some (Ok tt)) h) →
          dbCreated h) as Hc.
      { intros h [[[_ Hg] _] Hq]. destruct (Hq eq_refl) as (q & ? & ?). exists db, q.
        split_and!; [by eexists _, _|done|done]. }
      intros [[[]|e]|]; [|by apply finishReady_keeps|apply keeps_ret; by intros h [_ []]].
      destruct (negb (HasFinalizer _ _)); [|apply finishReady_keeps; intros h Hh _; by apply Hc].
      eapply keeps_bind; [apply (dbCall_keeps _ (UpdateDatabase _))|intros r; apply stable_elem|].
      + intros r h Hh. unfold dbRule. simpl.
        destruct (AddFinalizer_frame (db_Meta db) FinalizerDatabase) as [l ->]. simpl. rewrite Hdel.
        by apply Hc.
      + intros [db'|e]; [|by apply keeps_ret]. apply finishReady_keeps.
        intros h [Hh _] _. by apply Hc. }
  destruct (keeps_run dbRule _ _ w Hk) as [Hg Hr]. split; [exact Hg|].
  destruct (run _ w); [done|destruct Hr].
Qed.

End DatabaseOrder.

(** ** Convergence

    An API server that stores the resource, and a MySQL that executes what it is
    sent.  An update of a resource does not change its status, an update of the
    status changes nothing else, and an object that is being deleted is gone when
    its last finalizer is removed. *)

Module ApiServer.

Record server := mkServer {
  stored : option MysqlDatabase; cluster : result MysqlCluster; secret : gmap string string;
  executed : list Query }.

Definition not_found : error := ErrAPI true "mysqldatabases" "not found".

Definition afterUpdate (s : server) (db : MysqlDatabase) : option MysqlDatabase :=
  if bool_decide (om_DeletionTimestamp (db_Meta db) ≠ None ∧ om_Finalizers (db_Meta db) = []) then None
  else Some (mkDb (db_Meta db) (db_Spec db) (default [] (db_Conditions <$> stored s))).

Definition answer (s : server) (o : db_op) : Resp o :=
  match o return Resp o with
  | GetDatabase _ _ => match stored s with Some db => Ok db | None => Err not_found end
  | DGetCluster _ _ => cluster s
  | DGetSecret _ _ => Ok (secret s)
  | UpdateDatabase db => Ok (default db (afterUpdate s db))
  | UpdateDatabaseStatus db => Ok db
  | DOpen _ | DExec _ _ => Ok tt
  end.

Definition step (s : server) (e : event db_op) : server :=
  match ev_op e with
  | UpdateDatabase db => mkServer (afterUpdate s db) (cluster s) (secret s) (executed s)
  | UpdateDatabaseStatus db =>
      mkServer ((λ d, mkDb (db_Meta d) (db_Spec d) (db_Conditions db)) <$> stored s)
        (cluster s) (secret s) (executed s)
  | DExec _ q => mkServer (stored s) (cluster s) (secret s) (executed s ++ [q])
  | _ => s
  end.

(** The server after a query. *)
Definition ran (q : Query) (s : server) : server :=
  mkServer (stored s) (cluster s) (secret s) (executed s ++ [q]).
Definition with_stored (d : option MysqlDatabase) (s : server) : server :=
  mkServer d (cluster s) (secret s) (executed s).

#[local] Abbreviation serves := (Prelude.serves answer step).

Section Progress.
Context `{!FinalizerMeta, !FinalizerMetaLaws} (allowed : bool) (ns name : string).

Lemma connect_serves s c key :
  cluster s = Ok c → ∃ cfg, serves (connect (Op:=db_op) key) s (Ok cfg) s.
Proof.
  intros Hc. eexists. eapply serves_bind.
  - eapply serves_try; [refine (serves_call _ _ (DGetCluster _ _) _ _ _ Hc eq_refl)|].
    eapply serves_try; [refine (serves_call _ _ (DGetSecret _ _) _ _ _ eq_refl eq_refl)|].
    apply serves_ret.
  - eapply serves_try; [refine (serves_call _ _ (DOpen _) _ _ _ eq_refl eq_refl)|]. apply serves_ret.
Qed.

Lemma createDatabase_serves s c db q :
  cluster s = Ok c → createQueryOf db = Some q →
  serves (createDatabase db) s (Some (Ok tt)) (ran q s).
Proof.
  intros Hc Hq. destruct (connect_serves s c (DbClusterKey db) Hc) as [cfg Hcfg].
  eapply serves_bind; [exact Hcfg|]. unfold CreateDatabaseIfNotExists, createQueryOf in *. rewrite Hq.
  eapply serves_bind; [refine (serves_call _ _ (DExec _ q) _ _ _ eq_refl eq_refl)|]. apply serves_ret.
Qed.

(** The resource once its database was created. *)
Definition provisioned (now : Z) (db : MysqlDatabase) : MysqlDatabase :=
  UpdateDbCondition now ConditionTrue ProvisionSucceededReason "Database successfully created."
    (if HasFinalizer (db_Meta db) FinalizerDatabase then db
     else with_DbMeta (AddFinalizer (db_Meta db) FinalizerDatabase) db).

Lemma updateReadyCondition_serves s now db :
  stored s = Some db →
  serves (updateReadyCondition now (db_Conditions db) db (Ok tt)) s (Ok tt)
    (with_stored (Some (UpdateDbCondition now ConditionTrue ProvisionSucceededReason
       "Database successfully created." db)) s).
Proof.
  intros Hs. unfold updateReadyCondition. case_bool_decide as E; simpl.
  - assert (with_stored (Some (UpdateDbCondition now ConditionTrue ProvisionSucceededReason
      "Database successfully created." db)) s = s) as ->; [|apply serves_ret].
    unfold UpdateDbCondition. unfold UpdateDbCondition in E. simpl in E. rewrite <-E.
    destruct s, db. unfold with_stored. simpl in *. by subst.
  - eapply serves_try; [refine (serves_call _ _ (UpdateDatabaseStatus _) _ _ _ eq_refl _)|apply serves_ret].
    unfold step, with_stored. simpl. by rewrite Hs.
Qed.

Definition manageable (db : MysqlDatabase) : Prop :=
  allowed = true ∨ om_Namespace (db_Meta db) = fst (DbClusterKey db).

Lemma manageable_guard db :
  manageable db → negb allowed && negb (String.eqb (om_Namespace (db_Meta db)) (fst (DbClusterKey db))) = false.
Proof. intros [->| ->]; [done|]. by rewrite String.eqb_refl, andb_false_r. Qed.

Lemma update_serves s db :
  afterUpdate s db = Some db →
  serves (call (UpdateDatabase db)) s (Ok db : result MysqlDatabase) (with_stored (Some db) s).
Proof.
  intros Ha. refine (serves_call _ _ (UpdateDatabase _) _ _ _ (f_equal (λ o, Ok (default _ o)) Ha) _).
  unfold step. cbn [ev_op]. by rewrite Ha.
Qed.

Lemma Reconcile_serves s c db now q :
  stored s = Some db → om_DeletionTimestamp (db_Meta db) = None → manageable db →
  cluster s = Ok c → IsClusterReady c = true → createQueryOf db = Some q →
  serves (ReconcileDatabase allowed now ns name) s (Some (Ok noRequeue))
    (with_stored (Some (provisioned now db)) (ran q s)).
Proof.
  intros Hs Hdel Hm Hc Hready Hq. unfold ReconcileDatabase, provisioned.
  eapply serves_bind; [refine (serves_call _ _ (GetDatabase _ _) _ _ _ eq_refl eq_refl)|]. simpl. rewrite Hs, manageable_guard by done. rewrite Hdel.
  eapply serves_bind; [refine (serves_call _ _ (DGetCluster _ _) _ _ _ Hc eq_refl)|]. cbv beta iota. rewrite Hready.
  cbn [negb].
  eapply serves_bind; [by apply (createDatabase_serves _ c _ q)|]. simpl.
  destruct (HasFinalizer _ _) eqn:Hf; simpl.
  - eapply serves_bind; [by apply updateReadyCondition_serves|]. apply serves_ret.
  - assert (afterUpdate (ran q s) (with_DbMeta (AddFinalizer (db_Meta db) FinalizerDatabase) db) =
      Some (with_DbMeta (AddFinalizer (db_Meta db) FinalizerDatabase) db)) as Ha.
    { unfold afterUpdate. rewrite bool_decide_eq_false_2; [by simpl; rewrite Hs|]. intros [Hd _].
      destruct (AddFinalizer_frame (db_Meta db) FinalizerDatabase) as [l El]. simpl in Hd. by rewrite El in Hd. }
    eapply serves_bind; [exact (update_serves _ _ Ha)|]. cbv beta iota.
    refine (serves_bind _ _ _ _ _ (Ok tt) _ _ _
      (updateReadyCondition_serves (with_stored (Some _) (ran q s)) now _ eq_refl) _). apply serves_ret.
Qed.

Lemma provisioned_finalizer now db : HasFinalizer (db_Meta (provisioned now db)) FinalizerDatabase = true.
Proof.
  unfold provisioned. destruct (HasFinalizer (db_Meta db) FinalizerDatabase) eqn:E; simpl;
    [exact E|apply HasFinalizer_Add].
Qed.

Lemma provisioned_fixpoint now now' db : provisioned now' (provisioned now db) = provisioned now db.
Proof.
  unfold provisioned at 1. rewrite provisioned_finalizer. unfold provisioned, UpdateDbCondition. simpl.
  by rewrite updateObjCondition_idem.
Qed.

Lemma provisioned_frame now db :
  db_Spec (provisioned now db) = db_Spec db ∧
  om_Namespace (db_Meta (provisioned now db)) = om_Namespace (db_Meta db) ∧
  om_DeletionTimestamp (db_Meta (provisioned now db)) = om_DeletionTimestamp (db_Meta db) ∧
  DbClusterKey (provisioned now db) = DbClusterKey db.
Proof.
  unfold provisioned, DbClusterKey. destruct (HasFinalizer _ _); [done|].
  destruct (AddFinalizer_frame (db_Meta db) FinalizerDatabase) as [l El]. simpl. by rewrite El.
Qed.

(** C33. Convergence of a database: against a server that answers, with a cluster that
    is ready, one run of [Reconcile] creates the database, adds the finalizer and
    stores the condition Ready; and every later run, at whatever time, leaves the
    resource as it is and only repeats the query, which does nothing when the
    database exists. *)
Theorem ReconcileDatabase_converges (s : server) (c : MysqlCluster) (db : MysqlDatabase) (now now' : Z) :
  stored s = Some db → om_DeletionTimestamp (db_Meta db) = None → manageable db →
  cluster s = Ok c → IsClusterReady c = true →
  ∃ q s1, createQueryOf db = Some q ∧
    serves (ReconcileDatabase allowed now ns name) s (Some (Ok noRequeue)) s1 ∧
    executed s1 = executed s ++ [q] ∧
    (∃ db1, stored s1 = Some db1 ∧ condTrue ObjReady (db_Conditions db1) = true ∧
      HasFinalizer (db_Meta db1) FinalizerDatabase = true ∧ db_Spec db1 = db_Spec db) ∧
    serves (ReconcileDatabase allowed now' ns name) s1 (Some (Ok noRequeue)) (ran q s1).
Proof.
  intros Hs Hdel Hm Hc Hready.
  destruct (createDatabaseQuery_some (db_Database (db_Spec db)) (db_CharacterSet (db_Spec db))
    (db_Collation (db_Spec db))) as [q Hq].
  destruct (provisioned_frame now db) as (Hspec & Hns & Hdel' & Hkey).
  exists q, (with_stored (Some (provisioned now db)) (ran q s)). split_and!.
  - exact Hq.
  - by apply (Reconcile_serves s c).
  - done.
  - exists (provisioned now db). split_and!; [done| |apply provisioned_finalizer|done].
    apply updateObjCondition_condTrue.
  - pose proof (Reconcile_serves (with_stored (Some (provisioned now db)) (ran q s)) c
      (provisioned now db) now' q) as Hagain. rewrite provisioned_fixpoint in Hagain.
    apply Hagain; [done|congruence| |done|done|by unfold createQueryOf; rewrite Hspec].
    unfold manageable. by rewrite Hns, Hkey.
Qed.

Lemma drop_serves s c db q :
  cluster s = Ok c → DeletionPolicyRetain (db_Meta db) = false →
  dropDatabaseQuery (db_Database (db_Spec db)) = Some q →
  serves (deleteDatabase db) s (Some (Ok tt)) (ran q s).
Proof.
  intros Hc Hret Hq. unfold deleteDatabase. rewrite Hret.
  destruct (connect_serves s c (DbClusterKey db) Hc) as [cfg Hcfg].
  eapply serves_bind; [exact Hcfg|]. unfold DropDatabase. rewrite Hq.
  eapply serves_bind; [refine (serves_call _ _ (DExec _ q) _ _ _ eq_refl eq_refl)|]. apply serves_ret.
Qed.

(** Deletion of a database whose only finalizer is that of the operator: one run
    drops the database, unless the policy is to retain it, and the resource is
    gone. *)
Theorem ReconcileDatabase_deletes (s : server) (c : MysqlCluster) (db : MysqlDatabase) (now : Z) :
  stored s = Some db → om_DeletionTimestamp (db_Meta db) ≠ None → manageable db →
  cluster s = Ok c → om_Finalizers (db_Meta db) = [FinalizerDatabase] →
  ∃ s1, serves (ReconcileDatabase allowed now ns name) s (Some (Ok noRequeue)) s1 ∧
    stored s1 = None ∧
    if DeletionPolicyRetain (db_Meta db) then executed s1 = executed s
    else ∃ q, dropDatabaseQuery (db_Database (db_Spec db)) = Some q ∧ executed s1 = executed s ++ [q].
Proof.
  intros Hs Hdel Hm Hc Hfin.
  destruct (dropDatabaseQuery_some (db_Database (db_Spec db))) as [q Hq].
  assert (∃ s1, serves (deleteDatabase db) s (Some (Ok tt)) s1 ∧
    executed s1 = if DeletionPolicyRetain (db_Meta db) then executed s else executed s ++ [q]) as (s1 & Hrun & Hex).
  { destruct (DeletionPolicyRetain (db_Meta db)) eqn:Hret.
    - exists s. split; [|done]. unfold deleteDatabase. rewrite Hret. apply serves_ret.
    - exists (ran q s). split; [by eapply drop_serves|done]. }
  set (db' := with_DbMeta (RemoveFinalizer (db_Meta db) FinalizerDatabase) db).
  assert (afterUpdate s1 db' = None) as Hgone.
  { unfold afterUpdate. rewrite bool_decide_eq_true_2; [done|]. split; simpl.
    - destruct (RemoveFinalizer_frame (db_Meta db) FinalizerDatabase) as [l ->]. done.
    - rewrite RemoveFinalizer_unique by (rewrite Hfin; apply NoDup_singleton). by rewrite Hfin. }
  exists (step s1 (Ev (UpdateDatabase db') (Ok db'))). split_and!.
  - unfold ReconcileDatabase.
    eapply serves_bind; [refine (serves_call _ _ (GetDatabase _ _) _ _ _ eq_refl eq_refl)|].
    simpl. rewrite Hs, manageable_guard by done. destruct (om_DeletionTimestamp (db_Meta db)); [|done].
    eapply serves_bind; [exact Hrun|]. cbv beta iota.
    eapply serves_bind; [refine (serves_call _ _ (UpdateDatabase _) _ (Ok db') _ _ eq_refl)|].
    + simpl. fold db'. by rewrite Hgone.
    + apply serves_ret.
  - exact Hgone.
  - unfold step. cbn [ev_op executed]. rewrite Hex. destruct (DeletionPolicyRetain _); [done|]. by exists q.
Qed.

End Progress.
End ApiServer.

(** ** A namespace that is not allowed *)

(** With [AllowCrossNamespaceDatabases] off, a database of a cluster in another
    namespace is only reported as failed: whatever the world answers, nothing is
    created, dropped or updated but the status, which is not ready.  The check
    comes before the one on deletion, so that the finalizer that such a resource
    may have is never released. *)
Theorem ReconcileDatabase_cross_namespace `{!FinalizerMeta} (now : Z) (ns name : string)
    (w : world db_op) (db : MysqlDatabase) :
  w [] (GetDatabase ns name) = Ok db →
  om_Namespace (db_Meta db) ≠ fst (DbClusterKey db) →
  ∃ e, run (ReconcileDatabase false now ns name) w = Some (Err e) ∧
  ∀ ev, ev ∈ trace (ReconcileDatabase false now ns name) w →
    ev_op ev = GetDatabase ns name ∨
    ∃ db', ev_op ev = UpdateDatabaseStatus db' ∧ condTrue ObjReady (db_Conditions db') = false.
Proof.
  intros Hget Hns%String.eqb_neq. unfold run, trace, ReconcileDatabase, mbind, prog_bind, call.
  cbn [fst snd app]. rewrite Hget. cbv beta iota. rewrite Hns. unfold updateReadyCondition. cbn [negb andb].
  destruct (negb _); simpl.
  - unfold try, mbind, prog_bind, call. simpl.
    destruct (w _ (UpdateDatabaseStatus _)) as [db'|e]; simpl.
    all: eexists; split; [reflexivity|]; intros ev [->|Hin]%elem_of_cons; [by left|right];
      apply list_elem_of_singleton in Hin as ->; eexists; split; [reflexivity|];
      simpl; by rewrite updateObjCondition_condTrue.
  - eexists. split; [reflexivity|]. intros ev Hin. left. by apply list_elem_of_singleton in Hin as ->.
Qed.

(** ** Examples *)

Section Witnesses.
#[local] Existing Instances RefFinalizers.meta RefFinalizers.meta_laws.

Definition sampleDb (deleted : option Z) (finalizers : list string) (clusterNs : string) : MysqlDatabase :=
  mkDb (mkMeta "shop" "prod" "uid-3" ∅ None finalizers 0 deleted)
    (mkDbSpec (mkClusterRef "demo" clusterNs) "shop" "utf8mb4" "") [].

Definition readyCluster : MysqlCluster :=
  with_Conditions [mkClusterCondition ClusterConditionReady ConditionTrue 0 "" ""]
    (Sample.cluster "8.0.39" "8.0.39").

Definition sampleServer (db : MysqlDatabase) : ApiServer.server :=
  ApiServer.mkServer (Some db) (Ok readyCluster) {[ "ROOT_PASSWORD" := "root" ]} [].

(** Both updates are made, after the query. *)
Lemma ReconcileDatabase_order_witness :
  let w := serverWorld ApiServer.answer ApiServer.step (sampleServer (sampleDb None [] "")) in
  length (trace (ReconcileDatabase false 7 "prod" "shop") w) = 8%nat ∧
  guarded dbRule (trace (ReconcileDatabase false 7 "prod" "shop") w).
Proof.
  split; [vm_compute; reflexivity|]. exact (proj1 (ReconcileDatabase_order false 7 "prod" "shop" _)).
Defined.

Lemma ReconcileDatabase_converges_witness : ∃ q s1,
  serves ApiServer.answer ApiServer.step (ReconcileDatabase false 7 "prod" "shop")
    (sampleServer (sampleDb None [] "")) (Some (Ok noRequeue)) s1 ∧ ApiServer.executed s1 = [q].
Proof.
  destruct (ApiServer.ReconcileDatabase_converges false "prod" "shop" (sampleServer (sampleDb None [] ""))
    readyCluster (sampleDb None [] "") 7 9 eq_refl eq_refl ltac:(right; reflexivity) eq_refl
    ltac:(vm_compute; reflexivity)) as (q & s1 & _ & Hrun & Hex & _).
  exists q, s1. split; [exact Hrun|exact Hex].
Defined.

Lemma ReconcileDatabase_deletes_witness : ∃ s1,
  serves ApiServer.answer ApiServer.step (ReconcileDatabase false 7 "prod" "shop")
    (sampleServer (sampleDb (Some 9%Z) [FinalizerDatabase] "")) (Some (Ok noRequeue)) s1 ∧
  ApiServer.stored s1 = None.
Proof.
  destruct (ApiServer.ReconcileDatabase_deletes false "prod" "shop"
    (sampleServer (sampleDb (Some 9%Z) [FinalizerDatabase] "")) readyCluster
    (sampleDb (Some 9%Z) [FinalizerDatabase] "") 7 eq_refl ltac:(discriminate) ltac:(right; reflexivity)
    eq_refl eq_refl) as (s1 & Hrun & Hgone & _).
  exists s1. split; [exact Hrun|exact Hgone].
Defined.

Lemma ReconcileDatabase_cross_namespace_witness :
  let db := sampleDb (Some 9%Z) [FinalizerDatabase] "other" in
  let w := serverWorld ApiServer.answer ApiServer.step (sampleServer db) in
  ∃ e, run (ReconcileDatabase false 7 "prod" "shop") w = Some (Err e).
Proof.
  intros db w.
  destruct (ReconcileDatabase_cross_namespace 7 "prod" "shop" w db eq_refl ltac:(discriminate)) as (e & He & _).
  exists e. exact He.
Defined.

End Witnesses.
