(* ===== verification/Registration.v ===== *)
(** * The registration of the controllers

    [pkg/controller/controller.go] and the functions [Add] and [add] of the seven
    controllers: what each of them asks the manager for, in which order, and which
    requests an event gives to it.  [cmd/mysql-operator/main.go] sets the manager up
    and starts it.

    Handlers of the controller runtime are the class [Handlers], with what its
    documentation says of them.  The handlers of the Orchestrator controller, which
    keep a set of clusters, are those of [OrcTicker]; the predicate of the node
    controller is that of [NodeController]. *)

From S2P Require Import Prelude GoStrings Semver ClusterTypes Versioning NodeSQL NodeController OrcTicker.
Open Scope stdpp_scope.

(** ** Events and handlers *)

(** What handlers and predicates look at in an object; a pod is also given in full. *)
Record object := mkObject_ {
  o_Kind : string; o_Namespace : string; o_Name : string; o_Owners : list OwnerReference; o_Pod : option Pod }.

Inductive kevent :=
  | Create (o : object)
  | Update (old new : object)
  | Delete (o : object)
  | Generic (o : object).

Definition objects (e : kevent) : list object :=
  match e with Create o | Delete o | Generic o => [o] | Update old new => [old; new] end.

(** A request: namespace and name. *)
Definition request : Type := string * string.

Inductive handler :=
  | EnqueueRequestForObject
  | EnqueueRequestForOwner (isController : bool) (ownerKind : string)
  (** the functions of the Orchestrator controller, which give no requests *)
  | ClusterSet.

(** The events that pass. *)
Inductive predicate := Always | NodeEvents.

Record watch := mkWatch { w_Kind : string; w_Handler : handler; w_Predicate : predicate }.

(** The two handlers of the controller runtime. *)
Class Handlers := {
  requests_for_object : kevent → list request;
  requests_for_owner : bool → string → kevent → list request }.

(** [metav1.GetControllerOf]: the first owner that is a controller. *)
Definition GetControllerOf (o : object) : option OwnerReference :=
  List.find (λ ow, match ow_Controller ow with Some b => b | None => false end) (o_Owners o).

(** The kinds of the operator, with their group. *)
Definition ofKind (kind : string) (ow : OwnerReference) : bool :=
  String.eqb (ow_Kind ow) kind && String.eqb (ow_APIVersion ow) (APIGroup +:+ "/v1alpha1").

(** A request for the object, or for the owner of that kind that controls it. *)
Class HandlersLaws `{!Handlers} : Prop := {
  object_requests e r : r ∈ requests_for_object e ↔ ∃ o, o ∈ objects e ∧ r = (o_Namespace o, o_Name o);
  owner_requests kind e r :
    r ∈ requests_for_owner true kind e ↔
      ∃ o ow, o ∈ objects e ∧ GetControllerOf o = Some ow ∧ ofKind kind ow = true ∧ r = (o_Namespace o, ow_Name ow) }.

(** Whether an event passes: an event that is not about a pod is not one of a node. *)
Definition passes (p : predicate) (e : kevent) : bool :=
  match p, e with
  | Always, _ => true
  | NodeEvents, Create o => match o_Pod o with Some pod => triggers (inl (inl pod)) | None => false end
  | NodeEvents, Update _ new => match o_Pod new with Some pod => triggers (inl (inr pod)) | None => false end
  | NodeEvents, Delete o => match o_Pod o with Some pod => triggers (inr pod) | None => false end
  | NodeEvents, Generic _ => true
  end.

Definition ofWatch (w : watch) (e : kevent) : Prop := ∀ o, o ∈ objects e → o_Kind o = w_Kind w.

(** The requests that an event of the kind of the watch gives. *)
Definition handle `{!Handlers} (w : watch) (e : kevent) : list request :=
  if passes (w_Predicate w) e then
    match w_Handler w with
    | EnqueueRequestForObject => requests_for_object e
    | EnqueueRequestForOwner isController kind => requests_for_owner isController kind e
    | ClusterSet => []
    end
  else [].

(** ** What is asked of the manager *)

Inductive reg_op :=
  (** [client.New] *)
  | RNewClient
  (** [controller.New], with the number of runs at a time ([None] for the default) *)
  | RNew (name : string) (workers : option Z)
  | RWatch (name : string) (w : watch)
  (** a watch on the channel of the Orchestrator controller *)
  | RWatchChannel (name : string)
  (** [mgr.Add]: something to run with the manager *)
  | RRunnable (name : string)
  | RIndexField (kind field : string)
  (** the rest of main *)
  | RGetConfig
  | RNewManager (namespace : string)
  | RHealthz
  | RReadyz
  | RAddToScheme
  | RStart
  (** the cron *)
  | RCronStart
  | RContextDone
  | RCronStop.

#[export] Instance reg_effect : Effect reg_op := λ o,
  match o with RCronStart | RContextDone | RCronStop => unit | _ => result unit end.

(** Calls one after the other, up to the first that fails. *)
Fixpoint inOrder (ops : list (prog reg_op (result unit))) : prog reg_op (result unit) :=
  match ops with
  | [] => mret (Ok tt)
  | op :: ops => _ <-? op; inOrder ops
  end.

Definition new (name : string) : prog reg_op (result unit) := call (RNew name None).
Definition watching (name kind : string) (h : handler) : prog reg_op (result unit) :=
  call (RWatch name (mkWatch kind h Always)).

(* src/pkg/controller/mysqlcluster/mysqlcluster_controller.go:53-53 controllerName *)
Definition clusterController : string := "controller.mysqlcluster".

Definition ownedByCluster : handler := EnqueueRequestForOwner true "MysqlCluster".

Definition clusterWatches : list watch :=
  [mkWatch "MysqlCluster" EnqueueRequestForObject Always; mkWatch "StatefulSet" ownedByCluster Always;
   mkWatch "Service" ownedByCluster Always; mkWatch "ConfigMap" ownedByCluster Always;
   mkWatch "PodDisruptionBudget" ownedByCluster Always; mkWatch "Secret" ownedByCluster Always].

(* src/pkg/controller/mysqlcluster/mysqlcluster_controller.go:72-127 add *)
Definition addCluster : prog reg_op (result unit) :=
  inOrder (new clusterController :: List.map (λ w, call (RWatch clusterController w) : prog reg_op (result unit)) clusterWatches).

(* src/pkg/controller/mysqlbackup/mysqlbackup_controller.go:68-91 add *)
Definition addBackup : prog reg_op (result unit) :=
  let name := "mysqlbackup-controller" in
  inOrder [new name; watching name "MysqlBackup" EnqueueRequestForObject;
           watching name "Job" (EnqueueRequestForOwner true "MysqlBackup")].

(* src/pkg/controller/mysqlbackupcron/mysqlbackupcron_controller.go:93-107 add *)
Definition addBackupCron : prog reg_op (result unit) :=
  let name := "mysqlbackupcron-controller" in
  inOrder [new name; watching name "MysqlCluster" EnqueueRequestForObject;
           call (RIndexField "MysqlBackup" "status.completed")].

(** The cron is started with the manager, before the controller. *)
(* src/pkg/controller/mysqlbackupcron/mysqlbackupcron_controller.go:56-67 Add *)
Definition AddBackupCron : prog reg_op (result unit) :=
  inOrder [call (RRunnable "cron"); addBackupCron].

(* src/pkg/controller/mysqlbackupcron/mysqlbackupcron_controller.go:69-79 startStopCron.Start *)
Definition startStopCron_Start : prog reg_op (result unit) :=
  _ ← call RCronStart;
  _ ← call RContextDone;
  _ ← call RCronStop;
  mret (Ok tt).

(* src/pkg/controller/mysqldatabase/db_controller.go:224-239 add *)
Definition addDatabase : prog reg_op (result unit) :=
  inOrder [new "mysql-database"; watching "mysql-database" "MysqlDatabase" EnqueueRequestForObject].

(* src/pkg/controller/mysqluser/mysqluser_controller.go:298-313 add *)
Definition addUser : prog reg_op (result unit) :=
  inOrder [new "mysql-user"; watching "mysql-user" "MysqlUser" EnqueueRequestForObject].

Definition nodeWatch : watch := mkWatch "Pod" EnqueueRequestForObject NodeEvents.

(* src/pkg/controller/node/node_controller.go:110-140 add *)
Definition addNode : prog reg_op (result unit) :=
  inOrder [new "controller.mysqlNode"; call (RWatch "controller.mysqlNode" nodeWatch)].

(** A client that cannot be made is a panic. *)
(* src/pkg/controller/node/node_controller.go:68-87 Add *)
Definition AddNode : prog reg_op (result unit) :=
  _ <-? call RNewClient;
  addNode.

(* src/pkg/controller/orchestrator/orchestrator_controller.go:83-160 add *)
Definition addOrchestrator (workers : Z) : prog reg_op (result unit) :=
  let name := "controller.orchestrator" in
  inOrder [call (RNew name (Some workers)); watching name "MysqlCluster" ClusterSet;
           call (RWatchChannel name); call (RRunnable name)].

(** The functions [init] of the files [add_*.go], in the order of their names. *)
(* src/pkg/controller/controller.go:24-24 AddToManagerFuncs *)
Definition AddToManagerFuncs (workers : Z) : list (prog reg_op (result unit)) :=
  [addBackup; AddBackupCron; addCluster; addDatabase; addUser; AddNode; addOrchestrator workers].

(* src/pkg/controller/controller.go:26-34 AddToManager *)
Definition AddToManager (workers : Z) : prog reg_op (result unit) := inOrder (AddToManagerFuncs workers).

(** The end of main: each failure ends the process with 1, and so does a manager that
    ends with an error. *)
(* src/cmd/mysql-operator/main.go:73-120 main *)
Definition runManager (namespace : string) (workers : Z) : prog reg_op Z :=
  r ← inOrder [call RGetConfig; call (RNewManager namespace); call RHealthz; call RReadyz; call RAddToScheme;
               AddToManager workers; call RStart];
  mret match r with Ok _ => 0%Z | Err _ => 1%Z end.

(** ** The calls *)

(** The calls of a registration in which nothing fails. *)
Definition clusterCalls : list reg_op := RNew clusterController None :: List.map (RWatch clusterController) clusterWatches.

Definition backupCalls : list reg_op :=
  [RNew "mysqlbackup-controller" None;
   RWatch "mysqlbackup-controller" (mkWatch "MysqlBackup" EnqueueRequestForObject Always);
   RWatch "mysqlbackup-controller" (mkWatch "Job" (EnqueueRequestForOwner true "MysqlBackup") Always)].

Definition backupCronCalls : list reg_op :=
  [RRunnable "cron"; RNew "mysqlbackupcron-controller" None;
   RWatch "mysqlbackupcron-controller" (mkWatch "MysqlCluster" EnqueueRequestForObject Always);
   RIndexField "MysqlBackup" "status.completed"].

Definition databaseCalls : list reg_op :=
  [RNew "mysql-database" None; RWatch "mysql-database" (mkWatch "MysqlDatabase" EnqueueRequestForObject Always)].

Definition userCalls : list reg_op :=
  [RNew "mysql-user" None; RWatch "mysql-user" (mkWatch "MysqlUser" EnqueueRequestForObject Always)].

Definition nodeCalls : list reg_op :=
  [RNewClient; RNew "controller.mysqlNode" None; RWatch "controller.mysqlNode" nodeWatch].

Definition orchestratorCalls (workers : Z) : list reg_op :=
  [RNew "controller.orchestrator" (Some workers);
   RWatch "controller.orchestrator" (mkWatch "MysqlCluster" ClusterSet Always);
   RWatchChannel "controller.orchestrator"; RRunnable "controller.orchestrator"].

Definition allCalls (workers : Z) : list reg_op :=
  concat [backupCalls; backupCronCalls; clusterCalls; databaseCalls; userCalls; nodeCalls; orchestratorCalls workers].

(** A program that makes calls in an order, and stops at the first that fails with
    its error. *)
Definition ordered (ops : list reg_op) (m : prog reg_op (result unit)) : Prop :=
  ∀ w h,
    ((m w h).1 = Ok tt ∧ ∃ t, (m w h).2 = h ++ t ∧ ev_op <$> t = ops) ∨
    (∃ e t o rest, (m w h).1 = Err e ∧ (m w h).2 = h ++ t ∧ ops = (ev_op <$> t) ++ rest ∧
       last (ev_op <$> t) = Some o).

Lemma ordered_call (o : reg_op) (m : prog reg_op (result unit)) :
  (∀ w h, ∃ r : result unit, (m w h).1 = r ∧ ∃ e, ev_op e = o ∧ (m w h).2 = h ++ [e]) → ordered [o] m.
Proof.
  intros Hm w h. destruct (Hm w h) as (r & Hr & e & He & Hh). rewrite Hr, Hh. destruct r as [[]|x].
  - left. split; [done|]. exists [e]. split; [done|]. by rewrite list_fmap_singleton, He.
  - right. exists x, [e], o, []. by rewrite list_fmap_singleton, He.
Qed.

Lemma ordered_nil : ordered [] (inOrder []).
Proof. intros w h. left. split; [done|]. exists []. split; [|done]. symmetry. apply app_nil_r. Qed.

Lemma ordered_try ops1 ops2 (m1 m2 : prog reg_op (result unit)) :
  ordered ops1 m1 → ordered ops2 m2 → ordered (ops1 ++ ops2) (_ <-? m1; m2).
Proof.
  intros H1 H2 w h. unfold try, mbind, prog_bind, mret, prog_ret.
  destruct (H1 w h) as [[Hr (t & Hh & Ht)]|(e & t & o & rest & Hr & Hh & Ht & Hl)]; rewrite Hr, Hh.
  - destruct (H2 w (h ++ t)) as [[Hr2 (t2 & Hh2 & Ht2)]|(e & t2 & o & rest & Hr2 & Hh2 & Ht2 & Hl)]; rewrite Hr2, Hh2.
    + left. split; [done|]. exists (t ++ t2). split; [by rewrite (assoc_L (++))|by rewrite fmap_app, Ht, Ht2].
    + right. exists e, (t ++ t2), o, rest. split; [done|]. split; [by rewrite (assoc_L (++))|].
      rewrite fmap_app, Ht, Ht2, (assoc_L (++)). split; [done|]. by rewrite last_app, Hl.
  - right. exists e, t, o, (rest ++ ops2). split; [done|]. split; [done|]. split; [by rewrite Ht, (assoc_L (++))|done].
Qed.

Lemma ordered_inOrder opss ms : Forall2 ordered opss ms → ordered (concat opss) (inOrder ms).
Proof. induction 1 as [|ops m opss ms Hm _ IH]; [apply ordered_nil|]. simpl. by apply ordered_try. Qed.

#[local] Ltac called := apply ordered_call; intros ? ?; eexists; split; [reflexivity|eexists (Ev _ _); split; reflexivity].

(** A list of calls. *)
Fixpoint opsOf (ops : list reg_op) : list (list reg_op) := match ops with [] => [] | o :: ops => [o] :: opsOf ops end.

Lemma concat_opsOf ops : concat (opsOf ops) = ops.
Proof. induction ops as [|o ops IH]; [done|]. simpl. by rewrite IH. Qed.

Lemma ordered_calls ops ms : Forall2 ordered (opsOf ops) ms → ordered ops (inOrder ms).
Proof. rewrite <-(concat_opsOf ops) at 2. apply ordered_inOrder. Qed.

#[local] Ltac all_called := apply ordered_calls; repeat (apply Forall2_cons; split; [called|]); apply Forall2_nil; done.

Lemma ordered_backupCron : ordered backupCronCalls AddBackupCron.
Proof.
  apply (ordered_inOrder [[RRunnable "cron"]; List.tl backupCronCalls]). apply Forall2_cons; split; [called|].
  apply Forall2_cons; split; [|by apply Forall2_nil].
  unfold addBackupCron, new, watching, backupCronCalls. cbv zeta. cbn [List.tl]. all_called.
Qed.

Lemma ordered_node : ordered nodeCalls AddNode.
Proof.
  apply (ordered_try [RNewClient] (List.tl nodeCalls)); [called|].
  unfold addNode, new, nodeCalls. cbn [List.tl]. all_called.
Qed.

Lemma ordered_cluster : ordered clusterCalls addCluster.
Proof. unfold addCluster, clusterCalls, clusterWatches, new. cbn [List.map]. all_called. Qed.

(** What the controllers are set up with: when nothing fails the manager is asked for
    exactly these controllers, watches and runnables, in this order; the first failure
    ends the registration with its error, after a part of them. *)
Lemma AddToManager_ordered (workers : Z) : ordered (allCalls workers) (AddToManager workers).
Proof.
  apply ordered_inOrder. unfold AddToManagerFuncs.
  repeat (apply Forall2_cons; split);
    [|apply ordered_backupCron|apply ordered_cluster| | |apply ordered_node| |by apply Forall2_nil];
    unfold addBackup, addDatabase, addUser, addOrchestrator, new, watching; cbv zeta; all_called.
Qed.

(** ** What wakes a controller *)

Section Wakes.
Context `{!Handlers, !HandlersLaws}.

(** A request comes from a watch of the kind of the object. *)
Definition wakes (ws : list watch) (e : kevent) (r : request) : Prop :=
  ∃ w, w ∈ ws ∧ ofWatch w e ∧ r ∈ handle w e.

(** An event on an object of the kind. *)
Definition about (kind : string) (e : kevent) : Prop := ∀ o, o ∈ objects e → o_Kind o = kind.

(** The object is controlled by a cluster of the name. *)
Definition controlledBy (kind name : string) (o : object) : Prop :=
  ∃ ow, GetControllerOf o = Some ow ∧ ofKind kind ow = true ∧ ow_Name ow = name.

Definition ownedKinds : list string := ["StatefulSet"; "Service"; "ConfigMap"; "PodDisruptionBudget"; "Secret"].

Lemma owned_requests kind e ns name :
  (ns, name) ∈ handle (mkWatch kind ownedByCluster Always) e ↔
    ∃ o, o ∈ objects e ∧ o_Namespace o = ns ∧ controlledBy "MysqlCluster" name o.
Proof.
  change (handle _ e) with (requests_for_owner true "MysqlCluster" e). rewrite owner_requests. split.
  - intros (o & ow & Ho & Hc & Hk & [= -> ->]). exists o. split_and!; [done|done|by exists ow].
  - intros (o & Ho & <- & ow & Hc & Hk & <-). by exists o, ow.
Qed.

(** The cluster controller runs for a cluster exactly when the cluster changes, or a
    stateful set, service, configuration, secret or disruption budget that the cluster
    controls, before or after the change; pods and volume claims do not wake it. *)
Theorem clusterWatches_wake (e : kevent) (ns name : string) :
  wakes clusterWatches e (ns, name) ↔
    (about "MysqlCluster" e ∧ ∃ o, o ∈ objects e ∧ o_Namespace o = ns ∧ o_Name o = name) ∨
    (∃ kind, kind ∈ ownedKinds ∧ about kind e ∧
       ∃ o, o ∈ objects e ∧ o_Namespace o = ns ∧ controlledBy "MysqlCluster" name o).
Proof.
  split.
  - intros (w & Hw & Hof & Hr). unfold clusterWatches in Hw. apply elem_of_cons in Hw as [->|Hw].
    { left. apply object_requests in Hr as (o & Ho & [= -> ->]). split; [exact Hof|by exists o]. }
    right. exists (w_Kind w). rewrite !elem_of_cons in Hw.
    destruct Hw as [->|[->|[->|[->|[->|[]%not_elem_of_nil]]]]];
      (split; [unfold ownedKinds; set_solver|]; split; [exact Hof|by apply owned_requests in Hr]).
  - intros [[Hk (o & Ho & <- & <-)]|(kind & Hkind & Hk & Ho)].
    + exists (mkWatch "MysqlCluster" EnqueueRequestForObject Always). split; [by left|]. split; [exact Hk|].
      apply object_requests. by exists o.
    + exists (mkWatch kind ownedByCluster Always). split; [|split; [exact Hk|by apply owned_requests]].
      unfold ownedKinds in Hkind. rewrite !elem_of_cons in Hkind. unfold clusterWatches.
      destruct Hkind as [->|[->|[->|[->|[->|[]%not_elem_of_nil]]]]]; set_solver.
Qed.

(** The node controller runs for a pod that is created or changed, is one of the
    operator's, runs, and is not ready; and for nothing else. *)
Theorem nodeWatch_wakes (o : object) (pod : Pod) (e : kevent) (r : request) :
  o_Pod o = Some pod → e = Create o ∨ (∃ old, e = Update old o ∧ (o_Namespace old, o_Name old) = (o_Namespace o, o_Name o)) →
  r ∈ handle nodeWatch e ↔
    r = (o_Namespace o, o_Name o) ∧
    (isOwnedByMySQL pod = true ∧ isRunning pod = true ∧ isReady pod = false).
Proof.
  intros Hp He. unfold handle, nodeWatch. cbn [w_Predicate w_Handler].
  assert (passes NodeEvents e = isOwnedByMySQL pod && isRunning pod && negb (isReady pod)) as ->
    by (destruct He as [->|(old & -> & _)]; simpl; by rewrite Hp).
  assert (∀ r, r ∈ requests_for_object e ↔ r = (o_Namespace o, o_Name o)) as Hobj.
  { intros r'. rewrite object_requests. destruct He as [->|(old & -> & Hold)]; simpl.
    - set_solver.
    - split; [intros (x & Hx & ->)|intros ->; exists o; set_solver].
      rewrite !elem_of_cons in Hx. destruct Hx as [->|[->|[]%not_elem_of_nil]]; done. }
  destruct (isOwnedByMySQL pod), (isRunning pod), (isReady pod); cbn [andb negb];
    rewrite ?Hobj; (split; [intros Hr|intros [Hr (? & ? & ?)]]; try done; try (by apply not_elem_of_nil in Hr)).
Qed.

(** A pod that is deleted wakes nothing. *)
Lemma nodeWatch_deleted (o : object) : handle nodeWatch (Delete o) = [].
Proof. unfold handle. simpl. by destruct (o_Pod o). Qed.

End Wakes.

(** A cron runs from the start of the manager until it is stopped. *)
Lemma startStopCron_calls w : trace_ops startStopCron_Start w = [RCronStart; RContextDone; RCronStop].
Proof. done. Qed.

(** The process serves only when all controllers are set up, and whatever ends it with
    an error ends it with 1. *)
Theorem runManager_starts (ns : string) (workers : Z) :
  let all := [RGetConfig; RNewManager ns; RHealthz; RReadyz; RAddToScheme] ++ allCalls workers ++ [RStart] in
  ∀ w, (run (runManager ns workers) w = 0%Z ∧ trace_ops (runManager ns workers) w = all) ∨
       (run (runManager ns workers) w = 1%Z ∧ ∃ rest, all = trace_ops (runManager ns workers) w ++ rest).
Proof.
  intros all w. unfold run, trace_ops, trace, runManager, mbind, prog_bind, mret, prog_ret.
  set (m := inOrder _).
  assert (ordered all m) as Hm.
  { apply (ordered_inOrder [[RGetConfig]; [RNewManager ns]; [RHealthz]; [RReadyz]; [RAddToScheme]; allCalls workers; [RStart]]).
    do 5 (apply Forall2_cons; split; [called|]). apply Forall2_cons; split; [apply AddToManager_ordered|].
    apply Forall2_cons; split; [called|by apply Forall2_nil]. }
  destruct (Hm w []) as [[Hr (t & Hh & Ht)]|(e & t & o & rest & Hr & Hh & Ht & Hl)];
    destruct (m w []) as [r h]; cbn [fst snd] in *; subst; [left|right]; (split; [done|]).
  - exact Ht.
  - by exists rest.
Qed.
