(* ===== verification/ClusterController.v ===== *)
(** * The cluster controller

    [pkg/controller/mysqlcluster/mysqlcluster_controller.go] and
    [internal/syncer/statefulset_object_syncer.go]: one run of [Reconcile] for a
    cluster.  It upgrades old clusters, completes the specification, decides on a
    change of version, brings the objects of the cluster in step, labels its pods,
    looks after its volumes, and records the version that the data plane runs.

    The components are used as programs of their own ([lift]); the objects are
    synced by the library of [KubeSync], and the stateful set by
    [controllerutil.CreateOrUpdate] in [retry.RetryOnConflict]. *)

From S2P Require Import Prelude KubeSync GoStrings Semver ClusterTypes Versioning ClusterStatus ClusterModel.
From S2P Require Import ClusterDefaults VersionUpgrade StatefulSet Syncers IniFile ConfigMap GoTime OrcReconcile Upgrades.
From S2P Require Import PVCs MysqlObjects UserController.
From coqutil Require Import Datatypes.RecordSetters.
Import DoubleBraceUpdate.
Open Scope stdpp_scope.

(** ** Effects *)

Inductive cc_op :=
  | CGetCluster (ns name : string)
  | CUpdate (c : MysqlCluster)
  | CStatusUpdate (c : MysqlCluster)
  | CListPods (ns : string) (selector : gmap string string)
  | CEvent (type_ reason message : string)
  (** the components *)
  | CVersion (o : vu_op)
  | CUpgrade (o : up_op)
  | CPVC (o : pvc_op)
  | CRand (o : rand_op)
  (** the reads and writes of the syncers *)
  | CConfigMap (o : sync_op ConfigMapObject)
  | CSecret (o : sync_op SecretObject)
  | CService (o : sync_op Service)
  | CStatefulSet (o : sync_op StatefulSet)
  | CPDB (o : sync_op PDB)
  | CPod (o : sync_op Pod).

(** An update gives the cluster as it is in memory afterwards. *)
#[export] Instance cc_effect : Effect cc_op := λ o,
  match o with
  | CGetCluster _ _ | CUpdate _ | CStatusUpdate _ => result MysqlCluster
  | CListPods _ _ => result (list Pod)
  | CEvent _ _ _ => unit
  | CVersion o => Resp o
  | CUpgrade o => Resp o
  | CPVC o => Resp o
  | CRand o => Resp o
  | CConfigMap o => Resp o
  | CSecret o => Resp o
  | CService o => Resp o
  | CStatefulSet o => Resp o
  | CPDB o => Resp o
  | CPod o => Resp o
  end.

#[export] Instance cc_version : Embeds vu_op cc_op := {| embed := CVersion; answer_of o r := r; answer_to o r := r |}.
#[export] Instance cc_upgrade : Embeds up_op cc_op := {| embed := CUpgrade; answer_of o r := r; answer_to o r := r |}.
#[export] Instance cc_pvc : Embeds pvc_op cc_op := {| embed := CPVC; answer_of o r := r; answer_to o r := r |}.
#[export] Instance cc_rand : Embeds rand_op cc_op := {| embed := CRand; answer_of o r := r; answer_to o r := r |}.
#[export] Instance cc_configmap : Embeds (sync_op ConfigMapObject) cc_op :=
  {| embed := CConfigMap; answer_of o r := r; answer_to o r := r |}.
#[export] Instance cc_secret : Embeds (sync_op SecretObject) cc_op :=
  {| embed := CSecret; answer_of o r := r; answer_to o r := r |}.
#[export] Instance cc_service : Embeds (sync_op Service) cc_op :=
  {| embed := CService; answer_of o r := r; answer_to o r := r |}.
#[export] Instance cc_statefulset : Embeds (sync_op StatefulSet) cc_op :=
  {| embed := CStatefulSet; answer_of o r := r; answer_to o r := r |}.
#[export] Instance cc_pdb : Embeds (sync_op PDB) cc_op := {| embed := CPDB; answer_of o r := r; answer_to o r := r |}.
#[export] Instance cc_pod : Embeds (sync_op Pod) cc_op := {| embed := CPod; answer_of o r := r; answer_to o r := r |}.

(** [controllerutil.SetControllerReference]: it fails on an object that another
    controller owns. *)
Class ControllerRef := SetControllerReference : MysqlCluster → StatefulSet → result StatefulSet.

(** The metadata of a new object. *)
Definition newMeta (name ns : string) : ObjectMeta := mkMeta name ns "" ∅ None [] 0 None.

Definition errOf {A} (r : result A) : result unit := match r with Ok _ => Ok tt | Err e => Err e end.

(* src/pkg/controller/mysqlcluster/mysqlcluster_controller.go:420-430 cloneStringMap *)
Definition cloneStringMap (in_ : option (gmap string string)) : option (gmap string string) :=
  match in_ with
  | None => None
  | Some m => Some (map_fold (λ k v out, <[k := v]> out) ∅ m)
  end.

(* src/pkg/controller/mysqlcluster/mysqlcluster_controller.go:457-460 getCondAsBool *)
Definition getCondAsBool (status : NodeStatus) (cond : NodeConditionType) : bool :=
  match GetNodeConditionIndex status cond with
  | Some index => status_is ConditionTrue (ns_Conditions status !! index)
  | None => false
  end.

(** The hosts, in the order of their syncers. *)
(* src/pkg/controller/mysqlcluster/mysqlcluster_controller.go:432-455 getPodSyncers *)
Definition getPodSyncers (c : MysqlCluster) : list string :=
  let isMaster ns := getCondAsBool ns NodeConditionMaster in
  (ns_Name <$> List.filter (λ ns, negb (isMaster ns)) (st_Nodes (cl_Status c))) ++
  (ns_Name <$> List.filter isMaster (st_Nodes (cl_Status c))).

Section Controller.
Context `{!Blang, !Process, !Resource, !ResourceAccess, !PodDefaults, !IniLib, !IntStr, !ControllerRef}.
Context `{!ObjectSyncer cc_op ConfigMapObject, !ObjectSyncer cc_op SecretObject, !ObjectSyncer cc_op Service,
          !ObjectSyncer cc_op PDB, !ObjectSyncer cc_op Pod}.
Context `{!CreateOrUpdate cc_op StatefulSet MysqlCluster, !RetryOnConflict cc_op (MysqlCluster * StatefulSet)}.
Context (opt : Options).

(** A syncer whose callback makes no calls. *)
Definition syncPure {A} `{!Embeds (sync_op A) cc_op, !ObjectSyncer cc_op A} (obj : A) (f : A → A) :
    prog cc_op (A * result unit) :=
  sync_object obj (λ o, mret (f o, Ok tt)).

(* src/pkg/controller/mysqlcluster/internal/syncer/config_map.go:216-225 listClusterPods *)
Definition listClusterPods (c : MysqlCluster) : prog cc_op (list Pod) :=
  r ← call (CListPods (cl_Namespace c) (GetSelectorLabels c));
  mret match (r : result (list Pod)) with Ok items => items | Err _ => [] end.

Definition syncConfigMap (c : MysqlCluster) (sts : option StatefulSet) : prog cc_op (ConfigMapObject * result unit) :=
  sync_object (mkConfigMap (newMeta (GetNameForResource ConfigMap (cl_Name c)) (cl_Namespace c)) "" ∅)
    (λ cm,
      _ ← match sts with Some _ => listClusterPods c | None => mret [] end;
      mret (ConfigMapSyncFn c sts cm)).

Definition syncOperatedSecret (c : MysqlCluster) : prog cc_op (SecretObject * result unit) :=
  sync_object (mkSecret (newMeta (GetNameForResource Secret (cl_Name c)) (cl_Namespace c)) "" ∅)
    (λ secret, lift (OperatedSecretSyncFn opt secret)).

Definition syncSecret (c : MysqlCluster) : prog cc_op (SecretObject * result unit) :=
  sync_object (mkSecret (newMeta (SecretName (cl_Spec c)) (cl_Namespace c)) "" ∅)
    (λ secret, mret match SecretSyncFn secret with Ok s => (s, Ok tt) | Err e => (secret, Err e) end).

Definition newService (c : MysqlCluster) (name : ResourceName) : Service :=
  mkService (newMeta (GetNameForResource name (cl_Name c)) (cl_Namespace c)) "" "" ∅ false [].

Definition syncPDB (c : MysqlCluster) : prog cc_op (PDB * result unit) :=
  syncPure (mkPDB (newMeta (GetNameForResource PodDisruptionBudget (cl_Name c)) (cl_Namespace c)) None None)
    (PDBSyncFn c).

(** [PodSyncFn] leaves the cluster alone, since the node exists ([PodSyncFn_cluster]). *)
Definition syncPod (c : MysqlCluster) (host : string) : prog cc_op (Pod * result unit) :=
  sync_object (mkPod (newMeta (getPodNameForHost host) (cl_Namespace c)) "" [] [] PodUnknown [] [])
    (λ pod, mret (PodSyncFn c host pod).2).

(** *** The stateful set *)

(** The whole callback of the stateful set. *)
Definition stsSyncFn (cmRev sctRev : string) (c : MysqlCluster) (out : StatefulSet) :
    prog cc_op (MysqlCluster * StatefulSet * result unit) :=
  r ← call (CListPods (cl_Namespace c) (GetSelectorLabels c));
  match (r : result (list Pod)) with
  | Err e => mret (c, out, Err e)
  | Ok _ => mret (SyncFn opt cmRev sctRev c out, Ok tt)
  end.

(** An object that is not there is not created for a cluster that is being deleted. *)
(* src/pkg/controller/mysqlcluster/internal/syncer/statefulset_object_syncer.go:108-130 mutateFn *)
Definition mutateFn (cmRev sctRev : string) (c : MysqlCluster) (obj : StatefulSet) :
    prog cc_op (MysqlCluster * StatefulSet * result unit) :=
  r ← stsSyncFn cmRev sctRev c obj;
  match r with
  | (c, obj, Err e) => mret (c, obj, Err e)
  | (c, obj, Ok _) =>
      match cl_DeletionTimestamp c with
      | None =>
          mret match SetControllerReference c obj with
               | Err e => (c, obj, Err e)
               | Ok obj => (c, obj, Ok tt)
               end
      | Some _ =>
          if (om_CreationTimestamp (sts_Meta obj) =? 0)%Z
          then mret (c, obj, Err ErrIgnore) else mret (c, obj, Ok tt)
      end
  end.

Definition newStatefulSet (c : MysqlCluster) : StatefulSet :=
  mkStatefulSet (newMeta (GetNameForResource StatefulSetName (cl_Name c)) (cl_Namespace c)) None [] [] 0.

(* src/pkg/controller/mysqlcluster/internal/syncer/statefulset_object_syncer.go:74-106 Sync *)
Definition syncStatefulSet (cmRev sctRev : string) (c : MysqlCluster) : prog cc_op (MysqlCluster * result unit) :=
  r ← retry_on_conflict (c, newStatefulSet c) (λ s,
        r ← create_or_update s.1 s.2 (mutateFn cmRev sctRev);
        mret (r.1, r.2));
  mret (r.1.1, match r.2 with
               | Ok _ => Ok tt
               | Err e => if ignored (Err e) then Ok tt else Err e
               end).

(** *** The run *)

(* src/pkg/controller/mysqlcluster/mysqlcluster_controller.go:392-411 syncRolloutHold *)
Definition syncRolloutHold (c : MysqlCluster) : prog cc_op (MysqlCluster * result unit) :=
  r ← lift (getStatefulSet c);
  match r with
  | Err e => mret (c, Err e)
  | Ok sts =>
      cm ← syncConfigMap c sts;
      match cm.2 with
      | Err e => mret (c, Err e)
      | Ok _ =>
          sct ← syncOperatedSecret c;
          match sct.2 with
          | Err e => mret (c, Err e)
          | Ok _ => syncStatefulSet (cm_ResourceVersion cm.1) (sec_ResourceVersion sct.1) c
          end
      end
  end.

(* src/pkg/controller/mysqlcluster/mysqlcluster_controller.go:413-418 persistClusterAnnotations *)
Definition persistClusterAnnotations (c : MysqlCluster) (before : option (gmap string string)) :
    prog cc_op (MysqlCluster * result unit) :=
  if bool_decide (before = cl_Annotations c) then mret (c, Ok tt)
  else
    r ← call (CUpdate c);
    mret match (r : result MysqlCluster) with Ok c => (c, Ok tt) | Err e => (c, Err e) end.

(** [r.Status().Update]. *)
Definition statusUpdate (c : MysqlCluster) : prog cc_op (MysqlCluster * result unit) :=
  r ← call (CStatusUpdate c);
  mret match (r : result MysqlCluster) with Ok c => (c, Ok tt) | Err e => (c, Err e) end.

(** A program on the cluster in memory; what follows an error is skipped. *)
Definition andThen {A} (m : prog cc_op (MysqlCluster * result unit))
    (k : MysqlCluster → prog cc_op (MysqlCluster * result A)) : prog cc_op (MysqlCluster * result A) :=
  r ← m;
  match r with
  | (c, Err e) => mret (c, Err e)
  | (c, Ok _) => k c
  end.

(** A program that leaves the cluster as it is. *)
Definition on (c : MysqlCluster) {A} (m : prog cc_op (A * result unit)) : prog cc_op (MysqlCluster * result unit) :=
  r ← m; mret (c, r.2).

(** The part of a run that holds back a rollout. *)
Definition hold (c : MysqlCluster) (annBefore : option (gmap string string)) (after : Z) :
    prog cc_op (MysqlCluster * result ReconcileResult) :=
  andThen (syncRolloutHold c) (λ c,
  andThen (persistClusterAnnotations c annBefore) (λ c,
  mret (c, Ok (mkResult false after)))).

(** The loop over the pods: pods that are not there are skipped. *)
(* src/pkg/controller/mysqlcluster/mysqlcluster_controller.go:349-358 Reconcile *)
Fixpoint syncPods (c : MysqlCluster) (hosts : list string) : prog cc_op (result unit) :=
  match hosts with
  | [] => mret (Ok tt)
  | host :: hosts =>
      r ← syncPod c host;
      match r.2 with
      | Err e => if negb (IsPodNotFound e) then mret (Err e) else syncPods c hosts
      | Ok _ => syncPods c hosts
      end
  end.

(** The end of a run: the applied version. *)
(* src/pkg/controller/mysqlcluster/mysqlcluster_controller.go:373-390 Reconcile *)
Definition recordApplied (c : MysqlCluster) : prog cc_op (MysqlCluster * result ReconcileResult) :=
  r ← lift (getStatefulSet c);
  match r with
  | Err e => mret (c, Err e)
  | Ok None => mret (c, Ok noRequeue)
  | Ok (Some sts) =>
      r ← call (CListPods (cl_Namespace c) (GetSelectorLabels c));
      match (r : result (list Pod)) with
      | Err e => mret (c, Err e)
      | Ok pods =>
          advance ← lift (SyncAppliedVersion c (Some sts) pods);
          match advance with
          | Some v => andThen (statusUpdate (MarkAppliedVersion c v)) (λ c, mret (c, Ok noRequeue))
          | None => mret (c, Ok noRequeue)
          end
      end
  end.

(** The part of a run after the status was copied. *)
(* src/pkg/controller/mysqlcluster/mysqlcluster_controller.go:311-371 Reconcile *)
Definition syncAll (c : MysqlCluster) : prog cc_op (MysqlCluster * result ReconcileResult) :=
  r ← lift (getStatefulSet c);
  match r with
  | Err e => mret (c, Err e)
  | Ok sts =>
      cm ← syncConfigMap c sts;
      match cm.2 with
      | Err e => mret (c, Err e)
      | Ok _ =>
          sct ← syncOperatedSecret c;
          match sct.2 with
          | Err e => mret (c, Err e)
          | Ok _ =>
              andThen (on c (syncSecret c)) (λ c,
              andThen (on c (syncPure (newService c HeadlessSVC) HeadlessSVCSyncFn)) (λ c,
              andThen (on c (syncPure (newService c MasterService) (MasterSVCSyncFn c))) (λ c,
              andThen (on c (syncPure (newService c HealthyNodesService) (HealthySVCSyncFn c))) (λ c,
              andThen (on c (syncPure (newService c HealthyReplicasService) (HealthyReplicasSVCSyncFn c))) (λ c,
              let minAvailable := MinAvailable (cl_Spec c) in
              andThen (syncStatefulSet (cm_ResourceVersion cm.1) (sec_ResourceVersion sct.1) c) (λ c,
              andThen (if negb (String.length minAvailable =? 0)%nat then on c (syncPDB c) else mret (c, Ok tt)) (λ c,
              andThen (r ← syncPods c (getPodSyncers c); mret (c, r)) (λ c,
              andThen (r ← lift (ResizerRun c); mret (c, r)) (λ c,
              andThen (r ← lift (CleanerRun c); mret (c, r)) recordApplied)))))))))
          end
      end
  end.

(** The deferred function: the status is written if it changed, an error is only
    logged. *)
(* src/pkg/controller/mysqlcluster/mysqlcluster_controller.go:301-309 Reconcile *)
Definition deferStatus (status : MysqlClusterStatus) (m : prog cc_op (MysqlCluster * result ReconcileResult)) :
    prog cc_op (result ReconcileResult) :=
  r ← m;
  if bool_decide (status = cl_Status r.1) then mret r.2
  else _ ← statusUpdate r.1; mret r.2.

Definition upgradeBlocked (c : MysqlCluster) : bool :=
  match GetClusterCondition c ClusterConditionUpgradeBlocked with
  | Some cond => bool_decide (cc_Status cond = ConditionTrue)
  | None => false
  end.

(** The decision on a change of version: [None] when the run goes on. *)
(* src/pkg/controller/mysqlcluster/mysqlcluster_controller.go:249-293 Reconcile *)
Definition checkUpgrade (now : Z) (c : MysqlCluster) (annBefore : option (gmap string string)) :
    prog cc_op (MysqlCluster * option (result ReconcileResult)) :=
  let held (m : prog cc_op (MysqlCluster * result ReconcileResult)) : prog cc_op (MysqlCluster * option (result ReconcileResult)) :=
    r ← m; mret (r.1, Some r.2) in
  match EnsureChecked c with
  | Ok _ => mret (c, None)
  | Err err =>
      if IsHoldRollout err then
        held (andThen
          (if upgradeBlocked c
           then statusUpdate (UpdateStatusCondition now ClusterConditionUpgradeBlocked ConditionFalse "NoUpgradePending" "" c)
           else mret (c, Ok tt))
          (λ c, hold c annBefore (15 * second)))
      else
        _ ← call (CEvent "Warning" "MySQLVersionUpgradeBlocked" (error_text err));
        held (andThen
          (statusUpdate (UpdateStatusCondition now ClusterConditionUpgradeBlocked ConditionTrue
             "MySQLVersionUpgradeBlocked" (error_text err) c))
          (λ c, if IsUpgradeBlocked err then hold c annBefore (30 * second) else mret (c, Err err)))
  end.

(** The version of a data plane that was set up before it was recorded. *)
(* src/pkg/controller/mysqlcluster/mysqlcluster_controller.go:226-247 Reconcile *)
Definition backfill (c : MysqlCluster) (pods : list Pod) (annBefore : option (gmap string string)) :
    prog cc_op (MysqlCluster * option (result ReconcileResult)) :=
  if negb (NeedsAppliedBackfill c) then mret (c, None)
  else
    r ← lift (BackfillAppliedVersion c pods);
    match r with
    | Err bfErr =>
        if IsHoldRollout bfErr then r ← hold c annBefore (15 * second); mret (r.1, Some r.2)
        else mret (c, Some (Err bfErr))
    | Ok (c, false) => mret (c, None)
    | Ok (c, true) =>
        r ← statusUpdate c;
        mret match r with (c, Err e) => (c, Some (Err e)) | (c, Ok _) => (c, None) end
    end.

(** The run on a cluster with its defaults. *)
(* src/pkg/controller/mysqlcluster/mysqlcluster_controller.go:220-300 Reconcile *)
Definition reconcileDefaulted (now : Z) (c : MysqlCluster) : prog cc_op (result ReconcileResult) :=
  let annBefore := cloneStringMap (cl_Annotations c) in
  r ← call (CListPods (cl_Namespace c) (GetSelectorLabels c));
  match (r : result (list Pod)) with
  | Err e => mret (Err e)
  | Ok pods =>
      r ← backfill c pods annBefore;
      match r with
      | (_, Some r) => mret r
      | (c, None) =>
          r ← checkUpgrade now c annBefore;
          match r with
          | (_, Some r) => mret r
          | (c, None) =>
              let c := UpdateStatusCondition now ClusterConditionUpgradeBlocked ConditionFalse "NoUpgradePending" "" c in
              r ← persistClusterAnnotations c annBefore;
              match r with
              | (_, Err e) => mret (Err e)
              | (c, Ok _) => deferStatus (cl_Status c) (syncAll c)
              end
          end
      end
  end.

(** [UpdateSpec] only sets [InitBucketURL]. *)
(* src/pkg/controller/mysqlcluster/mysqlcluster_controller.go:150-218 Reconcile *)
Definition ReconcileCluster (now : Z) (ns name : string) : prog cc_op (result ReconcileResult) :=
  r ← call (CGetCluster ns name);
  match (r : result MysqlCluster) with
  | Err e => mret (if is_not_found e then Ok noRequeue else Err e)
  | Ok c =>
      r ← (if ShouldUpdate c then lift (UpgraderRun c) else mret (c, Ok tt));
      match r with
      | (_, Err e) => mret (Err e)
      | (c, Ok _) =>
          let spec := cl_Spec c in
          let c := UpdateSpec c in
          if negb (String.eqb (InitBucketURL spec) (InitBucketURL (cl_Spec c))) then
            r ← call (CUpdate c);
            mret match (r : result MysqlCluster) with Err e => Err e | Ok _ => Ok noRequeue end
          else
            let inProgress := match GetClusterCondition c ClusterConditionFailoverInProgress with
              | Some fip => bool_decide (cc_Status fip = ConditionTrue) | None => false end in
            match inProgress, Replicas (cl_Spec c) with
            | true, None => mret (Err nilDeref)
            | _, replicas =>
                if inProgress && (default 0 replicas =? 0)%Z && (ReadyNodes (cl_Status c) =? 0)%Z then
                  r ← statusUpdate (UpdateStatusCondition now ClusterConditionFailoverInProgress ConditionFalse
                        "ClusterNotRunning" "cluster is not running" c);
                  mret match r.2 with Err e => Err e | Ok _ => Ok noRequeue end
                else
                  match SetDefaults opt (SetDefaults_MysqlCluster c) with
                  | None => mret (Err nilDeref)
                  | Some c =>
                      match Validate c with
                      | Err e => mret (Err e)
                      | Ok _ => reconcileDefaulted now c
                      end
                  end
            end
      end
  end.

End Controller.

(** ** Properties *)

(** *** At most one master *)

(** The pods, by name, and what the syncer of a host makes of them. *)
Definition labelPod (c : MysqlCluster) (store : gmap string Pod) (host : string) : gmap string Pod :=
  let name := getPodNameForHost host in
  match store !! name with
  | None => store
  | Some pod => <[name := (PodSyncFn c host pod).2.1]> store
  end.

Definition masterLabel (pod : Pod) : Prop := om_Labels (pod_Meta pod) !! "role" = Some labelMaster.

(** No two pods have the label of the master. *)
Definition oneMaster (store : gmap string Pod) : Prop :=
  ∀ n1 n2 p1 p2, store !! n1 = Some p1 → store !! n2 = Some p2 → masterLabel p1 → masterLabel p2 → n1 = n2.

Lemma getCondAsBool_nodeIs c ns :
  ns ∈ st_Nodes (cl_Status c) → NoDup (ns_Name <$> st_Nodes (cl_Status c)) →
  getCondAsBool ns NodeConditionMaster = hostIs c (ns_Name ns) NodeConditionMaster.
Proof.
  unfold hostIs. generalize (st_Nodes (cl_Status c)). intros nodes Hin Hnd.
  assert (nodeCondition nodes (ns_Name ns) NodeConditionMaster = condLookup NodeConditionMaster (ns_Conditions ns)) as ->.
  { induction nodes as [|n nodes IH]; [by apply elem_of_nil in Hin|]. rewrite nodeCondition_cons.
    rewrite fmap_cons in Hnd. apply NoDup_cons in Hnd as [Hn Hnd].
    apply elem_of_cons in Hin as [<-|Hin]; [by rewrite String.eqb_refl|].
    destruct (String.eqb_spec (ns_Name n) (ns_Name ns)) as [E|_]; [|by apply IH].
    exfalso. apply Hn. rewrite E. by apply list_elem_of_fmap_2. }
  unfold getCondAsBool, GetNodeConditionIndex, condLookup.
  by destruct (condIndex NodeConditionMaster (ns_Conditions ns)).
Qed.

Lemma labels_differ : Some labelReplica ≠ Some labelMaster.
Proof. intros Hx. vm_compute in Hx. discriminate. Qed.

(** A host that is not the master never gets the label of one, and loses it if its
    syncer succeeds. *)
Lemma PodSyncFn_role c host pod :
  (masterLabel (PodSyncFn c host pod).2.1 → masterLabel pod ∨ hostIs c host NodeConditionMaster = true) ∧
  ((PodSyncFn c host pod).2.2 = Ok tt → hostIs c host NodeConditionMaster = false →
   ¬ masterLabel (PodSyncFn c host pod).2.1).
Proof.
  destruct (PodSyncFn c host pod).2.2 as [[]|e] eqn:E.
  - unfold masterLabel. rewrite (PodSyncFn_ok _ _ _ E), lookup_insert_ne, lookup_insert_eq by done.
    destruct (hostIs c host NodeConditionMaster); split; intros;
      first [by right|exact labels_differ|exfalso; by apply labels_differ|done].
  - split; [|done]. intros Hm. left. revert E Hm. unfold PodSyncFn.
    destruct (_ =? 0)%Z; [done|]. destruct (GetNodeCondition host NodeConditionMaster c) as [[m|] c1]; cbn;
      destruct (GetNodeCondition host NodeConditionReplicating c1) as [r c2];
      destruct (GetNodeCondition host NodeConditionLagged c2) as [l c3]; done.
Qed.

Lemma labelPod_lookup c store host n p :
  labelPod c store host !! n = Some p →
  ∃ p0, store !! n = Some p0 ∧
    (p = p0 ∧ n ≠ getPodNameForHost host ∨ n = getPodNameForHost host ∧ p = (PodSyncFn c host p0).2.1).
Proof.
  unfold labelPod. destruct (store !! getPodNameForHost host) as [p1|] eqn:E.
  - destruct (decide (n = getPodNameForHost host)) as [->|Hn].
    + rewrite lookup_insert_eq. intros [= <-]. exists p1. split; [done|by right].
    + rewrite lookup_insert_ne by done. intros Hp. exists p. split; [done|by left].
  - intros Hp. exists p. split; [done|]. left. split; [done|]. intros ->. congruence.
Qed.

Section Labels.
Context (c : MysqlCluster) (store : gmap string Pod).
Let nodes : list NodeStatus := st_Nodes (cl_Status c).

(** One pod for each node, one master at most, and pods with the label of the
    master are pods of nodes whose role is known. *)
Hypothesis pods_distinct : NoDup (getPodNameForHost <$> (ns_Name <$> nodes)).
Hypothesis one_node : ∀ n1 n2, n1 ∈ nodes → n2 ∈ nodes →
  getCondAsBool n1 NodeConditionMaster = true → getCondAsBool n2 NodeConditionMaster = true → n1 = n2.
Hypothesis one_before : oneMaster store.
Hypothesis labelled_known : ∀ n p, store !! n = Some p → masterLabel p →
  ∃ ns, ns ∈ nodes ∧ getPodNameForHost (ns_Name ns) = n ∧ (PodSyncFn c (ns_Name ns) p).2.2 = Ok tt.

Let names_distinct : NoDup (ns_Name <$> nodes).
Proof. by eapply NoDup_fmap_1. Qed.

Lemma labelled_lookup hosts n p :
  NoDup (getPodNameForHost <$> hosts) → foldl (labelPod c) store hosts !! n = Some p →
  ∃ p0, store !! n = Some p0 ∧
    ((∃ host, host ∈ hosts ∧ n = getPodNameForHost host ∧ p = (PodSyncFn c host p0).2.1) ∨
     (p = p0 ∧ n ∉ getPodNameForHost <$> hosts)).
Proof.
  revert n p. induction hosts as [|host hosts IH] using rev_ind; intros n p Hnd Hp.
  { exists p. split; [done|]. right. split; [done|apply not_elem_of_nil]. }
  rewrite foldl_snoc in Hp. rewrite fmap_app in Hnd. apply NoDup_app in Hnd as (Hnd & Hdis & _).
  rewrite fmap_app. apply labelPod_lookup in Hp as (p1 & Hp1 & Hcase).
  destruct (IH n p1 Hnd Hp1) as (p0 & Hp0 & Hold). exists p0. split; [done|].
  destruct Hcase as [[-> Hn]|[Hn ->]].
  - destruct Hold as [(h & Hh & Heq)|[-> Hh]]; [left; exists h; set_solver|right; set_solver].
  - destruct Hold as [(h & Hh & Heq & _)|[-> _]]; [|left; exists host; set_solver].
    exfalso. apply (Hdis n); [rewrite Heq; by apply list_elem_of_fmap_2|]. rewrite Hn. by left.
Qed.

Lemma syncers_nodes host : host ∈ getPodSyncers c ↔ ∃ ns, ns ∈ nodes ∧ ns_Name ns = host.
Proof.
  unfold getPodSyncers. rewrite elem_of_app, !list_elem_of_fmap. split.
  - intros [(ns & -> & Hin)|(ns & -> & Hin)]; exists ns; split; try done;
      apply list_elem_of_In, List.filter_In in Hin as [Hin _]; by apply list_elem_of_In.
  - intros (ns & Hin & <-). apply list_elem_of_In in Hin.
    destruct (getCondAsBool ns NodeConditionMaster) eqn:E; [right|left]; exists ns; split; try done;
      apply list_elem_of_In, List.filter_In; split; by rewrite ?E.
Qed.

Lemma syncers_distinct : NoDup (getPodNameForHost <$> getPodSyncers c).
Proof.
  eapply NoDup_Permutation_proper; [|exact pods_distinct]. apply fmap_Permutation.
  unfold getPodSyncers. rewrite <-fmap_app. apply fmap_Permutation. fold nodes. clear.
  induction nodes as [|ns l IH]; [done|]. simpl. destruct (getCondAsBool ns NodeConditionMaster); simpl.
  - by rewrite <-Permutation_middle, IH.
  - by rewrite IH.
Qed.

Lemma pod_names_inj n1 n2 : n1 ∈ nodes → n2 ∈ nodes →
  getPodNameForHost (ns_Name n1) = getPodNameForHost (ns_Name n2) → n1 = n2.
Proof.
  clear -pods_distinct. rewrite <-list_fmap_compose in pods_distinct. revert pods_distinct.
  generalize nodes. intros l Hnd. induction l as [|x l IH]; [by intros ?%elem_of_nil|].
  rewrite fmap_cons in Hnd. apply NoDup_cons in Hnd as [Hx Hnd]. rewrite !elem_of_cons.
  intros [->|H1] [->|H2] E; [done| | |by apply IH]; exfalso; apply Hx; apply list_elem_of_fmap.
  - by exists n2.
  - by exists n1.
Qed.

Lemma master_prefix k m : m ∈ take k (getPodSyncers c) → hostIs c m NodeConditionMaster = true →
  ∀ ns, ns ∈ nodes → getCondAsBool ns NodeConditionMaster = false → ns_Name ns ∈ take k (getPodSyncers c).
Proof.
  unfold getPodSyncers. fold nodes. set (reps := ns_Name <$> List.filter _ nodes).
  set (ms := ns_Name <$> List.filter _ nodes). rewrite take_app. intros Hm Htrue ns Hns Hfalse.
  apply elem_of_app. left.
  assert (ns_Name ns ∈ reps) as Hr.
  { apply list_elem_of_fmap_2, list_elem_of_In, List.filter_In. rewrite Hfalse. split; [by apply list_elem_of_In|done]. }
  destruct (decide ((length reps ≤ k)%nat)) as [Hk|Hk]; [by rewrite take_ge|exfalso].
  replace (k - length reps)%nat with 0%nat in Hm by lia. rewrite take_0, app_nil_r in Hm.
  apply elem_of_take in Hm as (i & Hi & _). apply list_elem_of_lookup_2, list_elem_of_fmap in Hi as (x & -> & Hx).
  apply list_elem_of_In, List.filter_In in Hx as [Hx Hb]. apply list_elem_of_In in Hx.
  rewrite (getCondAsBool_nodeIs c) in Hb by done. by rewrite Htrue in Hb.
Qed.

(** C12. The pods are relabelled so that clients never see two masters: if one pod at
    most has the label of the master before, and one node at most is the master in
    the status, then one pod at most has it after every number of syncers of
    [getPodSyncers]. *)
Theorem one_master_label k : oneMaster (foldl (labelPod c) store (take k (getPodSyncers c))).
Proof.
  set (hosts := take k (getPodSyncers c)).
  assert (NoDup (getPodNameForHost <$> hosts)) as Hnd.
  { eapply sublist_NoDup; [exact syncers_distinct|]. apply fmap_sublist, sublist_take. }
  assert (∀ host, host ∈ hosts → ∃ ns, ns ∈ nodes ∧ ns_Name ns = host) as Hhosts.
  { intros host Hh. apply syncers_nodes. unfold hosts in Hh. apply elem_of_take in Hh as (i & Hi & _).
    by eapply list_elem_of_lookup_2. }
  (* a pod with the label had it before, or is the one of a master *)
  assert (∀ n p, foldl (labelPod c) store hosts !! n = Some p → masterLabel p →
    (∃ p0, store !! n = Some p0 ∧ masterLabel p0 ∧
       ∀ m, m ∈ hosts → hostIs c m NodeConditionMaster = true → n = getPodNameForHost m) ∨
    (∃ m, m ∈ hosts ∧ hostIs c m NodeConditionMaster = true ∧ n = getPodNameForHost m)) as Hpod.
  { intros n p Hp Hm. destruct (labelled_lookup hosts n p Hnd Hp) as (p0 & Hp0 & Hcase).
    destruct (decide (Exists (λ m, hostIs c m NodeConditionMaster = true ∧ n = getPodNameForHost m) hosts)) as [He|He].
    { right. by apply Exists_exists in He. }
    rewrite Exists_exists in He.
    assert (masterLabel p0) as Hm0.
    { destruct Hcase as [(host & Hh & Hn & ->)|[-> _]]; [|done].
      destruct (proj1 (PodSyncFn_role c host p0) Hm) as [?|Ht]; [done|]. exfalso. apply He. by exists host. }
    left. exists p0. split_and!; [done|done|]. intros m Hmh Hmt. exfalso.
    destruct (labelled_known n p0 Hp0 Hm0) as (ns & Hns & Hname & Hok).
    destruct (getCondAsBool ns NodeConditionMaster) eqn:Ecb.
    - destruct (Hhosts m Hmh) as (nm & Hnm & Hnn).
      assert (getCondAsBool nm NodeConditionMaster = true) as Hcm by (rewrite (getCondAsBool_nodeIs c) by done; by rewrite Hnn).
      pose proof (one_node ns nm Hns Hnm Ecb Hcm) as ->. apply He. exists m. split; [done|]. by rewrite <-Hname, Hnn.
    - pose proof (master_prefix k m Hmh Hmt ns Hns Ecb) as Hin.
      destruct Hcase as [(host & Hh & Hn & ->)|[_ Hno]].
      + destruct (Hhosts host Hh) as (n2 & Hn2 & Hnn2).
        assert (n2 = ns) as -> by (apply pod_names_inj; [done|done|]; by rewrite Hnn2, Hname).
        subst host. rewrite (getCondAsBool_nodeIs c) in Ecb by done.
        by apply (proj2 (PodSyncFn_role c (ns_Name ns) p0) Hok Ecb).
      + apply Hno. rewrite <-Hname. by apply list_elem_of_fmap_2. }
  intros n1 n2 p1 p2 Hp1 Hp2 Hm1 Hm2.
  destruct (Hpod n1 p1 Hp1 Hm1) as [(q1 & Hq1 & Hmq1 & Ha1)|(m1 & Hh1 & Ht1 & ->)],
    (Hpod n2 p2 Hp2 Hm2) as [(q2 & Hq2 & Hmq2 & Ha2)|(m2 & Hh2 & Ht2 & ->)].
  - by eapply one_before.
  - by apply Ha1.
  - symmetry. by apply Ha2.
  - destruct (Hhosts m1 Hh1) as (x1 & Hx1 & <-), (Hhosts m2 Hh2) as (x2 & Hx2 & <-).
    rewrite <-(getCondAsBool_nodeIs c) in Ht1, Ht2 by done. by rewrite (one_node x1 x2).
Qed.

End Labels.

(** ** Examples *)

(** The first pod becomes the master in place of the second. *)
Lemma one_master_label_witness :
  let before := <["demo-mysql-0" := routedPod "demo-mysql-0"]>
    {["demo-mysql-1" := (routedPod "demo-mysql-1") {{ pod_Meta -> om_Labels ::= <["role" := labelMaster]> }}]} in
  getPodSyncers routedCluster = ["demo-mysql-1.mysql.prod"; "demo-mysql-0.mysql.prod"] ∧
  ∀ k, oneMaster (foldl (labelPod routedCluster) before (take k (getPodSyncers routedCluster))).
Proof.
  cbv zeta. split; [vm_compute; reflexivity|]. intros k. apply one_master_label.
  - apply (bool_decide_unpack _). vm_compute. exact I.
  - intros n1 n2 H1 H2. change (st_Nodes (cl_Status routedCluster)) with
      [nodeOf "demo-mysql-0.mysql.prod" true; nodeOf "demo-mysql-1.mysql.prod" false] in H1, H2.
    rewrite !elem_of_cons, elem_of_nil in H1, H2.
    destruct H1 as [->|[->|[]]], H2 as [->|[->|[]]]; try done.
  - intros n1 n2 p1 p2. rewrite !lookup_insert_Some, !lookup_singleton_Some.
    intros [[<- <-]|[_ [<- <-]]] [[<- <-]|[_ [<- <-]]]; try done; unfold masterLabel; intros Ha Hb;
      first [vm_compute in Ha; discriminate|vm_compute in Hb; discriminate].
  - intros n p. rewrite lookup_insert_Some, lookup_singleton_Some.
    intros [[<- <-]|[_ [<- <-]]] Hm; [vm_compute in Hm; discriminate|].
    exists (nodeOf "demo-mysql-1.mysql.prod" false). split; [right; left|]. split; [vm_compute; reflexivity|reflexivity].
Defined.
