(* ===== verification/ClusterOrder.v ===== *)
(** * What a run of the cluster controller may do, and when

    The order of the calls of [ClusterController.ReconcileCluster], for every
    behaviour of the API server and of the servers of the data plane: the version
    that the stateful set is given, what is written to the status, and what is left
    alone while an upgrade is held back.  The syncers are used by their laws only. *)

From S2P Require Import Prelude KubeSync GoStrings Semver ClusterTypes Versioning ClusterStatus ClusterModel.
From S2P Require Import ClusterDefaults VersionUpgrade StatefulSet Syncers IniFile ConfigMap GoTime OrcReconcile Upgrades.
From S2P Require Import PVCs MysqlObjects UserController ClusterController.
From coqutil Require Import Datatypes.RecordSetters.
Import DoubleBraceUpdate.
Open Scope stdpp_scope.

(** [SetControllerReference] changes the metadata only. *)
Class ControllerRefLaws `{!ControllerRef} : Prop :=
  controller_ref c s s' : SetControllerReference c s = Ok s' → sts_Template s' = sts_Template s.

(** ** What is known of the cluster in memory *)

(** The cluster as the API server answered it. *)
Definition gave (c : MysqlCluster) (h : list (event cc_op)) : Prop :=
  (∃ ns name, Ev (CGetCluster ns name) (Ok c) ∈ h) ∨ (∃ u, Ev (CUpdate u) (Ok c) ∈ h) ∨
  (∃ u, Ev (CStatusUpdate u) (Ok c) ∈ h) ∨ (∃ u, Ev (CUpgrade (UUpdateCluster u)) (Ok c) ∈ h).

Definition sameApplied (c c' : MysqlCluster) : Prop :=
  AppliedMysqlVersion (cl_Status c) = AppliedMysqlVersion (cl_Status c').

Definition sameDesired `{!Blang} (c c' : MysqlCluster) : Prop :=
  ClusterDesiredVersion c = ClusterDesiredVersion c' ∧ Image (cl_Spec c) = Image (cl_Spec c').

(** A server of the data plane was asked for its version, and answered. *)
Definition asked `{!Blang} (v : Version) (h : list (event cc_op)) : Prop :=
  ∃ user password host raw,
    Ev (CVersion (VQueryVersion user password host)) (Ok raw) ∈ h ∧ ParseServerVersion raw = Ok v.

(** The version and the image that are asked for are those that the API server has, and
    the applied version is that of the same answer, or one that a server reported. *)
Definition sound `{!Blang} (c : MysqlCluster) (h : list (event cc_op)) : Prop :=
  ∃ c0, gave c0 h ∧ sameDesired c c0 ∧
    (sameApplied c c0 ∨ ∃ v, AppliedMysqlVersion (cl_Status c) = VString v ∧ asked v h).

Section Rule.
Context `{!Blang, !Process, !Resource, !ResourceAccess, !PodDefaults} (opt : Options).

(** The cluster that a run works on: the one that was read (for an old cluster, the one
    that its upgrade left) with the defaults set, all of it, status included; or what
    the API server answered to a write. *)
Definition working (c : MysqlCluster) (h : list (event cc_op)) : Prop :=
  (∃ c0, ((∃ ns name, Ev (CGetCluster ns name) (Ok c0) ∈ h) ∨ (∃ u, Ev (CUpgrade (UUpdateCluster u)) (Ok c0) ∈ h)) ∧
     SetDefaults opt (SetDefaults_MysqlCluster (UpdateSpec c0)) = Some c) ∨
  (∃ u, Ev (CUpdate u) (Ok c) ∈ h) ∨ (∃ u, Ev (CStatusUpdate u) (Ok c) ∈ h).

(** The decision on the version was taken on such a cluster, and was to go on. *)
Definition checked (h : list (event cc_op)) : Prop := ∃ c, working c h ∧ EnsureChecked c = Ok tt.

(** What the run makes of it in memory: a condition is set, and the callback of the
    stateful set counts the ready pods of the one that was read, and may be run again
    on what it left. *)
Inductive copyOf (h : list (event cc_op)) (c1 : MysqlCluster) : MysqlCluster → Prop :=
  | copy_itself : copyOf h c1 c1
  | copy_condition now st reason msg c :
      copyOf h c1 c → copyOf h c1 (UpdateStatusCondition now ClusterConditionUpgradeBlocked st reason msg c)
  | copy_synced cmRev sctRev key out c :
      copyOf h c1 c → fetched (Op := cc_op) key out h → copyOf h c1 (SyncFn opt cmRev sctRev c out).1.

Definition copy (c : MysqlCluster) (h : list (event cc_op)) : Prop := ∃ c1, working c1 h ∧ copyOf h c1 c.

(** The stateful set is what the callback makes of the one that was read.  It runs the
    version of [RolloutMySQLVersion], which is a legal step from the applied version,
    or, while that is not known, the version that runs already. *)
Definition legalRollout (sts : StatefulSet) (h : list (event cc_op)) : Prop :=
  ∃ c out key, copy c h ∧ fetched (Op := cc_op) key out h ∧
    let v := RolloutMySQLVersion c (Some out) in
    (∃ cmRev sctRev, sts_Template sts = sts_Template (SyncFn opt cmRev sctRev c out).2) ∧
    (version_fits v → SemVerFromStatefulSet (Some sts) = v) ∧
    if decide (AppliedDataPlaneVersion c = Zero)
    then ClusterHasMySQLData c = true → SemVerFromStatefulSet (Some out) ≠ Zero → v = SemVerFromStatefulSet (Some out)
    else ValidateUpgradePath (AppliedDataPlaneVersion c) v = Ok tt.

Definition ccRule (e : event cc_op) (h : list (event cc_op)) : Prop :=
  match ev_op e with
  | CUpdate c | CStatusUpdate c => sound c h
  | CUpgrade _ => ∃ c ns name, Ev (CGetCluster ns name) (Ok c) ∈ h ∧ ShouldUpdate c = true
  | CStatefulSet (SyncPersist sts) => legalRollout sts h
  | CService (SyncPersist _) | CPDB (SyncPersist _) | CPod (SyncPersist _) | CPVC _ => checked h
  | _ => True
  end.

Lemma gave_stable c : stable (gave c).
Proof. unfold gave. auto 10 with stable. Qed.

Lemma asked_stable v : stable (asked v).
Proof. intros h e (u & p & host & raw & Hin & Hp). exists u, p, host, raw. split; [by apply stable_elem|done]. Qed.

Lemma sound_stable c : stable (sound c).
Proof.
  intros h e (c0 & Hg & Hd & Hs). exists c0. split; [by apply gave_stable|]. split; [done|].
  destruct Hs as [?|(v & Hv & Ha)]; [by left|right]. exists v. split; [done|by apply asked_stable].
Qed.

Lemma working_stable c : stable (working c).
Proof. unfold working. auto 10 with stable. Qed.

Lemma checked_stable : stable checked.
Proof. intros h e (c & Hs & Hc). exists c. split; [by apply working_stable|done]. Qed.

Lemma copy_stable c : stable (copy c).
Proof.
  intros h e (c1 & Hw & Hc). exists c1. split; [by apply working_stable|].
  induction Hc; [constructor|by constructor|]. econstructor; [done|]. by eapply fetched_stable.
Qed.

Lemma legalRollout_stable sts : stable (legalRollout sts).
Proof.
  intros h e (c & out & key & Hs & Hf & Hrest). exists c, out, key.
  split; [by apply copy_stable|]. split; [by apply fetched_stable|exact Hrest].
Qed.

Lemma working_copy c h : working c h → copy c h.
Proof. intros Hw. exists c. split; [done|constructor]. Qed.

(** The parts of a copy on which the decision depends. *)
Definition sameCopy (c' c : MysqlCluster) : Prop := sameApplied c' c ∧ sameDesired c' c.

Lemma sound_same c c' h : sameCopy c' c → sound c h → sound c' h.
Proof.
  unfold sameCopy, sound, sameApplied, sameDesired. intros [Ea [Ed Ei]] (c0 & Hg & [Hd Hi] & Hs). exists c0.
  split; [done|]. split; [split; congruence|]. by rewrite Ea.
Qed.

Lemma gave_sound c h : gave c h → sound c h.
Proof. intros Hg. exists c. split; [done|]. split; [done|by left]. Qed.

Lemma reported_sound c v t h :
  sound c h → (∀ e, e ∈ t → embed_event e ∈ h) → reported v t → sound (MarkAppliedVersion c v) h.
Proof.
  intros (c0 & Hg & Hd & _) Ht (u & p & host & raw & Hin & Hv). exists c0. split; [done|]. split; [exact Hd|]. right.
  exists v. split; [done|]. exists u, p, host, raw. split; [|done]. exact (Ht _ Hin).
Qed.

End Rule.

#[export] Hint Resolve gave_stable sound_stable working_stable checked_stable copy_stable legalRollout_stable : stable.

Section Same.
Context `{!Blang, !Process}.

Lemma UpdateStatusCondition_copy now ty st reason msg c :
  sameCopy (UpdateStatusCondition now ty st reason msg c) c.
Proof. by split. Qed.

Lemma UpdateSpec_same c : sameCopy (UpdateSpec c) c.
Proof. unfold UpdateSpec. cbv zeta. destruct (_ =? 0)%nat; by split. Qed.

Lemma SetDefaults_applied `{!Resource, !ResourceAccess} opt c c' :
  SetDefaults opt (SetDefaults_MysqlCluster c) = Some c' → sameApplied c' c.
Proof.
  intros Hd. unfold sameApplied. rewrite <-(proj2 (SetDefaults_MysqlCluster_meta c)).
  revert Hd. generalize (SetDefaults_MysqlCluster c). clear c. intros c. unfold SetDefaults. cbv zeta.
  match goal with |- context [setMemoryDefaults ?x _] => set (c1 := x) end.
  assert (cl_Status c1 = cl_Status c) as <- by (unfold c1; by rewrite !when_keeps).
  clearbody c1. destruct (setMemoryDefaults c1 _) as [[size conf]|]; [|done]. cbn [mbind option_bind].
  destruct (setVolumeDefaults c1 conf) as [conf2|]; [|done]. cbn [mbind option_bind].
  match goal with |- context [rl_Cpu ?x] => destruct (rl_Cpu x) as [cpu|] end; cbn [mbind option_bind].
  - destruct (if QIsZero cpu then _ else _) as [conf3|]; [|done].
    intros [= <-]. by rewrite when_keeps.
  - intros [= <-]. by rewrite when_keeps.
Qed.

Lemma SetDefaults_same `{!Resource, !ResourceAccess} opt c c' :
  SetDefaults opt (SetDefaults_MysqlCluster c) = Some c' → sameCopy c' c.
Proof.
  intros Hd. destruct (SetDefaults_versions _ _ _ Hd) as (? & _ & ?). split; [by eapply SetDefaults_applied|by split].
Qed.

Lemma sameCopy_trans c1 c2 c3 : sameCopy c1 c2 → sameCopy c2 c3 → sameCopy c1 c3.
Proof.
  unfold sameCopy, sameApplied, sameDesired. intros (? & ? & ?) (? & ? & ?). split_and!; congruence.
Qed.

(** A copy is sound. *)
Lemma working_sound `{!Resource, !ResourceAccess} opt c h : working opt c h → sound c h.
Proof.
  intros [(c0 & Hr & Hd)|Hw].
  - eapply sound_same; [eapply sameCopy_trans; [by eapply SetDefaults_same|apply UpdateSpec_same]|].
    apply gave_sound. destruct Hr as [?|?]; [by left|by right; right; right].
  - apply gave_sound. destruct Hw as [?|?]; [by right; left|by right; right; left].
Qed.

Lemma copy_sound `{!Resource, !ResourceAccess, !PodDefaults} opt c h : copy opt c h → sound c h.
Proof.
  intros (c1 & Hw & Hc). induction Hc as [|now st reason msg c Hc IH|cmRev sctRev key out c Hc IH Hf].
  - by eapply working_sound.
  - eapply sound_same; [apply UpdateStatusCondition_copy|done].
  - eapply sound_same; [|exact IH]. by split.
Qed.

End Same.

(** ** The components as parts *)

Section Parts.
Context `{!Blang, !BlangLaws, !Process, !Resource, !ResourceAccess, !PodDefaults} (opt : Options).
Implicit Types (P : list (event cc_op) → Prop).
#[local] Abbreviation keeps := (Prelude.keeps (ccRule opt)).

Lemma call_keeps P (o : cc_op) :
  (∀ r h, P h → ccRule opt (Ev o r) h) → keeps P (call o) (λ r h, Ev o r ∈ h).
Proof. intros Hr. apply keeps_call; [done|]. intros r h _. apply elem_of_app. right. by left. Qed.

(** Parts whose calls are always allowed. *)
Lemma version_keeps {A} P (m : prog vu_op A) Y :
  Prelude.keeps (λ _ _, True) (λ _, True) m Y → keeps P (lift m) (partly Y).
Proof. intros Hm. eapply lift_history; [exact Hm|done]. Qed.

Lemma getStatefulSet_keeps P c : keeps P (lift (getStatefulSet c)) (λ _ _, True).
Proof.
  eapply keeps_weaken; [apply (version_keeps P (getStatefulSet c) (λ _ _, True))|done|done].
  unfold getStatefulSet. apply (keeps_bind _ _ (λ _ _, True)); [by apply (keeps_call _ _ (VGetStatefulSet _ _))|
    intros ?; exact (stable_const True)|]. intros ?. by apply keeps_ret.
Qed.

Lemma OperatedSecret_keeps P secret : keeps P (lift (OperatedSecretSyncFn opt secret)) (λ _ _, True).
Proof.
  eapply keeps_weaken; [eapply (lift_keeps _ _ (λ _, True) (λ _, True))|intros h Hh; exact Hh|done]; [|done].
  unfold OperatedSecretSyncFn. do 3 (eapply emits_bind; [by apply addUser_emits|intros ? _]). cbv zeta.
  do 2 (eapply emits_bind; [by apply addUser_emits|intros ? _]). by apply emits_ret.
Qed.

Lemma claims_keeps P (m : prog pvc_op (result unit)) :
  (∃ R, Prelude.keeps R (λ _, True) m (λ _ _, True)) → (∀ h, P h → checked opt h) → keeps P (lift m) (λ _ _, True).
Proof.
  intros [R Hm] HP. eapply keeps_weaken; [eapply lift_history; [exact Hm|]|intros h Hh; exact Hh|done].
  intros e h Hh. exact (HP h Hh).
Qed.

Lemma emits_keeps_true {Op A} `{!Effect Op} (m : prog Op A) :
  emits (λ _, True) (λ _, True) m → Prelude.keeps (λ _ _, True) (λ _, True) m (λ _ _, True).
Proof.
  intros Hm F HF _ w h [_ Hh]. destruct (Hm w h) as (t & -> & _). split_and!; [done| |done].
  induction t as [|e t IH] using rev_ind; [by rewrite app_nil_r|]. rewrite (assoc_L (++)). by apply HF.
Qed.

(** The version that is recorded is one that a server reported. *)
Lemma Backfill_keeps P c pods :
  (∀ h, P h → sound c h) → keeps P (lift (BackfillAppliedVersion c pods)) (λ r h, ∀ c' b, r = Ok (c', b) →
    (c' = c ∧ b = false) ∨ (b = true ∧ sound c' h)).
Proof.
  intros HP. eapply keeps_weaken; [apply keeps_post, (version_keeps P _ (λ r t, ∀ c' b, r = Ok (c', b) →
    (c' = c ∧ b = false) ∨ b = true ∧ ∃ v, c' = MarkAppliedVersion c v ∧ reported v t))|done|].
  - unfold BackfillAppliedVersion. destruct (negb _); [apply keeps_ret; intros h _ c' b [= <- <-]; by left|].
    eapply keeps_try; [apply Observe_reports| |intros v; apply keeps_ret|done].
    + intros r h e Hr v Hv. by apply reported_stable, Hr.
    + intros h [_ Hr] c' b [= <- <-]. right. split; [done|]. exists v. split; [done|by apply Hr].
  - intros r h [Hh (t & Ht & HY)] c' b Hr. destruct (HY c' b Hr) as [?|(Hb & v & -> & Hv)]; [by left|right]. split; [done|].
    eapply reported_sound; [by apply HP|done|done].
Qed.

Lemma SyncApplied_keeps P c sts pods :
  (∀ h, P h → sound c h) → keeps P (lift (SyncAppliedVersion c sts pods)) (λ r h, ∀ v, r = Some v → sound (MarkAppliedVersion c v) h).
Proof.
  intros HP. eapply keeps_weaken; [apply keeps_post, (version_keeps P _ (λ r t, ∀ v, r = Some v → reported v t))|done|].
  - unfold SyncAppliedVersion. destruct (_ && _); [by apply keeps_ret|]. destruct (negb _); [by apply keeps_ret|].
    eapply keeps_bind; [apply Observe_reports| |intros r; apply keeps_ret].
    + intros r h e Hr v Hv. by apply reported_stable, Hr.
    + intros h [_ Hr] v. destruct r as [o|e]; [|done]. destruct (negb _); [done|]. intros [= <-]. by apply Hr.
  - intros r h [Hh (t & Ht & HY)] v Hr. by eapply reported_sound; [by apply HP|exact Ht|apply HY].
Qed.

Lemma Upgrader_keeps P c :
  (∀ h, P h → (∃ ns name, Ev (CGetCluster ns name) (Ok c) ∈ h) ∧ ShouldUpdate c = true) →
  keeps P (lift (UpgraderRun c)) (λ r h, r.2 = Ok tt →
    (∃ ns name, Ev (CGetCluster ns name) (Ok r.1) ∈ h) ∨ (∃ u, Ev (CUpgrade (UUpdateCluster u)) (Ok r.1) ∈ h)).
Proof.
  intros HP. eapply keeps_weaken; [eapply lift_history; [apply UpgraderRun_keeps|]|intros h Hh; exact Hh|].
  - intros e h Hh. destruct (HP h Hh) as [(ns & name & Hin) Hs]. by exists c, ns, name.
  - intros r h (t & Ht & HY) Hok. destruct (HY Hok) as [u Hu]. right.
    exists u. exact (Ht _ Hu).
Qed.

End Parts.

(** ** The run *)

Section Run.
Context `{!Blang, !BlangLaws, !Process, !Resource, !ResourceAccess, !PodDefaults, !PodDefaultsLaws, !IniLib, !IntStr}.
Context `{!ControllerRef, !ControllerRefLaws}.
Context `{!ObjectSyncer cc_op ConfigMapObject, !ObjectSyncer cc_op SecretObject, !ObjectSyncer cc_op Service,
          !ObjectSyncer cc_op PDB, !ObjectSyncer cc_op Pod}.
Context `{!ObjectSyncerLaws cc_op ConfigMapObject, !ObjectSyncerLaws cc_op SecretObject,
          !ObjectSyncerLaws cc_op Service, !ObjectSyncerLaws cc_op PDB, !ObjectSyncerLaws cc_op Pod}.
Context `{!CreateOrUpdate cc_op StatefulSet MysqlCluster, !RetryOnConflict cc_op (MysqlCluster * StatefulSet)}.
Context `{!CreateOrUpdateLaws cc_op StatefulSet MysqlCluster, !RetryOnConflictLaws cc_op (MysqlCluster * StatefulSet)}.
Context (opt : Options).
Implicit Types (P : list (event cc_op) → Prop).
#[local] Abbreviation keeps := (Prelude.keeps (ccRule opt)).

(** The step of a proof for a part of which only the calls matter. *)
Lemma then_keeps {A B} P (m : prog cc_op A) (f : A → prog cc_op B) Y :
  keeps P m (λ _ _, True) → (∀ a, keeps P (f a) Y) → keeps P (m ≫= f) Y.
Proof.
  intros Hm Hf. apply (keeps_bind _ _ (λ _ _, True)); [exact Hm|intros ?; exact (stable_const True)|].
  intros a. eapply keeps_weaken; [apply Hf|by intros h [? _]|done].
Qed.

(** A syncer that may always write, or may write here. *)
Lemma sync_any {A} `{!Embeds (sync_op A) cc_op, !ObjectSyncer cc_op A, !ObjectSyncerLaws cc_op A}
    P (obj : A) (mutate : A → prog cc_op (A * result unit)) :
  (∀ o r h, ccRule opt (Ev (embed (SyncFetch o)) r) h) →
  (∀ o r h, P h → ccRule opt (Ev (embed (SyncPersist o)) r) h) →
  (∀ o, keeps P (mutate o) (λ _ _, True)) →
  keeps P (sync_object obj mutate) (λ _ _, True).
Proof.
  intros HF HS Hm. eapply keeps_weaken; [apply (sync_keeps (ccRule opt) P obj mutate (λ _ _, True))|intros h Hh; exact Hh|done].
  - exact HF.
  - exact Hm.
  - intros ?. exact (stable_const True).
  - intros o r h Hh _. by apply HS.
Qed.

Lemma listPods_keeps P ns sel : keeps P (call (CListPods ns sel) : prog cc_op (result (list Pod))) (λ _ _, True).
Proof. by apply (keeps_call _ _ (CListPods ns sel)). Qed.

Lemma syncConfigMap_keeps P c sts : keeps P (syncConfigMap c sts) (λ _ _, True).
Proof.
  apply sync_any; [done|done|]. intros o. apply then_keeps; [|intros ?; by apply keeps_ret].
  destruct sts; [|by apply keeps_ret]. unfold listClusterPods. apply then_keeps; [apply listPods_keeps|].
  intros ?. by apply keeps_ret.
Qed.

Lemma syncOperatedSecret_keeps P c : keeps P (syncOperatedSecret opt c) (λ _ _, True).
Proof. unfold syncOperatedSecret. apply sync_any; [done|done|]. intros o. apply OperatedSecret_keeps. Qed.

Lemma syncSecret_keeps P c : keeps P (syncSecret c) (λ _ _, True).
Proof. unfold syncSecret. apply sync_any; [done|done|]. intros o. by apply keeps_ret. Qed.

Lemma syncService_keeps P s f : (∀ h, P h → checked opt h) → keeps P (syncPure s f : prog cc_op (Service * _)) (λ _ _, True).
Proof.
  intros HP. unfold syncPure. apply sync_any; [done|intros o r h Hh; exact (HP h Hh)|intros o; by apply keeps_ret].
Qed.

Lemma syncPDB_keeps P c : (∀ h, P h → checked opt h) → keeps P (syncPDB c) (λ _ _, True).
Proof.
  intros HP. unfold syncPDB, syncPure. apply sync_any; [done|intros o r h Hh; exact (HP h Hh)|intros o; by apply keeps_ret].
Qed.

Lemma syncPods_keeps P c hosts : (∀ h, P h → checked opt h) → keeps P (syncPods c hosts) (λ _ _, True).
Proof.
  intros HP. induction hosts as [|host hosts IH]; [by apply keeps_ret|]. simpl. apply then_keeps.
  - unfold syncPod. apply sync_any; [done|intros o r h Hh; exact (HP h Hh)|intros o; by apply keeps_ret].
  - intros [p [[]|e]]; cbn [snd]; [exact IH|]. destruct (IsPodNotFound e); simpl; [exact IH|by apply keeps_ret].
Qed.

(** *** The stateful set *)

Lemma SemVer_template s s' :
  sts_Template s' = sts_Template s → SemVerFromStatefulSet (Some s') = SemVerFromStatefulSet (Some s).
Proof. intros E. unfold SemVerFromStatefulSet, sts_Containers, sts_InitContainers. by rewrite E. Qed.

Lemma SyncFn_same cmRev sctRev c out : sameCopy (SyncFn opt cmRev sctRev c out).1 c.
Proof. by split. Qed.

(** What the callback makes is a legal rollout. *)
Lemma SyncFn_legal cmRev sctRev c out sts key h :
  copy opt c h → fetched (Op := cc_op) key out h → sts_Template sts = sts_Template (SyncFn opt cmRev sctRev c out).2 →
  legalRollout opt sts h.
Proof.
  intros Hs Hf Ht. exists c, out, key. split; [done|]. split; [done|]. cbv zeta.
  split; [by exists cmRev, sctRev|]. split.
  - intros Hv. rewrite (SemVer_template _ _ Ht). by apply SyncFn_version.
  - case_decide as Hz.
    + intros Hd Hr. rewrite Rollout_unknown, Hd, IsZero_bool, bool_decide_false by done. done.
    + rewrite Rollout_applied by done.
      destruct (ValidateUpgradePath (AppliedDataPlaneVersion c) (ClusterDesiredVersion c)) as [[]|e] eqn:E; simpl; [done|].
      apply ValidateUpgradePath_iff. split; [apply version_lt_irrefl|by left].
Qed.

Definition mutated (r : MysqlCluster * StatefulSet * result unit) (h : list (event cc_op)) : Prop :=
  copy opt r.1.1 h ∧ (r.2 = Ok tt → legalRollout opt r.1.2 h).

Lemma mutateFn_keeps P cmRev sctRev c key out :
  (∀ h, P h → copy opt c h ∧ fetched (Op := cc_op) key out h) → keeps P (mutateFn opt cmRev sctRev c out) mutated.
Proof.
  intros HP. unfold mutateFn, stsSyncFn.
  apply (keeps_bind _ _ (λ r h, match r with
    | (c', o, Err _) => copy opt c' h
    | (c', o, Ok _) => copy opt c' h ∧ ∃ c o', c' = (SyncFn opt cmRev sctRev c o').1 ∧ o = (SyncFn opt cmRev sctRev c o').2
                                     ∧ copy opt c h ∧ fetched (Op := cc_op) key o' h end)).
  - apply then_keeps; [apply listPods_keeps|]. intros r. destruct (r : result (list Pod)) as [pods|e]; apply keeps_ret; intros h Hh.
    + destruct (HP h Hh) as [Hs Hf]. destruct (SyncFn opt cmRev sctRev c out) as [c' o] eqn:E.
      assert (copy opt c' h) as Hs'.
      { destruct Hs as (c0 & Hw & Hc). exists c0. split; [done|]. change c' with (c', o).1. rewrite <-E. by eapply copy_synced. }
      split; [exact Hs'|]. exists c, out. rewrite E. done.
    + by apply HP.
  - intros [[c' o] [u|e]]; [|apply copy_stable].
    apply stable_and; [apply copy_stable|]. repeat (apply stable_exists; intros ?).
    repeat apply stable_and; [exact (stable_const _)..|apply copy_stable|apply fetched_stable].
  - intros [[c' o] [u|e]]; [|apply keeps_ret; intros h [_ Hs]; by split].
    destruct (cl_DeletionTimestamp c'); [destruct (_ =? 0)%Z|destruct (SetControllerReference c' o) as [o'|e] eqn:Er];
      apply keeps_ret; intros h [_ (Hs & c1 & o1 & -> & -> & Hs1 & Hf1)]; split; try done; intros _.
    + by eapply SyncFn_legal.
    + eapply SyncFn_legal; [exact Hs1|exact Hf1|]. by apply controller_ref in Er.
Qed.

Lemma syncStatefulSet_keeps P cmRev sctRev c :
  (∀ h, P h → copy opt c h) → keeps P (syncStatefulSet opt cmRev sctRev c) (λ r h, copy opt r.1 h).
Proof.
  intros HP. unfold syncStatefulSet.
  apply (keeps_bind _ _ (λ r h, copy opt r.1.1 h)); [|intros r; apply copy_stable|intros r; by apply keeps_ret; intros h [_ ?]].
  eapply keeps_weaken; [apply (retry_keeps (ccRule opt) P (λ s h, copy opt s.1 h) _ _ (λ _ _, True))| |].
  - intros s. apply copy_stable.
  - intros ?. exact (stable_const True).
  - intros [c1 o1]. simpl. apply (keeps_bind _ _ (λ r h, copy opt r.1.1 h)); [|intros r; apply copy_stable|].
    + eapply keeps_weaken; [apply keeps_post, (create_or_update_keeps (ccRule opt) (λ h, P h ∧ copy opt c1 h) c1 o1 _ mutated)| |].
      * done.
      * intros o. eapply mutateFn_keeps. intros h [[_ Hs] Hf]. by split.
      * intros r. apply stable_and; [apply copy_stable|apply stable_imp, legalRollout_stable].
      * intros s' o r h _ [_ Hl]. by apply Hl.
      * intros h Hh. exact Hh.
      * intros r h [[_ Hs] [[Hc|(o & e & [Hc _])] _]]; [by rewrite Hc|done].
    + intros r. apply keeps_ret. intros h [_ ?]. by split.
  - intros h Hh. split; [done|by apply HP].
  - by intros r h [? _].
Qed.

(** *** The rest *)

(** A part of a run leaves a cluster that may be written, and one that the run goes on
    with if there is no error. *)
Definition soundly {A} (r : MysqlCluster * result A) (h : list (event cc_op)) : Prop :=
  sound r.1 h ∧ (is_ok r.2 = true → copy opt r.1 h).

Lemma soundly_stable {A} (r : MysqlCluster * result A) : stable (soundly r).
Proof. apply stable_and; [apply sound_stable|apply stable_imp, copy_stable]. Qed.

Lemma copy_soundly {A} c (r : result A) h : copy opt c h → soundly (c, r) h.
Proof. intros Hc. split; [by eapply copy_sound|by intros _]. Qed.

Lemma andThen_keeps {A} P (m : prog cc_op (MysqlCluster * result unit)) (k : MysqlCluster → prog cc_op (MysqlCluster * result A)) :
  keeps P m soundly → (∀ c, keeps (λ h, P h ∧ copy opt c h) (k c) soundly) → keeps P (andThen m k) soundly.
Proof.
  intros Hm Hk. unfold andThen. eapply keeps_bind; [exact Hm|apply soundly_stable|].
  intros [c [u|e]].
  - eapply keeps_weaken; [apply Hk|intros h [? [_ Hc]]; split; [done|by apply Hc]|done].
  - apply keeps_ret. by intros h [_ [Hs _]].
Qed.

Lemma update_keeps P (c : MysqlCluster) (o : cc_op) : (o = CUpdate c ∨ o = CStatusUpdate c) → (∀ h, P h → sound c h) →
  ∀ k : Resp o → MysqlCluster * result unit,
  (∀ r h, Ev o r ∈ h → working opt (k r).1 h ∨ (k r).1 = c ∧ is_ok (k r).2 = false) →
  keeps P (r ← call o; mret (k r)) soundly.
Proof.
  intros Ho HP k Hk. eapply keeps_bind; [apply call_keeps|intros ?; apply stable_elem|].
  - intros r h Hh. destruct Ho as [->| ->]; by apply HP.
  - intros r. apply keeps_ret. intros h [Hh Hin]. unfold soundly.
    destruct (Hk r h Hin) as [Hw|[-> ->]]; [|by split; [apply HP|]].
    split; [by eapply working_sound|by intros _; apply working_copy].
Qed.

Lemma statusUpdate_keeps P c : (∀ h, P h → sound c h) → keeps P (statusUpdate c) soundly.
Proof.
  intros HP. apply (update_keeps P c (CStatusUpdate c)); [by right|done|]. intros r h Hin.
  destruct (r : result MysqlCluster) as [c'|e]; [left|by right]. right. right. by exists c.
Qed.

Lemma persist_keeps P c before : (∀ h, P h → copy opt c h) → keeps P (persistClusterAnnotations c before) soundly.
Proof.
  intros HP. unfold persistClusterAnnotations. case_bool_decide; [apply keeps_ret; intros h Hh; by apply copy_soundly, HP|].
  apply (update_keeps P c (CUpdate c)); [by left|intros h Hh; by eapply copy_sound, HP|]. intros r h Hin.
  destruct (r : result MysqlCluster) as [c'|e]; [left|by right]. right. left. by exists c.
Qed.

Lemma ret_keeps {A} P c (r : result A) : (∀ h, P h → copy opt c h) → keeps P (mret (c, r)) soundly.
Proof. intros HP. apply keeps_ret. intros h Hh. by apply copy_soundly, HP. Qed.

Lemma andRet_keeps P c (m : prog cc_op (result unit)) :
  (∀ h, P h → copy opt c h) → keeps P m (λ _ _, True) → keeps P (r ← m; mret (c, r)) soundly.
Proof. intros HP Hm. apply then_keeps; [exact Hm|]. intros r. by apply ret_keeps. Qed.

Lemma on_keeps {A} P c (m : prog cc_op (A * result unit)) :
  (∀ h, P h → copy opt c h) → keeps P m (λ _ _, True) → keeps P (on c m) soundly.
Proof. intros HP Hm. unfold on. apply then_keeps; [exact Hm|]. intros r. by apply ret_keeps. Qed.

Lemma syncRollout_keeps P cmRev sctRev c :
  (∀ h, P h → copy opt c h) → keeps P (syncStatefulSet opt cmRev sctRev c) soundly.
Proof.
  intros HP. eapply keeps_weaken; [by apply (syncStatefulSet_keeps P)|intros h Hh; exact Hh|].
  intros [c' r] h. apply copy_soundly.
Qed.

Lemma hold_keeps P c ann after : (∀ h, P h → copy opt c h) → keeps P (hold opt c ann after) soundly.
Proof.
  intros HP. unfold hold, syncRolloutHold. apply andThen_keeps.
  - apply then_keeps; [apply getStatefulSet_keeps|]. intros [sts|e]; [|by apply ret_keeps].
    apply then_keeps; [apply syncConfigMap_keeps|]. intros cm. destruct cm.2; [|by apply ret_keeps].
    apply then_keeps; [apply syncOperatedSecret_keeps|]. intros sct. destruct sct.2; [|by apply ret_keeps].
    by apply syncRollout_keeps.
  - intros c1. apply andThen_keeps; [apply persist_keeps; by intros h [_ ?]|].
    intros c2. apply ret_keeps. by intros h [_ ?].
Qed.

Lemma recordApplied_keeps P c : (∀ h, P h → copy opt c h) → keeps P (recordApplied c) soundly.
Proof.
  intros HP. unfold recordApplied. apply then_keeps; [apply getStatefulSet_keeps|].
  intros [[sts|]|e]; [|by apply ret_keeps..].
  apply then_keeps; [apply listPods_keeps|]. intros r. destruct (r : result (list Pod)) as [pods|e]; [|by apply ret_keeps].
  eapply keeps_bind; [apply SyncApplied_keeps; intros h Hh; by eapply copy_sound, HP| |].
  - intros a h e Ha v Hv. by apply sound_stable, Ha.
  - intros [v|]; [|apply ret_keeps; intros h [? _]; auto]. apply andThen_keeps.
    + apply statusUpdate_keeps. intros h [_ Hv]. by apply Hv.
    + intros c1. apply ret_keeps. by intros h [_ ?].
Qed.

Lemma syncAll_keeps P c : (∀ h, P h → copy opt c h ∧ checked opt h) → keeps P (syncAll opt c) soundly.
Proof.
  intros HP. assert (∀ h, P h → copy opt c h) as Hs by (intros h Hh; by apply HP).
  unfold syncAll. apply then_keeps; [apply getStatefulSet_keeps|]. intros [sts|e]; [|by apply ret_keeps].
  apply then_keeps; [apply syncConfigMap_keeps|]. intros cm. destruct cm.2; [|by apply ret_keeps].
  apply then_keeps; [apply syncOperatedSecret_keeps|]. intros sct. destruct sct.2; [|by apply ret_keeps].
  assert (∀ c', keeps (λ h, checked opt h ∧ copy opt c' h) (andThen (on c' (syncSecret c')) (λ c,
      andThen (on c (syncPure (newService c HeadlessSVC) HeadlessSVCSyncFn)) (λ c,
      andThen (on c (syncPure (newService c MasterService) (MasterSVCSyncFn c))) (λ c,
      andThen (on c (syncPure (newService c HealthyNodesService) (HealthySVCSyncFn c))) (λ c,
      andThen (on c (syncPure (newService c HealthyReplicasService) (HealthyReplicasSVCSyncFn c))) (λ c,
      let minAvailable := MinAvailable (cl_Spec c) in
      andThen (syncStatefulSet opt (cm_ResourceVersion cm.1) (sec_ResourceVersion sct.1) c) (λ c,
      andThen (if negb (String.length minAvailable =? 0)%nat then on c (syncPDB c) else mret (c, Ok tt)) (λ c,
      andThen (r ← syncPods c (getPodSyncers c); mret (c, r)) (λ c,
      andThen (r ← lift (ResizerRun c); mret (c, r)) (λ c,
      andThen (r ← lift (CleanerRun c); mret (c, r)) recordApplied)))))))))) soundly) as Hrest.
  2:{ eapply keeps_weaken; [apply (Hrest c)|intros h Hh; destruct (HP h Hh); by split|done]. }
  intros c'. clear HP Hs.
  (* each part, with what is known before it *)
  assert (∀ A (k : MysqlCluster → prog cc_op (MysqlCluster * result A)) m c,
    (∀ c, keeps (λ h, checked opt h ∧ copy opt c h) (k c) soundly) →
    keeps (λ h, checked opt h ∧ copy opt c h) m soundly → keeps (λ h, checked opt h ∧ copy opt c h) (andThen m k) soundly) as Hthen.
  { intros A k m c0 Hk Hm. apply andThen_keeps; [exact Hm|]. intros c1.
    eapply keeps_weaken; [apply Hk|by intros h [[? _] ?]|done]. }
  apply Hthen; [intros c1|apply on_keeps; [by intros h [_ ?]|apply syncSecret_keeps]].
  apply Hthen; [intros c2|apply on_keeps; [by intros h [_ ?]|apply syncService_keeps; by intros h [? _]]].
  apply Hthen; [intros c3|apply on_keeps; [by intros h [_ ?]|apply syncService_keeps; by intros h [? _]]].
  apply Hthen; [intros c4|apply on_keeps; [by intros h [_ ?]|apply syncService_keeps; by intros h [? _]]].
  apply Hthen; [intros c5|apply on_keeps; [by intros h [_ ?]|apply syncService_keeps; by intros h [? _]]].
  cbv zeta. apply Hthen; [intros c6|apply syncRollout_keeps; by intros h [_ ?]].
  apply Hthen; [intros c7|].
  2:{ destruct (negb _); [|apply ret_keeps; by intros h [_ ?]]. apply on_keeps; [by intros h [_ ?]|apply syncPDB_keeps; by intros h [? _]]. }
  apply Hthen; [intros c8|apply andRet_keeps; [by intros h [_ ?]|apply syncPods_keeps; by intros h [? _]]].
  apply Hthen; [intros c9|apply andRet_keeps; [by intros h [_ ?]|apply claims_keeps; [|by intros h [? _]]]].
  2:{ eexists. apply ResizerRun_keeps. }
  apply Hthen; [intros c10; apply recordApplied_keeps; by intros h [_ ?]|].
  apply andRet_keeps; [by intros h [_ ?]|]. apply claims_keeps; [|by intros h [? _]].
  eexists. apply emits_keeps_true, CleanerRun_emits.
Qed.

Lemma deferStatus_keeps P status m :
  keeps P m soundly → keeps P (deferStatus status m) (λ _ _, True).
Proof.
  intros Hm. unfold deferStatus. eapply keeps_bind; [exact Hm|apply soundly_stable|].
  intros [c r]. simpl. case_bool_decide; [by apply keeps_ret|].
  eapply keeps_bind; [apply (statusUpdate_keeps _ c); by intros h [_ [? _]]|apply soundly_stable|].
  intros ?. by apply keeps_ret.
Qed.

(** A part that ends the run, or goes on with the cluster that the run works on. *)
Definition decides {A} (X : list (event cc_op) → Prop) (r : MysqlCluster * option A) (h : list (event cc_op)) : Prop :=
  r.2 = None → working opt r.1 h ∧ X h.

Lemma decides_stable {A} X (r : MysqlCluster * option A) : stable X → stable (decides X r).
Proof. intros HX. apply stable_imp, stable_and; [apply working_stable|exact HX]. Qed.

Lemma some_keeps {A} P X (m : prog cc_op (MysqlCluster * result A)) :
  keeps P m soundly → keeps P (r ← m; mret (r.1, Some r.2)) (decides X).
Proof.
  intros Hm. eapply keeps_bind; [exact Hm|apply soundly_stable|]. intros r. by apply keeps_ret.
Qed.

Lemma backfill_keeps P c pods ann : (∀ h, P h → working opt c h) → keeps P (backfill opt c pods ann) (decides (λ _, True)).
Proof.
  intros HP. unfold backfill. destruct (negb _); [apply keeps_ret; intros h Hh _; by split; [apply HP|]|].
  eapply keeps_bind; [apply Backfill_keeps; intros h Hh; by eapply working_sound, HP| |].
  { intros r h e Hr c' b Hb. destruct (Hr c' b Hb) as [?|[? ?]]; [by left|right; split; [done|by apply sound_stable]]. }
  intros [[c1 [|]]|e].
  - assert (∀ h, P h ∧ (∀ c' b, Ok (c1, true) = Ok (c', b) → c' = c ∧ b = false ∨ b = true ∧ sound c' h) → sound c1 h) as Hc1.
    { intros h [_ Hr]. by destruct (Hr c1 true eq_refl) as [[_ ?]|[_ ?]]. }
    unfold statusUpdate. eapply keeps_bind.
    + eapply keeps_bind; [apply (call_keeps opt _ (CStatusUpdate c1)); intros r h Hh; exact (Hc1 h Hh)|intros ?; apply stable_elem|].
      intros r. apply (keeps_ret _ _ _ (λ r h, is_ok r.2 = true → working opt r.1 h)). intros h [_ Hin].
      destruct (r : result MysqlCluster) as [c2|e]; [|done]. intros _. right. right. by exists c1.
    + intros r. apply stable_imp, working_stable.
    + intros [c2 [u|e]]; apply keeps_ret; [|done]. intros h [_ Hw] _. by split; [apply Hw|].
  - apply keeps_ret. intros h [Hh Hr] _. destruct (Hr c1 false eq_refl) as [[-> _]|[? _]]; [by split; [apply HP|]|done].
  - destruct (IsHoldRollout e); [|by apply keeps_ret].
    apply some_keeps, hold_keeps. intros h [? _]. by apply working_copy, HP.
Qed.

Lemma checkUpgrade_keeps P now c ann :
  (∀ h, P h → working opt c h) → keeps P (checkUpgrade opt now c ann) (decides (checked opt)).
Proof.
  intros HP. assert (∀ h, P h → sound c h) as HS by (intros h Hh; by eapply working_sound, HP). unfold checkUpgrade.
  destruct (EnsureChecked c) as [[]|err] eqn:Ec.
  - apply keeps_ret. intros h Hh _. split; [by apply HP|]. exists c. split; [by apply HP|done].
  - destruct (IsHoldRollout err).
    + apply some_keeps, andThen_keeps; [|intros c1; apply hold_keeps; by intros h [_ ?]].
      destruct (upgradeBlocked c); [|apply ret_keeps; intros h Hh; by apply working_copy, HP].
      apply statusUpdate_keeps. intros h Hh. eapply sound_same; [apply UpdateStatusCondition_copy|by apply HS].
    + apply then_keeps; [by apply (keeps_call _ _ (CEvent _ _ _))|]. intros _. apply some_keeps, andThen_keeps.
      * apply statusUpdate_keeps. intros h Hh. eapply sound_same; [apply UpdateStatusCondition_copy|by apply HS].
      * intros c1. destruct (IsUpgradeBlocked err); [apply hold_keeps|apply ret_keeps]; by intros h [_ ?].
Qed.

Lemma reconcileDefaulted_keeps P now c :
  (∀ h, P h → working opt c h) → keeps P (reconcileDefaulted opt now c) (λ _ _, True).
Proof.
  intros HP. unfold reconcileDefaulted. cbv zeta. apply then_keeps; [apply listPods_keeps|].
  intros r. destruct (r : result (list Pod)) as [pods|e]; [|by apply keeps_ret].
  eapply keeps_bind; [by apply backfill_keeps|intros ?; apply decides_stable; exact (stable_const True)|].
  intros [c1 [?|]]; [by apply keeps_ret|].
  eapply keeps_bind; [apply checkUpgrade_keeps; intros h [_ Hw]; by apply Hw|intros ?; apply decides_stable, checked_stable|].
  intros [c2 [?|]]; [by apply keeps_ret|].
  eapply keeps_bind; [apply persist_keeps|apply soundly_stable|].
  { intros h [_ Hc]. destruct (Hc eq_refl) as [Hw _]. exists c2. split; [done|]. by constructor; constructor. }
  intros [c3 [[]|e]]; [|by apply keeps_ret]. apply deferStatus_keeps, syncAll_keeps.
  intros h [[_ Hc] [_ Hs]]. split; [by apply Hs|by apply Hc].
Qed.

(** The cluster that was read, before its defaults. *)
Definition was_read (c : MysqlCluster) (h : list (event cc_op)) : Prop :=
  (∃ ns name, Ev (CGetCluster ns name) (Ok c) ∈ h) ∨ (∃ u, Ev (CUpgrade (UUpdateCluster u)) (Ok c) ∈ h).

Lemma was_read_stable c : stable (was_read c).
Proof. unfold was_read. auto 10 with stable. Qed.

Lemma was_read_sound c h : was_read c h → sound c h.
Proof. intros Hr. apply gave_sound. destruct Hr as [?|?]; [by left|by right; right; right]. Qed.

Lemma ReconcileCluster_keeps now ns name : keeps (λ _, True) (ReconcileCluster opt now ns name) (λ _ _, True).
Proof.
  unfold ReconcileCluster. eapply keeps_bind; [by apply (call_keeps opt _ (CGetCluster ns name))|intros ?; apply stable_elem|].
  intros r. destruct (r : result MysqlCluster) as [c|e]; [|by apply keeps_ret].
  eapply (keeps_bind _ _ (λ r h, r.2 = Ok tt → was_read r.1 h)); [|intros r'; apply stable_imp, was_read_stable|].
  { destruct (ShouldUpdate c) eqn:Eu.
    - apply Upgrader_keeps. intros h [_ Hin]. split; [by exists ns, name|done].
    - apply keeps_ret. intros h [_ Hin] _. left. by exists ns, name. }
  intros [c1 [[]|e]]; [|by apply keeps_ret]. cbv zeta.
  set (Q := λ h, (True ∧ Ev (CGetCluster ns name) (Ok c) ∈ h) ∧ ((c1, Ok tt).2 = Ok tt → was_read (c1, Ok tt).1 h)).
  assert (∀ h, Q h → was_read c1 h) as Hread by (intros h [_ Hs]; by apply Hs).
  assert (∀ h, Q h → sound (UpdateSpec c1) h) as HQ.
  { intros h Hh. eapply sound_same; [apply UpdateSpec_same|by apply was_read_sound, Hread]. }
  destruct (negb (String.eqb _ _)).
  { apply then_keeps; [|intros r'; by apply keeps_ret].
    eapply keeps_weaken; [apply (call_keeps opt _ (CUpdate (UpdateSpec c1)))|intros h Hh; exact Hh|done].
    intros r' h Hh. exact (HQ h Hh). }
  set (c2 := UpdateSpec c1) in *. set (inProgress := match _ with Some _ => _ | None => _ end).
  assert (∀ replicas, keeps Q (if inProgress && (default 0 replicas =? 0)%Z && (ReadyNodes (cl_Status c2) =? 0)%Z then
      r ← statusUpdate (UpdateStatusCondition now ClusterConditionFailoverInProgress ConditionFalse
            "ClusterNotRunning" "cluster is not running" c2);
      mret match r.2 with Err e => Err e | Ok _ => Ok noRequeue end
    else match SetDefaults opt (SetDefaults_MysqlCluster c2) with
         | None => mret (Err nilDeref)
         | Some c => match Validate c with Err e => mret (Err e) | Ok _ => reconcileDefaulted opt now c end
         end) (λ _ _, True)) as Hmain.
  { intros replicas. destruct (_ && _).
    - eapply keeps_bind; [apply statusUpdate_keeps|apply soundly_stable|intros ?; by apply keeps_ret].
      intros h Hh. eapply sound_same; [apply UpdateStatusCondition_copy|by apply HQ].
    - destruct (SetDefaults opt (SetDefaults_MysqlCluster c2)) as [c3|] eqn:Ed; [|by apply keeps_ret].
      destruct (Validate c3); [|by apply keeps_ret]. apply reconcileDefaulted_keeps. intros h Hh.
      left. exists c1. split; [by apply Hread|done]. }
  destruct inProgress, (Replicas (cl_Spec c2)) as [n|]; [|by apply keeps_ret|..].
  - apply (Hmain (Some n)).
  - apply (Hmain (Some n)).
  - apply (Hmain None).
Qed.

(** C5. A run of the cluster controller, whatever the API server, Orchestrator and the
    servers answer.  The stateful set is only given what the callback makes of the one
    that was read, with a version that is a legal step from the applied version, and
    while that is not known, the version that it runs already; the cluster from which
    the version is taken is the one that was read with its defaults set, or the answer
    to a write, in all its parts, with only the condition and the ready pods of the
    stateful set changed in between.  The version and the image that are written are
    those of the API server, and the applied version that is written is the one of the
    same answer or one that a server of the data plane reported.  Services, pods, volume
    claims and the disruption budget are touched only after [EnsureChecked] accepted
    the change of version of that cluster.  And an old cluster is upgraded only if it
    was read as such. *)
Theorem ReconcileCluster_order (now : Z) (ns name : string) (w : world cc_op) :
  guarded (ccRule opt) (trace (ReconcileCluster opt now ns name) w).
Proof. exact (proj1 (keeps_run _ _ _ w (ReconcileCluster_keeps now ns name))). Qed.

End Run.

(** *** A panic *)

(** A cluster that gives no number of replicas ends the run with a nil dereference
    while its condition [FailoverInProgress] is true: the number is read before the
    defaults are set. *)
Lemma ReconcileCluster_nil_replicas `{!Blang, !Process, !Resource, !ResourceAccess, !PodDefaults, !IniLib, !IntStr,
    !ControllerRef, !ObjectSyncer cc_op ConfigMapObject, !ObjectSyncer cc_op SecretObject, !ObjectSyncer cc_op Service,
    !ObjectSyncer cc_op PDB, !ObjectSyncer cc_op Pod, !CreateOrUpdate cc_op StatefulSet MysqlCluster,
    !RetryOnConflict cc_op (MysqlCluster * StatefulSet)} opt now ns name (w : world cc_op) c cond :
  w [] (CGetCluster ns name) = Ok c → ShouldUpdate c = false →
  InitBucketURL (cl_Spec (UpdateSpec c)) = InitBucketURL (cl_Spec c) →
  Replicas (cl_Spec c) = None →
  GetClusterCondition c ClusterConditionFailoverInProgress = Some cond → cc_Status cond = ConditionTrue →
  run (ReconcileCluster opt now ns name) w = Err nilDeref.
Proof.
  intros Hw Hu Hi Hr Hf Hs. unfold run, ReconcileCluster, mbind, prog_bind, call. cbn [fst snd]. rewrite Hw, Hu.
  cbn [fst snd mret prog_ret]. cbv zeta. rewrite Hi, String.eqb_refl. cbn [negb].
  assert (GetClusterCondition (UpdateSpec c) ClusterConditionFailoverInProgress = Some cond) as ->.
  { rewrite <-Hf. unfold UpdateSpec. cbv zeta. by destruct (_ =? 0)%nat. }
  assert (Replicas (cl_Spec (UpdateSpec c)) = None) as ->.
  { rewrite <-Hr. unfold UpdateSpec. cbv zeta. by destruct (_ =? 0)%nat. }
  rewrite Hs. done.
Qed.

(** ** Examples *)

Module RefControllerRef.
#[export] Instance owner : ControllerRef := λ c s, Ok (s {{ sts_Meta -> om_Labels := om_Labels (cl_Meta c) }}).
#[export] Instance owner_laws : ControllerRefLaws.
Proof. by intros c s s' [= <-]. Qed.
End RefControllerRef.

Section Witnesses.
#[local] Existing Instances Ref.blang Ref.blang_laws sampleProcess RefResource.resource RefResource.access
  RefPodDefaults.pod_defaults RefPodDefaults.pod_defaults_laws RefIni.lib RefIni.int_str
  RefControllerRef.owner RefControllerRef.owner_laws RefSyncer.syncer RefSyncer.syncer_laws
  RefSyncer.creator RefSyncer.creator_laws RefSyncer.retry RefSyncer.retry_laws.

(** The API server has a cluster that was asked to run [version] and runs 5.7.35; it
    takes every write. *)
Definition sampleCluster (version : string) : MysqlCluster :=
  annotated (Sample.cluster version "5.7.35").

Definition sampleSync {A} (o : sync_op A) : result A :=
  match o with SyncFetch a | SyncPersist a => Ok a end.

Definition sampleClusterWorld (version : string) : world cc_op := λ _ o,
  match o return Resp o with
  | CGetCluster _ _ => Ok (sampleCluster version)
  | CUpdate c | CStatusUpdate c => Ok c
  | CListPods _ _ => Ok samplePods
  | CEvent _ _ _ => tt
  | CVersion o => sampleWorld "5.7.35-log" [] o
  | CUpgrade o => sampleUpgradeWorld [] o
  | CPVC (ListPVCs _ _) => Ok []
  | CPVC (DeletePVC _) => Ok tt
  | CPVC (PatchPVC _ _) => Ok tt
  | CPVC ListStorageClasses => Ok []
  | CPVC (GetStorageClass _) => Err (ErrAPI true "StorageClass" "not found")
  | CPVC (PVCEvent _ _ _) => tt
  | CRand _ => Ok "password"
  | CConfigMap o => sampleSync o
  | CSecret (SyncFetch s) | CSecret (SyncPersist s) =>
      Ok (s {{ sec_Data ::= λ m, <["ROOT_PASSWORD" := "secret"]> m }})
  | CService o => sampleSync o
  | CStatefulSet (SyncFetch _) => Ok (Sample.statefulSet "5.7.35" 3)
  | CStatefulSet (SyncPersist s) => Ok s
  | CPDB o => sampleSync o
  | CPod o => sampleSync o
  end.

Definition rolledTo (h : list (event cc_op)) : list string :=
  omap (λ e, match ev_op e with CStatefulSet (SyncPersist s) => Some (VString (SemVerFromStatefulSet (Some s))) | _ => None end) h.

Definition touched (h : list (event cc_op)) : nat :=
  length (List.filter (λ e, match ev_op e with CService (SyncPersist _) | CPDB (SyncPersist _) => true | _ => false end) h).

(** The same API server, with a given cluster and stateful set. *)
Definition settledWorld (c : MysqlCluster) (sts : StatefulSet) : world cc_op := λ h o,
  match o return Resp o → Resp o with
  | CGetCluster _ _ => λ _, Ok c
  | CStatefulSet (SyncFetch _) => λ _, Ok sts
  | _ => λ r, r
  end (sampleClusterWorld "8.0" h o).

Definition statusWrites (h : list (event cc_op)) : list string :=
  omap (λ e, match ev_op e with CStatusUpdate c => Some (AppliedMysqlVersion (cl_Status c)) | _ => None end) h.

(** The condition [UpgradeBlocked] of a cluster whose specification was corrected is
    cleared in memory only: the status is compared with a copy that was taken after
    the condition was cleared, and is not written. *)
Lemma UpgradeBlocked_stays :
  let c := UpdateStatusCondition 0 ClusterConditionUpgradeBlocked ConditionTrue "MySQLVersionUpgradeBlocked" "no"
             (annotated (Sample.cluster "8.0" "8.0.20")) in
  let w := settledWorld c (Sample.statefulSet "8.0.20" 3) in
  upgradeBlocked c = true ∧ run (ReconcileCluster sampleOptions 0 "prod" "demo") w = Ok noRequeue ∧
  touched (trace (ReconcileCluster sampleOptions 0 "prod" "demo") w) = 5%nat ∧
  statusWrites (trace (ReconcileCluster sampleOptions 0 "prod" "demo") w) = [].
Proof. cbv zeta. split; [|split; [|split]]; vm_compute; reflexivity. Qed.

(** From 5.7 the cluster may go to 8.0, and then to 8.4, but not at once: the second
    run leaves the services alone and looks again after half a minute. *)
Lemma ReconcileCluster_order_witness :
  let t version := trace (ReconcileCluster sampleOptions 0 "prod" "demo") (sampleClusterWorld version) in
  (rolledTo (t "8.0") = ["8.0.20"] ∧ touched (t "8.0") = 5%nat ∧ guarded (ccRule sampleOptions) (t "8.0")) ∧
  rolledTo (t "8.4") = ["5.7.35"] ∧ touched (t "8.4") = 0%nat ∧ guarded (ccRule sampleOptions) (t "8.4") ∧
  run (ReconcileCluster sampleOptions 0 "prod" "demo") (sampleClusterWorld "8.4") = Ok (mkResult false (30 * second)).
Proof.
  cbv zeta. split; [split; [|split]|split; [|split; [|split]]].
  - vm_compute. reflexivity.
  - vm_compute. reflexivity.
  - exact (ReconcileCluster_order sampleOptions 0 "prod" "demo" (sampleClusterWorld "8.0")).
  - vm_compute. reflexivity.
  - vm_compute. reflexivity.
  - exact (ReconcileCluster_order sampleOptions 0 "prod" "demo" (sampleClusterWorld "8.4")).
  - vm_compute. reflexivity.
Defined.

End Witnesses.
