(* ===== verification/UpgradeProtocol.v ===== *)
(** * Version upgrades as a protocol

    The user, the cluster controller, the stateful set and the pods change the
    version of a cluster together, each on its own time: the controller works on a
    copy of the cluster, the stateful set restarts the pods one by one, the user may
    change the specification at any time.  The controller's part is that of
    [VersionUpgrade] and [StatefulSet]; the rest is an environment that may do what
    Kubernetes allows.

    [ReconcileCluster_keeps_protocol] ties the protocol to the code: the writes of a
    whole run of the controller, whatever the rest answers, are steps of it.

    What counts is the history of each data directory: mysqld can upgrade the data
    of the version before, but not of an older line, and can never go back.  Which
    mysqld runs is a matter of the image of the pod, not of the version that the
    stateful set says it asks for; which version an image has is a parameter, for the
    operator does not know it. *)

From S2P Require Import Prelude GoStrings Semver ClusterTypes Versioning ClusterStatus ClusterModel.
From S2P Require Import ClusterDefaults VersionUpgrade StatefulSet KubeSync Syncers IniFile ConfigMap GoTime OrcReconcile.
From S2P Require Import Upgrades PVCs MysqlObjects UserController ClusterController ClusterOrder.
From Stdlib Require Import Sorting.Sorted.
From coqutil Require Import Datatypes.RecordSetters.
Import DoubleBraceUpdate.
Open Scope stdpp_scope.

(** ** The state *)

(** A pod and the versions of mysqld that ran on its data, the last one first. *)
Record member := mkMember { m_Pod : Pod; m_History : list Version }.

(** The cluster as it is stored, with its resource version; the stateful set; the
    pods; and the copy that a run of the controller works on, with the resource
    version that it was read at. *)
Record state := mkState {
  s_Cluster : MysqlCluster;
  s_Rev : nat;
  s_StatefulSet : option StatefulSet;
  s_Members : list member;
  s_Run : option (MysqlCluster * nat) }.

(** The version of mysqld in an image. *)
Class Images := image_version : string → Version.

Section Protocol.
Context `{!Blang, !Process, !Resource, !ResourceAccess, !PodDefaults, !Images} (opt : Options).

(** A version that parses, with the range of integers of the parser. *)
Definition readable (c : MysqlCluster) : Prop :=
  version_fits (ClusterDesiredVersion c) ∧ ClusterDesiredVersion c ≠ Zero.

(** The version that the stateful set asks for. *)
Definition template (st : state) : Version := SemVerFromStatefulSet (s_StatefulSet st).

Definition applied (st : state) : Version := AppliedDataPlaneVersion (s_Cluster st).

(** Where a copy of the cluster takes the stateful set, if it does not stay. *)
Definition goal (c : MysqlCluster) : Version := RolloutMySQLVersion c None.

(** The image for this version has this version in it. *)
Definition faithful (c : MysqlCluster) : Prop :=
  image_version (serverImageForVersion opt c (goal c)) = goal c.

Definition versioned (c : MysqlCluster) : Prop :=
  version_fits (ClusterDesiredVersion c) ∧ ClusterDesiredVersion c ≠ Zero ∧ faithful c.

(** mysqld on a ready pod runs the last version of the pod's history, and says so
    when it answers. *)
Definition answers (w : world vu_op) (ns : string) (ms : list member) : Prop :=
  ∀ m, m ∈ ms → podMysqlReady (m_Pod m) = true →
    ∃ v older, m_History m = v :: older ∧
      ∀ user password h raw,
        w h (VQueryVersion user password (mysqldHost (m_Pod m) "mysql" ns)) = Ok raw → ParseServerVersion raw = Ok v.

(** A step of the controller, of the user (when [may] allows the change), of Kubernetes, or of
    another controller.  A write of the controller is refused when the cluster was
    changed since it was read; a write of the status changes the status only. *)
Inductive step (may : state → MysqlCluster → Prop) : state → state → Prop :=
  (** the user changes the specification *)
  | step_edit c rev sts ms run c' :
      may (mkState c rev sts ms run) c' → cl_Status c' = cl_Status c → readable c' →
      step may (mkState c rev sts ms run) (mkState c' (S rev) sts ms run)
  (** someone changes the rest of the cluster *)
  | step_others c rev sts ms run c' :
      sameVersions c' c → step may (mkState c rev sts ms run) (mkState c' (S rev) sts ms run)
  (** a run begins *)
  | step_read c rev sts ms l :
      SetDefaults opt (SetDefaults_MysqlCluster c) = Some l → Validate l = Ok tt →
      step may (mkState c rev sts ms None) (mkState c rev sts ms (Some (l, rev)))
  (** it writes conditions or annotations *)
  | step_write c rev sts ms l c' :
      sameVersions c' c → step may (mkState c rev sts ms (Some (l, rev))) (mkState c' (S rev) sts ms (Some (c', S rev)))
  (** it records the version of a data plane that was set up before *)
  | step_backfill c rev sts ms l w l' :
      answers w (cl_Namespace l) ms →
      run (BackfillAppliedVersion l (m_Pod <$> ms)) w = Ok (l', true) →
      let c' := with_Status (cl_Status l') c in
      step may (mkState c rev sts ms (Some (l, rev))) (mkState c' (S rev) sts ms (Some (c', S rev)))
  (** it brings the stateful set in step *)
  | step_sync c rev sts ms l lrev cmRev sctRev s' :
      let r := SyncFn opt cmRev sctRev l (default (newStatefulSet l) sts) in
      sts_Template s' = sts_Template r.2 →
      step may (mkState c rev sts ms (Some (l, lrev))) (mkState c rev (Some s') ms (Some (r.1, lrev)))
  (** it records that the rollout is complete; the claims of pods that the cluster no
      longer has are deleted by then *)
  | step_record c rev s ms l w v :
      (AppliedDataPlaneVersion l ≠ Zero → EnsureChecked l = Ok tt) →
      answers w (cl_Namespace l) ms →
      (sts_ReadyReplicas s ≤ Z.of_nat (length (readyMysqlPods (m_Pod <$> ms))))%Z →
      (∀ n, Replicas (cl_Spec l) = Some n → (Z.of_nat (length ms) ≤ n)%Z) →
      run (SyncAppliedVersion l (Some s) (m_Pod <$> ms)) w = Some v →
      let c' := with_Status (cl_Status (MarkAppliedVersion l v)) c in
      step may (mkState c rev (Some s) ms (Some (l, rev))) (mkState c' (S rev) (Some s) ms (Some (c', S rev)))
  (** it ends *)
  | step_end c rev sts ms run : step may (mkState c rev sts ms run) (mkState c rev sts ms None)
  (** the status of the stateful set changes *)
  | step_status c rev s s' ms run :
      sts_Template s' = sts_Template s → step may (mkState c rev (Some s) ms run) (mkState c rev (Some s') ms run)
  (** mysqld starts on a pod: the one in the image of the stateful set, or, on a pod that
      was not replaced yet, the last one *)
  | step_start c rev sts ms m pod ms' run v :
      v ≠ Zero → (∃ s, sts = Some s ∧ v = image_version (mysqlImage s)) ∨ head (m_History m) = Some v →
      step may (mkState c rev sts (ms ++ m :: ms') run)
        (mkState c rev sts (ms ++ mkMember pod (v :: m_History m) :: ms') run)
  (** pods get ready, or are lost *)
  | step_pods c rev sts ms ms' run :
      m_History <$> ms' = m_History <$> ms → step may (mkState c rev sts ms run) (mkState c rev sts ms' run)
  (** a pod comes, with no data or with the data of another one *)
  | step_up c rev sts ms m run :
      m_History m = [] ∨ (∃ m', m' ∈ ms ∧ m_History m = m_History m') →
      step may (mkState c rev sts ms run) (mkState c rev sts (ms ++ [m]) run)
  (** a pod goes, with its data *)
  | step_down c rev sts ms m ms' run :
      step may (mkState c rev sts (ms ++ m :: ms') run) (mkState c rev sts (ms ++ ms') run).

(** A new cluster. *)
Definition initial (st : state) : Prop :=
  ∃ c, st = mkState c 0 None [] None ∧ AppliedDataPlaneVersion c = Zero ∧ versioned c.

(** No upgrade is under way: the stateful set asks for the applied version, all data
    is of that version, and the run in progress takes nothing further.  Or nothing was
    ever started. *)
Definition settled (st : state) : Prop :=
  (applied st ≠ Zero ∧ template st = applied st ∧
   Forall (λ m, head (m_History m) = None ∨ head (m_History m) = Some (applied st)) (s_Members st) ∧
   ∀ l lrev, s_Run st = Some (l, lrev) → goal l = applied st) ∨
  (applied st = Zero ∧ template st = Zero ∧ Forall (λ m, m_History m = []) (s_Members st) ∧ s_Run st = None).

(** A user who asks for another version only while no upgrade is under way, and does
    not ask for a version with the image of another one. *)
Definition careful (st : state) (c : MysqlCluster) : Prop := settled st ∧ faithful c.

(** The data of a version can be upgraded to the next one. *)
Definition upgrades (new old : Version) : Prop := ValidateUpgradePath old new = Ok tt.

Definition reachable (may : state → MysqlCluster → Prop) (st : state) : Prop := ∃ st0, initial st0 ∧ rtc (step may) st0 st.

End Protocol.

(** ** The controller keeps to the protocol *)

Section Controller.
Context `{!Blang, !BlangLaws, !Process, !Resource, !ResourceAccess, !PodDefaults, !PodDefaultsLaws, !IniLib, !IntStr}.
Context `{!ControllerRef, !ControllerRefLaws}.
Context `{!ObjectSyncer cc_op ConfigMapObject, !ObjectSyncer cc_op SecretObject, !ObjectSyncer cc_op Service,
          !ObjectSyncer cc_op PDB, !ObjectSyncer cc_op Pod}.
Context `{!ObjectSyncerLaws cc_op ConfigMapObject, !ObjectSyncerLaws cc_op SecretObject,
          !ObjectSyncerLaws cc_op Service, !ObjectSyncerLaws cc_op PDB, !ObjectSyncerLaws cc_op Pod}.
Context `{!CreateOrUpdate cc_op StatefulSet MysqlCluster, !RetryOnConflict cc_op (MysqlCluster * StatefulSet)}.
Context `{!CreateOrUpdateLaws cc_op StatefulSet MysqlCluster, !RetryOnConflictLaws cc_op (MysqlCluster * StatefulSet)}.
Context `{!Images} (opt : Options).

(** A write of a run is a step of the protocol: one of the stateful set is [step_sync]
    of a copy that the run was given, on the stateful set that it read; one of the
    cluster keeps the versions of a copy that it was given ([step_write]), or records
    a version that a server reported ([step_backfill], [step_record]). *)
Definition protocolWrite (e : event cc_op) (h : list (event cc_op)) : Prop :=
  match ev_op e with
  | CStatefulSet (SyncPersist sts) =>
      ∃ l out key, copy opt l h ∧ fetched (Op := cc_op) key out h ∧
        ∀ may c rev ms lrev, ∃ l', sameVersions l' l ∧
          step opt may (mkState c rev (Some out) ms (Some (l, lrev))) (mkState c rev (Some sts) ms (Some (l', lrev)))
  | CUpdate c | CStatusUpdate c =>
      ∃ c0, gave c0 h ∧ sameDesired c c0 ∧
        (sameVersions c c0 ∨ ∃ v, AppliedMysqlVersion (cl_Status c) = VString v ∧ asked v h)
  | _ => True
  end.

Lemma allowed_writes e h : ccRule opt e h → protocolWrite e h.
Proof.
  unfold ccRule, protocolWrite.
  assert (∀ c, sound c h → ∃ c0, gave c0 h ∧ sameDesired c c0 ∧
    (sameVersions c c0 ∨ ∃ v, AppliedMysqlVersion (cl_Status c) = VString v ∧ asked v h)) as Hs.
  { intros c (c0 & Hg & Hd & Ha). exists c0. split; [done|]. split; [exact Hd|]. destruct Ha as [Ha|?]; [left|by right].
    destruct Hd as [Hd Hi]. split; [exact Hd|]. split; [|exact Hi]. unfold AppliedDataPlaneVersion. by rewrite Ha. }
  destruct (ev_op e) as [| | | | | | | | | | | |o| |]; try done; try apply Hs.
  destruct o as [|sts]; [done|]. intros (l & out & key & Hl & Hf & (cmRev & sctRev & Ht) & _).
  exists l, out, key. split; [done|]. split; [done|]. intros may c rev ms lrev.
  exists (SyncFn opt cmRev sctRev l out).1. split; [by split|].
  apply (step_sync opt may c rev (Some out) ms l lrev cmRev sctRev sts Ht).
Qed.

Theorem ReconcileCluster_keeps_protocol (now : Z) (ns name : string) (w : world cc_op) :
  guarded protocolWrite (trace (ReconcileCluster opt now ns name) w).
Proof.
  pose proof (proj1 (keeps_run _ _ _ w (ReconcileCluster_keeps opt now ns name))) as Hg.
  intros h e t E. apply allowed_writes. by apply (Hg h e t).
Qed.

End Controller.

(** ** The versions of a copy *)

Section Versions.
Context `{!Blang, !BlangLaws, !Process, !Resource, !ResourceAccess, !PodDefaults, !PodDefaultsLaws, !Images} (opt : Options).
Implicit Types (c l : MysqlCluster) (st : state).

Lemma goal_unknown c : AppliedDataPlaneVersion c = Zero → goal c = ClusterDesiredVersion c.
Proof. intros Ha. unfold goal. rewrite Rollout_unknown, IsZero_bool, bool_decide_true by done. by rewrite andb_false_r. Qed.

Lemma goal_known c : AppliedDataPlaneVersion c ≠ Zero →
  goal c = if is_ok (ValidateUpgradePath (AppliedDataPlaneVersion c) (ClusterDesiredVersion c))
           then ClusterDesiredVersion c else AppliedDataPlaneVersion c.
Proof. intros Ha. unfold goal. by rewrite Rollout_applied. Qed.

Lemma goal_same c c' : sameVersions c c' → goal c = goal c'.
Proof.
  intros (Hd & Ha & _). destruct (decide (AppliedDataPlaneVersion c = Zero)) as [Hz|Hz].
  - rewrite !goal_unknown by congruence. done.
  - rewrite (goal_known c), (goal_known c') by congruence. by rewrite Hd, Ha.
Qed.

Lemma serverImage_same c c' v : sameVersions c c' → serverImageForVersion opt c v = serverImageForVersion opt c' v.
Proof.
  intros (Hd & _ & Hi). unfold serverImageForVersion, GetMysqlImage, ServerImage, ResolverServerImage. by rewrite Hd, Hi.
Qed.

Lemma upgrade_refl v : ValidateUpgradePath v v = Ok tt.
Proof. apply ValidateUpgradePath_iff. split; [apply version_lt_irrefl|by left]. Qed.

Lemma goal_legal c : AppliedDataPlaneVersion c ≠ Zero → ValidateUpgradePath (AppliedDataPlaneVersion c) (goal c) = Ok tt.
Proof.
  intros Ha. rewrite goal_known by done.
  destruct (ValidateUpgradePath _ (ClusterDesiredVersion c)) as [[]|e] eqn:E; simpl; [done|apply upgrade_refl].
Qed.

(** The stateful set is taken to the goal, or left where it is. *)
Lemma rollout_goal c sts :
  RolloutMySQLVersion c sts = goal c ∨
  (AppliedDataPlaneVersion c = Zero ∧ RolloutMySQLVersion c sts = SemVerFromStatefulSet sts ∧
   SemVerFromStatefulSet sts ≠ Zero).
Proof.
  destruct (decide (AppliedDataPlaneVersion c = Zero)) as [Hz|Hz].
  - rewrite Rollout_unknown, goal_unknown, IsZero_bool by done.
    destruct (ClusterHasMySQLData c); simpl; [|by left]. case_bool_decide; simpl; [by left|]. by right.
  - left. by rewrite Rollout_applied, goal_known.
Qed.

Lemma Applied_marked v : version_fits v → AppliedDataPlaneVersionOf (VString v) = v.
Proof.
  intros Hv. unfold AppliedDataPlaneVersionOf. destruct (String.eqb_spec (VString v) "") as [E|_].
  { by apply VString_nonempty in E. }
  by rewrite Parse_VString.
Qed.

End Versions.

(** ** What is observed *)

Section Observed.
Context `{!Blang, !BlangLaws, !Process}.
Implicit Types (ms : list member) (w : world vu_op).

Lemma ready_members ms : readyMysqlPods (m_Pod <$> ms) = m_Pod <$> List.filter (λ m, podMysqlReady (m_Pod m)) ms.
Proof.
  unfold readyMysqlPods. induction ms as [|m ms IH]; [done|]. rewrite fmap_cons. simpl.
  destruct (podMysqlReady (m_Pod m)); [|done]. by rewrite IH.
Qed.

(** What is observed on pods that run versions is the version of each. *)
Lemma observePods_members user password ns o ms w h v :
  (∀ m, m ∈ ms → ∃ x older, m_History m = x :: older ∧ x ≠ Zero ∧ ∀ h raw,
     w h (VQueryVersion user password (mysqldHost (m_Pod m) "mysql" ns)) = Ok raw → ParseServerVersion raw = Ok x) →
  (observePods user password "mysql" ns o (m_Pod <$> ms) w h).1 = Ok v →
  (o = Zero ∨ v = o) ∧ ∀ m, m ∈ ms → head (m_History m) = Some v.
Proof.
  revert o h. induction ms as [|m ms IH]; intros o h Hms.
  { intros [= <-]. split; [by right|]. by intros m ?%not_elem_of_nil. }
  rewrite fmap_cons. cbn [observePods]. unfold mbind, prog_bind, call. cbn [fst snd].
  destruct (Hms m) as (x & older & Hm & Hx & Hw); [by left|].
  destruct (w h _) as [raw|e] eqn:Eraw; [|done]. rewrite (Hw _ _ Eraw), IsZero_bool, EQ_bool.
  assert (∀ o' h', (observePods user password "mysql" ns o' (m_Pod <$> ms) w h').1 = Ok v → o' = x →
    (o = Zero ∨ o = x) → (o = Zero ∨ v = o) ∧ ∀ m', m' ∈ m :: ms → head (m_History m') = Some v) as Hgo.
  { intros o' h' Ho -> Hor. destruct (IH x h') as [[?| ->] Hall]; [|done..|].
    - intros m' Hm'. apply Hms. by right.
    - split; [naive_solver|]. intros m' [->|Hm']%elem_of_cons; [by rewrite Hm|by apply Hall]. }
  case_bool_decide as Hz; [intros Ho; apply (Hgo _ _ Ho); auto|].
  case_bool_decide as He; [|done]. simpl. intros Ho. by apply (Hgo _ _ Ho); auto.
Qed.

Lemma Observe_members c ms w v :
  answers w (cl_Namespace c) ms → Forall (λ m, Zero ∉ m_History m) ms →
  run (ObserveDataPlaneVersionSQL c (m_Pod <$> ms)) w = Ok v →
  (∃ m, m ∈ ms ∧ podMysqlReady (m_Pod m) = true) ∧
  ∀ m, m ∈ ms → podMysqlReady (m_Pod m) = true → head (m_History m) = Some v.
Proof.
  intros Hans Hnz. unfold run, ObserveDataPlaneVersionSQL. rewrite ready_members.
  set (rs := List.filter _ ms).
  assert (∀ m, m ∈ rs ↔ m ∈ ms ∧ podMysqlReady (m_Pod m) = true) as Hrs.
  { intros m. unfold rs. rewrite !list_elem_of_In. apply filter_In. }
  destruct rs as [|m0 rs'] eqn:Ers; [done|]. rewrite fmap_cons. cbn [length Nat.eqb].
  unfold try, mbind, prog_bind, mret, prog_ret.
  destruct (operatorSQLCredentials c w []) as [[[user password]|e] h]; cbn [fst snd]; [|done].
  intros Ho. assert (m_Pod m0 :: (m_Pod <$> rs') = m_Pod <$> m0 :: rs') as E by done.
  change (GetNameForResource HeadlessSVC (cl_Name c)) with "mysql" in Ho. rewrite E in Ho.
  apply observePods_members in Ho as [_ Hall].
  - split; [exists m0; apply Hrs; by left|]. intros m Hm Hr. apply Hall, Hrs. done.
  - intros m [Hm Hr]%Hrs. destruct (Hans m Hm Hr) as (x & older & Hh & Hw). exists x, older. split_and!; [done| |].
    + rewrite Forall_forall in Hnz. specialize (Hnz m Hm). rewrite Hh in Hnz. intros ->. apply Hnz. by left.
    + intros h' raw. apply Hw.
Qed.

Lemma filter_full {A} (f : A → bool) (l : list A) : (length l ≤ length (List.filter f l))%nat → ∀ x, x ∈ l → f x = true.
Proof.
  induction l as [|y l IH]; intros Hl x Hx; [by apply not_elem_of_nil in Hx|].
  pose proof (filter_length_le f l) as Hle. simpl in Hl. destruct (f y) eqn:E; simpl in Hl; [|lia].
  apply elem_of_cons in Hx as [->|Hx]; [done|]. apply IH; [lia|done].
Qed.

(** A complete rollout is one of every pod. *)
Lemma Complete_members c s ms :
  RolloutComplete c (Some s) (m_Pod <$> ms) = true →
  (sts_ReadyReplicas s ≤ Z.of_nat (length (readyMysqlPods (m_Pod <$> ms))))%Z →
  (∀ n, Replicas (cl_Spec c) = Some n → (Z.of_nat (length ms) ≤ n)%Z) →
  SemVerFromStatefulSet (Some s) = ClusterDesiredVersion c ∧ ∀ m, m ∈ ms → podMysqlReady (m_Pod m) = true.
Proof.
  unfold RolloutComplete, rolloutCompleteOnVersion. destruct (Replicas (cl_Spec c)) as [n|]; [|done].
  intros Hc Hr Hn. destruct (n =? 0)%Z; [done|]. rewrite EQ_bool in Hc.
  case_bool_decide as Hv; simpl in Hc; [|done]. split; [done|].
  destruct (sts_ReadyReplicas s >=? n)%Z eqn:Eg; [|done]. rewrite ready_members, length_fmap in Hr.
  specialize (Hn n eq_refl). apply filter_full. lia.
Qed.

Lemma Sync_observed c sts pods w v :
  run (SyncAppliedVersion c sts pods) w = Some v →
  RolloutComplete c sts pods = true ∧ run (ObserveDataPlaneVersionSQL c pods) w = Ok v.
Proof.
  unfold run, SyncAppliedVersion. destruct (_ && _); [done|].
  destruct (RolloutComplete c sts pods); [|done]. cbn [negb]. unfold mbind, prog_bind, mret, prog_ret.
  destruct (ObserveDataPlaneVersionSQL c pods w []) as [[o|e] h]; cbn [fst snd]; [|done].
  destruct (negb _); [done|]. by intros [= ->].
Qed.

Lemma Backfill_observed c pods w c' :
  run (BackfillAppliedVersion c pods) w = Ok (c', true) →
  ∃ v, c' = MarkAppliedVersion c v ∧ run (ObserveDataPlaneVersionSQL c pods) w = Ok v ∧ AppliedDataPlaneVersion c = Zero.
Proof.
  unfold run, BackfillAppliedVersion, NeedsAppliedBackfill. rewrite IsZero_bool.
  case_bool_decide as Ha; [|done]. cbn [negb]. destruct (ClusterHasMySQLData c); [|done]. cbn [negb].
  unfold try, mbind, prog_bind, mret, prog_ret.
  destruct (ObserveDataPlaneVersionSQL c pods w []) as [[v|e] h]; cbn [fst snd]; [|done].
  intros [= <-]. by exists v.
Qed.

End Observed.

(** ** The invariant *)

Section Invariant.
Context `{!Blang, !BlangLaws, !Process, !Resource, !ResourceAccess, !PodDefaults, !PodDefaultsLaws, !Images} (opt : Options).
Implicit Types (c l : MysqlCluster) (st : state) (ms : list member) (a t : Version).
#[local] Abbreviation versioned := (versioned opt).
#[local] Abbreviation careful := (careful opt).

(** The history of a pod when the applied version is [a] and the stateful set asks
    for [t]. *)
Definition memberOk a t (m : member) : Prop :=
  Sorted upgrades (m_History m) ∧ (Zero ∉ m_History m) ∧ ∀ v, head (m_History m) = Some v → v = a ∨ v = t.

(** The copy of a run agrees with the stored cluster unless that was changed, and
    takes the stateful set to the same version or to none. *)
Definition copyOk c (rev : nat) t (r : MysqlCluster * nat) : Prop :=
  let (l, lrev) := r in
  (lrev ≤ rev)%nat ∧ (lrev = rev → sameVersions l c) ∧
  AppliedDataPlaneVersion l = AppliedDataPlaneVersion c ∧ versioned l ∧
  (goal l = AppliedDataPlaneVersion c ∨ goal l = goal c) ∧ (t = goal c → goal l = goal c).

Record Inv st : Prop := {
  inv_versioned : versioned (s_Cluster st);
  inv_applied : version_fits (applied st);
  inv_image : ∀ s, s_StatefulSet st = Some s → image_version (mysqlImage s) = template st;
  inv_template : template st = Zero ∨ template st = applied st ∨ template st = goal (s_Cluster st);
  inv_members : Forall (memberOk (applied st) (template st)) (s_Members st);
  inv_run : ∀ r, s_Run st = Some r → copyOk (s_Cluster st) (s_Rev st) (template st) r }.

#[local] Ltac state_parts :=
  unfold applied, template in *; cbn [s_Cluster s_Rev s_StatefulSet s_Members s_Run] in *.

Lemma goal_fits c : versioned c → version_fits (AppliedDataPlaneVersion c) → version_fits (goal c).
Proof.
  intros [Hd _] Ha. destruct (decide (AppliedDataPlaneVersion c = Zero)) as [Hz|Hz].
  - by rewrite goal_unknown.
  - rewrite goal_known by done. by destruct (is_ok _).
Qed.

Lemma goal_nonzero c : versioned c → goal c ≠ Zero.
Proof.
  intros (_ & Hd & _). destruct (decide (AppliedDataPlaneVersion c = Zero)) as [Hz|Hz].
  - by rewrite goal_unknown.
  - rewrite goal_known by done. by destruct (is_ok _).
Qed.

Lemma versioned_same c c' : sameVersions c' c → versioned c → versioned c'.
Proof.
  intros Hs (Hf & Hn & Hi). unfold versioned, faithful.
  rewrite (goal_same _ _ Hs), (serverImage_same opt _ _ _ Hs), (proj1 Hs). done.
Qed.

#[local] Ltac copy_parts := refine (conj _ (conj _ (conj _ (conj _ (conj _ _))))).

(** The histories stay in order when the stateful set moves on. *)
Lemma memberOk_weaken a t a' t' m :
  memberOk a t m → (∀ v, v ≠ Zero → v = a ∨ v = t → v = a' ∨ v = t') → memberOk a' t' m.
Proof.
  intros (Hs & Hz & Hh) Hw. split_and!; [done..|]. intros v Hv. apply Hw; [|by apply Hh].
  intros ->. apply Hz. destruct (m_History m); [done|]. simpl in Hv. simplify_eq. by left.
Qed.

Lemma membersOk_weaken a t a' t' ms :
  Forall (memberOk a t) ms → (∀ v, v ≠ Zero → v = a ∨ v = t → v = a' ∨ v = t') → Forall (memberOk a' t') ms.
Proof. intros Hm Hw. eapply Forall_impl; [exact Hm|]. intros m Hk. by eapply memberOk_weaken. Qed.

(** What the run does with the cluster in the stateful set. *)
Lemma SyncFn_copy cmRev sctRev l out : sameVersions (SyncFn opt cmRev sctRev l out).1 l.
Proof. done. Qed.

Lemma SemVer_sync cmRev sctRev l out s' :
  version_fits (RolloutMySQLVersion l (Some out)) →
  sts_Template s' = sts_Template (SyncFn opt cmRev sctRev l out).2 →
  SemVerFromStatefulSet (Some s') = RolloutMySQLVersion l (Some out).
Proof.
  intros Hv E. rewrite <-(SyncFn_version opt cmRev sctRev l out Hv).
  unfold SemVerFromStatefulSet, sts_Containers, sts_InitContainers. by rewrite E.
Qed.

Lemma Image_sync cmRev sctRev l out s' :
  version_fits (RolloutMySQLVersion l (Some out)) →
  sts_Template s' = sts_Template (SyncFn opt cmRev sctRev l out).2 →
  mysqlImage s' = serverImageForVersion opt l (RolloutMySQLVersion l (Some out)).
Proof.
  intros Hv E. rewrite <-(SyncFn_image opt cmRev sctRev l out Hv). unfold mysqlImage, sts_Containers. by rewrite E.
Qed.

Lemma SemVer_new l : SemVerFromStatefulSet (Some (newStatefulSet l)) = Zero.
Proof. done. Qed.

(** A synced stateful set asks for the goal of the copy. *)
Lemma sync_goal c rev sts ms l lrev cmRev sctRev s' :
  Inv (mkState c rev sts ms (Some (l, lrev))) →
  sts_Template s' = sts_Template (SyncFn opt cmRev sctRev l (default (newStatefulSet l) sts)).2 →
  SemVerFromStatefulSet (Some s') = goal l ∧ image_version (mysqlImage s') = goal l.
Proof.
  intros [Hv Ha _ Ht _ Hr] E. destruct (Hr _ eq_refl) as (_ & _ & Hal & Hlv & Hg & _). state_parts.
  set (out := default _ _) in *.
  assert (SemVerFromStatefulSet (Some out) = SemVerFromStatefulSet sts) as Eo by (unfold out; by destruct sts).
  assert (RolloutMySQLVersion l (Some out) = goal l) as Hroll.
  { destruct (rollout_goal l (Some out)) as [?|(Hz & -> & Hn)]; [done|]. rewrite Eo in *.
    destruct Hg as [Hg|Hg]; [pose proof (goal_nonzero l Hlv); congruence|].
    destruct Ht as [?|[Ht|Ht]]; congruence. }
  assert (version_fits (RolloutMySQLVersion l (Some out))) as Hf by (rewrite Hroll; apply goal_fits; [done|congruence]).
  rewrite (SemVer_sync cmRev sctRev l out s' Hf E), (Image_sync cmRev sctRev l out s' Hf E), Hroll.
  split; [done|apply Hlv].
Qed.

Lemma inv_sync c rev sts ms l lrev cmRev sctRev s' :
  Inv (mkState c rev sts ms (Some (l, lrev))) →
  sts_Template s' = sts_Template (SyncFn opt cmRev sctRev l (default (newStatefulSet l) sts)).2 →
  Inv (mkState c rev (Some s') ms (Some ((SyncFn opt cmRev sctRev l (default (newStatefulSet l) sts)).1, lrev))).
Proof.
  set (l' := (SyncFn opt cmRev sctRev l (default (newStatefulSet l) sts)).1). intros HI E. destruct (sync_goal _ _ _ _ _ _ _ _ _ HI E) as [Hs Hi].
  destruct HI as [Hv Ha _ Ht Hm Hr]. destruct (Hr _ eq_refl) as (Hrev & Hcur & Hal & Hlv & Hg & Hstay).
  state_parts.
  constructor; state_parts; [done|done|intros s; intros [= <-]; by rewrite Hs| | |].
  - rewrite Hs. destruct Hg as [->| ->]; auto.
  - eapply membersOk_weaken; [exact Hm|]. intros v Hnz [->| ->]; [by left|]. rewrite Hs.
    destruct Ht as [?|[->|Ht]]; [done|by left|]. right. rewrite Ht. symmetry. by apply Hstay.
  - assert (sameVersions l' l) as Hl by apply SyncFn_copy. clearbody l'.
    assert (goal l' = goal l) as Hgl by (by apply goal_same). intros r [= <-].
    copy_parts.
    + done.
    + intros E'. eapply sameVersions_trans; [exact Hl|by apply Hcur].
    + destruct Hl as (_ & -> & _). done.
    + by eapply versioned_same.
    + by rewrite Hgl.
    + rewrite Hs, Hgl. done.
Qed.

(** A new cluster object with the same versions. *)
Lemma inv_same c rev sts ms run c' run' :
  Inv (mkState c rev sts ms run) → sameVersions c' c →
  (run' = run ∨ run' = Some (c', S rev)) → Inv (mkState c' (S rev) sts ms run').
Proof.
  intros [Hv Ha Hi Ht Hm Hr] Hs Hrun. state_parts.
  pose proof (goal_same _ _ Hs) as Hg. pose proof (versioned_same _ _ Hs Hv) as Hv'. destruct Hs as (Hd & Hap & _).
  constructor; state_parts; rewrite ?Hap, ?Hg; [done..|].
  intros r Er. destruct Hrun as [->| ->].
  - specialize (Hr r Er). destruct r as [l lrev]. unfold copyOk in *. rewrite Hap, Hg.
    destruct Hr as (Hrev & _ & ? & ? & ? & ?). copy_parts; [lia|lia|done..].
  - simplify_eq. copy_parts; [done|by intros _|done|done|by right|done].
Qed.

(** The applied version catches up with the stateful set. *)
Lemma inv_confirm c rev sts ms l c' :
  Inv (mkState c rev sts ms (Some (l, rev))) → SemVerFromStatefulSet sts = ClusterDesiredVersion c →
  goal c = ClusterDesiredVersion c →
  (∀ m v, m ∈ ms → head (m_History m) = Some v → v = ClusterDesiredVersion c) →
  cl_Spec c' = cl_Spec c → AppliedDataPlaneVersion c' = ClusterDesiredVersion c →
  Inv (mkState c' (S rev) sts ms (Some (c', S rev))).
Proof.
  intros [Hv Ha Hi Ht Hm Hr] Hsts Hgc Hheads Hspec Hap. state_parts.
  assert (ClusterDesiredVersion c' = ClusterDesiredVersion c) as Hd by (unfold ClusterDesiredVersion; by rewrite Hspec).
  assert (goal c' = ClusterDesiredVersion c) as Hg.
  { destruct Hv as (_ & Hnz & _). rewrite goal_known by (by rewrite Hap). rewrite Hd, Hap. by destruct (is_ok _). }
  assert (versioned c') as Hv'.
  { destruct Hv as (Hf & Hnz & Hfaith). unfold versioned, faithful in *. rewrite Hg, Hd. rewrite Hgc in Hfaith.
    split_and!; [done..|]. rewrite <-Hfaith at 2. unfold serverImageForVersion, GetMysqlImage. by rewrite Hd, Hspec. }
  constructor; state_parts; rewrite ?Hap, ?Hg.
  - done.
  - apply Hv.
  - done.
  - by auto.
  - rewrite Forall_forall in *. intros m Hin. destruct (Hm m Hin) as (Hs & Hz & _). split_and!; [done..|].
    intros v Hh. left. by apply (Hheads m).
  - intros r [= <-]. copy_parts; [done|by intros _|done|done|by right|done].
Qed.

Lemma Applied_status l v c : version_fits v → AppliedDataPlaneVersion (with_Status (cl_Status (MarkAppliedVersion l v)) c) = v.
Proof. intros Hv. unfold AppliedDataPlaneVersion. simpl. by apply Applied_marked. Qed.

Lemma members_nonzero a t ms : Forall (memberOk a t) ms → Forall (λ m, Zero ∉ m_History m) ms.
Proof. intros Hm. eapply Forall_impl; [exact Hm|]. by intros m (_ & Hz & _). Qed.

(** A version that is observed on a pod. *)
Lemma head_known a t ms m v :
  Forall (memberOk a t) ms → m ∈ ms → head (m_History m) = Some v → v ≠ Zero ∧ (v = a ∨ v = t).
Proof.
  rewrite Forall_forall. intros Hm Hin Hh. destruct (Hm m Hin) as (_ & Hz & Hk). split; [|by apply Hk].
  intros ->. apply Hz. destruct (m_History m); [done|]. simpl in Hh. simplify_eq. by left.
Qed.

Lemma inv_record c rev s ms l (w : world vu_op) v :
  Inv (mkState c rev (Some s) ms (Some (l, rev))) → answers w (cl_Namespace l) ms →
  (sts_ReadyReplicas s ≤ Z.of_nat (length (readyMysqlPods (m_Pod <$> ms))))%Z →
  (∀ n, Replicas (cl_Spec l) = Some n → (Z.of_nat (length ms) ≤ n)%Z) →
  run (SyncAppliedVersion l (Some s) (m_Pod <$> ms)) w = Some v →
  let c' := with_Status (cl_Status (MarkAppliedVersion l v)) c in
  Inv (mkState c' (S rev) (Some s) ms (Some (c', S rev))).
Proof.
  intros HI Hans Hn Hreps [Hc Ho]%Sync_observed c'. pose proof HI as [Hv Ha _ Ht Hm Hr]. state_parts.
  destruct (Hr _ eq_refl) as (_ & Hcur & _). specialize (Hcur eq_refl).
  destruct (Complete_members _ _ _ Hc Hn Hreps) as [Hd Hall]. rewrite (proj1 Hcur) in Hd.
  destruct (Observe_members _ _ _ _ Hans (members_nonzero _ _ _ Hm) Ho) as [(m0 & Hm0 & Hr0) Hheads].
  destruct (head_known _ _ _ _ _ Hm Hm0 (Hheads m0 Hm0 Hr0)) as [Hnz Hor].
  destruct (decide (v = AppliedDataPlaneVersion c)) as [Hva|Hva].
  - eapply inv_same; [exact HI| |by right]. split; [done|]. split; [|done]. unfold c'. rewrite Applied_status; congruence.
  - destruct Hor as [?|Hvt]; [done|].
    eapply inv_confirm; [exact HI|exact Hd|destruct Ht as [?|[?|?]]; congruence| |done|unfold c'; rewrite Applied_status; [congruence|]].
    + intros m x Hin Hx. rewrite (Hheads m Hin (Hall m Hin)) in Hx. congruence.
    + rewrite Hvt, Hd. apply Hv.
Qed.

Lemma inv_backfill c rev sts ms l (w : world vu_op) l' :
  Inv (mkState c rev sts ms (Some (l, rev))) → answers w (cl_Namespace l) ms →
  run (BackfillAppliedVersion l (m_Pod <$> ms)) w = Ok (l', true) →
  let c' := with_Status (cl_Status l') c in
  Inv (mkState c' (S rev) sts ms (Some (c', S rev))).
Proof.
  intros HI Hans (v & -> & Ho & Hz)%Backfill_observed c'. pose proof HI as [Hv Ha _ Ht Hm Hr]. state_parts.
  destruct (Hr _ eq_refl) as (_ & Hcur & _). specialize (Hcur eq_refl). rewrite (proj1 (proj2 Hcur)) in Hz.
  destruct (Observe_members _ _ _ _ Hans (members_nonzero _ _ _ Hm) Ho) as [(m0 & Hm0 & Hr0) Hheads].
  destruct (head_known _ _ _ _ _ Hm Hm0 (Hheads m0 Hm0 Hr0)) as [Hnz [Hva|Hvt]]; [congruence|].
  rewrite goal_unknown in Ht by done.
  assert (SemVerFromStatefulSet sts = ClusterDesiredVersion c) as Hd by (destruct Ht as [?|[?|?]]; congruence).
  eapply inv_confirm; [exact HI|exact Hd|by apply goal_unknown| |done|unfold c'; rewrite Applied_status; [congruence|]].
  - intros m x Hin Hx. destruct (head_known _ _ _ _ _ Hm Hin Hx) as [? [?|?]]; congruence.
  - rewrite Hvt, Hd. apply Hv.
Qed.

(** A change of the specification while nothing is under way. *)
Lemma inv_edit c rev sts ms run c' :
  Inv (mkState c rev sts ms run) → settled (mkState c rev sts ms run) → cl_Status c' = cl_Status c → versioned c' →
  Inv (mkState c' (S rev) sts ms run).
Proof.
  intros [Hv Ha Hi Ht Hm Hr] Hset Hst Hv'. unfold settled in Hset. state_parts.
  assert (AppliedDataPlaneVersion c' = AppliedDataPlaneVersion c) as Hap by (unfold AppliedDataPlaneVersion; by rewrite Hst).
  destruct Hset as [(Hnz & Hta & Hheads & Hrun)|(Hz & Htz & _ & Hrun)].
  - constructor; state_parts; rewrite ?Hap; [done|done|done|by auto|done|].
    intros [l lrev] Hl. specialize (Hrun l lrev Hl). destruct (Hr _ Hl) as (Hrev & _ & Hal & Hlv & _).
    copy_parts; [lia|lia|congruence|done|left; congruence|]. rewrite Hta. intros <-. done.
  - constructor; state_parts; rewrite ?Hap; [done|done|done|by auto|done|]. intros r. by rewrite Hrun.
Qed.

Lemma inv_read c rev sts ms l :
  Inv (mkState c rev sts ms None) → SetDefaults opt (SetDefaults_MysqlCluster c) = Some l →
  Inv (mkState c rev sts ms (Some (l, rev))).
Proof.
  intros [Hv Ha Hi Ht Hm _] Hd%SetDefaults_versions. constructor; state_parts; [done..|]. intros r [= <-].
  pose proof (goal_same _ _ Hd) as Hg. copy_parts; [done|done|apply Hd|by eapply versioned_same|by right|done].
Qed.

(** mysqld starts on a pod. *)
Lemma inv_start c rev sts ms m pod ms' run v :
  Inv (mkState c rev sts (ms ++ m :: ms') run) → v ≠ Zero →
  (∃ s, sts = Some s ∧ v = image_version (mysqlImage s)) ∨ head (m_History m) = Some v →
  Inv (mkState c rev sts (ms ++ mkMember pod (v :: m_History m) :: ms') run).
Proof.
  intros [Hv Ha Hi Ht Hm Hr] Hnz Himg. constructor; state_parts; [done..| |done].
  assert (v = SemVerFromStatefulSet sts ∨ head (m_History m) = Some v) as Hor.
  { destruct Himg as [(s & -> & ->)|?]; [left; by apply Hi|by right]. }
  apply Forall_app in Hm as [Hm1 [(Hs & Hz & Hh) Hm2]%Forall_cons]. apply Forall_app; split; [done|].
  apply Forall_cons; split; [|done].
  assert (v = AppliedDataPlaneVersion c ∨ v = SemVerFromStatefulSet sts) as Hvv by (destruct Hor; auto).
  split_and!; simpl; [constructor; [done|]|by intros [?|?]%elem_of_cons|by intros x [= <-]].
  destruct (m_History m) as [|u older]; constructor. unfold upgrades. simpl in *.
  destruct Hor as [Hvt|[= ->]]; [|apply upgrade_refl].
  assert (u ≠ Zero) as Hu by (intros ->; apply Hz; by left).
  destruct (Hh u eq_refl) as [->| ->]; [|rewrite Hvt; apply upgrade_refl].
  destruct Ht as [?|[Ht|Ht]]; [congruence|rewrite Hvt, Ht; apply upgrade_refl|].
  rewrite Hvt, Ht. by apply goal_legal.
Qed.

Lemma inv_pods c rev sts ms ms' run :
  Inv (mkState c rev sts ms run) → (∀ m', m' ∈ ms' → m_History m' = [] ∨ ∃ m, m ∈ ms ∧ m_History m' = m_History m) →
  Inv (mkState c rev sts ms' run).
Proof.
  intros [Hv Ha Hi Ht Hm Hr] Hms. constructor; state_parts; [done..| |done]. rewrite Forall_forall in *.
  intros m' Hm'. unfold memberOk. destruct (Hms m' Hm') as [->|(m & Hin & ->)]; [|by apply Hm].
  split_and!; [constructor|by intros ?%not_elem_of_nil|done].
Qed.

Lemma inv_step st st' : Inv st → step opt careful st st' → Inv st'.
Proof.
  intros HI Hs. destruct Hs.
  - match goal with Hc : careful _ _ |- _ => destruct Hc end.
    match goal with Hc : readable _ |- _ => destruct Hc end. eapply inv_edit; [done..|by split].
  - eapply inv_same; [exact HI|done|by left].
  - by eapply inv_read.
  - eapply inv_same; [exact HI|done|by right].
  - by eapply inv_backfill.
  - by apply inv_sync.
  - by eapply inv_record.
  - destruct HI; constructor; by state_parts.
  - assert (SemVerFromStatefulSet (Some s') = SemVerFromStatefulSet (Some s)) as E
      by (unfold SemVerFromStatefulSet, sts_Containers, sts_InitContainers;
          match goal with E : sts_Template _ = _ |- _ => by rewrite E end).
    destruct HI as [? ? Hi ? ? ?]; constructor; state_parts; rewrite ?E; [done|done| |done..].
    intros s1 [= <-]. rewrite <-(Hi s eq_refl). unfold mysqlImage, sts_Containers.
    match goal with E : sts_Template _ = _ |- _ => by rewrite E end.
  - by apply inv_start.
  - eapply inv_pods; [exact HI|]. intros m' Hm'. right.
    assert (m_History m' ∈ m_History <$> ms) as (m & E & Hin)%list_elem_of_fmap; [|by exists m].
    match goal with E : m_History <$> _ = _ |- _ => rewrite <-E end. by apply list_elem_of_fmap_2.
  - eapply inv_pods; [exact HI|]. intros m' [Hm'|Hm']%elem_of_app; [right; by exists m'|].
    apply list_elem_of_singleton in Hm' as ->. naive_solver.
  - eapply inv_pods; [exact HI|]. intros m' Hm'. right. exists m'. split; [|done]. set_solver.
Qed.

Lemma inv_initial st : initial opt st → Inv st.
Proof.
  intros (c & -> & Ha & Hv). constructor; state_parts; [done|by rewrite Ha|done|by left|constructor|done].
Qed.

Lemma inv_reachable st : reachable opt careful st → Inv st.
Proof.
  intros (st0 & Hi & Hs). apply inv_initial in Hi. induction Hs as [|st1 st2 st3 H12 _ IH]; [done|].
  apply IH. by eapply inv_step.
Qed.

(** Between data of a 5.x server and data of an 8.4 server there is data of the 8.0
    line. *)
Lemma upgrades_visit_80 w (between : list Version) u older :
  Sorted upgrades (w :: between ++ u :: older) → (lineIndex u ≤ 0)%Z → (2 ≤ lineIndex w)%Z →
  ∃ v, v ∈ between ∧ lineIndex v = 1%Z.
Proof.
  revert w. induction between as [|x between IH]; intros w Hs Hu Hw; apply Sorted_inv in Hs as [Hs Hh]; apply HdRel_inv in Hh;
    apply ValidateUpgradePath_iff in Hh as [_ Hh]; [destruct Hh; subst; lia|].
  destruct (decide (lineIndex x = 1%Z)) as [Hx|Hx]; [exists x; split; [by left|done]|].
  destruct (IH x Hs Hu) as (v & Hv & ?); [destruct Hh; subst; lia|]. exists v. split; [by right|done].
Qed.

Lemma lineIndex_5 v : Major v = 5%N → (lineIndex v ≤ 0)%Z.
Proof. intros Hv. unfold lineIndex, AtLeastMySQL84, AtLeastMySQL8. by rewrite Hv. Qed.

Lemma lineIndex_80 v : lineIndex v = 1%Z → Name (ProfileFor v) = ProfilePercona80.
Proof. rewrite ProfileFor_eq. unfold lineIndex. by repeat case_match; try lia. Qed.

Lemma lineIndex_84 v : AtLeastMySQL84 v = true → (2 ≤ lineIndex v)%Z.
Proof. intros Hv. unfold lineIndex. by rewrite Hv. Qed.

Lemma Sorted_suffix {A} (R : A → A → Prop) (l l' : list A) : Sorted R (l ++ l') → Sorted R l'.
Proof. induction l as [|x l IH]; [done|]. intros [Hs _]%Sorted_inv. by apply IH. Qed.

(** C2. Whoever acts when: as long as another version is asked for only while no upgrade is
    under way, and no version with the image of another one, every data directory goes through a sequence of versions of which each
    is an upgrade of the one before that mysqld can do.  So between a 5.x and an 8.4
    server a server of the 8.0 line ran on it; a pod never runs anything but the
    applied version and the version of the stateful set; the stateful set never
    asks for a version that the applied one cannot be upgraded to; and its image has
    the version that it asks for.  Both conditions are needed: see [revert_downgrades]
    and [image_skips]. *)
Theorem data_upgraded_in_order (st : state) :
  reachable opt careful st →
  (∀ m, m ∈ s_Members st →
    Sorted upgrades (m_History m) ∧
    (∀ v, head (m_History m) = Some v → v = applied st ∨ v = template st) ∧
    (∀ newer w between u older,
       m_History m = newer ++ w :: between ++ u :: older → Major u = 5%N → AtLeastMySQL84 w = true →
       ∃ v, v ∈ between ∧ Name (ProfileFor v) = ProfilePercona80)) ∧
  (applied st ≠ Zero → template st ≠ Zero → ValidateUpgradePath (applied st) (template st) = Ok tt) ∧
  (∀ s, s_StatefulSet st = Some s → image_version (mysqlImage s) = template st).
Proof.
  intros [Hv Ha Hi Ht Hm Hr]%inv_reachable. split_and!; [|intros Hnz Htn|exact Hi].
  - intros m Hin. rewrite Forall_forall in Hm. destruct (Hm m Hin) as (Hs & _ & Hh). split_and!; [done..|].
    intros newer w between u older E Hu Hw. rewrite E in Hs. apply Sorted_suffix in Hs.
    destruct (upgrades_visit_80 _ _ _ _ Hs (lineIndex_5 u Hu) (lineIndex_84 w Hw)) as (v & Hin' & H80).
    exists v. split; [done|by apply lineIndex_80].
  - destruct Ht as [?|[->| ->]]; [done|apply upgrade_refl|by apply goal_legal].
Qed.

End Invariant.

(** ** What can happen *)

Section Progress.
Context `{!Blang, !BlangLaws, !Process, !Resource, !ResourceAccess, !PodDefaults, !PodDefaultsLaws, !Images} (opt : Options).
Implicit Types (c l : MysqlCluster) (st : state) (ms : list member).
#[local] Abbreviation versioned := (versioned opt).
#[local] Abbreviation careful := (careful opt).

(** A run can work on the cluster. *)
Definition runnable c l : Prop := SetDefaults opt (SetDefaults_MysqlCluster c) = Some l ∧ Validate l = Ok tt.

(** The stateful set after the callback, with ready pods. *)
Definition withReady (n : Z) (s : StatefulSet) : StatefulSet :=
  mkStatefulSetFull (sts_Meta s) (sts_Replicas s) (sts_Selector s) (sts_ServiceName s) (sts_TemplateLabels s)
    (sts_TemplateAnnotations s) (sts_Template s) (sts_VolumeClaimTemplates s) n.

Lemma SemVer_goal cmRev sctRev l out s' :
  AppliedDataPlaneVersion l ≠ Zero ∨ SemVerFromStatefulSet (Some out) = Zero ∨ SemVerFromStatefulSet (Some out) = goal l →
  version_fits (goal l) →
  sts_Template s' = sts_Template (SyncFn opt cmRev sctRev l out).2 → SemVerFromStatefulSet (Some s') = goal l.
Proof.
  intros Ha Hf E. assert (RolloutMySQLVersion l (Some out) = goal l) as Hg.
  { destruct (rollout_goal l (Some out)) as [?|(? & -> & ?)]; [done|naive_solver]. }
  rewrite (SemVer_sync opt cmRev sctRev l out s'); [done|by rewrite Hg|done].
Qed.

Lemma Image_goal cmRev sctRev l out s' :
  AppliedDataPlaneVersion l ≠ Zero ∨ SemVerFromStatefulSet (Some out) = Zero ∨ SemVerFromStatefulSet (Some out) = goal l →
  version_fits (goal l) →
  sts_Template s' = sts_Template (SyncFn opt cmRev sctRev l out).2 → mysqlImage s' = serverImageForVersion opt l (goal l).
Proof.
  intros Ha Hf E. assert (RolloutMySQLVersion l (Some out) = goal l) as Hg.
  { destruct (rollout_goal l (Some out)) as [?|(? & -> & ?)]; [done|naive_solver]. }
  rewrite (Image_sync opt cmRev sctRev l out s'); [by rewrite Hg|by rewrite Hg|done].
Qed.

(** A run up to the stateful set: it is taken to the goal of the cluster. *)
Lemma run_syncs may c l rev sts ms n :
  runnable c l →
  AppliedDataPlaneVersion c ≠ Zero ∨ SemVerFromStatefulSet sts = Zero ∨ SemVerFromStatefulSet sts = goal c →
  version_fits (goal c) →
  ∃ s l', rtc (step opt may) (mkState c rev sts ms None) (mkState c rev (Some s) ms (Some (l', rev))) ∧
    SemVerFromStatefulSet (Some s) = goal c ∧ mysqlImage s = serverImageForVersion opt c (goal c) ∧
    sts_ReadyReplicas s = n ∧ sameVersions l' c ∧
    Replicas (cl_Spec l') = Replicas (cl_Spec l).
Proof.
  intros [Hd Hv] Ha Hf. pose proof (SetDefaults_versions _ _ _ Hd) as Hs.
  set (r := SyncFn opt "" "" l (default (newStatefulSet l) sts)). exists (withReady n r.2), r.1.
  assert (AppliedDataPlaneVersion l ≠ Zero ∨ SemVerFromStatefulSet (Some (default (newStatefulSet l) sts)) = Zero ∨
    SemVerFromStatefulSet (Some (default (newStatefulSet l) sts)) = goal l) as Ha'.
  { rewrite (proj1 (proj2 Hs)), (goal_same _ _ Hs). by destruct sts; [|right; left]. }
  split_and!.
  - eapply rtc_l; [by apply step_read|]. eapply rtc_l; [|apply rtc_refl]. by apply step_sync.
  - rewrite <-(goal_same _ _ Hs). apply (SemVer_goal "" "" l (default (newStatefulSet l) sts)); [done|by rewrite (goal_same _ _ Hs)|done].
  - rewrite <-(serverImage_same opt _ _ _ Hs), <-(goal_same _ _ Hs).
    apply (Image_goal "" "" l (default (newStatefulSet l) sts)); [done|by rewrite (goal_same _ _ Hs)|done].
  - done.
  - done.
  - done.
Qed.

(** mysqld starts everywhere. *)
Lemma starts may c rev s ms run pod v :
  v ≠ Zero → v = image_version (mysqlImage s) →
  rtc (step opt may) (mkState c rev (Some s) ms run)
    (mkState c rev (Some s) ((λ m, mkMember pod (v :: m_History m)) <$> ms) run).
Proof.
  intros Hnz Hv. enough (∀ pre, rtc (step opt may) (mkState c rev (Some s) (pre ++ ms) run)
    (mkState c rev (Some s) (pre ++ ((λ m, mkMember pod (v :: m_History m)) <$> ms)) run)) as Hpre by apply (Hpre []).
  induction ms as [|m ms IH]; intros pre; [done|].
  eapply rtc_l; [apply (step_start opt may c rev (Some s) pre m pod ms run v); eauto|].
  specialize (IH (pre ++ [mkMember pod (v :: m_History m)])). rewrite <-!(assoc_L (++)) in IH. exact IH.
Qed.

(** A pod with all its init containers done. *)
Definition upPod (inits : list Container) : Pod :=
  mkPod (newMeta "" "") "" [mkContainer "mysql" "" []] inits PodRunning
    [mkPodCondition PodReady ConditionTrue "" "" 0] ((λ ic, mkContainerStatus (c_Name ic) (Some 0%Z)) <$> inits).

Lemma upPod_ready inits : podMysqlReady (upPod inits) = true.
Proof. done. Qed.

Lemma upPod_inits inits : podHasTemplateInitContainers (upPod inits) inits && allInitContainersSucceeded (upPod inits) inits = true.
Proof.
  apply andb_true_iff; split.
  - unfold podHasTemplateInitContainers. apply forallb_forall. intros ic Hic. apply existsb_exists.
    exists ic. split; [done|apply String.eqb_refl].
  - unfold allInitContainersSucceeded, initContainerSucceeded. apply forallb_forall. intros ic Hic. simpl.
    induction inits as [|i inits IH]; [done|]. rewrite fmap_cons. simpl.
    destruct (String.eqb_spec (c_Name i) (c_Name ic)) as [|Hn]; simpl; [done|]. apply IH.
    destruct Hic as [->|?]; [done|done].
Qed.

Lemma up_filter {A} (f : Pod → bool) (ms : list A) pod :
  f pod = true → List.filter f ((λ _, pod) <$> ms) = (λ _, pod) <$> ms.
Proof. intros Hf. induction ms as [|m ms IH]; [done|]. rewrite fmap_cons. simpl. by rewrite Hf, IH. Qed.

(** A rollout of pods that are all up is complete. *)
Lemma up_complete l s ms n :
  Replicas (cl_Spec l) = Some n → n = Z.of_nat (length ms) → ms ≠ [] → sts_ReadyReplicas s = n →
  SemVerFromStatefulSet (Some s) = ClusterDesiredVersion l →
  RolloutComplete l (Some s) ((λ _ : member, upPod (sts_InitContainers s)) <$> ms) = true.
Proof.
  intros Hr Hn Hms Hready Hv. unfold RolloutComplete, rolloutCompleteOnVersion. rewrite Hr.
  destruct (Z.eqb_spec n 0) as [Hz|_]; [destruct ms; [done|]; simpl in Hn; lia|].
  rewrite EQ_bool, bool_decide_true by done. cbn [negb].
  rewrite Hready, Z.geb_leb, Z.leb_refl. cbn [negb]. unfold podTemplateInitContainersSucceeded.
  rewrite up_filter by apply upPod_inits. rewrite length_fmap, Hn, Z.geb_leb, Z.leb_refl. by destruct (_ =? 0)%nat.
Qed.

(** A data plane that answers with one version. *)
Definition oneVersion (v : Version) : world vu_op := λ _ o,
  match o with
  | VGetStatefulSet _ _ => Err ErrIgnore
  | VGetSecret _ _ => Ok (list_to_map [("OPERATOR_USER", "operator"); ("OPERATOR_PASSWORD", "password")])
  | VQueryVersion _ _ _ => Ok (VString v)
  end.

Lemma observes_one v user password headless ns o pods h :
  version_fits v → o = v ∨ (o = Zero ∧ pods ≠ []) →
  (observePods user password headless ns o pods (oneVersion v) h).1 = Ok v.
Proof.
  intros Hv. revert o h. induction pods as [|pod pods IH]; intros o h Ho; [by destruct Ho as [->|[_ ?]]|].
  cbn [observePods]. unfold mbind, prog_bind, call. cbn [fst snd oneVersion].
  rewrite (proj1 (ParseServerVersion_roundtrip v "" Hv eq_refl)), IsZero_bool, EQ_bool.
  case_bool_decide as Hz; [apply IH; by left|].
  destruct Ho as [->|[? _]]; [|done]. rewrite bool_decide_true by done. apply IH. by left.
Qed.

Lemma Observe_one c v ms pod :
  version_fits v → ms ≠ [] → podMysqlReady pod = true →
  run (ObserveDataPlaneVersionSQL c ((λ _ : member, pod) <$> ms)) (oneVersion v) = Ok v.
Proof.
  intros Hv Hms Hp. unfold run, ObserveDataPlaneVersionSQL, readyMysqlPods. rewrite up_filter by done.
  destruct ms as [|m ms]; [done|]. rewrite fmap_cons. cbn [length Nat.eqb].
  unfold try, mbind, prog_bind, mret, prog_ret, operatorSQLCredentials, call. cbn [fst snd oneVersion].
  apply observes_one; [done|]. right. done.
Qed.

Lemma EnsureChecked_accepted c :
  AppliedDataPlaneVersion c ≠ Zero → ValidateUpgradePath (AppliedDataPlaneVersion c) (ClusterDesiredVersion c) = Ok tt →
  EnsureChecked c = Ok tt.
Proof.
  intros Ha Hp. unfold EnsureChecked, SourceVersionForUpgrade. rewrite IsZero_bool, bool_decide_false, Hp by done.
  by destruct (negb _).
Qed.

Lemma goal_accepted c :
  AppliedDataPlaneVersion c ≠ Zero → ValidateUpgradePath (AppliedDataPlaneVersion c) (ClusterDesiredVersion c) = Ok tt →
  goal c = ClusterDesiredVersion c.
Proof. intros Ha Hp. by rewrite goal_known, Hp. Qed.

Lemma not_lt_Zero v : ¬ version_lt v Zero.
Proof. unfold version_lt, lex_lt. destruct v; simpl. lia. Qed.

Lemma SyncApplied_one l s ms :
  AppliedDataPlaneVersion l ≠ ClusterDesiredVersion l → version_fits (ClusterDesiredVersion l) →
  ¬ version_lt (ClusterDesiredVersion l) (AppliedDataPlaneVersion l) → ms ≠ [] →
  RolloutComplete l (Some s) ((λ _ : member, upPod (sts_InitContainers s)) <$> ms) = true →
  run (SyncAppliedVersion l (Some s) ((λ _ : member, upPod (sts_InitContainers s)) <$> ms))
    (oneVersion (ClusterDesiredVersion l)) = Some (ClusterDesiredVersion l).
Proof.
  intros Hne Hf Hp Hms Hc. pose proof (Observe_one l _ ms (upPod (sts_InitContainers s)) Hf Hms eq_refl) as Ho.
  unfold run, SyncAppliedVersion in *. rewrite LT_bool.
  rewrite bool_decide_true, andb_false_r, Hc by (destruct (version_lt_trichotomy (AppliedDataPlaneVersion l)
    (ClusterDesiredVersion l)) as [?|[?|?]]; done). cbn [negb].
  unfold mbind, prog_bind, mret, prog_ret. destruct (ObserveDataPlaneVersionSQL _ _ _ _) as [r h]. cbn [fst] in Ho. subst r.
  cbn [fst snd]. by rewrite (proj2 (ProfilesMatch_spec _ _) eq_refl).
Qed.

(** The end of an upgrade: the pods run the new version, and a run records it. *)
Lemma run_records may c l rev s ms l' :
  runnable c l → Replicas (cl_Spec l) = Some (Z.of_nat (length ms)) → ms ≠ [] → versioned c →
  (AppliedDataPlaneVersion c ≠ Zero → ValidateUpgradePath (AppliedDataPlaneVersion c) (ClusterDesiredVersion c) = Ok tt) →
  sts_ReadyReplicas s = Z.of_nat (length ms) → sameVersions l' c → Replicas (cl_Spec l') = Replicas (cl_Spec l) →
  SemVerFromStatefulSet (Some s) = goal c →
  let up := (λ m, mkMember (upPod (sts_InitContainers s)) (ClusterDesiredVersion c :: m_History m)) <$> ms in
  ∃ c' rev', rtc (step opt may) (mkState c rev (Some s) up (Some (l', rev))) (mkState c' rev' (Some s) up None) ∧
    AppliedDataPlaneVersion c' = ClusterDesiredVersion c ∧ cl_Spec c' = cl_Spec c.
Proof.
  intros Hrun Hreps Hms Hv Hp Hready Hs Hr' Hsts up.
  assert (goal c = ClusterDesiredVersion c) as Hg.
  { destruct (decide (AppliedDataPlaneVersion c = Zero)); [by apply goal_unknown|by apply goal_accepted; auto]. }
  destruct (decide (AppliedDataPlaneVersion c = ClusterDesiredVersion c)) as [E|Hne].
  { exists c, rev. split; [|done]. eapply rtc_l; [by apply step_end|apply rtc_refl]. }
  assert (m_Pod <$> up = (λ _, upPod (sts_InitContainers s)) <$> ms) as Epods by (unfold up; by rewrite <-list_fmap_compose).
  assert (RolloutComplete l' (Some s) (m_Pod <$> up) = true) as Hc.
  { rewrite Epods. eapply up_complete; [by rewrite Hr', Hreps|done|done|done|]. rewrite Hsts, Hg. symmetry. apply Hs. }
  set (c' := with_Status (cl_Status (MarkAppliedVersion l' (ClusterDesiredVersion c))) c).
  exists c', (S rev). split; [|split; [|done]].
  2:{ unfold c'. by rewrite Applied_status by apply Hv. }
  eapply rtc_l; [|eapply rtc_l; [by apply step_end|apply rtc_refl]].
  destruct Hs as (Hd & Hap & _). apply (step_record opt may c rev s up l' (oneVersion (ClusterDesiredVersion c))).
  - rewrite Hap. intros Ha. apply EnsureChecked_accepted; rewrite Hap, ?Hd; auto.
  - intros m [m0 [-> _]]%list_elem_of_fmap _. exists (ClusterDesiredVersion c), (m_History m0). split; [done|].
    intros user password h raw [= <-]. apply (ParseServerVersion_roundtrip _ ""); [apply Hv|done].
  - rewrite Epods. unfold readyMysqlPods. rewrite up_filter by done. rewrite length_fmap, Hready. done.
  - intros n. rewrite Hr', Hreps. intros [= <-]. unfold up. rewrite length_fmap. done.
  - rewrite Epods in *. rewrite <-Hd. apply SyncApplied_one; [congruence|rewrite Hd; apply Hv|rewrite Hap, Hd|done|done].
    destruct (decide (AppliedDataPlaneVersion c = Zero)) as [->|Ha]; [apply not_lt_Zero|].
    by destruct (proj1 (ValidateUpgradePath_iff _ _) (Hp Ha)).
Qed.

(** A rollout from the beginning to the end. *)
Lemma rolls_out may c l rev sts ms :
  runnable c l → Replicas (cl_Spec l) = Some (Z.of_nat (length ms)) → ms ≠ [] →
  versioned c → version_fits (AppliedDataPlaneVersion c) →
  (AppliedDataPlaneVersion c ≠ Zero → ValidateUpgradePath (AppliedDataPlaneVersion c) (ClusterDesiredVersion c) = Ok tt) →
  AppliedDataPlaneVersion c ≠ Zero ∨ SemVerFromStatefulSet sts = Zero ∨ SemVerFromStatefulSet sts = goal c →
  ∃ c' rev' s ms', rtc (step opt may) (mkState c rev sts ms None) (mkState c' rev' (Some s) ms' None) ∧
    AppliedDataPlaneVersion c' = ClusterDesiredVersion c ∧ cl_Spec c' = cl_Spec c ∧
    SemVerFromStatefulSet (Some s) = ClusterDesiredVersion c ∧
    Forall2 (λ m m', m_History m' = ClusterDesiredVersion c :: m_History m) ms ms'.
Proof.
  intros Hrun Hreps Hms Hv Hfit Hp Hsts. pose proof (goal_fits opt c Hv Hfit) as Hgf.
  assert (goal c = ClusterDesiredVersion c) as Hg.
  { destruct (decide (AppliedDataPlaneVersion c = Zero)); [by apply goal_unknown|by apply goal_accepted; auto]. }
  destruct (run_syncs may c l rev sts ms 0 Hrun Hsts Hgf) as (s0 & l0 & R0 & E0 & I0 & _).
  set (started := (λ m, mkMember (upPod []) (ClusterDesiredVersion c :: m_History m)) <$> ms).
  destruct (run_syncs may c l rev (Some s0) started (Z.of_nat (length ms)) Hrun (or_intror (or_intror E0)) Hgf)
    as (s & l' & R1 & E1 & _ & Hready & Hs & Hr').
  destruct (run_records may c l rev s ms l' Hrun Hreps Hms Hv Hp Hready Hs Hr' E1) as (c' & rev' & R2 & Hap & Hspec).
  exists c', rev', s, ((λ m, mkMember (upPod (sts_InitContainers s)) (ClusterDesiredVersion c :: m_History m)) <$> ms).
  split_and!; [|done|done|by rewrite E1|apply Forall2_fmap_r, Forall_Forall2_diag, Forall_true; done].
  etrans; [exact R0|]. eapply rtc_l; [apply step_end|].
  etrans; [apply (starts _ _ _ _ _ _ (upPod []) (ClusterDesiredVersion c)); [apply Hv|]|].
  { rewrite I0, <-Hg. symmetry. apply Hv. }
  etrans; [exact R1|]. eapply rtc_l; [apply step_pods|exact R2].
  unfold started. by rewrite <-!list_fmap_compose.
Qed.

(** C26. An upgrade never gets stuck: from every state that can be reached, however far
    the rollout is and whatever pods run, when the version that is asked for is an
    upgrade of the applied one then there is a way, without another change by the user,
    to the state in which every pod runs it, the status records it, and the next
    upgrade may be asked for. *)
Theorem upgrade_can_complete (st : state) (l : MysqlCluster) :
  let desired := ClusterDesiredVersion (s_Cluster st) in
  reachable opt careful st → applied st ≠ Zero → ValidateUpgradePath (applied st) desired = Ok tt →
  runnable (s_Cluster st) l → Replicas (cl_Spec l) = Some (Z.of_nat (length (s_Members st))) → s_Members st ≠ [] →
  ∃ st', rtc (step opt (λ _ _, False)) st st' ∧ settled st' ∧ applied st' = desired ∧ template st' = desired ∧
    Forall2 (λ m m', m_History m' = desired :: m_History m) (s_Members st) (s_Members st') ∧
    cl_Spec (s_Cluster st') = cl_Spec (s_Cluster st).
Proof.
  destruct st as [c rev sts ms run]. unfold applied, template. cbn [s_Cluster s_Members s_StatefulSet]. cbv zeta.
  intros Hreach Ha Hp Hrun Hreps Hms. apply inv_reachable in Hreach as [Hv Hfit _ _ _ _].
  unfold applied in *. cbn [s_Cluster] in *.
  destruct (rolls_out (λ _ _, False) c l rev sts ms Hrun Hreps Hms Hv Hfit (λ _, Hp) (or_introl Ha))
    as (c' & rev' & s & ms' & R & Hap & Hspec & Hs & Hh).
  exists (mkState c' rev' (Some s) ms' None). unfold settled, applied, template.
  cbn [s_Cluster s_Members s_StatefulSet s_Run]. rewrite Hap, Hs.
  split_and!; [eapply rtc_l; [apply step_end|exact R]|left; split_and!|done..]; [apply Hv|done| |done].
  apply Forall_forall. intros m' Hm'. right. apply list_elem_of_lookup_1 in Hm' as [i Hi].
  destruct (Forall2_lookup_r _ _ _ _ _ Hh Hi) as (m & _ & ->). done.
Qed.

(** A cluster of which no version is recorded is not held back while no pod is ready,
    whatever its stateful set runs. *)
Lemma unrecorded_not_held c sts :
  AppliedDataPlaneVersion c = Zero → (ReadyNodes (cl_Status c) ≤ 0)%Z →
  EnsureChecked c = Ok tt ∧ NeedsAppliedBackfill c = false ∧ RolloutMySQLVersion c sts = ClusterDesiredVersion c.
Proof.
  intros Ha Hn. assert (ClusterHasMySQLData c = false) as Hd.
  { unfold ClusterHasMySQLData. destruct (negb _); [done|]. destruct (Z.gtb_spec (ReadyNodes (cl_Status c)) 0); [lia|done]. }
  split_and!.
  - unfold EnsureChecked, SourceVersionForUpgrade. rewrite Ha, Hd, IsZero_bool, bool_decide_true by done. by destruct (negb _).
  - unfold NeedsAppliedBackfill. rewrite Hd. by destruct (negb _).
  - by rewrite Rollout_unknown, Hd.
Qed.

(** *** The version that a user takes back *)

(** A new cluster comes up. *)
Lemma comes_up may c l n :
  AppliedDataPlaneVersion c = Zero → versioned c → runnable c l → Replicas (cl_Spec l) = Some (Z.of_nat (S n)) →
  ∃ c' rev' s m ms, rtc (step opt may) (mkState c 0 None [] None) (mkState c' rev' (Some s) (m :: ms) None) ∧
    AppliedDataPlaneVersion c' = ClusterDesiredVersion c ∧ SemVerFromStatefulSet (Some s) = ClusterDesiredVersion c ∧
    length ms = n ∧ Forall (λ m, m_History m = [ClusterDesiredVersion c]) (m :: ms).
Proof.
  intros Ha Hv Hrun Hreps. set (fresh := mkMember (upPod []) []).
  assert (∀ k, rtc (step opt may) (mkState c 0 None [] None) (mkState c 0 None (repeat fresh k) None)) as Rup.
  { induction k as [|k IH]; [done|]. eapply rtc_r; [exact IH|]. change (repeat fresh (S k)) with (fresh :: repeat fresh k).
    rewrite repeat_cons. apply step_up. by left. }
  destruct (rolls_out may c l 0 None (repeat fresh (S n))) as (c' & rev' & s & ms' & R & Hap & _ & Hs & Hh); try done.
  { by rewrite repeat_length. }
  { by rewrite Ha. }
  { by right; left. }
  pose proof (Forall2_length _ _ _ Hh) as Hlen. rewrite repeat_length in Hlen. destruct ms' as [|m ms]; [done|].
  exists c', rev', s, m, ms. split_and!; [etrans; [apply Rup|exact R]|done|done|by injection Hlen|].
  apply Forall_forall. intros m' Hm'. apply list_elem_of_lookup_1 in Hm' as [i Hi].
  destruct (Forall2_lookup_r _ _ _ _ _ Hh Hi) as (m0 & Hm0 & ->). apply list_elem_of_lookup_2 in Hm0.
  apply list_elem_of_In, repeat_spec in Hm0 as ->. done.
Qed.

(** A run and the restarts that follow it. *)
Lemma moves may c l rev sts ms :
  runnable c l → versioned c → AppliedDataPlaneVersion c ≠ Zero → version_fits (AppliedDataPlaneVersion c) →
  ∃ s, rtc (step opt may) (mkState c rev sts ms None)
    (mkState c rev (Some s) ((λ m, mkMember (upPod []) (goal c :: m_History m)) <$> ms) None) ∧
    SemVerFromStatefulSet (Some s) = goal c.
Proof.
  intros Hrun Hv Ha Hf. destruct (run_syncs may c l rev sts ms 0 Hrun (or_introl Ha) (goal_fits opt c Hv Hf)) as (s & l' & R & E & I & _).
  exists s. split; [|done]. etrans; [exact R|]. eapply rtc_l; [apply step_end|].
  apply starts; [by apply (goal_nonzero opt)|]. rewrite I. symmetry. apply Hv.
Qed.

(** Without the restriction on the user, data goes back: the check of a version looks at
    the applied version only, which is the old one until a rollout is complete.  A
    user who asks for [d], and for the applied version again when pods run [d]
    already, gets these pods restarted with the version that cannot read their
    data any more. *)
Theorem revert_downgrades (c c1 l l1 : MysqlCluster) (rev : nat) (sts : option StatefulSet) (m : member) (ms : list member) :
  runnable c l → runnable c1 l1 → versioned c → versioned c1 → cl_Status c1 = cl_Status c →
  ClusterDesiredVersion c = AppliedDataPlaneVersion c → version_lt (AppliedDataPlaneVersion c) (ClusterDesiredVersion c1) →
  ValidateUpgradePath (AppliedDataPlaneVersion c) (ClusterDesiredVersion c1) = Ok tt →
  ∃ st' m', rtc (step opt (λ _ _, True)) (mkState c rev sts (m :: ms) None) st' ∧ m' ∈ s_Members st' ∧
    m_History m' = ClusterDesiredVersion c :: ClusterDesiredVersion c1 :: m_History m ∧ ¬ Sorted upgrades (m_History m').
Proof.
  intros Hrun Hrun1 Hv Hv1 Hst Hd Hlt Hp.
  assert (AppliedDataPlaneVersion c1 = AppliedDataPlaneVersion c) as Hap by (unfold AppliedDataPlaneVersion; by rewrite Hst).
  assert (AppliedDataPlaneVersion c ≠ Zero) as Ha by (rewrite <-Hd; apply Hv).
  assert (version_fits (AppliedDataPlaneVersion c)) as Hf by (rewrite <-Hd; apply Hv).
  assert (goal c1 = ClusterDesiredVersion c1) as Hg1 by (apply goal_accepted; by rewrite Hap).
  assert (goal c = ClusterDesiredVersion c) as Hg by (apply goal_accepted; [done|rewrite Hd; apply upgrade_refl]).
  destruct (moves (λ _ _, True) c1 l1 (S rev) sts (m :: ms)) as (s1 & R1 & _); [done|done|by rewrite Hap..|].
  set (ms1 := _ <$> m :: ms) in R1.
  destruct (moves (λ _ _, True) c l (S (S rev)) (Some s1) ms1) as (s2 & R2 & _); [done..|].
  eexists _, (mkMember (upPod []) (goal c :: goal c1 :: m_History m)). split_and!.
  - eapply rtc_l; [apply (step_edit _ _ _ _ _ _ _ c1); [done|done|split; apply Hv1]|]. etrans; [exact R1|].
    eapply rtc_l; [apply (step_edit _ _ _ _ _ _ _ c); [done|done|split; apply Hv]|]. exact R2.
  - left.
  - by rewrite Hg, Hg1.
  - simpl. intros [_ Hh%HdRel_inv]%Sorted_inv. apply ValidateUpgradePath_iff in Hh as [Hn _].
    apply Hn. by rewrite Hg, Hg1, Hd.
Qed.

(** Without the restriction on images, data skips versions: what is held back is the
    version of the stateful set, but not its image, if the user set one or if no image
    is known for the version that is held.  A user who asks for a version that the
    check rejects gets it nevertheless, while the stateful set says that it is held. *)
Theorem image_skips (c c1 l1 : MysqlCluster) (rev : nat) (s : StatefulSet) (m : member) (ms : list member) :
  let a := AppliedDataPlaneVersion c in
  let v := image_version (serverImageForVersion opt c1 a) in
  settled (mkState c rev (Some s) (m :: ms) None) → head (m_History m) = Some a → version_fits a →
  runnable c1 l1 → readable c1 → cl_Status c1 = cl_Status c → a ≠ Zero →
  is_ok (ValidateUpgradePath a (ClusterDesiredVersion c1)) = false → v ≠ Zero → ValidateUpgradePath a v ≠ Ok tt →
  ∃ st' m', rtc (step opt (λ st _, settled st)) (mkState c rev (Some s) (m :: ms) None) st' ∧ m' ∈ s_Members st' ∧
    template st' = a ∧ m_History m' = v :: m_History m ∧ ¬ Sorted upgrades (m_History m').
Proof.
  intros a v Hset Hh Hf Hrun Hread Hst Ha Hblock Hv Hskip.
  assert (AppliedDataPlaneVersion c1 = a) as Hap by (unfold a, AppliedDataPlaneVersion; by rewrite Hst).
  assert (goal c1 = a) as Hg by (rewrite goal_known, Hap, Hblock by (by rewrite Hap); done).
  destruct (run_syncs (λ st _, settled st) c1 l1 (S rev) (Some s) (m :: ms) 0 Hrun) as (s1 & l' & R & E & I & _);
    [left; by rewrite Hap|by rewrite Hg|].
  eexists _, (mkMember (upPod []) (v :: m_History m)). split_and!.
  - eapply rtc_l; [by apply (step_edit _ _ _ _ _ _ _ c1)|]. etrans; [exact R|].
    apply (starts _ _ _ _ _ _ (upPod []) v); [done|by rewrite I, Hg].
  - left.
  - unfold template. cbn [s_StatefulSet]. by rewrite E.
  - done.
  - simpl. intros [_ Hd]%Sorted_inv. destruct (m_History m) as [|x older]; [done|]. injection Hh as ->.
    by apply HdRel_inv in Hd.
Qed.

End Progress.

(** ** Examples *)

Section Witnesses.
#[local] Existing Instances Ref.blang Ref.blang_laws sampleProcess RefResource.resource RefResource.access
  RefPodDefaults.pod_defaults RefPodDefaults.pod_defaults_laws.

(** What the images of the built-in table have in them. *)
#[local] Instance sampleImages : Images := λ image,
  match List.find (λ e, String.eqb e.2 image) (map_to_list MysqlImageVersions) with
  | Some (version, _) => match Parse version with Ok v => v | Err _ => Zero end
  | None => Zero
  end.

(** A cluster of three nodes that is asked to run a version. *)
Definition asking (version : string) (status : MysqlClusterStatus) : MysqlCluster :=
  mkCluster (Sample.meta "demo" "prod") ((Sample.spec version 3) {{ SidecarImage := "sidecar" }}) status.

Lemma asking_runnable version status :
  version ∈ ["5.7"; "8.0"; "8.4"] →
  ∃ l, runnable sampleOptions (asking version status) l ∧ Replicas (cl_Spec l) = Some 3%Z.
Proof.
  intros Hv. assert (match SetDefaults sampleOptions (SetDefaults_MysqlCluster (asking version status)) with
    | Some l => Validate l = Ok tt ∧ Replicas (cl_Spec l) = Some 3%Z | None => False end) as Hd.
  { rewrite !elem_of_cons in Hv. destruct Hv as [->|[->|[->|[]%not_elem_of_nil]]]; vm_compute; auto. }
  destruct (SetDefaults _ _) as [l|] eqn:E; [|done]. exists l. destruct Hd. by split_and!.
Qed.

Lemma asking_readable version status : version ∈ ["5.7"; "8.0"; "8.4"] → readable (asking version status).
Proof.
  intros Hv. rewrite !elem_of_cons in Hv. destruct Hv as [->|[->|[->|[]%not_elem_of_nil]]];
    (split; [repeat split|vm_compute; discriminate]).
Qed.

Lemma asking_versioned version status : version ∈ ["5.7"; "8.0"; "8.4"] →
  goal (asking version status) = DesiredVersion version → versioned sampleOptions (asking version status).
Proof.
  intros Hv Hg. destruct (asking_readable version status Hv) as [Hf Hn]. split; [done|]. split; [done|]. unfold faithful. rewrite Hg.
  change (image_version (serverImageForVersion sampleOptions (asking version (mkStatus "" 0 [] []))
    (DesiredVersion version)) = DesiredVersion version).
  rewrite !elem_of_cons in Hv. destruct Hv as [->|[->|[->|[]%not_elem_of_nil]]]; vm_compute; reflexivity.
Qed.

Lemma asking_new version : version ∈ ["5.7"; "8.0"; "8.4"] → versioned sampleOptions (asking version (mkStatus "" 0 [] [])).
Proof. intros Hv. apply asking_versioned; [done|]. by rewrite goal_unknown. Qed.

Lemma asking_next version status a : version ∈ ["5.7"; "8.0"; "8.4"] → AppliedDataPlaneVersionOf (AppliedMysqlVersion status) = a →
  a ≠ Zero → ValidateUpgradePath a (DesiredVersion version) = Ok tt → versioned sampleOptions (asking version status).
Proof.
  intros Hv Ha Hn Hp. apply asking_versioned; [done|].
  change (AppliedDataPlaneVersion (asking version status) = a) in Ha. rewrite goal_known; rewrite Ha; [|done].
  change (ClusterDesiredVersion (asking version status)) with (DesiredVersion version). by rewrite Hp.
Qed.

(** An upgrade of three pods that is asked for when the one before is complete. *)
Lemma next_upgrade version c rev s ms a :
  let d := DesiredVersion version in
  version ∈ ["5.7"; "8.0"; "8.4"] → AppliedDataPlaneVersion c = a → SemVerFromStatefulSet (Some s) = a →
  Forall (λ m, head (m_History m) = Some a) ms → length ms = 3%nat → a ≠ Zero → version_fits a →
  ValidateUpgradePath a d = Ok tt →
  ∃ c' rev' s' ms', rtc (step sampleOptions (careful sampleOptions)) (mkState c rev (Some s) ms None) (mkState c' rev' (Some s') ms' None) ∧
    AppliedDataPlaneVersion c' = d ∧ SemVerFromStatefulSet (Some s') = d ∧
    Forall2 (λ m m', m_History m' = d :: m_History m) ms ms'.
Proof.
  intros d Hv Ha Hs Hh Hlen Hnz Hf Hp. set (c1 := asking version (cl_Status c)).
  destruct (asking_runnable version (cl_Status c) Hv) as (l & Hrun & Hn).
  assert (AppliedDataPlaneVersion c1 = a) as Ha1 by exact Ha.
  destruct (rolls_out sampleOptions (careful sampleOptions) c1 l (S rev) (Some s) ms) as (c2 & rev2 & s2 & ms2 & R & Ha2 & _ & Hs2 & Hh2);
    [done|by rewrite Hlen, Hn|by destruct ms|by eapply asking_next|by rewrite Ha1|by rewrite Ha1|left; by rewrite Ha1|].
  exists c2, rev2, s2, ms2. split_and!; [|done..].
  eapply rtc_l; [apply (step_edit _ _ _ _ _ _ _ c1); [|done|by apply asking_readable]|exact R].
  split; [|by eapply asking_next]. left. unfold applied, template. cbn [s_Cluster s_StatefulSet s_Members s_Run]. rewrite Ha, Hs.
  split_and!; [done|done| |done]. eapply Forall_impl; [exact Hh|]. intros m ->. by right.
Qed.

(** Two upgrades, one after the other: the data of a pod was of 5.7, of 8.0 and of 8.4. *)
Definition upgradedTwice : list Version := [mkVersion 8 4 8; mkVersion 8 0 20; mkVersion 5 7 35].

Lemma heads (ms ms' : list member) d :
  Forall2 (λ m m', m_History m' = d :: m_History m) ms ms' → Forall (λ m, head (m_History m) = Some d) ms'.
Proof. induction 1 as [|m m' ms ms' E _ IH]; constructor; [by rewrite E|done]. Qed.

Lemma two_upgrades : ∃ st, reachable sampleOptions (careful sampleOptions) st ∧ ∃ m, m ∈ s_Members st ∧ m_History m = upgradedTwice.
Proof.
  assert ("5.7" ∈ ["5.7"; "8.0"; "8.4"] ∧ "8.0" ∈ ["5.7"; "8.0"; "8.4"] ∧ "8.4" ∈ ["5.7"; "8.0"; "8.4"]) as (I57 & I80 & I84)
    by (split_and!; set_solver).
  set (c0 := asking "5.7" (mkStatus "" 0 [] [])). destruct (asking_runnable "5.7" (mkStatus "" 0 [] []) I57) as (l0 & R0 & N0).
  destruct (comes_up sampleOptions (careful sampleOptions) c0 l0 2) as (c1 & rev1 & s1 & m1 & ms1 & S1 & A1 & T1 & L1 & F1);
    [done|by apply asking_new|done|done|].
  change (ClusterDesiredVersion c0) with (mkVersion 5 7 35) in *.
  destruct (next_upgrade "8.0" c1 rev1 s1 (m1 :: ms1) (mkVersion 5 7 35)) as (c2 & rev2 & s2 & ms2 & S2 & A2 & T2 & F2);
    [done|done|done| |by simpl; rewrite L1|done|done|vm_compute; reflexivity|].
  { eapply Forall_impl; [exact F1|]. by intros m ->. }
  change (DesiredVersion "8.0") with (mkVersion 8 0 20) in *.
  destruct (next_upgrade "8.4" c2 rev2 s2 ms2 (mkVersion 8 0 20)) as (c3 & rev3 & s3 & ms3 & S3 & A3 & T3 & F3);
    [done|done|done|by eapply heads|by rewrite <-(Forall2_length _ _ _ F2); simpl; rewrite L1|done|done|vm_compute; reflexivity|].
  exists (mkState c3 rev3 (Some s3) ms3 None). split.
  - exists (mkState c0 0 None [] None). split; [exists c0; split_and!; [done|done|by apply asking_new]|].
    etrans; [exact S1|]. etrans; [exact S2|exact S3].
  - destruct ms2 as [|x2 ms2]; [by apply Forall2_length in F2|]. destruct ms3 as [|x3 ms3]; [by apply Forall2_length in F3|].
    apply Forall2_cons in F2 as [E2 _], F3 as [E3 _]. exists x3. split; [by left|]. rewrite E3, E2.
    apply Forall_inv in F1. by rewrite F1.
Qed.

(** Such a pod can be reached, and the version in between is the one of the theorem. *)
Lemma data_upgraded_in_order_witness : ∃ st m, reachable sampleOptions (careful sampleOptions) st ∧ m ∈ s_Members st ∧
  m_History m = upgradedTwice ∧ Sorted upgrades upgradedTwice ∧
  ∃ v, v ∈ [mkVersion 8 0 20] ∧ Name (ProfileFor v) = ProfilePercona80.
Proof.
  destruct two_upgrades as (st & Hr & m & Hm & Hh). exists st, m.
  destruct (proj1 (data_upgraded_in_order sampleOptions st Hr) m Hm) as (Hs & _ & H80).
  split; [done|]. split; [done|]. split; [done|]. rewrite Hh in Hs. split; [done|].
  apply (H80 [] (mkVersion 8 4 8) [mkVersion 8 0 20] (mkVersion 5 7 35) []); [done|done|vm_compute; reflexivity].
Defined.

(** Three pods run a version, and another one is asked for. *)
Lemma asked_for v0 v a :
  v0 ∈ ["5.7"; "8.0"; "8.4"] → v ∈ ["5.7"; "8.0"; "8.4"] → a = DesiredVersion v0 → a ≠ Zero → ValidateUpgradePath a (DesiredVersion v) = Ok tt →
  ∃ rev s m ms status, let st := mkState (asking v status) rev (Some s) (m :: ms) None in
    reachable sampleOptions (careful sampleOptions) st ∧ applied st = a ∧ template st = a ∧ length ms = 2%nat ∧ Forall (λ m, m_History m = [a]) (m :: ms).
Proof.
  intros I0 I -> Hnz Hp. set (c0 := asking v0 (mkStatus "" 0 [] [])).
  destruct (asking_runnable v0 (mkStatus "" 0 [] []) I0) as (l0 & R0 & N0).
  destruct (comes_up sampleOptions (careful sampleOptions) c0 l0 2) as (c1 & rev1 & s1 & m1 & ms1 & S1 & A1 & T1 & L1 & F1);
    [done|by apply asking_new|done|done|].
  exists (S rev1), s1, m1, ms1, (cl_Status c1). split_and!; [|exact A1|exact T1|done|exact F1].
  exists (mkState c0 0 None [] None). split; [exists c0; split_and!; [done|done|by apply asking_new]|].
  eapply rtc_r; [exact S1|]. apply step_edit; [|done|by apply asking_readable].
  split; [|by eapply asking_next]. left. unfold applied, template. cbn [s_Cluster s_StatefulSet s_Members s_Run]. rewrite A1, T1.
  split_and!; [done|done| |done]. eapply Forall_impl; [exact F1|]. intros m ->. by right.
Qed.

Lemma upgrade_can_complete_witness : ∃ st st', reachable sampleOptions (careful sampleOptions) st ∧
  applied st = mkVersion 5 7 35 ∧ rtc (step sampleOptions (λ _ _, False)) st st' ∧ applied st' = mkVersion 8 0 20.
Proof.
  destruct (asked_for "5.7" "8.0" (mkVersion 5 7 35)) as (rev & s & m & ms & status & Hr & Ha & _ & Hn & _);
    [set_solver|set_solver|vm_compute; reflexivity|done|vm_compute; reflexivity|].
  destruct (asking_runnable "8.0" status) as (l & Hl & Hreps); [set_solver|].
  eexists _. destruct (upgrade_can_complete sampleOptions _ l Hr) as (st' & Hst & _ & Hap & _).
  - by rewrite Ha.
  - rewrite Ha. vm_compute. reflexivity.
  - done.
  - cbn [s_Members length]. by rewrite Hreps, Hn.
  - done.
  - exists st'. split_and!; [exact Hr|exact Ha|exact Hst|]. rewrite Hap. vm_compute. reflexivity.
Defined.

(** 8.4 is asked for, and 8.0 again when the pods run 8.4. *)
Lemma revert_downgrades_witness : ∃ st st' m, reachable sampleOptions (careful sampleOptions) st ∧ settled st ∧
  rtc (step sampleOptions (λ _ _, True)) st st' ∧ m ∈ s_Members st' ∧
  m_History m = [mkVersion 8 0 20; mkVersion 8 4 8; mkVersion 8 0 20].
Proof.
  destruct (asked_for "8.0" "8.0" (mkVersion 8 0 20)) as (rev & s & m & ms & status & Hr & Ha & Ht & _ & Hh);
    [set_solver|set_solver|vm_compute; reflexivity|done|vm_compute; reflexivity|].
  destruct (asking_runnable "8.0" status) as (l & Hl & _); [set_solver|].
  destruct (asking_runnable "8.4" status) as (l1 & Hl1 & _); [set_solver|].
  assert (AppliedDataPlaneVersion (asking "8.0" status) = mkVersion 8 0 20) as Hap by exact Ha.
  destruct (revert_downgrades sampleOptions (asking "8.0" status) (asking "8.4" status) l l1 rev (Some s) m ms)
    as (st' & m' & Hst & Hin & Hm' & _);
    [done|done|eapply asking_next; [set_solver|exact Hap|done|vm_compute; reflexivity]..|done|rewrite Hap; vm_compute; reflexivity|
     rewrite Hap; vm_compute; tauto|rewrite Hap; vm_compute; reflexivity|].
  eexists _, st', m'. split; [exact Hr|]. split; [left|split; [exact Hst|split; [done|]]].
  - rewrite Ha, Ht. split_and!; [done|done| |done]. eapply Forall_impl; [exact Hh|]. intros x ->. by right.
  - rewrite Hm'. apply Forall_inv in Hh. by rewrite Hh.
Defined.

(** 8.4 is asked for with an image that is set, while pods run 5.7: the stateful set says
    that it holds 5.7.35, and its pods run 8.4.8 on the data of 5.7. *)
Definition pinned (version image : string) (status : MysqlClusterStatus) : MysqlCluster :=
  let c := asking version status in with_Spec ((cl_Spec c) {{ Image := image }}) c.

Lemma image_skips_witness : ∃ st st' m, reachable sampleOptions (careful sampleOptions) st ∧
  rtc (step sampleOptions (λ st _, settled st)) st st' ∧ m ∈ s_Members st' ∧
  template st' = mkVersion 5 7 35 ∧ m_History m = [mkVersion 8 4 8; mkVersion 5 7 35].
Proof.
  destruct (asked_for "5.7" "5.7" (mkVersion 5 7 35)) as (rev & s & m & ms & status & Hr & Ha & Ht & _ & Hh);
    [set_solver|set_solver|vm_compute; reflexivity|done|vm_compute; reflexivity|].
  set (c1 := pinned "8.4" "docker.io/percona/percona-server@sha256:eaa4cf955f8a01a43faa6ef656bf8fb69a17c17c278a3b0514212291ca0448b1" status).
  assert (∃ l1, runnable sampleOptions c1 l1) as [l1 Hl1].
  { assert (match SetDefaults sampleOptions (SetDefaults_MysqlCluster c1) with
      | Some l => Validate l = Ok tt | None => False end) as Hd by (vm_compute; reflexivity).
    destruct (SetDefaults _ _) as [l|] eqn:E; [|done]. by exists l. }
  assert (AppliedDataPlaneVersion (asking "5.7" status) = mkVersion 5 7 35) as Hap by exact Ha.
  pose proof (image_skips sampleOptions (asking "5.7" status) c1 l1 rev s m ms) as Hw. cbv zeta in Hw.
  rewrite Hap in Hw. change (image_version (serverImageForVersion sampleOptions c1 (mkVersion 5 7 35)))
    with (image_version "docker.io/percona/percona-server@sha256:eaa4cf955f8a01a43faa6ef656bf8fb69a17c17c278a3b0514212291ca0448b1") in Hw.
  assert (image_version "docker.io/percona/percona-server@sha256:eaa4cf955f8a01a43faa6ef656bf8fb69a17c17c278a3b0514212291ca0448b1" = mkVersion 8 4 8) as Hi by (vm_compute; reflexivity). rewrite Hi in Hw.
  destruct Hw as (st' & m' & Hst & Hin & Ht' & Hm' & _).
  - left. rewrite Ha, Ht. split_and!; [done|done| |done]. eapply Forall_impl; [exact Hh|]. intros x ->. by right.
  - apply Forall_inv in Hh. by rewrite Hh.
  - repeat split.
  - exact Hl1.
  - split; [repeat split|vm_compute; discriminate].
  - reflexivity.
  - discriminate.
  - vm_compute. reflexivity.
  - discriminate.
  - vm_compute. discriminate.
  - eexists _, st', m'. split; [exact Hr|]. split; [exact Hst|]. split; [done|]. split; [done|].
    rewrite Hm'. apply Forall_inv in Hh. by rewrite Hh.
Defined.

(** The same without an image that is set, for a version that was recorded and of which
    the operator knows no image: that of the version that is asked for is taken. *)
Lemma unknown_image_skips :
  let c := asking "8.4" (mkStatus "5.7.39" 3 [] []) in
  AppliedDataPlaneVersion c = mkVersion 5 7 39 ∧ RolloutMySQLVersion c None = mkVersion 5 7 39 ∧
  is_ok (EnsureChecked c) = false ∧ image_version (serverImageForVersion sampleOptions c (mkVersion 5 7 39)) = mkVersion 8 4 8.
Proof. vm_compute. split_and!; reflexivity. Qed.

End Witnesses.
