(* ===== verification/Backups.v ===== *)
(** * Backups and their jobs

    [pkg/apis/mysql/v1alpha1/mysqlbackup_types.go], [pkg/internal/mysqlbackup] and
    [pkg/controller/mysqlbackup/internal/syncer]: where a backup is stored, the names
    of its jobs, its conditions, the job that takes it and the one that deletes it
    from the remote storage.  The callbacks of the syncers change the backup besides
    the job.

    [mergo] and [SetControllerReference] are the classes [MergePodSpec] and
    [JobOwner]. *)

From S2P Require Import Prelude KubeSync GoStrings Semver ClusterTypes Versioning ClusterStatus ClusterModel.
From S2P Require Import ClusterDefaults StatefulSet Syncers MysqlObjects Finalizers.
From coqutil Require Import Datatypes.RecordSetters.
Import DoubleBraceUpdate.
Open Scope stdpp_scope.

(** ** The resource *)

(* src/pkg/apis/mysql/v1alpha1/mysqlbackup_types.go:51-63 BackupCondition *)
Record BackupCondition := mkBackupCondition {
  bc_Type : string; bc_Status : ConditionStatus; bc_LastTransitionTime : Z;
  bc_Reason : string; bc_Message : string }.

(* src/pkg/apis/mysql/v1alpha1/mysqlbackup_types.go:65-73 BackupComplete *)
Definition BackupComplete : string := "Complete".
Definition BackupFailed : string := "Failed".

(* src/pkg/apis/mysql/v1alpha1/mysqlbackup_types.go:75-85 Delete *)
Definition Delete : string := "delete".
Definition Retain : string := "retain".

(* src/pkg/apis/mysql/v1alpha1/mysqlbackup_types.go:30-48 MysqlBackupSpec *)
Record MysqlBackupSpec := mkBackupSpec {
  b_ClusterName : string; b_BackupURL : string; b_BackupSecretName : string; b_RemoteDeletePolicy : string }.

(* src/pkg/apis/mysql/v1alpha1/mysqlbackup_types.go:88-94 MysqlBackupStatus *)
Record MysqlBackupStatus := mkBackupStatus { b_Completed : bool; b_Conditions : list BackupCondition }.

(* src/pkg/apis/mysql/v1alpha1/mysqlbackup_types.go:98-104 MysqlBackup *)
Record MysqlBackup := mkBackup {
  b_Meta : ObjectMeta; b_Spec : MysqlBackupSpec; b_Status : MysqlBackupStatus }.

#[export] Instance ObjectMeta_eq_dec : EqDecision ObjectMeta.
Proof. solve_decision. Defined.
#[export] Instance BackupCondition_eq_dec : EqDecision BackupCondition.
Proof. solve_decision. Defined.
#[export] Instance MysqlBackupSpec_eq_dec : EqDecision MysqlBackupSpec.
Proof. solve_decision. Defined.
#[export] Instance MysqlBackupStatus_eq_dec : EqDecision MysqlBackupStatus.
Proof. solve_decision. Defined.
#[export] Instance MysqlBackup_eq_dec : EqDecision MysqlBackup.
Proof. solve_decision. Defined.

Definition b_Name (b : MysqlBackup) : string := om_Name (b_Meta b).
Definition b_Namespace (b : MysqlBackup) : string := om_Namespace (b_Meta b).

#[export] Instance BackupCondition_cond : IsCondition BackupCondition string.
Proof.
  refine {| cond_type := bc_Type; cond_status := bc_Status; cond_time := bc_LastTransitionTime;
            cond_set_time := λ t c, mkBackupCondition (bc_Type c) (bc_Status c) t
                                      (bc_Reason c) (bc_Message c) |}; done.
Defined.

(* src/pkg/apis/mysql/v1alpha1/mysqlbackup_defaults.go:21-25 SetDefaults_MysqlBackup *)
Definition SetDefaults_MysqlBackup (b : MysqlBackup) : MysqlBackup :=
  if (String.length (b_RemoteDeletePolicy (b_Spec b)) =? 0)%nat
  then b {{ b_Spec -> b_RemoteDeletePolicy := Retain }} else b.

(** ** Names and places *)

(* src/pkg/internal/mysqlbackup/mysqlbackup.go:31-35 BackupSuffix *)
Definition BackupSuffix : string := "xbackup.gz".

(* src/pkg/internal/mysqlbackup/mysqlbackup.go:72-79 composeBackupURL *)
Definition composeBackupURL (b : MysqlBackup) (base : string) : string :=
  let base := if HasSuffix base "/" then str_take (String.length base - 1) base else base in
  let fileName := "/" +:+ b_Name b +:+ "." +:+ BackupSuffix in
  base +:+ fileName.

(* src/pkg/internal/mysqlbackup/mysqlbackup.go:57-70 GetBackupURL *)
Definition GetBackupURL (b : MysqlBackup) (c : MysqlCluster) : string :=
  if HasSuffix (b_BackupURL (b_Spec b)) BackupSuffix then b_BackupURL (b_Spec b)
  else if (0 <? String.length (b_BackupURL (b_Spec b)))%nat then composeBackupURL b (b_BackupURL (b_Spec b))
  else if (String.length (BackupURL (cl_Spec c)) =? 0)%nat then ""
  else composeBackupURL b (BackupURL (cl_Spec c)).

(** [hash/fnv], 32 bits, variant 1a. *)
Definition fnv32a_step (h : Z) (c : ascii) : Z :=
  ((Z.lxor h (Z.of_N (N_of_ascii c)) * 16777619) `mod` 2 ^ 32)%Z.

(* src/pkg/internal/mysqlbackup/mysqlbackup.go:105-111 hash *)
Definition hash (s : string) : Z := fold_left fnv32a_step (String.list_ascii_of_string s) 2166136261%Z.

(** A prefix that is too long for the name of a job is cut. *)
Definition jobPrefix (max : nat) (b : MysqlBackup) : string :=
  let prefix := b_Name b in
  if (max <=? String.length prefix)%nat then str_take 44 prefix +:+ "-" +:+ itoa (hash prefix) else prefix.

(* src/pkg/internal/mysqlbackup/mysqlbackup.go:82-88 GetNameForJob *)
Definition GetNameForJob (b : MysqlBackup) : string := jobPrefix 56 b +:+ "-backup".

(* src/pkg/internal/mysqlbackup/mysqlbackup.go:91-97 GetNameForDeletionJob *)
Definition GetNameForDeletionJob (b : MysqlBackup) : string := jobPrefix 55 b +:+ "-cleanup".

(* src/pkg/internal/mysqlbackup/defaults.go:24-31 SetDefaults *)
Definition SetDefaultsBackup (c : MysqlCluster) (b : MysqlBackup) : MysqlBackup :=
  let b := b {{ b_Spec -> b_BackupURL := GetBackupURL b c }} in
  if (String.length (b_BackupSecretName (b_Spec b)) =? 0)%nat
  then b {{ b_Spec -> b_BackupSecretName := BackupSecretName (cl_Spec c) }} else b.

(** ** Conditions *)

(* src/pkg/internal/mysqlbackup/status.go:32-69 UpdateStatusCondition *)
Definition UpdateBackupCondition (now : Z) (condType : string) (status : ConditionStatus) (reason msg : string)
    (b : MysqlBackup) : MysqlBackup :=
  let newCondition := mkBackupCondition condType status 0 reason msg in
  b {{ b_Status -> b_Conditions ::= λ l, (updateConditions now newCondition l).1 }}.

(* src/pkg/internal/mysqlbackup/status.go:82-89 GetBackupCondition *)
Definition GetBackupCondition (b : MysqlBackup) (condType : string) : option BackupCondition :=
  i ← condIndex condType (b_Conditions (b_Status b)); b_Conditions (b_Status b) !! i.

(** ** Jobs *)

Record JobCondition := mkJobCondition {
  jc_Type : string; jc_Status : ConditionStatus; jc_Reason : string; jc_Message : string }.

Record JobPodSpec := mkJobPodSpec { jp_RestartPolicy : string; jp_Pod : CorePodSpec }.

Record Job := mkJob { job_Meta : ObjectMeta; job_Template : JobPodSpec; job_Conditions : list JobCondition }.

Definition JobComplete : string := "Complete".
Definition JobFailed : string := "Failed".
Definition RestartPolicyNever : string := "Never".

Definition emptyPod : JobPodSpec := mkJobPodSpec "" (mkCorePodSpec [] [] [] None [] ∅ "" [] "" None).
Definition emptyContainer : Container :=
  mkContainerFull "" "" "" [] None None None None None no_resources None None None None "" "".

(* src/pkg/controller/mysqlbackup/internal/syncer/job.go:241-250 jobCondition *)
Definition jobCondition (condType : string) (job : Job) : option JobCondition :=
  List.find (λ c, String.eqb (jc_Type c) condType) (job_Conditions job).

(* src/pkg/controller/mysqlbackup/internal/syncer/deletionjob.go:213-229 getJobStatus *)
Definition getJobStatus (job : Job) : bool * bool :=
  let isTrue ty := match jobCondition ty job with
                   | Some c => bool_decide (jc_Status c = ConditionTrue) | None => false end in
  (isTrue JobComplete, isTrue JobFailed).

(** The part of [updateStatus] for one type of condition. *)
Definition followJob (now : Z) (job : Job) (jobType backupType : string) (b : MysqlBackup) : MysqlBackup :=
  match jobCondition jobType job with
  | None => b
  | Some cond =>
      let b := UpdateBackupCondition now backupType (jc_Status cond) (jc_Reason cond) (jc_Message cond) b in
      if bool_decide (jc_Status cond = ConditionTrue) then b {{ b_Status -> b_Completed := true }} else b
  end.

(* src/pkg/controller/mysqlbackup/internal/syncer/job.go:222-240 updateStatus *)
Definition updateStatus (now : Z) (job : Job) (b : MysqlBackup) : MysqlBackup :=
  followJob now job JobFailed BackupFailed (followJob now job JobComplete BackupComplete b).

(* src/pkg/controller/mysqlbackup/internal/syncer/deletionjob.go:209-211 bucketForRclone *)
Definition bucketForRclone (name : string) : string := ReplaceFirst name "://" ":".

(** ** The callbacks *)

(** [mergo.Merge] with the transformer for pod specifications. *)
Class MergePodSpec := merge_pod_spec : JobPodSpec → JobPodSpec → result JobPodSpec.

(** [SetControllerReference] of a job. *)
Class JobOwner := own_job : MysqlBackup → Job → result Job.

(** The only call of the callbacks: an event on the cluster. *)
Inductive job_op := JobEvent (cluster : MysqlCluster) (type_ reason message : string).
#[export] Instance job_effect : Effect job_op := λ _, unit.

(** [removeFinalizer] may index out of range. *)
Definition outOfRange : error := ErrMsg "slice bounds out of range".

Definition set_b_finalizers (l : list string) (b : MysqlBackup) : MysqlBackup :=
  b {{ b_Meta ::= with_Finalizers l }}.

(* src/pkg/controller/mysqlbackup/internal/syncer/deletionjob.go:231-245 addFinalizer *)
Definition addBackupFinalizer (b : MysqlBackup) (finalizer : string) : MysqlBackup :=
  set_b_finalizers (addFinalizer (om_Finalizers (b_Meta b)) finalizer) b.

(* src/pkg/controller/mysqlbackup/internal/syncer/deletionjob.go:243-258 removeFinalizer *)
Definition removeBackupFinalizer (b : MysqlBackup) (finalizer : string) : option MysqlBackup :=
  (λ l, set_b_finalizers l b) <$> removeFinalizer (om_Finalizers (b_Meta b)) finalizer.

Section Syncers.
Context `{!Blang, !Process, !MergePodSpec, !JobOwner} (opt : Options).

(* src/pkg/controller/mysqlbackup/internal/syncer/deletionjob.go:45-51 RemoteStorageFinalizer *)
Definition RemoteStorageFinalizer : string := FinalizerRemoteStorageCleanup.
Definition RemoteDeletionFailedEvent : string := "RemoteDeletionFailed".

(** *** The job that takes the backup *)

Fixpoint candidate (c : MysqlCluster) (nodes : list NodeStatus) : string :=
  match nodes with
  | [] => GetMasterHost c
  | node :: nodes =>
      let (master, c) := GetNodeCondition (ns_Name node) NodeConditionMaster c in
      let (replicating, c) := GetNodeCondition (ns_Name node) NodeConditionReplicating c in
      let (lagged, c) := GetNodeCondition (ns_Name node) NodeConditionLagged c in
      match master, replicating, lagged with
      | Some _, Some _, Some _ =>
          let isMaster := status_is ConditionTrue master in
          let isReplicating := status_is ConditionTrue replicating in
          let isLagged := status_is ConditionTrue lagged in
          if negb isMaster && isReplicating && negb isLagged then ns_Name node else candidate c nodes
      | _, _, _ => candidate c nodes
      end
  end.

(* src/pkg/controller/mysqlbackup/internal/syncer/job.go:94-117 getBackupCandidate *)
Definition getBackupCandidate (c : MysqlCluster) : string := candidate c (st_Nodes (cl_Status c)).

Definition secretVar (c : MysqlCluster) (key : string) : EnvVar :=
  mkEnvVarFrom key "" (Some (SecretKeyRef (GetNameForResource Secret (cl_Name c)) key true)).

(** The environment of the container. *)
Definition backupEnv (c : MysqlCluster) : list EnvVar :=
  let spec := cl_Spec c in
  let hasBackupCompressCommand := (0 <? length (BackupCompressCommand spec))%nat in
  let hasBackupDecompressCommand := (0 <? length (BackupDecompressCommand spec))%nat in
  [secretVar c "BACKUP_USER"; secretVar c "BACKUP_PASSWORD"] ++
  (if hasBackupCompressCommand && hasBackupDecompressCommand
   then [mkEnvVar "BACKUP_COMPRESS_COMMAND" (Join (BackupCompressCommand spec) " ")] else []) ++
  (if (0 <? length (RcloneExtraArgs spec))%nat
   then [mkEnvVar "RCLONE_EXTRA_ARGS" (Join (RcloneExtraArgs spec) " ")] else []).

Definition envFromSecret (b : MysqlBackup) (old : option (list EnvFromSource)) : option (list EnvFromSource) :=
  if negb (String.length (b_BackupSecretName (b_Spec b)) =? 0)%nat
  then Some [EnvFromSecret (b_BackupSecretName (b_Spec b))] else old.

(** The secret [opt.ImagePullSecretName], set first, is overwritten. *)
(* src/pkg/controller/mysqlbackup/internal/syncer/job.go:122-217 ensurePodSpec *)
Definition ensureBackupPodSpec (b : MysqlBackup) (c : MysqlCluster) (in_ : JobPodSpec) : JobPodSpec :=
  let pod := jp_Pod in_ in
  let spec := sp_PodSpec (cl_Spec c) in
  let container := default emptyContainer (head (cps_Containers pod)) in
  let container := container {{ c_Name := "backup" }} {{ c_Image := GetSidecarImage c }}
    {{ c_ImagePullPolicy := o_ImagePullPolicy opt }}
    {{ c_Args := Some ["take-backup-to"; getBackupCandidate c; GetBackupURL b c] }}
    {{ c_EnvVars := Some (backupEnv c) }} {{ c_EnvFrom ::= envFromSecret b }} in
  let pod := pod {{ cps_Containers := container :: tail (cps_Containers pod) }}
    {{ cps_ImagePullSecrets := ImagePullSecrets spec }} {{ cps_ServiceAccountName := ServiceAccountName spec }}
    {{ cps_Affinity := match BackupAffinity spec with None => ps_Affinity spec | Some a => Some a end }}
    {{ cps_NodeSelector := default (NodeSelector spec) (BackupNodeSelector spec) }}
    {{ cps_PriorityClassName := if (String.length (BackupPriorityClassName spec) =? 0)%nat
                                then PriorityClassName spec else BackupPriorityClassName spec }}
    {{ cps_Tolerations := default (Tolerations spec) (BackupTolerations spec) }} in
  mkJobPodSpec RestartPolicyNever pod.

(* src/pkg/controller/mysqlbackup/internal/syncer/job.go:67-90 SyncFn *)
Definition jobSyncFn (now : Z) (c : MysqlCluster) (b : MysqlBackup) (job : Job) : MysqlBackup * Job * result unit :=
  if b_Completed (b_Status b) then (b, job, Err ErrIgnore)
  else if (String.length (GetBackupURL b c) =? 0)%nat then (b, job, Err (ErrMsg "can't get backupURL"))
  else if negb (om_CreationTimestamp (job_Meta job) =? 0)%Z then (updateStatus now job b, job, Ok tt)
  else
    let job := job {{ job_Meta -> om_Labels := {["cluster" := b_ClusterName (b_Spec b)]} }} in
    (b, job {{ job_Template ::= ensureBackupPodSpec b c }}, Ok tt).

(** *** The job that deletes it *)

(* src/pkg/controller/mysqlbackup/internal/syncer/deletionjob.go:165-201 ensureContainers *)
Definition deletionContainer (b : MysqlBackup) (c : option MysqlCluster) : Container :=
  let rcloneCommand := ["rclone"; "--config=" +:+ "/tmp/rclone.conf"] ++
    (match c with Some c => RcloneExtraArgs (cl_Spec c) | None => [] end) ++
    ["delete"; bucketForRclone (b_BackupURL (b_Spec b))] in
  let image := match c, Default with
    | Some c, _ => GetSidecarImage c
    | None, Some rt =>
        ResolverSidecarImage (rt_Resolver rt) (SidecarProfileKey (MustResolve (rt_Registry rt) (default Zero (MustParse "8.0.30"))))
    | None, None => SidecarMysql8Image opt
    end in
  emptyContainer {{ c_Name := "delete" }} {{ c_Image := image }} {{ c_ImagePullPolicy := o_ImagePullPolicy opt }}
    {{ c_Args := Some rcloneCommand }} {{ c_EnvFrom ::= envFromSecret b }}.

(* src/pkg/controller/mysqlbackup/internal/syncer/deletionjob.go:145-163 ensurePodSpec *)
Definition deletionPodSpec (b : MysqlBackup) (c : option MysqlCluster) : JobPodSpec :=
  let serviceAccountName := match c with Some c => ServiceAccountName (sp_PodSpec (cl_Spec c)) | None => "" end in
  mkJobPodSpec RestartPolicyNever
    ((jp_Pod emptyPod) {{ cps_Containers := [deletionContainer b c] }}
      {{ cps_ImagePullSecrets := [o_ImagePullSecretName opt] }} {{ cps_ServiceAccountName := serviceAccountName }}).

(** A job that is new gets its labels, its pod and its owner. *)
Definition newDeletionJob (b : MysqlBackup) (c : option MysqlCluster) (job : Job) : result Job :=
  if (om_CreationTimestamp (job_Meta job) =? 0)%Z then
    let job := job {{ job_Meta -> om_Labels := <["backup" := b_Name b]> {["cleanup-job" := "true"]} }} in
    pod ← merge_pod_spec (job_Template job) (deletionPodSpec b c);
    own_job b (job {{ job_Template := pod }})
  else Ok job.

(* src/pkg/controller/mysqlbackup/internal/syncer/deletionjob.go:203-207 recordWEventOnCluster *)
Definition recordWEventOnCluster (c : option MysqlCluster) (reason msg : string) : prog job_op unit :=
  match c with Some c => call (JobEvent c "Warning" reason msg) | None => mret tt end.

(** Without the finalizer, and with the given result. *)
Definition releaseBackup (b : MysqlBackup) (job : Job) (r : result unit) : MysqlBackup * Job * result unit :=
  match removeBackupFinalizer b RemoteStorageFinalizer with
  | Some b => (b, job, r)
  | None => (b, job, Err outOfRange)
  end.

Definition failedBackup (b : MysqlBackup) : bool :=
  match GetBackupCondition b BackupFailed with
  | Some cond => bool_decide (bc_Status cond = ConditionTrue)
  | None => false
  end.

(* src/pkg/controller/mysqlbackup/internal/syncer/deletionjob.go:87-143 SyncFn *)
Definition deletionSyncFn (c : option MysqlCluster) (b : MysqlBackup) (job : Job) :
    prog job_op (MysqlBackup * Job * result unit) :=
  if String.eqb (b_RemoteDeletePolicy (b_Spec b)) Retain then mret (b, job, Err ErrIgnore)
  else
    let b := addBackupFinalizer b RemoteStorageFinalizer in
    match om_DeletionTimestamp (b_Meta b) with
    | None => mret (b, job, Err ErrIgnore)
    | Some _ =>
        if failedBackup b then mret (releaseBackup b job (Err ErrIgnore))
        else if (String.length (b_BackupURL (b_Spec b)) =? 0)%nat then
          mret (b, job, Err (ErrMsg "empty .spec.backupURL"))
        else
          match newDeletionJob b c job with
          | Err e => mret (b, job, Err e)
          | Ok job =>
              let (completed, failed) := getJobStatus job in
              match (if completed then releaseBackup b job (Ok tt) else (b, job, Ok tt)) with
              | (b, job, Err e) => mret (b, job, Err e)
              | (b, job, Ok _) =>
                  _ ← (if failed then recordWEventOnCluster c RemoteDeletionFailedEvent "job failed" else mret tt);
                  mret (b, job, Ok tt)
              end
          end
    end.

End Syncers.

(** ** Properties *)

(** *** Names *)

Lemma fnv32a_range h c : (0 ≤ fnv32a_step h c < 2 ^ 32)%Z.
Proof. apply Z.mod_pos_bound. lia. Qed.

Lemma hash_range s : (0 ≤ hash s < 2 ^ 32)%Z.
Proof.
  unfold hash. assert (0 ≤ 2166136261 < 2 ^ 32)%Z as H0 by lia. revert H0. generalize 2166136261%Z.
  induction (String.list_ascii_of_string s) as [|c l IH]; intros z Hz; [exact Hz|]. apply IH, fnv32a_range.
Qed.

Lemma jobPrefix_length max b :
  (44 < max)%nat → (String.length (jobPrefix max b) ≤ Nat.max (max - 1) 55)%nat.
Proof.
  intros Hm. unfold jobPrefix. destruct (Nat.leb_spec max (String.length (b_Name b))) as [Hle|Hlt]; [|lia].
  rewrite !str_length_app, str_take_length.
  pose proof (itoa_length 10 (hash (b_Name b)) ltac:(lia)) as Hl. pose proof (hash_range (b_Name b)).
  specialize (Hl ltac:(lia)). simpl String.length. lia.
Qed.

(** C24. The names of the two jobs of a backup fit the 63 bytes of a label, whatever
    the name of the backup; they differ from each other; and backups with names of
    less than 55 bytes have jobs of their own. *)
Theorem job_names_fit (b : MysqlBackup) :
  (String.length (GetNameForJob b) ≤ 63)%nat ∧ (String.length (GetNameForDeletionJob b) ≤ 63)%nat ∧
  GetNameForJob b ≠ GetNameForDeletionJob b ∧
  ∀ b', (String.length (b_Name b) < 55)%nat → (String.length (b_Name b') < 55)%nat →
    GetNameForJob b = GetNameForJob b' ∨ GetNameForDeletionJob b = GetNameForDeletionJob b' → b_Name b = b_Name b'.
Proof.
  unfold GetNameForJob, GetNameForDeletionJob. rewrite !str_length_app.
  pose proof (jobPrefix_length 56 b ltac:(lia)). pose proof (jobPrefix_length 55 b ltac:(lia)).
  simpl String.length. split_and!; [lia|lia| |].
  - change "-backup" with ("-bac" +:+ "kup"). change "-cleanup" with ("-clea" +:+ "nup").
    rewrite <-!str_app_assoc. intros [_ E]%str_app_inj_tail; [discriminate E|done].
  - intros b' Hb Hb'. assert (∀ max x, (55 ≤ max)%nat → (String.length (b_Name x) < 55)%nat → jobPrefix max x = b_Name x) as Hs.
    { intros max x Hm Hx. unfold jobPrefix. by rewrite (proj2 (Nat.leb_gt _ _)) by lia. }
    rewrite !Hs by lia. by intros [[? _]%str_app_inj_tail|[? _]%str_app_inj_tail].
Qed.

(** *** Places *)

Lemma HasSuffix_app (a q : string) : HasSuffix (a +:+ q) q = true.
Proof. apply HasSuffix_spec. by exists a. Qed.

Lemma composeBackupURL_suffix b base : HasSuffix (composeBackupURL b base) BackupSuffix = true.
Proof. unfold composeBackupURL. cbv zeta. rewrite <-!str_app_assoc. apply HasSuffix_app. Qed.

Lemma GetBackupURL_suffix b c : GetBackupURL b c ≠ "" → HasSuffix (GetBackupURL b c) BackupSuffix = true.
Proof.
  unfold GetBackupURL. destruct (HasSuffix (b_BackupURL (b_Spec b)) BackupSuffix) eqn:E; [done|].
  destruct (0 <? _)%nat; [intros _; apply composeBackupURL_suffix|].
  destruct (_ =? 0)%nat; [done|]. intros _. apply composeBackupURL_suffix.
Qed.

Lemma SetDefaultsBackup_URL c b : b_BackupURL (b_Spec (SetDefaultsBackup c b)) = GetBackupURL b c.
Proof. unfold SetDefaultsBackup. cbv zeta. by destruct (_ =? 0)%nat. Qed.

(** *** Who is asked for the backup *)

(** A replica that follows its master, of which all is known. *)
Definition goodReplica (c : MysqlCluster) (node : NodeStatus) : bool :=
  let cond := nodeCondition (st_Nodes (cl_Status c)) (ns_Name node) in
  match cond NodeConditionMaster, cond NodeConditionReplicating, cond NodeConditionLagged with
  | Some m, Some r, Some l =>
      negb (status_is ConditionTrue (Some m)) && status_is ConditionTrue (Some r) &&
      negb (status_is ConditionTrue (Some l))
  | _, _, _ => false
  end.

Lemma candidate_eq c nodes :
  (∀ n, n ∈ nodes → n ∈ st_Nodes (cl_Status c)) →
  candidate c nodes = default (GetMasterHost c) (ns_Name <$> List.find (goodReplica c) nodes).
Proof.
  induction nodes as [|n nodes IH]; intros Hin; [done|]. cbn [candidate List.find].
  assert (ns_Name n ∈ ns_Name <$> st_Nodes (cl_Status c)) as Hn by (apply list_elem_of_fmap_2, Hin; by left).
  rewrite 3!GetNodeCondition_known by done. unfold goodReplica at 1.
  assert (candidate c nodes = default (GetMasterHost c) (ns_Name <$> List.find (goodReplica c) nodes)) as IH'
    by (apply IH; intros; apply Hin; by right).
  set (cond := nodeCondition (st_Nodes (cl_Status c)) (ns_Name n)).
  destruct (cond NodeConditionMaster), (cond NodeConditionReplicating), (cond NodeConditionLagged); try exact IH'.
  destruct (_ && _ && _); [done|exact IH'].
Qed.

Section Jobs.
Context `{!Blang, !Process, !MergePodSpec, !JobOwner} (opt : Options).

(** C23. What is taken is what is deleted.  Once a backup has its defaults, its URL no
    longer depends on the cluster; the backup is taken from the first replica that
    follows its master without lag, or else from the master, and to that URL; and the
    job that deletes it, whether the cluster is still there or not, runs rclone on
    the same URL. *)
Theorem backup_place (c c' : MysqlCluster) (b : MysqlBackup) (in_ : JobPodSpec) (o : option MysqlCluster) :
  GetBackupURL b c ≠ "" →
  let b' := SetDefaultsBackup c b in
  let url := GetBackupURL b c in
  GetBackupURL b' c' = url ∧
  (c_Args <$> cps_Containers (jp_Pod (ensureBackupPodSpec opt b' c in_))) !! 0%nat =
    Some (Some ["take-backup-to";
                default (GetMasterHost c) (ns_Name <$> List.find (goodReplica c) (st_Nodes (cl_Status c))); url]) ∧
  ∃ extra, c_Args (deletionContainer opt b' o) =
    Some (["rclone"; "--config=/tmp/rclone.conf"] ++ extra ++ ["delete"; bucketForRclone url]).
Proof.
  intros Hu. cbv zeta. assert (∀ x, GetBackupURL (SetDefaultsBackup c b) x = GetBackupURL b c) as Hurl.
  { intros x. unfold GetBackupURL at 1. by rewrite SetDefaultsBackup_URL, GetBackupURL_suffix. }
  split; [apply Hurl|]. split.
  - unfold ensureBackupPodSpec. cbv zeta. cbn [jp_Pod].
    unfold getBackupCandidate. rewrite <-candidate_eq, Hurl by done. reflexivity.
  - exists (match o with Some c => RcloneExtraArgs (cl_Spec c) | None => [] end).
    unfold deletionContainer. cbv zeta. rewrite SetDefaultsBackup_URL. reflexivity.
Qed.

(** The status follows the job. *)
Lemma followJob_completed now job jt bt b :
  b_Completed (b_Status (followJob now job jt bt b)) =
    (b_Completed (b_Status b) ||
     match jobCondition jt job with Some c => bool_decide (jc_Status c = ConditionTrue) | None => false end).
Proof.
  unfold followJob. destruct (jobCondition jt job) as [cond|]; [|by rewrite orb_false_r].
  case_bool_decide; [by rewrite orb_true_r|by rewrite orb_false_r].
Qed.

Lemma updateStatus_completed now job b :
  b_Completed (b_Status (updateStatus now job b)) =
    (b_Completed (b_Status b) || (getJobStatus job).1 || (getJobStatus job).2).
Proof. unfold updateStatus. by rewrite !followJob_completed. Qed.

(** Only the status changes. *)
Lemma followJob_frame now job jt bt b :
  b_Meta (followJob now job jt bt b) = b_Meta b ∧ b_Spec (followJob now job jt bt b) = b_Spec b.
Proof. unfold followJob. destruct (jobCondition jt job); [|done]. by case_bool_decide. Qed.

Lemma updateStatus_frame now job b :
  b_Meta (updateStatus now job b) = b_Meta b ∧ b_Spec (updateStatus now job b) = b_Spec b.
Proof.
  unfold updateStatus. destruct (followJob_frame now job JobFailed BackupFailed (followJob now job JobComplete BackupComplete b)) as [-> ->].
  apply followJob_frame.
Qed.

End Jobs.
