(* ===== verification/BackupController.v ===== *)
(** * The backup controller

    [pkg/controller/mysqlbackup/mysqlbackup_controller.go]: one run of [Reconcile] for
    a backup, with the callbacks of [Backups] in the object syncer, and what a run may
    write: when the finalizer that protects the remote data is released, and when a
    backup counts as completed. *)

From S2P Require Import Prelude KubeSync GoStrings Semver ClusterTypes Versioning ClusterStatus ClusterModel.
From S2P Require Import ClusterDefaults StatefulSet Syncers MysqlObjects Finalizers Backups.
Open Scope stdpp_scope.

(** ** Effects *)

Inductive bk_op :=
  | BGet (ns name : string)
  | BGetCluster (ns name : string)
  | BUpdate (b : MysqlBackup)
  | BStatusUpdate (b : MysqlBackup)
  | BJob (o : sync_op Job)
  | BJobEvent (o : job_op).

(** An update gives the backup as it is in memory afterwards. *)
#[export] Instance bk_effect : Effect bk_op := λ o,
  match o with
  | BGet _ _ | BUpdate _ | BStatusUpdate _ => result MysqlBackup
  | BGetCluster _ _ => result MysqlCluster
  | BJob o => Resp o
  | BJobEvent o => Resp o
  end.

#[export] Instance bk_job : Embeds (sync_op Job) bk_op := {| embed := BJob; answer_of o r := r; answer_to o r := r |}.
#[export] Instance bk_event : Embeds job_op bk_op := {| embed := BJobEvent; answer_of o r := r; answer_to o r := r |}.

(** ** The run *)

Section Reconcile.
Context `{!Blang, !Process, !MergePodSpec, !JobOwner, !StateSyncer bk_op Job MysqlBackup} (opt : Options).

Definition newJob (b : MysqlBackup) (name : string) : Job :=
  mkJob (mkMeta name (b_Namespace b) "" ∅ None [] 0 None) emptyPod [].

(* src/pkg/controller/mysqlbackup/internal/syncer/deletionjob.go:63-84 NewDeleteJobSyncer *)
Definition syncDeletion (c : option MysqlCluster) (b : MysqlBackup) : prog bk_op (MysqlBackup * Job * result unit) :=
  sync_state b (newJob b (GetNameForDeletionJob b)) (λ b job, lift (deletionSyncFn opt c b job)).

(* src/pkg/controller/mysqlbackup/internal/syncer/job.go:49-65 NewJobSyncer *)
Definition syncJob (now : Z) (c : MysqlCluster) (b : MysqlBackup) : prog bk_op (MysqlBackup * Job * result unit) :=
  sync_state b (newJob b (GetNameForJob b)) (λ b job, mret (jobSyncFn opt now c b job)).

(* src/pkg/controller/mysqlbackup/mysqlbackup_controller.go:171-179 getRelatedCluster *)
Definition getRelatedCluster (b : MysqlBackup) : prog bk_op (result MysqlCluster) :=
  call (BGetCluster (b_Namespace b) (b_ClusterName (b_Spec b))).

(* src/pkg/controller/mysqlbackup/mysqlbackup_controller.go:181-196 updateBackup *)
Definition updateBackup (saved b : MysqlBackup) : prog bk_op (result unit) :=
  r ← (if bool_decide (saved = b) then mret (Ok b) else call (BUpdate b) : prog bk_op (result MysqlBackup));
  match r with
  | Err e => mret (Err e)
  | Ok b =>
      if bool_decide (b_Status saved = b_Status b) then mret (Ok tt)
      else
        r ← call (BStatusUpdate b);
        mret match (r : result MysqlBackup) with Ok _ => Ok tt | Err e => Err e end
  end.

(* src/pkg/controller/mysqlbackup/mysqlbackup_controller.go:109-169 Reconcile *)
Definition ReconcileBackup (now : Z) (ns name : string) : prog bk_op (result unit) :=
  r ← call (BGet ns name);
  match (r : result MysqlBackup) with
  | Err e => mret (if is_not_found e then Ok tt else Err e)
  | Ok b =>
      let b := SetDefaults_MysqlBackup b in
      let savedBackup := b in
      if (String.length (b_ClusterName (b_Spec b)) =? 0)%nat then mret (Err (ErrMsg "cluster name is not specified"))
      else
        r ← getRelatedCluster b;
        match r with
        | Err err =>
            s ← syncDeletion None b;
            match s.2 with
            | Err e => mret (Err e)
            | Ok _ =>
                u ← updateBackup savedBackup s.1.1;
                mret match u with Err e => Err e | Ok _ => Err err end
            end
        | Ok cluster =>
            s ← syncDeletion (Some cluster) (SetDefaultsBackup cluster b);
            match s.2 with
            | Err e => mret (Err e)
            | Ok _ =>
                s ← syncJob now cluster s.1.1;
                match s.2 with
                | Err e => mret (Err e)
                | Ok _ => updateBackup savedBackup s.1.1
                end
            end
        end
  end.

End Reconcile.

(** ** What a run may write *)

(** [SetControllerReference] keeps the conditions of the job. *)
Class JobOwnerLaws `{!JobOwner} : Prop :=
  own_job_conditions b job job' : own_job b job = Ok job' → job_Conditions job' = job_Conditions job.

Definition read (b : MysqlBackup) (h : list (event bk_op)) : Prop := ∃ ns name, Ev (BGet ns name) (Ok b) ∈ h.

(** A job of the given name was read, with a status. *)
Definition jobRead (name : string) (status : bool * bool → Prop) (h : list (event bk_op)) : Prop :=
  ∃ key job, Ev (BJob (SyncFetch key)) (Ok job) ∈ h ∧ om_Name (job_Meta key) = name ∧ status (getJobStatus job).

Definition deletingBackup (b : MysqlBackup) : Prop := om_DeletionTimestamp (b_Meta b) ≠ None.

Definition policyOf (b : MysqlBackup) : string := b_RemoteDeletePolicy (b_Spec (SetDefaults_MysqlBackup b)).

(** The finalizer of [b0] is kept in [b], or the remote data is gone, or was never
    there. *)
Definition finalizerKept (b0 b : MysqlBackup) (h : list (event bk_op)) : Prop :=
  RemoteStorageFinalizer ∈ om_Finalizers (b_Meta b0) → RemoteStorageFinalizer ∉ om_Finalizers (b_Meta b) →
  deletingBackup b0 ∧ policyOf b0 ≠ Retain ∧
  (failedBackup b0 = true ∨ jobRead (GetNameForDeletionJob b0) (λ s, s.1 = true) h).

Definition completedRightly (b0 b : MysqlBackup) (h : list (event bk_op)) : Prop :=
  b_Completed (b_Status b) = true →
  b_Completed (b_Status b0) = true ∨ jobRead (GetNameForJob b0) (λ s, s.1 = true ∨ s.2 = true) h.

Definition bkRule (e : event bk_op) (h : list (event bk_op)) : Prop :=
  match ev_op e with
  | BUpdate b => ∃ b0, read b0 h ∧ finalizerKept b0 b h ∧ completedRightly b0 b h
  | BStatusUpdate b => (∃ b0, read b0 h ∧ completedRightly b0 b h) ∨ ∃ u, Ev (BUpdate u) (Ok b) ∈ h
  | BJob (SyncPersist _) =>
      ∃ b0, read b0 h ∧ (b_Completed (b_Status b0) = false ∨
                         deletingBackup b0 ∧ policyOf b0 ≠ Retain ∧ failedBackup b0 = false)
  | _ => True
  end.

Section Deletion.
Context `{!Blang, !Process, !MergePodSpec, !JobOwner, !JobOwnerLaws} (opt : Options).

Lemma newDeletionJob_status b c job job' : newDeletionJob opt b c job = Ok job' → getJobStatus job' = getJobStatus job.
Proof.
  unfold newDeletionJob. destruct (_ =? 0)%Z; [|by intros [= <-]]. cbv zeta.
  destruct (merge_pod_spec _ _) as [pod|e]; [|done]. cbn [mbind result_bind]. intros Ho%own_job_conditions.
  unfold getJobStatus, jobCondition. by rewrite Ho.
Qed.

(** What the callback does to the backup, by the status of the job. *)
Record deletionOutcome (b : MysqlBackup) (status : bool * bool) (r : MysqlBackup * Job * result unit) : Prop := {
  out_name : b_Name r.1.1 = b_Name b;
  out_namespace : b_Namespace r.1.1 = b_Namespace b;
  out_status : b_Status r.1.1 = b_Status b;
  out_finalizer : RemoteStorageFinalizer ∈ om_Finalizers (b_Meta b) →
    RemoteStorageFinalizer ∉ om_Finalizers (b_Meta r.1.1) →
    deletingBackup b ∧ b_RemoteDeletePolicy (b_Spec b) ≠ Retain ∧ (failedBackup b = true ∨ status.1 = true);
  out_written : r.2 = Ok tt →
    deletingBackup b ∧ b_RemoteDeletePolicy (b_Spec b) ≠ Retain ∧ failedBackup b = false }.

Lemma releaseBackup_out b job r x :
  releaseBackup b job r = x → b_Name x.1.1 = b_Name b ∧ b_Namespace x.1.1 = b_Namespace b ∧
  b_Status x.1.1 = b_Status b ∧ (x.2 = Ok tt → r = Ok tt).
Proof. intros <-. unfold releaseBackup, removeBackupFinalizer. by destruct (removeFinalizer _ _). Qed.

Lemma deletionSyncFn_outcome c b job :
  emits (λ _, True) (deletionOutcome b (getJobStatus job)) (deletionSyncFn opt c b job).
Proof.
  unfold deletionSyncFn. destruct (String.eqb_spec (b_RemoteDeletePolicy (b_Spec b)) Retain) as [|Hp].
  { apply emits_ret. by split. }
  cbv zeta. set (b1 := addBackupFinalizer b RemoteStorageFinalizer).
  assert (RemoteStorageFinalizer ∈ om_Finalizers (b_Meta b1)) as Hf by apply addFinalizer_elem.
  change (om_DeletionTimestamp (b_Meta b1)) with (om_DeletionTimestamp (b_Meta b)).
  change (failedBackup b1) with (failedBackup b).
  destruct (om_DeletionTimestamp (b_Meta b)) as [t|] eqn:Ed; [|apply emits_ret; by split].
  assert (deletingBackup b) as Hd by (unfold deletingBackup; by rewrite Ed).
  destruct (failedBackup b) eqn:Efail.
  { apply emits_ret. destruct (releaseBackup_out b1 job (Err ErrIgnore) _ eq_refl) as (? & ? & ? & Hr).
    split; try done; [intros _ _; auto|]. intros Ho. by specialize (Hr Ho). }
  destruct (_ =? 0)%nat; [apply emits_ret; by split|].
  destruct (newDeletionJob opt b1 c job) as [job'|e] eqn:En; [|apply emits_ret; by split].
  rewrite <-(newDeletionJob_status _ _ _ _ En). destruct (getJobStatus job') as [completed failed].
  set (x := if completed then _ else _).
  assert (b_Name x.1.1 = b_Name b ∧ b_Namespace x.1.1 = b_Namespace b ∧ b_Status x.1.1 = b_Status b ∧
    (completed = false → b_Meta x.1.1 = b_Meta b1)) as (Hn & Hns & Hst & Hm).
  { unfold x. destruct completed; [|done].
    destruct (releaseBackup_out b1 job' (Ok tt) _ eq_refl) as (? & ? & ? & _). by split_and!. }
  assert (∀ r, deletionOutcome b (completed, failed) (x.1.1, x.1.2, r)) as Hout.
  { intros r. split; try done. cbn [fst snd]. intros _ Hno. split_and!; [done|done|]. right.
    destruct completed; [done|]. by rewrite Hm in Hno. }
  destruct x as [[b2 job2] [u|e]]; [|apply emits_ret, (Hout (Err e))].
  eapply (emits_bind _ (λ _, True)); [|intros ? _; apply emits_ret, (Hout (Ok tt))].
  destruct failed; [|by apply emits_ret]. destruct c as [c|]; [|by apply emits_ret].
  by apply (emits_call _ (JobEvent c "Warning" RemoteDeletionFailedEvent "job failed") (λ _, True)).
Qed.

End Deletion.

Section Order.
Context `{!Blang, !Process, !MergePodSpec, !JobOwner, !JobOwnerLaws}.
Context `{!StateSyncer bk_op Job MysqlBackup, !StateSyncerLaws bk_op Job MysqlBackup} (opt : Options).
Implicit Types (P : list (event bk_op) → Prop).
#[local] Abbreviation keeps := (Prelude.keeps bkRule).

Lemma backupRead_stable b : stable (read b).
Proof. unfold read. auto with stable. Qed.

Lemma jobRead_stable name status : stable (jobRead name status).
Proof. unfold jobRead. repeat (apply stable_exists; intros ?). auto with stable. Qed.

Lemma backupFinalizer_stable b0 b : stable (finalizerKept b0 b).
Proof.
  intros h e Hk Hin Hno. destruct (Hk Hin Hno) as (? & ? & Hj). split_and!; [done|done|].
  destruct Hj; [by left|right; by apply jobRead_stable].
Qed.

Lemma completedRightly_stable b0 b : stable (completedRightly b0 b).
Proof. intros h e Hk Hc. destruct (Hk Hc); [by left|right; by apply jobRead_stable]. Qed.

Lemma fetched_job b name job status h :
  fetched (Op := bk_op) (newJob b name) job h → status (getJobStatus job) → ¬ status (false, false) →
  jobRead name status h.
Proof.
  intros (r & Hin & Ho) Hs Hn. unfold orNew in Ho. change (Resp (BJob (SyncFetch (newJob b name)))) with (result Job) in r.
  cbn [answer_of bk_job] in Ho. destruct r as [job'|e].
  - injection Ho as ->. by exists (newJob b name), job.
  - destruct (is_not_found e); [|done]. injection Ho as <-. by destruct Hn.
Qed.

(** The backup in memory before the first syncer. *)
Record begun (b0 b : MysqlBackup) : Prop := {
  bg_name : b_Name b = b_Name b0;
  bg_meta : b_Meta b = b_Meta b0;
  bg_policy : b_RemoteDeletePolicy (b_Spec b) = policyOf b0;
  bg_status : b_Status b = b_Status b0 }.

(** Between the syncers. *)
Definition cleaned (b0 b : MysqlBackup) (h : list (event bk_op)) : Prop :=
  b_Name b = b_Name b0 ∧ b_Status b = b_Status b0 ∧ finalizerKept b0 b h.

(** After both. *)
Definition settled (b0 b : MysqlBackup) (h : list (event bk_op)) : Prop :=
  finalizerKept b0 b h ∧ completedRightly b0 b h.

Lemma cleaned_stable b0 b : stable (cleaned b0 b).
Proof. apply stable_and; [exact (stable_const _)|apply stable_and; [exact (stable_const _)|apply backupFinalizer_stable]]. Qed.

Lemma settled_stable b0 b : stable (settled b0 b).
Proof. apply stable_and; [apply backupFinalizer_stable|apply completedRightly_stable]. Qed.

Lemma cleaned_settled b0 b h : cleaned b0 b h → settled b0 b h.
Proof. intros (_ & Hs & Hk). split; [done|]. intros Hc. left. by rewrite <-Hs. Qed.

Lemma begun_cleaned b0 b h : begun b0 b → cleaned b0 b h.
Proof. intros [Hn Hm _ Hs]. split_and!; [done|done|]. unfold finalizerKept. rewrite Hm. done. Qed.

Lemma syncDeletion_keeps P c b0 b :
  begun b0 b → (∀ h, P h → read b0 h) → keeps P (syncDeletion opt c b) (λ r h, cleaned b0 r.1.1 h).
Proof.
  intros Hb HP. pose proof Hb as [Hn Hm Hpol Hst]. unfold syncDeletion.
  set (Y := λ (r : MysqlBackup * Job * result unit) (h : list (event bk_op)), cleaned b0 r.1.1 h ∧
    (r.2 = Ok tt → deletingBackup b0 ∧ policyOf b0 ≠ Retain ∧ failedBackup b0 = false)).
  assert (deletingBackup b = deletingBackup b0) as Hdel by (unfold deletingBackup; by rewrite Hm).
  assert (failedBackup b = failedBackup b0) as Hfail by (unfold failedBackup, GetBackupCondition; by rewrite Hst).
  eapply keeps_weaken; [apply (sync_state_keeps bkRule P b (newJob b (GetNameForDeletionJob b)) _ Y)|intros h Hh; exact Hh|].
  - done.
  - intros job. eapply (keeps_weaken _ _ (λ h, P h ∧ fetched (Op := bk_op) (newJob b (GetNameForDeletionJob b)) job h));
      [apply keeps_post; eapply (lift_keeps _ _ _ _ _ (deletionSyncFn_outcome opt c b job)); done|intros h Hh; exact Hh|].
    intros [[b' job'] r] h [[_ Hf] [On _ Os Of Ow]]. unfold Y. cbn [fst snd] in *. rewrite <-Hdel, <-Hpol, <-Hfail. split; [|exact Ow].
    split_and!; [congruence|congruence|]. intros Hin Hno. rewrite <-Hm in Hin.
    destruct (Of Hin Hno) as (? & ? & Hor). rewrite <-Hdel, <-Hpol, <-Hfail. split_and!; [done|done|].
    destruct Hor as [?|Hc]; [by left|right]. assert (GetNameForDeletionJob b0 = GetNameForDeletionJob b) as ->
      by (unfold GetNameForDeletionJob, jobPrefix; by rewrite Hn).
    by eapply (fetched_job b _ job (λ s, s.1 = true)).
  - intros r. unfold Y. apply stable_and; [apply cleaned_stable|exact (stable_const _)].
  - intros b' o r h Hh [_ Hw]. exists b0. split; [by apply HP|right; by apply Hw].
  - intros r h [[->|(o & e & Hy & _)] _]; [by apply begun_cleaned|exact Hy].
Qed.

Lemma syncJob_keeps P now c b0 b :
  (∀ h, P h → read b0 h ∧ cleaned b0 b h) → keeps P (syncJob opt now c b) (λ r h, settled b0 r.1.1 h).
Proof.
  intros HP. unfold syncJob.
  set (Y := λ (r : MysqlBackup * Job * result unit) (h : list (event bk_op)), settled b0 r.1.1 h ∧
    (r.2 = Ok tt → b_Completed (b_Status b0) = false)).
  eapply keeps_weaken; [apply keeps_post, (sync_state_keeps bkRule P b (newJob b (GetNameForJob b)) _ Y)|intros h Hh; exact Hh|].
  - done.
  - intros job. apply keeps_ret. intros h [Hh Hf]. destruct (HP h Hh) as [_ Hcl].
    pose proof (cleaned_settled _ _ _ Hcl) as Hset. destruct Hcl as (Hn & Hs & Hk). unfold Y, jobSyncFn.
    destruct (b_Completed (b_Status b)) eqn:Ec; [by split|]. destruct (_ =? 0)%nat; [by split|].
    assert (b_Completed (b_Status b0) = false) as Hc0 by by rewrite <-Hs.
    destruct (negb _); cbn [fst snd]; [|by split]. split; [|done].
    destruct (updateStatus_frame now job b) as [Hm _]. split.
    + unfold finalizerKept. rewrite Hm. exact Hk.
    + intros Hdone. right. rewrite updateStatus_completed, Ec in Hdone. cbn [orb] in Hdone.
      assert (GetNameForJob b0 = GetNameForJob b) as -> by (unfold GetNameForJob, jobPrefix; by rewrite Hn).
      eapply (fetched_job b _ job (λ s, s.1 = true ∨ s.2 = true)); [exact Hf|by apply orb_prop in Hdone|].
      by intros [?|?].
  - intros r. unfold Y. apply stable_and; [apply settled_stable|exact (stable_const _)].
  - intros b' o r h Hh [_ Hw]. exists b0. split; [by apply HP|left; by apply Hw].
  - intros r h [Hh [[->|(o & e & Hy & _)] _]]; [|exact Hy]. by apply cleaned_settled, HP.
Qed.

Lemma updateBackup_keeps P b0 saved b :
  (∀ h, P h → read b0 h ∧ settled b0 b h) → keeps P (updateBackup saved b) (λ _ _, True).
Proof.
  intros HP. unfold updateBackup.
  apply (keeps_bind _ _ (λ (r : result MysqlBackup) h, ∀ b', r = Ok b' → b' = b ∨ Ev (BUpdate b) (Ok b') ∈ h)).
  - case_bool_decide; [apply keeps_ret; intros h _ b' [= <-]; by left|].
    apply (keeps_call _ _ (BUpdate b)).
    + intros r h Hh. destruct (HP h Hh) as [? [? ?]]. by exists b0.
    + intros r h _ b' Hr. right. apply elem_of_app. right. rewrite <-Hr. by left.
  - intros r h e Hr b' Hb. destruct (Hr b' Hb) as [?|?]; [by left|right; by apply stable_elem].
  - intros [b'|e]; [|by apply keeps_ret]. case_bool_decide; [by apply keeps_ret|].
    apply (keeps_bind _ _ (λ _ _, True)); [|intros ?; exact (stable_const True)|intros ?; by apply keeps_ret].
    apply (keeps_call _ _ (BStatusUpdate b') (λ _ _, True)); [|done]. intros r h [Hh Hb].
    destruct (Hb b' eq_refl) as [->|Hu]; [left|right; by exists b].
    destruct (HP h Hh) as [? [? ?]]. by exists b0.
Qed.

Lemma SetDefaults_begun b0 : begun b0 (SetDefaults_MysqlBackup b0).
Proof. split; try done; unfold SetDefaults_MysqlBackup; by destruct (_ =? 0)%nat. Qed.

Lemma SetDefaultsBackup_begun b0 c b : begun b0 b → begun b0 (SetDefaultsBackup c b).
Proof. intros [? ? ? ?]. unfold SetDefaultsBackup. cbv zeta. by destruct (_ =? 0)%nat. Qed.

Lemma ReconcileBackup_keeps now ns name : keeps (λ _, True) (ReconcileBackup opt now ns name) (λ _ _, True).
Proof.
  unfold ReconcileBackup.
  apply (keeps_bind _ _ (λ r h, ∀ b0, r = Ok b0 → read b0 h)).
  { apply (keeps_call _ _ (BGet ns name)); [done|]. intros r h _ b0 Hr. exists ns, name.
    apply elem_of_app. right. rewrite <-Hr. by left. }
  { intros r h e Hr b0 Hb. by apply backupRead_stable, Hr. }
  intros r. destruct (r : result MysqlBackup) as [b0|e]; [|by apply keeps_ret]. cbv zeta.
  set (b := SetDefaults_MysqlBackup b0). pose proof (SetDefaults_begun b0) as Hb. fold b in Hb.
  destruct (_ =? 0)%nat; [by apply keeps_ret|].
  eapply keeps_weaken; [|by intros h [_ Hr]; exact (Hr b0 eq_refl)|intros a h Ha; exact Ha].
  apply (keeps_bind _ _ (λ _ _, True)); [by apply (keeps_call _ _ (BGetCluster _ _))|intros ?; exact (stable_const True)|].
  intros [cluster|err].
  - eapply keeps_bind; [apply (syncDeletion_keeps _ (Some cluster) b0);
      [by apply SetDefaultsBackup_begun|by intros h [? _]]|intros s; apply cleaned_stable|].
    intros s. destruct s.2; [|by apply keeps_ret].
    eapply keeps_bind; [apply (syncJob_keeps _ now cluster b0); by intros h [[? _] ?]|intros s'; apply settled_stable|].
    intros s'. destruct s'.2; [|by apply keeps_ret]. apply (updateBackup_keeps _ b0). by intros h [[[? _] _] ?].
  - eapply keeps_bind; [apply (syncDeletion_keeps _ None b0); [done|by intros h [? _]]|intros s; apply cleaned_stable|].
    intros s. destruct s.2; [|by apply keeps_ret].
    apply (keeps_bind _ _ (λ _ _, True)); [|intros ?; exact (stable_const True)|intros ?; by apply keeps_ret].
    apply (updateBackup_keeps _ b0). intros h [[? _] ?]. split; [done|by apply cleaned_settled].
Qed.

(** C9. Backups, whatever the API server answers.  The finalizer that protects the
    remote data is released only for a deleted backup that is not to be retained,
    once the backup had failed or its deletion job was read as complete; a backup is
    marked as completed only if it was, or its job was read as complete or failed;
    and jobs are written only for backups that are not completed, or for the deletion
    of deleted ones. *)
Theorem ReconcileBackup_order (now : Z) (ns name : string) (w : world bk_op) :
  guarded bkRule (trace (ReconcileBackup opt now ns name) w).
Proof. exact (proj1 (keeps_run _ _ _ w (ReconcileBackup_keeps now ns name))). Qed.

End Order.

(** A backup that has the finalizer and is to be retained now keeps the finalizer for
    ever: nothing removes it, so the resource cannot be deleted. *)
Lemma retained_stuck `{!Blang, !Process, !MergePodSpec, !JobOwner, !JobOwnerLaws,
    !StateSyncer bk_op Job MysqlBackup, !StateSyncerLaws bk_op Job MysqlBackup} opt now ns name (w : world bk_op) h1 b h2 r :
  trace (ReconcileBackup opt now ns name) w = h1 ++ Ev (BUpdate b) r :: h2 →
  (∀ b0, read b0 h1 → policyOf b0 = Retain ∧ RemoteStorageFinalizer ∈ om_Finalizers (b_Meta b0)) →
  RemoteStorageFinalizer ∈ om_Finalizers (b_Meta b).
Proof.
  intros Ht Hb. destruct (decide (RemoteStorageFinalizer ∈ om_Finalizers (b_Meta b))) as [|Hno]; [done|exfalso].
  destruct (keeps_run _ _ _ w (ReconcileBackup_keeps opt now ns name)) as [Hg _].
  destruct (Hg _ _ _ Ht) as (b0 & Hr & Hk & _). destruct (Hb b0 Hr) as [Hp Hin].
  destruct (Hk Hin Hno) as (_ & Hpol & _). done.
Qed.

(** ** Examples *)

Module RefBackups.
#[export] Instance merge : MergePodSpec := λ dst src, Ok src.
#[export] Instance owner : JobOwner := λ _ job, Ok job.
#[export] Instance owner_laws : JobOwnerLaws.
Proof. by intros b job job' [= <-]. Qed.
End RefBackups.

Section Witnesses.
#[local] Existing Instances Ref.blang Ref.blang_laws sampleProcess RefBackups.merge RefBackups.owner
  RefBackups.owner_laws RefSyncer.state_syncer RefSyncer.state_syncer_laws.

Definition sampleBackup (deletion : option Z) (finalizers : list string) : MysqlBackup :=
  mkBackup (mkMeta "nightly" "prod" "uid-2" ∅ None finalizers 1 deletion)
    (mkBackupSpec "demo" "gs://backups/" "" Delete) (mkBackupStatus false []).

(** The backup [b], whose jobs have ended. *)
Definition sampleBackupWorld (b : MysqlBackup) : world bk_op := λ _ o,
  match o return Resp o with
  | BGet _ _ => Ok b
  | BGetCluster _ _ => Ok (Sample.cluster "8.0" "8.0.20")
  | BUpdate b => Ok b
  | BStatusUpdate b => Ok b
  | BJob (SyncFetch j) =>
      Ok (mkJob (mkMeta (om_Name (job_Meta j)) "prod" "uid-3" ∅ None [] 1 None) emptyPod
            [mkJobCondition JobComplete ConditionTrue "" ""])
  | BJob (SyncPersist j) => Ok j
  | BJobEvent (JobEvent _ _ _ _) => tt
  end.

(** The finalizers and the state that a run writes. *)
Definition backupWrites (h : list (event bk_op)) : list (list string * bool * string) :=
  omap (λ e, match ev_op e with
             | BUpdate b => Some (om_Finalizers (b_Meta b), b_Completed (b_Status b), b_BackupURL (b_Spec b))
             | _ => None end) h.

(** A backup whose job is complete gets its finalizer, its URL and its state; once it
    is deleted and the deletion job is complete, the finalizer is released. *)
Lemma ReconcileBackup_order_witness :
  let t b := trace (ReconcileBackup sampleOptions 0 "prod" "nightly") (sampleBackupWorld b) in
  backupWrites (t (sampleBackup None [])) =
    [([RemoteStorageFinalizer], true, "gs://backups/nightly.xbackup.gz")] ∧
  backupWrites (t (sampleBackup (Some 2%Z) [RemoteStorageFinalizer])) =
    [([], true, "gs://backups/nightly.xbackup.gz")] ∧
  guarded bkRule (t (sampleBackup (Some 2%Z) [RemoteStorageFinalizer])).
Proof.
  cbv zeta. split; [vm_compute; reflexivity|]. split; [vm_compute; reflexivity|].
  exact (ReconcileBackup_order sampleOptions 0 "prod" "nightly"
    (sampleBackupWorld (sampleBackup (Some 2%Z) [RemoteStorageFinalizer]))).
Defined.

Lemma backup_place_witness :
  GetBackupURL (SetDefaultsBackup (Sample.cluster "8.0" "8.0.20") (sampleBackup None [])) (Sample.cluster "8.0" "") =
    "gs://backups/nightly.xbackup.gz".
Proof.
  refine (proj1 (backup_place sampleOptions (Sample.cluster "8.0" "8.0.20") (Sample.cluster "8.0" "")
    (sampleBackup None []) emptyPod None _)). vm_compute. discriminate.
Defined.

End Witnesses.
