(* ===== verification/BackupCron.v ===== *)
(** * The cron controller of backups

    [pkg/controller/mysqlbackupcron]: [mysqlbackupcron_controller.go] keeps one entry
    of the cron library for each cluster that has a schedule; [job_backup.go] is what
    an entry runs: a backup is created unless one is running, and backups beyond the
    limit of the history are deleted.

    The cron library ([robfig/cron]) and its parser of schedules are the classes
    [Cron] and [ScheduleParser]; [sort.Sort], which is not stable, is [Sorter].  The
    lock makes a run of the controller one step. *)

From S2P Require Import Prelude GoStrings Semver ClusterTypes Backups.
From coqutil Require Import Datatypes.RecordSetters.
Import DoubleBraceUpdate.
Open Scope stdpp_scope.

(** ** Entries of the cron library *)

(* src/pkg/controller/mysqlbackupcron/job_backup.go:34-43 job *)
Record job := mkCronJob {
  j_ClusterName : string; j_Namespace : string;
  j_Limit : option Z; j_RemoteDeletePolicy : string }.

(** [cron.Job] is an interface: an entry may run something else. *)
Inductive cronCmd := CmdJob (j : job) | CmdOther.

Record cronEntry (Sched : Type) := mkEntry { en_ID : Z; en_Schedule : Sched; en_Job : cronCmd }.
Arguments mkEntry {Sched} en_ID en_Schedule en_Job.
Arguments en_ID {Sched} c.
Arguments en_Schedule {Sched} c.
Arguments en_Job {Sched} c.

(** [cron.Cron]; [Sched] is [cron.Schedule]. *)
Class Cron (Sched St : Type) := {
  Entries : St → list (cronEntry Sched);
  Remove : Z → St → St;
  Schedule : Sched → cronCmd → St → St }.

(** An identifier names one entry; [Entries] are given in any order. *)
Class CronLaws (Sched St : Type) `{!Cron Sched St} : Prop := {
  entries_ids (s : St) : NoDup (en_ID <$> Entries s);
  entries_remove id (s : St) : Entries (Remove id s) ≡ₚ filter (λ e, en_ID e ≠ id) (Entries s);
  entries_schedule sched cmd (s : St) :
    ∃ id, Entries (Schedule sched cmd s) ≡ₚ mkEntry id sched cmd :: Entries s }.

(** [defaultParser.Parse]. *)
Class ScheduleParser (Sched : Type) := parse_schedule : string → result Sched.

Section Controller.
Context {Sched St : Type} `{!EqDecision Sched, !Cron Sched St, !ScheduleParser Sched}.
Implicit Types (s : St) (e : cronEntry Sched).

(** The job of the cluster, if the entry is one of its entries. *)
Definition entryOf (name ns : string) e : option job :=
  match en_Job e with
  | CmdJob j => if String.eqb (j_ClusterName j) name && String.eqb (j_Namespace j) ns then Some j else None
  | CmdOther => None
  end.

Definition newCronJob (c : MysqlCluster) : job :=
  mkCronJob (cl_Name c) (cl_Namespace c) (BackupScheduleJobsHistoryLimit (cl_Spec c))
    (BackupRemoteDeletePolicy (cl_Spec c)).

(** The loop over the entries: [Some s] where it breaks (or ends), [None] where it
    returns since there is nothing to change. *)
Fixpoint updateLoop (c : MysqlCluster) (schedule : Sched) (entries : list (cronEntry Sched)) s : option St :=
  match entries with
  | [] => Some s
  | e :: entries =>
      match entryOf (cl_Name c) (cl_Namespace c) e with
      | None => updateLoop c schedule entries s
      | Some j =>
          if negb (bool_decide (en_Schedule e = schedule)) then Some (Remove (en_ID e) s)
          else if negb (bool_decide (BackupScheduleJobsHistoryLimit (cl_Spec c) = j_Limit j)) then Some (Remove (en_ID e) s)
          else if negb (bool_decide (BackupRemoteDeletePolicy (cl_Spec c) = j_RemoteDeletePolicy j)) then Some (Remove (en_ID e) s)
          else None
      end
  end.

(* src/pkg/controller/mysqlbackupcron/mysqlbackupcron_controller.go:158-205 updateClusterSchedule *)
Definition updateClusterSchedule (c : MysqlCluster) (schedule : Sched) s : St :=
  match updateLoop c schedule (Entries s) s with
  | Some s => Schedule schedule (CmdJob (newCronJob c)) s
  | None => s
  end.

(* src/pkg/controller/mysqlbackupcron/mysqlbackupcron_controller.go:207-217 unregisterCluster *)
Definition unregisterCluster (key : string * string) s : St :=
  fold_left (λ s e, match entryOf key.2 key.1 e with Some _ => Remove (en_ID e) s | None => s end) (Entries s) s.

(** [get] is the answer of the API server for the cluster [key], a namespace and a
    name. *)
(* src/pkg/controller/mysqlbackupcron/mysqlbackupcron_controller.go:123-155 Reconcile *)
Definition ReconcileCron (key : string * string) (get : result MysqlCluster) s : St * result unit :=
  match get with
  | Err e => if is_not_found e then (unregisterCluster key s, Ok tt) else (s, Err e)
  | Ok c =>
      if (String.length (BackupSchedule (cl_Spec c)) =? 0)%nat then (unregisterCluster key s, Ok tt)
      else
        match parse_schedule (BackupSchedule (cl_Spec c)) with
        | Err e => (s, Err (ErrMsg ("failed to parse schedule: " +:+ error_text e)))
        | Ok schedule => (updateClusterSchedule c schedule s, Ok tt)
        end
  end.

End Controller.

(** *** The entries represent a map *)

Section Refinement.
Context {Sched St : Type} `{!EqDecision Sched, !Cron Sched St, !CronLaws Sched St, !ScheduleParser Sched}.
Implicit Types (s : St) (e : cronEntry Sched) (key : string * string) (m : gmap (string * string) (Sched * job)).

(** The schedules and jobs of a cluster, given by its namespace and name. *)
Definition jobsIn key (l : list (cronEntry Sched)) : list (Sched * job) :=
  omap (λ e, (λ j, (en_Schedule e, j)) <$> entryOf key.2 key.1 e) l.

(** What the controller promises: a finite map from clusters to schedules and jobs.
    A run for a cluster that is gone or has no schedule removes it, a schedule that
    cannot be read changes nothing, and otherwise the cluster has the schedule and the
    job of its specification. *)
Definition cronSpec key (get : result MysqlCluster) m : gmap (string * string) (Sched * job) :=
  match get with
  | Err e => if is_not_found e then delete key m else m
  | Ok c =>
      if String.eqb (BackupSchedule (cl_Spec c)) "" then delete key m
      else
        match parse_schedule (BackupSchedule (cl_Spec c)) with
        | Err _ => m
        | Ok schedule => <[(cl_Namespace c, cl_Name c) := (schedule, newCronJob c)]> m
        end
  end.

Definition represents s m : Prop := ∀ key, jobsIn key (Entries s) = option_list (m !! key).

Lemma jobsIn_perm key l l' : l ≡ₚ l' → jobsIn key l ≡ₚ jobsIn key l'.
Proof. intros Hp. unfold jobsIn. by rewrite Hp. Qed.

(** Lists of at most one element are equal if they are permutations. *)
Lemma perm_option_list {A} (l : list A) (o : option A) : l ≡ₚ option_list o → l = option_list o.
Proof.
  destruct o as [a|]; simpl; intros Hp; [by apply Permutation_singleton_r|by apply Permutation_nil_r].
Qed.

Lemma entryOf_key e key key' j j' :
  entryOf key.2 key.1 e = Some j → entryOf key'.2 key'.1 e = Some j' → key = key' ∧ j = j'.
Proof.
  unfold entryOf. destruct key as [ns n], key' as [ns' n']. simpl. destruct (en_Job e); [|done].
  destruct (String.eqb_spec (j_ClusterName j0) n) as [<-|]; [|done].
  destruct (String.eqb_spec (j_Namespace j0) ns) as [<-|]; [|done].
  destruct (String.eqb_spec (j_ClusterName j0) n') as [<-|]; [|done].
  destruct (String.eqb_spec (j_Namespace j0) ns') as [<-|]; [|done]. by intros [= <-] [= <-].
Qed.

Lemma jobsIn_cons_other key key' e l j :
  entryOf key.2 key.1 e = Some j → key' ≠ key → jobsIn key' (e :: l) = jobsIn key' l.
Proof.
  intros Hj Hne. unfold jobsIn. cbn [omap list_omap]. destruct (entryOf key'.2 key'.1 e) eqn:E; [|done].
  by destruct (entryOf_key _ _ _ _ _ E Hj) as [-> _].
Qed.

Lemma jobsIn_cons key e l j :
  entryOf key.2 key.1 e = Some j → jobsIn key (e :: l) = (en_Schedule e, j) :: jobsIn key l.
Proof. intros Hj. unfold jobsIn. cbn [omap list_omap]. by rewrite Hj. Qed.

Lemma filter_all {A} (P : A → Prop) `{!∀ x, Decision (P x)} (l : list A) : (∀ x, x ∈ l → P x) → filter P l = l.
Proof.
  induction l as [|x l IH]; intros Hl; [done|]. rewrite filter_cons_True by (apply Hl; by left).
  f_equal. apply IH. intros y Hy. apply Hl. by right.
Qed.

(** An entry that is removed is the only one with its identifier. *)
Lemma entries_split s e : e ∈ Entries s → Entries s ≡ₚ e :: Entries (Remove (en_ID e) s).
Proof.
  intros He. rewrite entries_remove. pose proof (entries_ids s) as Hnd. revert He Hnd.
  induction (Entries s) as [|x l IH]; [by intros ?%not_elem_of_nil|].
  rewrite fmap_cons, NoDup_cons. intros [->|Hin]%elem_of_cons [Hx Hnd].
  - rewrite filter_cons_False by (intros Hne; by apply Hne). apply Permutation_skip.
    rewrite filter_all; [done|]. intros y Hy Heq. apply Hx. rewrite <-Heq. by apply list_elem_of_fmap_2.
  - rewrite filter_cons_True by (intros Heq; apply Hx; rewrite Heq; by apply list_elem_of_fmap_2).
    rewrite (IH Hin Hnd) at 1. apply Permutation_swap.
Qed.

Lemma represents_remove s m key e j :
  represents s m → e ∈ Entries s → entryOf key.2 key.1 e = Some j →
  m !! key = Some (en_Schedule e, j) ∧ represents (Remove (en_ID e) s) (delete key m).
Proof.
  intros Hr He Hj. pose proof (entries_split s e He) as Hs. split.
  - pose proof (Hr key) as Hk. pose proof (jobsIn_perm key _ _ Hs) as Hp. rewrite (jobsIn_cons _ _ _ _ Hj), Hk in Hp.
    destruct (m !! key) as [v|]; simpl in Hp; [|by apply Permutation_nil_l in Hp].
    symmetry in Hp. apply Permutation_singleton_r in Hp. by injection Hp as <- _.
  - intros key'. apply perm_option_list. pose proof (jobsIn_perm key' _ _ Hs) as Hp. rewrite (Hr key') in Hp.
    destruct (decide (key' = key)) as [->|Hne].
    + rewrite (jobsIn_cons _ _ _ _ Hj) in Hp. rewrite lookup_delete_eq.
      destruct (m !! key) as [v|]; simpl in Hp; [|by apply Permutation_nil_l in Hp].
      symmetry in Hp. apply Permutation_singleton_r in Hp. by injection Hp as _ ->.
    + rewrite (jobsIn_cons_other key _ _ _ j) in Hp by done. by rewrite lookup_delete_ne, <-Hp by done.
Qed.

Lemma represents_schedule s m c schedule :
  represents s m → m !! (cl_Namespace c, cl_Name c) = None →
  represents (Schedule schedule (CmdJob (newCronJob c)) s)
    (<[(cl_Namespace c, cl_Name c) := (schedule, newCronJob c)]> m).
Proof.
  intros Hr Hno key'. apply perm_option_list. destruct (entries_schedule schedule (CmdJob (newCronJob c)) s) as [id Hp].
  rewrite (jobsIn_perm _ _ _ Hp). set (e := mkEntry id schedule (CmdJob (newCronJob c))).
  assert (entryOf (cl_Name c) (cl_Namespace c) e = Some (newCronJob c)) as Hj
    by (unfold entryOf; simpl; by rewrite !String.eqb_refl).
  destruct (decide (key' = (cl_Namespace c, cl_Name c))) as [->|Hne].
  - rewrite (jobsIn_cons (_, _) _ _ _ Hj), Hr, Hno, lookup_insert_eq. done.
  - rewrite (jobsIn_cons_other (_, _) _ _ _ _ Hj), Hr by done. by rewrite lookup_insert_ne by done.
Qed.

Lemma represents_absent s m key :
  represents s m → (∀ e, e ∈ Entries s → entryOf key.2 key.1 e = None) → m !! key = None.
Proof.
  intros Hr Hno. specialize (Hr key). assert (jobsIn key (Entries s) = []) as Hn.
  { unfold jobsIn. revert Hno. clear. induction (Entries s) as [|e l IH]; intros Hno; [done|].
    cbn [omap list_omap]. rewrite Hno by left. apply IH. intros. apply Hno. by right. }
  rewrite Hn in Hr. by destruct (m !! key).
Qed.

(** The loop finds the first entry of the cluster, and stops there. *)
Lemma updateLoop_find c schedule l s :
  match updateLoop c schedule l s with
  | Some s' => (∀ e, e ∈ l → entryOf (cl_Name c) (cl_Namespace c) e = None) ∧ s' = s ∨
               ∃ e j, e ∈ l ∧ entryOf (cl_Name c) (cl_Namespace c) e = Some j ∧ s' = Remove (en_ID e) s
  | None => ∃ e, e ∈ l ∧ entryOf (cl_Name c) (cl_Namespace c) e = Some (newCronJob c) ∧ en_Schedule e = schedule
  end.
Proof.
  induction l as [|e l IH]; cbn [updateLoop]; [left; split; [by intros ? ?%not_elem_of_nil|done]|].
  destruct (entryOf _ _ e) as [j|] eqn:Ej.
  - repeat (case_bool_decide; cbn [negb]; [|right; exists e, j; split_and!; [by left|done|done]]).
    exists e. split_and!; [by left| |done]. rewrite Ej. f_equal. unfold newCronJob, entryOf in *.
    destruct (en_Job e) as [j'|]; [|done].
    destruct (String.eqb_spec (j_ClusterName j') (cl_Name c)); [|done].
    destruct (String.eqb_spec (j_Namespace j') (cl_Namespace c)); [|done].
    injection Ej as ->. destruct j; simpl in *. congruence.
  - destruct (updateLoop c schedule l s) as [s'|].
    + destruct IH as [[Hno ->]|(x & j & ? & ? & ->)].
      * left. split; [|done]. intros x [->|Hx]%elem_of_cons; [done|by apply Hno].
      * right. exists x, j. split_and!; [by right|done|done].
    + destruct IH as (x & ? & ? & ?). exists x. split_and!; [by right|done|done].
Qed.

Lemma updateClusterSchedule_refines s m c schedule :
  represents s m →
  represents (updateClusterSchedule c schedule s)
    (<[(cl_Namespace c, cl_Name c) := (schedule, newCronJob c)]> m).
Proof.
  intros Hr. unfold updateClusterSchedule. pose proof (updateLoop_find c schedule (Entries s) s) as Hl.
  destruct (updateLoop _ _ _ _) as [s'|].
  - destruct Hl as [[Hno ->]|(e & j & He & Hj & ->)].
    + apply represents_schedule; [done|]. by apply (represents_absent s m (_, _)).
    + destruct (represents_remove s m (cl_Namespace c, cl_Name c) e j Hr He Hj) as [_ Hd].
      rewrite <-insert_delete_eq. apply represents_schedule; [done|]. apply lookup_delete_eq.
  - destruct Hl as (e & He & Hj & Hs).
    destruct (represents_remove s m (cl_Namespace c, cl_Name c) e _ Hr He Hj) as [Hm _].
    rewrite insert_id; [done|]. by rewrite Hm, Hs.
Qed.

(** The loop works on the entries as they were: those it has still to visit are
    there, or were removed already. *)
Lemma unregister_loop key l s m :
  represents s m → (∀ e, e ∈ l → e ∈ Entries s) → NoDup (en_ID <$> l) →
  (∀ e, e ∈ Entries s → is_Some (entryOf key.2 key.1 e) → e ∈ l) →
  represents (fold_left (λ s e, match entryOf key.2 key.1 e with Some _ => Remove (en_ID e) s | None => s end) l s)
    (delete key m).
Proof.
  revert s m. induction l as [|e l IH]; intros s m Hr Hl Hnd Hk.
  - simpl. rewrite delete_id; [done|]. apply (represents_absent s); [done|]. intros e He.
    destruct (entryOf key.2 key.1 e) eqn:E; [|done]. exfalso. apply (not_elem_of_nil e), (Hk e He). by rewrite E.
  - rewrite fmap_cons, NoDup_cons in Hnd. destruct Hnd as [Hx Hnd]. simpl.
    destruct (entryOf key.2 key.1 e) as [j|] eqn:Ej.
    + assert (e ∈ Entries s) as He by (apply Hl; by left).
      destruct (represents_remove s m key e j Hr He Ej) as [_ Hd].
      assert (delete key m = delete key (delete key m)) as -> by by rewrite delete_delete_eq.
      pose proof (entries_split s e He) as Hs. apply IH; [done| |done|].
      * intros x Hin. assert (x ∈ e :: Entries (Remove (en_ID e) s)) as [->|?]%elem_of_cons by (rewrite <-Hs; apply Hl; by right); [|done].
        exfalso. apply Hx. by apply list_elem_of_fmap_2.
      * intros x Hin Hsome. assert (x ∈ e :: l) as [->|?]%elem_of_cons; [|exfalso|done].
        { apply Hk; [|done]. rewrite Hs. by right. }
        rewrite entries_remove in Hin. apply list_elem_of_filter in Hin as [Hne _]. by apply Hne.
    + apply IH; [done|intros; apply Hl; by right|done|]. intros x Hin Hsome.
      destruct (proj1 (elem_of_cons _ _ _) (Hk x Hin Hsome)) as [->|?]; [|done].
      rewrite Ej in Hsome. by apply is_Some_None in Hsome.
Qed.

Lemma unregisterCluster_refines s m key :
  represents s m → represents (unregisterCluster key s) (delete key m).
Proof. intros Hr. apply unregister_loop; [done|done|apply entries_ids|done]. Qed.

Lemma ReconcileCron_step s m key get :
  represents s m → represents (ReconcileCron key get s).1 (cronSpec key get m).
Proof.
  intros Hr. unfold ReconcileCron, cronSpec. destruct get as [c|e].
  - destruct (String.eqb_spec (BackupSchedule (cl_Spec c)) "") as [->|Hne]; [by apply unregisterCluster_refines|].
    destruct (BackupSchedule (cl_Spec c)) as [|a q] eqn:E; [done|]. cbn [String.length Nat.eqb].
    destruct (parse_schedule (String a q)) as [schedule|e]; [by apply updateClusterSchedule_refines|done].
  - destruct (is_not_found e); [by apply unregisterCluster_refines|done].
Qed.

(** C15. The cron controller implements a finite map.  After any sequence of runs, from
    an empty cron, whatever the API server answered, the entries of a cluster are
    exactly one, with the schedule, the limit and the policy that it was last seen
    with, or none if it was last seen to be gone or without a schedule. *)
Theorem ReconcileCron_refines (runs : list (string * string * result MysqlCluster)) (s : St) :
  Entries s = [] →
  represents (fold_left (λ s r, (ReconcileCron r.1 r.2 s).1) runs s) (fold_left (λ m r, cronSpec r.1 r.2 m) runs ∅).
Proof.
  intros H0. assert (represents s ∅) as Hr by (intros key; by rewrite H0, lookup_empty).
  revert s H0 Hr. generalize (∅ : gmap (string * string) (Sched * job)).
  intros m s _. revert s m. induction runs as [|r runs IH]; intros s m Hr; [exact Hr|].
  apply IH, ReconcileCron_step, Hr.
Qed.

End Refinement.

(** ** The job *)

(** A time, broken down in the local zone. *)
Record civil := mkCivil { t_year : N; t_month : N; t_day : N; t_hour : N; t_minute : N; t_second : N }.

(** At least [w] digits. *)
Definition digits (w : nat) (n : N) : string :=
  String.concat "" (repeat "0" (w - String.length (pretty n))) +:+ pretty n.

(** [Format] with the layout [2006-01-02t15-04-05]. *)
Definition formatTime (t : civil) : string :=
  digits 4 (t_year t) +:+ "-" +:+ digits 2 (t_month t) +:+ "-" +:+ digits 2 (t_day t) +:+ "t" +:+
  digits 2 (t_hour t) +:+ "-" +:+ digits 2 (t_minute t) +:+ "-" +:+ digits 2 (t_second t).

Record ListOptions := mkListOptions {
  lo_Namespace : string; lo_Labels : gmap string string; lo_Fields : gmap string string }.

Inductive cj_op :=
  | CList (sel : ListOptions)
  | CNow
  | CCreate (b : MysqlBackup)
  | CDelete (b : MysqlBackup).

#[export] Instance cj_effect : Effect cj_op := λ o,
  match o with
  | CList _ => result (list MysqlBackup)
  | CNow => civil
  | CCreate _ | CDelete _ => result unit
  end.

(** [sort.Sort], with [Less] as a function of two elements. *)
Class Sorter (A : Type) := sort_Sort : (A → A → bool) → list A → list A.

(** What is documented of [Less], and of the result. *)
Record lessLaws {A} (less : A → A → bool) : Prop := {
  less_irreflexive x : less x x = false;
  less_transitive x y z : less x y = true → less y z = true → less x z = true;
  less_incomparable x y z : less x y = false → less y z = false → less x z = false }.

Class SorterLaws (A : Type) `{!Sorter A} : Prop :=
  sort_Sort_laws less (l : list A) : lessLaws less →
    sort_Sort less l ≡ₚ l ∧ StronglySorted (λ x y, less y x = false) (sort_Sort less l).

Section Job.
Context `{!Sorter MysqlBackup}.

(* src/pkg/controller/mysqlbackupcron/job_backup.go:110-115 recurrentBackupLabels *)
Definition recurrentBackupLabels (j : job) : gmap string string :=
  <["recurrent" := "true"]> {["cluster" := j_ClusterName j]}.

(* src/pkg/controller/mysqlbackupcron/job_backup.go:101-108 backupSelector *)
Definition backupSelector (j : job) : ListOptions :=
  mkListOptions (j_Namespace j) (recurrentBackupLabels j) ∅.

Definition runningSelector (j : job) : ListOptions :=
  (backupSelector j) {{ lo_Fields := {["status.completed" := "false"]} }}.

(* src/pkg/controller/mysqlbackupcron/job_backup.go:70-82 scheduledBackupsRunningCount *)
Definition scheduledBackupsRunningCount (j : job) : prog cj_op Z :=
  r ← call (CList (runningSelector j));
  mret match (r : result (list MysqlBackup)) with Ok items => Z.of_nat (length items) | Err _ => 0%Z end.

Definition newBackup (j : job) (now : civil) : MysqlBackup :=
  mkBackup (mkMeta (j_ClusterName j +:+ "-auto-" +:+ formatTime now) (j_Namespace j) ""
              (recurrentBackupLabels j) None [] 0 None)
    (mkBackupSpec (j_ClusterName j) "" "" (j_RemoteDeletePolicy j)) (mkBackupStatus false []).

(* src/pkg/controller/mysqlbackupcron/job_backup.go:84-99 createBackup *)
Definition createBackup (j : job) : prog cj_op (MysqlBackup * result unit) :=
  now ← call CNow;
  r ← call (CCreate (newBackup j now));
  mret (newBackup j now, r).

(* src/pkg/controller/mysqlbackupcron/job_backup.go:138-144 byTimestamp *)
Definition byTimestamp (a b : MysqlBackup) : bool :=
  (om_CreationTimestamp (b_Meta b) <? om_CreationTimestamp (b_Meta a))%Z.

(** The loop over the sorted backups, from index [i] on. *)
Fixpoint collect (i limit : Z) (items : list MysqlBackup) : prog cj_op unit :=
  match items with
  | [] => mret tt
  | b :: items =>
      _ ← (if (limit <=? i)%Z then _ ← call (CDelete b); mret tt else mret tt);
      collect (i + 1) limit items
  end.

(* src/pkg/controller/mysqlbackupcron/job_backup.go:117-136 backupGC *)
Definition backupGC (j : job) (limit : Z) : prog cj_op unit :=
  r ← call (CList (backupSelector j));
  match (r : result (list MysqlBackup)) with
  | Err _ => mret tt
  | Ok items => collect 0 limit (sort_Sort byTimestamp items)
  end.

(** The count is asked for again, for the log. *)
(* src/pkg/controller/mysqlbackupcron/job_backup.go:44-68 Run *)
Definition Run (j : job) : prog cj_op unit :=
  _ ← (n ← scheduledBackupsRunningCount j;
       if (0 <? n)%Z then _ ← scheduledBackupsRunningCount j; mret tt
       else _ ← createBackup j; mret tt);
  match j_Limit j with
  | Some limit => backupGC j limit
  | None => mret tt
  end.

End Job.

(** The index by which the server finds the backups that are not completed. *)
(* src/pkg/controller/mysqlbackupcron/mysqlbackupcron_controller.go:217-228 addBackupFieldIndexers *)
Definition completedIndex (b : MysqlBackup) : string :=
  if b_Completed (b_Status b) then "true" else "false".

(** What the server lists for a selector. *)
Definition selects (sel : ListOptions) (b : MysqlBackup) : bool :=
  String.eqb (b_Namespace b) (lo_Namespace sel) &&
  bool_decide (lo_Labels sel ⊆ om_Labels (b_Meta b)) &&
  bool_decide (lo_Fields sel ⊆ {["status.completed" := completedIndex b]}).

(** *** What a run does *)

Section RunSpec.
Context `{!Sorter MysqlBackup, !SorterLaws MysqlBackup}.
Implicit Types (h : list (event cj_op)).

(** A backup is created exactly if the list of running ones came back empty, or failed. *)
Definition created (j : job) h : Prop :=
  (∃ b items r, h = [Ev (CList (runningSelector j)) (Ok (b :: items) : result (list MysqlBackup)); Ev (CList (runningSelector j)) r]) ∨
  (∃ (r : result (list MysqlBackup)) (now : civil) (r' : result unit),
     (r = Ok [] ∨ is_ok r = false) ∧
     h = [Ev (CList (runningSelector j)) r; Ev CNow now; Ev (CCreate (newBackup j now)) r']).

(** Of the backups that are listed, the newest are kept, as many as the limit says. *)
Definition collected (j : job) h : Prop :=
  match j_Limit j with
  | None => h = []
  | Some limit =>
      ∃ (r : result (list MysqlBackup)) d, h = Ev (CList (backupSelector j)) r :: d ∧
      match r with
      | Err _ => d = []
      | Ok items =>
          ∃ kept removed, ev_op <$> d = CDelete <$> removed ∧ kept ++ removed ≡ₚ items ∧
          length kept = Nat.min (Z.to_nat limit) (length items) ∧
          ∀ a b, a ∈ kept → b ∈ removed →
            (om_CreationTimestamp (b_Meta b) ≤ om_CreationTimestamp (b_Meta a))%Z
      end
  end.

Lemma byTimestamp_laws : lessLaws byTimestamp.
Proof. unfold byTimestamp. split; intros *; rewrite ?Z.ltb_irrefl, ?Z.ltb_lt, ?Z.ltb_ge; lia. Qed.

Lemma collect_ops (limit i : Z) items w h :
  (0 ≤ i)%Z → ∃ d, (collect i limit items w h).2 = h ++ d ∧
    ev_op <$> d = CDelete <$> drop (Z.to_nat limit - Z.to_nat i) items.
Proof.
  revert i h. induction items as [|b items IH]; intros i h Hi.
  { exists []. rewrite app_nil_r, drop_nil. done. }
  cbn [collect]. unfold mbind, prog_bind. destruct (Z.leb_spec limit i) as [Hle|Hgt].
  - destruct (IH (i + 1)%Z (h ++ [Ev (CDelete b) (w h (CDelete b))]) ltac:(lia)) as (d & Hd & Hops).
    exists (Ev (CDelete b) (w h (CDelete b)) :: d). rewrite fmap_cons, Hops.
    split; [etrans; [exact Hd|by rewrite <-(assoc_L (++))]|].
    replace (Z.to_nat limit - Z.to_nat i)%nat with 0%nat by lia.
    replace (Z.to_nat limit - Z.to_nat (i + 1))%nat with 0%nat by lia. by rewrite !drop_0.
  - destruct (IH (i + 1)%Z h ltac:(lia)) as (d & Hd & Hops). exists d. split; [exact Hd|]. rewrite Hops.
    by replace (Z.to_nat limit - Z.to_nat i)%nat with (S (Z.to_nat limit - Z.to_nat (i + 1)))%nat by lia.
Qed.

Lemma sorted_parts (R : MysqlBackup → MysqlBackup → Prop) n l a b :
  StronglySorted R l → a ∈ take n l → b ∈ drop n l → R a b.
Proof.
  revert l. induction n as [|n IH]; intros l Hs Ha Hb; [by apply not_elem_of_nil in Ha|].
  destruct l as [|x l]; [by apply not_elem_of_nil in Ha|]. apply StronglySorted_inv in Hs as [Hs Hx].
  simpl in Ha, Hb. apply elem_of_cons in Ha as [->|Ha]; [|by eapply IH].
  rewrite Forall_forall in Hx. apply Hx. rewrite <-(take_drop n l). apply elem_of_app. by right.
Qed.

Lemma backupGC_collected j limit w h :
  j_Limit j = Some limit → ∃ d, (backupGC j limit w h).2 = h ++ d ∧ collected j d.
Proof.
  intros Hl. unfold backupGC, mbind, prog_bind, call. cbn [fst snd]. unfold collected. rewrite Hl.
  set (r := w h (CList (backupSelector j))). clearbody r. change (result (list MysqlBackup)) in r.
  destruct r as [items|e].
  - destruct (collect_ops limit 0 (sort_Sort byTimestamp items) w
      (h ++ [Ev (CList (backupSelector j)) (Ok items : result (list MysqlBackup))]) ltac:(lia)) as (d & Hd & Hops).
    destruct (sort_Sort_laws byTimestamp items byTimestamp_laws) as [Hp Hs].
    eexists. split; [rewrite Hd, <-(assoc_L (++)); reflexivity|]. exists (Ok items), d. split; [done|].
    rewrite Nat.sub_0_r in Hops.
    exists (take (Z.to_nat limit) (sort_Sort byTimestamp items)), (drop (Z.to_nat limit) (sort_Sort byTimestamp items)).
    split_and!; [done|by rewrite take_drop|by rewrite length_take, Hp|].
    intros a b Ha Hb. pose proof (sorted_parts _ _ _ _ _ Hs Ha Hb) as Hr. by apply Z.ltb_ge in Hr.
  - eexists. split; [reflexivity|]. by exists (Err e), [].
Qed.

Lemma newBackup_selected j now :
  selects (backupSelector j) (newBackup j now) = true ∧ selects (runningSelector j) (newBackup j now) = true.
Proof.
  unfold selects. cbn. rewrite !String.eqb_refl. split; apply andb_true_iff; (split; [apply andb_true_iff; split; [done|]|]);
    apply bool_decide_eq_true_2; (reflexivity || apply map_empty_subseteq).
Qed.

(** C21. A scheduled backup.  A run asks for the running backups of its cluster.  If
    the answer lists one, none is created; if it is empty, or if it could not be had
    (one may be running then), one is created, which both selectors find from then
    on.  Afterwards, in all cases, if there is a limit and the backups can be listed,
    exactly those beyond the limit are deleted, none of which is newer than one that
    stays. *)
Theorem Run_spec (j : job) (w : world cj_op) :
  (∃ h1 h2, trace (Run j) w = h1 ++ h2 ∧ created j h1 ∧ collected j h2) ∧
  ∀ now, selects (backupSelector j) (newBackup j now) = true ∧ selects (runningSelector j) (newBackup j now) = true.
Proof.
  split; [|intros; apply newBackup_selected].
  assert (∀ h1, created j h1 → ∃ h2, (match j_Limit j with Some limit => backupGC j limit | None => mret tt end w h1).2 = h1 ++ h2
    ∧ collected j h2) as Hgc.
  { intros h1 _. destruct (j_Limit j) as [limit|] eqn:El; [by apply backupGC_collected|].
    exists []. unfold collected. by rewrite El, app_nil_r. }
  unfold trace, Run. unfold mbind, prog_bind at 1.
  assert (created j (((n ← scheduledBackupsRunningCount j;
       if (0 <? n)%Z then _ ← scheduledBackupsRunningCount j; mret tt
       else _ ← createBackup j; mret tt) : prog cj_op unit) w []).2) as Hc; [|destruct (Hgc _ Hc) as (h2 & ? & ?); eexists _, h2; split; [eassumption|by split]].
  unfold scheduledBackupsRunningCount, createBackup, mbind, prog_bind, call, mret, prog_ret. cbn [fst snd app].
  set (r := w [] (CList (runningSelector j))). clearbody r. change (result (list MysqlBackup)) in r.
  destruct r as [[|b items]|e]; cbn [length].
  - right. exists (Ok []). do 2 eexists. split; [by left|reflexivity].
  - left. exists b, items. eexists. reflexivity.
  - right. exists (Err e). do 2 eexists. split; [by right|reflexivity].
Qed.

End RunSpec.

(** ** Examples *)

Module RefCron.
Section RefCron.
Context {Sched : Type}.

(** Entries with different identifiers. *)
Definition St : Type := { l : list (cronEntry Sched) | bool_decide (NoDup (en_ID <$> l)) = true }.

Definition entries (s : St) : list (cronEntry Sched) := proj1_sig s.

Lemma entries_nodup (s : St) : NoDup (en_ID <$> entries s).
Proof. exact (bool_decide_eq_true_1 _ (proj2_sig s)). Qed.

Definition pack (l : list (cronEntry Sched)) (Hl : NoDup (en_ID <$> l)) : St := l ↾ bool_decide_eq_true_2 _ Hl.

Definition empty : St := pack [] (NoDup_nil_2).

Lemma remove_nodup id (s : St) : NoDup (en_ID <$> filter (λ e, en_ID e ≠ id) (entries s)).
Proof.
  eapply sublist_NoDup; [apply (entries_nodup s)|]. apply fmap_sublist, sublist_filter.
Qed.

Definition next (s : St) : Z := fresh (list_to_set (en_ID <$> entries s) : gset Z).

Lemma next_nodup sched cmd (s : St) : NoDup (en_ID <$> (mkEntry (next s) sched cmd :: entries s)).
Proof.
  rewrite fmap_cons, NoDup_cons. split; [|apply entries_nodup]. intros Hin.
  apply (is_fresh (list_to_set (en_ID <$> entries s) : gset Z)). by apply elem_of_list_to_set.
Qed.

#[local] Instance cron : Cron Sched St := {|
  Entries := entries;
  Remove id s := pack _ (remove_nodup id s);
  Schedule sched cmd s := pack _ (next_nodup sched cmd s) |}.

#[local] Instance cron_laws : CronLaws Sched St.
Proof. split; [apply entries_nodup|done|]. intros sched cmd s. by exists (next s). Qed.

End RefCron.

(** A stable sort. *)
#[local] Instance sorter {A} : Sorter A := λ less, merge_sort (λ x y, Is_true (negb (less y x))).

#[local] Instance sorter_laws {A} : SorterLaws A.
Proof.
  intros less l [Hi Ht Hn]. unfold sort_Sort, sorter. split; [apply merge_sort_Permutation|].
  assert (∀ l, StronglySorted (λ x y, Is_true (negb (less y x))) l → StronglySorted (λ x y, less y x = false) l) as Himpl.
  { induction 1 as [|x l' _ IHs Hx]; constructor; [done|]. eapply Forall_impl; [exact Hx|].
    intros y Hy. simpl in Hy. by destruct (less y x). }
  apply Himpl, StronglySorted_merge_sort.
  - intros x y z Hxy Hyz. specialize (Hn z y x). destruct (less y x), (less z y); simpl in Hxy, Hyz; try done.
    by rewrite Hn.
  - intros x y. specialize (Ht x y x). rewrite Hi in Ht.
    destruct (less x y), (less y x); simpl; [|by left|by right|by left]. by specialize (Ht eq_refl eq_refl).
Qed.

(** A schedule is its text; one that starts with [!] cannot be read. *)
#[local] Instance parser : ScheduleParser string := λ s,
  if HasPrefix s "!" then Err (ErrMsg "unexpected") else Ok s.
End RefCron.

Section Witnesses.
#[local] Existing Instances RefCron.cron RefCron.cron_laws RefCron.sorter RefCron.sorter_laws RefCron.parser.

Definition sampleScheduled (schedule : string) (limit : option Z) : MysqlCluster :=
  (Sample.cluster "8.0" "8.0.20") {{ cl_Spec -> BackupSchedule := schedule }}
    {{ cl_Spec -> BackupScheduleJobsHistoryLimit := limit }}.

(** The schedule of a cluster is changed, cannot be read, and is changed again: there is
    one entry, with the last schedule and limit. *)
Lemma ReconcileCron_refines_witness :
  let key := (cl_Namespace (sampleScheduled "" None), cl_Name (sampleScheduled "" None)) in
  let runs := [(key, Ok (sampleScheduled "0 0 1 * *" (Some 3%Z))); (key, Ok (sampleScheduled "!" None));
               (key, Ok (sampleScheduled "0 0 2 * *" (Some 5%Z))); (("x", "y"), Err (ErrAPI true "" ""))] in
  let s := fold_left (λ s r, (ReconcileCron r.1 r.2 s).1) runs (RefCron.empty (Sched := string)) in
  represents s (fold_left (λ m r, cronSpec r.1 r.2 m) runs ∅) ∧
  (λ e, (en_Schedule e, en_Job e)) <$> Entries s =
    [("0 0 2 * *", CmdJob (mkCronJob (cl_Name (sampleScheduled "" None)) (cl_Namespace (sampleScheduled "" None)) (Some 5%Z) ""))].
Proof. split; [apply ReconcileCron_refines; reflexivity|vm_compute; reflexivity]. Defined.

Definition sampleJob : job := mkCronJob "demo" "prod" (Some 2%Z) Retain.

Definition sampleCronWorld : world cj_op :=
  let b name t := mkBackup (mkMeta name "prod" "" ∅ None [] t None) (mkBackupSpec "demo" "" "" "") (mkBackupStatus true []) in
  λ _ o, match o return Resp o with
    | CList sel => if decide (lo_Fields sel = ∅) then Ok [b "b" 2%Z; b "c" 3%Z; b "a" 1%Z] else Ok []
    | CNow => mkCivil 2024 2 9 3 0 5
    | CCreate _ | CDelete _ => Ok tt
    end.

(** Of three backups the two newest are kept. *)
Lemma Run_spec_witness :
  omap (λ o, match o with CCreate b => Some ("create", b_Name b) | CDelete b => Some ("delete", b_Name b) | _ => None end)
    (trace_ops (Run sampleJob) sampleCronWorld) =
  [("create", "demo-auto-2024-02-09t03-00-05"); ("delete", "a")] ∧
  ∃ h1 h2, trace (Run sampleJob) sampleCronWorld = h1 ++ h2 ∧ created sampleJob h1 ∧ collected sampleJob h2.
Proof. split; [vm_compute; reflexivity|]. exact (proj1 (Run_spec sampleJob sampleCronWorld)). Defined.

End Witnesses.
