(* ===== verification/SidecarConfig.v ===== *)
(** * The configuration of the sidecar

    [pkg/sidecar/configs.go]: what the sidecar of a pod reads from its environment, and
    what it derives from it: identifiers and hosts of servers, and the arguments of
    rclone, xbstream and xtrabackup.

    The environment is a function from names to values, empty for a variable that is
    not set.  A panic is an error.  The environment that the stateful set gives to
    a container is [StatefulSet.getEnvFor]; [NewConfig_pod] reads it back. *)

From S2P Require Import Prelude GoStrings Semver ClusterTypes Versioning ClusterStatus ClusterModel.
From S2P Require Import ClusterDefaults StatefulSet PodNames.
From coqutil Require Import Datatypes.RecordSetters.
Import DoubleBraceUpdate.
Open Scope stdpp_scope.

(** [strings.Fields]. *)
Fixpoint Fields (s : string) : list string :=
  match s with
  | "" => []
  | String c s' =>
      if is_space c then Fields s'
      else match s' with
           | "" => [String c ""]
           | String d _ =>
               if is_space d then String c "" :: Fields s'
               else match Fields s' with
                    | x :: xs => String c x :: xs
                    | [] => [String c ""]
                    end
           end
  end.

(** ** Constants *)

(* src/pkg/sidecar/constants.go:30-81 MysqlServerIDOffset *)
Definition MysqlServerIDOffset : Z := 100.
Definition mysqlPort : string := itoa MysqlPort.
Definition configDir : string := ConfVolumeMountPath.
Definition confDPath : string := ConfDPath.
Definition mountConfigDir : string := "/mnt/conf".
Definition confHeartbeatPath : string := ConfHeartBeatPath.
Definition confPtKillPath : string := "/etc/mysql/pt-kill.conf".
Definition ConfClientLoopbackPath : string := "/etc/mysql/client-loopback.cnf".
Definition dataDir : string := DataVolumeMountPath.
Definition toolsDbName : string := OperatorDbName.
Definition toolsHeartbeatTableName : string := "heartbeat".
Definition serverBackupEndpoint : string := "/xbackup".
Definition xtrabackupCommand : string := "xtrabackup".
Definition xbstreamCommand : string := "xbstream".
Definition shPreStop : string := "pre-shutdown-ha.sh".
Definition RcloneConfigFile : string := "/tmp/rclone.conf".

(** ** The configuration *)

(* src/pkg/sidecar/configs.go:41-114 Config *)
Record Config := mkConfig {
  cfg_Hostname : string; cfg_ClusterName : string; cfg_Namespace : string; cfg_ServiceName : string;
  cfg_InitBucketURL : string;
  cfg_OperatorUser : string; cfg_OperatorPassword : string;
  cfg_BackupUser : string; cfg_BackupPassword : string;
  cfg_ReplicationUser : string; cfg_ReplicationPassword : string;
  cfg_MetricsUser : string; cfg_MetricsPassword : string;
  cfg_OrchestratorUser : string; cfg_OrchestratorPassword : string;
  cfg_HeartBeatUser : string; cfg_HeartBeatPassword : string;
  cfg_ExistsMySQLData : bool;
  cfg_MyServerIDOffset : Z;
  cfg_BackupCompressCommand : list string; cfg_BackupDecompressCommand : list string;
  cfg_RcloneExtraArgs : list string; cfg_XbstreamExtraArgs : list string;
  cfg_XtrabackupExtraArgs : list string; cfg_XtrabackupPrepareExtraArgs : list string;
  cfg_XtrabackupTargetDir : string;
  cfg_masterService : string; cfg_healthyReplicaCloneService : string;
  cfg_InitFileExtraSQL : list string;
  cfg_MySQLVersion : Version }.

(* src/pkg/sidecar/configs.go:339-351 getOrdinalFromHostname *)
Definition getOrdinalFromHostname (hn : string) : Z :=
  match LastIndex hn "-" with
  | None => 0
  | Some begin => match Atoi (str_drop (begin + 1) hn) with Some o => o | None => -1 end
  end.

Section Config.
Implicit Types (cfg : Config).

(* src/pkg/sidecar/configs.go:116-120 FQDNForServer *)
Definition FQDNForServer cfg (id : Z) : string :=
  let base := GetNameForResource StatefulSetName (cfg_ClusterName cfg) in
  base +:+ "-" +:+ itoa (wrap64 (id - cfg_MyServerIDOffset cfg)) +:+ "." +:+ cfg_ServiceName cfg +:+ "." +:+ cfg_Namespace cfg.

(* src/pkg/sidecar/configs.go:122-125 ClusterFQDN *)
Definition ClusterFQDN cfg : string := cfg_ClusterName cfg +:+ "." +:+ cfg_Namespace cfg.

(* src/pkg/sidecar/configs.go:127-133 MasterFQDN *)
Definition MasterFQDN cfg : string :=
  if String.eqb (cfg_masterService cfg) "" then GetNameForResource MasterService (cfg_ClusterName cfg)
  else cfg_masterService cfg.

(* src/pkg/sidecar/configs.go:135-141 ReplicasFQDN *)
Definition ReplicasFQDN cfg : string :=
  if String.eqb (cfg_healthyReplicaCloneService cfg) "" then GetNameForResource HealthyReplicasService (cfg_ClusterName cfg)
  else cfg_healthyReplicaCloneService cfg.

(* src/pkg/sidecar/configs.go:143-147 ServerID *)
Definition ServerID cfg : Z := wrap64 (getOrdinalFromHostname (cfg_Hostname cfg) + cfg_MyServerIDOffset cfg).

(* src/pkg/sidecar/configs.go:149-154 MysqlDSN *)
Definition MysqlDSN cfg : string :=
  cfg_OperatorUser cfg +:+ ":" +:+ cfg_OperatorPassword cfg +:+ "@tcp(127.0.0.1:" +:+ mysqlPort +:+
  ")/?timeout=5s&multiStatements=true&interpolateParams=true".

(* src/pkg/sidecar/configs.go:156-159 IsFirstPodInSet *)
Definition IsFirstPodInSet cfg : bool := (getOrdinalFromHostname (cfg_Hostname cfg) =? 0)%Z.

(* src/pkg/sidecar/configs.go:161-164 ShouldCloneFromBucket *)
Definition ShouldCloneFromBucket cfg : bool :=
  negb (cfg_ExistsMySQLData cfg) && (ServerID cfg =? cfg_MyServerIDOffset cfg)%Z &&
  negb (String.length (cfg_InitBucketURL cfg) =? 0)%nat.

(* src/pkg/sidecar/configs.go:166-172 BackupCompressCmd *)
Definition BackupCompressCmd cfg : list string :=
  if (0 <? length (cfg_BackupCompressCommand cfg))%nat then cfg_BackupCompressCommand cfg else ["gzip"; "--stdout"].

(* src/pkg/sidecar/configs.go:174-180 BackupDecompressCmd *)
Definition BackupDecompressCmd cfg : list string :=
  if (0 <? length (cfg_BackupDecompressCommand cfg))%nat then cfg_BackupDecompressCommand cfg else ["gzip"; "--decompress"].

(* src/pkg/sidecar/configs.go:182-187 RcloneArgs *)
Definition RcloneArgs cfg : list string := ["--config=" +:+ RcloneConfigFile] ++ cfg_RcloneExtraArgs cfg.

(* src/pkg/sidecar/configs.go:189-194 XbstreamArgs *)
Definition XbstreamArgs cfg : list string := ["--extract"; "--directory=" +:+ dataDir] ++ cfg_XbstreamExtraArgs cfg.

(* src/pkg/sidecar/configs.go:196-211 XtrabackupArgs *)
Definition XtrabackupArgs cfg : list string :=
  ["--backup"; "--slave-info"; "--stream=xbstream";
   "--tables-exclude=" +:+ OperatorDbName +:+ backslash +:+ "." +:+ OperatorStatusTableName;
   "--host=127.0.0.1"; "--user=" +:+ cfg_ReplicationUser cfg; "--password=" +:+ cfg_ReplicationPassword cfg;
   "--target-dir=" +:+ cfg_XtrabackupTargetDir cfg] ++ cfg_XtrabackupExtraArgs cfg.

(* src/pkg/sidecar/configs.go:213-218 XtrabackupPrepareArgs *)
Definition XtrabackupPrepareArgs cfg : list string :=
  ["--prepare"; "--target-dir=" +:+ dataDir] ++ cfg_XtrabackupPrepareExtraArgs cfg.

End Config.

(** [os.Open] of the directory of MySQL's own tables. *)
Inductive opened := Opened | NotExist | OpenError (e : error).

(* src/pkg/sidecar/configs.go:368-381 checkIfDataExists *)
Definition checkIfDataExists (o : opened) : result bool :=
  match o with
  | NotExist => Ok false
  | OpenError e => Err e
  | Opened => Ok true
  end.

(** Outside of a cluster, a missing password is made up. *)
Definition heartbeatPassword (env : string → string) (random : result string) : result string :=
  let hbPass := TrimSpace (env "HEARTBEAT_PASSWORD") in
  if String.eqb hbPass "" then
    if negb (String.eqb (env "KUBERNETES_SERVICE_HOST") "")
    then Err (ErrMsg "HEARTBEAT_PASSWORD is unset in-cluster: ensure the operated secret includes HEARTBEAT_PASSWORD (upgrade mysql-operator and let it reconcile the secret), then restart mysql pods")
    else random
  else Ok hbPass.

(** The result [random] is that of [rand.AlphaNumericString(10)]. *)
(* src/pkg/sidecar/configs.go:221-328 NewConfig *)
Definition NewConfig `{!Blang} (env : string → string) (mysqlDir : opened) (random : result string) : result Config :=
  let hbUser := TrimSpace (env "HEARTBEAT_USER") in
  let hbUser := if String.eqb hbUser "" then HeartBeatMySQLUser else hbUser in
  hbPass ← heartbeatPassword env random;
  eData ← checkIfDataExists mysqlDir;
  let customOffset := env "MY_SERVER_ID_OFFSET" in
  let offset := if negb (String.length customOffset =? 0)%nat then default MysqlServerIDOffset (Atoi customOffset)
                else MysqlServerIDOffset in
  let mysqlVersion := match Parse (env "MY_MYSQL_VERSION") with Ok v => v | Err _ => Zero end in
  mret {|
    cfg_Hostname := env "HOSTNAME"; cfg_ClusterName := env "MY_CLUSTER_NAME";
    cfg_Namespace := env "MY_NAMESPACE"; cfg_ServiceName := env "MY_SERVICE_NAME";
    cfg_InitBucketURL := env "INIT_BUCKET_URI";
    cfg_OperatorUser := env "OPERATOR_USER"; cfg_OperatorPassword := env "OPERATOR_PASSWORD";
    cfg_BackupUser := env "BACKUP_USER"; cfg_BackupPassword := env "BACKUP_PASSWORD";
    cfg_ReplicationUser := env "REPLICATION_USER"; cfg_ReplicationPassword := env "REPLICATION_PASSWORD";
    cfg_MetricsUser := env "METRICS_EXPORTER_USER"; cfg_MetricsPassword := env "METRICS_EXPORTER_PASSWORD";
    cfg_OrchestratorUser := env "ORC_TOPOLOGY_USER"; cfg_OrchestratorPassword := env "ORC_TOPOLOGY_PASSWORD";
    cfg_HeartBeatUser := hbUser; cfg_HeartBeatPassword := hbPass;
    cfg_ExistsMySQLData := eData;
    cfg_MyServerIDOffset := offset;
    cfg_BackupCompressCommand := Fields (env "BACKUP_COMPRESS_COMMAND");
    cfg_BackupDecompressCommand := Fields (env "BACKUP_DECOMPRESS_COMMAND");
    cfg_RcloneExtraArgs := Fields (env "RCLONE_EXTRA_ARGS");
    cfg_XbstreamExtraArgs := Fields (env "XBSTREAM_EXTRA_ARGS");
    cfg_XtrabackupExtraArgs := Fields (env "XTRABACKUP_EXTRA_ARGS");
    cfg_XtrabackupPrepareExtraArgs := Fields (env "XTRABACKUP_PREPARE_EXTRA_ARGS");
    cfg_XtrabackupTargetDir := env "XTRABACKUP_TARGET_DIR";
    cfg_masterService := ""; cfg_healthyReplicaCloneService := "";
    cfg_InitFileExtraSQL := Split (env "INITFILE_EXTRA_SQL") ";";
    cfg_MySQLVersion := mysqlVersion |}.

(** ** Words *)

Definition word (s : string) : bool := negb (String.eqb s "") && str_forall (λ c, negb (is_space c)) s.

Lemma Fields_word (x : string) : word x = true → Fields x = [x].
Proof.
  unfold word. intros [Hne Hx]%andb_prop. induction x as [|c x IH]; [done|].
  cbn [str_forall String.list_ascii_of_string] in Hx. simpl in Hx. apply andb_prop in Hx as [Hc Hx].
  apply negb_true_iff in Hc. cbn [Fields]. rewrite Hc. destruct x as [|d x]; [done|].
  simpl in Hx. pose proof Hx as [Hd%negb_true_iff _]%andb_prop. rewrite Hd.
  by rewrite (IH eq_refl Hx).
Qed.

Lemma Fields_word_space (x s : string) (sp : ascii) :
  is_space sp = true → word x = true → Fields (x +:+ String sp s) = x :: Fields s.
Proof.
  intros Hsp. unfold word. intros [Hne Hx]%andb_prop. induction x as [|c x IH]; [done|].
  simpl in Hx. apply andb_prop in Hx as [Hc%negb_true_iff Hx]. cbn [String.append Fields]. rewrite Hc.
  destruct x as [|d x]; [cbn [String.append Fields]; by rewrite Hsp|]. simpl in Hx. pose proof Hx as [Hd%negb_true_iff _]%andb_prop.
  cbn [String.append]. rewrite Hd. specialize (IH eq_refl Hx). cbn [String.append] in IH. by rewrite IH.
Qed.

(** Arguments that are joined are separated again. *)
Lemma Fields_Join (xs : list string) : Forall (λ x, word x = true) xs → Fields (Join xs " ") = xs.
Proof.
  induction 1 as [|x xs Hx Hxs IH]; [done|]. destruct xs as [|y xs]; [by apply Fields_word|].
  change (Join (x :: y :: xs) " ") with (x +:+ " " +:+ Join (y :: xs) " ").
  change (" " +:+ Join (y :: xs) " ") with (String " " (Join (y :: xs) " ")).
  by rewrite Fields_word_space, IH.
Qed.

Lemma Split_Join (xs : list string) (sep : ascii) :
  xs ≠ [] → Forall (λ x, Index x (String sep "") = None) xs → Split (Join xs (String sep "")) sep = xs.
Proof.
  intros Hne Hxs. induction Hxs as [|x xs Hx Hxs IH]; [done|]. destruct xs as [|y xs]; [by apply Split_none|].
  change (Join (x :: y :: xs) (String sep "")) with (x +:+ String sep (Join (y :: xs) (String sep ""))).
  by rewrite Split_app, IH.
Qed.

(** ** The environment of a container of the stateful set *)

Definition plain (s : string) : Prop := Index s "$" = None.

(** The variables that the sidecar takes from the specification of the container only. *)
Definition settings : list string :=
  ["MY_SERVICE_NAME"; "MY_CLUSTER_NAME"; "MY_MYSQL_VERSION"; "MY_SERVER_ID_OFFSET"; "INIT_BUCKET_URI";
   "XTRABACKUP_EXTRA_ARGS"; "XTRABACKUP_PREPARE_EXTRA_ARGS"; "INITFILE_EXTRA_SQL"].

(** What the kubelet sets in the container [ctr] of the pod [pod]: values without
    references as they are, fields of the pod, its name as the host name; a secret of
    the cluster does not set a variable of [settings]. *)
Record podEnv `{!Blang, !Process} (opt : Options) (c : MysqlCluster) (rollout : Version) (ctr pod : string)
    (env : string → string) : Prop := {
  pe_plain e : e ∈ getEnvFor opt c rollout ctr → ev_ValueFrom e = None → plain (ev_Value e) → env (ev_Name e) = ev_Value e;
  pe_namespace e v : e ∈ getEnvFor opt c rollout ctr → ev_ValueFrom e = Some (FieldRef v "metadata.namespace") →
    env (ev_Name e) = cl_Namespace c;
  pe_unset n : n ∈ settings → n ∉ ev_Name <$> getEnvFor opt c rollout ctr → env n = "";
  pe_hostname : env "HOSTNAME" = pod }.

Ltac in_env :=
  let rec find := first [solve [left] | right; find] in
  unfold getEnvFor; cbv zeta;
  repeat first [solve [apply elem_of_app; left; find] | solve [find] | apply elem_of_app; right].

Section Pod.
Context `{!Blang, !BlangLaws, !Process} (opt : Options) (c : MysqlCluster) (rollout : Version) (ctr : string).

Lemma plain_itoa z : plain (itoa z).
Proof.
  destruct (decide (0 ≤ z)%Z) as [Hz|Hz]; [by apply all_digits_Index, all_digits_itoa|].
  destruct z as [|p|p]; [done|lia|]. unfold plain. change (itoa (Zneg p)) with ("-" +:+ itoa (Zpos p)).
  apply Index_app_None; [done|]. by apply all_digits_Index, all_digits_itoa.
Qed.

Lemma plain_VString v : plain (VString v).
Proof.
  unfold plain. rewrite VString_eq. repeat (apply Index_app_None; [first [apply plain_itoa|done]|]). apply plain_itoa.
Qed.

Lemma getOrdinal_pod (name : string) (i : Z) :
  (0 ≤ i < 2 ^ 63)%Z → getOrdinalFromHostname (name +:+ "-" +:+ itoa i) = i.
Proof.
  intros Hi. unfold getOrdinalFromHostname. change ("-" +:+ itoa i) with (String "-" (itoa i)).
  rewrite LastIndex_app by (apply all_digits_Index; [done|apply all_digits_itoa; lia]).
  replace (name +:+ String "-" (itoa i)) with ((name +:+ "-") +:+ itoa i) by by rewrite str_app_assoc.
  replace (String.length name + 1)%nat with (String.length (name +:+ "-")) by by rewrite str_length_app.
  rewrite str_drop_app, Atoi_itoa; [done|]. unfold in_int64. apply andb_true_iff.
  rewrite Z.leb_le, Z.ltb_lt. lia.
Qed.

(** The offset that is written is read back; without one it is the default. *)
Lemma offset_read env pod :
  podEnv opt c rollout ctr pod env → (∀ o, ServerIDOffset (cl_Spec c) = Some o → in_int64 o = true) →
  (if negb (String.length (env "MY_SERVER_ID_OFFSET") =? 0)%nat
   then default MysqlServerIDOffset (Atoi (env "MY_SERVER_ID_OFFSET")) else MysqlServerIDOffset) =
  default MysqlServerIDOffset (ServerIDOffset (cl_Spec c)).
Proof.
  intros He Ho. destruct (ServerIDOffset (cl_Spec c)) as [o|] eqn:E.
  - pose proof (pe_plain _ _ _ _ _ _ He (mkEnvVar "MY_SERVER_ID_OFFSET" (itoa o))) as Hp.
    cbn [mkEnvVar ev_Name ev_Value ev_ValueFrom] in Hp. rewrite Hp; [|unfold getEnvFor; rewrite E; in_env|done|apply plain_itoa].
    rewrite Atoi_itoa by auto. destruct (String.length (itoa o)) eqn:El; [|done].
    pose proof (Atoi_itoa o (Ho o eq_refl)) as Ha. destruct (itoa o); [done|discriminate El].
  - rewrite (pe_unset _ _ _ _ _ _ He "MY_SERVER_ID_OFFSET"); [done|by (do 3 right; left)|].
    unfold getEnvFor. cbv zeta. rewrite E, !fmap_app, !not_elem_of_app.
    split_and!; repeat case_match; apply (bool_decide_unpack _); vm_compute; exact I.
Qed.

Lemma wrap64_shift i o : in_int64 i = true → wrap64 (wrap64 (i + o) - o) = i.
Proof.
  unfold in_int64. rewrite andb_true_iff, Z.leb_le, Z.ltb_lt. intros Hi. unfold wrap64.
  set (m := (2 ^ 64)%Z). replace ((i + o + 2 ^ 63) `mod` m - 2 ^ 63 - o + 2 ^ 63)%Z with ((i + o + 2 ^ 63) `mod` m - o)%Z by lia.
  rewrite Zminus_mod_idemp_l. replace (i + o + 2 ^ 63 - o)%Z with (i + 2 ^ 63)%Z by lia.
  rewrite Z.mod_small; unfold m; lia.
Qed.

(** The arguments for xtrabackup are those of the specification. *)
Lemma XtrabackupExtraArgs_read env pod :
  podEnv opt c rollout containerSidecarName pod env →
  Forall (λ x, word x = true) (XtrabackupExtraArgs (cl_Spec c)) → plain (Join (XtrabackupExtraArgs (cl_Spec c)) " ") →
  Fields (env "XTRABACKUP_EXTRA_ARGS") = XtrabackupExtraArgs (cl_Spec c).
Proof.
  intros He Hw Hp. destruct (XtrabackupExtraArgs (cl_Spec c)) as [|x xs] eqn:E.
  - rewrite (pe_unset _ _ _ _ _ _ He "XTRABACKUP_EXTRA_ARGS"); [done|by (do 5 right; left)|].
    unfold getEnvFor. cbv zeta. rewrite E, !fmap_app, !not_elem_of_app.
    split_and!; repeat (case_match; try discriminate); apply (bool_decide_unpack _); vm_compute; exact I.
  - rewrite <-(Fields_Join (x :: xs)) by done. f_equal.
    apply (pe_plain _ _ _ _ _ _ He (mkEnvVar "XTRABACKUP_EXTRA_ARGS" (Join (x :: xs) " "))); [|done|done].
    unfold getEnvFor. cbv zeta. rewrite E. in_env.
Qed.

(** C20. A pod knows who it is.  From the environment that the stateful set gives to a
    container of pod [i] of a cluster, the sidecar reads the identifier of the server,
    which is [i] plus the offset of the specification, or 100; the version that is
    rolled out; a host to report that is exactly the host by which the controllers
    know the pod; and the services of the cluster to clone from.  Only pod 0 is the
    first of its set.  In the sidecar, the arguments of the specification for
    xtrabackup are read back, if none is empty or has a space. *)
Theorem NewConfig_pod (i : Z) (env : string → string) (mysqlDir : opened) (random : result string) (cfg : Config) :
  podEnv opt c rollout ctr (GetNameForResource StatefulSetName (cl_Name c) +:+ "-" +:+ itoa i) env →
  version_fits rollout → plain (cl_Name c) → (0 ≤ i < 2 ^ 63)%Z →
  (∀ o, ServerIDOffset (cl_Spec c) = Some o → in_int64 o = true) →
  NewConfig env mysqlDir random = Ok cfg →
  FQDNForServer cfg (ServerID cfg) = GetPodHostname c i ∧
  ServerID cfg = wrap64 (i + default 100%Z (ServerIDOffset (cl_Spec c))) ∧
  cfg_MySQLVersion cfg = rollout ∧
  IsFirstPodInSet cfg = (i =? 0)%Z ∧
  ReplicasFQDN cfg = GetNameForResource HealthyReplicasService (cl_Name c) ∧
  MasterFQDN cfg = GetNameForResource MasterService (cl_Name c) ∧
  cfg_ExistsMySQLData cfg = (match mysqlDir with Opened => true | _ => false end) ∧
  (ctr = containerSidecarName → Forall (λ x, word x = true) (XtrabackupExtraArgs (cl_Spec c)) →
   plain (Join (XtrabackupExtraArgs (cl_Spec c)) " ") →
   cfg_XtrabackupExtraArgs cfg = XtrabackupExtraArgs (cl_Spec c)).
Proof.
  intros He Hv Hn Hi Ho Hc. unfold NewConfig in Hc.
  destruct (heartbeatPassword env random) as [hb|]; [|done]. cbn [mbind result_bind] in Hc.
  destruct (checkIfDataExists mysqlDir) as [e|] eqn:Ed; [|done]. cbn [mbind result_bind] in Hc.
  rewrite (offset_read env _ He Ho) in Hc. injection Hc as <-.
  assert (in_int64 i = true) as Hi64 by (unfold in_int64; rewrite andb_true_iff, Z.leb_le, Z.ltb_lt; lia).
  assert (env "MY_CLUSTER_NAME" = cl_Name c) as Ecl.
  { apply (pe_plain _ _ _ _ _ _ He (mkEnvVar "MY_CLUSTER_NAME" (cl_Name c))); [in_env|done|done]. }
  assert (env "MY_SERVICE_NAME" = GetNameForResource HeadlessSVC (cl_Name c)) as Esv.
  { apply (pe_plain _ _ _ _ _ _ He (mkEnvVar "MY_SERVICE_NAME" (GetNameForResource HeadlessSVC (cl_Name c)))); [in_env|done|done]. }
  assert (env MySQLVersionEnv = VString rollout) as Ev.
  { apply (pe_plain _ _ _ _ _ _ He (mkEnvVar MySQLVersionEnv (VString rollout))); [in_env|done|apply plain_VString]. }
  assert (env "MY_NAMESPACE" = cl_Namespace c) as Ens.
  { apply (pe_namespace _ _ _ _ _ _ He (mkEnvVarFrom "MY_NAMESPACE" "" (Some (FieldRef "v1" "metadata.namespace"))) "v1"); [in_env|done]. }
  unfold FQDNForServer, ServerID, IsFirstPodInSet, ReplicasFQDN, MasterFQDN.
  cbn [cfg_Hostname cfg_ClusterName cfg_ServiceName cfg_Namespace cfg_MyServerIDOffset cfg_MySQLVersion
    cfg_masterService cfg_healthyReplicaCloneService cfg_ExistsMySQLData cfg_XtrabackupExtraArgs String.eqb].
  rewrite (pe_hostname _ _ _ _ _ _ He), getOrdinal_pod, wrap64_shift, Ecl, Esv, Ens by done.
  change "MY_MYSQL_VERSION" with MySQLVersionEnv. rewrite Ev, Parse_VString by done.
  split_and!; try done; [by destruct mysqlDir; inversion Ed|].
  intros ->. by eapply XtrabackupExtraArgs_read.
Qed.

End Pod.

(** ** Examples *)

Section Witnesses.
#[local] Existing Instances Ref.blang Ref.blang_laws sampleProcess.

Definition sampleSpec : MysqlCluster :=
  (Sample.cluster "8.0" "8.0.20") {{ cl_Spec -> ServerIDOffset := Some 3000%Z }}
    {{ cl_Spec -> XtrabackupExtraArgs := ["--parallel=4"; "--compress"] }}.

(** The environment that the kubelet makes of the variables of the sidecar. *)
Definition kubeletEnv (pod : string) (n : string) : string :=
  if String.eqb n "HOSTNAME" then pod
  else if String.eqb n "HEARTBEAT_PASSWORD" then "secret"
  else match List.find (λ e, String.eqb (ev_Name e) n) (getEnvFor sampleOptions sampleSpec (mkVersion 8 0 20) containerSidecarName) with
       | Some e => match ev_ValueFrom e with
                   | None => ev_Value e
                   | Some (FieldRef _ path) => if String.eqb path "metadata.namespace" then cl_Namespace sampleSpec else "field"
                   | Some _ => "secret"
                   end
       | None => ""
       end.

Lemma kubeletEnv_pod pod : podEnv sampleOptions sampleSpec (mkVersion 8 0 20) containerSidecarName pod (kubeletEnv pod).
Proof.
  assert (Forall (λ e, (ev_ValueFrom e = None → kubeletEnv pod (ev_Name e) = ev_Value e) ∧
    ∀ v, ev_ValueFrom e = Some (FieldRef v "metadata.namespace") → kubeletEnv pod (ev_Name e) = cl_Namespace sampleSpec)
    (getEnvFor sampleOptions sampleSpec (mkVersion 8 0 20) containerSidecarName)) as Hall.
  { vm_compute. repeat (apply Forall_cons; split; [split; [intros Hn|intros v Hn]; first [reflexivity|discriminate Hn]|]).
    apply Forall_nil. done. }
  rewrite Forall_forall in Hall. split.
  - intros e He Hn _. by apply Hall.
  - intros e v He Hn. by eapply Hall.
  - intros n Hn Hno. unfold kubeletEnv.
    destruct (String.eqb_spec n "HOSTNAME") as [->|_]; [exfalso; revert Hn; apply (bool_decide_unpack _); vm_compute; exact I|].
    destruct (String.eqb_spec n "HEARTBEAT_PASSWORD") as [->|_]; [exfalso; revert Hn; apply (bool_decide_unpack _); vm_compute; exact I|].
    destruct (List.find _ _) as [e|] eqn:E; [|done]. apply List.find_some in E as [Hin He].
    apply String.eqb_eq in He as <-. exfalso. apply Hno, list_elem_of_fmap_2, list_elem_of_In, Hin.
  - reflexivity.
Qed.

Lemma NewConfig_pod_witness :
  ∃ cfg, NewConfig (kubeletEnv "demo-mysql-2") NotExist (Ok "") = Ok cfg ∧ ServerID cfg = 3002%Z ∧
  FQDNForServer cfg 3002 = "demo-mysql-2.mysql.prod" ∧
  FQDNForServer cfg (ServerID cfg) = GetPodHostname sampleSpec 2.
Proof.
  eexists. split; [vm_compute; reflexivity|]. split; [reflexivity|]. split; [reflexivity|].
  refine (proj1 (NewConfig_pod sampleOptions sampleSpec (mkVersion 8 0 20) containerSidecarName 2
    (kubeletEnv "demo-mysql-2") NotExist (Ok "") _ (kubeletEnv_pod _) _ _ _ _ _)).
  - vm_compute. split_and!; reflexivity.
  - vm_compute. reflexivity.
  - lia.
  - by intros o [= <-].
  - vm_compute. reflexivity.
Defined.

End Witnesses.
