(* ===== verification/PreStop.v ===== *)
(** * The script that runs before a MySQL pod stops

    [ConfigMap.buildBashPreStop] is the text of a script that the operator puts into the
    configuration of every cluster, and that the stateful set runs as the [preStop] hook
    of mysqld.  This file is what the script does: it asks the mysqld of the pod for its
    role, and Orchestrator for the master; if this pod is the master and has replicas,
    it asks Orchestrator to hand its role over before the pod stops.

    A command that is run is a call; [echo], [wc], [awk] and the tests of the shell are
    functions on strings.  The rules of bash that matter: [$(...)] drops newlines at the
    end; with [set -e] an assignment whose command fails ends the script with its
    status, but neither a condition nor a pipeline whose last command succeeds does; a
    test of something that is no integer does not hold. *)

From S2P Require Import Prelude GoStrings Semver ClusterTypes Versioning ClusterStatus ClusterModel.
From S2P Require Import ClusterDefaults StatefulSet ConfigMap SidecarConfig.
Open Scope stdpp_scope.

(** ** The shell *)

Fixpoint trimRight (p : ascii → bool) (s : string) : string :=
  match s with
  | "" => ""
  | String c s =>
      match trimRight p s with
      | "" => if p c then "" else String c ""
      | t => String c t
      end
  end.

Fixpoint trimLeft (p : ascii → bool) (s : string) : string :=
  match s with
  | "" => ""
  | String c s' => if p c then trimLeft p s' else s
  end.

Definition isNewline (c : ascii) : bool := (N_of_ascii c =? 10)%N.
Definition isBlank (c : ascii) : bool := (N_of_ascii c =? 32)%N || (N_of_ascii c =? 9)%N.

(** The output of a command, as [$(...)] gives it. *)
Definition substitution (out : string) : string := trimRight isNewline out.

(** [wc -l]. *)
Fixpoint countNewlines (s : string) : Z :=
  match s with
  | "" => 0
  | String c s => (if isNewline c then 1 else 0) + countNewlines s
  end.

(** An operand of [-eq], [-gt] and [-ge]. *)
Definition shellInt (s : string) : option Z := Atoi (trimRight isBlank (TrimLeftSpace s)).

Definition test (cmp : Z → Z → bool) (s : string) (n : Z) : bool :=
  match shellInt s with Some z => cmp z n | None => false end.

(** A variable without quotes around it is split into words; more or less than one are
    an error of the test. *)
Definition oneWord (s : string) : option string :=
  let ifs c := isBlank c || isNewline c in
  let t := trimRight ifs (trimLeft ifs s) in
  if negb (String.eqb t "") && str_forall (λ c, negb (ifs c)) t then Some t else None.

Definition testWord (cmp : Z → Z → bool) (s : string) (n : Z) : bool :=
  match oneWord s with Some t => test cmp t n | None => false end.

(** The lines that awk reads, and [awk -F sep '{print $n}']. *)
Definition records (text : string) : list string :=
  let lines := Split text (ascii_of_N 10) in
  match last lines with Some "" => removelast lines | _ => lines end.

Definition awkField (sep : ascii) (n : nat) (text : string) : string :=
  String.concat "" (List.map (λ l, default "" (Split l sep !! pred n) +:+ newline) (records text)).

(** ** The script *)

(** A command with its arguments is answered with what it prints and its status. *)
Inductive sh_op := Run (argv : list string).

#[export] Instance sh_effect : Effect sh_op := λ _, (string * Z)%type.

(** [x=$(argv)]. *)
Definition assign (argv : list string) (k : string → prog sh_op Z) : prog sh_op Z :=
  r ← call (Run argv);
  if (r.2 =? 0)%Z then k (substitution r.1) else mret r.2.

#[export] Instance sh_op_dec : EqDecision sh_op.
Proof. solve_decision. Defined.

(** [${ver%%.*}] is what comes before the first dot, [${ver#*.}] what comes after it. *)
(* src/pkg/controller/mysqlcluster/internal/syncer/config_map.go:82-93 prestop_mysql_use_source_replica_terms *)
Definition prestop_mysql_use_source_replica_terms (ver : string) : bool :=
  let mysql_major := (Split2 ver ".").1 in
  let rest := default ver (Split2 ver ".").2 in
  let mysql_minor := (Split2 rest ".").1 in
  test Z.gtb mysql_major 8 || test Z.eqb mysql_major 8 && test Z.geb mysql_minor 4.

Definition mysqlCmd (query : string) : list string :=
  ["mysql"; "--defaults-file=" +:+ confClientPath; "-NB"; "-e"; query].

(** The replacements of [buildBashPreStop]. *)
(* src/pkg/controller/mysqlcluster/internal/syncer/config_map.go:99-111 buildBashPreStop *)
Definition prestopPhrases (ver : string) : ReplicationDialect :=
  if prestop_mysql_use_source_replica_terms ver then SourceReplicaReplication else MasterSlaveReplication.

(** The third field between colons, and of it the second between quotes. *)
(* src/pkg/controller/mysqlcluster/internal/syncer/config_map.go:125-125 buildBashPreStop *)
Definition masterhostname (body : string) : string :=
  substitution (awkField (ascii_of_N 34) 2 (awkField ":" 3 body)).

Section Script.
Context (env : string → string).

Definition orchCmd (path : string) : list string :=
  ["curl"; "-s"; env "ORCH_HTTP_API" +:+ path +:+ env "ORCH_CLUSTER_ALIAS"].

(* src/pkg/controller/mysqlcluster/internal/syncer/config_map.go:125-125 buildBashPreStop *)
Definition masterCmd : list string := orchCmd "/master/".
(* src/pkg/controller/mysqlcluster/internal/syncer/config_map.go:129-129 buildBashPreStop *)
Definition takeoverCmd : list string := orchCmd "/graceful-master-takeover-auto/".

(** The mysqld of this pod takes writes, follows no other and has replicas. *)
(* src/pkg/controller/mysqlcluster/internal/syncer/config_map.go:115-123 buildBashPreStop *)
Definition looksLikeMaster (read_only_status replica_status has_replica_hosts : string) : bool :=
  testWord Z.eqb read_only_status 0 && (countNewlines replica_status =? 0)%Z && (countNewlines has_replica_hosts >? 0)%Z.

(** The status of the first [curl] is lost in its pipeline; the second ends the script
    when it fails. *)
(* src/pkg/controller/mysqlcluster/internal/syncer/config_map.go:123-133 buildBashPreStop *)
Definition handOver : prog sh_op Z :=
  r ← call (Run masterCmd);
  if String.eqb (env "MY_FQDN") (masterhostname r.1) then
    t ← call (Run takeoverCmd);
    if (t.2 =? 0)%Z then s ← call (Run ["sleep"; "5"]); mret s.2 else mret t.2
  else mret 0%Z.

(* src/pkg/controller/mysqlcluster/internal/syncer/config_map.go:99-133 buildBashPreStop *)
Definition prestopWith (ver : string) : prog sh_op Z :=
  let phrases := prestopPhrases ver in
  assign ["date"; "+%Y-%m-%d %H:%M:%S"] (λ _,
  assign (mysqlCmd "SELECT @@read_only") (λ read_only_status,
  assign (mysqlCmd (ShowReplicaStatusCmd phrases)) (λ replica_status,
  assign (mysqlCmd (ShowReplicasCmd phrases)) (λ has_replica_hosts,
  _ ← call (Run ["hostname"]);
  if looksLikeMaster read_only_status replica_status has_replica_hosts then handOver else mret 0%Z)))).

(* src/pkg/controller/mysqlcluster/internal/syncer/config_map.go:95-133 buildBashPreStop *)
Definition prestop : prog sh_op Z :=
  if String.eqb (env MySQLVersionEnv) "" then assign (mysqlCmd "SELECT VERSION()") prestopWith
  else prestopWith (env MySQLVersionEnv).

End Script.

(** ** The text tools *)

Lemma trimRight_none (p : ascii → bool) s : str_forall (λ c, negb (p c)) s = true → trimRight p s = s.
Proof.
  unfold str_forall. induction s as [|c s IH]; [done|]. simpl. intros [Hc%negb_true_iff Hs]%andb_prop.
  rewrite IH, Hc by done. by destruct s.
Qed.

Lemma trimRight_app (p : ascii → bool) s c :
  str_forall (λ c, negb (p c)) s = true → p c = true → trimRight p (s +:+ String c "") = s.
Proof.
  unfold str_forall. intros Hs Hp. induction s as [|d s IH]; simpl; [by rewrite Hp|].
  simpl in Hs. apply andb_prop in Hs as [Hd%negb_true_iff Hs]. rewrite IH, Hd by done. by destruct s.
Qed.

Lemma shellInt_itoa z : (0 ≤ z < 2 ^ 63)%Z → shellInt (itoa z) = Some z.
Proof.
  intros Hz. unfold shellInt. assert (all_digits (itoa z) = true) as Hd by (apply all_digits_itoa; lia).
  rewrite <-str_forall_digits in Hd.
  assert (TrimLeftSpace (itoa z) = itoa z) as ->.
  { destruct (itoa z) as [|c s]; [done|]. simpl in *. apply andb_prop in Hd as [Hc _]. by rewrite (is_digit_not_space c Hc). }
  rewrite trimRight_none, Atoi_itoa; [done| |].
  - unfold in_int64. rewrite andb_true_iff, Z.leb_le, Z.ltb_lt. lia.
  - eapply str_forall_impl; [|exact Hd]. intros c Hc%is_digit_not_space. unfold is_space in Hc. unfold isBlank.
    apply orb_false_elim in Hc as [-> Hc]. destruct (N.eqb_spec (N_of_ascii c) 9) as [E|]; [|done]. by rewrite E in Hc.
Qed.

Lemma Split2_digits z t : (0 ≤ z)%Z → Split2 (itoa z +:+ String "." t) "." = (itoa z, Some t).
Proof. intros Hz. by apply Split2_app, all_digits_Index, all_digits_itoa. Qed.

(** The script reads a version as the operator does, whatever a vendor adds to it: it uses
    the words of the release line of the version. *)
Theorem prestop_dialect `{!Blang, !BlangLaws, !Process} (v : Version) (suffix : string) :
  (Z.of_N (Major v) < 2 ^ 63)%Z → (Z.of_N (Minor v) < 2 ^ 63)%Z →
  prestop_mysql_use_source_replica_terms (VString v +:+ suffix) = AtLeastMySQL84 v ∧
  prestopPhrases (VString v +:+ suffix) = Replication (ProfileFor v).
Proof.
  intros Ha Hb.
  assert (prestop_mysql_use_source_replica_terms (VString v +:+ suffix) = AtLeastMySQL84 v) as Hv.
  { unfold prestop_mysql_use_source_replica_terms. rewrite VString_eq, !str_app_assoc.
    change ("." +:+ itoa (Z.of_N (Minor v)) +:+ "." +:+ itoa (Z.of_N (Patch v)) +:+ suffix)
      with (String "." (itoa (Z.of_N (Minor v)) +:+ String "." (itoa (Z.of_N (Patch v)) +:+ suffix))).
    rewrite !Split2_digits by lia. cbn [fst snd default from_option]. unfold id, test. rewrite Split2_digits by lia. cbn [fst].
    rewrite !shellInt_itoa by lia. unfold AtLeastMySQL84.
    destruct (Z.gtb_spec (Z.of_N (Major v)) 8), (N.ltb_spec 8 (Major v)), (Z.eqb_spec (Z.of_N (Major v)) 8),
      (N.eqb_spec (Major v) 8), (Z.geb_spec (Z.of_N (Minor v)) 4), (N.leb_spec 4 (Minor v)); simpl; done || lia. }
  split; [done|]. unfold prestopPhrases. rewrite Hv, ProfileFor_eq.
  destruct (AtLeastMySQL84 v); [done|]. destruct (AtLeastMySQL8 v); [done|]. by destruct (Major v =? 5)%N.
Qed.

(** What Orchestrator answers is the record of an instance, which begins with its key. *)
Definition instanceJSON (host rest : string) : string :=
  "{" +:+ Quote "Key" +:+ ":{" +:+ Quote "Hostname" +:+ ":" +:+ dquote +:+ host +:+ dquote +:+ "," +:+
  Quote "Port" +:+ ":" +:+ rest.

Definition hostByte (c : ascii) : bool :=
  negb (Ascii.eqb c ":") && negb (N_of_ascii c =? 34)%N && negb (isNewline c).

Lemma records_line s : s ≠ "" → Index s newline = None → records s = [s].
Proof. intros Hs Hn. unfold records. rewrite Split_none by done. by destruct s. Qed.

Lemma masterhostname_instance (host rest : string) :
  str_forall hostByte host = true → Index rest newline = None →
  masterhostname (instanceJSON host rest) = host.
Proof.
  intros Hh Hr.
  assert (∀ c, hostByte c = false → Index host (String c "") = None) as Hno by (intros c Hc; by apply (str_forall_Index hostByte)).
  unfold masterhostname.
  set (third := dquote +:+ host +:+ dquote +:+ "," +:+ Quote "Port").
  assert (instanceJSON host rest = ("{" +:+ Quote "Key") +:+ String ":" (("{" +:+ Quote "Hostname") +:+
    String ":" (third +:+ String ":" rest))) as Ej.
  { unfold instanceJSON, third. rewrite !str_app_assoc. reflexivity. }
  assert (Index third ":" = None) as Ht.
  { unfold third. repeat (apply Index_app_None; [first [reflexivity|by apply Hno]|]). reflexivity. }
  assert (Index third newline = None) as Htn.
  { unfold third. repeat (apply Index_app_None; [first [reflexivity|by apply Hno]|]). reflexivity. }
  assert (awkField ":" 3 (instanceJSON host rest) = third +:+ newline) as ->.
  { unfold awkField. rewrite records_line.
    - cbn [List.map]. rewrite Ej, !Split_app by (reflexivity || done). reflexivity.
    - by rewrite Ej.
    - rewrite Ej. apply Index_app_None; [reflexivity|]. apply (Index_app_None ":"); [reflexivity|].
      apply Index_app_None; [reflexivity|]. apply (Index_app_None ":"); [reflexivity|].
      apply Index_app_None; [done|]. by apply (Index_app_None ":"). }
  unfold awkField, records. change newline with (String (ascii_of_N 10) "").
  rewrite Split_app by done. cbn [Split last removelast List.map].
  assert (third = "" +:+ String (ascii_of_N 34) (host +:+ String (ascii_of_N 34) ("," +:+ Quote "Port"))) as -> by done.
  rewrite !Split_app by (reflexivity || by apply Hno). cbn [pred lookup list_lookup default String.concat].
  unfold substitution. apply trimRight_app; [|reflexivity].
  eapply str_forall_impl; [|exact Hh]. intros c Hc. by apply andb_prop in Hc as [_ ?].
Qed.

(** ** A run of the script *)

Lemma Run_inj (a b : list string) : Run a = Run b → a = b.
Proof. by intros [= ->]. Qed.

Lemma event_out (a b : list string) (x y : string * Z) :
  Ev (Op := sh_op) (Run a) x = Ev (Run b) y → a = b ∧ x = y.
Proof.
  intros E. split; [by injection E|].
  exact (f_equal (λ e : event sh_op, (ev_resp e : string * Z)) E).
Qed.

(** A command gave this output, and did not fail. *)
Definition said (t : list (event sh_op)) (argv : list string) (out : string) : Prop :=
  Ev (Op := sh_op) (Run argv) (out, 0%Z) ∈ t.

Section Runs.
Context (env : string → string).

Lemma orchCmds_differ : masterCmd env ≠ takeoverCmd env.
Proof. intros [= E%str_app_inv_l]. discriminate E. Qed.

(** What the script goes by. *)
Definition evidence (d : ReplicationDialect) (t : list (event sh_op)) : Prop :=
  ∃ ro st hosts body code,
    said t (mysqlCmd "SELECT @@read_only") ro ∧ said t (mysqlCmd (ShowReplicaStatusCmd d)) st ∧
    said t (mysqlCmd (ShowReplicasCmd d)) hosts ∧
    looksLikeMaster (substitution ro) (substitution st) (substitution hosts) = true ∧
    Ev (Op := sh_op) (Run (masterCmd env)) (body, code) ∈ t ∧ masterhostname body = env "MY_FQDN".

(** The commands that only look. *)
Definition looks (d : ReplicationDialect) : list (list string) :=
  [["date"; "+%Y-%m-%d %H:%M:%S"]; mysqlCmd "SELECT VERSION()"; mysqlCmd "SELECT @@read_only";
   mysqlCmd (ShowReplicaStatusCmd d); mysqlCmd (ShowReplicasCmd d); ["hostname"]; masterCmd env; ["sleep"; "5"]].

(** An event of a known list of calls is one of them. *)
Ltac resolve H :=
  cbn [fmap list_fmap ev_op] in H;
  repeat (apply elem_of_cons in H as [H|H];
    [first [discriminate H|
            apply event_out in H as [H ?]; first [discriminate H|by destruct orchCmds_differ|clear H; simplify_eq]|
            apply Run_inj in H; first [discriminate H|by destruct orchCmds_differ]]|]);
  try by apply not_elem_of_nil in H.

Ltac step :=
  match goal with
  | |- context [?w ?h (Run ?argv)] => is_var w; destruct (w h (Run argv)) as [? ?]; cbn [fst snd app]
  end.

Ltac known := first [by left|right; known].

(** Only commands that look, and the request. *)
Definition harmless (d : ReplicationDialect) (t : list (event sh_op)) : Prop :=
  Forall (λ e, match ev_op e with Run argv => argv = takeoverCmd env ∨ argv ∈ looks d end) t.

Ltac harmless := repeat first [apply List.Forall_nil|apply List.Forall_cons; [first [by left|right; known]|]].

Lemma prestopWith_run ver w :
  let t := trace (prestopWith env ver) w in
  (Run (takeoverCmd env) ∈ ev_op <$> t ↔ evidence (prestopPhrases ver) t) ∧ harmless (prestopPhrases ver) t.
Proof.
  cbv zeta. unfold trace, prestopWith, handOver, assign, mbind, prog_bind, call, mret, prog_ret. cbn [fst snd app].
  set (d := prestopPhrases ver).
  assert (d = SourceReplicaReplication ∨ d = MasterSlaveReplication) as Hd.
  { unfold d, prestopPhrases. destruct (prestop_mysql_use_source_replica_terms ver); auto. }
  clearbody d.
  do 4 (step; match goal with |- context [(?c =? 0)%Z] => destruct (Z.eqb_spec c 0) as [->|] end; cbn [fst snd app];
    [|split; [split; [intros H|intros (ro & st & hosts & body & code & H1 & H2 & H3 & H4 & H5 & H6)]; exfalso;
      destruct Hd as [-> | ->]; [resolve H|resolve H|resolve H5|resolve H5]|harmless]]).
  step. match goal with |- context [looksLikeMaster ?a ?b ?c] => destruct (looksLikeMaster a b c) eqn:El end; cbn [fst snd app].
  2:{ split; [|harmless]. split; [intros H|intros (ro & st & hosts & body & code & H1 & H2 & H3 & H4 & H5 & H6)]; exfalso;
      destruct Hd as [-> | ->]; [resolve H|resolve H|resolve H5|resolve H5]. }
  step. destruct (String.eqb_spec (env "MY_FQDN") (masterhostname s4)) as [Em|Em]; cbn [fst snd app].
  2:{ split; [|harmless]. split; [intros H|intros (ro & st & hosts & body & code & H1 & H2 & H3 & H4 & H5 & H6)]; exfalso;
      destruct Hd as [-> | ->]; [resolve H|resolve H|resolve H5|resolve H5]. }
  step. match goal with |- context [(?c =? 0)%Z] => destruct (Z.eqb_spec c 0) as [->|] end; cbn [fst snd app]; try step.
  all: split; [|harmless].
  all: split; [intros _|intros _; cbn [fmap list_fmap ev_op]; known].
  all: eexists s0, s1, s2, s4, _; unfold said; split_and!; [known|known|known|done|known|by symmetry].
Qed.

End Runs.

(** ** The script in a pod of a cluster *)

Section Pod.
Context `{!Blang, !BlangLaws, !Process} (opt : Options) (c : MysqlCluster) (rollout : Version).

(** The environment of mysqld in the pod [pod], where the references of [MY_FQDN] are
    replaced. *)
Record mysqlEnv (pod : string) (env : string → string) : Prop := {
  me_pod : podEnv opt c rollout containerMysqlName pod env;
  me_name : env "MY_POD_NAME" = pod;
  me_fqdn : env "MY_FQDN" = env "MY_POD_NAME" +:+ "." +:+ env "MY_SERVICE_NAME" +:+ "." +:+ env "MY_NAMESPACE" }.

Definition podOf (i : Z) : string := GetNameForResource StatefulSetName (cl_Name c) +:+ "-" +:+ itoa i.

Definition orchestratorCmd (path : string) : list string :=
  ["curl"; "-s"; OrchestratorURI opt +:+ path +:+ GetClusterAlias c].

Lemma mysqlEnv_fqdn i env : mysqlEnv (podOf i) env → env "MY_FQDN" = GetPodHostname c i.
Proof.
  intros [He Hn Hf]. rewrite Hf, Hn. unfold podOf, GetPodHostname.
  assert (env "MY_SERVICE_NAME" = GetNameForResource HeadlessSVC (cl_Name c)) as ->.
  { apply (pe_plain _ _ _ _ _ _ He (mkEnvVar "MY_SERVICE_NAME" (GetNameForResource HeadlessSVC (cl_Name c)))); [in_env|done|done]. }
  assert (env "MY_NAMESPACE" = cl_Namespace c) as ->.
  { apply (pe_namespace _ _ _ _ _ _ He (mkEnvVarFrom "MY_NAMESPACE" "" (Some (FieldRef "v1" "metadata.namespace"))) "v1"); [in_env|done]. }
  by rewrite !str_app_assoc.
Qed.

Lemma mysqlEnv_orch pod env path :
  mysqlEnv pod env → plain (OrchestratorURI opt) → plain (cl_Name c) → plain (cl_Namespace c) →
  orchCmd env path = orchestratorCmd path.
Proof.
  intros [He _ _] Ho Hn Hns. unfold orchCmd, orchestratorCmd.
  assert (env "ORCH_HTTP_API" = OrchestratorURI opt) as ->.
  { apply (pe_plain _ _ _ _ _ _ He (mkEnvVar "ORCH_HTTP_API" (OrchestratorURI opt))); [in_env|done|done]. }
  assert (env "ORCH_CLUSTER_ALIAS" = GetClusterAlias c) as ->; [|done].
  apply (pe_plain _ _ _ _ _ _ He (mkEnvVar "ORCH_CLUSTER_ALIAS" (GetClusterAlias c))); [in_env|done|].
  unfold GetClusterAlias. apply Index_app_None; [done|]. by apply (Index_app_None ".").
Qed.

Lemma GetPodHostname_inj i j : GetPodHostname c i = GetPodHostname c j → i = j.
Proof.
  unfold GetPodHostname. intros E%str_app_inv_l%str_app_inv_l. by apply str_app_inj_tail in E as [E%itoa_inj _].
Qed.

(** C8. A pod that stops hands its role over exactly if it is the master.  The script of
    the operator, in pod [i] of a cluster, requests a takeover of its own cluster from
    Orchestrator if and only if its mysqld said that it takes writes, follows no other
    and has replicas, to queries in the words of the version that is rolled out, and
    Orchestrator named as the master the host by which the controllers know pod [i].
    All other commands of a run only look; and on one answer of Orchestrator no other pod
    of the cluster requests a takeover. *)
Theorem prestop_takeover (i : Z) (env : string → string) (w : world sh_op) :
  mysqlEnv (podOf i) env →
  plain (OrchestratorURI opt) → plain (cl_Name c) → plain (cl_Namespace c) →
  (Z.of_N (Major rollout) < 2 ^ 63)%Z → (Z.of_N (Minor rollout) < 2 ^ 63)%Z →
  let t := trace (prestop env) w in
  let d := Replication (ProfileFor rollout) in
  let takeover := orchestratorCmd "/graceful-master-takeover-auto/" in
  (Run takeover ∈ ev_op <$> t ↔
    ∃ ro st hosts body code,
      said t (mysqlCmd "SELECT @@read_only") ro ∧ said t (mysqlCmd (ShowReplicaStatusCmd d)) st ∧
      said t (mysqlCmd (ShowReplicasCmd d)) hosts ∧
      testWord Z.eqb (substitution ro) 0 = true ∧ countNewlines (substitution st) = 0%Z ∧
      (0 < countNewlines (substitution hosts))%Z ∧
      Ev (Op := sh_op) (Run (orchestratorCmd "/master/")) (body, code) ∈ t ∧ masterhostname body = GetPodHostname c i ∧
      ∀ j, masterhostname body = GetPodHostname c j → j = i) ∧
  Forall (λ e, match ev_op e with Run argv => argv = takeover ∨ argv ∈ looks env d end) t.
Proof.
  intros He Ho Hn Hns Ha Hb. cbv zeta.
  assert (env MySQLVersionEnv = VString rollout) as Ever.
  { apply (pe_plain _ _ _ _ _ _ (me_pod _ _ He) (mkEnvVar MySQLVersionEnv (VString rollout))); [in_env|done|apply plain_VString]. }
  unfold prestop. rewrite Ever. destruct (String.eqb_spec (VString rollout) "") as [E|_]; [by apply VString_nonempty in E|].
  destruct (prestopWith_run env (VString rollout) w) as [Hr Hl].
  destruct (prestop_dialect rollout "" Ha Hb) as [_ Hd]. rewrite str_app_nil_r in Hd. rewrite Hd in Hr, Hl.
  unfold harmless, takeoverCmd in *. rewrite (mysqlEnv_orch _ _ _ He) in Hr, Hl by done. split; [|exact Hl].
  rewrite Hr. unfold evidence, masterCmd, looksLikeMaster. rewrite (mysqlEnv_orch _ _ _ He), (mysqlEnv_fqdn _ _ He) by done.
  split; intros (ro & st & hosts & body & code & Hro & Hst & Hho & Hrest); exists ro, st, hosts, body, code.
  - destruct Hrest as (Hm & Hbody & Hi). rewrite !andb_true_iff, Z.eqb_eq, Z.gtb_lt in Hm. destruct Hm as [[? ?] ?].
    split_and!; try done. intros j Hj. rewrite Hi in Hj. symmetry. by apply GetPodHostname_inj.
  - destruct Hrest as (? & ? & ? & ? & ? & _). rewrite !andb_true_iff, Z.eqb_eq, Z.gtb_lt. by split_and!.
Qed.

End Pod.

(** ** Examples *)

Section Witnesses.
#[local] Existing Instances Ref.blang Ref.blang_laws sampleProcess.

(** The environment of mysqld in a pod of the example, as the kubelet makes it. *)
Definition sampleEnv (pod n : string) : string :=
  if String.eqb n "HOSTNAME" || String.eqb n "MY_POD_NAME" then pod
  else if String.eqb n "MY_FQDN" then pod +:+ ".mysql.prod"
  else match List.find (λ e, String.eqb (ev_Name e) n) (getEnvFor sampleOptions sampleSpec (mkVersion 8 0 20) containerMysqlName) with
       | Some e => match ev_ValueFrom e with
                   | None => ev_Value e
                   | Some (FieldRef _ path) => if String.eqb path "metadata.namespace" then cl_Namespace sampleSpec else "field"
                   | Some _ => "secret"
                   end
       | None => ""
       end.

Lemma sampleEnv_pod pod : mysqlEnv sampleOptions sampleSpec (mkVersion 8 0 20) pod (sampleEnv pod).
Proof.
  assert (Forall (λ e, (ev_ValueFrom e = None → plain (ev_Value e) → sampleEnv pod (ev_Name e) = ev_Value e) ∧
    ∀ v, ev_ValueFrom e = Some (FieldRef v "metadata.namespace") → sampleEnv pod (ev_Name e) = cl_Namespace sampleSpec)
    (getEnvFor sampleOptions sampleSpec (mkVersion 8 0 20) containerMysqlName)) as Hall.
  { vm_compute. repeat (apply Forall_cons; split;
      [split; [intros Hn Hp|intros v Hn]; first [reflexivity|discriminate Hn|discriminate Hp]|]). apply Forall_nil. done. }
  rewrite Forall_forall in Hall. split; [split|done|].
  - intros e He Hn Hp. by apply Hall.
  - intros e v He Hn. by eapply Hall.
  - intros n Hn Hno. unfold sampleEnv.
    assert (String.eqb n "HOSTNAME" = false ∧ String.eqb n "MY_POD_NAME" = false ∧ String.eqb n "MY_FQDN" = false) as (E1 & E2 & E3).
    { clear Hno. revert n Hn. clear. apply Forall_forall. apply (bool_decide_unpack _). vm_compute. exact I. }
    rewrite E1, E2, E3. cbn [orb]. destruct (List.find _ _) as [e|] eqn:E; [|done]. apply List.find_some in E as [Hin He].
    apply String.eqb_eq in He as <-. exfalso. apply Hno, list_elem_of_fmap_2, list_elem_of_In, Hin.
  - reflexivity.
  - vm_compute. reflexivity.
Qed.

(** A mysqld that is the master and has one replica, and an Orchestrator that says so. *)
Definition sampleWorld : world sh_op := λ _ o,
  match o with
  | Run argv =>
      if bool_decide (argv = mysqlCmd "SELECT @@read_only") then ("0" +:+ newline, 0%Z)
      else if bool_decide (argv = mysqlCmd "SHOW SLAVE HOSTS\G") then
        ("*** 1. row ***" +:+ newline +:+ "101" +:+ newline +:+ "demo-mysql-1.mysql.prod" +:+ newline, 0%Z)
      else if bool_decide (argv = orchestratorCmd sampleOptions sampleSpec "/master/") then
        (instanceJSON "demo-mysql-0.mysql.prod" "3306}}", 0%Z)
      else ("", 0%Z)
  end.

Definition requested (pod : string) : bool :=
  bool_decide (Run (orchestratorCmd sampleOptions sampleSpec "/graceful-master-takeover-auto/") ∈
    trace_ops (prestop (sampleEnv pod)) sampleWorld).

Example requested_by : requested "demo-mysql-0" = true ∧ requested "demo-mysql-1" = false.
Proof. split; vm_compute; reflexivity. Qed.

(** Older clusters without the version in their pods: the version of the server decides. *)
Example gate_examples :
  List.map prestop_mysql_use_source_replica_terms ["8.0.34-26"; "8.3.9"; "8.4.0-28"; "9.10.0"; "10.5.3"; ""; "x"] =
  [false; false; true; true; true; false; false].
Proof. vm_compute. reflexivity. Qed.

Lemma prestop_dialect_witness :
  prestop_mysql_use_source_replica_terms "8.4.0-28" = true ∧
  prestopPhrases "8.4.0-28" = Replication (ProfileFor (mkVersion 8 4 0)).
Proof.
  change "8.4.0-28" with ("8.4.0" +:+ "-28").
  assert (VString (mkVersion 8 4 0) = "8.4.0") as <- by (vm_compute; reflexivity).
  apply (prestop_dialect (mkVersion 8 4 0) "-28"); simpl; lia.
Defined.

Lemma prestop_takeover_witness :
  ∃ ro st hosts body code,
    let t := trace (prestop (sampleEnv "demo-mysql-0")) sampleWorld in
    said t (mysqlCmd "SELECT @@read_only") ro ∧ said t (mysqlCmd "SHOW SLAVE STATUS\G") st ∧
    said t (mysqlCmd "SHOW SLAVE HOSTS\G") hosts ∧
    Ev (Op := sh_op) (Run (orchestratorCmd sampleOptions sampleSpec "/master/")) (body, code) ∈ t ∧
    masterhostname body = "demo-mysql-0.mysql.prod".
Proof.
  destruct (prestop_takeover sampleOptions sampleSpec (mkVersion 8 0 20) 0 (sampleEnv "demo-mysql-0") sampleWorld) as [[H _] _].
  - apply sampleEnv_pod.
  - reflexivity.
  - reflexivity.
  - reflexivity.
  - simpl. lia.
  - simpl. lia.
  - destruct H as (ro & st & hosts & body & code & Hro & Hst & Hho & _ & _ & _ & Hb & Hm & _);
      [apply (bool_decide_unpack _); vm_compute; exact I|].
    exists ro, st, hosts, body, code. by split_and!.
Defined.

End Witnesses.
