(* ===== verification/InitSQL.v ===== *)
(** * What mysqld makes of the statements of the init file

    mysqld runs the init file of the sidecar ([SidecarInit]) when it starts.  What
    matters of it to the operator is the table [sys_operator.status], by which the
    sidecar and the node controller communicate.  This file is a reader of the few
    statements that act on it, and a server with one database and one table: a statement
    fails as MySQL has it, when something is there already or is not there, and
    when a value does not fit its column (in the strict mode, which is the default).

    Nothing here is taken from the texts that the sidecar writes. *)

From S2P Require Import Prelude GoStrings SidecarConfig.
Open Scope stdpp_scope.

(** ** Statements *)

(** A table is named with its database; its columns are given by their lengths. *)
Inductive stmt :=
  | CreateDatabase (ifNotExists : bool) (name : string)
  | DropTable (ifExists : bool) (name : string)
  | CreateTable (ifNotExists : bool) (name : string) (lengths : list Z)
  | ReplaceInto (name key value : string)
  | OtherStatement.

(** Optional words in front of others. *)
Definition optional (kw ws : list string) : bool * list string :=
  if decide (take (length kw) ws = kw) then (true, drop (length kw) ws) else (false, ws).

(** The length of a type [varchar(n)]. *)
Definition varchar (w : string) : option Z :=
  if HasPrefix w "varchar(" then
    match Split (str_drop 8 w) ")" with n :: _ => Atoi n | [] => None end
  else None.

(** The words of a statement; values are between single quotes. *)
Definition parse (q : string) : stmt :=
  if HasPrefix q "REPLACE INTO " then
    match Split (str_drop 13 q) "'" with
    | [before; k; ", "; v; ")"] =>
        match Fields before with
        | [name; "VALUES"; "("] => ReplaceInto name k v
        | _ => OtherStatement
        end
    | _ => OtherStatement
    end
  else if HasPrefix q "CREATE DATABASE " then
    match optional ["IF"; "NOT"; "EXISTS"] (Fields (str_drop 16 q)) with
    | (b, [name]) => CreateDatabase b name
    | _ => OtherStatement
    end
  else if HasPrefix q "DROP TABLE " then
    match optional ["IF"; "EXISTS"] (Fields (str_drop 11 q)) with
    | (b, [name]) => DropTable b name
    | _ => OtherStatement
    end
  else if HasPrefix q "CREATE TABLE " then
    match optional ["IF"; "NOT"; "EXISTS"] (Fields (str_drop 13 q)) with
    | (b, name :: columns) => CreateTable b name (omap varchar columns)
    | _ => OtherStatement
    end
  else OtherStatement.

(** ** The server *)

(** The table: the lengths of its two columns, whether its file is on the disk, and its
    rows. *)
Record table := mkTable { tb_Key : Z; tb_Value : Z; tb_File : bool; tb_Rows : gmap string string }.

(** The database [sys_operator], and its table [status]. *)
Record server := mkServer { sv_Db : bool; sv_Status : option table }.

Definition fits (s : string) (n : Z) : bool := (Z.of_nat (String.length s) <=? n)%Z.

(** One statement, or [None] for an error.  What does not mention the database does not
    act on the table. *)
Definition exec (q : string) (s : server) : option server :=
  if negb (Contains (ToLower q) "sys_operator") then Some s
  else match parse q with
  | CreateDatabase b name =>
      if negb (String.eqb name "sys_operator") then Some s
      else if sv_Db s then (if b then Some s else None)
      else Some (mkServer true None)
  | DropTable b name =>
      if negb (String.eqb name "sys_operator.status") then Some s
      else if negb (sv_Db s) then None
      else match sv_Status s with
           | None => if b then Some s else None
           | Some _ => Some (mkServer true None)
           end
  | CreateTable b name lengths =>
      if negb (String.eqb name "sys_operator.status") then Some s
      else if negb (sv_Db s) then None
      else match sv_Status s, lengths with
           | Some _, _ => if b then Some s else None
           | None, [k; v] => Some (mkServer true (Some (mkTable k v true ∅)))
           | None, _ => None
           end
  | ReplaceInto name k v =>
      if negb (String.eqb name "sys_operator.status") then Some s
      else match sv_Status s with
           | Some (mkTable nk nv true rows) =>
               if sv_Db s && fits k nk && fits v nv then Some (mkServer true (Some (mkTable nk nv true (<[k := v]> rows))))
               else None
           | _ => None
           end
  | OtherStatement => Some s
  end.

(** mysqld leaves the init file at the first error. *)
Fixpoint execs (qs : list string) (s : server) : option server :=
  match qs with
  | [] => Some s
  | q :: qs => s ← exec q s; execs qs s
  end.

(** The rows, of a table that can be read. *)
Definition rows (s : server) : option (gmap string string) :=
  match sv_Status s with
  | Some (mkTable _ _ true rows) => if sv_Db s then Some rows else None
  | _ => None
  end.

(** ** Lemmas *)

(** A string that can stand between single quotes. *)
Definition noQuote (s : string) : Prop := Index s "'" = None.

(** A statement that leaves the table alone. *)
Definition inert (q : string) : Prop := ∀ s, exec q s = Some s.

Lemma inert_other q : parse q = OtherStatement → inert q.
Proof. intros Hq s. unfold exec. rewrite Hq. by destruct (negb _). Qed.

Lemma inert_mention q : Contains (ToLower q) "sys_operator" = false → inert q.
Proof. intros Hq s. unfold exec. by rewrite Hq. Qed.

Lemma execs_app qs qs' s : execs (qs ++ qs') s = (s ← execs qs s; execs qs' s).
Proof.
  revert s. induction qs as [|q qs IH]; intros s; [done|]. cbn [app execs].
  destruct (exec q s); [apply IH|done].
Qed.

Lemma execs_inert qs s : Forall inert qs → execs qs s = Some s.
Proof. induction 1 as [|q qs Hq _ IH]; [done|]. cbn [execs]. by rewrite Hq. Qed.

Lemma execs_take n qs s : is_Some (execs qs s) → is_Some (execs (take n qs) s).
Proof.
  rewrite <-(take_drop n qs) at 1. rewrite execs_app. destruct (execs (take n qs) s); [done|]. by intros [? ?].
Qed.

(** A value between quotes is read back. *)
Lemma parse_replace k v : noQuote k → noQuote v →
  parse ("REPLACE INTO sys_operator.status VALUES ('" +:+ k +:+ "', '" +:+ v +:+ "')") = ReplaceInto "sys_operator.status" k v.
Proof.
  intros Hk Hv. unfold parse. set (q := _ +:+ _). assert (HasPrefix q "REPLACE INTO " = true) as -> by reflexivity.
  change (str_drop 13 q) with ("sys_operator.status VALUES (" +:+ String "'" (k +:+ String "'" (", " +:+ String "'" (v +:+ String "'" ")")))).
  rewrite Split_app by reflexivity. rewrite !Split_app by done. reflexivity.
Qed.

(** A table as the operator needs it. *)
Definition statusOf (s : server) (nk nv : Z) (m : gmap string string) : Prop :=
  s = mkServer true (Some (mkTable nk nv true m)).

Lemma exec_replace k v nk nv m : noQuote k → noQuote v →
  exec ("REPLACE INTO sys_operator.status VALUES ('" +:+ k +:+ "', '" +:+ v +:+ "')") (mkServer true (Some (mkTable nk nv true m))) =
  if fits k nk && fits v nv then Some (mkServer true (Some (mkTable nk nv true (<[k := v]> m)))) else None.
Proof.
  intros Hk Hv. unfold exec. set (q := _ +:+ _).
  assert (Contains (ToLower q) "sys_operator" = true) as -> by reflexivity. cbn [negb].
  unfold q. rewrite parse_replace by done. reflexivity.
Qed.
