(* ===== verification/SidecarInit.v ===== *)
(** * The files that the sidecar writes before MySQL starts

    [pkg/sidecar/appconf.go] and [util.go]: the statements of the init file, which
    mysqld runs when it starts; the option files of the server and its clients; the
    GTIDs of a backup; and the order in which [RunConfigCommand] writes all this.

    What mysqld makes of the init file, as far as the table [sys_operator.status] goes, by
    which the sidecar and the node controller communicate, is in [InitSQL]. *)

From S2P Require Import Prelude GoStrings Semver ClusterTypes Versioning ClusterStatus ClusterModel.
From S2P Require Import ClusterDefaults StatefulSet IniFile ConfigMap SidecarConfig InitSQL.
Open Scope stdpp_scope.

(** ** The init file *)

(** A parameter of type [interface{}] that is a list of strings, or a string. *)
Inductive rightArg := Rights (l : list string) | On (s : string).

Fixpoint grants (user : string) (rights : list rightArg) : result (list string) :=
  match rights with
  | [] => Ok []
  | Rights privs :: On on :: rights =>
      rest ← grants user rights;
      mret (("GRANT " +:+ Join privs ", " +:+ " ON " +:+ on +:+ " TO " +:+ user) :: rest)
  | Rights _ :: _ => Err (ErrMsg "[on] not a good parameter")
  | On _ :: _ => Err (ErrMsg "[right] not a good parameter")
  end.

(** The errors are panics. *)
(* src/pkg/sidecar/appconf.go:342-371 createUserQuery *)
Definition createUserQuery (name pass host : string) (rights : list rightArg) : result (list string) :=
  let user := name +:+ "@'" +:+ host +:+ "'" in
  let queries := ["DROP USER IF EXISTS " +:+ user; "CREATE USER " +:+ user +:+ " IDENTIFIED BY '" +:+ pass +:+ "'"] in
  if Nat.odd (length rights) then Err (ErrMsg "not a good number of parameters")
  else grants_ ← grants user rights; mret (queries ++ grants_).

Definition statusTable : string := OperatorDbName +:+ "." +:+ OperatorStatusTableName.

Definition dropStatus : string := "DROP TABLE IF EXISTS " +:+ statusTable.

Definition createStatus : string :=
  "CREATE TABLE IF NOT EXISTS " +:+ statusTable +:+ " (" +:+ "  name varchar(64) PRIMARY KEY," +:+
  "  value varchar(8192) NOT NULL" +:+ newline +:+ ")".

Definition replaceStatus (k v : string) : string :=
  "REPLACE INTO " +:+ statusTable +:+ " VALUES ('" +:+ k +:+ "', '" +:+ v +:+ "')".

Definition backupGTIDKey : string := "backup_gtid_purged".

Section InitFile.
Context `{!Blang, !Process}.

(** The statements up to the first user.  [ibdMissing] is the answer to whether the file
    of the status table is not there. *)
Definition setupStatements (ibdMissing : bool) : list string :=
  ["SET @@SESSION.SQL_LOG_BIN = 0"; "CREATE DATABASE IF NOT EXISTS " +:+ toolsDbName] ++
  (if ibdMissing then [dropStatus] else []) ++
  [createStatus; replaceStatus OperatorConfiguredKey OperatorConfiguredPendingValue; "SET GLOBAL READ_ONLY = 1"].

Definition heartbeatTable : string := toolsDbName +:+ "." +:+ toolsHeartbeatTableName.

Definition userStatements (cfg : Config) : result (list string) :=
  let hints := ProfileGrantHints (ProfileFor (cfg_MySQLVersion cfg)) in
  operator ← createUserQuery (cfg_OperatorUser cfg) (cfg_OperatorPassword cfg) "%"
    [Rights ["SUPER"; "SHOW DATABASES"; "PROCESS"; "RELOAD"; "CREATE"; "CREATE USER"; "SELECT"]; On "*.*";
     Rights ["REPLICATION SLAVE"]; On "*.*"; Rights ["ALL"]; On (toolsDbName +:+ ".*")];
  orchestrator ← createUserQuery (cfg_OrchestratorUser cfg) (cfg_OrchestratorPassword cfg) "%"
    [Rights ["SUPER"; "PROCESS"; "REPLICATION SLAVE"; "REPLICATION CLIENT"; "RELOAD"]; On "*.*";
     Rights ["SELECT"]; On (OrchestratorMetadataTable hints); Rights ["SELECT"; "CREATE"]; On heartbeatTable];
  replication ← createUserQuery (cfg_ReplicationUser cfg) (cfg_ReplicationPassword cfg) "%"
    [Rights (ReplicationUserPrivileges hints); On "*.*"];
  metrics ← createUserQuery (cfg_MetricsUser cfg) (cfg_MetricsPassword cfg) "127.0.0.1"
    [Rights ["SELECT"; "PROCESS"; "REPLICATION CLIENT"]; On "*.*"; Rights ["SELECT"; "CREATE"]; On heartbeatTable];
  let heartbeat host := createUserQuery (cfg_HeartBeatUser cfg) (cfg_HeartBeatPassword cfg) host
    [Rights ["CREATE"; "SELECT"; "DELETE"; "UPDATE"; "INSERT"]; On heartbeatTable; Rights ["REPLICATION CLIENT"]; On "*.*"] in
  tcp ← heartbeat "127.0.0.1";
  socket ← heartbeat "localhost";
  mret (operator ++ orchestrator ++ replication ++ metrics ++
        ["ALTER USER " +:+ cfg_MetricsUser cfg +:+ "@'127.0.0.1' WITH MAX_USER_CONNECTIONS 3"] ++ tcp ++ socket).

(** Statements of the user, of which empty ones are left out. *)
Definition extraStatements (cfg : Config) : list string :=
  List.filter (λ stmt, negb (String.eqb (TrimSpace stmt) "")) (cfg_InitFileExtraSQL cfg).

Definition initFileStatements (cfg : Config) (gtidPurged : string) (ibdMissing : bool) : result (list string) :=
  let hints := ProfileGrantHints (ProfileFor (cfg_MySQLVersion cfg)) in
  users ← userStatements cfg;
  mret (setupStatements ibdMissing ++ users ++
    (if negb (String.length gtidPurged =? 0)%nat then [replaceStatus backupGTIDKey gtidPurged] else []) ++
    (if ShouldCloneFromBucket cfg then [ResetReplicationAll hints] else []) ++
    extraStatements cfg ++
    [replaceStatus OperatorInitFileCompleteKey OperatorInitFileCompleteValue]).

(* src/pkg/sidecar/appconf.go:247-340 initFileQuery *)
Definition initFileQuery (cfg : Config) (gtidPurged : string) (ibdMissing : bool) : result string :=
  queries ← initFileStatements cfg gtidPurged ibdMissing;
  mret (Join queries (";" +:+ newline) +:+ ";" +:+ newline).

End InitFile.

(** ** The GTIDs of a backup *)

(** [bufio.Scanner] fails on words that do not fit its buffer. *)
Definition MaxScanTokenSize : Z := 65536.

Definition EOF : error := ErrMsg "EOF".

(** The words from the third on, of a file with the given content. *)
(* src/pkg/sidecar/util.go:82-103 getGTIDFrom *)
Definition getGTIDFrom (content : string) : result string :=
  let words := Fields content in
  let gtid := String.concat "" (drop 2 words) in
  if existsb (λ w, (MaxScanTokenSize <=? Z.of_nat (String.length w))%Z) words then Err (ErrMsg "bufio.Scanner: token too long")
  else if (String.length gtid =? 0)%nat then Err EOF
  else Ok gtid.

(** ** The option files *)

Section OptionFiles.
Context `{!IniLib}.

(** [NewKey] for a list of keys of a section. *)
Fixpoint newKeys (section : string) (keys : list (string * string)) (f : Ini) : result Ini :=
  match keys with
  | [] => Ok f
  | (k, v) :: keys => f ← NewKey section k v f; newKeys section keys f
  end.

(* src/pkg/sidecar/appconf.go:155-168 writeLoopbackClientHints *)
Definition loopbackClientHints : result Ini :=
  newKeys "client" [("host", "127.0.0.1"); ("port", mysqlPort); ("get-server-public-key", "1")] (IniSection "client" IniEmpty).

(* src/pkg/sidecar/appconf.go:170-196 getClientConfigs *)
Definition getClientConfigs (user pass : string) : result Ini :=
  newKeys "client" [("host", "127.0.0.1"); ("port", mysqlPort); ("user", user); ("password", pass);
                    ("get-server-public-key", "1")] (IniSection "client" IniEmpty).

(* src/pkg/sidecar/appconf.go:201-217 getSocketClientConfigs *)
Definition getSocketClientConfigs (user pass : string) : result Ini :=
  newKeys "client" [("socket", DataVolumeMountPath +:+ "/mysql.sock"); ("user", user); ("password", pass)]
    (IniSection "client" IniEmpty).

(* src/pkg/sidecar/appconf.go:219-231 getIdentityConfigs *)
Definition getIdentityConfigs (id : Z) (reportHost : string) : result Ini :=
  newKeys "mysqld" [("server-id", itoa id); ("report-host", reportHost)] (IniSection "mysqld" IniEmpty).

(* src/pkg/sidecar/appconf.go:233-242 getInitFileConfigs *)
Definition getInitFileConfigs (filePath : string) : result Ini :=
  newKeys "mysqld" [("init-file", filePath)] (IniSection "mysqld" IniEmpty).

Lemma newKeys_get `{!IniLaws} section keys f :
  section ≠ "" → NoDup keys.*1 → Forall (λ k, k ≠ "") keys.*1 →
  ∃ f', newKeys section keys f = Ok f' ∧
    (∀ k v, (k, v) ∈ keys → IniGet f' section k = Some v) ∧
    (∀ sec k, sec ≠ section ∨ k ∉ keys.*1 → IniGet f' sec k = IniGet f sec k).
Proof.
  intros Hs. revert f. induction keys as [|[k v] keys IH]; intros f Hnd Hne.
  { exists f. split_and!; [done|by intros ? ? ?%not_elem_of_nil|done]. }
  rewrite fmap_cons, NoDup_cons in Hnd. destruct Hnd as [Hk Hnd]. rewrite fmap_cons, Forall_cons in Hne. destruct Hne as [Hk0 Hne].
  cbn [newKeys]. destruct (ini_new_key section k v f Hs Hk0) as (f1 & -> & Hf1).
  destruct (IH f1 Hnd Hne) as (f' & Hf' & Hin & Hout). exists f'. split_and!; [exact Hf'| |].
  - intros k' v' [[= -> ->]|?]%elem_of_cons; [|by apply Hin]. rewrite Hout by (by right).
    rewrite Hf1. by rewrite decide_True.
  - intros sec k' Hno. rewrite Hout.
    + rewrite Hf1. rewrite decide_False; [done|]. intros [-> ->]. destruct Hno as [?|Hno]; [done|].
      apply Hno. rewrite fmap_cons. by left.
    + destruct Hno as [?|Hno]; [by left|right]. intros Hin'. apply Hno. rewrite fmap_cons. by right.
Qed.

End OptionFiles.

(** ** The command *)

(** [os.Mkdir]. *)
Inductive made := Made | Exists | MkdirError (e : error).

(** A file that is read, if it is there. *)
Inductive fileRead := Missing | ReadError (e : error) | Content (s : string).

Section Command.
Context `{!Blang, !Process, !IniLib}.

Inductive cf_op :=
  | FOpen (path : string)
  | FCreate (path : string)
  | FCopy (src dst : string)
  | FMkdir (path : string)
  | FSave (path : string) (f : Ini)
  | FWrite (path content : string)
  | FBinlogInfo
  | FStatIbdMissing.

#[export] Instance cf_effect : Effect cf_op := λ o,
  match o with
  | FMkdir _ => made
  | FBinlogInfo => fileRead
  | FStatIbdMissing => bool
  | _ => result unit
  end.

(** [fmt.Errorf] with a text before the error. *)
Definition wrapped {A} (text : string) (m : prog cf_op (result A)) : prog cf_op (result A) :=
  r ← m; mret match r with Err e => Err (ErrMsg (text +:+ error_text e)) | Ok a => Ok a end.

(* src/pkg/sidecar/util.go:35-61 copyFile *)
Definition copyFile (src dst : string) : prog cf_op (result unit) :=
  _ <-? call (FOpen src);
  _ <-? call (FCreate dst);
  call (FCopy src dst).

(* src/pkg/sidecar/util.go:64-81 readPurgedGTID *)
Definition readPurgedGTID : prog cf_op (result string) :=
  r ← call FBinlogInfo;
  mret match (r : fileRead) with
       | Missing => Ok ""
       | ReadError e => Err e
       | Content s => getGTIDFrom s
       end.

(** A file of options is made, and saved. *)
Definition saveTo (textMake textSave : string) (f : result Ini) (path : string) : prog cf_op (result unit) :=
  f <-? wrapped textMake (mret f);
  wrapped textSave (call (FSave path f)).

Definition initFilePath : string := confDPath +:+ "/operator-init.sql".

(* src/pkg/sidecar/appconf.go:36-150 RunConfigCommand *)
Definition RunConfigCommand (cfg : Config) : prog cf_op (result unit) :=
  _ <-? wrapped "copy file my.cnf: " (copyFile (mountConfigDir +:+ "/my.cnf") (configDir +:+ "/my.cnf"));
  _ <-? wrapped ("copy file " +:+ shPreStop +:+ ": ")
    (copyFile (mountConfigDir +:+ "/" +:+ shPreStop) (configDir +:+ "/" +:+ shPreStop));
  _ <-? (r ← call (FMkdir confDPath);
         mret match (r : made) with
              | MkdirError e => Err (ErrMsg ("error mkdir " +:+ configDir +:+ "/conf.d: " +:+ error_text e))
              | _ => Ok tt
              end);
  let reportHost := FQDNForServer cfg (ServerID cfg) in
  _ <-? saveTo "failed to get dynamic configs: " "failed to save configs: "
    (getIdentityConfigs (ServerID cfg) reportHost) (confDPath +:+ "/10-identity.cnf");
  gtid ← readPurgedGTID;
  let gtidPurged := match (gtid : result string) with Ok s => s | Err _ => "" end in
  ibdMissing ← call FStatIbdMissing;
  initBody <-? mret (initFileQuery cfg gtidPurged ibdMissing);
  _ <-? wrapped "failed to write init-file: " (call (FWrite initFilePath initBody));
  _ <-? saveTo "failed to configure init file: " "failed to configure init file: "
    (getInitFileConfigs initFilePath) (confDPath +:+ "/10-init-file.cnf");
  _ <-? saveTo "failed to get client configs: " "failed to save configs: "
    (getClientConfigs (cfg_OperatorUser cfg) (cfg_OperatorPassword cfg)) confClientPath;
  _ <-? saveTo "failed to get heartbeat configs: " "failed to save heartbeat configs: "
    (getSocketClientConfigs (cfg_HeartBeatUser cfg) (cfg_HeartBeatPassword cfg)) confHeartbeatPath;
  _ <-? saveTo "failed to get pt-kill configs: " "failed to save pt-kill configs: "
    (getSocketClientConfigs (cfg_OperatorUser cfg) (cfg_OperatorPassword cfg)) confPtKillPath;
  saveTo "failed to write loopback client hints: " "failed to write loopback client hints: "
    loopbackClientHints ConfClientLoopbackPath.

End Command.

(** ** What the init file does to the status table *)

Section InitFileSpec.
Context `{!Blang, !BlangLaws, !Process}.

Lemma userStatements_inert cfg : ∃ qs, userStatements cfg = Ok qs ∧ Forall inert qs.
Proof.
  eexists. split; [reflexivity|]. repeat (apply Forall_cons; split; [by apply inert_other|]). by apply Forall_nil.
Qed.

Lemma reset_inert v : inert (ResetReplicationAll (ProfileGrantHints (ProfileFor v))).
Proof. apply inert_other. rewrite ProfileFor_eq. by repeat case_match. Qed.

Definition gtidStatements (gtid : string) : list string :=
  if negb (String.length gtid =? 0)%nat then [replaceStatus backupGTIDKey gtid] else [].

Definition completeMarker : string := replaceStatus OperatorInitFileCompleteKey OperatorInitFileCompleteValue.

Lemma exec_replaceStatus k v nk nv m : noQuote k → noQuote v →
  exec (replaceStatus k v) (mkServer true (Some (mkTable nk nv true m))) =
  if fits k nk && fits v nv then Some (mkServer true (Some (mkTable nk nv true (<[k := v]> m)))) else None.
Proof. exact (exec_replace k v nk nv m). Qed.


(** What the sidecar may find: the table, if there is one, has columns as wide as those
    that it creates, and its file is there unless it was seen to be missing. *)
Definition consistent (ibdMissing : bool) (s : server) : Prop :=
  ∀ tb, sv_Status s = Some tb → sv_Db s = true ∧ (64 ≤ tb_Key tb)%Z ∧ (8192 ≤ tb_Value tb)%Z ∧
    (tb_File tb = false → ibdMissing = true).

(** The rows that are left by the statements of the setup. *)
Definition rowsBefore (ibdMissing : bool) (s : server) : gmap string string :=
  match sv_Status s with Some tb => if ibdMissing then ∅ else tb_Rows tb | None => ∅ end.

Definition pendingRows (ibdMissing : bool) (s : server) : gmap string string :=
  <[OperatorConfiguredKey := OperatorConfiguredPendingValue]> (rowsBefore ibdMissing s).

(** The first statements, one by one. *)
Lemma exec_createDatabase s : consistent false s ∨ consistent true s →
  exec ("CREATE DATABASE IF NOT EXISTS " +:+ toolsDbName) s = Some (mkServer true (sv_Status s)).
Proof.
  intros Hc. destruct s as [[] [tb|]]; try reflexivity.
  destruct Hc as [Hc|Hc]; by destruct (Hc tb eq_refl) as [[=] _].
Qed.

Lemma exec_dropStatus st : exec dropStatus (mkServer true st) = Some (mkServer true None).
Proof. by destruct st. Qed.

Lemma exec_createStatus st : exec createStatus (mkServer true st) =
  Some (mkServer true (Some (default (mkTable 64 8192 true ∅) st))).
Proof. by destruct st. Qed.

Lemma setup_execs ibdMissing s : consistent ibdMissing s →
  ∃ nk nv, (64 ≤ nk)%Z ∧ (8192 ≤ nv)%Z ∧
    execs (setupStatements ibdMissing) s = Some (mkServer true (Some (mkTable nk nv true (pendingRows ibdMissing s)))).
Proof.
  intros Hc. assert (consistent false s ∨ consistent true s) as Hc' by (destruct ibdMissing; auto).
  set (old := if ibdMissing then None else sv_Status s).
  assert (∃ nk nv m, default (mkTable 64 8192 true ∅) old = mkTable nk nv true m ∧ (64 ≤ nk)%Z ∧ (8192 ≤ nv)%Z ∧
    m = rowsBefore ibdMissing s) as (nk & nv & m & Hold & Hk & Hv & ->).
  { unfold old, rowsBefore. destruct ibdMissing; [exists 64%Z, 8192%Z, ∅; by destruct (sv_Status s)|].
    destruct (sv_Status s) as [[nk nv file m]|] eqn:E; [|by exists 64%Z, 8192%Z, ∅].
    destruct (Hc _ E) as (_ & Hk & Hv & Hf). simpl in *. destruct file; [by exists nk, nv, m|discriminate (Hf eq_refl)]. }
  exists nk, nv. split; [done|]. split; [done|].
  assert (execs (setupStatements ibdMissing) s =
    (s1 ← exec createStatus (mkServer true old); execs [replaceStatus OperatorConfiguredKey OperatorConfiguredPendingValue; "SET GLOBAL READ_ONLY = 1"] s1)) as ->.
  { unfold setupStatements, old. cbn [app execs]. rewrite (inert_other "SET @@SESSION.SQL_LOG_BIN = 0" eq_refl s).
    cbn [mbind option_bind]. rewrite exec_createDatabase by done. cbn [mbind option_bind].
    destruct ibdMissing; cbn [app execs]; [|reflexivity]. rewrite exec_dropStatus. reflexivity. }
  rewrite exec_createStatus, Hold. cbn [mbind option_bind execs]. rewrite exec_replaceStatus by reflexivity.
  assert (fits OperatorConfiguredKey nk && fits OperatorConfiguredPendingValue nv = true) as ->.
  { apply andb_true_intro. split; apply Z.leb_le; simpl; lia. }
  cbn [mbind option_bind]. by rewrite (inert_other "SET GLOBAL READ_ONLY = 1" eq_refl).
Qed.

(** The statements, by their effect on the table. *)
Lemma initFile_shape cfg gtid ibdMissing :
  Forall inert (extraStatements cfg) →
  ∃ A B, initFileStatements cfg gtid ibdMissing =
      Ok (setupStatements ibdMissing ++ (A ++ gtidStatements gtid ++ B) ++ [completeMarker]) ∧
    Forall inert A ∧ Forall inert B.
Proof.
  intros He. destruct (userStatements_inert cfg) as (users & Hu & HU). unfold initFileStatements. rewrite Hu.
  cbn [mbind result_bind mret result_ret]. set (R := if ShouldCloneFromBucket cfg then _ else _).
  exists users, (R ++ extraStatements cfg). split; [by rewrite <-!(assoc_L (++))|]. split; [done|].
  apply Forall_app. split; [|done]. unfold R. destruct (ShouldCloneFromBucket cfg); [|by apply Forall_nil].
  apply Forall_cons. split; [apply reset_inert|by apply Forall_nil].
Qed.





(** GTIDs that do not fit their column end the init file with an error: there is no
    marker, and the node is never configured.  The sidecar takes them nevertheless
    ([getGTIDFrom_lines]). *)
Lemma long_gtid_fails (cfg : Config) (gtid : string) :
  noQuote gtid → (8192 < Z.of_nat (String.length gtid))%Z → Forall inert (extraStatements cfg) →
  ∃ qs, initFileStatements cfg gtid false = Ok qs ∧ execs qs (mkServer false None) = None.
Proof.
  intros Hq Hlen He. destruct (initFile_shape cfg gtid false He) as (A & B & Hs & HA & _).
  exists (setupStatements false ++ (A ++ gtidStatements gtid ++ B) ++ [completeMarker]). split; [done|].
  rewrite <-!(assoc_L (++)), execs_app.
  assert (execs (setupStatements false) (mkServer false None) =
    Some (mkServer true (Some (mkTable 64 8192 true (pendingRows false (mkServer false None)))))) as -> by reflexivity.
  cbn [mbind option_bind]. rewrite execs_app, execs_inert by done. cbn [mbind option_bind].
  unfold gtidStatements. destruct (Nat.eqb_spec (String.length gtid) 0) as [E|_]; [lia|]. cbn [negb app execs].
  rewrite exec_replaceStatus by done.
  assert (fits gtid 8192 = false) as -> by (apply Z.leb_gt; lia). by rewrite andb_false_r.
Qed.

End InitFileSpec.

(** What the table says of an earlier start stays: the first statements do not remove
    the marker, so an init file that stops after them still looks complete. *)
Lemma stale_marker (nk nv : Z) (m : gmap string string) :
  (64 ≤ nk)%Z → (8192 ≤ nv)%Z →
  ∃ s', execs (setupStatements false) (mkServer true (Some (mkTable nk nv true m))) = Some s' ∧
    ∃ m', rows s' = Some m' ∧ m' !! OperatorInitFileCompleteKey = m !! OperatorInitFileCompleteKey.
Proof.
  intros Hk Hv. destruct (setup_execs false (mkServer true (Some (mkTable nk nv true m)))) as (nk' & nv' & _ & _ & He).
  { by intros tb [= <-]. }
  eexists. split; [exact He|]. eexists. split; [reflexivity|]. unfold pendingRows. by rewrite lookup_insert_ne.
Qed.

(** ** The GTIDs that xtrabackup wrote *)

Definition tab : ascii := ascii_of_N 9.
Definition nl : ascii := ascii_of_N 10.

Lemma word_app a b : word a = true → str_forall (λ c, negb (is_space c)) b = true → word (a +:+ b) = true.
Proof.
  unfold word. intros [Hne Ha]%andb_prop Hb. rewrite str_forall_app, Ha, Hb. by destruct a.
Qed.

Lemma Fields_lines (gs : list string) :
  Forall (λ g, word g = true) gs → String.concat "" (Fields (Join gs ("," +:+ String nl ""))) = Join gs ",".
Proof.
  induction 1 as [|g gs Hg Hgs IH]; [done|]. destruct gs as [|g' gs].
  - cbn [Join]. by rewrite Fields_word.
  - change (Join (g :: g' :: gs) ("," +:+ String nl "")) with (g +:+ String "," (String nl (Join (g' :: gs) ("," +:+ String nl "")))).
    replace (g +:+ String "," (String nl (Join (g' :: gs) ("," +:+ String nl ""))))
      with ((g +:+ ",") +:+ String nl (Join (g' :: gs) ("," +:+ String nl ""))) by by rewrite str_app_assoc.
    rewrite Fields_word_space by (done || by apply word_app).
    change (Join (g :: g' :: gs) ",") with (g +:+ "," +:+ Join (g' :: gs) ","). rewrite <-IH.
    destruct (Fields _) as [|x l]; simpl; [by rewrite ?str_app_nil_r|by rewrite str_app_assoc].
Qed.

(** The sets, one on each line, come out as one list. *)
Lemma getGTIDFrom_lines (file pos : string) (gs : list string) :
  word file = true → word pos = true → Forall (λ g, word g = true) gs → gs ≠ [] →
  let content := file +:+ String tab (pos +:+ String tab (Join gs ("," +:+ String nl ""))) in
  Forall (λ x, (Z.of_nat (String.length x) < MaxScanTokenSize)%Z) (Fields content) →
  getGTIDFrom content = Ok (Join gs ",").
Proof.
  intros Hf Hp Hg Hne content Hlen. unfold getGTIDFrom. assert (existsb (λ w, (MaxScanTokenSize <=? Z.of_nat (String.length w))%Z) (Fields content) = false) as ->.
  { induction Hlen as [|x l Hx _ IH]; [done|]. simpl. rewrite IH, orb_false_r. apply Z.leb_gt. lia. }
  cbv zeta. unfold content. rewrite !Fields_word_space by done. cbn [drop]. rewrite drop_0, Fields_lines by done.
  destruct gs as [|g gs]; [done|]. inversion Hg as [|?? Hw _]; subst. unfold word in Hw.
  destruct gs; cbn [Join]; destruct g; done.
Qed.

(** ** The command writes all, in order *)

Section CommandSpec.
Context `{!Blang, !BlangLaws, !Process, !IniLib, !IniLaws}.

(** A step of a command that succeeds. *)
Lemma try_ok {A B} (m : prog cf_op (result A)) (k : A → prog cf_op (result B)) w h b :
  (try m k w h).1 = Ok b → ∃ a, (m w h).1 = Ok a ∧ try m k w h = k a w (m w h).2.
Proof.
  unfold try, mbind, prog_bind. destruct (m w h).1 as [a|e]; [|done]. intros _. by exists a.
Qed.

Lemma wrapped_ok {A} text (m : prog cf_op (result A)) w h a :
  (wrapped text m w h).1 = Ok a → (m w h).1 = Ok a ∧ (wrapped text m w h).2 = (m w h).2.
Proof. unfold wrapped, mbind, prog_bind, mret, prog_ret. simpl. by destruct (m w h).1; intros [= ->]. Qed.

(** [m] makes calls that satisfy [P] when it succeeds. *)
Definition ends {A} (m : prog cf_op (result A)) (P : list (event cf_op) → Prop) : Prop :=
  ∀ w h a, (m w h).1 = Ok a → ∃ t, (m w h).2 = h ++ t ∧ P t.

(** Exactly the calls [os]. *)
Definition does {A} (m : prog cf_op (result A)) (os : list cf_op) : Prop := ends m (λ t, ev_op <$> t = os).

Lemma ends_weaken {A} (m : prog cf_op (result A)) (P Q : list (event cf_op) → Prop) :
  ends m P → (∀ t, P t → Q t) → ends m Q.
Proof. intros Hm HP w h a Ha. destruct (Hm w h a Ha) as (t & ? & ?). exists t. auto. Qed.

Lemma ends_try {A B} (m : prog cf_op (result A)) (k : A → prog cf_op (result B)) os (P : list (event cf_op) → Prop) :
  does m os → (∀ a, ends (k a) (λ t', ∀ t, ev_op <$> t = os → P (t ++ t'))) → ends (try m k) P.
Proof.
  intros Hm Hk w h b Hr. destruct (try_ok _ _ _ _ _ Hr) as (a & Ha & Heq). rewrite Heq in Hr |- *.
  destruct (Hm _ _ _ Ha) as (t & Ht & Hos). destruct (Hk a _ _ _ Hr) as (t' & Ht' & HP).
  exists (t ++ t'). split; [by rewrite Ht', Ht, (assoc_L (++))|by apply HP].
Qed.

Lemma ends_call {B} (o : cf_op) (k : Resp o → prog cf_op (result B)) (P : list (event cf_op) → Prop) :
  (∀ r, ends (k r) (λ t, P (Ev o r :: t))) → ends (r ← call o; k r) P.
Proof.
  intros Hk w h b Hr. unfold mbind, prog_bind, call in Hr |- *. cbn [fst snd] in Hr |- *.
  destruct (Hk _ _ _ _ Hr) as (t & Ht & HP). exists (Ev o (w h o) :: t). split; [|done].
  by rewrite Ht, <-(assoc_L (++)).
Qed.

(** An answer that is only used through [f]. *)
Lemma ends_answer {A B} (o : cf_op) (f : Resp o → A) (k : A → prog cf_op (result B)) (P : list (event cf_op) → Prop) :
  (∀ r, ends (k (f r)) (λ t, P (Ev o r :: t))) → ends (a ← (r ← call o; mret (f r)); k a) P.
Proof. apply (ends_call o (λ r, k (f r))). Qed.

Lemma ends_pure {A B} (x : result A) (k : A → prog cf_op (result B)) (P : list (event cf_op) → Prop) :
  (∀ a, x = Ok a → ends (k a) P) → ends (try (mret x) k) P.
Proof. intros Hk w h b Hr. destruct x as [a|e]; [|done]. by apply (Hk a eq_refl w h b). Qed.

Lemma does_try {A B} (m : prog cf_op (result A)) (k : A → prog cf_op (result B)) os os' :
  does m os → (∀ a, does (k a) os') → does (try m k) (os ++ os').
Proof.
  intros Hm Hk. apply (ends_try _ _ _ _ Hm). intros a. eapply ends_weaken; [apply Hk|].
  intros t' Ht' t Ht. by rewrite fmap_app, Ht, Ht'.
Qed.

Lemma does_op (o : cf_op) : ∀ w h, ∃ t, (call o w h).2 = h ++ t ∧ ev_op <$> t = [o].
Proof. intros w h. by exists [Ev o (w h o)]. Qed.

Lemma does_call (o : cf_op) (f : Resp o → result unit) : does (r ← call o; mret (f r)) [o].
Proof. intros w h a _. apply does_op. Qed.

Lemma does_wrapped {A} text (m : prog cf_op (result A)) os : does m os → does (wrapped text m) os.
Proof. intros Hm w h a Ha. destruct (wrapped_ok _ _ _ _ _ Ha) as [? ->]. by eapply Hm. Qed.

Lemma does_copyFile src dst : does (copyFile src dst) [FOpen src; FCreate dst; FCopy src dst].
Proof.
  unfold copyFile. apply (does_try _ _ [_] [_; _]); [|intros _; apply (does_try _ _ [_] [_]); [|intros _]];
    intros w h a _; apply (does_op _).
Qed.

Lemma does_saveTo t1 t2 f f' path : f = Ok f' → does (saveTo t1 t2 f path) [FSave path f'].
Proof.
  intros ->. unfold saveTo. intros w h a Ha. destruct (try_ok _ _ _ _ _ Ha) as (x & Hx & Heq).
  apply wrapped_ok in Hx as [Hx _]. injection Hx as <-. rewrite Heq in Ha |- *. apply wrapped_ok in Ha as [_ ->].
  apply (does_op (FSave path f')).
Qed.

(** The keys of a section, and no other. *)
Definition hasKeys (f : Ini) (section : string) (keys : list (string * string)) : Prop :=
  (∀ k v, (k, v) ∈ keys → IniGet f section k = Some v) ∧
  ∀ sec k, sec ≠ section ∨ k ∉ keys.*1 → IniGet f sec k = None.

Lemma newKeys_section section keys :
  section ≠ "" → NoDup keys.*1 → Forall (λ k, k ≠ "") keys.*1 →
  ∃ f, newKeys section keys (IniSection section IniEmpty) = Ok f ∧ hasKeys f section keys.
Proof.
  intros Hs Hnd Hne. destruct (newKeys_get section keys (IniSection section IniEmpty) Hs Hnd Hne) as (f & Hf & Hin & Hout).
  exists f. split; [done|]. split; [done|]. intros sec k Hno. rewrite Hout by done. by rewrite ini_section, ini_empty by done.
Qed.

(** What is left once the init file is made. *)
Definition afterInitFile (cfg : Config) (initBody : string) : prog cf_op (result unit) :=
  _ <-? wrapped "failed to write init-file: " (call (FWrite initFilePath initBody));
  _ <-? saveTo "failed to configure init file: " "failed to configure init file: "
    (getInitFileConfigs initFilePath) (confDPath +:+ "/10-init-file.cnf");
  _ <-? saveTo "failed to get client configs: " "failed to save configs: "
    (getClientConfigs (cfg_OperatorUser cfg) (cfg_OperatorPassword cfg)) confClientPath;
  _ <-? saveTo "failed to get heartbeat configs: " "failed to save heartbeat configs: "
    (getSocketClientConfigs (cfg_HeartBeatUser cfg) (cfg_HeartBeatPassword cfg)) confHeartbeatPath;
  _ <-? saveTo "failed to get pt-kill configs: " "failed to save pt-kill configs: "
    (getSocketClientConfigs (cfg_OperatorUser cfg) (cfg_OperatorPassword cfg)) confPtKillPath;
  saveTo "failed to write loopback client hints: " "failed to write loopback client hints: "
    loopbackClientHints ConfClientLoopbackPath.

Lemma does_afterInitFile cfg body init client heartbeat ptKill loopback :
  getInitFileConfigs initFilePath = Ok init →
  getClientConfigs (cfg_OperatorUser cfg) (cfg_OperatorPassword cfg) = Ok client →
  getSocketClientConfigs (cfg_HeartBeatUser cfg) (cfg_HeartBeatPassword cfg) = Ok heartbeat →
  getSocketClientConfigs (cfg_OperatorUser cfg) (cfg_OperatorPassword cfg) = Ok ptKill →
  loopbackClientHints = Ok loopback →
  does (afterInitFile cfg body)
    [FWrite initFilePath body; FSave (confDPath +:+ "/10-init-file.cnf") init; FSave confClientPath client;
     FSave confHeartbeatPath heartbeat; FSave confPtKillPath ptKill; FSave ConfClientLoopbackPath loopback].
Proof.
  intros Hi Hc Hh Hp Hl. unfold afterInitFile.
  apply (does_try _ _ [_] _).
  { apply does_wrapped. intros w h a _. apply (does_op (FWrite _ _)). }
  intros _. do 4 (apply (does_try _ _ [_] _); [by apply does_saveTo|intros _]). by apply does_saveTo.
Qed.

(** The option files can be made. *)
Lemma optionFiles_made (cfg : Config) :
  ∃ identity init client heartbeat ptKill loopback,
    getIdentityConfigs (ServerID cfg) (FQDNForServer cfg (ServerID cfg)) = Ok identity ∧
    getInitFileConfigs initFilePath = Ok init ∧
    getClientConfigs (cfg_OperatorUser cfg) (cfg_OperatorPassword cfg) = Ok client ∧
    getSocketClientConfigs (cfg_HeartBeatUser cfg) (cfg_HeartBeatPassword cfg) = Ok heartbeat ∧
    getSocketClientConfigs (cfg_OperatorUser cfg) (cfg_OperatorPassword cfg) = Ok ptKill ∧
    loopbackClientHints = Ok loopback ∧
    hasKeys identity "mysqld" [("server-id", itoa (ServerID cfg)); ("report-host", FQDNForServer cfg (ServerID cfg))] ∧
    hasKeys init "mysqld" [("init-file", initFilePath)] ∧
    hasKeys client "client" [("host", "127.0.0.1"); ("port", mysqlPort); ("user", cfg_OperatorUser cfg);
      ("password", cfg_OperatorPassword cfg); ("get-server-public-key", "1")] ∧
    hasKeys heartbeat "client" [("socket", DataVolumeMountPath +:+ "/mysql.sock"); ("user", cfg_HeartBeatUser cfg);
      ("password", cfg_HeartBeatPassword cfg)] ∧
    hasKeys ptKill "client" [("socket", DataVolumeMountPath +:+ "/mysql.sock"); ("user", cfg_OperatorUser cfg);
      ("password", cfg_OperatorPassword cfg)] ∧
    hasKeys loopback "client" [("host", "127.0.0.1"); ("port", mysqlPort); ("get-server-public-key", "1")].
Proof.
  assert (∀ section keys, section ≠ "" → bool_decide (NoDup keys.*1) = true → forallb (λ k : string, negb (String.eqb k "")) keys.*1 = true →
    ∃ f, newKeys section keys (IniSection section IniEmpty) = Ok f ∧ hasKeys f section keys) as Hk.
  { intros section keys Hs Hnd%bool_decide_eq_true_1 Hne. apply newKeys_section; [done|done|].
    apply Forall_forall. intros k Hin ->. apply forallb_forall with (x := "") in Hne; [done|by apply list_elem_of_In]. }
  unfold getIdentityConfigs, getInitFileConfigs, getClientConfigs, getSocketClientConfigs, loopbackClientHints.
  destruct (Hk "mysqld" [("server-id", itoa (ServerID cfg)); ("report-host", FQDNForServer cfg (ServerID cfg))]) as (f1 & ? & ?); [done|reflexivity..|].
  destruct (Hk "mysqld" [("init-file", initFilePath)]) as (f2 & ? & ?); [done|reflexivity..|].
  destruct (Hk "client" [("host", "127.0.0.1"); ("port", mysqlPort); ("user", cfg_OperatorUser cfg);
      ("password", cfg_OperatorPassword cfg); ("get-server-public-key", "1")]) as (f3 & ? & ?); [done|reflexivity..|].
  destruct (Hk "client" [("socket", DataVolumeMountPath +:+ "/mysql.sock"); ("user", cfg_HeartBeatUser cfg);
      ("password", cfg_HeartBeatPassword cfg)]) as (f4 & ? & ?); [done|reflexivity..|].
  destruct (Hk "client" [("socket", DataVolumeMountPath +:+ "/mysql.sock"); ("user", cfg_OperatorUser cfg);
      ("password", cfg_OperatorPassword cfg)]) as (f5 & ? & ?); [done|reflexivity..|].
  destruct (Hk "client" [("host", "127.0.0.1"); ("port", mysqlPort); ("get-server-public-key", "1")]) as (f6 & ? & ?); [done|reflexivity..|].
  exists f1, f2, f3, f4, f5, f6. by split_and!.
Qed.

(** All the calls. *)
Definition writes (identity init client heartbeat ptKill loopback : Ini) (body : string) : list cf_op :=
  [FOpen "/mnt/conf/my.cnf"; FCreate "/etc/mysql/my.cnf"; FCopy "/mnt/conf/my.cnf" "/etc/mysql/my.cnf";
   FOpen "/mnt/conf/pre-shutdown-ha.sh"; FCreate "/etc/mysql/pre-shutdown-ha.sh";
   FCopy "/mnt/conf/pre-shutdown-ha.sh" "/etc/mysql/pre-shutdown-ha.sh";
   FMkdir "/etc/mysql/conf.d"; FSave "/etc/mysql/conf.d/10-identity.cnf" identity;
   FBinlogInfo; FStatIbdMissing; FWrite "/etc/mysql/conf.d/operator-init.sql" body;
   FSave "/etc/mysql/conf.d/10-init-file.cnf" init; FSave "/etc/mysql/client.conf" client;
   FSave "/etc/mysql/heartbeat.conf" heartbeat; FSave "/etc/mysql/pt-kill.conf" ptKill;
   FSave "/etc/mysql/client-loopback.cnf" loopback].

(** The GTIDs that go to the init file: an error is only logged. *)
Definition purgedGTID (info : fileRead) : string :=
  match info with Content s => match getGTIDFrom s with Ok gtid => gtid | Err _ => "" end | _ => "" end.

Definition opsOf (t : list (event cf_op)) : list cf_op := ev_op <$> t.

Definition wrote (cfg : Config) (identity init client heartbeat ptKill loopback : Ini) (t : list (event cf_op)) : Prop :=
  ∃ (info : Resp FBinlogInfo) (ibdMissing : Resp FStatIbdMissing) (body : string),
    Ev FBinlogInfo info ∈ t ∧ Ev FStatIbdMissing ibdMissing ∈ t ∧
    initFileQuery cfg (purgedGTID info) ibdMissing = Ok body ∧
    opsOf t = writes identity init client heartbeat ptKill loopback body.

(** The files of a pod.  When [RunConfigCommand] succeeds it has made exactly the
    calls [writes]: the two files of the config map are copied; the server gets its identifier
    and host, and the init file, which is written before the option that names it; the
    clients get the credentials of their user, over loopback or the socket, and
    nothing else; the hints for loopback have no credentials. *)
Theorem RunConfigCommand_spec (cfg : Config) (w : world cf_op) :
  run (RunConfigCommand cfg) w = Ok tt →
  ∃ identity init client heartbeat ptKill loopback,
    wrote cfg identity init client heartbeat ptKill loopback (trace (RunConfigCommand cfg) w) ∧
    hasKeys identity "mysqld" [("server-id", itoa (ServerID cfg)); ("report-host", FQDNForServer cfg (ServerID cfg))] ∧
    hasKeys init "mysqld" [("init-file", "/etc/mysql/conf.d/operator-init.sql")] ∧
    hasKeys client "client" [("host", "127.0.0.1"); ("port", "3306"); ("user", cfg_OperatorUser cfg);
      ("password", cfg_OperatorPassword cfg); ("get-server-public-key", "1")] ∧
    hasKeys heartbeat "client" [("socket", "/var/lib/mysql/mysql.sock"); ("user", cfg_HeartBeatUser cfg);
      ("password", cfg_HeartBeatPassword cfg)] ∧
    hasKeys ptKill "client" [("socket", "/var/lib/mysql/mysql.sock"); ("user", cfg_OperatorUser cfg);
      ("password", cfg_OperatorPassword cfg)] ∧
    hasKeys loopback "client" [("host", "127.0.0.1"); ("port", "3306"); ("get-server-public-key", "1")].
Proof.
  destruct (optionFiles_made cfg) as (identity & init & client & heartbeat & ptKill & loopback &
    Hid & Hin & Hcl & Hhb & Hpt & Hlo & Kid & Kin & Kcl & Khb & Kpt & Klo).
  assert (ends (RunConfigCommand cfg) (wrote cfg identity init client heartbeat ptKill loopback)) as He.
  { unfold RunConfigCommand.
    eapply ends_try; [apply does_wrapped, does_copyFile|intros _].
    eapply ends_try; [apply does_wrapped, does_copyFile|intros _].
    eapply ends_try; [apply (does_call (FMkdir confDPath))|intros _].
    eapply ends_try; [apply (does_saveTo _ _ _ _ _ Hid)|intros _].
    apply (ends_answer FBinlogInfo (λ r : fileRead,
      match r with Missing => Ok "" | ReadError e => Err e | Content s => getGTIDFrom s end)). intros info.
    apply (ends_call FStatIbdMissing). intros ibdMissing. apply ends_pure. intros body Hbody.
    eapply ends_weaken; [apply (does_afterInitFile cfg body _ _ _ _ _ Hin Hcl Hhb Hpt Hlo)|].
    intros t5 Ht5 t4 Ht4 t3 Ht3 t2 Ht2 t1 Ht1. exists info, ibdMissing, body.
    split_and!; [set_solver|set_solver|by destruct info|].
    unfold opsOf. rewrite !fmap_app, Ht1, Ht2, Ht3, Ht4, !fmap_cons, Ht5. reflexivity. }
  intros Hr. destruct (He w [] _ Hr) as (t & Ht & Hw).
  exists identity, init, client, heartbeat, ptKill, loopback. unfold trace. rewrite Ht. by split_and!.
Qed.

End CommandSpec.

(** ** Examples *)

Section Witnesses.
#[local] Existing Instances Ref.blang Ref.blang_laws sampleProcess RefIni.lib RefIni.laws.

Definition sampleConfig : Config :=
  mkConfig "demo-mysql-1" "demo" "prod" "mysql" "" "op" "pw" "b" "bp" "r" "rp" "m" "mp" "o" "opw" "h" "hp" false 100
    [] [] [] [] [] [] "" "" "" ["CREATE DATABASE app"; " "] (mkVersion 8 0 20).


(** The binlog file of a backup, and all calls succeed. *)
Definition sampleFiles : world cf_op := λ _ o,
  match o return Resp o with
  | FMkdir _ => Exists
  | FBinlogInfo => Content ("bin.000003" +:+ String tab ("120" +:+ String tab ("a:1-5," +:+ String nl "b:1-7")))
  | FStatIbdMissing => true
  | FOpen _ | FCreate _ | FCopy _ _ | FSave _ _ | FWrite _ _ => Ok tt
  end.

Lemma RunConfigCommand_spec_witness :
  run (RunConfigCommand sampleConfig) sampleFiles = Ok tt ∧
  purgedGTID (Content ("bin.000003" +:+ String tab ("120" +:+ String tab ("a:1-5," +:+ String nl "b:1-7")))) = "a:1-5,b:1-7" ∧
  ∃ identity init client heartbeat ptKill loopback,
    wrote sampleConfig identity init client heartbeat ptKill loopback (trace (RunConfigCommand sampleConfig) sampleFiles) ∧
    IniGet identity "mysqld" "report-host" = Some "demo-mysql-1.mysql.prod".
Proof.
  assert (run (RunConfigCommand sampleConfig) sampleFiles = Ok tt) as Hr by (vm_compute; reflexivity).
  split; [exact Hr|]. split; [vm_compute; reflexivity|].
  destruct (RunConfigCommand_spec sampleConfig sampleFiles Hr) as (f1 & f2 & f3 & f4 & f5 & f6 & Hw & Kid & _).
  exists f1, f2, f3, f4, f5, f6. split; [exact Hw|]. apply (proj1 Kid). right. left.
Defined.

End Witnesses.
