(* ===== verification/SidecarClone.v ===== *)
(** * Cloning the data of a pod, and taking a backup

    [pkg/sidecar/appclone.go], [apptakebackup.go], and the client side of [server.go]:
    where a new pod gets its data from, and how a backup gets to the remote storage.

    The calls are the requests to the servers of other pods, the commands that are
    started and waited for, and the operations on the data directory. *)

From S2P Require Import Prelude GoStrings Semver ClusterTypes Versioning ClusterModel StatefulSet Backups SidecarConfig.
Open Scope stdpp_scope.

(** ** Effects *)

Inductive cl_op :=
  (* a request to the health endpoint, with the status code *)
  | KHealth (url : string)
  (* the next turn of a poll, or the context is done *)
  | KTick
  (* a request for a backup, with the status code; its trailers come after its body *)
  | KBackup (url user pass : string)
  | KTrailer
  (* the standard output of a command as a pipe *)
  | KPipe (cmd : string)
  | KStart (args : list string)
  | KWait (cmd : string)
  (* start and wait *)
  | KRun (args : list string)
  (* two commands at the same time: which one ends first, and their results *)
  | KRunBoth (args1 args2 : list string)
  | KStatRcloneMissing
  | KReadDir (path : string)
  | KRemoveAll (path : string).

#[export] Instance cl_effect : Effect cl_op := λ o,
  match o with
  | KHealth _ | KBackup _ _ _ => result Z
  | KTick => bool
  | KTrailer => option (list string)
  | KRunBoth _ _ => (bool * result unit * result unit)%type
  | KStatRcloneMissing => option error
  | KReadDir _ => list string
  | KPipe _ | KStart _ | KWait _ | KRun _ | KRemoveAll _ => result unit
  end.

(** [fmt.Errorf] with a text before the error. *)
Definition wrapping {A} (text : string) (m : prog cl_op (result A)) : prog cl_op (result A) :=
  r ← m; mret match r with Err e => Err (ErrMsg (text +:+ error_text e)) | Ok a => Ok a end.

(** ** Requests to the server of another pod *)

(* src/pkg/sidecar/server.go:153-158 prepareURL *)
Definition prepareURL (svc endpoint : string) : string :=
  let svc := if Contains svc ":" then svc else svc +:+ ":" +:+ itoa SidecarServerPort in
  "http://" +:+ svc +:+ endpoint.

(* src/pkg/sidecar/appclone.go:116-139 isServiceAvailable *)
Definition isServiceAvailable (svc : string) : prog cl_op bool :=
  r ← call (KHealth (prepareURL svc SidecarServerProbePath));
  mret match (r : result Z) with Ok code => (code =? 200)%Z | Err _ => false end.

Definition ErrWaitTimeout : error := ErrMsg "timed out waiting for the condition".

(** [wait.PollImmediateUntil], at most [turns] times after the first. *)
Fixpoint pollService (turns : nat) (host : string) : prog cl_op (result unit) :=
  available ← isServiceAvailable host;
  if (available : bool) then mret (Ok tt)
  else match turns with
       | O => mret (Err ErrWaitTimeout)
       | S turns =>
           tick ← call KTick;
           if (tick : bool) then pollService turns host else mret (Err ErrWaitTimeout)
       end.

(** The context is done after 5 minutes, a turn takes one. *)
Definition pollTurns : nat := 5.

(** The status of the response is its code here, without the reason. *)
(* src/pkg/sidecar/server.go:176-211 requestABackup *)
Definition requestABackup (cfg : Config) (host endpoint : string) : prog cl_op (result unit) :=
  _ <-? pollService pollTurns host;
  r ← call (KBackup (prepareURL host endpoint) (cfg_BackupUser cfg) (cfg_BackupPassword cfg));
  mret match (r : result Z) with
       | Ok code => if (code =? 200)%Z then Ok tt else Err (ErrMsg ("fail to get backup: %!s(<nil>), code: " +:+ itoa code))
       | Err e => Err (ErrMsg ("fail to get backup: " +:+ error_text e +:+ ", code: unknown"))
       end.

Definition backupSuccessful : string := "Success".
Definition backupFailed : string := "Failed".

(* src/pkg/sidecar/server.go:219-229 stringInSlice *)
Definition stringInSlice (a : string) (list : list string) : bool := existsb (String.eqb a) list.

(** The values of the trailer [X-Backup-Status], if there are any. *)
(* src/pkg/sidecar/server.go:213-220 checkBackupTrailers *)
Definition checkBackupTrailers (trailer : option (list string)) : result unit :=
  match trailer with
  | Some values => if stringInSlice backupSuccessful values then Ok tt
                   else Err (ErrMsg "backup failed to be taken: no 'Success' trailer found")
  | None => Err (ErrMsg "backup failed to be taken: no 'Success' trailer found")
  end.

Definition readTrailers : prog cl_op (result unit) := r ← call KTrailer; mret (checkBackupTrailers r).

(** ** Cloning *)

Section Clone.
Implicit Types (cfg : Config).

(** The directory is cleaned as well as it can be: when it cannot be read the list is
    empty, and the errors of the removals are only logged, as in the code; so that it was
    cleaned means that everything that was found in it was attempted to be removed. *)
(* src/pkg/sidecar/appclone.go:265-278 cleanDataDir *)
Definition cleanDataDir : prog cl_op unit :=
  files ← call (KReadDir dataDir);
  for_each (files : list string) (λ f, _ ← call (KRemoveAll (dataDir +:+ "/" +:+ f)); mret tt).

(** What is done with the backup of another pod once it comes in. *)
Definition extract cfg : prog cl_op (result unit) :=
  _ <-? wrapping "xbstream start error: " (call (KStart (xbstreamCommand :: XbstreamArgs cfg)));
  _ <-? wrapping "xbstream wait error: " (call (KWait xbstreamCommand));
  readTrailers.

(* src/pkg/sidecar/appclone.go:214-250 cloneFromSource *)
Definition cloneFromSource cfg (host : string) : prog cl_op (result unit) :=
  _ <-? wrapping "fail to get backup: " (requestABackup cfg host serverBackupEndpoint);
  r ← extract cfg;
  _ ← (if is_ok r then mret tt else cleanDataDir);
  mret r.

(* src/pkg/sidecar/appclone.go:141-147 attemptClone *)
Definition attemptClone cfg (sourceService : string) : prog cl_op (result unit) :=
  wrapping ("failed to clone from " +:+ sourceService +:+ ", err: ") (cloneFromSource cfg sourceService).

Definition cmdName (args : list string) : string := default "" (head args).

(** The first element of an empty list is a panic. *)
(* src/pkg/sidecar/appclone.go:146-212 cloneFromBucket *)
Definition cloneFromBucket cfg : prog cl_op (result unit) :=
  let initBucket := ReplaceFirst (cfg_InitBucketURL cfg) "://" ":" in
  missing ← call KStatRcloneMissing;
  match (missing : option error) with
  | Some e => mret (Err e)
  | None =>
      match BackupDecompressCmd cfg with
      | [] => mret (Err (ErrMsg "index out of range"))
      | decompressCmd =>
          _ <-? call (KPipe "rclone");
          _ <-? call (KPipe (cmdName decompressCmd));
          _ <-? wrapping "rclone start error: " (call (KStart ("rclone" :: RcloneArgs cfg ++ ["cat"; initBucket])));
          _ <-? wrapping "decompress start error: " (call (KStart decompressCmd));
          _ <-? wrapping "xbstream start error: " (call (KStart (xbstreamCommand :: XbstreamArgs cfg)));
          _ <-? wrapping "rclone wait error: " (call (KWait "rclone"));
          _ <-? wrapping "decompress wait error: " (call (KWait (cmdName decompressCmd)));
          wrapping "xbstream wait error: " (call (KWait xbstreamCommand))
      end
  end.

(* src/pkg/sidecar/appclone.go:253-259 xtrabackupPrepare *)
Definition xtrabackupPrepare cfg : prog cl_op (result unit) :=
  call (KRun (xtrabackupCommand :: XtrabackupPrepareArgs cfg)).

(* src/pkg/sidecar/appclone.go:261-264 deleteLostFound *)
Definition deleteLostFound : prog cl_op (result unit) := call (KRemoveAll (dataDir +:+ "/lost+found")).

Definition nothingToClone : error :=
  ErrMsg "nothing to clone from: no existing data found, no replicas and no master available, and no clone bucket url found".

(* src/pkg/sidecar/appclone.go:73-114 RunCloneCommand *)
Definition RunCloneCommand cfg : prog cl_op (result unit) :=
  if cfg_ExistsMySQLData cfg then mret (Ok tt)
  else
    _ <-? wrapping "removing lost+found: " deleteLostFound;
    replicas ← isServiceAvailable (ReplicasFQDN cfg);
    if (replicas : bool) then
      _ <-? wrapping "cloning from healthy replicas failed due to unexpected error: " (attemptClone cfg (ReplicasFQDN cfg));
      xtrabackupPrepare cfg
    else
      master ← isServiceAvailable (MasterFQDN cfg);
      if (master : bool) then
        _ <-? wrapping "cloning from master service failed due to unexpected error: " (attemptClone cfg (MasterFQDN cfg));
        xtrabackupPrepare cfg
      else if ShouldCloneFromBucket cfg then
        _ <-? wrapping "failed to clone from bucket, err: " (cloneFromBucket cfg);
        xtrabackupPrepare cfg
      else if IsFirstPodInSet cfg then mret (Ok tt)
      else mret (Err nothingToClone).

End Clone.

(** ** Taking a backup *)

(* src/pkg/sidecar/apptakebackup.go:99-101 normalizeBucketURI *)
Definition normalizeBucketURI (bucket : string) : string := ReplaceFirst bucket "://" ":".

(** The errors come from a channel, in the order in which the commands end. *)
Definition firstError (firstEnds : bool) (r1 r2 : result unit) : result unit :=
  let (a, b) := if firstEnds then (r1, r2) else (r2, r1) in
  match a with Err e => Err e | Ok _ => b end.

(* src/pkg/sidecar/apptakebackup.go:33-97 pushBackupFromTo *)
Definition pushBackupFromTo (cfg : Config) (srcHost destBucket : string) : prog cl_op (result unit) :=
  let tmpDestBucket := destBucket +:+ ".tmp" in
  _ <-? wrapping "getting backup: " (requestABackup cfg srcHost serverBackupEndpoint);
  match BackupCompressCmd cfg with
  | [] => mret (Err (ErrMsg "index out of range"))
  | compressCmd =>
      _ <-? call (KPipe (cmdName compressCmd));
      both ← call (KRunBoth compressCmd ("rclone" :: RcloneArgs cfg ++ ["rcat"; tmpDestBucket]));
      let '(firstEnds, r1, r2) := (both : (bool * result unit * result unit)%type) in
      _ <-? mret (firstError firstEnds r1 r2);
      _ <-? readTrailers;
      _ <-? wrapping "final move failed: " (call (KStart ("rclone" :: RcloneArgs cfg ++ ["moveto"; tmpDestBucket; destBucket])));
      wrapping "final move failed: " (call (KWait "rclone"))
  end.

(* src/pkg/sidecar/apptakebackup.go:26-31 RunTakeBackupCommand *)
Definition RunTakeBackupCommand (cfg : Config) (srcHost destBucket : string) : prog cl_op (result unit) :=
  pushBackupFromTo cfg srcHost (normalizeBucketURI destBucket).

(** ** What cloning is allowed to do *)

Implicit Types (h : list (event cl_op)).

Definition available (svc : string) h : Prop := Ev (KHealth (prepareURL svc SidecarServerProbePath)) (Ok 200%Z : result Z) ∈ h.

Definition unavailable (svc : string) h : Prop :=
  ∃ r : result Z, r ≠ Ok 200%Z ∧ Ev (KHealth (prepareURL svc SidecarServerProbePath)) r ∈ h.

(** A pod has answered with a backup. *)
Definition given h : Prop := ∃ url user pass, Ev (KBackup url user pass) (Ok 200%Z : result Z) ∈ h.

(** All of it came in, was extracted, and the other side says that it is complete. *)
Definition streamed h : Prop :=
  given h ∧ Ev (KWait xbstreamCommand) (Ok tt : result unit) ∈ h ∧
  ∃ values : list string, "Success" ∈ values ∧ Ev KTrailer (Some values) ∈ h.

Definition downloaded (cfg : Config) h : Prop :=
  Ev (KWait "rclone") (Ok tt : result unit) ∈ h ∧
  Ev (KWait (cmdName (BackupDecompressCmd cfg))) (Ok tt : result unit) ∈ h ∧
  Ev (KWait xbstreamCommand) (Ok tt : result unit) ∈ h.

Definition prepareArgs (cfg : Config) : list string := xtrabackupCommand :: XtrabackupPrepareArgs cfg.

Definition alone (cfg : Config) h : Prop :=
  unavailable (ReplicasFQDN cfg) h ∧ unavailable (MasterFQDN cfg) h.

(** The rule: nothing is touched when there is data; replicas come before the master,
    both before the bucket, which is only for the first pod; the data is prepared only
    once it is complete; and files other than [lost+found] are removed only after a
    backup was streamed into the directory. *)
Definition cloneRule (cfg : Config) (e : event cl_op) h : Prop :=
  cfg_ExistsMySQLData cfg = false ∧
  match ev_op e with
  | KBackup url user pass =>
      (url = prepareURL (ReplicasFQDN cfg) serverBackupEndpoint ∧ available (ReplicasFQDN cfg) h ∨
       url = prepareURL (MasterFQDN cfg) serverBackupEndpoint ∧ available (MasterFQDN cfg) h ∧
         unavailable (ReplicasFQDN cfg) h) ∧
      user = cfg_BackupUser cfg ∧ pass = cfg_BackupPassword cfg
  | KStart args => given h ∨ alone cfg h ∧ ShouldCloneFromBucket cfg = true
  | KRun args => args = prepareArgs cfg ∧
      (streamed h ∨ downloaded cfg h ∧ alone cfg h ∧ ShouldCloneFromBucket cfg = true)
  | KRemoveAll path => path = dataDir +:+ "/lost+found" ∨ given h
  | _ => True
  end.

(** What success means. *)
Definition cloned (cfg : Config) h : Prop :=
  cfg_ExistsMySQLData cfg = true ∨
  alone cfg h ∧ IsFirstPodInSet cfg = true ∧ ShouldCloneFromBucket cfg = false ∨
  Ev (KRun (prepareArgs cfg)) (Ok tt : result unit) ∈ h.

Definition cleaned h : Prop :=
  ∃ files : list string, Ev (KReadDir dataDir) files ∈ h ∧
    ∀ f, f ∈ files → ∃ r : result unit, Ev (KRemoveAll (dataDir +:+ "/" +:+ f)) r ∈ h.

Lemma given_stable : stable given.
Proof. unfold given. repeat (apply stable_exists; intros ?). apply stable_elem. Qed.

Lemma available_stable svc : stable (available svc).
Proof. apply stable_elem. Qed.

Lemma unavailable_stable svc : stable (unavailable svc).
Proof. unfold unavailable. apply stable_exists. intros r. apply stable_and; [exact (stable_const _)|apply stable_elem]. Qed.

Lemma alone_stable cfg : stable (alone cfg).
Proof. apply stable_and; apply unavailable_stable. Qed.

Lemma trailer_stable :
  stable (λ h : list (event cl_op), ∃ values : list string, "Success" ∈ values ∧ Ev KTrailer (Some values) ∈ h).
Proof. apply stable_exists. intros v. apply stable_and; [exact (stable_const _)|apply stable_elem]. Qed.

Lemma streamed_stable : stable streamed.
Proof. apply stable_and; [apply given_stable|apply stable_and; [apply stable_elem|apply trailer_stable]]. Qed.

Lemma elem_snoc (h : list (event cl_op)) e : e ∈ h ++ [e].
Proof. apply elem_of_app. right. left. Qed.

#[local] Hint Resolve given_stable available_stable unavailable_stable alone_stable streamed_stable trailer_stable : stable.

(** *** Requests, under any rule *)

Section Requests.
Context (R : event cl_op → list (event cl_op) → Prop).
#[local] Abbreviation keeps := (Prelude.keeps R).
Implicit Types (P X : list (event cl_op) → Prop).

(** A step that is followed by the rest only if it succeeds. *)
Lemma step P X {B} t (m : prog cl_op (result unit)) (k : unit → prog cl_op (result B)) Y :
  keeps P m (λ r h, r = Ok tt → X h) → stable X →
  keeps (λ h, P h ∧ X h) (k tt) (λ r h, is_ok r = true → Y h) →
  keeps P (try (wrapping t m) k) (λ r h, is_ok r = true → Y h).
Proof.
  intros Hm HX Hk. unfold try. apply (keeps_bind _ _ (λ r h, r = Ok tt → X h)).
  - unfold wrapping. apply (keeps_bind _ _ (λ r h, r = Ok tt → X h)); [exact Hm|intros r; by apply stable_imp|].
    intros [[]|e]; apply keeps_ret; [|done]. intros h [_ Hh]. exact Hh.
  - intros r. by apply stable_imp.
  - intros [[]|e]; [|by apply keeps_ret]. eapply keeps_weaken; [exact Hk|intros h [? Hh]; auto|done].
Qed.

Lemma wrapping_keeps {A} P t (m : prog cl_op (result A)) Y :
  keeps P m (λ r h, is_ok r = true → Y h) → keeps P (wrapping t m) (λ r h, is_ok r = true → Y h).
Proof.
  intros Hm F HF HFP w h Hh. destruct (Hm F HF HFP w h Hh) as (Hg & HFh & HY).
  unfold wrapping, mbind, prog_bind, mret, prog_ret. cbn [fst snd]. split_and!; [exact Hg|exact HFh|].
  by destruct (m w h).1.
Qed.

Lemma available_keeps P svc :
  (∀ url r h, P h → R (Ev (KHealth url) r) h) →
  keeps P (isServiceAvailable svc) (λ r h, if r : bool then available svc h else unavailable svc h).
Proof.
  intros HR. unfold isServiceAvailable. set (url := prepareURL svc SidecarServerProbePath).
  apply (keeps_bind _ _ (λ (r : result Z) h, Ev (KHealth url) r ∈ h)).
  - apply (keeps_call _ _ (KHealth url)); [apply HR|intros r h _; apply elem_snoc].
  - intros r. apply stable_elem.
  - intros r. change (result Z) in r. apply keeps_ret. intros h [_ Hr].
    destruct r as [code|e]; [|exists (Err e); by split].
    destruct (Z.eqb_spec code 200) as [->|Hne]; [exact Hr|]. exists (Ok code). split; [by intros [= ->]|exact Hr].
Qed.

Lemma poll_keeps P turns svc :
  (∀ url r h, P h → R (Ev (KHealth url) r) h) → (∀ r h, P h → R (Ev KTick r) h) →
  keeps P (pollService turns svc) (λ r h, r = Ok tt → available svc h).
Proof.
  revert P. induction turns as [|turns IH]; intros P HR HT; cbn [pollService];
    (eapply keeps_bind; [by apply available_keeps|intros []; auto with stable|intros []; [by apply keeps_ret; intros h [_ ?]|]]).
  - by apply keeps_ret.
  - apply (keeps_bind _ _ (λ _ _, True)); [|intros ?; exact (stable_const True)|].
    { apply (keeps_call _ _ KTick); [|done]. intros r h [Hh _]. by apply HT. }
    intros tick. change bool in tick. destruct tick; [|by apply keeps_ret].
    apply IH; [intros url r h [[Hh _] _]; by apply HR|intros r h [[Hh _] _]; by apply HT].
Qed.

Lemma request_keeps P cfg svc :
  (∀ url r h, P h → R (Ev (KHealth url) r) h) → (∀ r h, P h → R (Ev KTick r) h) →
  (∀ r h, P h → available svc h →
    R (Ev (KBackup (prepareURL svc serverBackupEndpoint) (cfg_BackupUser cfg) (cfg_BackupPassword cfg)) r) h) →
  keeps P (requestABackup cfg svc serverBackupEndpoint) (λ r h, r = Ok tt → given h).
Proof.
  intros HH HT HB. unfold requestABackup, try.
  eapply keeps_bind; [by apply poll_keeps|intros r; apply stable_imp, available_stable|].
  intros [[]|e]; [|by apply keeps_ret].
  set (url := prepareURL svc serverBackupEndpoint).
  apply (keeps_bind _ _ (λ (r : result Z) h, Ev (KBackup url (cfg_BackupUser cfg) (cfg_BackupPassword cfg)) r ∈ h)).
  - apply (keeps_call _ _ (KBackup url (cfg_BackupUser cfg) (cfg_BackupPassword cfg)));
      [|intros r h _; apply elem_snoc]. intros r h [HP Ha]. apply HB; auto.
  - intros r. apply stable_elem.
  - intros r. change (result Z) in r. apply keeps_ret. intros h [_ Hr]. destruct r as [code|e]; [|done].
    destruct (Z.eqb_spec code 200) as [->|]; [|done]. intros _. by eexists _, _, _.
Qed.

Lemma trailers_keeps P :
  (∀ r h, P h → R (Ev KTrailer r) h) →
  keeps P readTrailers (λ r h, is_ok r = true → ∃ values : list string, "Success" ∈ values ∧ Ev KTrailer (Some values) ∈ h).
Proof.
  intros HR. unfold readTrailers. apply (keeps_bind _ _ (λ (r : option (list string)) h, Ev KTrailer r ∈ h)).
  - apply (keeps_call _ _ KTrailer); [apply HR|intros r h _; apply elem_snoc].
  - intros r. apply stable_elem.
  - intros r. change (option (list string)) in r. apply keeps_ret. intros h [_ Hr] Hok.
    destruct r as [values|]; [|done]. exists values. split; [|exact Hr].
    unfold checkBackupTrailers in Hok. destruct (stringInSlice backupSuccessful values) eqn:Es; [|done].
    apply existsb_exists in Es as (x & Hx & Heq). apply String.eqb_eq in Heq as <-. apply list_elem_of_In, Hx.
Qed.

End Requests.

Section CloneOrder.
Context (cfg : Config).
#[local] Abbreviation keeps := (Prelude.keeps (cloneRule cfg)).
Implicit Types (P X : list (event cl_op) → Prop).

(** A source of which the rule for requests is known. *)
Definition source (svc : string) P : Prop :=
  (∀ h, P h → available svc h →
    prepareURL svc serverBackupEndpoint = prepareURL (ReplicasFQDN cfg) serverBackupEndpoint ∧ available (ReplicasFQDN cfg) h ∨
    prepareURL svc serverBackupEndpoint = prepareURL (MasterFQDN cfg) serverBackupEndpoint ∧ available (MasterFQDN cfg) h ∧
      unavailable (ReplicasFQDN cfg) h).

Lemma extract_keeps P :
  cfg_ExistsMySQLData cfg = false → (∀ h, P h → given h) →
  keeps P (extract cfg) (λ r h, is_ok r = true → streamed h).
Proof.
  intros He HP. unfold extract. apply (step _ P (λ _, True)); [|exact (stable_const True)|].
  { apply (keeps_call _ _ (KStart _)); [|done]. intros r h Hh. split; [done|]. left. by apply HP. }
  apply (step _ _ (λ h, Ev (KWait xbstreamCommand) (Ok tt : result unit) ∈ h)); [|apply stable_elem|].
  { apply (keeps_call _ _ (KWait _)); [by intros r h _|]. intros r h _ ->. apply elem_snoc. }
  eapply keeps_weaken; [apply keeps_post, trailers_keeps|intros h Hh; exact Hh|].
  - by intros r h _.
  - intros r h [[[Hh _] Hw] Ht] Hok. split_and!; [by apply HP|exact Hw|by apply Ht].
Qed.

Lemma cleanDataDir_keeps P : cfg_ExistsMySQLData cfg = false → (∀ h, P h → given h) → keeps P cleanDataDir (λ _ _, True).
Proof.
  intros He HP. unfold cleanDataDir.
  apply (keeps_bind _ _ (λ _ _, True)); [by apply (keeps_call _ _ (KReadDir _))|intros ?; exact (stable_const True)|].
  intros files. change (list string) in files. apply (keeps_weaken _ _ P _ _ (λ _ _, True)); [|by intros h [Hh _]|done].
  induction files as [|f files IH]; cbn [for_each]; [by apply keeps_ret|].
  apply (keeps_bind _ _ (λ _ _, True)); [|intros ?; exact (stable_const True)|intros _; apply (keeps_weaken _ _ P _ _ (λ _ _, True)); [exact IH|by intros h [? _]|done]].
  apply (keeps_bind _ _ (λ _ _, True)); [|intros ?; exact (stable_const True)|intros ?; by apply keeps_ret].
  apply (keeps_call _ _ (KRemoveAll _)); [|done]. intros r h Hh. split; [done|]. right. by apply HP.
Qed.

Lemma attempt_keeps P svc :
  cfg_ExistsMySQLData cfg = false → source svc P →
  keeps P (attemptClone cfg svc) (λ r h, r = Ok tt → streamed h).
Proof.
  intros He Hs. unfold attemptClone. eapply keeps_weaken; [apply (wrapping_keeps _ P _ _ streamed)|done|by intros [] h Hh ?; apply Hh].
  unfold cloneFromSource. apply (step _ P given); [|apply given_stable|].
  { apply (request_keeps (cloneRule cfg) P cfg svc); [by intros|by intros|].
    intros r h HPh Ha. split; [done|]. split; [by apply Hs|done]. }
  eapply keeps_bind; [apply extract_keeps; [done|by intros h [_ ?]]|intros r; apply stable_imp, streamed_stable|].
  intros r. apply (keeps_bind _ _ (λ _ _, True)); [|intros ?; exact (stable_const True)|].
  - destruct (is_ok r); [by apply keeps_ret|]. apply cleanDataDir_keeps; [done|by intros h [[_ ?] _]].
  - intros _. apply keeps_ret. by intros h [[_ Hh] _].
Qed.

Lemma BackupDecompressCmd_cons : ∃ a l, BackupDecompressCmd cfg = a :: l.
Proof.
  unfold BackupDecompressCmd. destruct (cfg_BackupDecompressCommand cfg) as [|a l]; [by eexists _, _|by exists a, l].
Qed.

(** A step of a pipeline of commands. *)
Lemma pipe_keeps P cmd : cfg_ExistsMySQLData cfg = false → keeps P (call (KPipe cmd)) (λ _ _, True).
Proof. intros He. by apply (keeps_call _ _ (KPipe cmd)). Qed.

Lemma start_keeps P args :
  cfg_ExistsMySQLData cfg = false → (∀ h, P h → alone cfg h ∧ ShouldCloneFromBucket cfg = true) →
  keeps P (call (KStart args)) (λ (r : result unit) h, r = Ok tt → True).
Proof. intros He HP. apply (keeps_call _ _ (KStart args)); [|done]. intros r h Hh. split; [done|]. right. by apply HP. Qed.

Lemma wait_keeps P cmd :
  cfg_ExistsMySQLData cfg = false →
  keeps P (call (KWait cmd)) (λ r h, r = Ok tt → Ev (KWait cmd) (Ok tt : result unit) ∈ h).
Proof. intros He. apply (keeps_call _ _ (KWait cmd)); [by intros r h _|]. intros r h _ ->. apply elem_snoc. Qed.

Lemma bucket_keeps P :
  cfg_ExistsMySQLData cfg = false → (∀ h, P h → alone cfg h ∧ ShouldCloneFromBucket cfg = true) →
  keeps P (cloneFromBucket cfg) (λ r h, is_ok r = true → downloaded cfg h).
Proof.
  intros He HP. unfold cloneFromBucket.
  apply (keeps_bind _ _ (λ _ _, True)); [by apply (keeps_call _ _ KStatRcloneMissing)|intros ?; exact (stable_const True)|].
  intros missing. change (option error) in missing. destruct missing as [e|]; [by apply keeps_ret|].
  destruct BackupDecompressCmd_cons as (a & l & Hcmd). rewrite Hcmd. set (cmd := a :: l).
  apply (keeps_try _ _ (λ _ _, True)); [by apply pipe_keeps|intros ?; exact (stable_const True)|intros _|done].
  apply (keeps_try _ _ (λ _ _, True)); [by apply pipe_keeps|intros ?; exact (stable_const True)|intros _|done].
  do 3 (apply (step _ _ (λ _, True)); [apply start_keeps; [done|intros h Hh; apply HP; tauto]|exact (stable_const True)|]).
  apply (step _ _ (λ h, Ev (KWait "rclone") (Ok tt : result unit) ∈ h)); [by apply wait_keeps|apply stable_elem|].
  apply (step _ _ (λ h, Ev (KWait (cmdName cmd)) (Ok tt : result unit) ∈ h)); [by apply wait_keeps|apply stable_elem|].
  eapply (keeps_weaken _ _ _ _ _ (λ (r : result unit) h, is_ok r = true →
    (Ev (KWait "rclone") (Ok tt : result unit) ∈ h ∧ Ev (KWait (cmdName cmd)) (Ok tt : result unit) ∈ h) ∧
    Ev (KWait xbstreamCommand) (Ok tt : result unit) ∈ h)); [|intros h Hh; exact Hh|].
  - apply wrapping_keeps. eapply keeps_weaken; [apply keeps_post, wait_keeps; done|intros h Hh; exact Hh|].
    intros [[]|e] h [[[_ H1] H2] H3] Hok; [|done]. split; [by split|by apply H3].
  - intros r h Hh Hok. destruct (Hh Hok) as [[H1 H2] H3]. unfold downloaded. by rewrite Hcmd.
Qed.

Lemma prepare_keeps P :
  cfg_ExistsMySQLData cfg = false →
  (∀ h, P h → streamed h ∨ downloaded cfg h ∧ alone cfg h ∧ ShouldCloneFromBucket cfg = true) →
  keeps P (xtrabackupPrepare cfg) (λ r h, is_ok r = true → cloned cfg h).
Proof.
  intros He HP. apply (keeps_call _ _ (KRun (prepareArgs cfg))).
  - intros r h Hh. split; [done|]. split; [done|]. by apply HP.
  - intros r h _ Hok. right. right. change (result unit) in r. destruct r as [[]|]; [apply elem_snoc|done].
Qed.

Lemma RunCloneCommand_keeps : keeps (λ _, True) (RunCloneCommand cfg) (λ r h, is_ok r = true → cloned cfg h).
Proof.
  unfold RunCloneCommand. destruct (cfg_ExistsMySQLData cfg) eqn:He; [apply keeps_ret; by left|].
  apply (step _ _ (λ _, True)); [|exact (stable_const True)|].
  { apply (keeps_call _ _ (KRemoveAll _)); [|done]. intros r h _. split; [done|]. by left. }
  eapply keeps_bind; [by apply available_keeps; intros|intros []; auto with stable|]. intros [].
  - apply (step _ _ streamed); [apply attempt_keeps; [done|]|apply streamed_stable|].
    + intros h [_ Ha] _. left. by split.
    + apply prepare_keeps; [done|]. intros h [_ ?]. by left.
  - eapply keeps_bind; [by apply available_keeps; intros|intros []; auto with stable|]. intros [].
    + apply (step _ _ streamed); [apply attempt_keeps; [done|]|apply streamed_stable|].
      * intros h [[_ Hu] Ha] _. right. by split.
      * apply prepare_keeps; [done|]. intros h [_ ?]. by left.
    + destruct (ShouldCloneFromBucket cfg) eqn:Eb.
      * apply (step _ _ (downloaded cfg)); [|repeat apply stable_and; apply stable_elem|].
        -- eapply (keeps_weaken _ _ (alone cfg)); [apply bucket_keeps; [done|by intros h Hh]|intros h [[_ Hr] Hm]; by split|].
           by intros [] h Hh ?; apply Hh.
        -- apply prepare_keeps; [done|]. intros h [[[_ Hr] Hm] Hd]. right. by split_and!.
      * destruct (IsFirstPodInSet cfg) eqn:Ef; apply keeps_ret; [|done].
        intros h [[_ Hr] Hm] _. right. left. by split_and!.
Qed.

End CloneOrder.

(** *** Failure *)

Section CloneFailure.
Context (cfg : Config).
Implicit Types (P : list (event cl_op) → Prop).

(** After a failure: if another pod had given its data, then the directory was cleaned,
    or the data was complete and could not be prepared. *)
Definition recovered h : Prop :=
  given h → cleaned h ∨ ∃ e : error, Ev (KRun (prepareArgs cfg)) (Err e : result unit) ∈ h.

Definition notGiven h : Prop := ¬ given h.

Definition quiet (e : event cl_op) : Prop := match ev_op e with KBackup _ _ _ => False | _ => True end.

Lemma notGiven_app h t : notGiven h → Forall quiet t → notGiven (h ++ t).
Proof.
  intros Hn Ht (url & user & pass & [Hin|Hin]%elem_of_app); [by apply Hn; eexists _, _, _|].
  rewrite Forall_forall in Ht. by apply (Ht _ Hin).
Qed.

Lemma quiet_triple {A} (m : prog cl_op A) : emits quiet (λ _, True) m → triple notGiven m (λ _, notGiven).
Proof. intros Hm w h Hh. destruct (Hm w h) as (t & -> & Ht & _). by apply notGiven_app. Qed.

Lemma wrapping_emits {A} E t (m : prog cl_op (result A)) : emits E (λ _, True) m → emits E (λ _, True) (wrapping t m).
Proof. intros Hm. eapply emits_bind; [exact Hm|]. intros r _. by apply emits_ret. Qed.

Lemma wrapping_triple {A} P t (m : prog cl_op (result A)) (R R' : list (event cl_op) → Prop) :
  triple P m (λ r h, if is_ok r then R h else R' h) → triple P (wrapping t m) (λ r h, if is_ok r then R h else R' h).
Proof.
  intros Hm w h Hh. specialize (Hm w h Hh). unfold wrapping, mbind, prog_bind, mret, prog_ret. cbn [fst snd].
  by destruct (m w h).1.
Qed.

Lemma try_triple {A B} P (R : list (event cl_op) → Prop) Q (m : prog cl_op (result A)) (k : A → prog cl_op (result B)) :
  triple P m (λ r h, if is_ok r then R h else Q (Err (ErrMsg "") : result B) h) →
  (∀ e h, Q (Err (ErrMsg "") : result B) h → Q (Err e) h) → (∀ a, triple R (k a) Q) → triple P (try m k) Q.
Proof.
  intros Hm He Hk. apply (triple_try _ (λ _, R)); [|exact Hk].
  eapply triple_conseq; [exact Hm|done|]. intros [a|e] h Hh; [exact Hh|by apply He].
Qed.

Lemma quiet_call (o : cl_op) : match o with KBackup _ _ _ => False | _ => True end → emits quiet (λ _, True) (call o).
Proof. intros Ho. apply (emits_call _ o). by intros r. Qed.

Lemma available_quiet svc : emits quiet (λ _, True) (isServiceAvailable svc).
Proof.
  unfold isServiceAvailable. apply (emits_bind _ (λ _, True)); [by apply (emits_call _ (KHealth _))|].
  intros r _. by apply emits_ret.
Qed.

Lemma poll_quiet turns svc : emits quiet (λ _, True) (pollService turns svc).
Proof.
  induction turns as [|turns IH]; cbn [pollService];
    (eapply emits_bind; [apply available_quiet|intros [] _; [by apply emits_ret|]]); [by apply emits_ret|].
  apply (emits_bind _ (λ _, True)); [by apply (emits_call _ KTick)|]. intros [] _; [apply IH|by apply emits_ret].
Qed.

Definition backupAnswer (e : event cl_op) : option (result Z) :=
  match e with Ev (KBackup _ _ _) r => Some r | _ => None end.

Lemma request_triple svc :
  triple notGiven (requestABackup cfg svc serverBackupEndpoint) (λ r h, if is_ok r then True else notGiven h).
Proof.
  unfold requestABackup. apply (try_triple _ notGiven); [| |].
  - eapply triple_conseq; [apply quiet_triple, poll_quiet|done|]. by intros [] h Hh.
  - done.
  - intros _. set (url := prepareURL svc serverBackupEndpoint). intros w h Hh.
    unfold mbind, prog_bind, call, mret, prog_ret. cbn [fst snd].
    set (r := w h _). clearbody r. change (result Z) in r. destruct r as [code|e].
    + destruct (Z.eqb_spec code 200) as [->|Hne]; [done|]. cbn [is_ok].
      intros (url' & user & pass & [Hin|Hin]%elem_of_app); [by apply Hh; eexists _, _, _|].
      apply list_elem_of_singleton, (f_equal backupAnswer) in Hin. by injection Hin as <-.
    + cbn [is_ok]. intros (url' & user & pass & [Hin|Hin]%elem_of_app); [by apply Hh; eexists _, _, _|].
      by apply list_elem_of_singleton, (f_equal backupAnswer) in Hin.
Qed.

Lemma clean_triple P : triple P cleanDataDir (λ _, cleaned).
Proof.
  intros w h _. pose (files := w h (KReadDir dataDir) : list string).
  change (cleaned (for_each files (λ f, _ ← call (KRemoveAll (dataDir +:+ "/" +:+ f)); mret tt) w
    (h ++ [Ev (KReadDir dataDir) files])).2). clearbody files.
  assert (∀ fs h0, ∃ t, (for_each fs (λ f, _ ← call (KRemoveAll (dataDir +:+ "/" +:+ f)); mret tt) w h0).2 = h0 ++ t ∧
    ∀ f, f ∈ fs → ∃ r : result unit, Ev (KRemoveAll (dataDir +:+ "/" +:+ f)) r ∈ t) as Hl.
  { intros fs. induction fs as [|f fs IH]; intros h0.
    - exists []. split; [by rewrite app_nil_r|]. by intros f ?%not_elem_of_nil.
    - cbn [for_each]. unfold mbind, prog_bind, call, mret, prog_ret. cbn [fst snd].
      set (r := w h0 (KRemoveAll (dataDir +:+ "/" +:+ f))). destruct (IH (h0 ++ [Ev (KRemoveAll (dataDir +:+ "/" +:+ f)) r])) as (t & Ht & Hin).
      exists (Ev (KRemoveAll (dataDir +:+ "/" +:+ f)) r :: t). split; [etrans; [exact Ht|by rewrite <-(assoc_L (++))]|].
      intros f' [->|Hf']%elem_of_cons; [exists r; left|]. destruct (Hin f' Hf') as (r' & ?). exists r'. by right. }
  destruct (Hl files (h ++ [Ev (KReadDir dataDir) files])) as (t & Ht & Hin).
  exists files. rewrite Ht. split; [apply elem_of_app; left; apply elem_snoc|].
  intros f Hf. destruct (Hin f Hf) as (r & Hr). exists r. apply elem_of_app. by right.
Qed.

Lemma attempt_triple svc :
  triple notGiven (attemptClone cfg svc) (λ r h, if is_ok r then True else recovered h).
Proof.
  unfold attemptClone. apply wrapping_triple. unfold cloneFromSource. apply (try_triple _ (λ _, True)).
  - eapply triple_conseq; [apply wrapping_triple, request_triple|done|]. intros [] h Hh; [done|]. intros Hg. by destruct Hh.
  - done.
  - intros _. apply (triple_bind _ (λ _ _, True)); [by intros w h _|]. intros r.
    destruct (is_ok r) eqn:Er.
    + apply (triple_bind _ (λ _ _, True)); [by apply triple_ret|]. intros _. apply triple_ret. by rewrite Er.
    + apply (triple_bind _ (λ _, cleaned)); [apply clean_triple|]. intros _. apply triple_ret. rewrite Er.
      intros h Hh _. by left.
Qed.

Lemma prepare_triple P : triple P (xtrabackupPrepare cfg) (λ r h, if is_ok r then True else recovered h).
Proof.
  unfold xtrabackupPrepare. apply (triple_call _ (KRun _)). intros h r _. change (result unit) in r.
  destruct r as [u|e]; [done|]. intros _. right. exists e. apply elem_snoc.
Qed.

Lemma bucket_quiet : emits quiet (λ _, True) (cloneFromBucket cfg).
Proof.
  unfold cloneFromBucket. apply (emits_bind _ (λ _, True)); [by apply (emits_call _ KStatRcloneMissing)|].
  intros [e|] _; [by apply emits_ret|]. destruct (BackupDecompressCmd cfg) as [|a l]; [by apply emits_ret|].
  do 2 (eapply (emits_try _ (λ _, True)); [by apply (emits_call _ (KPipe _)); intros []|intros _ _]).
  do 3 (eapply (emits_try _ (λ _, True)); [eapply emits_weaken; [apply wrapping_emits, quiet_call; exact I|done|by intros []]|intros _ _]).
  do 2 (eapply (emits_try _ (λ _, True)); [eapply emits_weaken; [apply wrapping_emits, quiet_call; exact I|done|by intros []]|intros _ _]).
  apply wrapping_emits, quiet_call. exact I.
Qed.

Lemma RunCloneCommand_triple : triple notGiven (RunCloneCommand cfg) (λ r h, if is_ok r then True else recovered h).
Proof.
  assert (∀ h, notGiven h → recovered h) as Hn by (intros h Hh Hg; by destruct Hh).
  unfold RunCloneCommand. destruct (cfg_ExistsMySQLData cfg); [by apply triple_ret|].
  apply (try_triple _ notGiven); [|done|intros _].
  { eapply triple_conseq; [apply quiet_triple, wrapping_emits; by apply (emits_call _ (KRemoveAll _))|done|].
    intros [] h Hh; [exact Hh|by apply Hn]. }
  eapply triple_bind; [apply quiet_triple, available_quiet|]. intros [].
  - apply (try_triple _ (λ _, True)); [|done|intros _; apply prepare_triple]. apply wrapping_triple, attempt_triple.
  - eapply triple_bind; [apply quiet_triple, available_quiet|]. intros [].
    + apply (try_triple _ (λ _, True)); [|done|intros _; apply prepare_triple]. apply wrapping_triple, attempt_triple.
    + destruct (ShouldCloneFromBucket cfg).
      * apply (try_triple _ (λ _, True)); [|done|intros _; apply prepare_triple].
        eapply triple_conseq; [apply quiet_triple, wrapping_emits, bucket_quiet|done|]. intros [] h Hh; [done|by apply Hn].
      * destruct (IsFirstPodInSet cfg); apply triple_ret; [done|]. intros h Hh. by apply Hn.
Qed.

(** C10. Cloning is safe.  Whatever the other pods, the commands and the file system do:
    a directory with data is left alone; replicas come before the master, and both before
    the bucket, which is only for the first pod; the data is prepared only once all of it
    came in and its source said so.  Success means that there was data, that the data was
    prepared, or that the first pod of a new cluster starts empty; and if another pod had
    given data and cloning fails, then the removal of all that is in the directory was
    attempted for the next attempt (its errors are only logged), or the data could not be
    prepared. *)
Theorem RunCloneCommand_safe (w : world cl_op) :
  guarded (cloneRule cfg) (trace (RunCloneCommand cfg) w) ∧
  (if is_ok (run (RunCloneCommand cfg) w) then cloned cfg (trace (RunCloneCommand cfg) w)
   else recovered (trace (RunCloneCommand cfg) w)).
Proof.
  destruct (keeps_run _ _ _ w (RunCloneCommand_keeps cfg)) as [Hg Hok]. split; [exact Hg|].
  assert (notGiven []) as Hn by (by intros (? & ? & ? & ?%not_elem_of_nil)).
  pose proof (RunCloneCommand_triple w [] Hn) as Ht. change ((RunCloneCommand cfg w []).1) with (run (RunCloneCommand cfg) w) in Ht.
  destruct (run (RunCloneCommand cfg) w); [by apply Hok|exact Ht].
Qed.

End CloneFailure.

(** ** A backup reaches its place only when it is complete *)

Section Push.
Context (cfg : Config) (dest : string).
Implicit Types (P : list (event cl_op) → Prop).

Definition rcatArgs : list string := "rclone" :: RcloneArgs cfg ++ ["rcat"; dest +:+ ".tmp"].
Definition movetoArgs : list string := "rclone" :: RcloneArgs cfg ++ ["moveto"; dest +:+ ".tmp"; dest].

(** Both commands ended without an error, and the pod said that the backup is complete. *)
Definition complete h : Prop :=
  (∃ first, Ev (KRunBoth (BackupCompressCmd cfg) rcatArgs) (first, Ok tt, Ok tt) ∈ h) ∧
  ∃ values : list string, "Success" ∈ values ∧ Ev KTrailer (Some values) ∈ h.

(** The rule: the upload goes to a temporary place, and only a complete one is moved. *)
Definition pushRule (e : event cl_op) h : Prop :=
  match ev_op e with
  | KRunBoth args1 args2 => args1 = BackupCompressCmd cfg ∧ args2 = rcatArgs ∧ given h
  | KStart args => args = movetoArgs ∧ complete h
  | KRun _ | KRemoveAll _ | KReadDir _ | KStatRcloneMissing => False
  | _ => True
  end.

Definition moved h : Prop :=
  Ev (KStart movetoArgs) (Ok tt : result unit) ∈ h ∧ Ev (KWait "rclone") (Ok tt : result unit) ∈ h.

Lemma firstError_ok firstEnds r1 r2 : firstError firstEnds r1 r2 = Ok tt → r1 = Ok tt ∧ r2 = Ok tt.
Proof. unfold firstError. by destruct firstEnds, r1 as [[]|], r2 as [[]|]. Qed.

Lemma pushBackupFromTo_keeps srcHost :
  Prelude.keeps pushRule (λ _, True) (pushBackupFromTo cfg srcHost dest) (λ r h, is_ok r = true → moved h).
Proof.
  unfold pushBackupFromTo. apply (step _ _ given); [|apply given_stable|].
  { by apply (request_keeps pushRule); intros. }
  fold rcatArgs movetoArgs. set (cmd := BackupCompressCmd cfg).
  destruct cmd as [|a l] eqn:Hcmd; [by apply keeps_ret|]. rewrite <-Hcmd. clear a l Hcmd.
  apply (keeps_try _ _ (λ _ _, True)); [by apply (keeps_call _ _ (KPipe _))|intros ?; exact (stable_const True)|intros _|done].
  apply (keeps_bind _ _ (λ (r : bool * result unit * result unit) h, Ev (KRunBoth cmd rcatArgs) r ∈ h)).
  { apply (keeps_call _ _ (KRunBoth cmd rcatArgs)); [|intros r h _; apply elem_snoc].
    intros r h [[_ Hg] _]. by split_and!. }
  { intros r. apply stable_elem. }
  intros both. change (bool * result unit * result unit)%type in both. destruct both as [[firstEnds r1] r2].
  apply (keeps_try _ _ (λ r _, r = firstError firstEnds r1 r2)); [by apply keeps_ret|intros r; exact (stable_const _)|intros []|done].
  apply (keeps_weaken _ _ (λ h, Ev (KRunBoth cmd rcatArgs) (firstEnds, Ok tt, Ok tt) ∈ h) _ _ (λ r h, is_ok r = true → moved h)); [| |done].
  2: { intros h [[_ Hb] Hf]. symmetry in Hf. by destruct (firstError_ok _ _ _ Hf) as [-> ->]. }
  apply (keeps_try _ _ (λ r h, is_ok r = true → ∃ values : list string, "Success" ∈ values ∧ Ev KTrailer (Some values) ∈ h));
    [by apply trailers_keeps|intros r; apply stable_imp, trailer_stable|intros []|done].
  apply (step _ _ (λ h, Ev (KStart movetoArgs) (Ok tt : result unit) ∈ h)); [|apply stable_elem|].
  { apply (keeps_call _ _ (KStart movetoArgs)); [|intros r h _ ->; apply elem_snoc].
    intros r h [Hb Ht]. split; [done|]. split; [by exists firstEnds|by apply Ht]. }
  eapply keeps_weaken; [apply keeps_post, (wrapping_keeps _ _ _ _ (λ h, Ev (KWait "rclone") (Ok tt : result unit) ∈ h))|intros h Hh; exact Hh|].
  - apply (keeps_call _ _ (KWait "rclone")); [by intros|]. intros r h _ Hok. change (result unit) in r.
    destruct r as [[]|]; [apply elem_snoc|done].
  - intros r h [[_ Hs] Hw] Hok. split; [exact Hs|by apply Hw].
Qed.

End Push.

(** C16. A backup that is there is complete.  The job uploads to a temporary place;
    only after both commands ended without an error, and the other pod said in its
    trailer that the backup is complete, is it moved to the place of the backup, which
    is the one that the deletion job deletes.  Nothing else is written or removed: when the
    trailer says that the backup failed, what was uploaded stays in the temporary place,
    although two comments in the code say that it is deleted.  Success means that the
    backup was moved. *)
Theorem RunTakeBackup_complete (cfg : Config) (srcHost url : string) (w : world cl_op) :
  let dest := bucketForRclone url in
  guarded (pushRule cfg dest) (trace (RunTakeBackupCommand cfg srcHost url) w) ∧
  (is_ok (run (RunTakeBackupCommand cfg srcHost url) w) = true →
   moved cfg dest (trace (RunTakeBackupCommand cfg srcHost url) w)).
Proof. exact (keeps_run _ _ _ w (pushBackupFromTo_keeps cfg (bucketForRclone url) srcHost)). Qed.

(** ** Examples *)

Section Witnesses.

Definition sampleCloneConfig (host bucket : string) : Config :=
  mkConfig host "demo" "prod" "mysql" bucket "op" "pw" "b" "bp" "r" "rp" "m" "mp" "o" "opw" "h" "hp" false 100
    [] [] [] [] [] [] "" "" "" [] (mkVersion 8 0 20).

(** The given services answer; a backup is complete or not. *)
Definition cloneWorld (up : string → bool) (trailer : string) : world cl_op := λ _ o,
  match o return Resp o with
  | KHealth url => if up url then Ok 200%Z else Err (ErrMsg "refused")
  | KTick => true
  | KBackup _ _ _ => Ok 200%Z
  | KTrailer => Some [trailer]
  | KRunBoth _ _ => (true, Ok tt, Ok tt)
  | KStatRcloneMissing => None
  | KReadDir _ => ["ibdata1"; "mysql"]
  | KPipe _ | KStart _ | KWait _ | KRun _ | KRemoveAll _ => Ok tt
  end.

Definition removed (h : list (event cl_op)) : list string :=
  omap (λ e, match ev_op e with KRemoveAll p => Some p | _ => None end) h.

(** A clone that breaks off leaves a clean directory; one that is complete is prepared. *)
Example RunCloneCommand_samples :
  let t up trailer host bucket := trace (RunCloneCommand (sampleCloneConfig host bucket)) (cloneWorld up trailer) in
  removed (t (λ _, true) "Failed" "demo-mysql-1" "") =
    ["/var/lib/mysql/lost+found"; "/var/lib/mysql/ibdata1"; "/var/lib/mysql/mysql"] ∧
  ev_op <$> t (λ _, false) "" "demo-mysql-0" "gs://b/init.gz" =
    [KRemoveAll "/var/lib/mysql/lost+found"; KHealth "http://demo-mysql-replicas:8080/health";
     KHealth "http://demo-mysql-master:8080/health"; KStatRcloneMissing; KPipe "rclone"; KPipe "gzip";
     KStart ["rclone"; "--config=/tmp/rclone.conf"; "cat"; "gs:b/init.gz"]; KStart ["gzip"; "--decompress"];
     KStart ["xbstream"; "--extract"; "--directory=/var/lib/mysql"]; KWait "rclone"; KWait "gzip"; KWait "xbstream";
     KRun ["xtrabackup"; "--prepare"; "--target-dir=/var/lib/mysql"]].
Proof. split; vm_compute; reflexivity. Qed.

(** A download that fails leaves what it has extracted: the directory is not cleaned,
    so the next attempt may take it for data. *)
Example bucket_leaves_data :
  let w : world cl_op := λ h o,
    match o return Resp o → Resp o with
    | KWait cmd => λ r, if String.eqb cmd "xbstream" then Err (ErrMsg "exit status 1") else r
    | _ => λ r, r
    end (cloneWorld (λ _, false) "" h o) in
  run (RunCloneCommand (sampleCloneConfig "demo-mysql-0" "gs://b/init.gz")) w =
    Err (ErrMsg "failed to clone from bucket, err: xbstream wait error: exit status 1") ∧
  removed (trace (RunCloneCommand (sampleCloneConfig "demo-mysql-0" "gs://b/init.gz")) w) = ["/var/lib/mysql/lost+found"].
Proof. split; vm_compute; reflexivity. Qed.

End Witnesses.
