(* ===== verification/SidecarServer.v ===== *)
(** * The backup server of the sidecar

    [pkg/sidecar/server.go]: the handler that streams a backup and says in a trailer
    whether it is complete, and the limit on the number of requests that it handles at
    the same time.

    [Module Semaphore] is the state machine of [maxClients]. *)

From S2P Require Import Prelude GoStrings Semver ClusterTypes StatefulSet SidecarConfig SidecarClone.
Open Scope stdpp_scope.

(** ** The handler *)

Inductive sv_op :=
  | SHeader (key value : string)
  | SError (msg : string) (code : Z)
  | SPipe
  | SStart (args : list string)
  | SCopy
  | SWait
  | SFlush
  | SClose
  (** the answer of a probe *)
  | SWriteHeader (code : Z)
  | SWrite (body : string).

#[export] Instance sv_effect : Effect sv_op := λ o,
  match o with
  | SPipe | SStart _ | SCopy | SWait | SWrite _ => result unit
  | SHeader _ _ | SError _ _ | SFlush | SClose | SWriteHeader _ => unit
  end.

(* src/pkg/sidecar/server.go:34-38 backupStatusTrailer *)
Definition backupStatusTrailer : string := "X-Backup-Status".

Definition StatusForbidden : Z := 403.
Definition StatusInternalServerError : Z := 500.

(** A request is its basic authentication, if it has one. *)
(* src/pkg/sidecar/server.go:136-139 isAuthenticated *)
Definition isAuthenticated (cfg : Config) (auth : option (string * string)) : bool :=
  match auth with
  | Some (user, pass) => String.eqb user (cfg_BackupUser cfg) && String.eqb pass (cfg_BackupPassword cfg)
  | None => false
  end.

Definition failed (msg : string) : prog sv_op unit := call (SError msg StatusInternalServerError).

(** After the pipe is made, it is closed at the end. *)
Definition streamBackup (cfg : Config) : prog sv_op unit :=
  started ← call (SStart (xtrabackupCommand :: XtrabackupArgs cfg));
  match (started : result unit) with
  | Err _ => failed "xtrabackup failed"
  | Ok _ =>
      copied ← call SCopy;
      match (copied : result unit) with
      | Err _ => failed "buffer copy failed"
      | Ok _ =>
          waited ← call SWait;
          match (waited : result unit) with
          | Err _ => _ ← call (SHeader backupStatusTrailer backupFailed); failed "xtrabackup failed"
          | Ok _ => _ ← call (SHeader backupStatusTrailer backupSuccessful); call SFlush
          end
      end
  end.

(** [streaming] says whether the writer can be flushed. *)
(* src/pkg/sidecar/server.go:79-131 backupHandler *)
Definition backupHandler (cfg : Config) (auth : option (string * string)) (streaming : bool) : prog sv_op unit :=
  if negb (isAuthenticated cfg auth) then call (SError "Not authenticated!" StatusForbidden)
  else if negb streaming then failed "HTTP server does not support streaming!"
  else
    _ ← call (SHeader "Content-Type" "application/octet-stream");
    _ ← call (SHeader "Connection" "keep-alive");
    _ ← call (SHeader "Trailer" backupStatusTrailer);
    pipe ← call SPipe;
    match (pipe : result unit) with
    | Err _ => failed "xtrabackup failed"
    | Ok _ => _ ← streamBackup cfg; _ ← call SClose; mret tt
    end.

(** An error of the write is only logged. *)
(* src/pkg/sidecar/server.go:71-77 healthHandler *)
Definition healthHandler : prog sv_op unit :=
  _ ← call (SWriteHeader 200);
  _ ← call (SWrite "OK");
  mret tt.

Inductive endpoint := ProbeEndpoint | BackupEndpoint.

(** A pattern that does not end in a slash matches its path only. *)
Definition route (path : string) : option endpoint :=
  if String.eqb path SidecarServerProbePath then Some ProbeEndpoint
  else if String.eqb path serverBackupEndpoint then Some BackupEndpoint
  else None.

(** The number of requests of an endpoint that are handled at the same time. *)
Definition limitOf (e : endpoint) : option nat :=
  match e with ProbeEndpoint => None | BackupEndpoint => Some 1%nat end.

(** What the server does with a request, when its turn comes. *)
(* src/pkg/sidecar/server.go:45-69 newServer *)
Definition serve (cfg : Config) (path : string) (auth : option (string * string)) (streaming : bool) : prog sv_op unit :=
  match route path with
  | Some ProbeEndpoint => healthHandler
  | Some BackupEndpoint => backupHandler cfg auth streaming
  | None => call (SError "404 page not found" 404)
  end.

(** The two requests of a client arrive where they should: the probe is answered with
    200 without waiting for a backup, and a backup is only made for the other path. *)
Lemma serve_probe cfg auth streaming w :
  trace_ops (serve cfg SidecarServerProbePath auth streaming) w = [SWriteHeader 200; SWrite "OK"] ∧
  limitOf ProbeEndpoint = None.
Proof. done. Qed.

Lemma serve_backup cfg path auth streaming w args :
  SStart args ∈ trace_ops (serve cfg path auth streaming) w → path = serverBackupEndpoint.
Proof.
  intros Hin%list_elem_of_In. revert Hin. unfold serve, route. destruct (String.eqb path SidecarServerProbePath).
  { intros [Hx|[Hx|[]]]; discriminate Hx. }
  destruct (String.eqb_spec path serverBackupEndpoint) as [->|_]; [done|]. intros [Hx|[]]; discriminate Hx.
Qed.

(** What writes the header of the answer, or a part of its body. *)
Definition writesBody (e : event sv_op) : bool :=
  match ev_op e with SCopy | SError _ _ | SFlush | SWriteHeader _ | SWrite _ => true | _ => false end.

(** Whether the trailer was announced: [net/http] takes the names of the trailers from
    the header [Trailer] as it is when the body begins. *)
Fixpoint announced (now : bool) (h : list (event sv_op)) : bool :=
  match h with
  | [] => now
  | e :: h =>
      if writesBody e then now
      else announced (match ev_op e with
                      | SHeader k v => if String.eqb k "Trailer" then String.eqb v backupStatusTrailer else now
                      | _ => now end) h
  end.

(** The trailers that the client sees: the last value that was set for the key, if this
    was announced before the body; what was not announced is not sent. *)
Definition statusTrailer (e : event sv_op) : option string :=
  match ev_op e with
  | SHeader k v => if String.eqb k backupStatusTrailer then Some v else None
  | _ => None
  end.

Definition trailers (h : list (event sv_op)) : option (list string) :=
  if announced false h then (λ v, [v]) <$> last (omap statusTrailer h) else None.

(** ** The client believes only complete backups *)

Section Protocol.
Context (cfg : Config).

(** The results of xtrabackup and of the connection. *)
Definition outcome (e : event sv_op) : option (sv_op * result unit) :=
  match e with
  | Ev (SStart args) r => Some (SStart args, r)
  | Ev SCopy r => Some (SCopy, r)
  | Ev SWait r => Some (SWait, r)
  | _ => None
  end.

(** The whole of the backup was made and sent. *)
Definition sent (h : list (event sv_op)) : Prop :=
  omap outcome h = [(SStart (xtrabackupCommand :: XtrabackupArgs cfg), Ok tt); (SCopy, Ok tt); (SWait, Ok tt)].

Lemma bind_call {B} (o : sv_op) (k : Resp o → prog sv_op B) w h :
  (call o ≫= k) w h = k (w h o) w (h ++ [Ev o (w h o)]).
Proof. reflexivity. Qed.

Lemma bind_eq {A B} (m : prog sv_op A) (k : A → prog sv_op B) w h : (m ≫= k) w h = k (m w h).1 w (m w h).2.
Proof. reflexivity. Qed.

Lemma stream_spec w h :
  ∃ t, (streamBackup cfg w h).2 = h ++ t ∧ (∀ l, announced true (t ++ l) = true) ∧
    (omap outcome t = [(SStart (xtrabackupCommand :: XtrabackupArgs cfg), Ok tt); (SCopy, Ok tt); (SWait, Ok tt)] ∧
       omap statusTrailer t = [backupSuccessful] ∨
     omap outcome t ≠ [(SStart (xtrabackupCommand :: XtrabackupArgs cfg), Ok tt); (SCopy, Ok tt); (SWait, Ok tt)] ∧
       (omap statusTrailer t = [] ∨ omap statusTrailer t = [backupFailed])).
Proof.
  unfold streamBackup, failed, mbind, prog_bind, call, mret, prog_ret. cbn [fst snd].
  set (r1 := w h _). clearbody r1. change (result unit) in r1. destruct r1 as [[]|e].
  2: { cbn [snd]. rewrite <-(assoc_L (++)). eexists. split; [reflexivity|]. split; [done|]. right. split; [cbn; congruence|by left]. }
  cbn [fst snd]. set (r2 := w _ SCopy). clearbody r2. change (result unit) in r2. destruct r2 as [[]|e].
  2: { cbn [snd]. rewrite <-!(assoc_L (++)). eexists. split; [reflexivity|]. split; [done|]. right. split; [cbn; congruence|by left]. }
  cbn [fst snd]. set (r3 := w _ SWait). clearbody r3. change (result unit) in r3. destruct r3 as [[]|e];
    cbn [fst snd]; rewrite <-!(assoc_L (++)); eexists; (split; [reflexivity|]); (split; [done|]).
  - left. split; reflexivity.
  - right. split; [cbn; congruence|by right].
Qed.

(** C17. The trailer tells the truth, and is announced in time to be sent.  Whatever
    happens to xtrabackup and the connection, the client of a request accepts what it got
    exactly if the request was authenticated and xtrabackup was started, its output was copied to the end and it ended without an
    error; and without the right user and password nothing is started. *)
Theorem backup_protocol (auth : option (string * string)) (streaming : bool) (w : world sv_op) :
  let h := trace (backupHandler cfg auth streaming) w in
  (checkBackupTrailers (trailers h) = Ok tt ↔ sent h) ∧
  (isAuthenticated cfg auth = false → trace_ops (backupHandler cfg auth streaming) w = [SError "Not authenticated!" 403]).
Proof.
  cbv zeta. unfold backupHandler, trace_ops, trace.
  destruct (isAuthenticated cfg auth); cbn [negb]; [|by split; [split; [|intros Hs]|]].
  split; [|done]. destruct streaming; cbn [negb]; [|by split].
  rewrite !bind_call, (bind_call SPipe).
  match goal with |- context [w ?h SPipe] => set (h0 := h); set (r := w h0 SPipe) end.
  assert (omap outcome h0 = []) as H1 by reflexivity. assert (omap statusTrailer h0 = []) as H2 by reflexivity.
  assert (∀ l, announced false (h0 ++ l) = announced true l) as H3 by reflexivity.
  clearbody r h0. change (result unit) in r. unfold sent, trailers.
  destruct r as [[]|e].
  2: { unfold failed, call. cbn [fst snd]. rewrite !omap_app, H1, H2. split; intros Hx; [|discriminate Hx]. by destruct (announced _ _). }
  rewrite (bind_eq (streamBackup cfg)), bind_call. cbn [snd].
  destruct (stream_spec w (h0 ++ [Ev SPipe (Ok tt : result unit)])) as (t & -> & Han & Hcase).
  unfold mret, prog_ret. cbn [snd].
  assert (∀ l, announced false (((h0 ++ [Ev SPipe (Ok tt : result unit)]) ++ t) ++ l) = true) as ->.
  { intros l. rewrite <-!(assoc_L (++)), H3. apply Han. }
  rewrite !omap_app, H1, H2.
  change (omap outcome [Ev SPipe (Ok tt : result unit)]) with (@nil (sv_op * result unit)).
  change (omap statusTrailer [Ev SPipe (Ok tt : result unit)]) with (@nil string). cbn [app].
  set (x := w _ SClose). change (omap outcome [Ev SClose x]) with (@nil (sv_op * result unit)).
  change (omap statusTrailer [Ev SClose x]) with (@nil string). rewrite !app_nil_r.
  destruct Hcase as [[-> ->]|[Ho [->| ->]]]; split; intros Hx; try done.
Qed.

End Protocol.

(** ** The limit on requests *)

Module Semaphore.

(** A request waits to send to the channel, is handled, or is done. *)
Inductive phase := Waiting | Running | Done.

#[export] Instance phase_eq_dec : EqDecision phase.
Proof. solve_decision. Defined.

(** The requests, and the number of elements in the channel. *)
Record state := mkState { clients : gmap nat phase; sema : nat }.

Definition initial : state := mkState ∅ 0.

Definition set_phase (i : nat) (p : phase) (s : state) : gmap nat phase := <[i := p]> (clients s).

(** A request comes in; its send succeeds while the buffer of [n] is not full; the
    handler ends, or panics, and the deferred receive takes an element. *)
(* src/pkg/sidecar/server.go:142-151 maxClients *)
Inductive step (n : nat) (s : state) : state → Prop :=
  | step_request i : clients s !! i = None → step n s (mkState (set_phase i Waiting s) (sema s))
  | step_send i : clients s !! i = Some Waiting → (sema s < n)%nat →
      step n s (mkState (set_phase i Running s) (S (sema s)))
  | step_receive i k : clients s !! i = Some Running → sema s = S k →
      step n s (mkState (set_phase i Done s) k).

Inductive reachable (n : nat) : state → Prop :=
  | reachable_initial : reachable n initial
  | reachable_step s s' : reachable n s → step n s s' → reachable n s'.

(** The requests that are handled. *)
Definition running (s : state) : nat := size (filter (λ x, x.2 = Running) (clients s)).

Lemma running_insert (m : gmap nat phase) i p :
  m !! i ≠ Some Running →
  size (filter (λ x, x.2 = Running) (<[i := p]> m)) =
    ((if decide (p = Running) then 1 else 0) + size (filter (λ x, x.2 = Running) m))%nat.
Proof.
  intros Hi. destruct (decide (p = Running)) as [->|Hp].
  - rewrite map_filter_insert_True by done. rewrite map_size_insert_None; [done|].
    apply map_lookup_filter_None. right. intros p Hp. simpl. congruence.
  - rewrite map_filter_insert_False by done. rewrite map_filter_delete, delete_id; [done|].
    apply map_lookup_filter_None. right. intros q Hq. simpl. congruence.
Qed.

Lemma running_remove (m : gmap nat phase) i :
  m !! i = Some Running →
  S (size (filter (λ x, x.2 = Running) (<[i := Done]> m))) = size (filter (λ x, x.2 = Running) m).
Proof.
  intros Hi. rewrite map_filter_insert_False by done. rewrite map_filter_delete.
  rewrite map_size_delete_Some by (exists Running; by apply map_lookup_filter_Some).
  assert (size (filter (λ x, x.2 = Running) m) ≠ 0%nat); [|lia].
  apply map_size_non_empty_iff. intros He. pose proof (map_lookup_filter_Some_2 (λ x, x.2 = Running) m i Running Hi eq_refl) as Hl.
  by rewrite He in Hl.
Qed.

Lemma reachable_sema n s : reachable n s → sema s = running s ∧ (sema s ≤ n)%nat.
Proof.
  induction 1 as [|s s' _ [IH Hn] Hs]; [split; [reflexivity|simpl; lia]|].
  unfold running in *. destruct Hs as [i Hi|i Hi Hlt|i k Hi Hk]; simpl; unfold set_phase.
  - rewrite running_insert by congruence. rewrite decide_False by done. split; [exact IH|exact Hn].
  - rewrite running_insert by congruence. rewrite decide_True by done. split; [by rewrite IH|lia].
  - pose proof (running_remove _ _ Hi). lia.
Qed.

Lemma running_pos s i : clients s !! i = Some Running → (0 < running s)%nat.
Proof.
  intros Hi. pose proof (running_remove _ _ Hi). unfold running. lia.
Qed.

(** C22. Backups one after the other.  However requests come and go, at most [n] are
    handled at the same time; the deferred receive never blocks, so every request that
    is handled can end; and while one waits, it can start unless [n] others are
    handled. *)
Theorem maxClients_invariant (n : nat) (s : state) :
  reachable n s →
  (running s ≤ n)%nat ∧
  (∀ i, clients s !! i = Some Running → ∃ k, step n s (mkState (set_phase i Done s) k)) ∧
  (∀ i, clients s !! i = Some Waiting →
     step n s (mkState (set_phase i Running s) (S (sema s))) ∨ running s = n).
Proof.
  intros Hr. destruct (reachable_sema n s Hr) as [Hs Hn]. split_and!; [lia| |].
  - intros i Hi. pose proof (running_pos s i Hi). destruct (sema s) as [|k] eqn:E; [lia|].
    exists k. by apply step_receive.
  - intros i Hi. destruct (decide (sema s < n)%nat); [left; by apply step_send|right; lia].
Qed.

End Semaphore.

(** The handler of the backups is limited to one request. *)
Definition backupClients : nat := default 0%nat (limitOf BackupEndpoint).

(** Two requests: the second waits until the first is done. *)
Lemma maxClients_invariant_witness :
  let s := Semaphore.mkState (<[0%nat := Semaphore.Running]> {[1%nat := Semaphore.Waiting]}) 1 in
  Semaphore.reachable backupClients s ∧ (Semaphore.running s ≤ 1)%nat.
Proof.
  cbv zeta. set (s := Semaphore.mkState _ 1).
  set (s1 := Semaphore.mkState (Semaphore.set_phase 1 Semaphore.Waiting Semaphore.initial) 0).
  set (s2 := Semaphore.mkState (Semaphore.set_phase 0 Semaphore.Waiting s1) 0).
  pose proof (Semaphore.reachable_step _ _ s1 (Semaphore.reachable_initial backupClients)
    (Semaphore.step_request _ Semaphore.initial 1 eq_refl)) as H1.
  pose proof (Semaphore.reachable_step _ _ s2 H1 (Semaphore.step_request _ s1 0 eq_refl)) as H2.
  pose proof (Semaphore.reachable_step _ _ _ H2 (Semaphore.step_send _ s2 0 eq_refl (le_n 1))) as H3.
  assert (Semaphore.reachable backupClients s) as Hr.
  { replace s with (Semaphore.mkState (Semaphore.set_phase 0 Semaphore.Running s2) 1); [exact H3|].
    unfold s, s2, s1, Semaphore.set_phase. cbn [Semaphore.clients Semaphore.initial]. by rewrite insert_insert_eq. }
  split; [exact Hr|]. exact (proj1 (Semaphore.maxClients_invariant backupClients s Hr)).
Defined.
