(* ===== verification/SidecarMain.v ===== *)
(** * The program of the sidecar

    [cmd/mysql-operator-sidecar/main.go]: the commands of the binary and their exit
    codes; the script [docker-entrypoint.sh] of its image, which turns the arguments of
    a container into a command; and that what the operator writes into the pods of a
    cluster and the jobs of its backups are commands of the sidecar.

    The library that parses the command line is the class [Cobra], with what its
    documentation says.  Calls of the commands are those of [SidecarClone] and
    [SidecarInit]. *)

From S2P Require Import Prelude GoStrings Semver ClusterTypes Versioning ClusterStatus ClusterModel.
From S2P Require Import ClusterDefaults StatefulSet IniFile ConfigMap SidecarConfig SidecarInit SidecarClone Backups.
Open Scope stdpp_scope.

(** ** The script of the image *)

(** [exec mysql-operator-sidecar --debug command ...]. *)
Definition sidecarExec (command : string) (rest : list string) : list string :=
  ["mysql-operator-sidecar"; "--debug"; command] ++ rest.

(** What the container executes, from its arguments; anything else is a command of its
    own. *)
(* src/images/mysql-operator-sidecar-5.7/rootfs/usr/local/bin/docker-entrypoint.sh:63-90 case *)
Definition entrypoint (args : list string) : list string :=
  match args with
  | command :: rest =>
      if String.eqb command "clone-and-init" then sidecarExec "clone-and-init" rest
      else if String.eqb command "config-and-serve" then sidecarExec "run" rest
      else if String.eqb command "take-backup-to" then sidecarExec "take-backup-to" rest
      else if String.eqb command "schedule-backup" then sidecarExec "schedule-backup" rest
      else args
  | [] => args
  end.

(** ** The commands *)

(** The command of a line of arguments, among the commands of a program, and the
    arguments that are left for it; no command is the program itself. *)
Class Cobra := cobra_find : list string → list string → result (option string * list string).

(** Persistent flags are taken out, the first argument that is left names the command,
    and a name that is none is an error. *)
Class CobraLaws `{!Cobra} : Prop := {
  cobra_command names name args :
    name ∈ names → Forall (λ a, HasPrefix a "-" = false) args →
    cobra_find names ("--debug" :: name :: args) = Ok (Some name, args);
  cobra_unknown names name args :
    name ∉ names → HasPrefix name "-" = false → is_ok (cobra_find names ("--debug" :: name :: args)) = false }.

Section Commands.
Context `{!Blang, !Process, !IniLib, !Cobra}.

Inductive sm_op :=
  | MClone (o : cl_op)
  | MConfig (o : cf_op)
  (** [ListenAndServe], which only returns with an error *)
  | MServe (addr : string).

#[export] Instance sm_effect : Effect sm_op := λ o,
  match o with MClone o => Resp o | MConfig o => Resp o | MServe _ => error end.

#[export] Instance sm_clone : Embeds cl_op sm_op := {| embed := MClone; answer_of o r := r; answer_to o r := r |}.
#[export] Instance sm_config : Embeds cf_op sm_op := {| embed := MConfig; answer_of o r := r; answer_to o r := r |}.

(* src/pkg/sidecar/apphelper.go:20-26 RunSidecarCommand *)
Definition RunSidecarCommand (cfg : Config) : prog sm_op (result unit) :=
  e ← call (MServe (":" +:+ itoa SidecarServerPort));
  mret (Err e).

(** [os.Exit(code)] on an error. *)
Definition exitOn (code : Z) (r : result unit) : Z := match r with Ok _ => 0%Z | Err _ => code end.

(* src/cmd/mysql-operator-sidecar/main.go:64-80 cloneCmd *)
Definition cloneCmd (cfg : Config) : prog sm_op Z :=
  r ← lift (RunCloneCommand cfg);
  match (r : result unit) with
  | Err _ => mret 8%Z
  | Ok _ => r ← lift (RunConfigCommand cfg); mret (exitOn 1 r)
  end.

(* src/cmd/mysql-operator-sidecar/main.go:83-93 sidecarCmd *)
Definition sidecarCmd (cfg : Config) : prog sm_op Z :=
  r ← RunSidecarCommand cfg;
  mret (exitOn 1 r).

(** The check of the arguments comes first. *)
(* src/cmd/mysql-operator-sidecar/main.go:96-113 takeBackupCmd *)
Definition takeBackupCmd (cfg : Config) (args : list string) : prog sm_op Z :=
  match args with
  | [src; dest] => r ← lift (RunTakeBackupCommand cfg src dest); mret (exitOn 1 r)
  | _ => mret 1%Z
  end.

Definition commandNames : list string := ["clone-and-init"; "run"; "take-backup-to"].

(** The configuration is read before the command is known; when that panics, the exit
    code is 2. *)
(* src/cmd/mysql-operator-sidecar/main.go:34-119 main *)
Definition main (cfg : result Config) (args : list string) : prog sm_op Z :=
  match cfg with
  | Err _ => mret 2%Z
  | Ok cfg =>
      match cobra_find commandNames args with
      | Err _ => mret 1%Z
      | Ok (None, _) => mret 1%Z
      | Ok (Some name, rest) =>
          if String.eqb name "clone-and-init" then cloneCmd cfg
          else if String.eqb name "run" then sidecarCmd cfg
          else takeBackupCmd cfg rest
      end
  end.

(** A container of the image: its arguments, through the script. *)
Definition container (cfg : result Config) (args : list string) : option (prog sm_op Z) :=
  match entrypoint args with
  | bin :: rest => if String.eqb bin "mysql-operator-sidecar" then Some (main cfg rest) else None
  | [] => None
  end.

(** ** Exit codes *)

(** The two phases of an init container.  It ends with 0 exactly if data was prepared
    and the configuration was written; with 8 if the data could not be prepared, and
    then no file of the configuration was touched. *)
Theorem cloneCmd_exit (cfg : Config) (w : world sm_op) :
  let clone := RunCloneCommand cfg (world_of w []) [] in
  let config := RunConfigCommand cfg (world_of w (List.map embed_event clone.2)) [] in
  match clone.1 with
  | Err _ => run (cloneCmd cfg) w = 8%Z ∧ trace (cloneCmd cfg) w = List.map embed_event clone.2
  | Ok _ => (run (cloneCmd cfg) w = 0%Z ↔ config.1 = Ok tt) ∧ (run (cloneCmd cfg) w = 0%Z ∨ run (cloneCmd cfg) w = 1%Z) ∧
      trace (cloneCmd cfg) w = List.map embed_event clone.2 ++ List.map embed_event config.2
  end.
Proof.
  cbv zeta. unfold run, trace, cloneCmd, lift, mbind, prog_bind, mret, prog_ret. cbn [fst snd app].
  destruct (RunCloneCommand cfg (world_of w []) []) as [[[]|e] h]; cbn [fst snd]; [|done].
  destruct (RunConfigCommand cfg _ []) as [[[]|e] h']; cbn [fst snd exitOn]; (split_and!; [|by (left + right)|done]); done.
Qed.

(** The server never ends well. *)
Lemma sidecarCmd_exit cfg w : run (sidecarCmd cfg) w = 1%Z ∧ trace_ops (sidecarCmd cfg) w = [MServe ":8080"].
Proof. done. Qed.

End Commands.

(** ** What the operator runs *)

Section Containers.
Context `{!Blang, !Process, !IniLib, !Cobra, !CobraLaws}.

Lemma runs_clone cfg : container (Ok cfg) ["clone-and-init"] = Some (cloneCmd cfg).
Proof.
  unfold container, entrypoint, main. cbn [String.eqb sidecarExec app]. simpl.
  rewrite (cobra_command commandNames "clone-and-init" []); [done|by left|done].
Qed.

Lemma runs_server cfg : container (Ok cfg) ["config-and-serve"] = Some (sidecarCmd cfg).
Proof.
  unfold container, entrypoint, main. simpl.
  rewrite (cobra_command commandNames "run" []); [done|by right; left|done].
Qed.

Lemma runs_backup cfg src dest :
  HasPrefix src "-" = false → HasPrefix dest "-" = false →
  container (Ok cfg) ["take-backup-to"; src; dest] = Some (takeBackupCmd cfg [src; dest]).
Proof.
  intros Hs Hd. unfold container, entrypoint, main. simpl.
  rewrite (cobra_command commandNames "take-backup-to" [src; dest]); [done|by right; right; left|].
  repeat constructor; done.
Qed.

(** The script offers a command that the program does not have. *)
Lemma schedule_backup_fails cfg : ∃ m, container (Ok cfg) ["schedule-backup"] = Some m ∧ ∀ w, run m w = 1%Z ∧ trace m w = [].
Proof.
  unfold container, entrypoint, main. simpl. eexists. split; [reflexivity|]. intros w.
  pose proof (cobra_unknown commandNames "schedule-backup" []) as Hu.
  destruct (cobra_find _ _) as [r|e]; [|done]. simpl in Hu. exfalso.
  assert (true = false); [|done]. apply Hu; [|done]. unfold commandNames. rewrite !not_elem_of_cons. split_and!; [done..|].
  apply not_elem_of_nil.
Qed.

(** The pods of a cluster prepare their data in an init container that runs the command
    for it, and have a container that runs the server of backups. *)
Theorem pod_commands (opt : Options) (c : MysqlCluster) (v : Version) (cfg : Config) :
  (∃ ctr args, ctr ∈ ensureInitContainersSpec opt c v ∧ c_Name ctr = containerCloneAndInitName ∧
     c_Args ctr = Some args ∧ container (Ok cfg) args = Some (cloneCmd cfg)) ∧
  (∃ ctr args, ctr ∈ ensureContainersSpec opt c v ∧ c_Name ctr = containerSidecarName ∧
     c_Args ctr = Some args ∧ container (Ok cfg) args = Some (sidecarCmd cfg)).
Proof.
  split.
  - eexists _, _. split; [|split; [|split; [|apply runs_clone]]].
    { unfold ensureInitContainersSpec. cbv zeta. apply elem_of_app. right. apply elem_of_app. right. by left. }
    all: reflexivity.
  - eexists _, _. split; [|split; [|split; [|apply runs_server]]].
    { unfold ensureContainersSpec. cbv zeta. right. by left. }
    all: reflexivity.
Qed.

(** The job of a backup takes it from the candidate to the place of the backup. *)
Theorem job_command (opt : Options) (b : MysqlBackup) (c : MysqlCluster) (in_ : JobPodSpec) (cfg : Config) :
  HasPrefix (getBackupCandidate c) "-" = false → HasPrefix (GetBackupURL b c) "-" = false →
  ∃ ctr rest args, cps_Containers (jp_Pod (ensureBackupPodSpec opt b c in_)) = ctr :: rest ∧ c_Args ctr = Some args ∧
    container (Ok cfg) args = Some (takeBackupCmd cfg [getBackupCandidate c; GetBackupURL b c]).
Proof.
  intros Hc Hu. eexists _, _, _. split_and!; [reflexivity|reflexivity|by apply runs_backup].
Qed.

End Containers.
